(* ===== verification/_CoqProject ===== *)
-Q . S2P
Prelude.v
Hashmap.v
Mqtt.v
Nng.v
NngModel.v
SubHandler.v
UnsubHandler.v
PubHandler.v
Cstring.v
Webhook.v
WebhookInproc.v
MqttApi.v
Bridge.v
Conf.v
Process.v
RestHttp.v
Cjson.v
RuleEngine.v
Broker.v
Shared.v
Entries.v
BrokerStart.v
System.v
Retained.v
Progress.v
RestUri.v
RestMqtt.v
RestConf.v
RestQuery.v
RestApi.v
WebServer.v
RestServer.v
RestRules.v
RuleBroker.v
