(* ===== verification/Prelude.v ===== *)
(** * NanoMQ on SylixOS: verification library

    NanoMQ is an MQTT broker on the messaging library nng.  This library models
    its own code, [src/nanomq/src/nanomq], and proves what makes it correct.

    ** The program

    [broker] (apps/broker.c) reads the configuration, opens the sockets, starts
    the bridges, the hook thread and the HTTP server, and runs an array of work
    items.  A work item is a state machine, [server_cb], called each time its
    aio completes: it receives a packet, has it decoded and applied by the
    handlers of SUBSCRIBE, UNSUBSCRIBE and PUBLISH, sends the acknowledgement,
    forwards a PUBLISH to the receivers the topic tree finds and to the bridges,
    reports events to the hook thread and receives again.  Work items of the
    bridges and of the HTTP server run the same code.  Shared by all: the topic
    tree, the table of subscriptions per client, the retained messages, and the
    hash table from client ids to pipes.

    ** Files

    - [Prelude]: machine integers, [exec] (a result, undefined behaviour, or fuel
      used up), reads and writes with bounds, automation; [Mqtt]: byte order and
      packet types; [Cstring]: the C library's functions on strings.
    - [Nng]: what the program relies on of nng and nanolib, a git submodule that
      is not in the repository, as type classes with their laws; [NngModel]: a
      concrete instance, on which the witnesses are evaluated.
    - [Hashmap]: hashmap.c, open addressing with growth.
    - [SubHandler], [UnsubHandler], [PubHandler]: sub_handler.c, unsub_handler.c
      and pub_handler.c; decoding, acknowledgement, subscriptions, delivery,
      retained messages, encoding.
    - [RuleEngine]: the rule engine of pub_handler.c (with SUPP_RULE_ENGINE), rules,
      their conditions and the SQL they write.
    - [Webhook], [WebhookInproc]: webhook_post.c and webhook_inproc.c, the JSON of
      an event and the queue to the posting thread.
    - [MqttApi]: mqtt_api.c, messages on the inproc socket, listeners, logs.
    - [Bridge]: bridge.c.  [Conf]: the configuration record of nanolib, as far as
      it is used.
    - [Broker]: [server_cb] of apps/broker.c; [BrokerStart]: the command line, the
      URLs and [broker] itself, with nanomq.c; [Process]: process.c, the pid file
      and the signals.
    - [Shared]: a retained message and the message of the work item that stored
      it are one object; what a call writes to it.
    - [Entries]: which entries of the retained tree a call keeps, and how many
      messages the tree holds.
    - [System]: all work items of the started broker on the state they share, in
      any order of their calls, as a step relation.  [Retained]: the retained
      tree over its runs.  [Progress]: what a work item has in each state.
    - [RestHttp]: HTTP messages and authorization; [RestUri]: URIs and queries;
      [Cjson]: JSON values; [RestMqtt]: publishing and subscribing over HTTP;
      [RestConf]: reading and writing the configuration; [RestQuery]: what GET
      requests answer; [RestApi]: routing and [process_request]; [RestRules]: the
      rules of the rule engine over HTTP (with SUPP_RULE_ENGINE).  All of
      rest_api.c.
    - [RuleBroker]: the rules as the HTTP API and the broker share them.
    - [WebServer], [RestServer]: web_server.c, the pool of jobs, the threads, and
      the way of a request through both.

    Definitions have the names of the C functions.  A function that changes state
    takes it and returns it; calls into nng, and those that release memory, are a
    list of events in their order, or arguments when only their result matters.
    Reading or writing outside an object, following NULL or a pointer to freed
    memory is [UB].

    ** Theorems

    - Over any run of the broker, with its work items called in any order, the
      tree and the table of subscriptions are the set of (filter, client) pairs
      asked for; a PUBLISH reaches those who are subscribed when it arrives and
      nobody else, and the bridges whose aio is free; message references, those
      of the retained tree included, stay balanced and every work item has one
      operation under way (System, by the lemmas of SubHandler, UnsubHandler,
      PubHandler, Broker and Entries); the exceptions are named.
    - A retained PUBLISH reaches the clients that subscribe later, although its
      message is written anew behind the tree's back (Retained).
    - A work item that is not receiving never reads what it does not have, and
      receives again after at most three calls (Progress).
    - Decoding reads back what encoding wrote; retained messages are kept as the
      flag says (PubHandler).
    - The hash table refines a finite map while no put fails, and never holds
      more than that map after one did; a put fails only where the table cannot
      be doubled; the checksum is CRC-32C (Hashmap).
    - Hook events are handed to [send_msg] in their order, each with its JSON;
      one whose connection or write fails is gone (Webhook, WebhookInproc).
    - Start-up makes one work item per counted context (BrokerStart).
    - The HTTP server answers every request exactly once with what
      [process_request] returned, never loses a job and comes to rest; requests
      are served only after login; every documented endpoint is reached; what is
      published, subscribed and configured over HTTP takes effect (WebServer,
      RestServer, RestApi, RestMqtt, RestConf).
    - A rule on plain fields matches exactly the messages its conditions
      describe, and inserts the parts it selects (RuleEngine); over HTTP the
      rules are a table (RestRules), and a posted rule works for the messages
      that follow (RuleBroker).
    - Where the code goes wrong the theorem says how: lengths that wrap, buffers
      that are too short, messages that are not released, memory compared before
      it is written.

    ** Fuel and bounds

    Loops over packets take one more than a length as fuel, that of the payload
    ([sub_fuel]) or of what remains ([unsub_fuel]): every round reads a byte,
    and running out is excluded by theorem.  Growing the hash table takes [put_fuel] = 33 rounds, the size
    doubles from at least 1 and stops at 32 bits.  [base62_inner] has fuel 4, one
    byte gives at most two groups of six bits and a rest.  Splitting a text takes
    its length.  Decimal numbers have at most 20 digits.

    ** Not modelled

    nng and nanolib (classes and parameters, see [Nng] and [Cjson]); the vendored
    code under src/SylixOS-Base; FoundationDB (FDB_SUPPORT), whose branch reads an
    array that was never written, and the AWS bridge (SUPP_AWS_BRIDGE), whose
    code is not in the repository, both left out of the default build; printing,
    logging, and the threads' own joining and sleeping.  The parts under
    SUPP_RULE_ENGINE and SUPP_JWT are modelled, and arguments say whether they
    are there.  Memory that runs out is modelled where the code looks at it.

    Limits of the runs of [System]: each call of [server_cb] is one step, so the
    work items take turns and do not race inside a call; subscribing over HTTP
    changes the same tree from the HTTP thread and is a function of its own
    ([RestMqtt]), not a step of these runs.  Which sends complete the aio of a
    work item is what [NngAioLaws] states, the reason why handlers call
    [nng_aio_finish] after one and not after the other.  The copy of the whole
    [struct fixed_header] in [decode_pub_message] is its first byte: padding
    follows, and the next statement overwrites the rest. *)

From Stdlib Require Import ZArith Lia.
From stdpp Require Import base numbers list gmap option strings.

Local Open Scope Z_scope.

(** ** Machine integers

    A C integer of width [w] is a [Z]; the wrap-around of its arithmetic is
    written out at the place where the code wraps. *)

Definition u8 (z : Z) : Z := z mod 2 ^ 8.
Definition u16 (z : Z) : Z := z mod 2 ^ 16.
Definition u32 (z : Z) : Z := z mod 2 ^ 32.
Definition u64 (z : Z) : Z := z mod 2 ^ 64.

(** Conversion to [int] (two's complement, 32 bits). *)
Definition s32 (z : Z) : Z :=
  let r := z mod 2 ^ 32 in if r <? 2 ^ 31 then r else r - 2 ^ 32.

Abbreviation bytes := (list Z).

Definition byte_ok (b : Z) : Prop := 0 <= b < 256.
Definition bytes_ok (bs : bytes) : Prop := Forall byte_ok bs.

(** The bytes of a string literal. *)
Definition str (s : string) : bytes :=
  (fun a => Z.of_N (Ascii.N_of_ascii a)) <$> String.list_ascii_of_string s.

Definition Zlen {A} (l : list A) : Z := Z.of_nat (length l).

(** ** Executions that may be undefined

    [Ret a] is a run that ends with [a]; [UB] is a run that reads or writes
    outside an object (or uses a NULL or freed pointer), after which C
    promises nothing; [OOF] is a loop cut off by the model's fuel. *)

Inductive exec (A : Type) : Type :=
| Ret (a : A)
| UB
| OOF.
Arguments Ret {A} a.
Arguments UB {A}.
Arguments OOF {A}.

Definition ebind {A B} (c : exec A) (k : A -> exec B) : exec B :=
  match c with Ret a => k a | UB => UB | OOF => OOF end.

Declare Scope nano_scope.
Delimit Scope nano_scope with nano.
Notation "'let*' x := c 'in' k" := (ebind c (fun x => k))
  (at level 10, x name, c at level 100, k at level 200)
  : nano_scope.
Notation "'let*' ' p := c 'in' k" := (ebind c (fun x => match x with p => k end))
  (at level 10, p strict pattern, c at level 100, k at level 200) : nano_scope.

Lemma ebind_assoc {A B C} (c : exec A) (f : A -> exec B) (g : B -> exec C) :
  ebind (ebind c f) g = ebind c (fun a => ebind (f a) g).
Proof. by destruct c. Qed.

Lemma ebind_Ret {A B} (c : exec A) (f : A -> exec B) b :
  ebind c f = Ret b -> exists a, c = Ret a /\ f a = Ret b.
Proof. destruct c; simpl; intros; [eauto | done | done]. Qed.

(** A loop over a list that may be undefined. *)
Fixpoint efold {A B} (f : A -> B -> exec A) (l : list B) (a : A) : exec A :=
  match l with
  | [] => Ret a
  | x :: l' => ebind (f a x) (efold f l')
  end.

Fixpoint emap {A B} (f : A -> exec B) (l : list A) : exec (list B) :=
  match l with
  | [] => Ret []
  | x :: l' => ebind (f x) (fun y => ebind (emap f l') (fun ys => Ret (y :: ys)))
  end.

Lemma emap_app {A B} (f : A -> exec B) l k :
  emap f (l ++ k) = ebind (emap f l) (fun xs => ebind (emap f k) (fun ys => Ret (xs ++ ys))).
Proof.
  induction l as [|x l IH]; cbn; [by destruct (emap f k)|]. destruct (f x); cbn; [|done..]. rewrite IH.
  destruct (emap f l); cbn; [|done..]. by destruct (emap f k).
Qed.

Lemma efold_app {A B} (f : A -> B -> exec A) l k a : efold f (l ++ k) a = ebind (efold f l a) (efold f k).
Proof. revert a. induction l as [|x l IH]; intros a; cbn; [done|]. destruct (f a x); cbn; [apply IH|done..]. Qed.

(** ** Automation *)

(** Case analysis on the scrutinee of a [match] or [if]. *)
Ltac case_match_in H :=
  match type of H with
  | context [ match ?x with _ => _ end ] =>
      let E := fresh "E" in destruct x eqn:E; try discriminate H
  end.

Ltac case_goal :=
  match goal with
  | |- context [ match ?x with _ => _ end ] =>
      let E := fresh "E" in destruct x eqn:E
  end.

(** Turn the boolean comparisons in the context into propositions. *)
Ltac bool_hyps :=
  repeat match goal with
  | H : (_ && _)%bool = true |- _ => apply andb_true_iff in H as [? ?]
  | H : (_ || _)%bool = false |- _ => apply orb_false_iff in H as [? ?]
  | H : negb _ = true |- _ => apply negb_true_iff in H
  | H : negb _ = false |- _ => apply negb_false_iff in H
  | H : (_ =? _) = true |- _ => apply Z.eqb_eq in H
  | H : (_ =? _) = false |- _ => apply Z.eqb_neq in H
  | H : (_ <? _) = true |- _ => apply Z.ltb_lt in H
  | H : (_ <? _) = false |- _ => apply Z.ltb_ge in H
  | H : (_ <=? _) = true |- _ => apply Z.leb_le in H
  | H : (_ <=? _) = false |- _ => apply Z.leb_gt in H
  | H : (_ >=? _) = true |- _ => rewrite Z.geb_leb in H
  | H : (_ >=? _) = false |- _ => rewrite Z.geb_leb in H
  | H : (_ >? _) = true |- _ => rewrite Z.gtb_ltb in H
  | H : (_ >? _) = false |- _ => rewrite Z.gtb_ltb in H
  | H : bool_decide _ = true |- _ => apply bool_decide_eq_true in H
  | H : bool_decide _ = false |- _ => apply bool_decide_eq_false in H
  end.

(** [lia] with division and remainder by constants. *)
Ltac dm_lia := Z.to_euclidean_division_equations; lia.

Create HintDb nano.
Create Rewrite HintDb zlen.

(** ** Shared lemmas *)

Lemma u8_range z : 0 <= u8 z < 256.
Proof. unfold u8. apply Z.mod_pos_bound. lia. Qed.

Lemma u16_range z : 0 <= u16 z < 65536.
Proof. unfold u16. apply Z.mod_pos_bound. lia. Qed.

Lemma u32_range z : 0 <= u32 z < 2 ^ 32.
Proof. unfold u32. apply Z.mod_pos_bound. lia. Qed.

Lemma u8_small z : 0 <= z < 256 -> u8 z = z.
Proof. intros. unfold u8. apply Z.mod_small. lia. Qed.

Lemma u16_small z : 0 <= z < 65536 -> u16 z = z.
Proof. intros. unfold u16. apply Z.mod_small. lia. Qed.

Lemma u32_small z : 0 <= z < 2 ^ 32 -> u32 z = z.
Proof. intros. unfold u32. by apply Z.mod_small. Qed.

#[export] Hint Resolve u8_range u16_range u32_range : nano.

Lemma Zlen_nonneg {A} (l : list A) : 0 <= Zlen l.
Proof. unfold Zlen. lia. Qed.

Lemma Zlen_app {A} (l k : list A) : Zlen (l ++ k) = Zlen l + Zlen k.
Proof. unfold Zlen. rewrite length_app. lia. Qed.

Lemma Zlen_nil {A} : Zlen (@nil A) = 0.
Proof. done. Qed.

Lemma Zlen_cons {A} (x : A) l : Zlen (x :: l) = 1 + Zlen l.
Proof. unfold Zlen. simpl. lia. Qed.

#[export] Hint Resolve Zlen_nonneg : nano.
#[export] Hint Rewrite @Zlen_app @Zlen_nil @Zlen_cons : zlen.

Ltac zlen := autorewrite with zlen in *.

Lemma forallb_negb_existsb {A} (f : A -> bool) l : forallb (fun x => negb (f x)) l = negb (existsb f l).
Proof. induction l as [|x l IH]; [done|]. cbn. by rewrite IH, negb_orb. Qed.

Lemma fold_left_ext {A B} (f g : A -> B -> A) (l : list B) :
  (forall a b, f a b = g a b) -> forall a, fold_left f l a = fold_left g l a.
Proof. intros H. induction l as [|b l IH]; intros a; simpl; [done|]. by rewrite H. Qed.

(** ** Big-endian words, the NNI_GET / NNI_PUT macros of nanomq.h *)

Definition NNI_PUT16 (u : Z) : bytes := [u8 (Z.shiftr (u16 u) 8); u8 (u16 u)].

Definition NNI_PUT32 (u : Z) : bytes :=
  [u8 (Z.shiftr (u32 u) 24); u8 (Z.shiftr (u32 u) 16);
   u8 (Z.shiftr (u32 u) 8); u8 (u32 u)].

(** [rd buf i] reads one byte of [buf]; an index outside it is undefined. *)
Definition rd (buf : bytes) (i : Z) : exec Z :=
  if (0 <=? i) then
    match buf !! Z.to_nat i with Some b => Ret b | None => UB end
  else UB.

Open Scope nano_scope.

Definition NNI_GET16 (ptr : bytes) (off : Z) : exec Z :=
  let* b0 := rd ptr off in
  let* b1 := rd ptr (off + 1) in
  Ret (Z.shiftl b0 8 + b1).

Definition NNI_GET32 (ptr : bytes) (off : Z) : exec Z :=
  let* b0 := rd ptr off in
  let* b1 := rd ptr (off + 1) in
  let* b2 := rd ptr (off + 2) in
  let* b3 := rd ptr (off + 3) in
  Ret (Z.shiftl b0 24 + Z.shiftl b1 16 + Z.shiftl b2 8 + b3).

(** [wr buf i b] writes one byte of [buf]; an index outside it is undefined. *)
Definition wr (buf : bytes) (i b : Z) : exec bytes :=
  if (0 <=? i) && (i <? Zlen buf) then Ret (<[Z.to_nat i := b]> buf) else UB.

(** [slice buf off n]: the [n] bytes from [off]; undefined outside. *)
Definition slice (buf : bytes) (off n : Z) : exec bytes :=
  if (0 <=? off) && (0 <=? n) && (off + n <=? Zlen buf) then
    Ret (take (Z.to_nat n) (drop (Z.to_nat off) buf))
  else UB.

Lemma rd_app_l pre x post : rd (pre ++ x :: post) (Zlen pre) = Ret x.
Proof.
  unfold rd, Zlen. case_match; bool_hyps; [|lia]. rewrite Nat2Z.id.
  by rewrite list_lookup_middle.
Qed.

Lemma rd_Ret buf i b : rd buf i = Ret b -> 0 <= i < Zlen buf.
Proof.
  unfold rd, Zlen. case_match; [|done]. case_match eqn:E; [|done].
  intros _. apply lookup_lt_Some in E. bool_hyps. lia.
Qed.

Lemma rd_no_oof buf i : rd buf i <> OOF.
Proof. unfold rd. repeat case_match; done. Qed.

Lemma NNI_GET16_no_oof buf i : NNI_GET16 buf i <> OOF.
Proof.
  unfold NNI_GET16. destruct (rd buf i) eqn:E; cbn [ebind]; [|done|by apply rd_no_oof in E].
  destruct (rd buf (i + 1)) eqn:E2; cbn [ebind]; [done|done|by apply rd_no_oof in E2].
Qed.

Lemma rd_in buf i : 0 <= i < Zlen buf -> exists b, rd buf i = Ret b.
Proof.
  unfold rd, Zlen. intros H. case_match; bool_hyps; [|lia].
  destruct (lookup_lt_is_Some_2 buf (Z.to_nat i)) as [b Hb]; [lia|].
  rewrite Hb. eauto.
Qed.

Lemma rd_out buf i : Zlen buf <= i -> rd buf i = UB.
Proof.
  unfold rd, Zlen. intros H. case_match; [|done].
  rewrite lookup_ge_None_2; [done|lia].
Qed.

Lemma be16 u : 0 <= u < 65536 -> Z.shiftl (u8 (Z.shiftr u 8)) 8 + u8 u = u.
Proof.
  intros H. unfold u8. rewrite Z.shiftl_mul_pow2, Z.shiftr_div_pow2 by lia.
  dm_lia.
Qed.

Lemma be32 u : 0 <= u < 2 ^ 32 ->
  Z.shiftl (u8 (Z.shiftr u 24)) 24 + Z.shiftl (u8 (Z.shiftr u 16)) 16 +
  Z.shiftl (u8 (Z.shiftr u 8)) 8 + u8 u = u.
Proof.
  intros H. unfold u8. rewrite !Z.shiftl_mul_pow2, !Z.shiftr_div_pow2 by lia.
  dm_lia.
Qed.

(** What PUT writes, GET reads back, wherever it sits in the buffer. *)
Lemma NNI_GET16_PUT16 pre u post :
  0 <= u < 65536 ->
  NNI_GET16 (pre ++ NNI_PUT16 u ++ post) (Zlen pre) = Ret u.
Proof.
  intros H. unfold NNI_GET16, NNI_PUT16. rewrite u16_small by lia.
  rewrite <- app_assoc || idtac. cbn [app].
  rewrite rd_app_l. cbn [ebind].
  replace (pre ++ u8 (Z.shiftr u 8) :: u8 u :: post)
    with ((pre ++ [u8 (Z.shiftr u 8)]) ++ u8 u :: post)
    by (by rewrite <- app_assoc).
  replace (Zlen pre + 1) with (Zlen (pre ++ [u8 (Z.shiftr u 8)])) by (zlen; lia).
  rewrite rd_app_l. cbn [ebind]. by rewrite be16.
Qed.

Lemma NNI_GET32_PUT32 pre u post :
  0 <= u < 2 ^ 32 ->
  NNI_GET32 (pre ++ NNI_PUT32 u ++ post) (Zlen pre) = Ret u.
Proof.
  intros H. unfold NNI_GET32, NNI_PUT32. rewrite u32_small by lia. cbn [app].
  set (a := u8 (Z.shiftr u 24)). set (b := u8 (Z.shiftr u 16)).
  set (c := u8 (Z.shiftr u 8)). set (d := u8 u).
  rewrite rd_app_l. cbn [ebind].
  change (pre ++ a :: b :: c :: d :: post) with (pre ++ [a] ++ b :: c :: d :: post).
  rewrite (app_assoc pre). replace (Zlen pre + 1) with (Zlen (pre ++ [a])) by (zlen; lia).
  rewrite rd_app_l. cbn [ebind].
  change (b :: c :: d :: post) with ([b] ++ c :: d :: post).
  rewrite (app_assoc (pre ++ [a])).
  replace (Zlen pre + 2) with (Zlen ((pre ++ [a]) ++ [b])) by (zlen; lia).
  rewrite rd_app_l. cbn [ebind].
  change (c :: d :: post) with ([c] ++ d :: post).
  rewrite (app_assoc ((pre ++ [a]) ++ [b])).
  replace (Zlen pre + 3) with (Zlen (((pre ++ [a]) ++ [b]) ++ [c])) by (zlen; lia).
  rewrite rd_app_l. cbn [ebind]. subst a b c d. by rewrite be32.
Qed.

Lemma slice_in (buf : bytes) off n :
  0 <= off -> 0 <= n -> off + n <= Zlen buf ->
  slice buf off n = Ret (take (Z.to_nat n) (drop (Z.to_nat off) buf)).
Proof.
  intros ???. unfold slice.
  by rewrite !(proj2 (Z.leb_le _ _)) by lia.
Qed.

Lemma slice_app pre mid post :
  slice (pre ++ mid ++ post) (Zlen pre) (Zlen mid) = Ret mid.
Proof.
  pose proof (Zlen_nonneg pre). pose proof (Zlen_nonneg mid).
  pose proof (Zlen_nonneg post).
  rewrite slice_in by (zlen; lia).
  unfold Zlen. by rewrite !Nat2Z.id, drop_app_length, take_app_length.
Qed.

Lemma slice_Ret buf off n bs :
  slice buf off n = Ret bs ->
  0 <= off /\ 0 <= n /\ off + n <= Zlen buf /\ Zlen bs = n.
Proof.
  unfold slice. case_match; [|done]. bool_hyps. intros [= <-].
  unfold Zlen in *. rewrite length_take, length_drop. lia.
Qed.

(** ** Calls that stop the process

    [fatal] exits: the calls made until one fails. *)

Fixpoint until_fatal {A} (fails : A -> bool) (evs : list A) : list A * bool :=
  match evs with
  | [] => ([], true)
  | e :: evs' =>
      if fails e then ([e], false)
      else let '(t, ok) := until_fatal fails evs' in (e :: t, ok)
  end.

Lemma until_fatal_none {A} (fails : A -> bool) evs :
  Forall (fun e => fails e = false) evs -> until_fatal fails evs = (evs, true).
Proof. induction 1 as [|e evs He _ IH]; cbn; [done|]. by rewrite He, IH. Qed.

Lemma until_fatal_some {A} (fails : A -> bool) evs t : until_fatal fails evs = (t, false) -> t `prefix_of` evs.
Proof.
  revert t. induction evs as [|e evs IH]; intros t; cbn; [done|]. destruct (fails e).
  - intros [= <-]. by eexists.
  - destruct (until_fatal fails evs) as [t' ok]. intros [= <- ->].
    apply prefix_cons. by apply IH.
Qed.

Lemma until_fatal_ok {A} (fails : A -> bool) evs t : until_fatal fails evs = (t, true) -> t = evs.
Proof.
  revert t. induction evs as [|e evs IH]; intros t; cbn; [by intros [= <-]|]. destruct (fails e); [done|].
  destruct (until_fatal fails evs) as [t' ok]. intros [= <- ->]. by rewrite (IH t').
Qed.

Lemma until_fatal_app {A} (fails : A -> bool) l k :
  until_fatal fails (l ++ k) =
  let '(t, ok) := until_fatal fails l in
  if ok : bool then let '(t', ok) := until_fatal fails k in (t ++ t', ok) else (t, false).
Proof.
  induction l as [|e l IH]; cbn; [by destruct (until_fatal fails k)|]. destruct (fails e); [done|]. rewrite IH.
  destruct (until_fatal fails l) as [t [|]]; [|done]. by destruct (until_fatal fails k).
Qed.

Lemma prefix_Forall {A} (P : A -> Prop) (l k : list A) : l `prefix_of` k -> Forall P k -> Forall P l.
Proof. intros [r ->]. by intros [H _]%Forall_app. Qed.

Lemma until_fatal_true {A} (fails : A -> bool) evs t :
  until_fatal fails evs = (t, true) -> Forall (fun e => fails e = false) evs.
Proof.
  revert t. induction evs as [|e evs IH]; intros t; cbn; [done|]. destruct (fails e) eqn:He; [done|].
  destruct (until_fatal fails evs) as [t' ok]. intros [= <- ->]. constructor; [done|]. by eapply IH.
Qed.
