(* ===== verification/Hashmap.v ===== *)
(** * hashmap.c: the client-id table

    Open addressing with a probe chain of at most eight slots, doubling the
    table when a chain is full.  The key slice is not copied by the C code;
    the caller keeps it alive and unchanged, so the model stores its bytes.
    [calloc_ok n] says whether the allocation of an [n]-element table
    succeeds. *)

From Stdlib Require Import ZArith Lia.
From stdpp Require Import base numbers list gmap option.
From S2P Require Import Prelude.

Local Open Scope Z_scope.

(** ** Data *)

(** [struct hashmap_element_s] *)
Record element := Element {
  e_key : bytes;
  e_key_len : Z;
  e_in_use : Z;
  e_data : Z
}.

(** A cleared element ([calloc], [memset 0]). *)
Definition zero_element : element := Element [] 0 0 0.

(** [struct hashmap_s] *)
Record hashmap := Hashmap {
  m_table_size : Z;
  m_size : Z;
  m_data : list element
}.

Definition HASHMAP_MAX_CHAIN_LENGTH : nat := 8.

Definition HASHMAP_NULL : Z := 0.

(** [m->data[i]] *)
Definition slot (m : hashmap) (i : Z) : element :=
  default zero_element (m_data m !! Z.to_nat i).

(** [m->data[i] = e] *)
Definition set_slot (m : hashmap) (i : Z) (e : element) : hashmap :=
  Hashmap (m_table_size m) (m_size m) (<[Z.to_nat i := e]> (m_data m)).

(** ** Hash *)

Definition crc32_tab : list Z := Eval cbv in
  [0x00000000; 0xf26b8303; 0xe13b70f7; 0x1350f3f4; 0xc79a971f; 0x35f1141c;
   0x26a1e7e8; 0xd4ca64eb; 0x8ad958cf; 0x78b2dbcc; 0x6be22838; 0x9989ab3b;
   0x4d43cfd0; 0xbf284cd3; 0xac78bf27; 0x5e133c24; 0x105ec76f; 0xe235446c;
   0xf165b798; 0x030e349b; 0xd7c45070; 0x25afd373; 0x36ff2087; 0xc494a384;
   0x9a879fa0; 0x68ec1ca3; 0x7bbcef57; 0x89d76c54; 0x5d1d08bf; 0xaf768bbc;
   0xbc267848; 0x4e4dfb4b; 0x20bd8ede; 0xd2d60ddd; 0xc186fe29; 0x33ed7d2a;
   0xe72719c1; 0x154c9ac2; 0x061c6936; 0xf477ea35; 0xaa64d611; 0x580f5512;
   0x4b5fa6e6; 0xb93425e5; 0x6dfe410e; 0x9f95c20d; 0x8cc531f9; 0x7eaeb2fa;
   0x30e349b1; 0xc288cab2; 0xd1d83946; 0x23b3ba45; 0xf779deae; 0x05125dad;
   0x1642ae59; 0xe4292d5a; 0xba3a117e; 0x4851927d; 0x5b016189; 0xa96ae28a;
   0x7da08661; 0x8fcb0562; 0x9c9bf696; 0x6ef07595; 0x417b1dbc; 0xb3109ebf;
   0xa0406d4b; 0x522bee48; 0x86e18aa3; 0x748a09a0; 0x67dafa54; 0x95b17957;
   0xcba24573; 0x39c9c670; 0x2a993584; 0xd8f2b687; 0x0c38d26c; 0xfe53516f;
   0xed03a29b; 0x1f682198; 0x5125dad3; 0xa34e59d0; 0xb01eaa24; 0x42752927;
   0x96bf4dcc; 0x64d4cecf; 0x77843d3b; 0x85efbe38; 0xdbfc821c; 0x2997011f;
   0x3ac7f2eb; 0xc8ac71e8; 0x1c661503; 0xee0d9600; 0xfd5d65f4; 0x0f36e6f7;
   0x61c69362; 0x93ad1061; 0x80fde395; 0x72966096; 0xa65c047d; 0x5437877e;
   0x4767748a; 0xb50cf789; 0xeb1fcbad; 0x197448ae; 0x0a24bb5a; 0xf84f3859;
   0x2c855cb2; 0xdeeedfb1; 0xcdbe2c45; 0x3fd5af46; 0x7198540d; 0x83f3d70e;
   0x90a324fa; 0x62c8a7f9; 0xb602c312; 0x44694011; 0x5739b3e5; 0xa55230e6;
   0xfb410cc2; 0x092a8fc1; 0x1a7a7c35; 0xe811ff36; 0x3cdb9bdd; 0xceb018de;
   0xdde0eb2a; 0x2f8b6829; 0x82f63b78; 0x709db87b; 0x63cd4b8f; 0x91a6c88c;
   0x456cac67; 0xb7072f64; 0xa457dc90; 0x563c5f93; 0x082f63b7; 0xfa44e0b4;
   0xe9141340; 0x1b7f9043; 0xcfb5f4a8; 0x3dde77ab; 0x2e8e845f; 0xdce5075c;
   0x92a8fc17; 0x60c37f14; 0x73938ce0; 0x81f80fe3; 0x55326b08; 0xa759e80b;
   0xb4091bff; 0x466298fc; 0x1871a4d8; 0xea1a27db; 0xf94ad42f; 0x0b21572c;
   0xdfeb33c7; 0x2d80b0c4; 0x3ed04330; 0xccbbc033; 0xa24bb5a6; 0x502036a5;
   0x4370c551; 0xb11b4652; 0x65d122b9; 0x97baa1ba; 0x84ea524e; 0x7681d14d;
   0x2892ed69; 0xdaf96e6a; 0xc9a99d9e; 0x3bc21e9d; 0xef087a76; 0x1d63f975;
   0x0e330a81; 0xfc588982; 0xb21572c9; 0x407ef1ca; 0x532e023e; 0xa145813d;
   0x758fe5d6; 0x87e466d5; 0x94b49521; 0x66df1622; 0x38cc2a06; 0xcaa7a905;
   0xd9f75af1; 0x2b9cd9f2; 0xff56bd19; 0x0d3d3e1a; 0x1e6dcdee; 0xec064eed;
   0xc38d26c4; 0x31e6a5c7; 0x22b65633; 0xd0ddd530; 0x0417b1db; 0xf67c32d8;
   0xe52cc12c; 0x1747422f; 0x49547e0b; 0xbb3ffd08; 0xa86f0efc; 0x5a048dff;
   0x8ecee914; 0x7ca56a17; 0x6ff599e3; 0x9d9e1ae0; 0xd3d3e1ab; 0x21b862a8;
   0x32e8915c; 0xc083125f; 0x144976b4; 0xe622f5b7; 0xf5720643; 0x07198540;
   0x590ab964; 0xab613a67; 0xb831c993; 0x4a5a4a90; 0x9e902e7b; 0x6cfbad78;
   0x7fab5e8c; 0x8dc0dd8f; 0xe330a81a; 0x115b2b19; 0x020bd8ed; 0xf0605bee;
   0x24aa3f05; 0xd6c1bc06; 0xc5914ff2; 0x37faccf1; 0x69e9f0d5; 0x9b8273d6;
   0x88d28022; 0x7ab90321; 0xae7367ca; 0x5c18e4c9; 0x4f48173d; 0xbd23943e;
   0xf36e6f75; 0x0105ec76; 0x12551f82; 0xe03e9c81; 0x34f4f86a; 0xc69f7b69;
   0xd5cf889d; 0x27a40b9e; 0x79b737ba; 0x8bdcb4b9; 0x988c474d; 0x6ae7c44e;
   0xbe2da0a5; 0x4c4623a6; 0x5f16d052; 0xad7d5351].

Definition crc32_step (crc32val b : Z) : Z :=
  Z.lxor (default 0 (crc32_tab !! Z.to_nat (Z.lxor (u8 crc32val) (u8 b))))
         (Z.shiftr crc32val 8).

Definition hashmap_crc32_helper (s : bytes) (len : Z) : Z :=
  fold_left crc32_step (take (Z.to_nat len) s) 0.

(** Robert Jenkins' mix, then Knuth's multiplicative step. *)
Definition hash_mix (key : Z) : Z :=
  let key := u32 (key + u32 (Z.shiftl key 12)) in
  let key := Z.lxor key (Z.shiftr key 22) in
  let key := u32 (key + u32 (Z.shiftl key 4)) in
  let key := Z.lxor key (Z.shiftr key 9) in
  let key := u32 (key + u32 (Z.shiftl key 10)) in
  let key := Z.lxor key (Z.shiftr key 2) in
  let key := u32 (key + u32 (Z.shiftl key 7)) in
  let key := Z.lxor key (Z.shiftr key 12) in
  u32 (Z.shiftr key 3 * 2654435761).

Definition hashmap_hash_helper_int_helper (m : hashmap) (keystring : bytes) (len : Z) : Z :=
  hash_mix (hashmap_crc32_helper keystring len) mod m_table_size m.

(** ** Probing *)

Definition hashmap_match_helper (element : element) (key : bytes) (len : Z) : bool :=
  (e_key_len element =? len) &&
  bool_decide (take (Z.to_nat len) (e_key element) = take (Z.to_nat len) key).

(** First probe of [hashmap_hash_helper]: the slot that holds the key, or the
    number of used slots on the chain. *)
Fixpoint probe_match (m : hashmap) (key : bytes) (len : Z)
    (n : nat) (curr total_in_use : Z) : Z + Z :=
  match n with
  | O => inr total_in_use
  | S n' =>
      let in_use := e_in_use (slot m curr) in
      if negb (in_use =? 0) && hashmap_match_helper (slot m curr) key len
      then inl curr
      else probe_match m key len n' ((curr + 1) mod m_table_size m) (total_in_use + in_use)
  end.

(** Second probe: the first free slot of the chain. *)
Fixpoint probe_free (m : hashmap) (n : nat) (curr : Z) : option Z :=
  match n with
  | O => None
  | S n' =>
      if e_in_use (slot m curr) =? 0 then Some curr
      else probe_free m n' ((curr + 1) mod m_table_size m)
  end.

(** [None] is the C function's 0, [Some i] its 1 with [*out_index = i]. *)
Definition hashmap_hash_helper (m : hashmap) (key : bytes) (len : Z) : option Z :=
  if m_size m >=? m_table_size m then None
  else
    let start := hashmap_hash_helper_int_helper m key len in
    match probe_match m key len HASHMAP_MAX_CHAIN_LENGTH start 0 with
    | inl curr => Some curr
    | inr total_in_use =>
        if Z.of_nat HASHMAP_MAX_CHAIN_LENGTH >? total_in_use
        then probe_free m HASHMAP_MAX_CHAIN_LENGTH start
        else None
    end.

Fixpoint get_probe (m : hashmap) (key : bytes) (len : Z) (n : nat) (curr : Z) : Z :=
  match n with
  | O => HASHMAP_NULL
  | S n' =>
      if negb (e_in_use (slot m curr) =? 0) && hashmap_match_helper (slot m curr) key len
      then e_data (slot m curr)
      else get_probe m key len n' ((curr + 1) mod m_table_size m)
  end.

Definition hashmap_get (m : hashmap) (key : bytes) (len : Z) : Z :=
  get_probe m key len HASHMAP_MAX_CHAIN_LENGTH (hashmap_hash_helper_int_helper m key len).

(** [memset(p, 0, ...); m->size--] *)
Definition clear_slot (m : hashmap) (i : Z) : hashmap :=
  Hashmap (m_table_size m) (u32 (m_size m - 1)) (<[Z.to_nat i := zero_element]> (m_data m)).

Fixpoint remove_probe (m : hashmap) (key : bytes) (len : Z) (n : nat) (curr : Z) : Z * hashmap :=
  match n with
  | O => (1, m)
  | S n' =>
      if negb (e_in_use (slot m curr) =? 0) && hashmap_match_helper (slot m curr) key len
      then (0, clear_slot m curr)
      else remove_probe m key len n' ((curr + 1) mod m_table_size m)
  end.

Definition hashmap_remove (m : hashmap) (key : bytes) (len : Z) : Z * hashmap :=
  remove_probe m key len HASHMAP_MAX_CHAIN_LENGTH (hashmap_hash_helper_int_helper m key len).

Definition hashmap_num_entries (m : hashmap) : Z := m_size m.

(** [free(m->data)] and a cleared header. *)
Definition hashmap_destroy (m : hashmap) : hashmap := Hashmap 0 0 [].

(** [for (i = i0; i < i0 + n; i++)] of [hashmap_iterate_pairs]; the callback
    threads its context [c] and may run out of its own fuel. *)
Fixpoint iterate_from {C} (f : C -> element -> option (Z * C))
    (n : nat) (i : Z) (m : hashmap) (c : C) : option (Z * hashmap * C) :=
  match n with
  | O => Some (0, m, c)
  | S n' =>
      let p := slot m i in
      if e_in_use p =? 0 then iterate_from f n' (i + 1) m c
      else
        match f c p with
        | None => None
        | Some (r, c') =>
            if r =? -1 then iterate_from f n' (i + 1) (clear_slot m i) c'
            else if r =? 0 then iterate_from f n' (i + 1) m c'
            else Some (1, m, c')
        end
  end.

Definition hashmap_iterate_pairs {C} (f : C -> element -> option (Z * C))
    (m : hashmap) (c : C) : option (Z * hashmap * C) :=
  iterate_from f (Z.to_nat (m_table_size m)) 0 m c.

Section Alloc.
Variable calloc_ok : Z -> bool.

(** Return code and the table; on failure [data] stays unallocated. *)
Definition hashmap_create (initial_size : Z) : Z * hashmap :=
  if (initial_size =? 0) || negb (Z.land initial_size (u32 (initial_size - 1)) =? 0)
  then (1, Hashmap initial_size 0 [])
  else if calloc_ok initial_size
  then (0, Hashmap initial_size 0 (replicate (Z.to_nat initial_size) zero_element))
  else (1, Hashmap initial_size 0 []).

(** [hashmap_put] and [hashmap_rehash_helper] call each other; [put] is the
    recursive call, with less fuel. *)
Definition hashmap_rehash_iterator
    (put : hashmap -> bytes -> Z -> Z -> option (Z * hashmap))
    (new_hash : hashmap) (e : element) : option (Z * hashmap) :=
  match put new_hash (e_key e) (e_key_len e) (e_data e) with
  | None => None
  | Some (temp, new_hash') => Some (if 0 <? temp then 1 else -1, new_hash')
  end.

Definition hashmap_rehash_helper
    (put : hashmap -> bytes -> Z -> Z -> option (Z * hashmap))
    (m : hashmap) : option (Z * hashmap) :=
  let new_size := u32 (2 * m_table_size m) in
  let '(flag, new_hash) := hashmap_create new_size in
  if negb (flag =? 0) then Some (flag, m)
  else
    match hashmap_iterate_pairs (hashmap_rehash_iterator put) m new_hash with
    | None => None
    | Some (flag, m', new_hash') =>
        if negb (flag =? 0) then Some (flag, m') else Some (0, new_hash')
    end.

(** The element store of [hashmap_put] once an index is found. *)
Definition put_at (m : hashmap) (index : Z) (key : bytes) (len value : Z) : hashmap :=
  let used := e_in_use (slot m index) in
  Hashmap (m_table_size m)
    (if used =? 0 then u32 (m_size m + 1) else m_size m)
    (<[Z.to_nat index := Element key len (if used =? 0 then 1 else used) value]> (m_data m)).

Fixpoint hashmap_put (fuel : nat) (m : hashmap) (key : bytes) (len value : Z)
    : option (Z * hashmap) :=
  match fuel with
  | O => None
  | S fuel' =>
      match hashmap_hash_helper m key len with
      | Some index => Some (0, put_at m index key len value)
      | None =>
          match hashmap_rehash_helper (hashmap_put fuel') m with
          | None => None
          | Some (flag, m') =>
              if negb (flag =? 0) then Some (1, m')
              else hashmap_put fuel' m' key len value
          end
      end
  end.
End Alloc.

(** Table sizes are powers of two below [2^32] and every rehash doubles, so
    no run nests or repeats more than 32 of them. *)
Definition put_fuel : nat := 33.

(** ** Invariant and abstraction *)

Definition used (e : element) : Prop := e_in_use e <> 0.

#[export] Instance used_dec e : Decision (used e).
Proof. unfold used. apply _. Defined.

(** The slots a probe of length [n] visits from [curr]. *)
Fixpoint chain (ts curr : Z) (n : nat) : list Z :=
  match n with
  | O => []
  | S n' => curr :: chain ts ((curr + 1) mod ts) n'
  end.

Definition key_chain (m : hashmap) (k : bytes) : list Z :=
  chain (m_table_size m) (hashmap_hash_helper_int_helper m k (Zlen k))
    HASHMAP_MAX_CHAIN_LENGTH.

Definition in_range (m : hashmap) (i : Z) : Prop := 0 <= i < m_table_size m.

Record wf (m : hashmap) : Prop := {
  wf_ts : exists k, 0 <= k <= 31 /\ m_table_size m = 2 ^ k;
  wf_len : Zlen (m_data m) = m_table_size m;
  wf_size : m_size m = Zlen (filter used (m_data m));
  wf_elem : forall i, in_range m i -> used (slot m i) ->
    e_in_use (slot m i) = 1 /\
    e_key_len (slot m i) = Zlen (e_key (slot m i)) /\
    i ∈ key_chain m (e_key (slot m i));
  wf_uniq : forall i j, in_range m i -> in_range m j ->
    used (slot m i) -> used (slot m j) ->
    e_key (slot m i) = e_key (slot m j) -> i = j
}.

Definition entries (m : hashmap) : list (bytes * Z) :=
  (fun e => (e_key e, e_data e)) <$> filter used (m_data m).

(** The finite map a table stands for. *)
Definition to_map (m : hashmap) : gmap bytes Z := list_to_map (entries m).

Definition holds (m : hashmap) (i : Z) (k : bytes) (v : Z) : Prop :=
  in_range m i /\ used (slot m i) /\ e_key (slot m i) = k /\ e_data (slot m i) = v.

Definition hit (m : hashmap) (key : bytes) (len : Z) (i : Z) : bool :=
  negb (e_in_use (slot m i) =? 0) && hashmap_match_helper (slot m i) key len.

(** *** Chains *)

Lemma chain_elem ts curr n i :
  0 <= curr < ts ->
  i ∈ chain ts curr n <-> exists j, (j < n)%nat /\ i = (curr + Z.of_nat j) mod ts.
Proof.
  intros Hc. assert (Hcm : curr mod ts = curr) by (apply Z.mod_small; lia).
  revert curr Hc Hcm. induction n as [|n IH]; intros curr Hc Hcm; cbn [chain].
  - split; [by intros ?%elem_of_nil | intros (j & ? & _); lia].
  - assert (Hn : 0 <= (curr + 1) mod ts < ts) by (apply Z.mod_pos_bound; lia).
    rewrite elem_of_cons, IH by (try apply Z.mod_small; lia). split.
    + intros [-> | (j & Hj & ->)].
      * exists O. rewrite Z.add_0_r. split; [lia | done].
      * exists (S j). rewrite Z.add_mod_idemp_l by lia.
        split; [lia|]. f_equal. lia.
    + intros (j & Hj & ->). destruct j as [|j].
      * left. by rewrite Z.add_0_r.
      * right. exists j. rewrite Z.add_mod_idemp_l by lia.
        split; [lia|]. f_equal. lia.
Qed.

Lemma chain_range ts curr n i : 0 <= curr < ts -> i ∈ chain ts curr n -> 0 <= i < ts.
Proof.
  intros Hc (j & _ & ->)%chain_elem; [|done]. apply Z.mod_pos_bound. lia.
Qed.

Lemma length_chain ts curr n : length (chain ts curr n) = n.
Proof. revert curr. induction n as [|n IH]; intros; simpl; auto. Qed.

(** Every probing loop is a search along the chain. *)
Lemma get_probe_find m key len n curr :
  get_probe m key len n curr =
  match find (hit m key len) (chain (m_table_size m) curr n) with
  | Some i => e_data (slot m i)
  | None => HASHMAP_NULL
  end.
Proof.
  revert curr. induction n as [|n IH]; intros curr; [done|]. simpl.
  unfold hit at 1. case_match; [done|]. apply IH.
Qed.

Lemma remove_probe_find m key len n curr :
  remove_probe m key len n curr =
  match find (hit m key len) (chain (m_table_size m) curr n) with
  | Some i => (0, clear_slot m i)
  | None => (1, m)
  end.
Proof.
  revert curr. induction n as [|n IH]; intros curr; [done|]. simpl.
  unfold hit at 1. case_match; [done|]. apply IH.
Qed.

Lemma probe_match_find m key len n curr total :
  match probe_match m key len n curr total with
  | inl i => find (hit m key len) (chain (m_table_size m) curr n) = Some i
  | inr _ => find (hit m key len) (chain (m_table_size m) curr n) = None
  end.
Proof.
  revert curr total. induction n as [|n IH]; intros curr total; [done|]. simpl.
  fold (hit m key len curr). destruct (hit m key len curr); [done | apply IH].
Qed.

Lemma probe_free_elem m n curr i :
  probe_free m n curr = Some i ->
  i ∈ chain (m_table_size m) curr n /\ ~ used (slot m i).
Proof.
  revert curr. induction n as [|n IH]; intros curr; simpl; [done|]. case_match.
  - intros [= ->]. bool_hyps. split; [constructor | by intros []].
  - intros []%IH. split; [by constructor | done].
Qed.

(** *** Slots and counting *)

Lemma hash_range m k len :
  0 < m_table_size m ->
  0 <= hashmap_hash_helper_int_helper m k len < m_table_size m.
Proof. intros. unfold hashmap_hash_helper_int_helper. by apply Z.mod_pos_bound. Qed.

Lemma wf_ts_pos m : wf m -> 0 < m_table_size m.
Proof. intros [(k & ? & ->)]. apply Z.pow_pos_nonneg; lia. Qed.

Lemma wf_ts_max m : wf m -> m_table_size m <= 2 ^ 31.
Proof. intros [(k & ? & ->)]. apply Z.pow_le_mono_r; lia. Qed.

#[export] Hint Resolve wf_ts_pos wf_ts_max : nano.

Lemma key_chain_range m k i : 0 < m_table_size m -> i ∈ key_chain m k -> in_range m i.
Proof. intros Hm. apply chain_range. by apply hash_range. Qed.

Lemma slot_insert m i j e ts sz :
  Zlen (m_data m) = m_table_size m -> in_range m i -> 0 <= j ->
  slot (Hashmap ts sz (<[Z.to_nat i := e]> (m_data m))) j =
  if decide (i = j) then e else slot m j.
Proof.
  unfold slot, Zlen, in_range. simpl. intros Hl Hi Hj. case_decide as Hij.
  - subst j. rewrite list_lookup_insert_eq by lia. done.
  - rewrite list_lookup_insert_ne by lia. done.
Qed.

Lemma slot_lookup m i :
  Zlen (m_data m) = m_table_size m -> in_range m i ->
  m_data m !! Z.to_nat i = Some (slot m i).
Proof.
  unfold slot, Zlen, in_range. intros Hl Hi.
  destruct (lookup_lt_is_Some_2 (m_data m) (Z.to_nat i)) as [e He]; [lia|].
  by rewrite He.
Qed.

Definition used_z (e : element) : Z := if decide (used e) then 1 else 0.

Lemma count_insert (l : list element) i e0 e :
  l !! i = Some e0 ->
  Zlen (filter used (<[i := e]> l)) = Zlen (filter used l) - used_z e0 + used_z e.
Proof.
  revert i. induction l as [|x l IH]; intros [|i] H; try done; simpl in H.
  - injection H as ->. simpl. rewrite !filter_cons. unfold used_z, Zlen.
    repeat case_decide; simpl; lia.
  - simpl. rewrite !filter_cons. specialize (IH i H). unfold Zlen in *.
    case_decide; simpl; lia.
Qed.

Lemma count_le (l : list element) : Zlen (filter used l) <= Zlen l.
Proof.
  induction l as [|x l IH]; [done|]. rewrite filter_cons.
  case_decide; zlen; lia.
Qed.

Lemma count_full (l : list element) :
  Zlen (filter used l) = Zlen l -> Forall used l.
Proof.
  induction l as [|x l IH]; intros H; [done|].
  rewrite filter_cons in H. pose proof (count_le l). case_decide; zlen.
  - constructor; [done|]. apply IH. lia.
  - lia.
Qed.

(** *** The finite map of a table *)

Lemma elem_used_slot m e :
  Zlen (m_data m) = m_table_size m ->
  e ∈ filter used (m_data m) <-> exists i, in_range m i /\ used (slot m i) /\ slot m i = e.
Proof.
  intros Hl. rewrite list_elem_of_filter, list_elem_of_lookup. split.
  - intros [Hu [i Hi]]. exists (Z.of_nat i). unfold slot, in_range. rewrite Nat2Z.id, Hi.
    apply lookup_lt_Some in Hi. unfold Zlen in Hl. repeat split; try lia. done.
  - intros (i & Hr & Hu & <-). split; [done|]. exists (Z.to_nat i). by apply slot_lookup.
Qed.

Lemma elem_entries m k v :
  Zlen (m_data m) = m_table_size m -> (k, v) ∈ entries m <-> exists i, holds m i k v.
Proof.
  intros Hl. unfold entries. rewrite list_elem_of_fmap. split.
  - intros (e & [= -> ->] & (i & ? & ? & <-)%elem_used_slot); [|done]. by exists i.
  - intros (i & ? & ? & <- & <-). exists (slot m i). split; [done|].
    apply elem_used_slot; eauto.
Qed.

Lemma to_map_lookup m k v :
  wf m -> to_map m !! k = Some v <-> exists i, holds m i k v.
Proof.
  intros Hwf. pose proof (wf_len m Hwf) as Hl. unfold to_map. split.
  - intros H%elem_of_list_to_map_2. by apply elem_entries.
  - intros H. apply elem_of_list_to_map_1'; [|by apply elem_entries].
    intros y (j & ? & ? & Hk & <-)%elem_entries; [|done].
    destruct H as (i & ? & ? & <- & <-). by rewrite (wf_uniq m Hwf i j).
Qed.

Lemma to_map_None m k :
  wf m -> to_map m !! k = None <-> forall i v, ~ holds m i k v.
Proof.
  intros Hwf. rewrite eq_None_not_Some. split.
  - intros H i v Hh. apply H. exists v. apply to_map_lookup; eauto.
  - intros H [v (i & Hh)%to_map_lookup]; [|done]. by apply (H i v).
Qed.

Lemma hit_iff m k i :
  wf m -> in_range m i ->
  hit m k (Zlen k) i = true <-> used (slot m i) /\ e_key (slot m i) = k.
Proof.
  intros Hwf Hr. unfold hit, hashmap_match_helper.
  rewrite !andb_true_iff, negb_true_iff, Z.eqb_neq, Z.eqb_eq, bool_decide_eq_true.
  unfold used. split.
  - intros (Hu & Hlen & Heq). split; [done|].
    destruct (wf_elem m Hwf i Hr Hu) as (_ & Hkl & _).
    unfold Zlen in *. rewrite Nat2Z.id in Heq.
    rewrite !take_ge in Heq by lia. done.
  - intros (Hu & Hk). destruct (wf_elem m Hwf i Hr Hu) as (_ & Hkl & _).
    rewrite Hkl, Hk. done.
Qed.

(** The search along the chain of [k] is the lookup of [k]. *)
Lemma find_key m k :
  wf m ->
  match find (hit m k (Zlen k)) (key_chain m k) with
  | Some i => exists v, holds m i k v
  | None => to_map m !! k = None
  end.
Proof.
  intros Hwf. pose proof (wf_ts_pos m Hwf) as Hp.
  destruct (find _ _) as [i|] eqn:E.
  - apply find_some in E as [Hin%list_elem_of_In Hh].
    apply key_chain_range in Hin as Hr; [|done].
    apply hit_iff in Hh as [Hu <-]; [|done..]. by eexists.
  - apply to_map_None; [done|]. intros i v (Hr & Hu & Hk & Hv).
    destruct (wf_elem m Hwf i Hr Hu) as (_ & _ & Hin).
    rewrite Hk in Hin. apply list_elem_of_In in Hin.
    pose proof (find_none _ _ E i Hin) as Hf.
    rewrite (proj2 (hit_iff m k i Hwf Hr)) in Hf; done.
Qed.

(** *** Operations on a well-formed table *)

Lemma key_chain_ts m m' k :
  m_table_size m' = m_table_size m -> key_chain m' k = key_chain m k.
Proof. unfold key_chain, hashmap_hash_helper_int_helper. by intros ->. Qed.

Lemma wf_intro_update m i e sz :
  wf m -> in_range m i -> 
  (used e -> e_in_use e = 1 /\ e_key_len e = Zlen (e_key e) /\ i ∈ key_chain m (e_key e) /\
     forall j, in_range m j -> used (slot m j) -> e_key (slot m j) = e_key e -> i = j) ->
  sz = m_size m - used_z (slot m i) + used_z e ->
  wf (Hashmap (m_table_size m) sz (<[Z.to_nat i := e]> (m_data m))).
Proof.
  intros Hwf Hi He Hsz. pose proof (wf_len m Hwf) as Hl.
  assert (Hs : forall j, 0 <= j -> slot (Hashmap (m_table_size m) sz (<[Z.to_nat i:=e]> (m_data m))) j
     = if decide (i = j) then e else slot m j) by (intros; by apply slot_insert).
  constructor; simpl.
  - apply (wf_ts m Hwf).
  - unfold Zlen in *. by rewrite length_insert.
  - rewrite (count_insert _ _ (slot m i)) by (by apply slot_lookup).
    by rewrite <- (wf_size m Hwf).
  - intros j [Hj1 Hj2]. simpl in Hj2. rewrite Hs by done.
    rewrite (key_chain_ts m) by done.
    case_decide as Hij; [subst; intros (?&?&?&?)%He; done | by apply (wf_elem m Hwf)].
  - intros j1 j2 [] []. rewrite !Hs by done.
    repeat case_decide; subst; intros Hu1 Hu2 Hk; [done| | |].
    + apply (He Hu1); done.
    + symmetry. apply (He Hu2); done.
    + by apply (wf_uniq m Hwf).
Qed.

Lemma to_map_update m m' i k v :
  wf m -> wf m' ->
  (forall j k' v', k' <> k -> holds m' j k' v' <-> holds m j k' v') ->
  holds m' i k v ->
  to_map m' = <[k := v]> (to_map m).
Proof.
  intros Hwf Hwf' Hother Hk. apply map_eq. intros k'.
  destruct (decide (k = k')) as [<-|Hne].
  - rewrite lookup_insert_eq. apply to_map_lookup; eauto.
  - rewrite lookup_insert_ne by done. apply option_eq. intros v'.
    rewrite !to_map_lookup by done. by setoid_rewrite Hother.
Qed.

Lemma hash_helper_spec m k i :
  wf m -> hashmap_hash_helper m k (Zlen k) = Some i ->
  m_size m < m_table_size m /\ in_range m i /\ i ∈ key_chain m k /\
  ((used (slot m i) /\ e_key (slot m i) = k) \/
   (~ used (slot m i) /\ to_map m !! k = None)).
Proof.
  intros Hwf. pose proof (wf_ts_pos m Hwf) as Hp.
  unfold hashmap_hash_helper. case_match; [done|]. bool_hyps.
  pose proof (find_key m k Hwf) as Hf.
  pose proof (probe_match_find m k (Zlen k) HASHMAP_MAX_CHAIN_LENGTH
    (hashmap_hash_helper_int_helper m k (Zlen k)) 0) as Hpm.
  fold (key_chain m k) in Hpm.
  case_match; rewrite Hpm in Hf.
  - intros [= ->]. apply find_some in Hpm as [Hin%list_elem_of_In _].
    destruct Hf as (v & ? & ? & ? & _). split_and!; try done. left. done.
  - case_match; [|done]. intros [Hin Hu]%probe_free_elem.
    split_and!; try done; [by eapply key_chain_range | right; done].
Qed.

Lemma put_at_spec m k v i :
  wf m -> hashmap_hash_helper m k (Zlen k) = Some i ->
  wf (put_at m i k (Zlen k) v) /\ to_map (put_at m i k (Zlen k) v) = <[k := v]> (to_map m).
Proof.
  intros Hwf (Hsz & Hr & Hch & Hcase)%hash_helper_spec; [|done].
  pose proof (wf_len m Hwf) as Hl. pose proof (wf_ts_max m Hwf) as Hmax.
  set (e := Element k (Zlen k) (if e_in_use (slot m i) =? 0 then 1 else e_in_use (slot m i)) v).
  assert (He1 : e_in_use e = 1).
  { subst e. simpl. case_match; [done|]. bool_hyps.
    by destruct (wf_elem m Hwf i Hr). }
  assert (Hue : used e) by (unfold used; lia).
  assert (Hother : forall j, in_range m j -> used (slot m j) -> e_key (slot m j) = k -> i = j).
  { intros j Hj Hu Hk. destruct Hcase as [[Hui Hki]|[_ Hn]].
    - apply (wf_uniq m Hwf); try done. by rewrite Hk, Hki.
    - exfalso. eapply (proj1 (to_map_None m k Hwf) Hn j). done. }
  assert (Hwf' : wf (put_at m i k (Zlen k) v)).
  { apply wf_intro_update; [done..| |].
    - intros _. split_and!; done.
    - fold e. unfold used_z. rewrite (decide_True _ _ Hue). unfold used.
      pose proof (wf_size m Hwf) as Hs. pose proof (Zlen_nonneg (filter used (m_data m))).
      destruct (e_in_use (slot m i) =? 0) eqn:E; bool_hyps; case_decide; try lia.
      rewrite u32_small; lia. }
  assert (Hs : forall j, 0 <= j ->
    slot (put_at m i k (Zlen k) v) j = if decide (i = j) then e else slot m j)
    by (intros; by apply slot_insert).
  split; [done|]. apply (to_map_update m _ i); [done..| |].
  - intros j k' v' Hne. unfold holds.
    change (in_range (put_at m i k (Zlen k) v) j) with (in_range m j).
    split; intros (Hj & H); (split; [done|]);
      rewrite Hs in * by apply Hj; case_decide; try done; subst j.
    + destruct H as (_ & ? & _). by destruct Hne.
    + destruct H as (Hu & Hk' & Hv'). destruct Hcase as [[_ Hki]|[Hnu _]]; [|done].
      destruct Hne. congruence.
  - unfold holds. rewrite Hs by apply Hr. rewrite decide_True by done. done.
Qed.

Lemma clear_slot_spec m i k v :
  wf m -> holds m i k v ->
  wf (clear_slot m i) /\ to_map (clear_slot m i) = delete k (to_map m) /\
  (forall j, 0 <= j -> slot (clear_slot m i) j = if decide (i = j) then zero_element else slot m j).
Proof.
  intros Hwf (Hr & Hu & Hk & Hv). pose proof (wf_len m Hwf) as Hl.
  assert (Hs : forall j, 0 <= j -> slot (clear_slot m i) j = if decide (i = j) then zero_element else slot m j)
    by (intros; by apply slot_insert).
  assert (Hwf' : wf (clear_slot m i)).
  { apply wf_intro_update; [done..| |].
    - by intros [].
    - unfold used_z. rewrite (decide_True _ _ Hu). rewrite decide_False by (by intros []).
      pose proof (wf_size m Hwf) as Hsz. pose proof (wf_ts_max m Hwf).
      pose proof (count_le (m_data m)).
      pose proof (count_insert (m_data m) _ _ zero_element (slot_lookup m i Hl Hr)) as Hc.
      unfold used_z in Hc. rewrite (decide_True _ _ Hu) in Hc.
      rewrite decide_False in Hc by (by intros []).
      pose proof (Zlen_nonneg (filter used (<[Z.to_nat i:=zero_element]> (m_data m)))).
      rewrite u32_small; lia. }
  split_and!; [done| |done].
  apply map_eq. intros k'. apply option_eq. intros v'.
  rewrite lookup_delete_Some, !to_map_lookup by done. split.
  - intros (j & Hj & Hx). rewrite Hs in Hx by apply Hj.
    case_decide as Hij; [by destruct Hx as [[] _]|].
    split; [|by exists j]. intros Heq. destruct Hx as (Hu' & Hk' & _).
    destruct Hij. apply (wf_uniq m Hwf); [done..|congruence].
  - intros [Hne (j & Hj & Hx)]. exists j. unfold holds. split; [done|].
    rewrite Hs by apply Hj. case_decide; [|done]. subst j.
    destruct Hx as (_ & ? & _). destruct Hne. congruence.
Qed.

(** *** Creation *)

Lemma land_pred_pow2 k : 0 <= k -> Z.land (2 ^ k) (2 ^ k - 1) = 0.
Proof.
  intros Hk. rewrite <- (Z.ones_equiv k) || replace (2 ^ k - 1) with (Z.ones k)
    by (rewrite Z.ones_equiv; lia).
  rewrite Z.land_ones by lia. apply Z.mod_same. lia.
Qed.

Lemma land_pred_0_pow2 n : 0 < n -> Z.land n (n - 1) = 0 -> n = 2 ^ Z.log2 n.
Proof.
  intros Hn Hl. pose proof (Z.log2_spec n Hn) as [Hlo Hhi].
  destruct (decide (n = 2 ^ Z.log2 n)) as [?|Hne]; [done|]. exfalso.
  assert (Hl2 : Z.log2 (n - 1) = Z.log2 n)
    by (apply Z.log2_unique; [apply Z.log2_nonneg | lia]).
  assert (Hb : Z.testbit (Z.land n (n - 1)) (Z.log2 n) = true).
  { rewrite Z.land_spec, Z.bit_log2 by done. rewrite <- Hl2.
    rewrite Z.bit_log2; [done|]. pose proof (Z.pow_pos_nonneg 2 (Z.log2 n)).
    pose proof (Z.log2_nonneg n). lia. }
  rewrite Hl, Z.testbit_0_l in Hb. done.
Qed.

Definition fresh_map (n : Z) : hashmap := Hashmap n 0 (replicate (Z.to_nat n) zero_element).

Lemma slot_fresh n i : slot (fresh_map n) i = zero_element.
Proof.
  unfold slot, fresh_map. simpl. destruct (_ !! _) eqn:E; [|done].
  by apply lookup_replicate in E as [-> _].
Qed.

Lemma filter_used_fresh n : filter used (replicate n zero_element) = [].
Proof.
  induction n as [|n IH]; [done|]. cbn [replicate]. rewrite filter_cons.
  rewrite decide_False; [done|]. by intros [].
Qed.

Lemma wf_fresh k : 0 <= k <= 31 -> wf (fresh_map (2 ^ k)) /\ to_map (fresh_map (2 ^ k)) = ∅.
Proof.
  intros Hk. pose proof (Z.pow_pos_nonneg 2 k).
  split; [|unfold to_map, entries; cbn [fresh_map m_data]; by rewrite filter_used_fresh].
  constructor; cbn [fresh_map m_data m_size m_table_size].
  - eauto.
  - unfold Zlen. rewrite length_replicate. lia.
  - by rewrite filter_used_fresh.
  - intros i _. rewrite slot_fresh. by intros [].
  - intros i j _ _. rewrite slot_fresh. by intros [].
Qed.

Lemma create_pow2 ok k :
  0 <= k <= 31 ->
  hashmap_create ok (2 ^ k) =
  if ok (2 ^ k) then (0, fresh_map (2 ^ k)) else (1, Hashmap (2 ^ k) 0 []).
Proof.
  intros Hk. pose proof (Z.pow_pos_nonneg 2 k). unfold hashmap_create.
  assert (2 ^ k <= 2 ^ 31) by (apply Z.pow_le_mono_r; lia).
  rewrite u32_small by lia. rewrite land_pred_pow2 by lia.
  by rewrite (proj2 (Z.eqb_neq (2 ^ k) 0)) by lia.
Qed.

Lemma create_0 ok : hashmap_create ok 0 = (1, Hashmap 0 0 []).
Proof. done. Qed.

(** *** Rehashing *)

Section Rehash.
Variable ok : Z -> bool.
Variable put : hashmap -> bytes -> Z -> Z -> option (Z * hashmap).

(** Of the keys [A], one finds no slot in a table of at least [ts] slots that
    holds only others of them, and that table cannot be doubled: its size is at
    the end of 32 bits, or there is no memory. *)
Definition crowded (A : gmap bytes Z) (ts : Z) : Prop :=
  exists m k, wf m /\ ts <= m_table_size m /\
    (forall k', is_Some (to_map m !! k') -> is_Some (A !! k')) /\ is_Some (A !! k) /\
    hashmap_hash_helper m k (Zlen k) = None /\
    (m_table_size m = 2 ^ 31 \/ ok (2 * m_table_size m) = false).

Lemma crowded_mono A A' ts ts' :
  (forall k, is_Some (A !! k) -> is_Some (A' !! k)) -> ts' <= ts -> crowded A ts -> crowded A' ts'.
Proof.
  intros HA Hts (m & k & Hm & Hle & Hk' & Hk & Hno & Hg). exists m, k. split_and!; [done|lia|..]; eauto.
Qed.

(** What one call of [put] does to the table it is given. *)
Definition put_effect (m : hashmap) (k : bytes) (v : Z) (flag : Z) (m' : hashmap) : Prop :=
  wf m' /\ m_table_size m <= m_table_size m' /\
  ((flag = 0 /\ to_map m' = <[k := v]> (to_map m)) \/
   (flag = 1 /\ to_map m' ⊆ to_map m /\ crowded (<[k := v]> (to_map m)) (m_table_size m))).

Hypothesis put_ok : forall m k v flag m',
  wf m -> put m k (Zlen k) v = Some (flag, m') -> put_effect m k v flag m'.

Lemma iterate_rehash n i m c flag m' c' :
  wf m -> wf c -> 0 <= i -> i + Z.of_nat n = m_table_size m ->
  (forall j, 0 <= j < i -> ~ used (slot m j)) ->
  to_map m ##ₘ to_map c ->
  iterate_from (hashmap_rehash_iterator put) n i m c = Some (flag, m', c') ->
  wf m' /\ wf c' /\ m_table_size c <= m_table_size c' /\
  m_table_size m' = m_table_size m /\
  ((flag = 0 /\ to_map c' = to_map m ∪ to_map c) \/
   (flag = 1 /\ to_map m' ⊆ to_map m /\ crowded (to_map m ∪ to_map c) (m_table_size c))).
Proof using put_ok.
  revert i m c. induction n as [|n IH]; intros i m c Hm Hc Hi Hn Hclear Hdisj Hit.
  - injection Hit as <- <- <-. split_and!; [done|done|lia|done|]. left. split; [done|].
    assert (to_map m = ∅) as ->; [|by rewrite (left_id_L ∅ (∪))].
    apply map_empty. intros k. apply to_map_None; [done|].
    intros j v ((? & ?) & Hu & _). apply (Hclear j); [lia|done].
  - cbn [iterate_from] in Hit. case_match_in Hit; bool_hyps.
    { eapply IH in Hit; [done|done|done|lia|lia| |done].
      intros j Hj. destruct (decide (j = i)) as [->|]; [by intros []|].
      apply Hclear. lia. }
    assert (Hh : holds m i (e_key (slot m i)) (e_data (slot m i))).
    { split_and!; try done. split; lia. }
    destruct (wf_elem m Hm i) as (_ & Hkl & _); [apply Hh|done|].
    unfold hashmap_rehash_iterator in Hit at 1. rewrite Hkl in Hit.
    set (k := e_key (slot m i)) in *. set (v := e_data (slot m i)) in *.
    destruct (put c k (Zlen k) v) as [[temp c1]|] eqn:Hput; [|done].
    apply put_ok in Hput as (Hc1 & Hts & Heff); [|done].
    destruct (clear_slot_spec m i k v Hm Hh) as (Hm1 & Hm1map & Hslot).
    assert (HMk : to_map m !! k = Some v) by (apply to_map_lookup; eauto).
    destruct Heff as [[-> Hc1map]|(-> & Hsub & Hcr)]; simpl in Hit.
    + apply IH in Hit; [|done|done|lia|simpl; lia| |].
      * destruct Hit as (? & ? & ? & ? & Hres). split_and!; [done|done|lia|done|].
        rewrite Hm1map, Hc1map in Hres.
        assert (Hun : delete k (to_map m) ∪ <[k := v]> (to_map c) = to_map m ∪ to_map c).
        { rewrite <- insert_union_r by apply lookup_delete_eq.
          by rewrite insert_union_l, insert_delete_eq, insert_id by done. }
        destruct Hres as [[-> Hres]|(-> & Hres & Hcr)]; [left|right]; (split; [done|]).
        -- by rewrite Hres.
        -- split; [etrans; [exact Hres|apply delete_subseteq]|].
           rewrite Hun in Hcr. by eapply crowded_mono; [|exact Hts|exact Hcr].
      * intros j Hj. rewrite Hslot by lia. case_decide; [by intros []|].
        apply Hclear. lia.
      * rewrite Hm1map, Hc1map. apply map_disjoint_insert_r. split; [apply lookup_delete_eq|].
        eapply map_disjoint_weaken_l; [exact Hdisj|apply delete_subseteq].
    + injection Hit as <- <- <-. split_and!; [done|done|done|done|]. right. split_and!; [done..|].
      eapply crowded_mono; [|reflexivity|exact Hcr]. intros k' [->|[_ Hk']]%lookup_insert_is_Some.
      * apply lookup_union_is_Some. left. by eexists.
      * apply lookup_union_is_Some. by right.
Qed.

(** Rehashing terminates when [put] does on tables of the doubled size. *)
Lemma iterate_total K n i m c :
  (forall c k v, wf c -> 2 ^ K <= m_table_size c -> is_Some (put c k (Zlen k) v)) ->
  wf m -> wf c -> 2 ^ K <= m_table_size c -> 0 <= i ->
  i + Z.of_nat n = m_table_size m ->
  is_Some (iterate_from (hashmap_rehash_iterator put) n i m c).
Proof using put_ok.
  intros Htot. revert i m c. induction n as [|n IH]; intros i m c Hm Hc HK Hi Hn; [by eexists|].
  cbn [iterate_from]. case_match; bool_hyps; [apply IH; (done || lia)|].
  assert (Hh : holds m i (e_key (slot m i)) (e_data (slot m i))).
  { split_and!; try done. split; lia. }
  destruct (wf_elem m Hm i) as (_ & Hkl & _); [apply Hh|done|].
  unfold hashmap_rehash_iterator at 1. rewrite Hkl.
  destruct (Htot c (e_key (slot m i)) (e_data (slot m i)) Hc HK) as [[temp c1] Hput].
  rewrite Hput. apply put_ok in Hput as (Hc1 & Hts & Heff); [|done].
  destruct (clear_slot_spec m i _ _ Hm Hh) as (Hm1 & _).
  destruct Heff as [[-> _]|[-> _]]; simpl; [apply IH; simpl; (done || lia) | by eexists].
Qed.

Lemma rehash_total m k :
  (forall c key v, wf c -> 2 ^ (k + 1) <= m_table_size c -> is_Some (put c key (Zlen key) v)) ->
  wf m -> m_table_size m = 2 ^ k -> 0 <= k <= 31 ->
  is_Some (hashmap_rehash_helper ok put m).
Proof using put_ok.
  intros Htot Hm Hts Hk. unfold hashmap_rehash_helper. rewrite Hts.
  replace (2 * 2 ^ k) with (2 ^ (k + 1)) by (rewrite Z.pow_add_r; lia).
  destruct (decide (k = 31)) as [->|]; [by eexists|].
  assert (2 ^ (k + 1) <= 2 ^ 31) by (apply Z.pow_le_mono_r; lia).
  rewrite u32_small by (pose proof (Z.pow_pos_nonneg 2 (k + 1)); lia).
  rewrite create_pow2 by lia. destruct (ok _); simpl; [|by eexists].
  destruct (wf_fresh (k + 1)) as [Hf _]; [lia|].
  destruct (iterate_total (k + 1) (Z.to_nat (m_table_size m)) 0 m (fresh_map (2 ^ (k + 1))))
    as [[[r m1] c1] E]; try done; cbn [fresh_map m_table_size]; rewrite ?Hts; try lia.
  unfold hashmap_iterate_pairs. rewrite E. case_match; by eexists.
Qed.

Lemma rehash_spec m k flag m' :
  wf m -> m_table_size m = 2 ^ k -> 0 <= k <= 31 ->
  hashmap_rehash_helper ok put m = Some (flag, m') ->
  wf m' /\ ((flag = 0 /\ 2 ^ (k + 1) <= m_table_size m' /\ to_map m' = to_map m) \/
            (flag = 1 /\ m_table_size m <= m_table_size m' /\ to_map m' ⊆ to_map m /\
             (m_table_size m = 2 ^ 31 \/ ok (2 * m_table_size m) = false \/ crowded (to_map m) (m_table_size m)))).
Proof using put_ok.
  intros Hm Hts Hk. unfold hashmap_rehash_helper. rewrite Hts.
  replace (2 * 2 ^ k) with (2 ^ (k + 1)) by (rewrite Z.pow_add_r; lia).
  destruct (decide (k = 31)) as [->|].
  { change (u32 (2 ^ (31 + 1))) with 0. rewrite create_0. simpl.
    intros [= <- <-]. split; [done|]. right. split_and!; [done|lia|done|by left]. }
  assert (2 ^ (k + 1) <= 2 ^ 31) by (apply Z.pow_le_mono_r; lia).
  rewrite u32_small by (pose proof (Z.pow_pos_nonneg 2 (k + 1)); lia).
  rewrite create_pow2 by lia. destruct (ok _) eqn:Hok; simpl.
  2:{ intros [= <- <-]. split; [done|]. right. split_and!; [done|lia|done|].
      right. by left. }
  destruct (wf_fresh (k + 1)) as [Hf Hfm]; [lia|].
  unfold hashmap_iterate_pairs. destruct (iterate_from _ _ _ _ _) as [[[r m1] c1]|] eqn:E; [|done].
  apply iterate_rehash in E; [|done|done|lia|rewrite Hts; lia|intros; lia|
    rewrite Hfm; apply map_disjoint_empty_r].
  rewrite Hfm, (right_id_L ∅ (∪)) in E. cbn [fresh_map m_table_size] in E.
  destruct E as (? & ? & ? & ? & [[-> Hr]|(-> & Hr & Hcr)]); simpl; intros [= <- <-];
    (split; [done|]); [left|right]; split_and!; try (done || lia).
  right. right. refine (crowded_mono _ _ _ _ _ _ Hcr); [by intros ?|apply Z.pow_le_mono_r; lia].
Qed.
End Rehash.

(** *** Insertion *)

Lemma put_spec ok fuel m k v flag m' :
  wf m -> hashmap_put ok fuel m k (Zlen k) v = Some (flag, m') ->
  put_effect ok m k v flag m'.
Proof.
  revert m k v flag m'. induction fuel as [|fuel IH]; intros m k v flag m' Hm; [done|].
  cbn [hashmap_put]. destruct (hashmap_hash_helper m k (Zlen k)) as [i|] eqn:Ei.
  - intros [= <- <-]. destruct (put_at_spec m k v i Hm Ei) as [? ?].
    split; [done|]. split; [simpl; lia|]. by left.
  - destruct (hashmap_rehash_helper _ _ m) as [[r m1]|] eqn:Er; [|done].
    destruct (wf_ts m Hm) as (kk & Hkk & Hts).
    apply (rehash_spec _ _ IH _ kk) in Er; [|done..].
    assert (Hmono : 2 ^ kk <= 2 ^ (kk + 1)) by (apply Z.pow_le_mono_r; lia).
    assert (Hkeys : forall k', is_Some (to_map m !! k') -> is_Some (<[k := v]> (to_map m) !! k')).
    { intros k' Hk'. apply lookup_insert_is_Some'. by right. }
    destruct Er as (Hm1 & [(-> & Hle & Heq)|(-> & Hle & Hsub & Hcr)]); simpl.
    + intros (? & ? & Hres)%IH; [|done]. split; [done|]. split; [lia|]. rewrite <- Heq.
      destruct Hres as [?|(? & ? & Hcr)]; [by left|right]. split_and!; [done..|].
      refine (crowded_mono _ _ _ _ _ _ _ Hcr); [by intros ?|lia].
    + intros [= <- <-]. split; [done|]. split; [lia|]. right. split_and!; [done..|].
      destruct Hcr as [Hcr|[Hcr|Hcr]]; [| |refine (crowded_mono _ _ _ _ _ Hkeys _ Hcr); reflexivity];
        (exists m, k; split_and!; [done|lia|exact Hkeys|rewrite lookup_insert_eq; by eexists|done|by auto]).
Qed.

Lemma put_total ok fuel m k v kk :
  wf m -> m_table_size m = 2 ^ kk -> 0 <= kk -> 33 <= kk + Z.of_nat fuel ->
  is_Some (hashmap_put ok fuel m k (Zlen k) v).
Proof.
  revert m k v kk. induction fuel as [|fuel IH]; intros m k v kk Hm Hts Hk Hf.
  - exfalso. pose proof (wf_ts_max m Hm) as Hmax. rewrite Hts in Hmax.
    apply Z.pow_le_mono_r_iff in Hmax; lia.
  - assert (Hk31 : kk <= 31).
    { pose proof (wf_ts_max m Hm) as Hmax. rewrite Hts in Hmax.
      apply Z.pow_le_mono_r_iff in Hmax; lia. }
    assert (IH' : forall c key w, wf c -> 2 ^ (kk + 1) <= m_table_size c ->
              is_Some (hashmap_put ok fuel c key (Zlen key) w)).
    { intros c key w Hc Hle. destruct (wf_ts c Hc) as (k2 & ? & Hk2).
      apply (IH _ _ _ k2); [done|done|lia|].
      rewrite Hk2 in Hle. apply Z.pow_le_mono_r_iff in Hle; lia. }
    cbn [hashmap_put]. destruct (hashmap_hash_helper m k (Zlen k)); [by eexists|].
    destruct (rehash_total ok _ (put_spec ok fuel) m kk IH') as [[r m1] Er]; [done|done|lia|].
    rewrite Er. apply (rehash_spec ok _ (put_spec ok fuel) _ kk) in Er; [|done|done|lia].
    destruct Er as (Hm1 & [(-> & Hle & _)|(-> & _)]); simpl; [by apply IH' | by eexists].
Qed.

(** ** The exported, locked interface *)

Inductive mtx_event := MtxAlloc | MtxLock | MtxUnlock | MtxFree.

Section Nano.
Variable calloc_ok : Z -> bool.

Definition nano_hashmap_create (initial_size : Z) : list mtx_event * (Z * hashmap) :=
  ([MtxAlloc], hashmap_create calloc_ok initial_size).

Definition nano_hashmap_put (m : hashmap) (key : bytes) (len value : Z)
    : list mtx_event * option (Z * hashmap) :=
  ([MtxLock; MtxUnlock], hashmap_put calloc_ok put_fuel m key len value).

Definition nano_hashmap_get (m : hashmap) (key : bytes) (len : Z) : list mtx_event * Z :=
  ([MtxLock; MtxUnlock], hashmap_get m key len).

Definition nano_hashmap_remove (m : hashmap) (key : bytes) (len : Z)
    : list mtx_event * (Z * hashmap) :=
  ([MtxLock; MtxUnlock], hashmap_remove m key len).

Definition nano_hashmap_destroy (m : hashmap) : list mtx_event * hashmap :=
  ([MtxFree], hashmap_destroy m).
End Nano.

(** ** Reference CRC-32C *)

(** One bit of the reflected CRC with polynomial 0x11EDC6F41 (reflected,
    without its top bit: 0x82F63B78). *)
Definition crc_bit (c : Z) : Z :=
  Z.lxor (Z.shiftr c 1) (if Z.odd c then 0x82F63B78 else 0).

Definition crc32c_byte (crc b : Z) : Z := Nat.iter 8 crc_bit (Z.lxor crc (u8 b)).

Definition crc32c (s : bytes) : Z := fold_left crc32c_byte s 0.

Lemma crc_bit_lxor a b : crc_bit (Z.lxor a b) = Z.lxor (crc_bit a) (crc_bit b).
Proof.
  unfold crc_bit. rewrite Z.shiftr_lxor.
  assert (Z.odd (Z.lxor a b) = xorb (Z.odd a) (Z.odd b)) as ->
    by (rewrite <- !Z.bit0_odd; apply Z.lxor_spec).
  apply Z.bits_inj'. intros n Hn.
  destruct (Z.odd a), (Z.odd b); cbn [xorb]; rewrite !Z.lxor_spec, ?Z.testbit_0_l;
    destruct (Z.testbit (Z.shiftr a 1) n), (Z.testbit (Z.shiftr b 1) n),
      (Z.testbit 0x82F63B78 n); reflexivity.
Qed.

Lemma crc_iter_lxor n a b :
  Nat.iter n crc_bit (Z.lxor a b) = Z.lxor (Nat.iter n crc_bit a) (Nat.iter n crc_bit b).
Proof. induction n as [|n IH]; [done|]. simpl. by rewrite IH, crc_bit_lxor. Qed.

Lemma crc_bit_shift y n : crc_bit (Z.shiftl y (Z.of_nat (S n))) = Z.shiftl y (Z.of_nat n).
Proof.
  unfold crc_bit. rewrite <- Z.bit0_odd, Z.shiftl_spec_low by lia.
  rewrite Z.lxor_0_r, Z.shiftr_shiftl_l by lia. f_equal. lia.
Qed.

Lemma crc_iter_shift n y : Nat.iter n crc_bit (Z.shiftl y (Z.of_nat n)) = y.
Proof.
  revert y. induction n as [|n IH]; intros y; [by rewrite Z.shiftl_0_r|].
  rewrite Nat.iter_succ_r, crc_bit_shift. apply IH.
Qed.

(** The table is the CRC of each single byte. *)
Lemma crc32_tab_eq : crc32_tab = map (fun i => Nat.iter 8 crc_bit (Z.of_nat i)) (seq 0 256).
Proof. vm_compute. reflexivity. Qed.

Lemma crc32_tab_lookup i :
  0 <= i < 256 -> default 0 (crc32_tab !! Z.to_nat i) = Nat.iter 8 crc_bit i.
Proof.
  intros H. rewrite crc32_tab_eq, list_lookup_fmap, lookup_seq_lt by lia.
  cbn [fmap option_fmap option_map default]. by rewrite Nat.add_0_l, Z2Nat.id by lia.
Qed.

Lemma low_byte_split x : x = Z.lxor (u8 x) (Z.shiftl (Z.shiftr x 8) 8).
Proof.
  unfold u8. rewrite <- (Z.land_ones x 8) by lia. apply Z.bits_inj'. intros n Hn.
  rewrite Z.lxor_spec, Z.land_spec, Z.testbit_ones_nonneg by lia.
  destruct (Z.ltb_spec n 8).
  - rewrite Z.shiftl_spec_low by lia. by destruct (Z.testbit x n).
  - rewrite Z.shiftl_spec, Z.shiftr_spec by lia. rewrite andb_false_r.
    replace (n - 8 + 8) with n by lia. by destruct (Z.testbit x n).
Qed.

Lemma u8_lxor a b : u8 (Z.lxor a b) = Z.lxor (u8 a) (u8 b).
Proof.
  unfold u8. rewrite <- !(Z.land_ones _ 8) by lia. apply Z.bits_inj'. intros n Hn.
  rewrite !Z.lxor_spec, !Z.land_spec, !Z.lxor_spec.
  destruct (Z.testbit a n), (Z.testbit b n), (Z.testbit (Z.ones 8) n); reflexivity.
Qed.

Lemma u8_idem b : u8 (u8 b) = u8 b.
Proof. apply u8_small, u8_range. Qed.

Lemma shiftr8_u8 b : Z.shiftr (u8 b) 8 = 0.
Proof.
  pose proof (u8_range b). rewrite Z.shiftr_div_pow2 by lia. apply Z.div_small. lia.
Qed.

Lemma crc32_step_ref crc b : crc32_step crc b = crc32c_byte crc b.
Proof.
  unfold crc32_step, crc32c_byte.
  rewrite (low_byte_split (Z.lxor crc (u8 b))), crc_iter_lxor.
  rewrite (crc_iter_shift 8 (Z.shiftr _ 8)).
  rewrite u8_lxor, u8_idem, Z.shiftr_lxor, shiftr8_u8, Z.lxor_0_r.
  f_equal. apply crc32_tab_lookup.
  rewrite <- u8_lxor. apply u8_range.
Qed.

(** ** Number of entries *)

Lemma NoDup_used_keys (l : list element) :
  (forall i j e e', l !! i = Some e -> l !! j = Some e' -> used e -> used e' ->
     e_key e = e_key e' -> i = j) ->
  NoDup (e_key <$> filter used l).
Proof.
  induction l as [|x l IH]; intros H; [constructor|].
  assert (Hl : NoDup (e_key <$> filter used l)).
  { apply IH. intros i j e e' ?? ?? ?. assert (S i = S j) by (by eapply H). lia. }
  rewrite filter_cons. case_decide as Hx; [|done]. rewrite fmap_cons. constructor; [|done].
  intros (e & Hk & [Hu [j Hj]%list_elem_of_lookup]%list_elem_of_filter)%list_elem_of_fmap.
  assert (O = S j) by (by eapply (H O (S j) x e)). lia.
Qed.

Lemma size_to_map m : wf m -> Z.of_nat (size (to_map m)) = m_size m.
Proof.
  intros Hm. rewrite (wf_size m Hm). unfold Zlen. f_equal.
  pose proof (wf_len m Hm) as Hl.
  assert (Hnd : NoDup (entries m).*1).
  { unfold entries. rewrite <- list_fmap_compose.
    apply (NoDup_used_keys (m_data m)). intros i j e e' Hi Hj Hu Hu' Hk.
    pose proof (lookup_lt_Some _ _ _ Hi). pose proof (lookup_lt_Some _ _ _ Hj).
    unfold Zlen in Hl.
    assert (Z.of_nat i = Z.of_nat j); [|lia].
    apply (wf_uniq m Hm); unfold in_range, slot; rewrite ?Nat2Z.id, ?Hi, ?Hj; try done; lia. }
  unfold to_map. rewrite <- (length_fmap (fun e => (e_key e, e_data e))).
  fold (entries m). rewrite <- (map_to_list_to_map (entries m) Hnd) at 2.
  by rewrite map_to_list_length || rewrite length_map_to_list.
Qed.

(** ** Properties *)

(** Tables reachable by the exported operations, with the finite map their
    calls describe. *)
Inductive reach (calloc_ok : Z -> bool) : hashmap -> gmap bytes Z -> Prop :=
| reach_create n m :
    0 <= n < 2 ^ 32 -> hashmap_create calloc_ok n = (0, m) -> reach calloc_ok m ∅
| reach_put m M k v m' :
    reach calloc_ok m M ->
    hashmap_put calloc_ok put_fuel m k (Zlen k) v = Some (0, m') ->
    reach calloc_ok m' (<[k := v]> M)
| reach_remove m M k flag m' :
    reach calloc_ok m M -> hashmap_remove m k (Zlen k) = (flag, m') ->
    reach calloc_ok m' (delete k M).

Lemma create_spec ok n flag m :
  0 <= n < 2 ^ 32 -> hashmap_create ok n = (flag, m) ->
  (flag = 0 /\ (exists k, 0 <= k <= 31 /\ n = 2 ^ k /\ m = fresh_map (2 ^ k)) /\ ok n = true) \/
  (flag = 1 /\ ((forall k, 0 <= k -> n <> 2 ^ k) \/ ok n = false)).
Proof.
  intros Hn. unfold hashmap_create. case_match eqn:E1.
  - intros [= <- <-]. right. split; [done|]. left. intros k Hk ->.
    apply orb_true_iff in E1 as [E1|E1]; bool_hyps.
    + pose proof (Z.pow_pos_nonneg 2 k). lia.
    + apply E1. rewrite u32_small by (pose proof (Z.pow_pos_nonneg 2 k); lia).
      by apply land_pred_pow2.
  - bool_hyps. rewrite u32_small in * by lia.
    assert (Hp : n = 2 ^ Z.log2 n) by (apply land_pred_0_pow2; [lia|done]).
    destruct (ok n) eqn:Ek; intros [= <- <-]; [left|right]; (split; [done|]); [|by right].
    split; [|done]. exists (Z.log2 n). rewrite <- Hp. split_and!; try done.
    + apply Z.log2_nonneg.
    + assert (Z.log2 n < 32); [|lia]. apply Z.log2_lt_pow2; lia.
Qed.

Lemma get_spec m k : wf m -> hashmap_get m k (Zlen k) = default 0 (to_map m !! k).
Proof.
  intros Hm. unfold hashmap_get. rewrite get_probe_find. fold (key_chain m k).
  pose proof (find_key m k Hm) as Hf. destruct (find _ _) as [i|].
  - destruct Hf as (v & Hh). rewrite (proj2 (to_map_lookup m k v Hm)) by eauto.
    by destruct Hh as (_ & _ & _ & ->).
  - by rewrite Hf.
Qed.

Lemma remove_spec m k flag m' :
  wf m -> hashmap_remove m k (Zlen k) = (flag, m') ->
  wf m' /\ to_map m' = delete k (to_map m) /\
  flag = (if decide (is_Some (to_map m !! k)) then 0 else 1).
Proof.
  intros Hm. unfold hashmap_remove. rewrite remove_probe_find. fold (key_chain m k).
  pose proof (find_key m k Hm) as Hf. destruct (find _ _) as [i|].
  - destruct Hf as (v & Hh). destruct (clear_slot_spec m i k v Hm Hh) as (? & ? & _).
    intros [= <- <-]. split_and!; [done..|].
    by rewrite decide_True by (exists v; apply to_map_lookup; eauto).
  - intros [= <- <-]. split_and!; [done|by rewrite delete_id|].
    rewrite Hf, decide_False; [done|]. by intros [].
Qed.

Lemma reach_wf ok m M : reach ok m M -> wf m /\ to_map m = M.
Proof.
  induction 1 as [n m Hn Hc|m M k v m' _ [Hm <-] Hp|m M k flag m' _ [Hm <-] Hr].
  - apply create_spec in Hc as [(_ & (k & Hk & -> & ->) & _)|[? _]]; [|done|done].
    by apply wf_fresh.
  - apply put_spec in Hp as (? & _ & [[_ ?]|[? _]]); done.
  - by apply remove_spec in Hr as (? & ? & _).
Qed.

(** The 32-bit hash of a key, before reduction to a slot. *)
Definition key_hash (k : bytes) : Z := hash_mix (hashmap_crc32_helper k (Zlen k)).

Lemma slots_of_keys m (ks : list bytes) :
  wf m -> (forall k, k ∈ ks -> is_Some (to_map m !! k)) ->
  exists sl, Forall2 (fun k i => exists v, holds m i k v) ks sl.
Proof.
  intros Hm. induction ks as [|k ks IH]; intros H; [by exists []|].
  destruct IH as [sl His]; [intros; apply H; by constructor|].
  destruct (H k) as [v (i & Hi)%to_map_lookup]; [by constructor| |done].
  exists (i :: sl). constructor; eauto.
Qed.

Lemma NoDup_slots m (ks : list bytes) (sl : list Z) :
  NoDup ks -> Forall2 (fun k i => exists v, holds m i k v) ks sl -> NoDup sl.
Proof.
  intros Hnd HF. induction HF as [|k i ks sl [v Hh] HF IH]; [constructor|].
  inversion_clear Hnd as [|? ? Hk Hnd']. constructor; [|by apply IH].
  intros Hin. apply Hk. apply list_elem_of_lookup in Hin as [j Hj].
  destruct (Forall2_lookup_r _ _ _ _ _ HF Hj) as (k' & Hk' & v' & Hh').
  destruct Hh as (_ & _ & <- & _), Hh' as (_ & _ & <- & _).
  by apply list_elem_of_lookup_2 in Hk'.
Qed.

Lemma key_chain_hash m k h :
  key_hash k = h -> key_chain m k = chain (m_table_size m) (h mod m_table_size m) 8.
Proof.
  intros <-. unfold key_chain, hashmap_hash_helper_int_helper, key_hash. reflexivity.
Qed.

Lemma collision_limit_aux m h (ks : list bytes) :
  wf m -> NoDup ks ->
  (forall k, k ∈ ks -> key_hash k = h /\ is_Some (to_map m !! k)) ->
  (length ks <= 8)%nat.
Proof.
  intros Hm Hnd H. destruct (slots_of_keys m ks Hm) as [sl His].
  { intros k Hk. by apply H. }
  apply Forall2_length in His as Hlen. rewrite Hlen.
  rewrite <- (length_chain (m_table_size m) (h mod m_table_size m) 8).
  apply NoDup_incl_length; [by apply NoDup_ListNoDup, (NoDup_slots m ks)|].
  intros i Hi%list_elem_of_In. apply list_elem_of_In.
  apply list_elem_of_lookup in Hi as [j Hj].
  destruct (Forall2_lookup_r _ _ _ _ _ His Hj) as (k & Hk & v & Hr & Hu & Hkey & _).
  destruct (H k) as [Hh _]; [by eapply list_elem_of_lookup_2|].
  destruct (wf_elem m Hm i Hr Hu) as (_ & _ & Hin).
  by rewrite Hkey, (key_chain_hash m k h Hh) in Hin.
Qed.

(** Calls of the exported functions, and a run of them: what each returns, and
    the table at the end. *)
Inductive hm_op := HPut (k : bytes) (v : Z) | HGet (k : bytes) | HRemove (k : bytes) | HSize.

Definition hm_step (calloc_ok : Z -> bool) (m : hashmap) (op : hm_op) : option (Z * hashmap) :=
  match op with
  | HPut k v => hashmap_put calloc_ok put_fuel m k (Zlen k) v
  | HGet k => Some (hashmap_get m k (Zlen k), m)
  | HRemove k => Some (hashmap_remove m k (Zlen k))
  | HSize => Some (hashmap_num_entries m, m)
  end.

Fixpoint hm_run (calloc_ok : Z -> bool) (m : hashmap) (ops : list hm_op) : option (list Z * hashmap) :=
  match ops with
  | [] => Some ([], m)
  | op :: ops' =>
      match hm_step calloc_ok m op with
      | None => None
      | Some (r, m) =>
          match hm_run calloc_ok m ops' with
          | None => None
          | Some (rs, m) => Some (r :: rs, m)
          end
      end
  end.

(** The same calls on a finite map; [flags] says of each call whether it is
    carried out, which only a put may not be. *)
Definition map_step (M : gmap bytes Z) (op : hm_op) (done : bool) : Z * gmap bytes Z :=
  match op with
  | HPut k v => if done then (0, <[k := v]> M) else (1, M)
  | HGet k => (default 0 (M !! k), M)
  | HRemove k => (if decide (is_Some (M !! k)) then 0 else 1, delete k M)
  | HSize => (Z.of_nat (size M), M)
  end.

Fixpoint map_run (M : gmap bytes Z) (ops : list hm_op) (flags : list bool) : list Z * gmap bytes Z :=
  match ops, flags with
  | op :: ops', done :: flags' =>
      let '(r, M) := map_step M op done in let '(rs, M) := map_run M ops' flags' in (r :: rs, M)
  | _, _ => ([], M)
  end.

(** The puts of a run that were answered with 0. *)
Definition put_done (op : hm_op) (r : Z) : bool := match op with HPut _ _ => r =? 0 | _ => true end.

Lemma hm_step_spec ok m op :
  wf m -> exists r m', hm_step ok m op = Some (r, m') /\ wf m' /\
    (put_done op r = true -> (r, to_map m') = map_step (to_map m) op true) /\
    (put_done op r = false -> to_map m' ⊆ to_map m).
Proof.
  intros Hm. destruct op as [k v|k|k|]; cbn [hm_step put_done map_step].
  - destruct (wf_ts m Hm) as (kk & Hkk & Hts).
    destruct (put_total ok put_fuel m k v kk) as [[flag m'] Hput]; [done|done|lia|unfold put_fuel; lia|].
    exists flag, m'. split; [done|]. apply put_spec in Hput as (Hm' & _ & [[-> ->]|(-> & Hs & _)]); [|done..]; done.
  - exists (hashmap_get m k (Zlen k)), m. split_and!; [done|done|intros _|done]. by rewrite get_spec.
  - destruct (hashmap_remove m k (Zlen k)) as [flag m'] eqn:E. exists flag, m'. split; [done|].
    apply remove_spec in E as (Hm' & Hmap & ->); [|done]. split_and!; [done| |done]. by rewrite Hmap.
  - exists (hashmap_num_entries m), m. split_and!; [done|done|intros _|done]. by rewrite size_to_map.
Qed.

Lemma map_step_mono M M' op :
  M ⊆ M' -> (map_step M op true).2 ⊆ (map_step M' op true).2.
Proof. intros HM. destruct op; cbn; [by apply insert_mono|done|by apply delete_mono|done]. Qed.

Lemma hm_run_spec ok m ops M :
  wf m -> to_map m ⊆ M ->
  exists rs m', hm_run ok m ops = Some (rs, m') /\ wf m' /\ length rs = length ops /\
    to_map m' ⊆ (map_run M ops (zip_with put_done ops rs)).2 /\
    (to_map m = M -> Forall (fun b => b = true) (zip_with put_done ops rs) ->
     (rs, to_map m') = map_run M ops (replicate (length ops) true)).
Proof.
  revert m M. induction ops as [|op ops IH]; intros m M Hm HM; cbn [hm_run].
  - exists [], m. split_and!; try done. by intros ->.
  - destruct (hm_step_spec ok m op Hm) as (r & m1 & -> & Hm1 & Hdone & Hfail).
    assert (HM1 : to_map m1 ⊆ (map_step M op (put_done op r)).2).
    { destruct (put_done op r) eqn:Ed.
      - specialize (Hdone eq_refl). assert (Hm1eq : to_map m1 = (map_step (to_map m) op true).2) by (by rewrite <- Hdone).
        rewrite Hm1eq. by apply map_step_mono.
      - specialize (Hfail eq_refl). destruct op; try discriminate. cbn. by etrans. }
    destruct (IH m1 _ Hm1 HM1) as (rs & m' & -> & Hm' & Hlen & Hsub & Heq).
    exists (r :: rs), m'. split; [done|]. split; [done|]. split; [cbn; by rewrite Hlen|].
    cbn [zip_with map_run replicate length]. split.
    + destruct (map_step M op (put_done op r)) as [r' M1]. cbn [snd] in *. by destruct (map_run M1 _ _).
    + intros HMeq HF0. subst M. apply Forall_cons_1 in HF0 as [Hd HF]. specialize (Hdone Hd). rewrite Hd in Heq, HM1.
      assert (Hm1eq : to_map m1 = (map_step (to_map m) op true).2) by (by rewrite <- Hdone).
      specialize (Heq Hm1eq HF). rewrite <- Hdone in *. cbn [snd] in *. by rewrite <- Heq.
Qed.

(** C6: A table just created and then used by any sequence of put, get, remove
    and num_entries: every call returns.  As long as no put is answered with 1,
    the table behaves like a finite map, the answers included (0 for a key that
    is absent), growing as it needs.  Once a put has failed, entries may be
    missing, but the table still holds no binding that a finite map, with the
    failed puts left out, would not hold. *)
Theorem hashmap_refines_map ok n m ops :
  0 <= n < 2 ^ 32 -> hashmap_create ok n = (0, m) ->
  exists rs m', hm_run ok m ops = Some (rs, m') /\ wf m' /\ length rs = length ops /\
    to_map m' ⊆ (map_run ∅ ops (zip_with put_done ops rs)).2 /\
    (Forall (fun b => b = true) (zip_with put_done ops rs) ->
     (rs, to_map m') = map_run ∅ ops (replicate (length ops) true)).
Proof.
  intros Hn Hc. destruct (reach_wf ok m ∅) as [Hm HM]; [by eapply reach_create|].
  destruct (hm_run_spec ok m ops ∅ Hm) as (rs & m' & Hr & Hm' & Hl & Hs & He); [by rewrite HM|].
  exists rs, m'. split_and!; auto.
Qed.

(** C15: on every well-formed table [hashmap_put] terminates within the fuel
    (at most 32 doublings).  It either inserts the binding and keeps every other
    one, or reports failure, and then the table holds no binding it did not hold
    before.  It fails only where the key, or one of those already there, found no
    slot in a table, grown from this one, that could not be doubled. *)
Theorem hashmap_put_correct ok m k v :
  wf m ->
  exists flag m', hashmap_put ok put_fuel m k (Zlen k) v = Some (flag, m') /\
    wf m' /\ m_table_size m <= m_table_size m' /\
    ((flag = 0 /\ to_map m' = <[k := v]> (to_map m)) \/
     (flag = 1 /\ to_map m' ⊆ to_map m /\ crowded ok (<[k := v]> (to_map m)) (m_table_size m))).
Proof.
  intros Hm. destruct (wf_ts m Hm) as (kk & Hkk & Hts).
  destruct (put_total ok put_fuel m k v kk) as [[flag m'] Hput];
    [done|done|lia|unfold put_fuel; lia|].
  exists flag, m'. split; [done|]. by apply put_spec in Hput.
Qed.

(** [hashmap_remove] deletes exactly the given key, keeps the table well
    formed and returns 0 when the key was there and 1 otherwise. *)
Theorem hashmap_remove_correct m k :
  wf m ->
  exists m', hashmap_remove m k (Zlen k) = (if decide (is_Some (to_map m !! k)) then 0 else 1, m') /\
    wf m' /\ to_map m' = delete k (to_map m) /\ hashmap_get m' k (Zlen k) = 0.
Proof.
  intros Hm. destruct (hashmap_remove m k (Zlen k)) as [flag m'] eqn:E.
  apply remove_spec in E as (Hm' & Hmap & ->); [|done].
  exists m'. split_and!; try done. by rewrite get_spec, Hmap, lookup_delete_eq.
Qed.

(** C34: the table-driven [hashmap_crc32_helper] computes the bitwise CRC-32C
    (polynomial 0x11EDC6F41, the one of the SSE 4.2 instruction the other
    branch uses) of the first [len] bytes. *)
Theorem hashmap_crc32_is_crc32c s len :
  hashmap_crc32_helper s len = crc32c (take (Z.to_nat len) s).
Proof.
  unfold hashmap_crc32_helper, crc32c. apply fold_left_ext. exact crc32_step_ref.
Qed.

(** No table holds more than eight keys of one 32-bit hash, whatever its
    size; inserting a ninth never succeeds, however much memory there is. *)
Theorem hashmap_ninth_collision_fails ok m h (ks : list bytes) k v :
  wf m -> NoDup (k :: ks) -> length ks = 8%nat ->
  (forall k', k' ∈ ks -> key_hash k' = h /\ is_Some (to_map m !! k')) -> key_hash k = h ->
  exists m', hashmap_put ok put_fuel m k (Zlen k) v = Some (1, m').
Proof.
  intros Hm Hnd Hlen Hks Hk. destruct (wf_ts m Hm) as (kk & Hkk & Hts).
  destruct (put_total ok put_fuel m k v kk) as [[flag m'] Hput];
    [assumption|assumption|lia|unfold put_fuel; lia|].
  apply put_spec in Hput as Heff; [|assumption].
  destruct Heff as (Hm' & _ & [[-> Hmap]|[-> _]]); [|by exists m'].
  exfalso. assert (Hle : (length (k :: ks) <= 8)%nat); [|cbn [length] in Hle; lia].
  apply (collision_limit_aux m' h); [assumption..|]. rewrite Hmap.
  intros k' [->|Hin]%elem_of_cons; [|].
  { split; [exact Hk|]. rewrite lookup_insert_eq. by eexists. }
  destruct (Hks k' Hin) as [? ?]. split; [assumption|].
  apply lookup_insert_is_Some. destruct (decide (k = k')); [left; assumption | right; split; assumption].
Qed.

(** [hashmap_create] succeeds exactly on a non-zero power of two that can
    be allocated, and then yields the empty table. *)
Theorem hashmap_create_correct ok n :
  0 <= n < 2 ^ 32 ->
  (exists m, hashmap_create ok n = (0, m) /\ wf m /\ to_map m = ∅) <->
  (exists k, n = 2 ^ k /\ 0 <= k) /\ ok n = true.
Proof.
  intros Hn. destruct (hashmap_create ok n) as [flag m] eqn:E.
  apply create_spec in E as [(-> & (k & Hk & -> & ->) & Hok)|(-> & Hc)]; [| |done]; split.
  - intros _. split; [|done]. exists k. lia.
  - intros _. exists (fresh_map (2 ^ k)). split; [done|]. by apply wf_fresh.
  - intros (? & [=] & _).
  - intros [(k & -> & Hk) Hok]. destruct Hc as [Hc|Hc]; [by destruct (Hc k)|congruence].
Qed.

(** ** Concrete tables *)

Definition always_ok (n : Z) : bool := true.

(** Tables of more than 32 elements cannot be allocated. *)
Definition ok_up_to_32 (n : Z) : bool := n <=? 32.

(** One put that must succeed. *)
Definition put1 (ok : Z -> bool) (m : hashmap) (kv : bytes * Z) : option hashmap :=
  match hashmap_put ok put_fuel m kv.1 (Zlen kv.1) kv.2 with
  | Some (flag, m') => if flag =? 0 then Some m' else None
  | None => None
  end.

Fixpoint steps {A B} (step : A -> B -> option A) (a : A) (l : list B) : option A :=
  match l with
  | [] => Some a
  | x :: l' => match step a x with Some a' => steps step a' l' | None => None end
  end.

Lemma steps_simulation {A B C} (step : A -> B -> option A) (spec : C -> B -> C)
    (R : A -> C -> Prop) :
  (forall a c x a', R a c -> step a x = Some a' -> R a' (spec c x)) ->
  forall l a c a', R a c -> steps step a l = Some a' -> R a' (foldl spec c l).
Proof.
  intros Hstep l. induction l as [|x l IH]; intros a c a' Hr Hs; cbn [steps foldl] in *.
  - by injection Hs as <-.
  - destruct (step a x) as [a1|] eqn:E; [|done]. eauto.
Qed.

Definition put_all (ok : Z -> bool) : hashmap -> list (bytes * Z) -> option hashmap :=
  steps (put1 ok).

Definition insert_kv (M : gmap bytes Z) (kv : bytes * Z) : gmap bytes Z := <[kv.1 := kv.2]> M.

Definition insert_all : gmap bytes Z -> list (bytes * Z) -> gmap bytes Z := foldl insert_kv.

Lemma put1_reach ok m M kv m' :
  reach ok m M -> put1 ok m kv = Some m' -> reach ok m' (insert_kv M kv).
Proof.
  unfold put1. intros Hr H.
  destruct (hashmap_put ok put_fuel m kv.1 (Zlen kv.1) kv.2) as [[flag m1]|] eqn:E; [|discriminate H].
  destruct (Z.eqb_spec flag 0) as [->|]; [|discriminate H].
  injection H as ->. exact (reach_put ok m M _ _ m' Hr E).
Qed.

Lemma put_all_reach ok m M kvs m' :
  reach ok m M -> put_all ok m kvs = Some m' -> reach ok m' (insert_all M kvs).
Proof. exact (steps_simulation (put1 ok) insert_kv (reach ok) (put1_reach ok) kvs m M m'). Qed.

Definition demo_kvs : list (bytes * Z) :=
  [([99;49;49], 7); ([99;50;48], 8); ([99;50;56], 9); ([99;51;52], 10)].

Definition demo_table : hashmap :=
  Eval vm_compute in default (fresh_map 4) (put_all always_ok (fresh_map 4) demo_kvs).

Definition demo_map : gmap bytes Z := insert_all ∅ demo_kvs.

Lemma demo_reach : reach always_ok demo_table demo_map.
Proof.
  apply (put_all_reach always_ok (fresh_map 4) ∅ demo_kvs).
  - apply (reach_create _ 4); [lia | reflexivity].
  - vm_compute. reflexivity.
Defined.

Lemma demo_wf : wf demo_table.
Proof. exact (proj1 (reach_wf _ _ _ demo_reach)). Qed.

Definition demo_ops : list hm_op :=
  ((fun kv => HPut kv.1 kv.2) <$> demo_kvs) ++ [HGet [99;50;56]; HRemove [99;50;48]; HGet [99;50;48]; HSize].

(** Four puts into a table of two, which grows, and what is found then. *)
Lemma hashmap_refines_map_witness :
  exists m', hm_run always_ok (fresh_map 2) demo_ops = Some ([0; 0; 0; 0; 9; 0; 0; 3], m') /\
    to_map m' = (map_run ∅ demo_ops (replicate 8 true)).2 /\ 2 < m_table_size m'.
Proof.
  destruct (hashmap_refines_map always_ok 2 (fresh_map 2) demo_ops) as (rs & m' & Hr & _ & _ & _ & Heq);
    [lia|reflexivity|].
  assert (Hc : (fun r => (r.1, m_table_size r.2)) <$> hm_run always_ok (fresh_map 2) demo_ops =
    Some ([0; 0; 0; 0; 9; 0; 0; 3], 4)) by (vm_compute; reflexivity).
  rewrite Hr in Hc. injection Hc as -> Hts. exists m'. split; [exact Hr|]. rewrite Hts. split; [|lia].
  specialize (Heq ltac:(repeat constructor)). exact (f_equal snd Heq).
Defined.

Lemma hashmap_put_correct_witness :
  exists flag m', hashmap_put always_ok put_fuel demo_table [65] 1 3 = Some (flag, m') /\ wf m'.
Proof.
  destruct (hashmap_put_correct always_ok demo_table [65] 3 demo_wf) as (f & m' & H & Hw & _).
  exists f, m'. split; [exact H | exact Hw].
Defined.

Lemma hashmap_remove_correct_witness :
  exists m', fst (hashmap_remove demo_table [99;50;48] 3) = 0 /\
    hashmap_get m' [99;50;48] 3 = 0.
Proof.
  destruct (hashmap_remove_correct demo_table [99;50;48] demo_wf) as (m' & H & _ & _ & Hg).
  exists m'. split; [reflexivity | exact Hg].
Defined.

(** Nine runs of zero bytes: their CRC, and so their hash, is 0. *)
Definition zero_keys : list bytes := (fun n => replicate (S n) 0) <$> seq 0 8.

Definition zero_table : hashmap :=
  Eval vm_compute in
    default (fresh_map 16) (put_all always_ok (fresh_map 16) ((fun k => (k, 1)) <$> zero_keys)).

Lemma zero_reach :
  reach always_ok zero_table
    (insert_all ∅ ((fun k => (k, 1)) <$> zero_keys)).
Proof.
  apply (put_all_reach always_ok (fresh_map 16) ∅).
  - apply (reach_create _ 16); [lia | reflexivity].
  - vm_compute. reflexivity.
Defined.

Lemma hashmap_ninth_collision_fails_witness :
  exists m', hashmap_put always_ok put_fuel zero_table (replicate 9 0) 9 1 = Some (1, m').
Proof.
  apply (hashmap_ninth_collision_fails always_ok zero_table (key_hash [0]) zero_keys (replicate 9 0) 1).
  - exact (proj1 (reach_wf _ _ _ zero_reach)).
  - apply (bool_decide_unpack _). vm_compute. exact I.
  - reflexivity.
  - rewrite (proj2 (reach_wf _ _ _ zero_reach)).
    intros k' Hk'. apply list_elem_of_In in Hk'.
    repeat (destruct Hk' as [<-|Hk']; [split; [vm_compute; reflexivity | vm_compute; by eexists]|]).
    destruct Hk'.
  - vm_compute. reflexivity.
Defined.

Lemma hashmap_create_correct_witness :
  exists m, hashmap_create always_ok 64 = (0, m) /\ wf m /\ to_map m = ∅.
Proof.
  apply (hashmap_create_correct always_ok 64); [lia|]. split; [|reflexivity].
  exists 6. split; [reflexivity | lia].
Defined.

(** Nine client ids, eight with home slot 12 and one with home slot 13 of a
    table of 32, in the order they are inserted. *)
Definition crowded_kvs : list (bytes * Z) :=
  (fun k => (k, 1)) <$>
  [[99;49;49]; [99;50;48]; [99;50;56]; [99;51;52]; [99;55;48]; [99;55;51];
   [100;48;57]; [100;50;54]; [99;50;55]].

Definition crowded_table : hashmap :=
  Eval vm_compute in default (fresh_map 16) (put_all ok_up_to_32 (fresh_map 16) crowded_kvs).

(** A put whose rehash runs out of memory is not a no-op: the entries
    already moved to the abandoned table are gone.  With nine entries stored
    and allocation failing at 64 slots, the failed put of a tenth key leaves a
    single entry. *)
Theorem hashmap_put_failure_loses_entries :
  exists M m', reach ok_up_to_32 crowded_table M /\ size M = 9%nat /\
    hashmap_put ok_up_to_32 put_fuel crowded_table [100;51;55] 3 1 = Some (1, m') /\
    size (to_map m') = 1%nat.
Proof.
  eexists _, _. split_and!.
  - apply (put_all_reach ok_up_to_32 (fresh_map 16) ∅ crowded_kvs).
    + apply (reach_create _ 16); [lia | reflexivity].
    + vm_compute. reflexivity.
  - vm_compute. reflexivity.
  - vm_compute. reflexivity.
  - vm_compute. reflexivity.
Qed.
