(* ===== verification/Mqtt.v ===== *)
(** * MQTT data of the broker

    The packet structures of include/pub_handler.h and the fields of the nng
    packet structures (topic_node, packet_subscribe, packet_unsubscribe) the
    handlers use, with the numeric codes of the MQTT standard. *)

From Stdlib Require Import ZArith Lia.
From stdpp Require Import base numbers list gmap option.
From S2P Require Import Prelude.

Local Open Scope Z_scope.

(** ** Codes of the MQTT standard *)

Definition SUCCESS : Z := 0x00.
Definition GRANTED_QOS_2 : Z := 0x02.
Definition UNSPECIFIED_ERROR : Z := 0x80.
Definition PROTOCOL_ERROR : Z := 0x82.
Definition TOPIC_FILTER_INVALID : Z := 0x8F.
Definition PACKET_IDENTIFIER_IN_USE : Z := 0x91.

Definition MQTT_PROTOCOL_VERSION_v311 : Z := 4.
Definition MQTT_PROTOCOL_VERSION_v5 : Z := 5.

(** Control packet types: the high nibble of a packet's first byte. *)
Definition PUBLISH : Z := 3.
Definition PUBACK : Z := 4.
Definition PUBREC : Z := 5.
Definition PUBREL : Z := 6.
Definition PUBCOMP : Z := 7.
Definition SUBACK : Z := 9.
Definition UNSUBACK : Z := 11.

(** Message tags of the broker ([nng_msg_cmd_type]). *)
Inductive cmd_type :=
| CMD_UNKNOWN | CMD_CONNECT | CMD_CONNACK | CMD_PUBLISH | CMD_PUBLISH_V5
| CMD_PUBACK | CMD_PUBREC | CMD_PUBREL | CMD_PUBCOMP
| CMD_SUBSCRIBE | CMD_SUBACK | CMD_UNSUBSCRIBE | CMD_UNSUBACK
| CMD_PINGREQ | CMD_PINGRESP | CMD_DISCONNECT | CMD_AUTH | CMD_DISCONNECT_EV.

#[export] Instance cmd_type_eq_dec : EqDecision cmd_type.
Proof. solve_decision. Defined.

(** MQTT 5 property identifiers the handlers look up. *)
Definition MESSAGE_EXPIRY_INTERVAL : Z := 0x02.
Definition SUBSCRIPTION_IDENTIFIER : Z := 0x0B.
Definition TOPIC_ALIAS : Z := 0x23.

(** ** Fixed header *)

Record fixed_header := FixedHeader {
  fh_retain : Z;
  fh_qos : Z;
  fh_dup : Z;
  fh_packet_type : Z;
  fh_remain_len : Z
}.

Definition fixed_header_ok (h : fixed_header) : Prop :=
  0 <= fh_retain h < 2 /\ 0 <= fh_qos h < 4 /\ 0 <= fh_dup h < 2 /\
  0 <= fh_packet_type h < 16.

(** The first byte of the bit-field structure: retain is its lowest bit. *)
Definition fixed_header_byte (h : fixed_header) : Z :=
  Z.lor (Z.lor (Z.land (fh_retain h) 1) (Z.shiftl (Z.land (fh_qos h) 3) 1))
        (Z.lor (Z.shiftl (Z.land (fh_dup h) 1) 3) (Z.shiftl (Z.land (fh_packet_type h) 15) 4)).

Definition fixed_header_of_byte (b remain_len : Z) : fixed_header :=
  FixedHeader (Z.land b 1) (Z.land (Z.shiftr b 1) 3) (Z.land (Z.shiftr b 3) 1)
    (Z.land (Z.shiftr b 4) 15) remain_len.

(** ** PUBLISH packets *)

(** [struct mqtt_string]: NULL body is [None]. *)
Record mqtt_string := MqttString { ms_body : option bytes; ms_len : Z }.

Section WithProperty.
Variable property : Type.

Record publish_header := PublishHeader {
  ph_packet_id : Z;
  ph_topic_name : mqtt_string;
  ph_properties : option property;
  ph_prop_len : Z
}.

Record arrc_header := ArrcHeader {
  ah_packet_id : Z;
  ah_reason_code : Z;
  ah_properties : option property;
  ah_prop_len : Z
}.

(** [union variable_header]; [packet_id] is the first member of both arms. *)
Inductive variable_header :=
| VPublish (p : publish_header)
| VArrc (a : arrc_header).

Record mqtt_payload := MqttPayload { pl_data : option bytes; pl_len : Z }.

Record pub_packet_struct := PubPacket {
  pp_fixed_header : fixed_header;
  pp_var_header : variable_header;
  pp_payload : mqtt_payload
}.

(** A zero-allocated packet. *)
Definition zero_pub_packet : pub_packet_struct :=
  PubPacket (FixedHeader 0 0 0 0 0)
    (VPublish (PublishHeader 0 (MqttString None 0) None 0)) (MqttPayload None 0).

Definition var_packet_id (v : variable_header) : Z :=
  match v with VPublish p => ph_packet_id p | VArrc a => ah_packet_id a end.

(** The [publish] arm, read as the code reads it. *)
Definition var_publish (v : variable_header) : publish_header :=
  match v with
  | VPublish p => p
  | VArrc a => PublishHeader (ah_packet_id a) (MqttString None 0) (ah_properties a) (ah_prop_len a)
  end.

(** ** SUBSCRIBE and UNSUBSCRIBE packets *)

(** [tn_opts] is the subscription-options byte the node starts with. *)
Record topic_node := TopicNode {
  tn_opts : Z;
  tn_topic : mqtt_string;
  tn_reason_code : Z
}.

Definition tn_qos (t : topic_node) : Z := Z.land (tn_opts t) 3.
Definition tn_no_local (t : topic_node) : Z := Z.land (Z.shiftr (tn_opts t) 2) 1.
Definition tn_rap (t : topic_node) : Z := Z.land (Z.shiftr (tn_opts t) 3) 1.
Definition tn_retain_handling (t : topic_node) : Z := Z.land (Z.shiftr (tn_opts t) 4) 3.

Record packet_subscribe := PacketSubscribe {
  sp_packet_id : Z;
  sp_properties : option property;
  sp_prop_len : Z;
  sp_node : list topic_node
}.
End WithProperty.

Arguments PublishHeader {property}.
Arguments ph_packet_id {property}.
Arguments ph_topic_name {property}.
Arguments ph_properties {property}.
Arguments ph_prop_len {property}.
Arguments ArrcHeader {property}.
Arguments ah_packet_id {property}.
Arguments ah_reason_code {property}.
Arguments ah_properties {property}.
Arguments ah_prop_len {property}.
Arguments VPublish {property}.
Arguments VArrc {property}.
Arguments PubPacket {property}.
Arguments pp_fixed_header {property}.
Arguments pp_var_header {property}.
Arguments pp_payload {property}.
Arguments zero_pub_packet {property}.
Arguments var_packet_id {property}.
Arguments var_publish {property}.
Arguments PacketSubscribe {property}.
Arguments sp_packet_id {property}.
Arguments sp_properties {property}.
Arguments sp_prop_len {property}.
Arguments sp_node {property}.

(** ** C strings *)

(** A C string is its bytes up to the first NUL. *)
Fixpoint cstr (s : bytes) : bytes :=
  match s with
  | [] => []
  | b :: s' => if b =? 0 then [] else b :: cstr s'
  end.

Definition strchr (s : bytes) (c : Z) : bool := bool_decide (c ∈ cstr s).

(** [strncmp(s, pat, strlen(pat)) == 0] *)
Fixpoint strprefix (pat s : bytes) : bool :=
  match pat, s with
  | [], _ => true
  | p :: pat', b :: s' => (p =? b) && strprefix pat' s'
  | _ :: _, [] => false
  end.

(** ** Lemmas *)

Lemma fixed_header_byte_range h : fixed_header_ok h -> byte_ok (fixed_header_byte h).
Proof.
  destruct h as [r q d t l]. intros (? & ? & ? & ?). simpl in *.
  assert (r = 0 \/ r = 1) by lia. assert (d = 0 \/ d = 1) by lia.
  assert (q = 0 \/ q = 1 \/ q = 2 \/ q = 3) by lia.
  assert (t = 0 \/ t = 1 \/ t = 2 \/ t = 3 \/ t = 4 \/ t = 5 \/ t = 6 \/ t = 7 \/
          t = 8 \/ t = 9 \/ t = 10 \/ t = 11 \/ t = 12 \/ t = 13 \/ t = 14 \/ t = 15) by lia.
  destruct_or!; subst; vm_compute; intuition congruence.
Qed.

Lemma fixed_header_roundtrip h :
  fixed_header_ok h ->
  fixed_header_of_byte (fixed_header_byte h) (fh_remain_len h) = h.
Proof.
  destruct h as [r q d t l]. intros (? & ? & ? & ?). simpl in *.
  assert (r = 0 \/ r = 1) by lia. assert (d = 0 \/ d = 1) by lia.
  assert (q = 0 \/ q = 1 \/ q = 2 \/ q = 3) by lia.
  assert (t = 0 \/ t = 1 \/ t = 2 \/ t = 3 \/ t = 4 \/ t = 5 \/ t = 6 \/ t = 7 \/
          t = 8 \/ t = 9 \/ t = 10 \/ t = 11 \/ t = 12 \/ t = 13 \/ t = 14 \/ t = 15) by lia.
  destruct_or!; subst; reflexivity.
Qed.

Lemma cstr_id s : Forall (fun b => b <> 0) s -> cstr s = s.
Proof.
  induction 1 as [|b s Hb _ IH]; [done|]. simpl.
  rewrite (proj2 (Z.eqb_neq b 0)) by done. by rewrite IH.
Qed.
