(* ===== verification/Nng.v ===== *)
(** * Interfaces to the nng library

    The nng tree is a git submodule that is not part of the repository, so
    everything the broker calls in it is an operation of a class here, and
    what the broker relies on is a law of a second class.  [NngModel]
    provides concrete instances. *)

From Stdlib Require Import ZArith Lia.
From stdpp Require Import base numbers list gmap option.
From S2P Require Import Prelude Mqtt.

Local Open Scope Z_scope.

(** ** Messages (nng/nng.h) *)

(** Appending operations return nng's error code and the message. *)
Class NngMsg (msg : Type) := {
  nng_msg_header : msg -> bytes;
  nng_msg_body : msg -> bytes;
  (** the memory from [nng_msg_payload_ptr] to the end of the message *)
  nng_msg_payload : msg -> bytes;
  nng_msg_remaining_len : msg -> Z;
  nng_msg_set_remaining_len : msg -> Z -> msg;
  nng_msg_cmd_type : msg -> cmd_type;
  nng_msg_set_cmd_type : msg -> cmd_type -> msg;
  nng_msg_get_timestamp : msg -> Z;
  nng_msg_clear : msg -> msg;
  nng_msg_header_clear : msg -> msg;
  nng_msg_append : msg -> bytes -> Z * msg;
  nng_msg_header_append : msg -> bytes -> Z * msg
}.

Definition nng_msg_len {msg} `{NngMsg msg} (m : msg) : Z := Zlen (nng_msg_body m).

(** [nng_msg_append_u16] / [_u32]: network byte order. *)
Definition nng_msg_append_u16 {msg} `{NngMsg msg} (m : msg) (v : Z) : Z * msg :=
  nng_msg_append m (NNI_PUT16 v).
Definition nng_msg_append_u32 {msg} `{NngMsg msg} (m : msg) (v : Z) : Z * msg :=
  nng_msg_append m (NNI_PUT32 v).

(** Header and body are independent byte strings; tags survive edits. *)
Class NngMsgLaws (msg : Type) `{NngMsg msg} : Prop := {
  body_clear : forall m, nng_msg_body (nng_msg_clear m) = [];
  header_clear : forall m, nng_msg_header (nng_msg_clear m) = nng_msg_header m;
  cmd_clear : forall m, nng_msg_cmd_type (nng_msg_clear m) = nng_msg_cmd_type m;
  header_header_clear : forall m, nng_msg_header (nng_msg_header_clear m) = [];
  body_header_clear : forall m, nng_msg_body (nng_msg_header_clear m) = nng_msg_body m;
  cmd_header_clear : forall m, nng_msg_cmd_type (nng_msg_header_clear m) = nng_msg_cmd_type m;
  append_ok : forall m bs m', nng_msg_append m bs = (0, m') ->
    nng_msg_body m' = nng_msg_body m ++ bs /\ nng_msg_header m' = nng_msg_header m /\
    nng_msg_cmd_type m' = nng_msg_cmd_type m;
  header_append_ok : forall m bs m', nng_msg_header_append m bs = (0, m') ->
    nng_msg_header m' = nng_msg_header m ++ bs /\ nng_msg_body m' = nng_msg_body m /\
    nng_msg_cmd_type m' = nng_msg_cmd_type m;
  set_remaining : forall m v,
    nng_msg_header (nng_msg_set_remaining_len m v) = nng_msg_header m /\
    nng_msg_body (nng_msg_set_remaining_len m v) = nng_msg_body m /\
    nng_msg_cmd_type (nng_msg_set_remaining_len m v) = nng_msg_cmd_type m /\
    nng_msg_remaining_len (nng_msg_set_remaining_len m v) = v;
  set_cmd : forall m c,
    nng_msg_header (nng_msg_set_cmd_type m c) = nng_msg_header m /\
    nng_msg_body (nng_msg_set_cmd_type m c) = nng_msg_body m /\
    nng_msg_cmd_type (nng_msg_set_cmd_type m c) = c
}.

(** Memory suffices: no append reports an error. *)
Class NngMsgNoFail (msg : Type) `{NngMsg msg} : Prop := {
  append_no_fail : forall m bs, fst (nng_msg_append m bs) = 0;
  header_append_no_fail : forall m bs, fst (nng_msg_header_append m bs) = 0
}.

(** ** Parsers and properties (nng/protocol/mqtt/mqtt_parser.h) *)

(** A property value: the arms of [property_data] the broker reads. *)
Inductive property_data := PU16 (v : Z) | PU32 (v : Z).

Definition p_value_u16 (d : property_data) : Z := match d with PU16 v => u16 v | PU32 v => u16 v end.
Definition p_value_u32 (d : property_data) : Z := match d with PU16 v => u32 v | PU32 v => u32 v end.

Class NngParser (msg property : Type) := {
  (** string (NULL is [None]), new position, length *)
  copy_utf8_str : bytes -> Z -> exec (option bytes * Z * Z);
  copyn_utf8_str : bytes -> Z -> Z -> exec (option bytes * Z * Z);
  (** the string at the position (in place), new position, length or -1 *)
  get_utf8_str : bytes -> Z -> exec (bytes * Z * Z);
  (** the variable-length encoding of an integer *)
  put_var_integer : Z -> bytes;
  (** properties, new position, length of the properties *)
  decode_properties : msg -> Z -> exec (option property * Z * Z);
  check_properties : option property -> Z;
  property_get_value : option property -> Z -> option property_data;
  (** return code and the message with the properties appended *)
  encode_properties : msg -> option property -> cmd_type -> Z * msg
}.

(** What the broker relies on.  [utf8_ok] are the strings the parser accepts. *)
Class NngParserLaws (msg property : Type) `{NngMsg msg} `{NngParser msg property}
    (utf8_ok : bytes -> Prop) : Prop := {
  (** MQTT strings hold no NUL *)
  utf8_ok_no_nul : forall s, utf8_ok s -> Forall (fun b => b <> 0) s;
  copy_utf8_str_ok : forall pre s post,
    utf8_ok s -> 0 < Zlen s < 65536 ->
    copy_utf8_str (pre ++ NNI_PUT16 (Zlen s) ++ s ++ post) (Zlen pre) =
      Ret (Some s, Zlen pre + 2 + Zlen s, Zlen s);
  copyn_utf8_str_ok : forall pre s post limit,
    utf8_ok s -> 0 < Zlen s < 65536 -> Zlen pre + 2 + Zlen s <= limit ->
    copyn_utf8_str (pre ++ NNI_PUT16 (Zlen s) ++ s ++ post) (Zlen pre) limit =
      Ret (Some s, Zlen pre + 2 + Zlen s, Zlen s);
  get_utf8_str_ok : forall pre s post,
    utf8_ok s -> 0 < Zlen s < 65536 ->
    get_utf8_str (pre ++ NNI_PUT16 (Zlen s) ++ s ++ post) (Zlen pre) =
      Ret (s, Zlen pre + 2 + Zlen s, Zlen s);
  (** no properties: a property length of zero *)
  encode_properties_none : forall m c,
    nng_msg_body (snd (encode_properties m (@None property) c)) = nng_msg_body m ++ [0] /\
    nng_msg_header (snd (encode_properties m (@None property) c)) = nng_msg_header m;
  (** the properties are read from the body *)
  decode_properties_body : forall m m' pos, nng_msg_body m' = nng_msg_body m ->
    decode_properties m' pos = decode_properties m pos;
  (** a failed or empty string never moves the position back *)
  copy_utf8_str_pos : forall buf pos r pos' len,
    copy_utf8_str buf pos = Ret (r, pos', len) -> pos <= pos';
  (** the two bytes of the length are read from the buffer *)
  copy_utf8_str_reads : forall buf pos r pos' len,
    copy_utf8_str buf pos = Ret (r, pos', len) -> pos + 2 <= Zlen buf;
  (** a string comes with its length *)
  copyn_utf8_str_len : forall buf pos limit s pos' len,
    copyn_utf8_str buf pos limit = Ret (Some s, pos', len) -> len = Zlen s;
  (** positions are unsigned *)
  copyn_utf8_str_pos : forall buf pos limit r pos' len,
    copyn_utf8_str buf pos limit = Ret (r, pos', len) -> 0 <= pos';
  decode_properties_pos : forall m pos r pos' len,
    decode_properties m pos = Ret (r, pos', len) -> 0 <= pos';
  copy_utf8_str_no_oof : forall buf pos, copy_utf8_str buf pos <> OOF;
  decode_properties_no_oof : forall m pos, decode_properties m pos <> @OOF _
}.

(** Encoded properties are decoded again, and [prop_ok] properties are legal
    in a PUBLISH. *)
Class NngPropLaws (msg property : Type) `{NngMsg msg} `{NngParser msg property}
    (prop_ok : option property -> Prop) : Prop := {
  properties_roundtrip : forall m p c, prop_ok p -> exists enc plen,
    fst (encode_properties m p c) = 0 /\
    nng_msg_body (snd (encode_properties m p c)) = nng_msg_body m ++ enc /\
    nng_msg_header (snd (encode_properties m p c)) = nng_msg_header m /\
    forall m2 post, nng_msg_body m2 = nng_msg_body m ++ enc ++ post ->
      decode_properties m2 (Zlen (nng_msg_body m)) =
      Ret (p, Zlen (nng_msg_body m) + Zlen enc, plen);
  prop_ok_legal : forall p, prop_ok p ->
    check_properties p = SUCCESS /\ property_get_value p SUBSCRIPTION_IDENTIFIER = None
}.

(** ** Subscription database (nng/supplemental/nanolib/mqtt_db.h) *)

Abbreviation topic := bytes (only parsing).
Abbreviation pid := Z (only parsing).

Class NngDb (db hash : Type) := {
  dbtree_insert_client : db -> topic -> pid -> db;
  dbtree_delete_client : db -> topic -> pid -> db;
  (** NULL is [None] *)
  dbtree_find_clients : db -> topic -> option (list pid);
  dbtree_find_shared_clients : db -> topic -> option (list pid);
  dbhash_check_topic : hash -> pid -> topic -> bool;
  dbhash_insert_topic : hash -> pid -> topic -> Z -> hash;
  dbhash_del_topic : hash -> pid -> topic -> hash;
  dbhash_check_id : hash -> pid -> bool;
  (** the topics handed to the callback, in order, and the table after *)
  dbhash_del_topic_queue : hash -> pid -> list topic * hash;
  dbhash_insert_atpair : hash -> pid -> Z -> topic -> hash;
  dbhash_find_atpair : hash -> pid -> Z -> option topic
}.

(** [subscribed d t p]: the tree delivers to [p] under the filter [t].
    [registered h p t]: the table lists filter [t] for [p]. *)
Class NngDbLaws (db hash : Type) `{NngDb db hash} := {
  subscribed : db -> topic -> pid -> Prop;
  registered : hash -> pid -> topic -> Prop;
  insert_client_spec : forall d t p t' p',
    subscribed (dbtree_insert_client d t p) t' p' <->
    (t' = t /\ p' = p) \/ subscribed d t' p';
  delete_client_spec : forall d t p t' p',
    subscribed (dbtree_delete_client d t p) t' p' <->
    ~ (t' = t /\ p' = p) /\ subscribed d t' p';
  check_topic_spec : forall h p t,
    dbhash_check_topic h p t = true <-> registered h p t;
  insert_topic_spec : forall h p t q p' t',
    registered (dbhash_insert_topic h p t q) p' t' <->
    (t' = t /\ p' = p) \/ registered h p' t';
  del_topic_spec : forall h p t p' t',
    registered (dbhash_del_topic h p t) p' t' <->
    ~ (t' = t /\ p' = p) /\ registered h p' t';
  check_id_spec : forall h p,
    dbhash_check_id h p = false -> forall t, ~ registered h p t;
  del_topic_queue_spec : forall h p ts h',
    dbhash_del_topic_queue h p = (ts, h') ->
    (forall t, t ∈ ts <-> registered h p t) /\
    (forall p' t, registered h' p' t <-> p' <> p /\ registered h p' t);
  atpair_registered : forall h p a t p' t',
    registered (dbhash_insert_atpair h p a t) p' t' <-> registered h p' t';
  find_insert_atpair : forall h p a t,
    dbhash_find_atpair (dbhash_insert_atpair h p a t) p a = Some t;
  find_insert_atpair_ne : forall h p a t p' a', (p', a') <> (p, a) ->
    dbhash_find_atpair (dbhash_insert_atpair h p a t) p' a' = dbhash_find_atpair h p' a'
}.

(** ** Retained messages *)

Class NngRetain (db_ret msg : Type) := {
  (** the entry replaced or removed, and the tree after *)
  dbtree_insert_retain : db_ret -> topic -> msg -> option msg * db_ret;
  dbtree_delete_retain : db_ret -> topic -> option msg * db_ret;
  dbtree_find_retain : db_ret -> topic -> option (list (option msg))
}.

Class NngRetainLaws (db_ret msg : Type) `{NngRetain db_ret msg} := {
  retained : db_ret -> topic -> option msg;
  insert_retain_spec : forall d t m old d', dbtree_insert_retain d t m = (old, d') ->
    old = retained d t /\ retained d' t = Some m /\
    forall t', t' <> t -> retained d' t' = retained d t';
  delete_retain_spec : forall d t old d', dbtree_delete_retain d t = (old, d') ->
    old = retained d t /\ retained d' t = None /\
    forall t', t' <> t -> retained d' t' = retained d t'
}.

(** [dbtree_retain_msg]: the fields the broker writes. *)
Record dbtree_retain_msg (msg : Type) := RetainMsg {
  rt_qos : Z;
  rt_exist : bool;
  rt_message : option msg
}.
Arguments RetainMsg {msg}.
Arguments rt_qos {msg}.
Arguments rt_exist {msg}.
Arguments rt_message {msg}.

(** Properties kept with a message. *)
Class NngMsgProp (msg property : Type) := {
  property_dup : property -> option property;
  nng_msg_proto_set_property : msg -> option property -> msg;
  nng_msg_proto_get_property : msg -> option property
}.
