(* ===== verification/NngModel.v ===== *)
(** * Concrete instances of the nng interfaces

    A message is a record of byte strings, the subscription database a set of
    pairs and the parser reads length-prefixed strings of the ASCII bytes
    1..127.  They satisfy the laws of [Nng], so the theorems proved against
    the interfaces apply to them. *)

From Stdlib Require Import ZArith Lia.
From stdpp Require Import base numbers list gmap option sets.
From S2P Require Import Prelude Mqtt Nng.

Local Open Scope Z_scope.
Local Open Scope nano_scope.

(** ** Messages *)

Record rmsg := RMsg {
  rm_header : bytes;
  rm_body : bytes;
  rm_payload_off : nat;
  rm_remaining : Z;
  rm_cmd : cmd_type;
  rm_time : Z
}.

#[export] Instance rmsg_NngMsg : NngMsg rmsg := {
  nng_msg_header := rm_header;
  nng_msg_body := rm_body;
  nng_msg_payload m := drop (rm_payload_off m) (rm_body m);
  nng_msg_remaining_len := rm_remaining;
  nng_msg_set_remaining_len m v :=
    RMsg (rm_header m) (rm_body m) (rm_payload_off m) v (rm_cmd m) (rm_time m);
  nng_msg_cmd_type := rm_cmd;
  nng_msg_set_cmd_type m c :=
    RMsg (rm_header m) (rm_body m) (rm_payload_off m) (rm_remaining m) c (rm_time m);
  nng_msg_get_timestamp := rm_time;
  nng_msg_clear m := RMsg (rm_header m) [] 0 (rm_remaining m) (rm_cmd m) (rm_time m);
  nng_msg_header_clear m :=
    RMsg [] (rm_body m) (rm_payload_off m) (rm_remaining m) (rm_cmd m) (rm_time m);
  nng_msg_append m bs :=
    (0, RMsg (rm_header m) (rm_body m ++ bs) (rm_payload_off m) (rm_remaining m) (rm_cmd m) (rm_time m));
  nng_msg_header_append m bs :=
    (0, RMsg (rm_header m ++ bs) (rm_body m) (rm_payload_off m) (rm_remaining m) (rm_cmd m) (rm_time m))
}.

#[export] Instance rmsg_laws : NngMsgLaws rmsg.
Proof.
  constructor; simpl; try done.
  - intros m bs m' [= <-]. done.
  - intros m bs m' [= <-]. done.
Qed.

#[export] Instance rmsg_no_fail : NngMsgNoFail rmsg.
Proof. constructor; done. Qed.

(** ** Parser *)

Definition ascii_ok (s : bytes) : Prop := Forall (fun b => 0 < b < 128) s.

#[export] Instance ascii_ok_dec s : Decision (ascii_ok s).
Proof. unfold ascii_ok. apply _. Defined.

Definition r_get_str (buf : bytes) (pos : Z) : exec (bytes * Z * Z) :=
  let* n := NNI_GET16 buf pos in
  let* s := slice buf (pos + 2) n in
  Ret (if decide (ascii_ok s) then (s, pos + 2 + n, n) else (s, pos + 2, -1)).

Definition r_copy_str (buf : bytes) (pos : Z) : exec (option bytes * Z * Z) :=
  let* r := r_get_str buf pos in
  let '(s, pos', n) := r in
  Ret (if 0 <? n then (Some s, pos', n) else (None, Z.max pos pos', n)).

Definition r_copyn_str (buf : bytes) (pos limit : Z) : exec (option bytes * Z * Z) :=
  let* n := NNI_GET16 buf pos in
  if pos + 2 + n <=? limit then r_copy_str buf pos else Ret (None, pos + 2, -1).

Fixpoint varint (fuel : nat) (v : Z) : bytes :=
  match fuel with
  | O => []
  | S f => if v <? 128 then [v] else Z.lor (v mod 128) 128 :: varint f (v / 128)
  end.

Abbreviation rprop := (list (Z * property_data)) (only parsing).

#[export] Instance rmsg_parser : NngParser rmsg rprop := {
  copy_utf8_str := r_copy_str;
  copyn_utf8_str := r_copyn_str;
  get_utf8_str := r_get_str;
  put_var_integer v := varint 4 v;
  decode_properties m pos :=
    let* n := rd (rm_body m) pos in
    if n =? 0 then Ret (None, pos + 1, 0)
    else
      let* id := rd (rm_body m) (pos + 1) in
      let* v := NNI_GET16 (rm_body m) (pos + 2) in
      Ret (Some [(id, PU16 v)], pos + 4, n);
  check_properties _ := SUCCESS;
  property_get_value p id :=
    match p with None => None | Some l => snd <$> find (fun kv => fst kv =? id) l end;
  encode_properties m p c := nng_msg_append m
    (match p with Some [(id, PU16 v)] => 3 :: id :: NNI_PUT16 v | _ => [0] end)
}.

Lemma r_get_str_ok pre s post :
  ascii_ok s -> 0 < Zlen s < 65536 ->
  r_get_str (pre ++ NNI_PUT16 (Zlen s) ++ s ++ post) (Zlen pre) =
  Ret (s, Zlen pre + 2 + Zlen s, Zlen s).
Proof.
  intros Hs Hl. unfold r_get_str. rewrite NNI_GET16_PUT16 by lia. cbn [ebind].
  rewrite app_assoc. replace (Zlen pre + 2) with (Zlen (pre ++ NNI_PUT16 (Zlen s)))
    by (zlen; done).
  rewrite slice_app. cbn [ebind]. by rewrite decide_True.
Qed.

Lemma rd_Ret_pos buf pos b : rd buf pos = Ret b -> 0 <= pos.
Proof. unfold rd. case_match; [|done]. bool_hyps. done. Qed.

Lemma NNI_GET16_Ret_pos buf pos v : NNI_GET16 buf pos = Ret v -> 0 <= pos.
Proof. unfold NNI_GET16. intros (? & Hb & _)%ebind_Ret. by apply rd_Ret_pos in Hb. Qed.

Lemma NNI_GET16_Ret_end buf pos v : NNI_GET16 buf pos = Ret v -> pos + 2 <= Zlen buf.
Proof.
  unfold NNI_GET16. intros (? & _ & (? & Hb & _)%ebind_Ret)%ebind_Ret. unfold rd in Hb.
  case_match; [|done]. bool_hyps. case_match eqn:E; [|done]. apply lookup_lt_Some in E. unfold Zlen. lia.
Qed.

#[export] Instance rmsg_parser_laws : NngParserLaws rmsg rprop ascii_ok.
Proof.
  assert (Hcopy : forall pre s post, ascii_ok s -> 0 < Zlen s < 65536 ->
    r_copy_str (pre ++ NNI_PUT16 (Zlen s) ++ s ++ post) (Zlen pre) =
    Ret (Some s, Zlen pre + 2 + Zlen s, Zlen s)).
  { intros pre s post Hs Hl. unfold r_copy_str. rewrite r_get_str_ok by done. cbn [ebind].
    by rewrite (proj2 (Z.ltb_lt 0 (Zlen s))) by lia. }
  constructor; cbn -[NNI_PUT16].
  - intros s Hs. eapply Forall_impl; [exact Hs|]. intros b Hb. simpl in Hb. lia.
  - exact Hcopy.
  - intros pre s post limit Hs Hl Hlim. unfold r_copyn_str.
    rewrite NNI_GET16_PUT16 by lia. cbn [ebind].
    rewrite (proj2 (Z.leb_le _ limit)) by lia. by apply Hcopy.
  - exact r_get_str_ok.
  - done.
  - by intros [] [] pos; cbn; intros ->.
  - intros buf pos r pos' len. unfold r_copy_str, r_get_str.
    intros (x & Hx & He)%ebind_Ret. destruct x as [[s p'] n].
    apply ebind_Ret in Hx as (n' & _ & Hx). apply ebind_Ret in Hx as (s' & Hs & Hx).
    apply slice_Ret in Hs.
    case_match; injection He as <- <- <-; [|lia].
    case_match; injection Hx as <- <- <-; bool_hyps; lia.
  - intros buf pos r pos' len. unfold r_copy_str, r_get_str. intros (x & Hx & _)%ebind_Ret.
    apply ebind_Ret in Hx as (n & Hn & _). by apply NNI_GET16_Ret_end in Hn.
  - intros buf pos limit s pos' len. unfold r_copyn_str. intros (n & Hn & He)%ebind_Ret.
    case_match; [|done]. unfold r_copy_str, r_get_str in He. rewrite Hn in He.
    apply ebind_Ret in He as ([[s' p'] n'] & Hx & He). cbn [ebind] in Hx. apply ebind_Ret in Hx as (s1 & Hs & Hx).
    apply slice_Ret in Hs as (_ & _ & _ & Hl). case_match; [|done]. injection He as <- <- <-.
    case_match; injection Hx as <- <- <-; [done|]. bool_hyps. lia.
  - intros buf pos limit r pos' len. unfold r_copyn_str. intros (n & Hn & He)%ebind_Ret.
    apply NNI_GET16_Ret_pos in Hn. case_match; [|injection He as <- <- <-; lia]. unfold r_copy_str, r_get_str in He.
    apply ebind_Ret in He as ([[s' p'] n'] & Hx & He). apply ebind_Ret in Hx as (k & _ & Hx).
    apply ebind_Ret in Hx as (s1 & Hs & Hx). apply slice_Ret in Hs.
    case_match; injection He as <- <- <-; [|lia]. case_match; injection Hx as <- <- <-; lia.
  - intros m pos r pos' len. intros (n & Hn & He)%ebind_Ret. apply rd_Ret_pos in Hn.
    case_match; [injection He as <- <- <-; lia|]. apply ebind_Ret in He as (? & _ & He).
    apply ebind_Ret in He as (? & _ & He). injection He as <- <- <-. lia.
  - intros buf pos. unfold r_copy_str, r_get_str, NNI_GET16, rd, slice.
    repeat (case_match; cbn [ebind] in *; try done).
  - intros m pos. unfold NNI_GET16, rd. repeat (case_match; cbn [ebind]; try done).
Qed.

(** At most one property: a topic alias. *)
Definition alias_only (p : option rprop) : Prop :=
  p = None \/ exists v, 0 <= v < 65536 /\ p = Some [(TOPIC_ALIAS, PU16 v)].

#[export] Instance rmsg_prop_laws : NngPropLaws rmsg rprop alias_only.
Proof.
  constructor.
  - intros m p c [->|(v & Hv & ->)].
    + exists [0], 0. cbn -[rd]. do 3 (split; [done|]). intros m2 post ->. by rewrite rd_app_l.
    + exists (3 :: TOPIC_ALIAS :: NNI_PUT16 v), 3. cbn -[NNI_PUT16 NNI_GET16 rd].
      do 3 (split; [done|]). intros m2 post ->.
      cbn -[NNI_PUT16 NNI_GET16 rd]. rewrite rd_app_l. cbn [ebind Z.eqb].
      set (b := rm_body m).
      change (b ++ 3 :: TOPIC_ALIAS :: NNI_PUT16 v ++ post)
        with (b ++ [3] ++ TOPIC_ALIAS :: NNI_PUT16 v ++ post).
      rewrite (app_assoc b). replace (Zlen b + 1) with (Zlen (b ++ [3])) by (zlen; lia).
      rewrite rd_app_l. cbn [ebind].
      change (TOPIC_ALIAS :: NNI_PUT16 v ++ post) with ([TOPIC_ALIAS] ++ NNI_PUT16 v ++ post).
      rewrite (app_assoc (b ++ [3])).
      replace (Zlen b + 2) with (Zlen ((b ++ [3]) ++ [TOPIC_ALIAS])) by (zlen; lia).
      rewrite NNI_GET16_PUT16 by done. cbn [ebind].
      repeat f_equal.
  - intros p [->|(v & Hv & ->)]; done.
Qed.

(** ** Subscription database *)

Record rhash := RHash {
  rh_topics : gset (Z * bytes);
  rh_alias : gmap (Z * Z) bytes
}.

Abbreviation rdb := (gset (bytes * Z)) (only parsing).

Definition topics_of (h : rhash) (p : Z) : list bytes :=
  snd <$> filter (fun q => q.1 = p) (elements (rh_topics h)).

#[export] Instance r_db : NngDb rdb rhash := {
  dbtree_insert_client d t p := {[(t, p)]} ∪ d;
  dbtree_delete_client d t p := d ∖ {[(t, p)]};
  dbtree_find_clients d t :=
    match snd <$> filter (fun q : bytes * Z => q.1 = t) (elements d) with [] => None | l => Some l end;
  dbtree_find_shared_clients d t := None;
  dbhash_check_topic h p t := bool_decide ((p, t) ∈ rh_topics h);
  dbhash_insert_topic h p t q := RHash ({[(p, t)]} ∪ rh_topics h) (rh_alias h);
  dbhash_del_topic h p t := RHash (rh_topics h ∖ {[(p, t)]}) (rh_alias h);
  dbhash_check_id h p := negb (bool_decide (topics_of h p = []));
  dbhash_del_topic_queue h p :=
    (topics_of h p, RHash (filter (fun q => q.1 <> p) (rh_topics h)) (rh_alias h));
  dbhash_insert_atpair h p a t := RHash (rh_topics h) (<[(p, a) := t]> (rh_alias h));
  dbhash_find_atpair h p a := rh_alias h !! (p, a)
}.

Lemma topics_of_spec h p t : t ∈ topics_of h p <-> (p, t) ∈ rh_topics h.
Proof.
  unfold topics_of. rewrite list_elem_of_fmap. split.
  - intros ([p' t'] & -> & [Hp Hin]%list_elem_of_filter). simpl in *. subst.
    by apply elem_of_elements in Hin.
  - intros Hin. exists (p, t). split; [done|]. apply list_elem_of_filter.
    split; [done|]. by apply elem_of_elements.
Qed.

#[export] Instance r_db_laws : NngDbLaws rdb rhash.
Proof.
  refine {| subscribed (d : rdb) t p := (t, p) ∈ d;
            registered (h : rhash) p t := (p, t) ∈ rh_topics h |};
    cbn -[topics_of].
  - set_solver.
  - set_solver.
  - intros. apply bool_decide_eq_true.
  - set_solver.
  - set_solver.
  - intros h p He t Hin%topics_of_spec. apply negb_false_iff, bool_decide_eq_true in He.
    rewrite He in Hin. by apply elem_of_nil in Hin.
  - intros h p ts h' [= <- <-]. split; [intros; apply topics_of_spec|].
    cbn. intros p' t. rewrite elem_of_filter. done.
  - done.
  - intros. by rewrite lookup_insert_eq.
  - intros. by rewrite lookup_insert_ne.
Defined.

(** ** Retained messages *)

#[export] Instance r_retain {M} : NngRetain (gmap bytes M) M := {
  dbtree_insert_retain d t m := (d !! t, <[t := m]> d);
  dbtree_delete_retain d t := (d !! t, delete t d);
  dbtree_find_retain d t := (fun m => [Some m]) <$> d !! t
}.

#[export] Instance r_retain_laws {M} : NngRetainLaws (gmap bytes M) M.
Proof.
  refine {| retained (d : gmap bytes M) t := d !! t |}; cbn.
  - intros d t m old d' [= <- <-]. split_and!; [done|by rewrite lookup_insert_eq|].
    intros. by rewrite lookup_insert_ne.
  - intros d t old d' [= <- <-]. split_and!; [done|by rewrite lookup_delete_eq|].
    intros. by rewrite lookup_delete_ne.
Defined.

#[export] Instance r_msg_prop : NngMsgProp rmsg rprop := {
  property_dup p := Some p;
  nng_msg_proto_set_property m _ := m;
  nng_msg_proto_get_property _ := None
}.
