(* ===== verification/SubHandler.v ===== *)
(** * sub_handler.c: SUBSCRIBE packets and subscriptions *)

From Stdlib Require Import ZArith Lia.
From stdpp Require Import base numbers list gmap option.
From S2P Require Import Prelude Mqtt Nng NngModel.

Local Open Scope Z_scope.
Local Open Scope nano_scope.

Definition NNG_ENOMEM : Z := 2.

(** ["$share/"] *)
Definition share_prefix : bytes := [36; 115; 104; 97; 114; 101; 47].

(** ** Decoding *)

Section Decode.
Context {msg property : Type} `{NngMsg msg} `{NngParser msg property}.
(** whether the n-th node allocation of a call succeeds *)
Variable zalloc_ok : nat -> bool.

(** The loop of [decode_sub_msg]; [done] are the nodes before [tn].  The
    comparison at [next:] is in [size_t]. *)
Fixpoint decode_sub_loop (fuel : nat) (payload : bytes) (proto_ver remaining_len vpos : Z)
    (n : nat) (bpos : Z) (done : list topic_node) : exec (Z * list topic_node) :=
  match fuel with
  | O => OOF
  | S fuel' =>
      let next := fun (bpos : Z) (tn : topic_node) =>
        if bpos <? u64 (remaining_len - vpos) then
          if zalloc_ok n
          then decode_sub_loop fuel' payload proto_ver remaining_len vpos (S n) bpos (done ++ [tn])
          else Ret (NNG_ENOMEM, done ++ [tn])
        else Ret (0, done ++ [tn]) in
      let* r := copy_utf8_str payload bpos in
      let '(body, bpos, len_of_topic) := r in
      let topic := MqttString body (u32 len_of_topic) in
      if (ms_len topic <? 1) || bool_decide (body = None) then
        let code := if MQTT_PROTOCOL_VERSION_v5 =? proto_ver
                    then TOPIC_FILTER_INVALID else UNSPECIFIED_ERROR in
        next (bpos + 1) (TopicNode 0 topic code)
      else
        let* opts := rd payload bpos in
        let tn := TopicNode opts topic GRANTED_QOS_2 in
        if 2 <? tn_retain_handling tn then
          Ret (PROTOCOL_ERROR, done ++ [TopicNode opts topic UNSPECIFIED_ERROR])
        else if (MQTT_PROTOCOL_VERSION_v5 =? proto_ver) &&
                strprefix share_prefix (cstr (default [] body)) &&
                (tn_no_local tn =? 1) then
          Ret (PROTOCOL_ERROR, done ++ [TopicNode opts topic UNSPECIFIED_ERROR])
        else next (bpos + 1) tn
  end.

Definition decode_sub_payload (fuel : nat) (m : msg) (pkt : packet_subscribe property)
    (proto_ver vpos : Z) : exec (Z * packet_subscribe property) :=
  if zalloc_ok O then
    let* r := decode_sub_loop fuel (nng_msg_payload m) proto_ver
                (nng_msg_remaining_len m) vpos 1 0 [] in
    let '(rv, nodes) := r in
    Ret (rv, PacketSubscribe (sp_packet_id pkt) (sp_properties pkt) (sp_prop_len pkt) nodes)
  else Ret (NNG_ENOMEM, pkt).

Definition decode_sub_msg (fuel : nat) (m : msg) (proto_ver : Z)
    : exec (Z * packet_subscribe property) :=
  let* packet_id := NNI_GET16 (nng_msg_body m) 0 in
  let pkt := PacketSubscribe packet_id None 0 [] in
  if packet_id =? 0 then Ret (PROTOCOL_ERROR, pkt)
  else
    let vpos := 2 in
    if MQTT_PROTOCOL_VERSION_v5 =? proto_ver then
      let* r := decode_properties m vpos in
      let '(props, vpos, prop_len) := r in
      let pkt := PacketSubscribe packet_id props prop_len [] in
      if negb (check_properties props =? SUCCESS) then Ret (PROTOCOL_ERROR, pkt)
      else decode_sub_payload fuel m pkt proto_ver vpos
    else decode_sub_payload fuel m pkt proto_ver vpos.
End Decode.

(** Every iteration of the loop reads a byte of the payload at least that none
    before it read. *)
Definition sub_fuel {msg} `{NngMsg msg} (m : msg) : nat := S (length (nng_msg_payload m)).

(** ** SUBACK *)

Section Encode.
Context {msg property : Type} `{NngMsg msg} `{NngParser msg property}.

Fixpoint append_codes (m : msg) (nodes : list topic_node) : Z * msg :=
  match nodes with
  | [] => (0, m)
  | tn :: nodes' =>
      let '(rv, m) := nng_msg_append m [u8 (tn_reason_code tn)] in
      if rv =? 0 then append_codes m nodes' else (PROTOCOL_ERROR, m)
  end.

(** The fixed header goes in front once the body length is known. *)
Definition finish_ack (m : msg) (cmd : Z) : Z * msg :=
  let '(rv, m) := nng_msg_header_append m [cmd] in
  if negb (rv =? 0) then (PROTOCOL_ERROR, m)
  else
    let remaining_len := u32 (nng_msg_len m) in
    let '(rv, m) := nng_msg_header_append m (put_var_integer remaining_len) in
    if negb (rv =? 0) then (PROTOCOL_ERROR, m) else (0, m).

Definition CMD_SUBACK_byte : Z := Z.shiftl SUBACK 4.

Definition encode_suback_msg (m : msg) (proto_ver : Z) (pkt : option (packet_subscribe property))
    : Z * msg :=
  let m := nng_msg_clear (nng_msg_header_clear m) in
  match pkt with
  | None => (-1, m)
  | Some sub_pkt =>
      let '(rv, m) := nng_msg_append m (NNI_PUT16 (sp_packet_id sub_pkt)) in
      if negb (rv =? 0) then (PROTOCOL_ERROR, m)
      else
        let m := if MQTT_PROTOCOL_VERSION_v5 =? proto_ver
                 then snd (encode_properties m None CMD_SUBACK) else m in
        let '(rv, m) := if sp_packet_id sub_pkt =? 0
                        then nng_msg_append m [PACKET_IDENTIFIER_IN_USE] else (0, m) in
        if negb (rv =? 0) then (PROTOCOL_ERROR, m)
        else
          let '(rv, m) := append_codes m (sp_node sub_pkt) in
          if negb (rv =? 0) then (rv, m)
          else
            let '(rv, m) :=
              if bool_decide (sp_node sub_pkt = []) && negb (sp_packet_id sub_pkt =? 0)
              then nng_msg_append m [UNSPECIFIED_ERROR] else (0, m) in
            if negb (rv =? 0) then (PROTOCOL_ERROR, m)
            else finish_ack m CMD_SUBACK_byte
  end.
End Encode.

(** ** Subscribing *)

(** The local [r] of [sub_ctx_handle]. *)
Inductive rptr (M : Type) := RNull | RFreed | RVec (v : list (option M)).
Arguments RNull {M}.
Arguments RFreed {M}.
Arguments RVec {M} v.

Section Subscribe.
Context {db hash db_ret msg property : Type}.
Context `{NngDb db hash} `{NngRetain db_ret (dbtree_retain_msg msg)}.
(** whether the [cvector_free] macro also clears its argument *)
Variable cvector_free_clears : bool.

Definition cvector_free (r : rptr (dbtree_retain_msg msg)) : rptr (dbtree_retain_msg msg) :=
  if cvector_free_clears then RNull else RFreed.

Fixpoint sub_ctx_loop (p : Z) (rets : db_ret) (nodes : list topic_node)
    (d : db) (h : hash) (r : rptr (dbtree_retain_msg msg)) (msg_ret : list (option msg))
    : exec (db * hash * list (option msg)) :=
  match nodes with
  | [] => Ret (d, h, msg_ret)
  | tn :: nodes' =>
      match ms_body (tn_topic tn) with
      | None => sub_ctx_loop p rets nodes' d h r msg_ret
      | Some topic_str =>
          let topic_exist := dbhash_check_topic h p topic_str in
          let d := if topic_exist then d else dbtree_insert_client d topic_str p in
          let h := if topic_exist then h else dbhash_insert_topic h p topic_str (tn_qos tn) in
          let rh := tn_retain_handling tn in
          let r := if (rh =? 0) || ((rh =? 1) && negb topic_exist)
                   then match dbtree_find_retain rets topic_str with
                        | Some v => RVec v
                        | None => RNull
                        end
                   else r in
          match r with
          | RNull => sub_ctx_loop p rets nodes' d h r msg_ret
          | RFreed => UB
          | RVec v => sub_ctx_loop p rets nodes' d h (cvector_free r) 
                       (msg_ret ++ (rt_message <$> omap id v))
          end
      end
  end.

(** [work->sub_pkt], the database and [work->msg_ret] of the work item. *)
Definition sub_ctx_handle (p : Z) (pkt : option (packet_subscribe property))
    (d : db) (h : hash) (rets : db_ret) : exec (Z * (db * hash * list (option msg))) :=
  match pkt with
  | None => Ret (-1, (d, h, []))
  | Some sub_pkt =>
      if bool_decide (sp_node sub_pkt = []) then Ret (-1, (d, h, []))
      else if sp_packet_id sub_pkt =? 0 then Ret (-2, (d, h, []))
      else
        let* s := sub_ctx_loop p rets (sp_node sub_pkt) d h RNull [] in
        Ret (0, s)
  end.

Definition sub_ctx_del (d : db) (h : hash) (t : bytes) (p : Z) : Z * (db * hash) :=
  (0, (dbtree_delete_client d t p, dbhash_del_topic h p t)).

Definition destroy_sub_client_cb (p : Z) (d : db) (t : bytes) : db :=
  dbtree_delete_client d t p.

Definition destroy_sub_client (p : Z) (d : db) (h : hash) : db * hash :=
  let '(ts, h') := dbhash_del_topic_queue h p in
  (fold_left (destroy_sub_client_cb p) ts d, h').
End Subscribe.

(** What the packet destructors give back, in order. *)
Inductive pkt_free_event := PFTopic (len : Z) | PFNode | PFProperties | PFPacket.

Definition sub_pkt_free {property} (pkt : option (packet_subscribe property)) : list pkt_free_event :=
  match pkt with
  | None => []
  | Some sub_pkt =>
      mjoin ((fun tn => [PFTopic (ms_len (tn_topic tn)); PFNode]) <$> sp_node sub_pkt) ++
      (if 0 <? sp_prop_len sub_pkt then [PFProperties] else []) ++ [PFPacket]
  end.

(** ** What a well-formed SUBSCRIBE says *)

(** One topic filter with its options byte. *)
Definition enc_topic (t : bytes * Z) : bytes := NNI_PUT16 (Zlen t.1) ++ t.1 ++ [t.2].

Definition enc_topics (ts : list (bytes * Z)) : bytes := mjoin (enc_topic <$> ts).

Definition sub_node (t : bytes * Z) : topic_node :=
  TopicNode t.2 (MqttString (Some t.1) (Zlen t.1)) GRANTED_QOS_2.

Definition sub_topic_ok (utf8_ok : bytes -> Prop) (proto_ver : Z) (t : bytes * Z) : Prop :=
  utf8_ok t.1 /\ 0 < Zlen t.1 < 65536 /\
  tn_retain_handling (sub_node t) <= 2 /\
  ~ (proto_ver = MQTT_PROTOCOL_VERSION_v5 /\
     strprefix share_prefix (cstr t.1) = true /\ tn_no_local (sub_node t) = 1).

Lemma enc_topics_cons t ts : enc_topics (t :: ts) = enc_topic t ++ enc_topics ts.
Proof. done. Qed.

Lemma Zlen_enc_topic t : Zlen (enc_topic t) = Zlen t.1 + 3.
Proof. unfold enc_topic, NNI_PUT16. zlen. lia. Qed.

Section DecodeProofs.
Context {msg property : Type} `{Hmsg : NngMsg msg} `{Hpar : NngParser msg property}.
Context {utf8_ok : bytes -> Prop}.
Context {Hlaws : NngParserLaws msg property utf8_ok}.

Lemma decode_sub_loop_ok ok fuel pre ts proto_ver remaining_len vpos n done_ :
  (forall i, ok i = true) ->
  ts <> [] -> Forall (sub_topic_ok utf8_ok proto_ver) ts ->
  (length ts <= fuel)%nat ->
  remaining_len - vpos = Zlen (pre ++ enc_topics ts) ->
  remaining_len - vpos < 2 ^ 64 ->
  decode_sub_loop ok fuel (pre ++ enc_topics ts) proto_ver remaining_len vpos n (Zlen pre) done_
  = Ret (0, done_ ++ (sub_node <$> ts)).
Proof using Hlaws.
  intros Hok. revert fuel pre n done_.
  induction ts as [|t ts IH]; intros fuel pre n done_ Hne Hts Hf Hrem Hsz; [done|].
  destruct fuel as [|fuel]; [simpl in Hf; lia|].
  inversion_clear Hts as [|? ? Ht Hts']. destruct Ht as (Hu & Hl & Hrh & Hsh).
  set (buf := pre ++ enc_topics (t :: ts)).
  cbn [decode_sub_loop].
  assert (Hbuf : buf = pre ++ NNI_PUT16 (Zlen t.1) ++ t.1 ++ (t.2 :: enc_topics ts)).
  { unfold buf. rewrite enc_topics_cons. unfold enc_topic. rewrite <- !app_assoc. done. }
  rewrite Hbuf at 1. rewrite copy_utf8_str_ok by done. cbn [ebind ms_len].
  rewrite u32_small by lia.
  rewrite (proj2 (Z.ltb_ge (Zlen t.1) 1)) by lia.
  rewrite bool_decide_eq_false_2 by done. cbn [orb].
  assert (Hb2 : buf = (pre ++ NNI_PUT16 (Zlen t.1) ++ t.1) ++ t.2 :: enc_topics ts)
    by (by rewrite Hbuf, <- !app_assoc).
  replace (Zlen pre + 2 + Zlen t.1) with (Zlen (pre ++ NNI_PUT16 (Zlen t.1) ++ t.1))
    by (unfold NNI_PUT16; zlen; lia).
  rewrite Hb2 at 1. rewrite rd_app_l. cbn [ebind default].
  fold (sub_node t).
  rewrite (proj2 (Z.ltb_ge 2 _)) by exact Hrh.
  rewrite andb_true_l || idtac.
  match goal with |- context [if ?c then Ret (PROTOCOL_ERROR, _) else _] =>
    assert (c = false) as -> end.
  { apply not_true_iff_false. intros Hc. apply Hsh.
    apply andb_true_iff in Hc as [[Hv Hp]%andb_true_iff Hn].
    apply Z.eqb_eq in Hv, Hn. done. }
  replace (Zlen (pre ++ NNI_PUT16 (Zlen t.1) ++ t.1) + 1) with (Zlen (pre ++ enc_topic t))
    by (unfold enc_topic, NNI_PUT16; zlen; lia).
  pose proof (Zlen_nonneg (pre ++ enc_topics (t :: ts))) as Hnn.
  unfold u64. rewrite Z.mod_small by lia. rewrite Hrem, enc_topics_cons.
  destruct ts as [|t2 ts].
  - change (enc_topics []) with (@nil Z). rewrite app_nil_r, Z.ltb_irrefl. done.
  - rewrite (proj2 (Z.ltb_lt _ _)) by
      (rewrite enc_topics_cons; zlen; rewrite !Zlen_enc_topic;
       pose proof (Zlen_nonneg t2.1); pose proof (Zlen_nonneg (enc_topics ts)); lia).
    rewrite Hok. unfold buf. rewrite enc_topics_cons, app_assoc.
    rewrite IH; [by rewrite <- app_assoc | done | done | simpl in *; lia | | done].
    rewrite <- app_assoc, <- enc_topics_cons. exact Hrem.
Qed.

Lemma decode_sub_loop_total ok fuel payload proto_ver remaining_len vpos n bpos done_ :
  (0 < fuel)%nat -> Zlen payload < bpos + Z.of_nat fuel ->
  decode_sub_loop ok fuel payload proto_ver remaining_len vpos n bpos done_ <> OOF.
Proof using Hlaws.
  revert n bpos done_. induction fuel as [|fuel IH]; intros n bpos done_ Hf Hm; [lia|].
  cbn [decode_sub_loop].
  destruct (copy_utf8_str payload bpos) as [[[body pos'] len]| |] eqn:Ec; cbn [ebind];
    [|done|].
  2:{ by apply copy_utf8_str_no_oof in Ec. }
  pose proof (copy_utf8_str_reads _ _ _ _ _ Ec). apply copy_utf8_str_pos in Ec.
  assert (Hnext : forall tn,
    (if pos' + 1 <? u64 (remaining_len - vpos)
     then if ok n
          then decode_sub_loop ok fuel payload proto_ver remaining_len vpos (S n) (pos' + 1) (done_ ++ [tn])
          else Ret (NNG_ENOMEM, done_ ++ [tn])
     else Ret (0, done_ ++ [tn])) <> OOF).
  { intros tn. destruct (pos' + 1 <? u64 (remaining_len - vpos)); [|done]. destruct (ok n); [|done]. apply IH; lia. }
  destruct (_ || _); [apply Hnext|].
  destruct (rd payload pos') as [opts| |] eqn:Er; cbn [ebind];
    [|done|by apply rd_no_oof in Er].
  destruct (2 <? _); [done|]. destruct (_ && _); [done | apply Hnext].
Qed.
End DecodeProofs.

(** The variable header of a packet: where the payload's positions start. *)
Definition var_header_ok {msg property} `{NngMsg msg} `{NngParser msg property}
    (m : msg) (proto_ver : Z) (props : option property) (vpos plen : Z) : Prop :=
  (proto_ver <> MQTT_PROTOCOL_VERSION_v5 /\ props = None /\ vpos = 2 /\ plen = 0) \/
  (proto_ver = MQTT_PROTOCOL_VERSION_v5 /\
   decode_properties m 2 = Ret (props, vpos, plen) /\ check_properties props = SUCCESS).

Section DecodeSpec.
Context {msg property : Type} `{Hmsg : NngMsg msg} `{Hpar : NngParser msg property}.
Context {utf8_ok : bytes -> Prop}.
Context {Hlaws : NngParserLaws msg property utf8_ok}.

Lemma decode_sub_spec ok (m : msg) proto_ver props vpos plen id rest ts :
  (forall i, ok i = true) ->
  0 < id < 65536 -> nng_msg_body m = NNI_PUT16 id ++ rest ->
  var_header_ok m proto_ver props vpos plen ->
  nng_msg_payload m = enc_topics ts -> ts <> [] ->
  Forall (sub_topic_ok utf8_ok proto_ver) ts ->
  nng_msg_remaining_len m = vpos + Zlen (enc_topics ts) -> 0 <= vpos ->
  nng_msg_remaining_len m < 2 ^ 32 ->
  decode_sub_msg ok (sub_fuel m) m proto_ver =
  Ret (0, PacketSubscribe id props plen (sub_node <$> ts)).
Proof using Hlaws.
  intros Hok Hid Hbody Hvar Hpay Hne Hts Hrem Hvp Hsz. unfold decode_sub_msg.
  pose proof (NNI_GET16_PUT16 [] id rest ltac:(lia)) as Hg.
  cbn [app] in Hg. change (Zlen (@nil Z)) with 0 in Hg.
  rewrite Hbody, Hg. cbn [ebind].
  rewrite (proj2 (Z.eqb_neq id 0)) by lia.
  assert (Hp : forall vp pk, vp = vpos -> sp_packet_id pk = id -> sp_properties pk = props ->
    sp_prop_len pk = plen ->
    decode_sub_payload ok (sub_fuel m) m pk proto_ver vp =
    Ret (0, PacketSubscribe id props plen (sub_node <$> ts))).
  { intros vp pk -> <- <- <-. unfold decode_sub_payload. rewrite Hok, Hpay.
    pose proof (decode_sub_loop_ok ok (sub_fuel m) [] ts proto_ver
      (nng_msg_remaining_len m) vpos 1 [] Hok Hne Hts) as Hl.
    cbn [app] in Hl. change (Zlen (@nil Z)) with 0 in Hl. rewrite Hl; [done| |lia|lia].
    assert (Z.of_nat (length ts) <= Zlen (enc_topics ts)); [|unfold sub_fuel; rewrite Hpay; unfold Zlen in *; lia].
    clear. induction ts as [|t ts IH]; [done|]. rewrite enc_topics_cons. zlen.
    rewrite Zlen_enc_topic. pose proof (Zlen_nonneg t.1). cbn [length]. lia. }
  destruct Hvar as [(Hv & -> & -> & ->)|(-> & Hd & Hc)].
  - rewrite (proj2 (Z.eqb_neq _ _)) by congruence. by apply Hp.
  - rewrite Z.eqb_refl, Hd. cbn [ebind]. rewrite Hc. cbn [negb Z.eqb SUCCESS].
    by apply Hp.
Qed.
End DecodeSpec.

(** *** SUBACK *)

Section EncodeProofs.
Context {msg property : Type} `{Hmsg : NngMsg msg} `{Hpar : NngParser msg property}.
Context {utf8_ok : bytes -> Prop}.
Context {Hml : NngMsgLaws msg} {Hnf : NngMsgNoFail msg}.
Context {Hlaws : NngParserLaws msg property utf8_ok}.

Lemma append_run (m : msg) bs :
  exists m', nng_msg_append m bs = (0, m') /\ nng_msg_body m' = nng_msg_body m ++ bs /\
    nng_msg_header m' = nng_msg_header m.
Proof using Hml Hnf.
  destruct (nng_msg_append m bs) as [rv m'] eqn:E.
  pose proof (append_no_fail m bs) as Hz. rewrite E in Hz. simpl in Hz. subst rv.
  exists m'. apply append_ok in E as (? & ? & ?). done.
Qed.

Lemma header_append_run (m : msg) bs :
  exists m', nng_msg_header_append m bs = (0, m') /\
    nng_msg_header m' = nng_msg_header m ++ bs /\ nng_msg_body m' = nng_msg_body m.
Proof using Hml Hnf.
  destruct (nng_msg_header_append m bs) as [rv m'] eqn:E.
  pose proof (header_append_no_fail m bs) as Hz. rewrite E in Hz. simpl in Hz. subst rv.
  exists m'. apply header_append_ok in E as (? & ? & ?). done.
Qed.

Lemma append_codes_run (m : msg) nodes :
  exists m', append_codes m nodes = (0, m') /\
    nng_msg_body m' = nng_msg_body m ++ ((fun tn => u8 (tn_reason_code tn)) <$> nodes) /\
    nng_msg_header m' = nng_msg_header m.
Proof using Hml Hnf.
  revert m. induction nodes as [|tn nodes IH]; intros m; cbn [append_codes].
  - exists m. by rewrite app_nil_r.
  - destruct (append_run m [u8 (tn_reason_code tn)]) as (m1 & -> & Hb & Hh).
    cbn. destruct (IH m1) as (m2 & -> & Hb2 & Hh2). exists m2.
    rewrite Hb2, Hb, Hh2, Hh, <- app_assoc. done.
Qed.

Lemma finish_ack_run (m : msg) cmd :
  exists m', finish_ack (property := property) m cmd = (0, m') /\
    nng_msg_header m' = nng_msg_header m ++ cmd :: put_var_integer (u32 (nng_msg_len m)) /\
    nng_msg_body m' = nng_msg_body m.
Proof using Hml Hnf.
  unfold finish_ack.
  destruct (header_append_run m [cmd]) as (m1 & -> & Hh & Hb). cbn [Z.eqb negb].
  destruct (header_append_run m1 (put_var_integer (u32 (nng_msg_len m1)))) as (m2 & -> & Hh2 & Hb2).
  cbn [Z.eqb negb]. exists m2. unfold nng_msg_len in *.
  rewrite Hh2, Hh, Hb2, Hb, <- app_assoc. done.
Qed.

Definition suback_props (proto_ver : Z) : bytes :=
  if MQTT_PROTOCOL_VERSION_v5 =? proto_ver then [0] else [].

Lemma encode_suback_run (m : msg) proto_ver (pkt : packet_subscribe property) :
  sp_packet_id pkt <> 0 -> sp_node pkt <> [] ->
  let body := NNI_PUT16 (sp_packet_id pkt) ++ suback_props proto_ver ++
              ((fun tn => u8 (tn_reason_code tn)) <$> sp_node pkt) in
  exists m', encode_suback_msg m proto_ver (Some pkt) = (0, m') /\
    nng_msg_body m' = body /\
    nng_msg_header m' = CMD_SUBACK_byte :: put_var_integer (u32 (Zlen body)).
Proof using Hml Hnf Hlaws.
  intros Hid Hne. cbv zeta. unfold encode_suback_msg.
  set (m0 := nng_msg_clear (nng_msg_header_clear m)).
  assert (Hb0 : nng_msg_body m0 = []) by apply body_clear.
  assert (Hh0 : nng_msg_header m0 = []) by (unfold m0; rewrite header_clear; apply header_header_clear).
  destruct (append_run m0 (NNI_PUT16 (sp_packet_id pkt))) as (m1 & -> & Hb1 & Hh1).
  cbn [Z.eqb negb].
  set (m2 := if MQTT_PROTOCOL_VERSION_v5 =? proto_ver
             then snd (encode_properties m1 None CMD_SUBACK) else m1).
  assert (Hm2 : nng_msg_body m2 = nng_msg_body m1 ++ suback_props proto_ver /\
                nng_msg_header m2 = nng_msg_header m1).
  { unfold m2, suback_props. destruct (_ =? proto_ver); [apply encode_properties_none|].
    by rewrite app_nil_r. }
  destruct Hm2 as [Hb2 Hh2].
  rewrite (proj2 (Z.eqb_neq _ 0)) by done. cbn [Z.eqb negb].
  destruct (append_codes_run m2 (sp_node pkt)) as (m3 & -> & Hb3 & Hh3). cbn [Z.eqb negb].
  rewrite bool_decide_eq_false_2 by done. cbn [andb Z.eqb negb].
  destruct (finish_ack_run m3 CMD_SUBACK_byte) as (m4 & -> & Hh4 & Hb4).
  exists m4. unfold nng_msg_len in Hh4. split; [done|].
  assert (Hbody : nng_msg_body m3 = NNI_PUT16 (sp_packet_id pkt) ++ suback_props proto_ver ++
              ((fun tn => u8 (tn_reason_code tn)) <$> sp_node pkt))
    by (by rewrite Hb3, Hb2, Hb1, Hb0, <- app_assoc).
  rewrite Hb4, Hh4, Hbody, Hh3, Hh2, Hh1, Hh0. done.
Qed.
End EncodeProofs.

(** *** The two databases agree *)

Section Consistency.
Context {db hash db_ret msg property : Type}.
Context `{Hdb : NngDb db hash} {Hl : NngDbLaws db hash} `{Hret : NngRetain db_ret (dbtree_retain_msg msg)}.

(** The topic tree delivers to a client exactly under the filters the
    client table lists for it. *)
Definition consistent (d : db) (h : hash) : Prop :=
  forall p t, subscribed d t p <-> registered h p t.

(** The filters a list of nodes asks for. *)
Definition node_topics (nodes : list topic_node) : list bytes :=
  omap (fun tn => ms_body (tn_topic tn)) nodes.

Lemma consistent_insert d h t p q :
  consistent d h ->
  consistent (dbtree_insert_client d t p) (dbhash_insert_topic h p t q).
Proof.
  intros Hc p' t'. rewrite insert_client_spec, insert_topic_spec, (Hc p' t'). done.
Qed.

Lemma consistent_delete d h t p :
  consistent d h -> consistent (dbtree_delete_client d t p) (dbhash_del_topic h p t).
Proof. intros Hc p' t'. rewrite delete_client_spec, del_topic_spec, (Hc p' t'). done. Qed.

Lemma sub_ctx_loop_spec clears p (rets : db_ret) nodes d h r mr d' h' mr' :
  consistent d h ->
  sub_ctx_loop clears p rets nodes d h r mr = Ret (d', h', mr') ->
  consistent d' h' /\
  (forall p' t', registered h' p' t' <->
     registered h p' t' \/ (p' = p /\ t' ∈ node_topics nodes)) /\
  exists mr1, mr' = mr ++ mr1.
Proof.
  revert d h r mr. induction nodes as [|tn nodes IH]; intros d h r mr Hc Hrun.
  - injection Hrun as <- <- <-. split_and!; [done| |by exists []; rewrite app_nil_r].
    intros. set_solver.
  - cbn [sub_ctx_loop] in Hrun. unfold node_topics. cbn [omap list_omap].
    fold (node_topics nodes).
    destruct (ms_body (tn_topic tn)) as [t|] eqn:Et; [|by eapply IH].
    set (ex := dbhash_check_topic h p t) in *.
    set (d1 := if ex then d else dbtree_insert_client d t p) in *.
    set (h1 := if ex then h else dbhash_insert_topic h p t (tn_qos tn)) in *.
    assert (Hc1 : consistent d1 h1).
    { unfold d1, h1. destruct ex; [done | by apply consistent_insert]. }
    assert (Hh1 : forall p' t', registered h1 p' t' <->
              registered h p' t' \/ (t' = t /\ p' = p)).
    { intros p' t'. unfold h1. destruct ex eqn:Ex.
      - apply check_topic_spec in Ex. split; [tauto|]. intros [?|[-> ->]]; done.
      - rewrite insert_topic_spec. tauto. }
    assert (Hfin : exists r2 mr2, sub_ctx_loop clears p rets nodes d1 h1 r2 (mr ++ mr2)
                     = Ret (d', h', mr')).
    { match type of Hrun with match ?x with _ => _ end = _ =>
        destruct x as [| |v]; [|done|] end.
      - exists RNull, []. rewrite app_nil_r. exact Hrun.
      - exists (cvector_free clears (RVec v)), (rt_message <$> omap id v). exact Hrun. }
    destruct Hfin as (r2 & mr2 & Hrun2).
    destruct (IH _ _ _ _ Hc1 Hrun2) as (Hc' & Hreg & mr3 & ->).
    split_and!; [done| |exists (mr2 ++ mr3); by rewrite app_assoc].
    intros p' t'. rewrite Hreg, Hh1, elem_of_cons. tauto.
Qed.

(** With retain handling 0 everywhere (every MQTT 3.1.1 packet) [r] is
    looked up afresh for each topic. *)
Lemma sub_ctx_loop_no_ub clears p (rets : db_ret) nodes d h r mr :
  Forall (fun tn => tn_retain_handling tn = 0) nodes ->
  exists d' h' mr', sub_ctx_loop clears p rets nodes d h r mr = Ret (d', h', mr').
Proof.
  intros Hrh. revert d h r mr. induction Hrh as [|tn nodes Htn _ IH]; intros d h r mr; [by do 3 eexists|].
  cbn [sub_ctx_loop]. destruct (ms_body (tn_topic tn)); [|apply IH].
  rewrite Htn. cbn [Z.eqb orb]. destruct (dbtree_find_retain rets _); apply IH.
Qed.

(** The retained messages a filter finds. *)
Definition found (rets : db_ret) (t : bytes) : list (option msg) :=
  rt_message <$> omap id (default [] (dbtree_find_retain rets t)).

Lemma sub_ctx_loop_found clears p (rets : db_ret) nodes d h r mr :
  Forall (fun tn => tn_retain_handling tn = 0 /\ ms_body (tn_topic tn) <> None) nodes ->
  exists d' h', sub_ctx_loop clears p rets nodes d h r mr = Ret (d', h', mr ++ mjoin (found rets <$> node_topics nodes)).
Proof.
  intros Hn. revert d h r mr. induction Hn as [|tn nodes [Hrh Hb] _ IH]; intros d h r mr.
  { do 2 eexists. cbn. by rewrite app_nil_r. }
  cbn [sub_ctx_loop]. unfold node_topics. cbn [omap list_omap]. destruct (ms_body (tn_topic tn)) as [t|]; [|done].
  fold (node_topics nodes). rewrite Hrh. cbn [Z.eqb orb fmap list_fmap mjoin list_join]. unfold found at 1.
  destruct (dbtree_find_retain rets t) as [v|]; cbn [default from_option]; [|apply IH].
  rewrite app_assoc. apply IH.
Qed.

Lemma fold_destroy p ts d t' p' :
  subscribed (fold_left (destroy_sub_client_cb p) ts d) t' p' <->
  ~ (p' = p /\ t' ∈ ts) /\ subscribed d t' p'.
Proof.
  revert d. induction ts as [|t ts IH]; intros d; cbn [fold_left].
  - split; [|tauto]. intros ?. split; [|done]. intros [_ []%elem_of_nil].
  - rewrite IH. unfold destroy_sub_client_cb. rewrite delete_client_spec, elem_of_cons. tauto.
Qed.

Lemma destroy_sub_client_spec p d h d' h' :
  consistent d h -> destroy_sub_client p d h = (d', h') ->
  consistent d' h' /\
  forall p' t, registered h' p' t <-> p' <> p /\ registered h p' t.
Proof.
  intros Hc. unfold destroy_sub_client.
  destruct (dbhash_del_topic_queue h p) as [ts h1] eqn:E. intros [= <- <-].
  apply del_topic_queue_spec in E as [Hts Hh]. split; [|done].
  intros p' t. rewrite fold_destroy, Hh, (Hc p' t), Hts.
  destruct (decide (p' = p)) as [->|]; tauto.
Qed.
End Consistency.

(** ** Properties *)

Section Claims.
Context {msg property : Type} `{Hmsg : NngMsg msg} `{Hpar : NngParser msg property}.
Context {utf8_ok : bytes -> Prop}.
Context {Hlaws : NngParserLaws msg property utf8_ok}.

(** C16: decoding a well-formed SUBSCRIBE (any protocol version) returns 0
    with the packet id, its properties and one node per topic filter, in
    order, with the filter's bytes and options; the loop ends within the
    fuel. *)
Theorem decode_sub_msg_correct ok (m : msg) proto_ver props vpos plen id rest ts :
  (forall i, ok i = true) ->
  0 < id < 65536 -> nng_msg_body m = NNI_PUT16 id ++ rest ->
  var_header_ok m proto_ver props vpos plen ->
  nng_msg_payload m = enc_topics ts -> ts <> [] ->
  Forall (sub_topic_ok utf8_ok proto_ver) ts ->
  nng_msg_remaining_len m = vpos + Zlen (enc_topics ts) -> 0 <= vpos ->
  nng_msg_remaining_len m < 2 ^ 32 ->
  decode_sub_msg ok (sub_fuel m) m proto_ver =
  Ret (0, PacketSubscribe id props plen (sub_node <$> ts)).
Proof using Hlaws. apply decode_sub_spec. Qed.


Context {Hml : NngMsgLaws msg} {Hnf : NngMsgNoFail msg}.

(** C27: the SUBACK of a well-formed SUBSCRIBE answers every topic filter in
    order: packet id, (for MQTT 5) an empty property block, and one reason
    code per filter, always "granted QoS 2"; the fixed header carries the
    encoded body length. *)
Theorem suback_answers_every_topic ok (m : msg) proto_ver props vpos plen id rest ts :
  (forall i, ok i = true) ->
  0 < id < 65536 -> nng_msg_body m = NNI_PUT16 id ++ rest ->
  var_header_ok m proto_ver props vpos plen ->
  nng_msg_payload m = enc_topics ts -> ts <> [] ->
  Forall (sub_topic_ok utf8_ok proto_ver) ts ->
  nng_msg_remaining_len m = vpos + Zlen (enc_topics ts) -> 0 <= vpos ->
  nng_msg_remaining_len m < 2 ^ 32 ->
  let body := NNI_PUT16 id ++ suback_props proto_ver ++ replicate (length ts) GRANTED_QOS_2 in
  exists pkt m', decode_sub_msg ok (sub_fuel m) m proto_ver = Ret (0, pkt) /\
    encode_suback_msg m proto_ver (Some pkt) = (0, m') /\
    nng_msg_body m' = body /\
    nng_msg_header m' = CMD_SUBACK_byte :: put_var_integer (u32 (Zlen body)).
Proof using Hlaws Hml Hnf.
  intros Hok Hid Hb Hv Hp Hne Hts Hrem Hvp Hsz. cbv zeta.
  exists (PacketSubscribe id props plen (sub_node <$> ts)).
  destruct (encode_suback_run m proto_ver (PacketSubscribe id props plen (sub_node <$> ts)))
    as (m' & He & Hb' & Hh'); [cbn; lia|cbn; by destruct ts|].
  exists m'. split; [by eapply decode_sub_spec|]. split; [done|].
  assert (Hcodes : (fun tn => u8 (tn_reason_code tn)) <$> (sub_node <$> ts) =
                   replicate (length ts) GRANTED_QOS_2).
  { clear. induction ts as [|t ts IH]; [done|]. cbn. f_equal. exact IH. }
  cbn [sp_packet_id sp_node] in *. rewrite Hcodes in *. done.
Qed.
End Claims.

Section DbClaims.
Context {db hash db_ret msg property : Type}.
Context `{Hdb : NngDb db hash} {Hl : NngDbLaws db hash} `{Hret : NngRetain db_ret (dbtree_retain_msg msg)}.

(** C13: [sub_ctx_handle] keeps the topic tree and the client table in
    agreement and, when it returns 0, has registered exactly the filters of
    the packet's nodes for the subscriber on top of what was there; when it
    returns an error nothing changed. *)
Theorem sub_ctx_handle_correct clears p (pkt : packet_subscribe property)
    (d : db) (h : hash) (rets : db_ret) rv d' h' mr :
  consistent d h ->
  sub_ctx_handle clears p (Some pkt) d h rets = Ret (rv, (d', h', mr)) ->
  consistent d' h' /\
  (rv = 0 -> forall p' t', subscribed d' t' p' <->
     subscribed d t' p' \/ (p' = p /\ t' ∈ node_topics (sp_node pkt))) /\
  (rv <> 0 -> d' = d /\ h' = h /\ (sp_node pkt = [] \/ sp_packet_id pkt = 0)).
Proof.
  intros Hc. unfold sub_ctx_handle. case_match; bool_hyps.
  { intros [= <- <- <- <-]. split_and!; [done|done|]. intros _. split_and!; auto. }
  case_match; bool_hyps.
  { intros [= <- <- <- <-]. split_and!; [done|done|]. intros _. split_and!; auto. }
  intros ([[d1 h1] mr1] & Hrun & [= <- <- <- <-])%ebind_Ret.
  apply sub_ctx_loop_spec in Hrun as (Hc' & Hreg & _); [|done].
  split_and!; [done| |done]. intros _ p' t'.
  rewrite (Hc' p' t'), Hreg, (Hc p' t'). done.
Qed.

(** When no node asks for retain handling 1 or 2 (as in MQTT 3.1.1),
    [sub_ctx_handle] runs to the end and returns 0 on every packet with a
    non-zero id and at least one topic, whatever [cvector_free] does to its
    argument. *)
Theorem sub_ctx_handle_returns clears p (pkt : packet_subscribe property)
    (d : db) (h : hash) (rets : db_ret) :
  sp_packet_id pkt <> 0 -> sp_node pkt <> [] ->
  Forall (fun tn => tn_retain_handling tn = 0) (sp_node pkt) ->
  exists d' h' mr, sub_ctx_handle clears p (Some pkt) d h rets = Ret (0, (d', h', mr)).
Proof.
  intros Hid Hne Hrh. unfold sub_ctx_handle.
  rewrite bool_decide_eq_false_2 by done. rewrite (proj2 (Z.eqb_neq _ 0)) by done.
  destruct (sub_ctx_loop_no_ub clears p rets (sp_node pkt) d h RNull [] Hrh)
    as (d' & h' & mr & ->). cbn [ebind]. eauto.
Qed.

(** A disconnecting client loses every subscription and no other
    client loses one; tree and table stay in agreement. *)
Theorem destroy_sub_client_correct p (d : db) (h : hash) d' h' :
  consistent d h -> destroy_sub_client p d h = (d', h') ->
  consistent d' h' /\ (forall t, ~ subscribed d' t p) /\
  (forall p' t, p' <> p -> subscribed d' t p' <-> subscribed d t p').
Proof.
  intros Hc (Hc' & Hreg)%destroy_sub_client_spec; [|done].
  split_and!; [done| |].
  - intros t Hs%Hc'%Hreg. tauto.
  - intros p' t Hne. rewrite (Hc' p' t), Hreg, (Hc p' t). tauto.
Qed.

(** C40: two topics in one SUBSCRIBE, the first with retained messages and
    retain handling 0, the second with retain handling 2: the loop variable
    [r] still holds the vector freed for the first topic and is read again,
    unless [cvector_free] clears its argument. *)
Theorem sub_ctx_handle_use_after_free p (pkt : packet_subscribe property)
    (d : db) (h : hash) (rets : db_ret) t1 t2 tn1 tn2 v :
  sp_packet_id pkt <> 0 -> sp_node pkt = [tn1; tn2] ->
  ms_body (tn_topic tn1) = Some t1 -> ms_body (tn_topic tn2) = Some t2 ->
  tn_retain_handling tn1 = 0 -> tn_retain_handling tn2 = 2 ->
  dbtree_find_retain rets t1 = Some v ->
  sub_ctx_handle false p (Some pkt) d h rets = UB.
Proof.
  intros Hid Hn H1 H2 Hr1 Hr2 Hf. unfold sub_ctx_handle. rewrite Hn.
  rewrite bool_decide_eq_false_2 by done. rewrite (proj2 (Z.eqb_neq _ 0)) by done.
  cbn [sub_ctx_loop]. by rewrite H1, Hr1, Hf, H2, Hr2.
Qed.
End DbClaims.

(** ** Concrete packets *)

(** SUBSCRIBE 10 to "a/b" (QoS 1) and "c" (QoS 0). *)
Definition demo_topics : list (bytes * Z) := [([97; 47; 98], 1); ([99], 0)].

Definition demo_sub : rmsg :=
  RMsg [130; 12] ([0; 10] ++ enc_topics demo_topics) 2 12 CMD_SUBSCRIBE 0.

Definition all_ok (i : nat) : bool := true.

Lemma demo_topics_ok : Forall (sub_topic_ok ascii_ok 4) demo_topics.
Proof.
  unfold sub_topic_ok, ascii_ok, demo_topics.
  apply Forall_cons_2; [|apply Forall_cons_2; [|apply Forall_nil_2]];
    (split; [repeat constructor; lia|]); (split; [vm_compute; split; reflexivity|]);
    (split; [vm_compute; discriminate|]); intros [? _]; discriminate.
Qed.

Lemma decode_sub_msg_correct_witness :
  decode_sub_msg (property := list (Z * property_data)) all_ok (sub_fuel demo_sub) demo_sub 4 =
  Ret (0, PacketSubscribe 10 None 0 (sub_node <$> demo_topics)).
Proof.
  apply (decode_sub_msg_correct (utf8_ok := ascii_ok) all_ok demo_sub 4 None 2 0 10 (enc_topics demo_topics)).
  - reflexivity.
  - lia.
  - reflexivity.
  - left. split; [discriminate|]. repeat split.
  - reflexivity.
  - discriminate.
  - exact demo_topics_ok.
  - reflexivity.
  - lia.
  - reflexivity.
Defined.

(** A remaining length of 0 makes the bound of the loop wrap around; it stops at
    the end of the payload. *)
Definition demo_short : rmsg := RMsg [] (NNI_PUT16 10 ++ [0; 1; 97; 0]) 2 0 CMD_SUBSCRIBE 0.


Lemma suback_answers_every_topic_witness :
  exists pkt m', decode_sub_msg (property := list (Z * property_data)) all_ok
      (sub_fuel demo_sub) demo_sub 4 = Ret (0, pkt) /\
    encode_suback_msg demo_sub 4 (Some pkt) = (0, m') /\
    nng_msg_body m' = [0; 10; 2; 2] /\ nng_msg_header m' = [144; 4].
Proof.
  destruct (suback_answers_every_topic (property := list (Z * property_data))
           (utf8_ok := ascii_ok) all_ok demo_sub 4 None 2 0 10
           (enc_topics demo_topics) demo_topics) as (pkt & m' & H1 & H2 & H3 & H4).
  - reflexivity.
  - lia.
  - reflexivity.
  - left. split; [discriminate|]. repeat split.
  - reflexivity.
  - discriminate.
  - exact demo_topics_ok.
  - reflexivity.
  - lia.
  - reflexivity.
  - exists pkt, m'. rewrite H3, H4. split; [exact H1|]. split; [exact H2|].
    vm_compute. split; reflexivity.
Defined.

Definition demo_pkt : packet_subscribe (list (Z * property_data)) :=
  PacketSubscribe 10 None 0 (sub_node <$> demo_topics).

Definition empty_hash : rhash := RHash ∅ ∅.

Lemma empty_consistent : consistent (∅ : gset (bytes * Z)) empty_hash.
Proof. intros p t. cbn. set_solver. Qed.

Lemma sub_ctx_handle_returns_witness :
  exists d' h' mr,
    sub_ctx_handle false 7 (Some demo_pkt) (∅ : gset (bytes * Z)) empty_hash (∅ : gmap bytes (dbtree_retain_msg rmsg))
    = Ret (0, (d', h', mr)).
Proof.
  apply (sub_ctx_handle_returns false 7 demo_pkt); [discriminate | discriminate |].
  apply Forall_cons_2; [reflexivity|]. apply Forall_cons_2; [reflexivity|]. apply Forall_nil_2.
Defined.

Definition demo_hash : rhash := RHash {[(7, [97]); (8, [98])]} ∅.
Definition demo_db : gset (bytes * Z) := {[([97], 7); ([98], 8)]}.

Lemma demo_consistent : consistent demo_db demo_hash.
Proof. intros p t. cbn. unfold demo_db. set_solver. Qed.

Lemma destroy_sub_client_correct_witness :
  let '(d', h') := destroy_sub_client 7 demo_db demo_hash in
  ~ subscribed d' [97] 7 /\ subscribed d' [98] 8.
Proof.
  destruct (destroy_sub_client 7 demo_db demo_hash) as [d' h'] eqn:E.
  destruct (destroy_sub_client_correct 7 demo_db demo_hash d' h' demo_consistent E)
    as (_ & Hgone & Hkeep).
  split; [apply Hgone|]. apply Hkeep; [discriminate|]. cbn. unfold demo_db. set_solver.
Defined.

(** "a" with retain handling 0 and a retained message, "b" with 2. *)
Definition uaf_pkt : packet_subscribe (list (Z * property_data)) :=
  PacketSubscribe 1 None 0 [sub_node ([97], 0); sub_node ([98], 32)].

Definition uaf_rets : gmap bytes (dbtree_retain_msg rmsg) := {[ [97] := RetainMsg 0 true (Some demo_sub) ]}.

Lemma sub_ctx_handle_use_after_free_witness :
  sub_ctx_handle false 7 (Some uaf_pkt) (∅ : gset (bytes * Z)) empty_hash uaf_rets = UB.
Proof.
  apply (sub_ctx_handle_use_after_free 7 uaf_pkt _ _ uaf_rets [97] [98]
           (sub_node ([97], 0)) (sub_node ([98], 32)) [Some (RetainMsg 0 true (Some demo_sub))]);
    [discriminate | reflexivity..].
Defined.
