(* ===== verification/UnsubHandler.v ===== *)
(** * unsub_handler.c: UNSUBSCRIBE packets, and sessions

    The nodes of an UNSUBSCRIBE come from [nng_alloc], which does not clear
    them: [uninit] is the byte found in a field nobody wrote. *)

From Stdlib Require Import ZArith Lia.
From stdpp Require Import base numbers list gmap option sets.
From S2P Require Import Prelude Mqtt Nng NngModel SubHandler.

Local Open Scope Z_scope.
Local Open Scope nano_scope.

(** [unsub_pkt->node] is [None] while it has not been written. *)
Record packet_unsubscribe (property : Type) := PacketUnsubscribe {
  up_packet_id : Z;
  up_properties : option property;
  up_prop_len : Z;
  up_node : option (list topic_node)
}.
Arguments PacketUnsubscribe {property}.
Arguments up_packet_id {property}.
Arguments up_properties {property}.
Arguments up_prop_len {property}.
Arguments up_node {property}.

(** ** Decoding *)

Section Decode.
Context {msg property : Type} `{NngMsg msg} `{Hpar : NngParser msg property}.
Variable alloc_ok : nat -> bool.
Variable uninit : Z.

(** The loop of [decode_unsub_msg]. *)
Fixpoint decode_unsub_loop (fuel : nat) (payload : bytes) (remaining_len vpos : Z)
    (n : nat) (bpos : Z) (done : list topic_node) : exec (Z * list topic_node) :=
  match fuel with
  | O => OOF
  | S fuel' =>
      let* r := get_utf8_str payload bpos in
      let '(body, bpos, len_of_topic) := r in
      if negb (u32 len_of_topic =? u32 (-1)) then
        let tn := TopicNode uninit (MqttString (Some body) (u32 len_of_topic)) uninit in
        if bpos <? u64 (remaining_len - vpos) then
          if alloc_ok n
          then decode_unsub_loop fuel' payload remaining_len vpos (S n) bpos (done ++ [tn])
          else Ret (NNG_ENOMEM, done ++ [tn])
        else Ret (0, done ++ [tn])
      else
        Ret (PROTOCOL_ERROR,
             done ++ [TopicNode uninit (MqttString (Some body) uninit) UNSPECIFIED_ERROR])
  end.

Definition decode_unsub_payload (fuel : nat) (m : msg) (pkt : packet_unsubscribe property)
    (vpos : Z) : exec (Z * packet_unsubscribe property) :=
  if alloc_ok O then
    let* r := decode_unsub_loop fuel (nng_msg_payload m) (nng_msg_remaining_len m) vpos 1 0 [] in
    let '(rv, nodes) := r in
    Ret (rv, PacketUnsubscribe (up_packet_id pkt) (up_properties pkt) (up_prop_len pkt) (Some nodes))
  else Ret (NNG_ENOMEM, pkt).

Definition decode_unsub_msg (fuel : nat) (m : msg) (proto_ver : Z)
    : exec (Z * packet_unsubscribe property) :=
  let* packet_id := NNI_GET16 (nng_msg_body m) 0 in
  let vpos := 2 in
  if MQTT_PROTOCOL_VERSION_v5 =? proto_ver then
    let* r := decode_properties m vpos in
    let '(props, vpos, prop_len) := r in
    let pkt := PacketUnsubscribe packet_id props prop_len None in
    if negb (check_properties props =? SUCCESS) then Ret (PROTOCOL_ERROR, pkt)
    else decode_unsub_payload fuel m pkt vpos
  else decode_unsub_payload fuel m (PacketUnsubscribe packet_id None 0 None) vpos.
End Decode.

(** ** UNSUBACK *)

Section Encode.
Context {msg property : Type} `{NngMsg msg} `{Hpar : NngParser msg property}.

Definition CMD_UNSUBACK_byte : Z := Z.shiftl UNSUBACK 4.

(** Following an unwritten [node] is undefined. *)
Definition encode_unsuback_msg (m : msg) (proto_ver : Z) (unsub_pkt : packet_unsubscribe property)
    : exec (Z * msg) :=
  let m := nng_msg_clear (nng_msg_header_clear m) in
  let '(rv, m) := nng_msg_append m (NNI_PUT16 (up_packet_id unsub_pkt)) in
  if negb (rv =? 0) then Ret (PROTOCOL_ERROR, m)
  else if MQTT_PROTOCOL_VERSION_v5 =? proto_ver then
    let m := snd (encode_properties m None CMD_UNSUBACK) in
    match up_node unsub_pkt with
    | None => UB
    | Some nodes =>
        let '(rv, m) := append_codes m nodes in
        if negb (rv =? 0) then Ret (rv, m)
        else Ret (finish_ack (property := property) m CMD_UNSUBACK_byte)
    end
  else Ret (finish_ack (property := property) m CMD_UNSUBACK_byte).
End Encode.

(** ** Unsubscribing *)

Section Unsubscribe.
Context {db hash property : Type} `{NngDb db hash}.

(** [nng_strndup(tn->topic.body, tn->topic.len)] *)
Definition node_filter (tn : topic_node) : bytes :=
  cstr (take (Z.to_nat (ms_len (tn_topic tn))) (default [] (ms_body (tn_topic tn)))).

Fixpoint unsub_ctx_loop (p : Z) (nodes : list topic_node) (d : db) (h : hash)
    : list topic_node * (db * hash) :=
  match nodes with
  | [] => ([], (d, h))
  | tn :: nodes' =>
      if ms_len (tn_topic tn) =? 0 then
        let '(ns, s) := unsub_ctx_loop p nodes' d h in (tn :: ns, s)
      else
        let '(rv, (d, h)) := sub_ctx_del d h (node_filter tn) p in
        let tn := TopicNode (tn_opts tn) (tn_topic tn) (if rv =? 0 then 0x00 else 0x11) in
        let '(ns, s) := unsub_ctx_loop p nodes' d h in (tn :: ns, s)
  end.

(** [strlen(client_id)] for a hash that nobody reads follows NULL; so does the
    test of an unwritten [node]. *)
Definition unsub_ctx_handle (client_id : option bytes) (p : Z) (unsub_pkt : packet_unsubscribe property)
    (d : db) (h : hash) : exec (Z * (packet_unsubscribe property * (db * hash))) :=
  match client_id, up_node unsub_pkt with
  | None, _ | _, None => UB
  | Some _, Some nodes =>
      let '(ns, s) := unsub_ctx_loop p nodes d h in
      Ret (0, (PacketUnsubscribe (up_packet_id unsub_pkt) (up_properties unsub_pkt)
                 (up_prop_len unsub_pkt) (Some ns), s))
  end.
End Unsubscribe.

(** The test of an unwritten [node] is undefined. *)
Definition unsub_pkt_free {property} (pkt : option (packet_unsubscribe property))
    : exec (list pkt_free_event) :=
  match pkt with
  | None => Ret []
  | Some unsub_pkt =>
      match up_node unsub_pkt with
      | None => UB
      | Some [] => Ret []
      | Some nodes =>
          Ret ((if negb (up_prop_len unsub_pkt =? 0) then [PFProperties] else []) ++
               ((fun _ => PFNode) <$> nodes) ++ [PFPacket])
      end
  end.

(** ** What a well-formed UNSUBSCRIBE says *)

Definition enc_filter (t : bytes) : bytes := NNI_PUT16 (Zlen t) ++ t.

Definition enc_filters (ts : list bytes) : bytes := mjoin (enc_filter <$> ts).

Definition unsub_node (uninit : Z) (t : bytes) : topic_node :=
  TopicNode uninit (MqttString (Some t) (Zlen t)) uninit.

Definition unsub_topic_ok (utf8_ok : bytes -> Prop) (t : bytes) : Prop :=
  utf8_ok t /\ 0 < Zlen t < 65536.

Lemma enc_filters_cons t ts : enc_filters (t :: ts) = enc_filter t ++ enc_filters ts.
Proof. done. Qed.

Lemma Zlen_enc_filter t : Zlen (enc_filter t) = Zlen t + 2.
Proof. unfold enc_filter, NNI_PUT16. zlen. lia. Qed.

Definition unsub_fuel {msg} `{NngMsg msg} (m : msg) : nat := S (Z.to_nat (nng_msg_remaining_len m)).

Section DecodeProofs.
Context {msg property : Type} `{Hmsg : NngMsg msg} `{Hpar : NngParser msg property}.
Context {utf8_ok : bytes -> Prop}.
Context {Hlaws : NngParserLaws msg property utf8_ok}.

Lemma decode_unsub_loop_ok ok uninit fuel pre ts remaining_len vpos n done_ :
  (forall i, ok i = true) ->
  ts <> [] -> Forall (unsub_topic_ok utf8_ok) ts ->
  (length ts <= fuel)%nat ->
  remaining_len - vpos = Zlen (pre ++ enc_filters ts) ->
  remaining_len - vpos < 2 ^ 64 ->
  decode_unsub_loop ok uninit fuel (pre ++ enc_filters ts) remaining_len vpos n (Zlen pre) done_
  = Ret (0, done_ ++ (unsub_node uninit <$> ts)).
Proof using Hlaws.
  intros Hok. revert fuel pre n done_.
  induction ts as [|t ts IH]; intros fuel pre n done_ Hne Hts Hf Hrem Hsz; [done|].
  destruct fuel as [|fuel]; [simpl in Hf; lia|].
  inversion_clear Hts as [|? ? Ht Hts']. destruct Ht as (Hu & Hl).
  set (buf := pre ++ enc_filters (t :: ts)).
  cbn [decode_unsub_loop].
  assert (Hbuf : buf = pre ++ NNI_PUT16 (Zlen t) ++ t ++ enc_filters ts).
  { unfold buf. rewrite enc_filters_cons. unfold enc_filter. rewrite <- !app_assoc. done. }
  rewrite Hbuf at 1. rewrite get_utf8_str_ok by done. cbn [ebind].
  rewrite u32_small by lia. change (u32 (-1)) with 4294967295.
  rewrite (proj2 (Z.eqb_neq (Zlen t) _)) by lia. cbn [negb].
  fold (unsub_node uninit t).
  replace (Zlen pre + 2 + Zlen t) with (Zlen (pre ++ enc_filter t))
    by (unfold enc_filter, NNI_PUT16; zlen; lia).
  pose proof (Zlen_nonneg (pre ++ enc_filters (t :: ts))) as Hnn.
  unfold u64. rewrite Z.mod_small by lia. rewrite Hrem, enc_filters_cons.
  destruct ts as [|t2 ts].
  - change (enc_filters []) with (@nil Z). rewrite app_nil_r, Z.ltb_irrefl. done.
  - rewrite (proj2 (Z.ltb_lt _ _)) by
      (rewrite enc_filters_cons; zlen; rewrite !Zlen_enc_filter;
       pose proof (Zlen_nonneg t2); pose proof (Zlen_nonneg (enc_filters ts)); lia).
    rewrite Hok. unfold buf. rewrite enc_filters_cons, app_assoc.
    rewrite IH; [by rewrite <- app_assoc | done | done | simpl in *; lia | | done].
    rewrite <- app_assoc, <- enc_filters_cons. exact Hrem.
Qed.

Lemma decode_unsub_spec ok uninit (m : msg) proto_ver props vpos plen id rest ts :
  (forall i, ok i = true) ->
  0 <= id < 65536 -> nng_msg_body m = NNI_PUT16 id ++ rest ->
  var_header_ok m proto_ver props vpos plen ->
  nng_msg_payload m = enc_filters ts -> ts <> [] ->
  Forall (unsub_topic_ok utf8_ok) ts ->
  nng_msg_remaining_len m = vpos + Zlen (enc_filters ts) -> 0 <= vpos ->
  nng_msg_remaining_len m < 2 ^ 32 ->
  decode_unsub_msg ok uninit (unsub_fuel m) m proto_ver =
  Ret (0, PacketUnsubscribe id props plen (Some (unsub_node uninit <$> ts))).
Proof using Hlaws.
  intros Hok Hid Hbody Hvar Hpay Hne Hts Hrem Hvp Hsz. unfold decode_unsub_msg.
  pose proof (NNI_GET16_PUT16 [] id rest Hid) as Hg.
  cbn [app] in Hg. change (Zlen (@nil Z)) with 0 in Hg.
  rewrite Hbody, Hg. cbn [ebind].
  assert (Hp : forall vp pk, vp = vpos -> up_packet_id pk = id -> up_properties pk = props ->
    up_prop_len pk = plen ->
    decode_unsub_payload ok uninit (unsub_fuel m) m pk vp =
    Ret (0, PacketUnsubscribe id props plen (Some (unsub_node uninit <$> ts)))).
  { intros vp pk -> <- <- <-. unfold decode_unsub_payload. rewrite Hok, Hpay.
    pose proof (decode_unsub_loop_ok ok uninit (unsub_fuel m) [] ts
      (nng_msg_remaining_len m) vpos 1 [] Hok Hne Hts) as Hl.
    cbn [app] in Hl. change (Zlen (@nil Z)) with 0 in Hl. rewrite Hl; [done| |lia|lia].
    assert (Z.of_nat (length ts) <= Zlen (enc_filters ts)); [|unfold unsub_fuel; lia].
    clear. induction ts as [|t ts IH]; [done|]. rewrite enc_filters_cons. zlen.
    rewrite Zlen_enc_filter. pose proof (Zlen_nonneg t). cbn [length]. lia. }
  destruct Hvar as [(Hv & -> & -> & ->)|(-> & Hd & Hc)].
  - rewrite (proj2 (Z.eqb_neq _ _)) by congruence. by apply Hp.
  - rewrite Z.eqb_refl, Hd. cbn [ebind]. rewrite Hc. cbn [negb Z.eqb SUCCESS].
    by apply Hp.
Qed.
End DecodeProofs.

Section UnsubProofs.
Context {db hash property : Type} `{Hdb : NngDb db hash} {Hl : NngDbLaws db hash}.

(** The filters the loop deletes. *)
Definition unsub_filters (nodes : list topic_node) : list bytes :=
  node_filter <$> filter (fun tn => ms_len (tn_topic tn) <> 0) nodes.

Lemma unsub_ctx_loop_spec p nodes (d : db) (h : hash) ns d' h' :
  consistent d h -> unsub_ctx_loop p nodes d h = (ns, (d', h')) ->
  consistent d' h' /\
  (forall p' t', registered h' p' t' <->
     registered h p' t' /\ ~ (p' = p /\ t' ∈ unsub_filters nodes)) /\
  (tn_topic <$> ns) = (tn_topic <$> nodes) /\
  Forall2 (fun a b => tn_reason_code b =
     if ms_len (tn_topic a) =? 0 then tn_reason_code a else 0) nodes ns.
Proof.
  revert d h ns. induction nodes as [|tn nodes IH]; intros d h ns Hc Hrun; cbn [unsub_ctx_loop] in Hrun.
  - injection Hrun as <- <- <-. split_and!; [done| |done|constructor].
    intros p' t'. unfold unsub_filters. cbn. split; [|tauto].
    intros ?. split; [done|]. intros [_ []%elem_of_nil].
  - destruct (ms_len (tn_topic tn) =? 0) eqn:E0; bool_hyps.
    + destruct (unsub_ctx_loop p nodes d h) as [ns1 [d1 h1]] eqn:E1.
      injection Hrun as <- <- <-. destruct (IH _ _ _ Hc E1) as (? & Hr & Ht & HF).
      split_and!; [done| |by rewrite !fmap_cons, Ht|constructor; [|done]].
      * unfold unsub_filters. rewrite filter_cons, decide_False by (intros []; done). done.
      * by rewrite E0.
    + cbn [sub_ctx_del] in Hrun. unfold sub_ctx_del in Hrun.
      destruct (unsub_ctx_loop p nodes _ _) as [ns1 [d1 h1]] eqn:E1.
      injection Hrun as <- <- <-.
      destruct (IH _ _ _ (consistent_delete d h (node_filter tn) p Hc) E1) as (? & Hr & Ht & HF).
      split_and!; [done| |by rewrite !fmap_cons, Ht|constructor; [|done]].
      * intros p' t'. unfold unsub_filters. rewrite filter_cons, decide_True by done.
        rewrite fmap_cons, elem_of_cons, Hr, del_topic_spec. unfold unsub_filters. tauto.
      * by rewrite (proj2 (Z.eqb_neq _ 0)) by done.
Qed.
End UnsubProofs.

(** ** Sessions: sequences of subscribe, unsubscribe and disconnect *)

Section Session.
Context {db hash db_ret msg property : Type}.
Context `{Hdb : NngDb db hash} {Hl : NngDbLaws db hash} `{Hret : NngRetain db_ret (dbtree_retain_msg msg)}.
Variable clears : bool.
(** the client id of each pipe *)
Variable client_id : Z -> option bytes.

Inductive session_op :=
| OpSubscribe (p : Z) (pkt : packet_subscribe property)
| OpUnsubscribe (p : Z) (pkt : packet_unsubscribe property)
| OpDisconnect (p : Z).

(** The handler calls the broker makes for each. *)
Definition session_step (rets : db_ret) (s : db * hash) (op : session_op) : exec (db * hash) :=
  match op with
  | OpSubscribe p pkt =>
      let* r := sub_ctx_handle clears p (Some pkt) s.1 s.2 rets in
      let '(_, (d, h, _)) := r in Ret (d, h)
  | OpUnsubscribe p pkt =>
      let* r := unsub_ctx_handle (client_id p) p pkt s.1 s.2 in
      let '(_, (_, s')) := r in Ret s'
  | OpDisconnect p =>
      Ret (if dbhash_check_id s.2 p then destroy_sub_client p s.1 s.2 else s)
  end.

Fixpoint session_run (rets : db_ret) (s : db * hash) (ops : list session_op) : exec (db * hash) :=
  match ops with
  | [] => Ret s
  | op :: ops' => let* s' := session_step rets s op in session_run rets s' ops'
  end.

(** The promise: a set of (filter, client) pairs. *)
Definition spec_step (S : gset (bytes * Z)) (op : session_op) : gset (bytes * Z) :=
  match op with
  | OpSubscribe p pkt =>
      if bool_decide (sp_node pkt = []) || (sp_packet_id pkt =? 0) then S
      else S ∪ list_to_set ((fun t => (t, p)) <$> node_topics (sp_node pkt))
  | OpUnsubscribe p pkt =>
      S ∖ list_to_set ((fun t => (t, p)) <$> unsub_filters (default [] (up_node pkt)))
  | OpDisconnect p => filter (fun q => q.2 <> p) S
  end.

Definition refines (s : db * hash) (S : gset (bytes * Z)) : Prop :=
  consistent s.1 s.2 /\ forall t p, subscribed s.1 t p <-> (t, p) ∈ S.

Lemma elem_pairs (ts : list bytes) (p p' : Z) t :
  (t, p') ∈ (list_to_set ((fun t => (t, p)) <$> ts) : gset (bytes * Z)) <->
  p' = p /\ t ∈ ts.
Proof.
  rewrite elem_of_list_to_set, list_elem_of_fmap. split.
  - intros (t' & [= -> ->] & ?). done.
  - intros [-> ?]. by exists t.
Qed.

Lemma session_step_refines rets s S op s' :
  refines s S -> session_step rets s op = Ret s' -> refines s' (spec_step S op).
Proof.
  destruct s as [d h]. intros [Hc HS]. cbn [fst snd] in *.
  destruct op as [p pkt|p pkt|p]; cbn [session_step spec_step fst snd].
  - intros ([rv [[d1 h1] mr]] & Hrun & [= <-])%ebind_Ret.
    unfold sub_ctx_handle in Hrun.
    case_bool_decide as Hn; cbn [orb]; [injection Hrun as _ <- <- _; done|].
    destruct (sp_packet_id pkt =? 0); [injection Hrun as _ <- <- _; done|].
    apply ebind_Ret in Hrun as ([[d2 h2] mr2] & Hrun & [= _ <- <- _]).
    apply sub_ctx_loop_spec in Hrun as (Hc' & Hreg & _); [|done].
    split; [done|]. cbn [fst]. intros t p'.
    rewrite elem_of_union, elem_pairs, <- HS, (Hc' p' t), (Hc p' t). apply Hreg.
  - intros ([rv [pk s1]] & Hrun & [= <-])%ebind_Ret. unfold unsub_ctx_handle in Hrun.
    destruct (client_id p); [|done]. destruct (up_node pkt) as [nodes|]; [|done].
    destruct (unsub_ctx_loop p nodes d h) as [ns [d1 h1]] eqn:E.
    injection Hrun as _ _ <-.
    apply unsub_ctx_loop_spec in E as (Hc' & Hreg & _); [|done].
    split; [done|]. cbn [fst from_option id]. intros t p'.
    rewrite elem_of_difference, elem_pairs, <- HS, (Hc' p' t), (Hc p' t). apply Hreg.
  - intros [= <-]. destruct (dbhash_check_id h p) eqn:Ei.
    + destruct (destroy_sub_client p d h) as [d1 h1] eqn:E.
      apply destroy_sub_client_spec in E as (Hc' & Hreg); [|done].
      split; [done|]. cbn [fst]. intros t p'.
      rewrite elem_of_filter, <- HS, (Hc' p' t), (Hc p' t). cbn. apply Hreg.
    + split; [done|]. cbn [fst]. intros t p'.
      rewrite elem_of_filter, <- HS, (Hc p' t). cbn. split; [|tauto].
      intros Hr. split; [|done]. intros ->. by apply check_id_spec with (t := t) in Ei.
Qed.

(** Over any sequence of SUBSCRIBE, UNSUBSCRIBE and disconnect
    handling that runs to its end, the topic tree is exactly the set of
    (filter, client) pairs the sequence asks for, and the client table
    agrees with it. *)
Theorem sessions_refine_subscription_set rets s S ops s' :
  refines s S -> session_run rets s ops = Ret s' ->
  refines s' (foldl spec_step S ops).
Proof.
  revert s S. induction ops as [|op ops IH]; intros s S Hr Hrun; cbn [session_run foldl] in *.
  - by injection Hrun as <-.
  - apply ebind_Ret in Hrun as (s1 & Hs & Hrun). eapply IH; [|done].
    by eapply session_step_refines.
Qed.
End Session.

Arguments OpSubscribe {property}.
Arguments OpUnsubscribe {property}.
Arguments OpDisconnect {property}.

(** ** UNSUBSCRIBE from packet to acknowledgement *)

Section Exchange.
Context {msg property db hash : Type} `{Hmsg : NngMsg msg} `{Hpar : NngParser msg property}.
Context `{Hdb : NngDb db hash} {Hl : NngDbLaws db hash}.
Context {utf8_ok : bytes -> Prop}.
Context {Hlaws : NngParserLaws msg property utf8_ok}.
Context {Hml : NngMsgLaws msg} {Hnf : NngMsgNoFail msg}.

Lemma node_filter_unsub uninit t :
  unsub_topic_ok utf8_ok t -> node_filter (unsub_node uninit t) = t.
Proof using Hlaws.
  intros [Hu Hlen]. unfold node_filter, unsub_node. cbn [tn_topic ms_len ms_body from_option id].
  unfold Zlen. rewrite Nat2Z.id, take_ge by lia. by apply cstr_id, utf8_ok_no_nul.
Qed.

Lemma unsub_filters_nodes uninit ts :
  Forall (unsub_topic_ok utf8_ok) ts -> unsub_filters (unsub_node uninit <$> ts) = ts.
Proof using Hlaws.
  unfold unsub_filters. induction 1 as [|t ts Ht _ IH]; [done|].
  rewrite fmap_cons, filter_cons, decide_True by (destruct Ht; cbn; lia).
  by rewrite fmap_cons, IH, node_filter_unsub.
Qed.

Lemma encode_unsuback_run (m : msg) proto_ver (pkt : packet_unsubscribe property) nodes :
  up_node pkt = Some nodes ->
  let body := NNI_PUT16 (up_packet_id pkt) ++
              (if MQTT_PROTOCOL_VERSION_v5 =? proto_ver
               then 0 :: ((fun tn => u8 (tn_reason_code tn)) <$> nodes) else []) in
  exists m', encode_unsuback_msg m proto_ver pkt = Ret (0, m') /\
    nng_msg_body m' = body /\
    nng_msg_header m' = CMD_UNSUBACK_byte :: put_var_integer (u32 (Zlen body)).
Proof using Hlaws Hml Hnf.
  intros Hn. cbv zeta. unfold encode_unsuback_msg.
  set (m0 := nng_msg_clear (nng_msg_header_clear m)).
  assert (Hb0 : nng_msg_body m0 = []) by apply body_clear.
  assert (Hh0 : nng_msg_header m0 = []) by (unfold m0; rewrite header_clear; apply header_header_clear).
  destruct (append_run m0 (NNI_PUT16 (up_packet_id pkt))) as (m1 & -> & Hb1 & Hh1).
  cbn [Z.eqb negb]. destruct (_ =? proto_ver).
  - rewrite Hn. destruct (encode_properties_none (property := property) m1 CMD_UNSUBACK) as [Hb2 Hh2].
    destruct (append_codes_run (snd (encode_properties m1 None CMD_UNSUBACK)) nodes)
      as (m3 & -> & Hb3 & Hh3). cbn [Z.eqb negb].
    destruct (finish_ack_run (property := property) m3 CMD_UNSUBACK_byte) as (m4 & -> & Hh4 & Hb4).
    exists m4. unfold nng_msg_len in Hh4.
    rewrite Hb3, Hb2, Hb1, Hb0 in *. rewrite Hh3, Hh2, Hh1, Hh0 in Hh4.
    cbn [app] in *. rewrite <- app_assoc in *. done.
  - destruct (finish_ack_run (property := property) m1 CMD_UNSUBACK_byte) as (m4 & -> & Hh4 & Hb4).
    exists m4. unfold nng_msg_len in Hh4. rewrite Hb1, Hb0 in *. rewrite Hh1, Hh0 in Hh4.
    cbn [app] in *. rewrite app_nil_r. done.
Qed.

(** C17: a well-formed UNSUBSCRIBE of a client with a client id is decoded,
    removes exactly its filters for that client from tree and table, and is
    acknowledged with its packet id, which is all there is before MQTT 5; in
    MQTT 5 an empty property block and one code 0 per filter follow.  No byte
    left uninitialised by the node allocation reaches the acknowledgement. *)
Theorem unsubscribe_exchange_correct ok uninit (m : msg) proto_ver props vpos plen id rest ts
    client_id p (d : db) (h : hash) :
  (forall i, ok i = true) ->
  0 <= id < 65536 -> nng_msg_body m = NNI_PUT16 id ++ rest ->
  var_header_ok m proto_ver props vpos plen ->
  nng_msg_payload m = enc_filters ts -> ts <> [] ->
  Forall (unsub_topic_ok utf8_ok) ts ->
  nng_msg_remaining_len m = vpos + Zlen (enc_filters ts) -> 0 <= vpos ->
  nng_msg_remaining_len m < 2 ^ 32 -> consistent d h ->
  let body := NNI_PUT16 id ++ (if MQTT_PROTOCOL_VERSION_v5 =? proto_ver
                               then 0 :: replicate (length ts) 0 else []) in
  exists pkt pkt' d' h' m',
    decode_unsub_msg ok uninit (unsub_fuel m) m proto_ver = Ret (0, pkt) /\
    unsub_ctx_handle (Some client_id) p pkt d h = Ret (0, (pkt', (d', h'))) /\
    consistent d' h' /\
    (forall p' t', subscribed d' t' p' <-> subscribed d t' p' /\ ~ (p' = p /\ t' ∈ ts)) /\
    encode_unsuback_msg m proto_ver pkt' = Ret (0, m') /\
    nng_msg_body m' = body /\
    nng_msg_header m' = CMD_UNSUBACK_byte :: put_var_integer (u32 (Zlen body)).
Proof using Hlaws Hml Hnf Hl.
  intros Hok Hid Hb Hv Hp Hne Hts Hrem Hvp Hsz Hc. cbv zeta.
  set (pkt := PacketUnsubscribe id props plen (Some (unsub_node uninit <$> ts))).
  destruct (unsub_ctx_loop p (unsub_node uninit <$> ts) d h) as [ns [d' h']] eqn:E.
  set (pkt' := PacketUnsubscribe id props plen (Some ns)).
  pose proof (unsub_ctx_loop_spec p _ d h ns d' h' Hc E) as (Hc' & Hreg & _ & HF).
  destruct (encode_unsuback_run m proto_ver pkt' ns eq_refl) as (m' & He & Hb' & Hh').
  exists pkt, pkt', d', h', m'.
  assert (Hcodes : (fun tn => u8 (tn_reason_code tn)) <$> ns = replicate (length ts) 0).
  { clear -HF Hts Hlaws. revert ns HF. induction Hts as [|t ts [_ Hlen] _ IH]; intros ns HF.
    - by inversion HF.
    - rewrite fmap_cons in HF. inversion HF as [|? tn ? ns' Hr HF']; subst.
      rewrite fmap_cons. cbn [length replicate]. f_equal; [|by apply IH].
      rewrite Hr. cbn [unsub_node tn_topic ms_len].
      by rewrite (proj2 (Z.eqb_neq _ 0)) by lia. }
  rewrite Hcodes in *. split_and!; try done.
  - by eapply decode_unsub_spec.
  - unfold unsub_ctx_handle. cbn [up_node pkt]. by rewrite E.
  - intros p' t'. rewrite (Hc' p' t'), Hreg, (Hc p' t'), unsub_filters_nodes by done. done.
Qed.

(** When the properties of an MQTT 5 UNSUBSCRIBE are rejected, the node
    list of the (not cleared) packet was never written; building the
    UNSUBACK anyway, as the broker does, reads it. *)
Theorem unsuback_after_bad_properties_is_undefined ok uninit fuel (m m2 : msg) id rest props vpos plen :
  0 <= id < 65536 -> nng_msg_body m = NNI_PUT16 id ++ rest ->
  decode_properties m 2 = Ret (props, vpos, plen) -> check_properties props <> SUCCESS ->
  exists pkt, decode_unsub_msg ok uninit fuel m MQTT_PROTOCOL_VERSION_v5 = Ret (PROTOCOL_ERROR, pkt) /\
    encode_unsuback_msg m2 MQTT_PROTOCOL_VERSION_v5 pkt = UB.
Proof using Hml Hnf.
  intros Hid Hb Hd Hck. exists (PacketUnsubscribe id props plen None). split.
  - unfold decode_unsub_msg. pose proof (NNI_GET16_PUT16 [] id rest Hid) as Hg.
    cbn [app] in Hg. change (Zlen (@nil Z)) with 0 in Hg. rewrite Hb, Hg. cbn [ebind].
    rewrite Z.eqb_refl, Hd. cbn [ebind]. by rewrite (proj2 (Z.eqb_neq _ _)) by done.
  - unfold encode_unsuback_msg.
    destruct (append_run (nng_msg_clear (nng_msg_header_clear m2)) (NNI_PUT16 id)) as (m1 & Hr & _).
    cbn [up_packet_id up_node]. by rewrite Hr.
Qed.
End Exchange.


(** ** Witnesses *)

Definition demo_unsub : rmsg :=
  RMsg [] (NNI_PUT16 11 ++ enc_filters [[97]; [98; 99]]) 2 9 CMD_UNSUBSCRIBE 0.

Lemma demo_filters_ok : Forall (unsub_topic_ok ascii_ok) [[97]; [98; 99]].
Proof.
  unfold unsub_topic_ok, ascii_ok.
  apply Forall_cons_2; [|apply Forall_cons_2; [|apply Forall_nil_2]];
    (split; [repeat constructor; lia|]); vm_compute; split; reflexivity.
Qed.

Lemma demo_refines : refines (demo_db, demo_hash) demo_db.
Proof. split; [exact demo_consistent|]. intros t p. reflexivity. Qed.

(** The same in MQTT 5, with an empty property block. *)
Definition demo_unsub5 : rmsg :=
  RMsg [] (NNI_PUT16 11 ++ [0] ++ enc_filters [[97]; [98; 99]]) 3 10 CMD_UNSUBSCRIBE 0.

Lemma unsubscribe_exchange_correct_witness :
  exists pkt pkt' d' h' m',
    decode_unsub_msg (property := list (Z * property_data)) all_ok 99 (unsub_fuel demo_unsub5) demo_unsub5 5
      = Ret (0, pkt) /\
    unsub_ctx_handle (Some [99; 55]) 7 pkt demo_db demo_hash = Ret (0, (pkt', (d', h'))) /\
    ~ subscribed d' [97] 7 /\ subscribed d' [98] 8 /\
    encode_unsuback_msg demo_unsub5 5 pkt' = Ret (0, m') /\
    nng_msg_body m' = [0; 11; 0; 0; 0] /\ nng_msg_header m' = [176; 5].
Proof.
  destruct (unsubscribe_exchange_correct (property := list (Z * property_data)) (utf8_ok := ascii_ok)
    all_ok 99 demo_unsub5 5 None 3 0 11 ([0] ++ enc_filters [[97]; [98; 99]]) [[97]; [98; 99]] [99; 55] 7
    demo_db demo_hash) as (pkt & pkt' & d' & h' & m' & H1 & H2 & H3 & H4 & H5 & H6 & H7).
  - reflexivity.
  - lia.
  - reflexivity.
  - right. repeat split.
  - reflexivity.
  - discriminate.
  - exact demo_filters_ok.
  - reflexivity.
  - lia.
  - reflexivity.
  - exact demo_consistent.
  - exists pkt, pkt', d', h', m'. rewrite H6, H7. split_and!; try done.
    + rewrite H4. intros [_ Hn]. apply Hn. split; [reflexivity|]. apply list_elem_of_In. by left.
    + rewrite H4. split; [vm_compute; reflexivity|]. intros [Hp _]. discriminate Hp.
Defined.

(** A parser that accepts no properties. *)
Definition strict_parser : NngParser rmsg (list (Z * property_data)) := {|
  copy_utf8_str := r_copy_str;
  copyn_utf8_str := r_copyn_str;
  get_utf8_str := r_get_str;
  put_var_integer v := varint 4 v;
  decode_properties m pos := Ret (Some [], pos + 1, 0);
  check_properties p := match p with None => SUCCESS | Some _ => PROTOCOL_ERROR end;
  property_get_value p id := None;
  encode_properties m p c := nng_msg_append m [0]
|}.

Lemma unsuback_after_bad_properties_is_undefined_witness :
  exists pkt, decode_unsub_msg (Hpar := strict_parser) all_ok 99 20 demo_unsub 5 = Ret (PROTOCOL_ERROR, pkt) /\
    encode_unsuback_msg (Hpar := strict_parser) demo_unsub 5 pkt = UB.
Proof.
  apply (unsuback_after_bad_properties_is_undefined (Hpar := strict_parser) all_ok 99 20 demo_unsub
    demo_unsub 11 (enc_filters [[97]; [98; 99]]) (Some []) 3 0);
  [lia | reflexivity | reflexivity | discriminate].
Defined.
