(* ===== verification/PubHandler.v ===== *)
(** * pub_handler.c: PUBLISH packets

    Decoding, encoding, delivery list, topic aliases, retained messages and
    message expiry.  The rule engine of the same file is in [RuleEngine]. *)

From Stdlib Require Import ZArith Lia.
From stdpp Require Import base numbers list gmap option sets.
From S2P Require Import Prelude Mqtt Nng NngModel SubHandler.

Local Open Scope Z_scope.
Local Open Scope nano_scope.

(** ** Statistics *)

Record msg_statistics := MsgStatistics {
  st_initialed : bool;
  st_msg_in : Z;
  st_msg_out : Z;
  st_msg_drop : Z
}.

Definition g_msg : msg_statistics := MsgStatistics false 0 0 0.

Definition msg_statistics_init (m : msg_statistics) : msg_statistics :=
  MsgStatistics true 0 0 0.

Definition nanomq_get_message_in (m : msg_statistics) : Z :=
  if st_initialed m then st_msg_in m else 0.
Definition nanomq_get_message_out (m : msg_statistics) : Z :=
  if st_initialed m then st_msg_out m else 0.
Definition nanomq_get_message_drop (m : msg_statistics) : Z :=
  if st_initialed m then st_msg_drop m else 0.

Definition inc_in (m : msg_statistics) : msg_statistics :=
  MsgStatistics (st_initialed m) (u64 (st_msg_in m + 1)) (st_msg_out m) (st_msg_drop m).
Definition inc_out (m : msg_statistics) : msg_statistics :=
  MsgStatistics (st_initialed m) (st_msg_in m) (u64 (st_msg_out m + 1)) (st_msg_drop m).
Definition inc_drop (m : msg_statistics) : msg_statistics :=
  MsgStatistics (st_initialed m) (st_msg_in m) (st_msg_out m) (u64 (st_msg_drop m + 1)).

(** ** Delivery list *)

(** [pipe_ct->msg_infos]: the pipe of each entry; NULL is the empty list. *)
Definition init_pipe_content : list Z := [].

Fixpoint foreach_loop (cli_ctx_list : list Z) (msg_infos : list Z) (g : msg_statistics)
    : list Z * msg_statistics :=
  match cli_ctx_list with
  | [] => (msg_infos, g)
  | pids :: rest =>
      let g := inc_out g in
      if pids =? 0 then foreach_loop rest msg_infos g
      else foreach_loop rest (msg_infos ++ [pids]) g
  end.

(** [ctx_list_len] is an [int]. *)
Definition foreach_client (cli_ctx_list : list Z) (msg_infos : list Z) (g : msg_statistics)
    : list Z * msg_statistics :=
  let ctx_list_len := s32 (Zlen cli_ctx_list) in
  foreach_loop (take (Z.to_nat ctx_list_len) cli_ctx_list) msg_infos g.

(** ** Decoding

    The fixed header is copied as a struct of eight bytes.  The first holds the
    flags and the type; the others are padding and [remain_len], which is set
    from the message at once, so only the first byte is modelled. *)

Section Decode.
Context {msg property : Type} `{Hmsg : NngMsg msg} `{Hpar : NngParser msg property}.
(** whether [nng_zalloc] finds memory for the payload *)
Variable payload_alloc : bool.

Definition decode_payload (msg_body : bytes) (msg_len pos : Z) : exec mqtt_payload :=
  let len := u32 (msg_len - pos) in
  if 0 <? len then
    (* nng_zalloc(len + 1), then memcpy of len bytes *)
    if payload_alloc && (len <=? u32 (len + 1)) then
      let* data := slice msg_body pos len in
      Ret (MqttPayload (Some data) len)
    else UB
  else Ret (MqttPayload None len).

Definition topic_has_wildcard (t : mqtt_string) : bool :=
  match ms_body t with
  | Some body => (0 <? ms_len t) && (strchr body 43 || strchr body 35)
  | None => false
  end.

Definition decode_publish (m : msg) (fh : fixed_header) (pkt : pub_packet_struct property)
    (proto : Z) : exec (Z * pub_packet_struct property) :=
  let msg_body := nng_msg_body m in
  let msg_len := nng_msg_len m in
  let v := var_publish (pp_var_header pkt) in
  let ret rc pid tn props plen pay :=
    Ret (rc, PubPacket fh (VPublish (PublishHeader pid tn props plen)) pay) in
  let* _ := NNI_GET16 msg_body 0 in
  let* r := copyn_utf8_str msg_body 0 msg_len in
  let '(body, pos, len) := r in
  (* len is a uint32_t: len >= 0 always holds *)
  let tn := MqttString body (u32 len) in
  if topic_has_wildcard tn then
    ret PROTOCOL_ERROR (ph_packet_id v) tn (ph_properties v) (ph_prop_len v) (pp_payload pkt)
  else
    let* r := (if 0 <? fh_qos fh then
                 let* id := NNI_GET16 msg_body pos in Ret (id, u32 (pos + 2))
               else Ret (ph_packet_id v, pos)) in
    let '(packet_id, pos) := r in
    let* r := (if MQTT_PROTOCOL_VERSION_v5 =? proto then decode_properties m pos
               else Ret (ph_properties v, pos, ph_prop_len v)) in
    let '(props, pos, prop_len) := r in
    if (MQTT_PROTOCOL_VERSION_v5 =? proto) &&
       match props with
       | Some _ => negb (check_properties props =? 0) ||
                   bool_decide (property_get_value props SUBSCRIPTION_IDENTIFIER <> None)
       | None => false
       end
    then ret PROTOCOL_ERROR packet_id tn props prop_len (pp_payload pkt)
    else if msg_len <? pos then ret PROTOCOL_ERROR packet_id tn props prop_len (pp_payload pkt)
    else
      let* pay := decode_payload msg_body msg_len pos in
      ret SUCCESS packet_id tn props prop_len
        (if 0 <? pl_len pay then pay else MqttPayload (pl_data (pp_payload pkt)) (pl_len pay)).

Definition decode_arrc (m : msg) (fh : fixed_header) (pkt : pub_packet_struct property)
    (proto : Z) : exec (Z * pub_packet_struct property) :=
  let msg_body := nng_msg_body m in
  let v := var_publish (pp_var_header pkt) in
  let* packet_id := NNI_GET16 msg_body 0 in
  if MQTT_PROTOCOL_VERSION_v5 =? proto then
    let pos := 2 in
    let* reason_code := rd msg_body pos in
    let* r := decode_properties m (pos + 1) in
    let '(props, _, prop_len) := r in
    Ret (if negb (check_properties props =? SUCCESS) then PROTOCOL_ERROR else SUCCESS,
         PubPacket fh (VArrc (ArrcHeader packet_id reason_code props prop_len)) (pp_payload pkt))
  else
    Ret (SUCCESS, PubPacket fh
           (VArrc (ArrcHeader packet_id 0 (ph_properties v) (ph_prop_len v))) (pp_payload pkt)).

(** The struct copied from the header has the flags in its first byte, padding,
    and the length, which is overwritten at once. *)
Definition decode_pub_message (m : msg) (pkt : pub_packet_struct property) (proto : Z)
    : exec (Z * pub_packet_struct property) :=
  let* b0 := rd (nng_msg_header m) 0 in
  let fh := fixed_header_of_byte b0 (u32 (nng_msg_remaining_len m)) in
  if nng_msg_len m <? fh_remain_len fh
  then Ret (PROTOCOL_ERROR, PubPacket fh (pp_var_header pkt) (pp_payload pkt))
  else if fh_packet_type fh =? PUBLISH then decode_publish m fh pkt proto
  else if bool_decide (fh_packet_type fh ∈ [PUBACK; PUBREC; PUBREL; PUBCOMP])
  then decode_arrc m fh pkt proto
  else Ret (SUCCESS, PubPacket fh (pp_var_header pkt) (pp_payload pkt)).
End Decode.

(** ** Encoding *)

(** [len] bytes of a NUL-terminated buffer; NULL is undefined. *)
Definition read_buf (o : option bytes) (len : Z) : exec bytes :=
  match o with Some b => slice (b ++ [0]) 0 len | None => UB end.

Section Encode.
Context {msg property : Type} `{Hmsg : NngMsg msg} `{Hpar : NngParser msg property}.

(** The result of an append is stored in [append_res] and never read. *)
Definition app_ (m : msg) (bs : bytes) : msg := snd (nng_msg_append m bs).
Definition happ_ (m : msg) (bs : bytes) : msg := snd (nng_msg_header_append m bs).

Definition append_bytes_with_type (m : msg) (type : Z) (content : bytes) (len : Z)
    : exec (Z * msg) :=
  if 0 <? len then
    let m := app_ m [u8 type] in
    let m := app_ m (NNI_PUT16 len) in
    let* bs := slice content 0 len in
    Ret (0, app_ m bs)
  else Ret (1, m).

Definition encode_publish (dest : msg) (pkt : pub_packet_struct property) (proto : Z)
    : exec (bool * msg * pub_packet_struct property) :=
  let h := pp_fixed_header pkt in
  let v := var_publish (pp_var_header pkt) in
  let fh := FixedHeader (fh_retain h) (fh_qos h) (fh_dup h) PUBLISH (fh_remain_len h) in
  let dest := happ_ dest [fixed_header_byte fh] in
  let tlen := ms_len (ph_topic_name v) in
  let* dest := (if 0 <? tlen then
                  let* body := read_buf (ms_body (ph_topic_name v)) tlen in
                  Ret (app_ (app_ dest (NNI_PUT16 tlen)) body)
                else Ret dest) in
  let dest := if 0 <? fh_qos fh then app_ dest (NNI_PUT16 (ph_packet_id v)) else dest in
  let '(rv, dest) := (if MQTT_PROTOCOL_VERSION_v5 =? proto
                      then encode_properties dest (ph_properties v) CMD_PUBLISH
                      else (0, dest)) in
  if negb (rv =? 0)
  then Ret (false, dest, PubPacket fh (pp_var_header pkt) (pp_payload pkt))
  else
    let* dest := (if 0 <? pl_len (pp_payload pkt) then
                    let* data := read_buf (pl_data (pp_payload pkt)) (pl_len (pp_payload pkt)) in
                    Ret (app_ dest data)
                  else Ret dest) in
    let remain_len := u32 (nng_msg_len dest) in
    let dest := happ_ dest (put_var_integer remain_len) in
    let dest := nng_msg_set_remaining_len dest remain_len in
    let fh := FixedHeader (fh_retain h) (fh_qos h) (fh_dup h) PUBLISH remain_len in
    Ret (true, dest, PubPacket fh (pp_var_header pkt) (pp_payload pkt)).

(** The acknowledgements; [cmd_types] are the tags the cases falling through
    set one after the other. *)
Definition encode_arrc (dest : msg) (pkt : pub_packet_struct property) (cmd : Z)
    (cmd_types : list cmd_type) : msg :=
  let dest := foldl nng_msg_set_cmd_type dest cmd_types in
  let fh := FixedHeader 0 0 0 cmd 2 in
  let packet_id := var_packet_id (pp_var_header pkt) in
  let dest := happ_ dest [fixed_header_byte fh] in
  let dest := happ_ dest (put_var_integer (fh_remain_len fh)) in
  let dest := app_ dest (NNI_PUT16 packet_id) in
  if 2 <? fh_remain_len fh then app_ dest [0] else dest.

Definition encode_pub_message (dest : msg) (pkt : pub_packet_struct property) (cmd : Z)
    : exec (bool * msg * pub_packet_struct property) :=
  let dest := nng_msg_header_clear (nng_msg_clear dest) in
  let proto := match nng_msg_cmd_type dest with
               | CMD_PUBLISH_V5 => MQTT_PROTOCOL_VERSION_v5
               | CMD_PUBLISH => MQTT_PROTOCOL_VERSION_v311
               | _ => 0
               end in
  if cmd =? PUBLISH then encode_publish dest pkt proto
  else if cmd =? PUBREL then
    Ret (true, encode_arrc dest pkt cmd [CMD_PUBREL; CMD_PUBACK; CMD_PUBREC; CMD_PUBCOMP], pkt)
  else if cmd =? PUBACK then
    Ret (true, encode_arrc dest pkt cmd [CMD_PUBACK; CMD_PUBREC; CMD_PUBCOMP], pkt)
  else if cmd =? PUBREC then
    Ret (true, encode_arrc dest pkt cmd [CMD_PUBREC; CMD_PUBCOMP], pkt)
  else if cmd =? PUBCOMP then Ret (true, encode_arrc dest pkt cmd [CMD_PUBCOMP], pkt)
  else Ret (true, dest, pkt).
End Encode.

(** ** Retained messages *)

(** What happens to message references and retained entries. *)
Inductive ref_event (msg : Type) :=
| MsgClone (m : msg)
| MsgFree (m : msg)
| RetainFree.
Arguments MsgClone {msg}.
Arguments MsgFree {msg}.
Arguments RetainFree {msg}.

Section Retain.
Context {msg property db_ret : Type} `{Hmp : NngMsgProp msg property}.
Context `{Hret : NngRetain db_ret (dbtree_retain_msg msg)}.
(** whether [nng_alloc] finds memory for the entry *)
Variable retain_alloc : bool.

(** The message is shared: [work->msg] and the entry's message are the same
    object, so the property set on one is seen in the other. *)
Definition handle_pub_retain (wmsg : msg) (proto_ver : Z) (pkt : pub_packet_struct property)
    (dr : db_ret) (topic : bytes) : msg * db_ret * list (ref_event msg) :=
  if fh_retain (pp_fixed_header pkt) =? 0 then (wmsg, dr, [])
  else
    let release (r : option (dbtree_retain_msg msg)) : list (ref_event msg) :=
      match r with
      | None => []
      | Some ret => match rt_message ret with Some m => [MsgFree m] | None => [] end ++ [RetainFree]
      end in
    if 0 <? pl_len (pp_payload pkt) then
      if retain_alloc then
        let wmsg' :=
          if proto_ver =? MQTT_PROTOCOL_VERSION_v5 then
            match ph_properties (var_publish (pp_var_header pkt)) with
            | Some p => nng_msg_proto_set_property wmsg (property_dup p)
            | None => wmsg
            end
          else wmsg in
        let retain := RetainMsg (fh_qos (pp_fixed_header pkt)) true (Some wmsg') in
        let '(r, dr) := dbtree_insert_retain dr topic retain in
        (wmsg', dr, MsgClone wmsg :: release r)
      else (wmsg, dr, [])
    else
      let '(r, dr) := dbtree_delete_retain dr topic in
      (wmsg, dr, release r).
End Retain.

(** ** Handling a PUBLISH *)

Section Handle.
Context {msg property db hash db_ret : Type}.
Context `{Hmsg : NngMsg msg} `{Hpar : NngParser msg property} `{Hmp : NngMsgProp msg property}.
Context `{Hdb : NngDb db hash} `{Hret : NngRetain db_ret (dbtree_retain_msg msg)}.

(** Which allocations succeed. *)
Record pub_allocs := PubAllocs { pa_packet : bool; pa_payload : bool; pa_retain : bool }.

(** What [handle_pub] may change. *)
Record pub_state := PubState {
  ps_msg : msg;
  ps_packet : option (pub_packet_struct property);
  ps_msg_infos : list Z;
  ps_stats : msg_statistics;
  ps_hash : hash;
  ps_retain : db_ret;
  ps_refs : list (ref_event msg)
}.

(** The topic a packet is routed under, with the alias table of [p] and the
    packet after; [None]: stop here. *)
Definition resolve_topic (p proto : Z) (pkt : pub_packet_struct property) (h : hash)
    : option (option bytes * hash * pub_packet_struct property) :=
  let v := var_publish (pp_var_header pkt) in
  let topic := ms_body (ph_topic_name v) in
  let len := ms_len (ph_topic_name v) in
  if proto =? MQTT_PROTOCOL_VERSION_v5 then
    let pdata := property_get_value (ph_properties v) TOPIC_ALIAS in
    match topic, 0 <? len, pdata with
    | Some t, true, Some d => Some (topic, dbhash_insert_atpair h p (p_value_u16 d) (cstr t), pkt)
    | Some t, true, None => Some (topic, h, pkt)
    | _, _, Some d =>
        match dbhash_find_atpair h p (p_value_u16 d) with
        | Some tp =>
            let tn := MqttString (Some (cstr tp)) (u32 (Zlen (cstr tp))) in
            Some (Some (cstr tp), h,
              PubPacket (pp_fixed_header pkt)
                (VPublish (PublishHeader (ph_packet_id v) tn (ph_properties v) (ph_prop_len v)))
                (pp_payload pkt))
        | None => None
        end
    | _, _, None => Some (topic, h, pkt)
    end
  else Some (topic, h, pkt).

(** From [dbtree_find_clients] on. *)
Definition deliver (allocs : pub_allocs) (d : db) (proto_ver : Z) (topic : bytes)
    (pkt : pub_packet_struct property) (s : pub_state) : pub_state :=
  let cli_ctx_list := dbtree_find_clients d topic in
  let shared_cli_list := dbtree_find_shared_clients d topic in
  let g := match cli_ctx_list, shared_cli_list with
           | None, None => inc_drop (ps_stats s)
           | _, _ => ps_stats s
           end in
  let '(infos, g) := match cli_ctx_list with
                     | Some l => foreach_client l (ps_msg_infos s) g
                     | None => (ps_msg_infos s, g)
                     end in
  let '(infos, g) := match shared_cli_list with
                     | Some l => foreach_client l infos g
                     | None => (infos, g)
                     end in
  let '(m, dr, refs) :=
    handle_pub_retain (pa_retain allocs) (ps_msg s) proto_ver pkt (ps_retain s) topic in
  PubState m (Some pkt) infos g (ps_hash s) dr (ps_refs s ++ refs).

Definition handle_pub (allocs : pub_allocs) (d : db) (p proto_ver : Z) (s : pub_state) (proto : Z)
    : exec (Z * pub_state) :=
  let g := if st_initialed (ps_stats s) then ps_stats s else msg_statistics_init (ps_stats s) in
  let g := inc_in g in
  if pa_packet allocs then
    let* r := decode_pub_message (pa_payload allocs) (ps_msg s) zero_pub_packet proto in
    let '(result, pkt) := r in
    let s' := PubState (ps_msg s) (Some pkt) [] g (ps_hash s) (ps_retain s) (ps_refs s) in
    if negb (SUCCESS =? result) then Ret (result, s')
    else if negb (PUBLISH =? fh_packet_type (pp_fixed_header pkt)) then Ret (result, s')
    else
      match resolve_topic p proto pkt (ps_hash s) with
      | None => Ret (result, s')
      | Some (topic, h, pkt) =>
          let s' := PubState (ps_msg s) (Some pkt) [] g h (ps_retain s) (ps_refs s) in
          match topic with
          | None => Ret (result, s')
          | Some t => Ret (result, deliver allocs d proto_ver (cstr t) pkt s')
          end
      end
  else UB.
End Handle.

Arguments PubState {msg property hash db_ret}.
Arguments pub_state : clear implicits.
Arguments ps_msg {msg property hash db_ret}.
Arguments ps_packet {msg property hash db_ret}.
Arguments ps_msg_infos {msg property hash db_ret}.
Arguments ps_stats {msg property hash db_ret}.
Arguments ps_hash {msg property hash db_ret}.
Arguments ps_retain {msg property hash db_ret}.
Arguments ps_refs {msg property hash db_ret}.

(** ** Releasing a packet; message expiry; hex dump *)

Inductive pub_free_event := FreeTopic (size : Z) | FreeProperties | FreePayload (size : Z) | FreePacket.

Definition free_pub_packet {property} (pub_packet : option (pub_packet_struct property))
    : list pub_free_event :=
  match pub_packet with
  | None => []
  | Some pkt =>
      (if fh_packet_type (pp_fixed_header pkt) =? PUBLISH then
         let v := var_publish (pp_var_header pkt) in
         (match ms_body (ph_topic_name v) with
          | Some _ => if 0 <? ms_len (ph_topic_name v)
                      then [FreeTopic (u32 (ms_len (ph_topic_name v) + 1))] else []
          | None => []
          end) ++
         (if 0 <? ph_prop_len v then [FreeProperties] else []) ++
         (match pl_data (pp_payload pkt) with
          | Some _ => if 0 <? pl_len (pp_payload pkt)
                      then [FreePayload (u32 (pl_len (pp_payload pkt) + 1))] else []
          | None => []
          end)
       else []) ++ [FreePacket]
  end.

(** The product is computed in 32 bits, the sum in 64. *)
Definition check_msg_exp {msg property} `{NngMsg msg} `{NngParser msg property}
    (nng_clock : Z) (m : msg) (prop : option property) : bool :=
  if decide (nng_msg_cmd_type m = CMD_PUBLISH_V5) then
    let rtime := nng_msg_get_timestamp m in
    match property_get_value prop MESSAGE_EXPIRY_INTERVAL with
    | Some data => negb (u64 (rtime + u32 (p_value_u32 data * 1000)) <? nng_clock)
    | None => true
    end
  else true.

Definition hex_digit (d : Z) : Z := if d <? 10 then 48 + d else 55 + d.

(** "%02X " for each byte. *)
Fixpoint hex_text (src : bytes) : bytes :=
  match src with
  | [] => []
  | b :: src' => [hex_digit (b / 16); hex_digit (b mod 16); 32] ++ hex_text src'
  end.

(** Written over [dest]; no terminator is added. *)
Definition bytes_to_str (src dest : bytes) : exec bytes :=
  if 3 * Zlen src <=? Zlen dest
  then Ret (hex_text src ++ drop (3 * length src) dest) else UB.

(** The text logged, if any. *)
Definition print_hex (alloc_ok : bool) (src : bytes) : exec (option bytes) :=
  if 0 <? Zlen src then
    if alloc_ok then
      let* dest := bytes_to_str src (replicate (3 * length src + 1) 0) in
      Ret (Some (cstr dest))
    else Ret None
  else Ret None.

(** ** Decoding a well-formed PUBLISH *)

Definition payload_of (data : bytes) : mqtt_payload :=
  MqttPayload (if bool_decide (data = []) then None else Some data) (Zlen data).

Definition no_wildcard (t : bytes) : Prop := ~ 43 ∈ t /\ ~ 35 ∈ t.

Definition id_part (qos id : Z) : bytes := if 0 <? qos then NNI_PUT16 id else [].

(** Topic and packet id, as they open the body. *)
Definition pub_prefix (t : bytes) (qos id : Z) : bytes :=
  NNI_PUT16 (Zlen t) ++ t ++ id_part qos id.

(** The properties that follow: none before MQTT 5, legal ones in MQTT 5. *)
Definition pub_props_ok {msg property} `{NngMsg msg} `{NngParser msg property}
    (m : msg) (proto pos : Z) (props : option property) (elen plen : Z) : Prop :=
  (proto <> MQTT_PROTOCOL_VERSION_v5 /\ props = None /\ elen = 0 /\ plen = 0) \/
  (proto = MQTT_PROTOCOL_VERSION_v5 /\ decode_properties m pos = Ret (props, pos + elen, plen) /\
   check_properties props = SUCCESS /\ property_get_value props SUBSCRIPTION_IDENTIFIER = None).

Lemma decode_payload_ok pre data :
  Zlen (pre ++ data) < 2 ^ 32 - 1 ->
  decode_payload true (pre ++ data) (Zlen (pre ++ data)) (Zlen pre) = Ret (payload_of data).
Proof.
  intros Hsz. pose proof (Zlen_nonneg pre). pose proof (Zlen_nonneg data).
  unfold decode_payload, payload_of. rewrite Zlen_app in *.
  replace (Zlen pre + Zlen data - Zlen pre) with (Zlen data) by lia.
  rewrite (u32_small (Zlen data)) by lia. case_bool_decide as Hd.
  - by subst data.
  - destruct data as [|b data]; [done|]. clear Hd.
    rewrite (proj2 (Z.ltb_lt 0 _)) by (zlen; pose proof (Zlen_nonneg data); lia).
    rewrite u32_small by lia. rewrite (proj2 (Z.leb_le _ _)) by lia. cbn [andb].
    pose proof (slice_app pre (b :: data) []) as Hs. rewrite app_nil_r in Hs.
    by rewrite Hs.
Qed.

(** The payload is what follows the position the parser stopped at. *)
Lemma decode_payload_sound al body pos pay :
  Zlen body < 2 ^ 32 -> 0 <= pos <= Zlen body ->
  decode_payload al body (Zlen body) pos = Ret pay ->
  (if 0 <? pl_len pay then pay else MqttPayload None (pl_len pay)) =
  payload_of (drop (Z.to_nat pos) body).
Proof.
  intros Hsz Hpos Hpay. unfold decode_payload in Hpay. rewrite u32_small in Hpay by lia.
  case_match_in Hpay; bool_hyps.
  - case_match_in Hpay. apply ebind_Ret in Hpay as (dt & Hs & [= <-]). cbn [pl_len].
    rewrite (proj2 (Z.ltb_lt _ _)) by done.
    apply slice_Ret in Hs as Hs'. destruct Hs' as (Hp0 & Hl0 & Hle & Hdt).
    unfold slice in Hs. case_match_in Hs. injection Hs as <-.
    rewrite take_ge in * by (rewrite length_drop; unfold Zlen in *; lia).
    unfold payload_of. rewrite Hdt, bool_decide_eq_false_2; [done|].
    intros Hnil. rewrite Hnil in Hdt. change (Zlen (@nil Z)) with 0 in Hdt. lia.
  - injection Hpay as <-. cbn [pl_len]. replace pos with (Zlen body) by lia.
    rewrite Z.sub_diag. cbn [Z.ltb Z.compare]. rewrite drop_ge by (unfold Zlen; lia). done.
Qed.

Section DecodeProofs.
Context {msg property : Type} `{Hmsg : NngMsg msg} `{Hpar : NngParser msg property}.
Context {utf8_ok : bytes -> Prop}.
Context {Hlaws : NngParserLaws msg property utf8_ok}.

Lemma no_wildcard_spec t n : utf8_ok t -> 0 < n ->
  topic_has_wildcard (MqttString (Some t) n) = false <-> no_wildcard t.
Proof using Hlaws.
  intros Hu Hn. unfold topic_has_wildcard, strchr, no_wildcard. cbn [ms_body ms_len].
  rewrite (proj2 (Z.ltb_lt 0 n)) by done. cbn [andb].
  rewrite (cstr_id t) by (by apply utf8_ok_no_nul).
  rewrite orb_false_iff, !bool_decide_eq_false. done.
Qed.

(** The packet id sits behind the topic, if the QoS asks for one. *)
Lemma packet_id_ok body t qos id rest dflt :
  body = pub_prefix t qos id ++ rest -> 0 <= id < 65536 -> Zlen t < 65536 ->
  (if 0 <? qos then
     let* id := NNI_GET16 body (0 + 2 + Zlen t) in Ret (id, u32 (0 + 2 + Zlen t + 2))
   else Ret (dflt, 0 + 2 + Zlen t)) =
  Ret (if 0 <? qos then id else dflt, Zlen (pub_prefix t qos id)).
Proof.
  intros -> Hid Ht. pose proof (Zlen_nonneg t). unfold pub_prefix, id_part.
  replace (0 + 2 + Zlen t) with (Zlen (NNI_PUT16 (Zlen t) ++ t)) by (unfold NNI_PUT16; zlen; lia).
  destruct (0 <? qos).
  - rewrite (app_assoc _ t), <- app_assoc, NNI_GET16_PUT16 by done. cbn [ebind].
    rewrite u32_small by (unfold NNI_PUT16; zlen; lia).
    do 2 f_equal. unfold NNI_PUT16; zlen; lia.
  - do 2 f_equal. unfold NNI_PUT16; zlen; lia.
Qed.

Lemma payload_keep data :
  (if 0 <? pl_len (payload_of data) then payload_of data
   else MqttPayload None (pl_len (payload_of data))) = payload_of data.
Proof.
  unfold payload_of. cbn [pl_len]. case_bool_decide as E; [by subst|].
  destruct data as [|b data]; [done|]. rewrite (proj2 (Z.ltb_lt 0 _)); [done|].
  rewrite Zlen_cons. pose proof (Zlen_nonneg data). lia.
Qed.

Lemma pub_prefix_len t qos id : Zlen (pub_prefix t qos id) = 2 + Zlen t + (if 0 <? qos then 2 else 0).
Proof. unfold pub_prefix, id_part, NNI_PUT16. destruct (0 <? qos); zlen; lia. Qed.

Lemma decode_publish_ok (m : msg) fh proto t id props plen enc data :
  utf8_ok t -> 0 < Zlen t < 65536 -> no_wildcard t -> 0 <= id < 65536 ->
  nng_msg_body m = pub_prefix t (fh_qos fh) id ++ enc ++ data ->
  nng_msg_len m < 2 ^ 32 - 1 ->
  pub_props_ok m proto (Zlen (pub_prefix t (fh_qos fh) id)) props (Zlen enc) plen ->
  decode_publish true m fh zero_pub_packet proto =
  Ret (SUCCESS,
    PubPacket fh
      (VPublish (PublishHeader (if 0 <? fh_qos fh then id else 0)
                   (MqttString (Some t) (Zlen t)) props plen))
      (payload_of data)).
Proof using Hlaws.
  intros Hu Ht Hw Hid Hb Hsz Hp. unfold decode_publish, nng_msg_len in *.
  set (qos := fh_qos fh) in *.
  pose proof (Zlen_nonneg enc). pose proof (Zlen_nonneg data).
  assert (Hbody : nng_msg_body m = NNI_PUT16 (Zlen t) ++ t ++ id_part qos id ++ enc ++ data)
    by (rewrite Hb; unfold pub_prefix; by rewrite <- !app_assoc).
  assert (Hlen : Zlen (nng_msg_body m) = Zlen (pub_prefix t qos id) + Zlen enc + Zlen data)
    by (rewrite Hb; zlen; lia).
  pose proof (pub_prefix_len t qos id) as Hpl.
  assert (0 <= (if 0 <? qos then 2 else 0)) by (by case_match).
  pose proof (NNI_GET16_PUT16 [] (Zlen t) (t ++ id_part qos id ++ enc ++ data)) as Hg.
  pose proof (copyn_utf8_str_ok [] t (id_part qos id ++ enc ++ data)
                (Zlen (nng_msg_body m)) Hu Ht) as Hc.
  cbn [app] in Hg, Hc. change (Zlen (@nil Z)) with 0 in Hg, Hc. rewrite <- Hbody in Hg, Hc.
  rewrite Hg by lia. cbn [ebind]. rewrite Hc by lia. cbn [ebind].
  rewrite (u32_small (Zlen t)), (proj2 (no_wildcard_spec t (Zlen t) Hu ltac:(lia)) Hw) by lia.
  rewrite (packet_id_ok _ t qos id (enc ++ data)) by (done || lia).
  cbn [ebind var_publish pp_var_header zero_pub_packet ph_packet_id ph_properties ph_prop_len
       pp_payload pl_data].
  assert (Hpay : decode_payload true (nng_msg_body m) (Zlen (nng_msg_body m))
                   (Zlen (pub_prefix t qos id) + Zlen enc) = Ret (payload_of data)).
  { rewrite Hb, app_assoc, <- Zlen_app. apply decode_payload_ok.
    rewrite <- app_assoc, <- Hb. lia. }
  destruct Hp as [(Hv & -> & He & ->)|(-> & Hd & Hck & Hsub)].
  - rewrite (proj2 (Z.eqb_neq _ _)) by congruence. cbn [andb ebind].
    rewrite (proj2 (Z.ltb_ge _ _)) by lia.
    replace (Zlen (pub_prefix t qos id)) with (Zlen (pub_prefix t qos id) + Zlen enc) by lia.
    rewrite Hpay. cbn [ebind]. by rewrite payload_keep.
  - rewrite Z.eqb_refl, Hd. cbn [ebind andb].
    rewrite Hck, Hsub, bool_decide_eq_false_2 by (intros Hx; by apply Hx).
    replace (match props with Some _ => _ | None => false end) with false by (by destruct props).
    rewrite (proj2 (Z.ltb_ge _ _)) by lia.
    rewrite Hpay. cbn [ebind]. by rewrite payload_keep.
Qed.
End DecodeProofs.

(** ** Encoding, and the round trip *)

Create Rewrite HintDb msgs.

Section EncodeProofs.
Context {msg property : Type} `{Hmsg : NngMsg msg} `{Hpar : NngParser msg property}.
Context {utf8_ok : bytes -> Prop} {prop_ok : option property -> Prop}.
Context {Hlaws : NngParserLaws msg property utf8_ok} {Hpl : NngPropLaws msg property prop_ok}.
Context {Hml : NngMsgLaws msg} {Hnf : NngMsgNoFail msg}.

Lemma app_body (m : msg) bs : nng_msg_body (app_ m bs) = nng_msg_body m ++ bs.
Proof using Hml Hnf. unfold app_. by destruct (append_run m bs) as (m' & -> & ? & ?). Qed.
Lemma app_header (m : msg) bs : nng_msg_header (app_ m bs) = nng_msg_header m.
Proof using Hml Hnf. unfold app_. by destruct (append_run m bs) as (m' & -> & ? & ?). Qed.
Lemma happ_body (m : msg) bs : nng_msg_body (happ_ m bs) = nng_msg_body m.
Proof using Hml Hnf. unfold happ_. by destruct (header_append_run m bs) as (m' & -> & ? & ?). Qed.
Lemma happ_header (m : msg) bs : nng_msg_header (happ_ m bs) = nng_msg_header m ++ bs.
Proof using Hml Hnf. unfold happ_. by destruct (header_append_run m bs) as (m' & -> & ? & ?). Qed.

Lemma cmd_app (m : msg) bs : nng_msg_cmd_type (app_ m bs) = nng_msg_cmd_type m.
Proof using Hml Hnf.
  unfold app_. destruct (nng_msg_append m bs) as [rv m'] eqn:E.
  pose proof (append_no_fail m bs) as Hz. rewrite E in Hz. simpl in Hz. subst rv.
  by apply append_ok in E as (? & ? & ?).
Qed.
Lemma cmd_happ (m : msg) bs : nng_msg_cmd_type (happ_ m bs) = nng_msg_cmd_type m.
Proof using Hml Hnf.
  unfold happ_. destruct (nng_msg_header_append m bs) as [rv m'] eqn:E.
  pose proof (header_append_no_fail m bs) as Hz. rewrite E in Hz. simpl in Hz. subst rv.
  by apply header_append_ok in E as (? & ? & ?).
Qed.
Lemma set_remaining_body (m : msg) n : nng_msg_body (nng_msg_set_remaining_len m n) = nng_msg_body m.
Proof using Hml. apply set_remaining. Qed.
Lemma set_remaining_header (m : msg) n : nng_msg_header (nng_msg_set_remaining_len m n) = nng_msg_header m.
Proof using Hml. apply set_remaining. Qed.
Lemma set_remaining_len (m : msg) n : nng_msg_remaining_len (nng_msg_set_remaining_len m n) = n.
Proof using Hml. apply set_remaining. Qed.
Hint Rewrite app_body app_header happ_body happ_header set_remaining_body set_remaining_header
  set_remaining_len cmd_app cmd_happ body_header_clear body_clear header_clear header_header_clear
  cmd_clear cmd_header_clear app_nil_l app_nil_r : msgs.

Lemma read_buf_exact b : read_buf (Some b) (Zlen b) = Ret b.
Proof. apply (slice_app [] b [0]). Qed.

(** The properties an MQTT 5 packet carries on. *)
Lemma encode_props_run (m : msg) props proto :
  prop_ok props ->
  exists m' enc plen,
    (if MQTT_PROTOCOL_VERSION_v5 =? proto then encode_properties m props CMD_PUBLISH else (0, m))
      = (0, m') /\
    nng_msg_body m' = nng_msg_body m ++ enc /\ nng_msg_header m' = nng_msg_header m /\
    forall m2 post, nng_msg_body m2 = nng_msg_body m ++ enc ++ post ->
      pub_props_ok m2 proto (Zlen (nng_msg_body m))
        (if MQTT_PROTOCOL_VERSION_v5 =? proto then props else None) (Zlen enc) plen.
Proof using Hpl.
  intros Hok. destruct (MQTT_PROTOCOL_VERSION_v5 =? proto) eqn:E; bool_hyps.
  - destruct (properties_roundtrip m props CMD_PUBLISH Hok) as (enc & plen & Hr & Hb & Hh & Hd).
    destruct (encode_properties m props CMD_PUBLISH) as [rv m']. cbn [fst snd] in *. subst rv.
    exists m', enc, plen. split_and!; [done..|]. intros m2 post Hm2. right.
    destruct (prop_ok_legal props Hok). split; [done|]. by rewrite (Hd m2 post).
  - exists m, [], 0. rewrite app_nil_r. split_and!; [done..|]. intros m2 post _. left. done.
Qed.

Definition publish_packet (h : fixed_header) (t : bytes) (id : Z) (props : option property)
    (plen : Z) (data : bytes) : pub_packet_struct property :=
  PubPacket h (VPublish (PublishHeader id (MqttString (Some t) (Zlen t)) props plen))
    (payload_of data).

Definition publish_fixed (h : fixed_header) (remain : Z) : fixed_header :=
  FixedHeader (fh_retain h) (fh_qos h) (fh_dup h) PUBLISH remain.

Lemma encode_publish_run (dest : msg) h t id props plen0 data proto :
  0 < Zlen t -> prop_ok props -> nng_msg_body dest = [] -> nng_msg_header dest = [] ->
  exists m' enc plen,
    let body := pub_prefix t (fh_qos h) id ++ enc ++ data in
    let fh := publish_fixed h (u32 (Zlen body)) in
    encode_publish dest (publish_packet h t id props plen0 data) proto =
      Ret (true, m', publish_packet fh t id props plen0 data) /\
    nng_msg_body m' = body /\
    nng_msg_header m' = fixed_header_byte fh :: put_var_integer (u32 (Zlen body)) /\
    nng_msg_remaining_len m' = u32 (Zlen body) /\
    pub_props_ok m' proto (Zlen (pub_prefix t (fh_qos h) id))
      (if MQTT_PROTOCOL_VERSION_v5 =? proto then props else None) (Zlen enc) plen.
Proof using Hlaws Hpl Hml Hnf.
  intros Ht Hok Hb Hh. unfold encode_publish, publish_packet.
  cbn [pp_fixed_header pp_var_header var_publish ph_topic_name ms_len ms_body pp_payload
       ph_packet_id ph_properties fh_qos pl_len pl_data payload_of].
  rewrite (proj2 (Z.ltb_lt 0 _)) by done. rewrite read_buf_exact. cbn [ebind].
  set (d1 := app_ (app_ _ _) t).
  set (d2 := if 0 <? fh_qos h then _ else d1).
  assert (Hd2 : nng_msg_body d2 = pub_prefix t (fh_qos h) id).
  { unfold d2, d1, pub_prefix, id_part. destruct (0 <? fh_qos h); autorewrite with msgs;
      rewrite Hb; cbn [app]; by rewrite <- ?app_assoc. }
  assert (Hh2 : nng_msg_header d2 = [fixed_header_byte (publish_fixed h 0)]).
  { unfold d2, d1. destruct (0 <? fh_qos h); autorewrite with msgs; by rewrite Hh. }
  clearbody d2. clear d1.
  destruct (encode_props_run d2 props proto Hok) as (d3 & enc & plen & -> & Hb3 & Hh3 & Hp).
  cbn [Z.eqb negb].
  set (body := pub_prefix t (fh_qos h) id ++ enc ++ data).
  assert (Hpay : exists d4, (if 0 <? Zlen data then
      let* dt := read_buf (if bool_decide (data = []) then None else Some data) (Zlen data) in
      Ret (app_ d3 dt) else Ret d3) = Ret d4 /\ nng_msg_body d4 = body /\
      nng_msg_header d4 = nng_msg_header d3).
  { destruct data as [|b data].
    - exists d3. unfold body. rewrite app_nil_r, <- Hd2. done.
    - rewrite (proj2 (Z.ltb_lt 0 _)) by (rewrite Zlen_cons; pose proof (Zlen_nonneg data); lia).
      rewrite bool_decide_eq_false_2, read_buf_exact by done. cbn [ebind].
      exists (app_ d3 (b :: data)). autorewrite with msgs. split_and!; [done| |done].
      by rewrite Hb3, Hd2, <- app_assoc. }
  destruct Hpay as (d4 & -> & Hb4 & Hh4). cbn [ebind]. unfold nng_msg_len. rewrite Hb4.
  eexists _, enc, plen. split; [done|]. autorewrite with msgs. rewrite Hb4, Hh4, Hh3, Hh2.
  split_and!; [done..|]. rewrite <- Hd2. apply (Hp _ data).
  autorewrite with msgs. by rewrite Hb4, Hd2.
Qed.
End EncodeProofs.

(** ** Delivery *)

(** The pipes a list of client ids stands for. *)
Definition live (l : list Z) : list Z := filter (fun p => p <> 0) l.

Definition add_out (g : msg_statistics) (n : Z) : msg_statistics :=
  MsgStatistics (st_initialed g) (st_msg_in g) (u64 (st_msg_out g + n)) (st_msg_drop g).

Definition out_ok (g : msg_statistics) : Prop := 0 <= st_msg_out g < 2 ^ 64.

Lemma foreach_loop_spec l infos g :
  out_ok g -> foreach_loop l infos g = (infos ++ live l, add_out g (Zlen l)).
Proof.
  revert infos g. induction l as [|p l IH]; intros infos [i a o d] Ho; cbn [foreach_loop].
  - rewrite app_nil_r. unfold add_out, out_ok, u64 in *. cbn in *.
    by rewrite Z.add_0_r, Z.mod_small.
  - assert (out_ok (inc_out (MsgStatistics i a o d))) by (unfold out_ok, inc_out, u64; cbn; dm_lia).
    assert (Hadd : add_out (inc_out (MsgStatistics i a o d)) (Zlen l) =
                   add_out (MsgStatistics i a o d) (Zlen (p :: l))).
    { unfold add_out, inc_out, u64. cbn. f_equal. zlen.
      rewrite Zplus_mod_idemp_l. f_equal. lia. }
    unfold live. rewrite filter_cons.
    destruct (p =? 0) eqn:E; bool_hyps.
    + rewrite decide_False by lia. by rewrite IH, Hadd.
    + rewrite decide_True by done. rewrite IH, Hadd, <- app_assoc by done. done.
Qed.

Lemma foreach_client_spec l infos g :
  out_ok g -> Zlen l < 2 ^ 31 ->
  foreach_client l infos g = (infos ++ live l, add_out g (Zlen l)).
Proof.
  intros Ho Hl. unfold foreach_client, s32. pose proof (Zlen_nonneg l).
  rewrite Z.mod_small by lia. rewrite (proj2 (Z.ltb_lt _ _)) by done.
  rewrite firstn_all2 by (unfold Zlen; lia). by apply foreach_loop_spec.
Qed.

Lemma add_out_add g a b : out_ok g -> add_out (add_out g a) b = add_out g (a + b).
Proof.
  intros Ho. destruct g as [i x o d]. unfold add_out, u64. cbn. f_equal.
  rewrite Zplus_mod_idemp_l. f_equal. lia.
Qed.

Lemma add_out_ok g n : out_ok (add_out g n).
Proof. unfold out_ok, add_out, u64. cbn. dm_lia. Qed.

Section DeliverProofs.
Context {msg property db hash db_ret : Type}.
Context `{Hmsg : NngMsg msg} `{Hpar : NngParser msg property} `{Hmp : NngMsgProp msg property}.
Context `{Hdb : NngDb db hash} `{Hret : NngRetain db_ret (dbtree_retain_msg msg)}.
Context {Hrl : NngRetainLaws db_ret (dbtree_retain_msg msg)}.

(** The clients [handle_pub] looks up for a topic. *)
Definition receivers (d : db) (topic : bytes) : list Z :=
  default [] (dbtree_find_clients d topic) ++ default [] (dbtree_find_shared_clients d topic).

Definition nobody (d : db) (topic : bytes) : bool :=
  bool_decide (dbtree_find_clients d topic = None) &&
  bool_decide (dbtree_find_shared_clients d topic = None).

Lemma deliver_spec al (d : db) proto_ver topic (pkt : pub_packet_struct property)
    (s : pub_state msg property hash db_ret) :
  out_ok (ps_stats s) ->
  Zlen (default [] (dbtree_find_clients d topic)) < 2 ^ 31 ->
  Zlen (default [] (dbtree_find_shared_clients d topic)) < 2 ^ 31 ->
  let s' := deliver al d proto_ver topic pkt s in
  ps_msg_infos s' = ps_msg_infos s ++ live (receivers d topic) /\
  ps_stats s' = add_out (if nobody d topic then inc_drop (ps_stats s) else ps_stats s)
                  (Zlen (receivers d topic)) /\
  ps_packet s' = Some pkt /\ ps_hash s' = ps_hash s /\
  (ps_msg s', ps_retain s', ps_refs s') =
    let '(m, dr, refs) := handle_pub_retain (pa_retain al) (ps_msg s) proto_ver pkt (ps_retain s) topic in
    (m, dr, ps_refs s ++ refs).
Proof.
  intros Ho H1 H2. cbv zeta. unfold deliver, receivers, nobody, live in *.
  assert (Hd : out_ok (inc_drop (ps_stats s))) by done.
  destruct (handle_pub_retain _ _ _ _ _ _) as [[m dr] refs].
  assert (H0 : forall g, out_ok g -> g = add_out g 0).
  { intros [i a o dd] Hg. unfold add_out, u64, out_ok in *. cbn in *.
    by rewrite Z.add_0_r, Z.mod_small. }
  destruct (dbtree_find_clients d topic) as [l1|], (dbtree_find_shared_clients d topic) as [l2|];
    cbn [from_option id] in *;
    repeat rewrite foreach_client_spec by (done || apply add_out_ok);
    cbn [ps_msg_infos ps_stats ps_packet ps_hash ps_msg ps_retain ps_refs app];
    rewrite ?bool_decide_eq_true_2, ?bool_decide_eq_false_2 by done; cbn [andb];
    rewrite ?filter_app, ?app_assoc, ?app_nil_r, ?add_out_add, ?Zlen_app, <- ?H0 by done; done.
Qed.

(** References held on retained messages: one per entry with a message. *)
Definition held (r : option (dbtree_retain_msg msg)) : Z :=
  match r with Some e => match rt_message e with Some _ => 1 | None => 0 end | None => 0 end.

Definition ref_delta (e : ref_event msg) : Z :=
  match e with MsgClone _ => 1 | MsgFree _ => -1 | RetainFree => 0 end.

Definition ref_balance (l : list (ref_event msg)) : Z := foldr (fun e n => ref_delta e + n) 0 l.

Lemma handle_pub_retain_spec ra wmsg proto_ver (pkt : pub_packet_struct property) dr topic m' dr' refs :
  handle_pub_retain ra wmsg proto_ver pkt dr topic = (m', dr', refs) ->
  let keeps := negb (fh_retain (pp_fixed_header pkt) =? 0) &&
               ((pl_len (pp_payload pkt) <=? 0) || ra) in
  (forall t, t <> topic -> retained dr' t = retained dr t) /\
  retained dr' topic =
    (if keeps then
       if 0 <? pl_len (pp_payload pkt)
       then Some (RetainMsg (fh_qos (pp_fixed_header pkt)) true (Some m')) else None
     else retained dr topic) /\
  ref_balance refs = held (retained dr' topic) - held (retained dr topic).
Proof using Hrl.
  intros Hrun. cbv zeta. unfold handle_pub_retain in Hrun.
  destruct (fh_retain _ =? 0); cbn [negb andb].
  { injection Hrun as <- <- <-. split_and!; [done..|]. cbn. lia. }
  destruct (0 <? pl_len (pp_payload pkt)) eqn:Ep; bool_hyps.
  - rewrite (proj2 (Z.leb_gt _ _)) by done. cbn [orb]. destruct ra.
    + destruct (dbtree_insert_retain dr topic _) as [r dr1] eqn:E.
      injection Hrun as <- <- <-. apply insert_retain_spec in E as (-> & Hnew & Hoth).
      split_and!; [done..|]. rewrite Hnew. unfold held. cbn.
      destruct (retained dr topic) as [e|]; [|cbn; lia]. destruct (rt_message e); cbn; lia.
    + injection Hrun as <- <- <-. split_and!; [done..|]. cbn. lia.
  - rewrite (proj2 (Z.leb_le _ _)) by done. cbn [orb].
    destruct (dbtree_delete_retain dr topic) as [r dr1] eqn:E.
    injection Hrun as <- <- <-. apply delete_retain_spec in E as (-> & Hnew & Hoth).
    split_and!; [done..|]. rewrite Hnew. unfold held.
    destruct (retained dr topic) as [e|]; [|cbn; lia]. destruct (rt_message e); cbn; lia.
Qed.
End DeliverProofs.

(** ** Properties *)

Section Claims.
Context {msg property : Type} `{Hmsg : NngMsg msg} `{Hpar : NngParser msg property}.
Context {utf8_ok : bytes -> Prop} {prop_ok : option property -> Prop}.
Context {Hlaws : NngParserLaws msg property utf8_ok} {Hpl : NngPropLaws msg property prop_ok}.
Context {Hml : NngMsgLaws msg} {Hnf : NngMsgNoFail msg}.

Lemma decode_pub_message_publish al (m : msg) b0 rest pkt proto :
  let fh := fixed_header_of_byte b0 (u32 (nng_msg_remaining_len m)) in
  nng_msg_header m = b0 :: rest -> fh_packet_type fh = PUBLISH ->
  u32 (nng_msg_remaining_len m) <= nng_msg_len m ->
  decode_pub_message (property := property) al m pkt proto = decode_publish al m fh pkt proto.
Proof.
  intros fh Hh Ht Hr. unfold decode_pub_message. rewrite Hh.
  change (rd (b0 :: rest) 0) with (Ret b0). cbn [ebind]. fold fh.
  rewrite (proj2 (Z.ltb_ge _ _)) by exact Hr. by rewrite Ht, Z.eqb_refl.
Qed.

(** A well-formed PUBLISH (any QoS, with legal properties in MQTT 5) is
    decoded to exactly its topic, packet id, properties and payload. *)
Theorem decode_pub_message_correct (m : msg) b0 rest proto t id props plen enc data :
  let fh := fixed_header_of_byte b0 (u32 (nng_msg_remaining_len m)) in
  nng_msg_header m = b0 :: rest -> fh_packet_type fh = PUBLISH ->
  u32 (nng_msg_remaining_len m) <= nng_msg_len m ->
  utf8_ok t -> 0 < Zlen t < 65536 -> no_wildcard t -> 0 <= id < 65536 ->
  nng_msg_body m = pub_prefix t (fh_qos fh) id ++ enc ++ data ->
  nng_msg_len m < 2 ^ 32 - 1 ->
  pub_props_ok m proto (Zlen (pub_prefix t (fh_qos fh) id)) props (Zlen enc) plen ->
  decode_pub_message true m zero_pub_packet proto =
  Ret (SUCCESS, publish_packet fh t (if 0 <? fh_qos fh then id else 0) props plen data).
Proof using Hlaws.
  intros fh Hh Ht Hr Hu Hlt Hw Hid Hb Hsz Hp.
  rewrite (decode_pub_message_publish _ _ b0 rest) by done.
  by apply (decode_publish_ok m fh proto t id props plen enc data).
Qed.

(** The message an encoded PUBLISH is read back from. *)
Lemma encode_pub_message_run (dest : msg) h t id props plen0 data :
  0 < Zlen t -> prop_ok props ->
  let v5 := bool_decide (nng_msg_cmd_type dest = CMD_PUBLISH_V5) in
  let proto := if v5 then MQTT_PROTOCOL_VERSION_v5 else MQTT_PROTOCOL_VERSION_v311 in
  exists m' enc plen,
    let body := pub_prefix t (fh_qos h) id ++ enc ++ data in
    let fh := publish_fixed h (u32 (Zlen body)) in
    encode_pub_message dest (publish_packet h t id props plen0 data) PUBLISH =
      Ret (true, m', publish_packet fh t id props plen0 data) /\
    nng_msg_body m' = body /\
    nng_msg_header m' = fixed_header_byte fh :: put_var_integer (u32 (Zlen body)) /\
    nng_msg_remaining_len m' = u32 (Zlen body) /\
    pub_props_ok m' proto (Zlen (pub_prefix t (fh_qos h) id)) (if v5 then props else None) (Zlen enc) plen.
Proof using Hlaws Hpl Hml Hnf.
  intros Ht Hp v5 proto. unfold encode_pub_message. rewrite Z.eqb_refl.
  set (d := nng_msg_header_clear (nng_msg_clear dest)).
  assert (Hcmd : nng_msg_cmd_type d = nng_msg_cmd_type dest)
    by (unfold d; by rewrite cmd_header_clear, cmd_clear).
  set (pr := match nng_msg_cmd_type d with CMD_PUBLISH_V5 => _ | CMD_PUBLISH => _ | _ => 0 end).
  assert (Hpr : (MQTT_PROTOCOL_VERSION_v5 =? pr) = v5).
  { unfold pr, v5. rewrite Hcmd. by destruct (nng_msg_cmd_type dest). }
  destruct (encode_publish_run d h t id props plen0 data pr) as
    (m' & enc & plen & -> & Hb & Hh & Hr & Hpp); [lia|done| | |].
  { unfold d. by rewrite body_header_clear, body_clear. }
  { unfold d. by rewrite header_header_clear. }
  exists m', enc, plen. do 4 (split; [done|]). rewrite Hpr in Hpp.
  destruct Hpp as [(Hne & Hrest)|(Heq & Hrest)].
  - left. split; [|done]. unfold proto.
    rewrite (proj2 (Z.eqb_neq _ _)) in Hpr by congruence. by rewrite <- Hpr.
  - right. split; [|done]. unfold proto. rewrite Heq, Z.eqb_refl in Hpr. by rewrite <- Hpr.
Qed.

(** Reading it back. *)
Lemma decode_encoded (m : msg) proto h t id props plen enc data :
  fixed_header_ok h -> utf8_ok t -> 0 < Zlen t < 65536 -> no_wildcard t -> 0 <= id < 65536 ->
  let body := pub_prefix t (fh_qos h) id ++ enc ++ data in
  nng_msg_body m = body ->
  nng_msg_header m = fixed_header_byte (publish_fixed h (u32 (Zlen body))) :: put_var_integer (u32 (Zlen body)) ->
  nng_msg_remaining_len m = u32 (Zlen body) ->
  pub_props_ok m proto (Zlen (pub_prefix t (fh_qos h) id)) props (Zlen enc) plen ->
  nng_msg_len m < 2 ^ 32 - 1 ->
  decode_pub_message true m zero_pub_packet proto =
  Ret (SUCCESS, publish_packet (publish_fixed h (nng_msg_len m)) t (if 0 <? fh_qos h then id else 0) props plen data).
Proof using Hlaws.
  intros Hok Hu Ht Hw Hid body Hb Hh Hr Hpp. unfold nng_msg_len. rewrite Hb. intros Hsz.
  pose proof (Zlen_nonneg body). rewrite u32_small in * by lia.
  set (fh := publish_fixed h (Zlen body)) in *.
  assert (Hfh : fixed_header_of_byte (fixed_header_byte fh) (u32 (nng_msg_remaining_len m)) = fh).
  { rewrite Hr, u32_small by lia. apply (fixed_header_roundtrip fh).
    unfold fixed_header_ok, fh, publish_fixed, PUBLISH in *. cbn. destruct Hok as (? & ? & ? & ?). lia. }
  rewrite (decode_pub_message_publish _ _ _ _ _ _ Hh); rewrite ?Hfh;
    [|done|unfold nng_msg_len; rewrite Hr, Hb, u32_small by lia; lia].
  rewrite (decode_publish_ok m fh proto t id props plen enc data); [done..|unfold nng_msg_len; rewrite Hb; exact Hsz|done].
Qed.

(** C7: what encode_pub_message writes for a PUBLISH, decode_pub_message
    reads back: the flags, the topic, the packet id (when the QoS carries
    one), the properties (in MQTT 5) and the payload. *)
Theorem publish_roundtrip (dest : msg) h t id props plen0 data :
  fixed_header_ok h -> utf8_ok t -> 0 < Zlen t < 65536 -> no_wildcard t ->
  0 <= id < 65536 -> prop_ok props ->
  let v5 := bool_decide (nng_msg_cmd_type dest = CMD_PUBLISH_V5) in
  let proto := if v5 then MQTT_PROTOCOL_VERSION_v5 else MQTT_PROTOCOL_VERSION_v311 in
  exists m' pkt' plen,
    encode_pub_message dest (publish_packet h t id props plen0 data) PUBLISH = Ret (true, m', pkt') /\
    (nng_msg_len m' < 2 ^ 32 - 1 ->
     decode_pub_message true m' zero_pub_packet proto =
     Ret (SUCCESS,
       publish_packet (publish_fixed h (nng_msg_len m')) t
         (if 0 <? fh_qos h then id else 0) (if v5 then props else None) plen data)).
Proof using Hlaws Hpl Hml Hnf.
  intros Hok Hu Ht Hw Hid Hp v5 proto.
  destruct (encode_pub_message_run dest h t id props plen0 data) as (m' & enc & plen & He & Hb & Hh & Hr & Hpp); [lia|done|].
  do 2 eexists. exists plen. split; [exact He|]. by apply (decode_encoded m' proto h t id _ plen enc data).
Qed.

(** C9: whatever bytes arrive (of a body below 2^32 bytes), a PUBLISH that decodes
    successfully says what the header and the body say, part after part: the
    flags are those of the first byte of the header, and no more remains than
    there is; the topic is the string the body begins with and holds neither '+'
    nor '#'; the packet id follows if the QoS is not 0; in MQTT 5 the properties
    follow, which are legal and hold no subscription identifier; and the payload
    is all the rest of the body and nothing else. *)
Theorem decode_pub_message_safe al (m : msg) proto pkt :
  nng_msg_len m < 2 ^ 32 ->
  decode_pub_message (property := property) al m zero_pub_packet proto = Ret (SUCCESS, pkt) ->
  fh_packet_type (pp_fixed_header pkt) = PUBLISH ->
  let v := var_publish (pp_var_header pkt) in
  let body := nng_msg_body m in
  let qos := fh_qos (pp_fixed_header pkt) in
  exists b0 pos1 tlen pos2 pos,
    rd (nng_msg_header m) 0 = Ret b0 /\
    pp_fixed_header pkt = fixed_header_of_byte b0 (u32 (nng_msg_remaining_len m)) /\
    u32 (nng_msg_remaining_len m) <= Zlen body /\
    copyn_utf8_str body 0 (Zlen body) = Ret (ms_body (ph_topic_name v), pos1, tlen) /\
    ms_len (ph_topic_name v) = u32 tlen /\
    (forall t, ms_body (ph_topic_name v) = Some t -> 0 < u32 tlen -> no_wildcard (cstr t)) /\
    (if 0 <? qos then NNI_GET16 body pos1 = Ret (ph_packet_id v) /\ pos2 = u32 (pos1 + 2)
     else ph_packet_id v = 0 /\ pos2 = pos1) /\
    (if MQTT_PROTOCOL_VERSION_v5 =? proto
     then decode_properties m pos2 = Ret (ph_properties v, pos, ph_prop_len v) /\
          (ph_properties v <> None -> check_properties (ph_properties v) = SUCCESS /\
             property_get_value (ph_properties v) SUBSCRIPTION_IDENTIFIER = None)
     else ph_properties v = None /\ pos = pos2) /\
    0 <= pos <= Zlen body /\ pp_payload pkt = payload_of (drop (Z.to_nat pos) body).
Proof using Hlaws.
  intros Hsz Hrun Hty. cbv zeta. unfold decode_pub_message in Hrun.
  apply ebind_Ret in Hrun as (b0 & Hb0 & Hrun). set (fh := fixed_header_of_byte _ _) in *.
  case_match eqn:Hrem; [done|]. case_match eqn:Et; bool_hyps; [|case_match].
  2: { unfold decode_arrc in Hrun. apply ebind_Ret in Hrun as (? & _ & Hrun).
       case_match; [apply ebind_Ret in Hrun as (? & _ & Hrun);
                    apply ebind_Ret in Hrun as ([[? ?] ?] & _ & Hrun)|];
       inversion Hrun; subst pkt; exfalso; by apply Et. }
  2: { inversion Hrun; subst pkt; exfalso; by apply Et. }
  unfold decode_publish in Hrun. apply ebind_Ret in Hrun as (? & _ & Hrun).
  apply ebind_Ret in Hrun as ([[body pos1] len] & Hcopy & Hrun).
  case_match eqn:Hw; [done|]. apply ebind_Ret in Hrun as ([id pos2] & Hid & Hrun).
  apply ebind_Ret in Hrun as ([[props pos] plen] & Hprops & Hrun).
  case_match eqn:Hck; [done|]. case_match eqn:Hpos; [done|]. bool_hyps.
  apply ebind_Ret in Hrun as (pay & Hpay & Hrun). injection Hrun as <-.
  cbn [pp_fixed_header pp_payload pp_var_header var_publish ph_topic_name ph_properties ph_packet_id ph_prop_len
       zero_pub_packet pl_data ms_body ms_len] in *.
  pose proof (copyn_utf8_str_pos _ _ _ _ _ _ Hcopy) as Hp1.
  assert (Hp2 : 0 <= pos2).
  { case_match_in Hid; [|by injection Hid as <- <-]. apply ebind_Ret in Hid as (? & _ & [= _ <-]). apply u32_range. }
  assert (Hp3 : 0 <= pos).
  { case_match_in Hprops; [by eapply decode_properties_pos|by injection Hprops as <- <- <-]. }
  exists b0, pos1, len, pos2, pos. split_and!; try done.
  - intros t -> Hl. unfold topic_has_wildcard, strchr in Hw. cbn [ms_body ms_len] in Hw.
    rewrite (proj2 (Z.ltb_lt _ _)) in Hw by exact Hl. cbn [andb] in Hw.
    by rewrite orb_false_iff, !bool_decide_eq_false in Hw.
  - destruct (0 <? fh_qos fh); [|by injection Hid as <- <-]. by apply ebind_Ret in Hid as (? & -> & [= -> <-]).
  - destruct (MQTT_PROTOCOL_VERSION_v5 =? proto); [|by injection Hprops as <- <- <-]. split; [done|].
    intros Hp. destruct props as [p|]; [|done]. cbn [andb] in Hck.
    bool_hyps. split; [done|]. destruct (property_get_value _ _) eqn:Ev; [|done].
    exfalso. match goal with H : ~ _ |- _ => apply H; done end.
  - by apply (decode_payload_sound al).
Qed.

(** A PUBLISH whose topic name holds a wildcard is answered with
    PROTOCOL_ERROR, whatever follows the topic. *)
Theorem decode_pub_message_rejects_wildcard al (m : msg) b0 rest proto t post :
  let fh := fixed_header_of_byte b0 (u32 (nng_msg_remaining_len m)) in
  nng_msg_header m = b0 :: rest -> fh_packet_type fh = PUBLISH ->
  u32 (nng_msg_remaining_len m) <= nng_msg_len m ->
  utf8_ok t -> 0 < Zlen t < 65536 -> 43 ∈ t \/ 35 ∈ t ->
  nng_msg_body m = NNI_PUT16 (Zlen t) ++ t ++ post ->
  exists pkt, decode_pub_message (property := property) al m zero_pub_packet proto =
    Ret (PROTOCOL_ERROR, pkt).
Proof using Hlaws.
  intros fh Hh Ht Hr Hu Hlt Hw Hb. rewrite (decode_pub_message_publish _ _ b0 rest) by done.
  unfold decode_publish, nng_msg_len in *.
  pose proof (NNI_GET16_PUT16 [] (Zlen t) (t ++ post)) as Hg.
  pose proof (copyn_utf8_str_ok [] t post (Zlen (nng_msg_body m)) Hu Hlt) as Hc.
  cbn [app] in Hg, Hc. change (Zlen (@nil Z)) with 0 in Hg, Hc. rewrite <- Hb in Hg, Hc.
  rewrite Hg by lia. cbn [ebind].
  rewrite Hc by (rewrite Hb; unfold NNI_PUT16; zlen; pose proof (Zlen_nonneg post); lia).
  cbn [ebind]. rewrite (u32_small (Zlen t)) by lia.
  destruct (topic_has_wildcard _) eqn:E; [by eexists|].
  apply no_wildcard_spec in E as [? ?]; [|done|lia]. destruct Hw; done.
Qed.

(** A QoS 1 or 2 PUBLISH that ends with its topic makes the decoder read
    the packet id behind the end of the body: the bounds check comes later. *)
Theorem decode_pub_message_packet_id_overread al (m : msg) b0 rest proto t :
  let fh := fixed_header_of_byte b0 (u32 (nng_msg_remaining_len m)) in
  nng_msg_header m = b0 :: rest -> fh_packet_type fh = PUBLISH -> 0 < fh_qos fh ->
  u32 (nng_msg_remaining_len m) <= nng_msg_len m ->
  utf8_ok t -> 0 < Zlen t < 65536 -> no_wildcard t ->
  nng_msg_body m = NNI_PUT16 (Zlen t) ++ t ->
  decode_pub_message (property := property) al m zero_pub_packet proto = UB.
Proof using Hlaws.
  intros fh Hh Ht Hq Hr Hu Hlt Hw Hb. rewrite (decode_pub_message_publish _ _ b0 rest) by done.
  unfold decode_publish, nng_msg_len in *. fold fh.
  assert (Hb' : nng_msg_body m = NNI_PUT16 (Zlen t) ++ t ++ []) by (by rewrite app_nil_r).
  pose proof (NNI_GET16_PUT16 [] (Zlen t) (t ++ [])) as Hg.
  assert (Hlen : Zlen (nng_msg_body m) = 0 + 2 + Zlen t)
    by (rewrite Hb; unfold NNI_PUT16; zlen; lia).
  pose proof (copyn_utf8_str_ok [] t [] (Zlen (nng_msg_body m)) Hu Hlt) as Hc.
  cbn [app] in Hg, Hc. change (Zlen (@nil Z)) with 0 in Hg, Hc. rewrite <- Hb' in Hg, Hc.
  rewrite Hg by lia. cbn [ebind]. rewrite Hc by lia. cbn [ebind]. rewrite (u32_small (Zlen t)) by lia.
  rewrite (proj2 (no_wildcard_spec t (Zlen t) Hu ltac:(lia)) Hw).
  rewrite (proj2 (Z.ltb_lt 0 _)) by done. unfold NNI_GET16.
  by rewrite rd_out by lia.
Qed.

(** A topic the string reader refuses (NULL, length -1) does not make the
    decoder fail: the test len >= 0 is on an unsigned number, so a QoS 0
    packet is accepted with topic length 2^32 - 1. *)
Theorem decode_pub_message_accepts_bad_topic al (m : msg) b0 rest len pos :
  let fh := fixed_header_of_byte b0 (u32 (nng_msg_remaining_len m)) in
  nng_msg_header m = b0 :: rest -> fh_packet_type fh = PUBLISH -> fh_qos fh = 0 ->
  u32 (nng_msg_remaining_len m) <= nng_msg_len m ->
  NNI_GET16 (nng_msg_body m) 0 = Ret len -> pos = nng_msg_len m ->
  copyn_utf8_str (nng_msg_body m) 0 (nng_msg_len m) = Ret (None, pos, -1) ->
  decode_pub_message (property := property) al m zero_pub_packet MQTT_PROTOCOL_VERSION_v311 =
  Ret (SUCCESS,
    PubPacket fh (VPublish (PublishHeader 0 (MqttString None (2 ^ 32 - 1)) None 0))
      (MqttPayload None 0)).
Proof.
  intros fh Hh Ht Hq Hr Hg -> Hc. rewrite (decode_pub_message_publish _ _ b0 rest) by done.
  unfold decode_publish. fold fh. rewrite Hg. cbn [ebind]. rewrite Hc. cbn [ebind].
  change (topic_has_wildcard (MqttString None (u32 (-1)))) with false. rewrite Hq.
  cbn [Z.ltb Z.compare ebind].
  change (MQTT_PROTOCOL_VERSION_v5 =? MQTT_PROTOCOL_VERSION_v311) with false. cbn [andb ebind].
  rewrite Z.ltb_irrefl. unfold decode_payload. rewrite Z.sub_diag. done.
Qed.

(** Every acknowledgement is the two-byte packet of its command with the
    packet id, and carries the tag CMD_PUBCOMP whatever the command, because
    the cases fall through. *)
Theorem encode_ack_correct (dest : msg) (pkt : pub_packet_struct property) cmd :
  cmd ∈ [PUBACK; PUBREC; PUBREL; PUBCOMP] ->
  exists m', encode_pub_message dest pkt cmd = Ret (true, m', pkt) /\
    nng_msg_header m' = Z.shiftl cmd 4 :: put_var_integer 2 /\
    nng_msg_body m' = NNI_PUT16 (var_packet_id (pp_var_header pkt)) /\
    nng_msg_cmd_type m' = CMD_PUBCOMP.
Proof using Hml Hnf.
  intros Hc. unfold encode_pub_message, encode_arrc.
  assert (Hset : forall m c, nng_msg_header (nng_msg_set_cmd_type m c) = nng_msg_header m /\
    nng_msg_body (nng_msg_set_cmd_type m c) = nng_msg_body m /\
    nng_msg_cmd_type (nng_msg_set_cmd_type m c) = c) by (intros; apply set_cmd).
  set_unfold in Hc. destruct_or! Hc; subst cmd; cbn [Z.eqb PUBLISH PUBREL PUBACK PUBREC PUBCOMP
    Pos.eqb foldl fh_remain_len Z.ltb Z.compare Pos.compare Pos.compare_cont];
  (eexists; split; [reflexivity|]);
  rewrite app_header, !happ_header, app_body, !happ_body, cmd_app, !cmd_happ;
  repeat (rewrite (proj1 (Hset _ _)) || rewrite (proj1 (proj2 (Hset _ _))));
  rewrite (proj2 (proj2 (Hset _ _))), ?header_header_clear, ?body_header_clear, ?body_clear;
  done.
Qed.
End Claims.

(** ** From a PUBLISH to its receivers *)

(** A message holding a well-formed PUBLISH. *)
Record wf_publish {msg property} `{NngMsg msg} `{NngParser msg property} (utf8_ok : bytes -> Prop)
    (m : msg) (proto : Z) (fh : fixed_header) (t : bytes) (id : Z) (props : option property)
    (plen : Z) (enc data : bytes) : Prop := {
  wp_header : exists b0 rest, nng_msg_header m = b0 :: rest /\
    fh = fixed_header_of_byte b0 (u32 (nng_msg_remaining_len m));
  wp_type : fh_packet_type fh = PUBLISH;
  wp_remain : u32 (nng_msg_remaining_len m) <= nng_msg_len m;
  wp_utf8 : utf8_ok t;
  wp_topic_len : 0 < Zlen t < 65536;
  wp_wildcard : no_wildcard t;
  wp_id : 0 <= id < 65536;
  wp_body : nng_msg_body m = pub_prefix t (fh_qos fh) id ++ enc ++ data;
  wp_size : nng_msg_len m < 2 ^ 32 - 1;
  wp_props : pub_props_ok m proto (Zlen (pub_prefix t (fh_qos fh) id)) props (Zlen enc) plen
}.

Definition fixed_id (fh : fixed_header) (id : Z) : Z := if 0 <? fh_qos fh then id else 0.

(** [m] is the PUBLISH with these flags, topic, packet id, properties and
    payload: its body begins with the topic and the id and ends with the payload
    (before MQTT 5 nothing is in between), and it is decoded to them. *)
Record carries {msg property} `{NngMsg msg} `{NngParser msg property} (m : msg) (proto : Z) (fh : fixed_header)
    (t : bytes) (id : Z) (props : option property) (data : bytes) : Prop := Carries {
  ca_body : exists enc, nng_msg_body m = pub_prefix t (fh_qos fh) id ++ enc ++ data /\
    (proto <> MQTT_PROTOCOL_VERSION_v5 -> enc = []);
  ca_decoded : nng_msg_len m < 2 ^ 32 - 1 -> exists remain plen,
    decode_pub_message true m zero_pub_packet proto =
    Ret (SUCCESS, publish_packet (publish_fixed fh remain) t (fixed_id fh id) props plen data)
}.

(** The tag [on_publish] sets. *)
Definition publish_tag (proto_ver : Z) : cmd_type :=
  if proto_ver =? MQTT_PROTOCOL_VERSION_v5 then CMD_PUBLISH_V5 else CMD_PUBLISH.

Section Carries.
Context {msg property : Type} `{Hmsg : NngMsg msg} `{Hpar : NngParser msg property}.
Context {utf8_ok : bytes -> Prop} {prop_ok : option property -> Prop}.
Context {Hlaws : NngParserLaws msg property utf8_ok} {Hpl : NngPropLaws msg property prop_ok}.
Context {Hml : NngMsgLaws msg} {Hnf : NngMsgNoFail msg}.

Lemma pub_props_empty (m : msg) proto pos (props : option property) (enc : bytes) plen :
  pub_props_ok m proto pos props (Zlen enc) plen -> proto <> MQTT_PROTOCOL_VERSION_v5 -> props = None /\ enc = [].
Proof. intros [(_ & -> & He & _)|(? & _)] Hne; [|done]. split; [done|]. by destruct enc. Qed.

Lemma wf_publish_carries (m : msg) proto fh t id props plen enc data :
  wf_publish utf8_ok m proto fh t id props plen enc data -> carries m proto fh t id props data.
Proof using Hlaws.
  intros [(b0 & rest & Hh & Hfh) Hty Hrem Hu Hlt Hw Hid Hb Hsz Hp]. constructor.
  - exists enc. split; [done|]. intros Hne. by apply (pub_props_empty _ _ _ _ _ _ Hp).
  - intros _. exists (fh_remain_len fh), plen.
    rewrite (decode_pub_message_publish _ _ b0 rest); [|done|by rewrite <- Hfh|done].
    rewrite <- Hfh, (decode_publish_ok m fh proto t id props plen enc data) by done.
    unfold publish_fixed. rewrite <- Hty. by destruct fh.
Qed.

(** Only header, body and remaining length count. *)
Lemma wf_publish_ext (m m' : msg) proto fh t id (props : option property) plen enc data :
  nng_msg_header m' = nng_msg_header m -> nng_msg_body m' = nng_msg_body m ->
  nng_msg_remaining_len m' = nng_msg_remaining_len m ->
  wf_publish utf8_ok m proto fh t id props plen enc data -> wf_publish utf8_ok m' proto fh t id props plen enc data.
Proof using Hlaws.
  intros Hh Hb Hr [? ? ? ? ? ? ? ? ? Hp]. constructor; unfold nng_msg_len in *; rewrite ?Hh, ?Hb, ?Hr; try done.
  unfold pub_props_ok in *. by rewrite (decode_properties_body m m').
Qed.

(** The flags of a header that was read are bits. *)
Lemma wf_publish_flags (m : msg) proto fh t id (props : option property) plen enc data :
  wf_publish utf8_ok m proto fh t id props plen enc data -> fixed_header_ok fh.
Proof.
  intros [(b0 & rest & _ & ->) _ _ _ _ _ _ _ _ _]. unfold fixed_header_ok, fixed_header_of_byte. cbn [fh_retain fh_qos fh_dup fh_packet_type].
  assert (Hb : forall x n, 0 <= n -> 0 <= Z.land x (Z.ones n) < 2 ^ n).
  { intros x n Hn. rewrite Z.land_ones by done. apply Z.mod_pos_bound. lia. }
  pose proof (Hb b0 1). pose proof (Hb (Z.shiftr b0 1) 2). pose proof (Hb (Z.shiftr b0 3) 1). pose proof (Hb (Z.shiftr b0 4) 4).
  change (Z.ones 1) with 1 in *. change (Z.ones 2) with 3 in *. change (Z.ones 4) with 15 in *. lia.
Qed.

Lemma encode_carries (dest : msg) proto h t id props plen0 data :
  fixed_header_ok h -> utf8_ok t -> 0 < Zlen t < 65536 -> no_wildcard t -> 0 <= id < 65536 -> prop_ok props ->
  nng_msg_cmd_type dest = publish_tag proto -> (proto <> MQTT_PROTOCOL_VERSION_v5 -> props = None) ->
  exists m' remain,
    encode_pub_message dest (publish_packet h t id props plen0 data) PUBLISH =
      Ret (true, m', publish_packet (publish_fixed h remain) t id props plen0 data) /\
    carries m' proto h t id props data.
Proof using Hlaws Hpl Hml Hnf.
  intros Hok Hu Ht Hw Hid Hp Htag Hv.
  destruct (encode_pub_message_run dest h t id props plen0 data) as (m' & enc & plen & He & Hb & Hh & Hr & Hpp); [lia|done|].
  assert (Hpp' : pub_props_ok m' proto (Zlen (pub_prefix t (fh_qos h) id)) props (Zlen enc) plen).
  { rewrite Htag in Hpp. unfold publish_tag in Hpp. destruct (Z.eqb_spec proto MQTT_PROTOCOL_VERSION_v5) as [->|Hne].
    - by rewrite bool_decide_eq_true_2 in Hpp.
    - rewrite bool_decide_eq_false_2 in Hpp by done. rewrite (Hv Hne).
      destruct Hpp as [(_ & Hrest)|(? & _)]; [by left|done]. }
  do 2 eexists. split; [exact He|]. constructor.
  - exists enc. split; [done|]. intros Hne. by apply (pub_props_empty _ _ _ _ _ _ Hpp').
  - intros Hsz. eexists _, plen. by apply (decode_encoded m' proto h t id props plen enc data).
Qed.
End Carries.

Section HandleClaims.
Context {msg property db hash db_ret : Type}.
Context `{Hmsg : NngMsg msg} `{Hpar : NngParser msg property} `{Hmp : NngMsgProp msg property}.
Context `{Hdb : NngDb db hash} `{Hret : NngRetain db_ret (dbtree_retain_msg msg)}.
Context {Hrl : NngRetainLaws db_ret (dbtree_retain_msg msg)} {Hdl : NngDbLaws db hash}.
Context {utf8_ok : bytes -> Prop} {Hlaws : NngParserLaws msg property utf8_ok}.

(** The alias table after a packet that names its topic. *)
Definition alias_after (h : hash) (p proto : Z) (props : option property) (t : bytes) : hash :=
  if proto =? MQTT_PROTOCOL_VERSION_v5 then
    match property_get_value props TOPIC_ALIAS with
    | Some d => dbhash_insert_atpair h p (p_value_u16 d) t
    | None => h
    end
  else h.

Definition started (g : msg_statistics) : msg_statistics :=
  inc_in (if st_initialed g then g else msg_statistics_init g).

Lemma started_out_ok g : out_ok g -> out_ok (started g).
Proof. unfold started, out_ok. destruct (st_initialed g); cbn; lia. Qed.

Lemma resolve_named p proto fh t id props plen data (h : hash) :
  utf8_ok t -> 0 < Zlen t ->
  resolve_topic p proto (publish_packet fh t id props plen data) h =
  Some (Some t, alias_after h p proto props t, publish_packet fh t id props plen data).
Proof using Hlaws.
  intros Hu Ht. unfold resolve_topic, alias_after, publish_packet.
  cbn [pp_var_header var_publish ph_topic_name ms_body ms_len ph_properties].
  destruct (proto =? _); [|done]. rewrite (proj2 (Z.ltb_lt 0 _)) by done.
  destruct (property_get_value props TOPIC_ALIAS); [|done].
  by rewrite cstr_id by (by apply utf8_ok_no_nul).
Qed.

Lemma handle_pub_run al (d : db) p proto_ver proto (s : pub_state msg property hash db_ret)
    fh t id props plen enc data :
  pa_packet al = true -> pa_payload al = true ->
  wf_publish utf8_ok (ps_msg s) proto fh t id props plen enc data ->
  let pkt := publish_packet fh t (fixed_id fh id) props plen data in
  handle_pub al d p proto_ver s proto =
  Ret (SUCCESS,
    deliver al d proto_ver t pkt
      (PubState (ps_msg s) (Some pkt) [] (started (ps_stats s))
         (alias_after (ps_hash s) p proto props t) (ps_retain s) (ps_refs s))).
Proof using Hlaws.
  intros Ha1 Ha2 W pkt. destruct (wp_header _ _ _ _ _ _ _ _ _ _ W) as (b0 & rest & Hh & Hfh).
  destruct W as [_ Hty Hrem Hu Hlt Hw Hid Hb Hsz Hp].
  unfold handle_pub. rewrite Ha1, Ha2.
  rewrite (decode_pub_message_publish _ _ b0 rest); [|done|by rewrite <- Hfh|done].
  rewrite <- Hfh, (decode_publish_ok (ps_msg s) fh proto t id props plen enc data) by done.
  cbn [ebind]. change (negb (SUCCESS =? SUCCESS)) with false.
  cbn [pp_fixed_header]. rewrite Hty, Z.eqb_refl. cbn [negb].
  fold (publish_packet fh t (if 0 <? fh_qos fh then id else 0) props plen data).
  rewrite resolve_named by (done || lia).
  by rewrite (cstr_id t) by (by apply utf8_ok_no_nul).
Qed.

(** C8: a well-formed PUBLISH is forwarded to exactly the clients the
    subscription tree finds for its topic, plain subscribers first and then
    the shared ones, without the empty entries and in their order; the
    message counters count it, and it counts as dropped exactly when the
    tree finds nobody. *)
Theorem handle_pub_delivers al (d : db) p proto_ver proto (s : pub_state msg property hash db_ret)
    fh t id props plen enc data :
  pa_packet al = true -> pa_payload al = true ->
  wf_publish utf8_ok (ps_msg s) proto fh t id props plen enc data ->
  out_ok (ps_stats s) ->
  Zlen (default [] (dbtree_find_clients d t)) < 2 ^ 31 ->
  Zlen (default [] (dbtree_find_shared_clients d t)) < 2 ^ 31 ->
  exists s', handle_pub al d p proto_ver s proto = Ret (SUCCESS, s') /\
    ps_msg_infos s' = live (receivers d t) /\
    ps_stats s' = add_out (if nobody d t then inc_drop (started (ps_stats s)) else started (ps_stats s))
                    (Zlen (receivers d t)) /\
    ps_hash s' = alias_after (ps_hash s) p proto props t.
Proof using Hlaws.
  intros Ha1 Ha2 W Ho H1 H2. rewrite (handle_pub_run _ _ _ _ _ _ _ _ _ _ _ _ _ Ha1 Ha2 W).
  eexists; split; [reflexivity|].
  match goal with |- context [deliver _ _ _ _ ?pkt ?s1] =>
    destruct (deliver_spec al d proto_ver t pkt s1) as (Hi & Hs & _ & Hh & _)
  end; [by apply started_out_ok | done | done |].
  rewrite Hi, Hs, Hh. done.
Qed.

(** C14: a retained PUBLISH with a payload becomes the retained message of its
    topic, one with an empty payload clears it, an ordinary one leaves it;
    no other topic is touched, and the references taken and released on
    messages balance the entries of the tree. *)
Theorem handle_pub_retains al (d : db) p proto_ver proto (s : pub_state msg property hash db_ret)
    fh t id props plen enc data :
  pa_packet al = true -> pa_payload al = true -> pa_retain al = true ->
  wf_publish utf8_ok (ps_msg s) proto fh t id props plen enc data ->
  exists s' refs, handle_pub al d p proto_ver s proto = Ret (SUCCESS, s') /\
    (forall t', t' <> t -> retained (ps_retain s') t' = retained (ps_retain s) t') /\
    retained (ps_retain s') t =
      (if fh_retain fh =? 0 then retained (ps_retain s) t
       else if 0 <? Zlen data then Some (RetainMsg (fh_qos fh) true (Some (ps_msg s')))
       else None) /\
    ps_refs s' = ps_refs s ++ refs /\
    ref_balance refs = held (retained (ps_retain s') t) - held (retained (ps_retain s) t).
Proof using Hlaws Hrl.
  intros Ha1 Ha2 Ha3 W. rewrite (handle_pub_run _ _ _ _ _ _ _ _ _ _ _ _ _ Ha1 Ha2 W).
  unfold deliver. cbn [ps_msg ps_retain ps_refs ps_stats ps_msg_infos ps_hash].
  destruct (match dbtree_find_clients d t with Some _ => _ | None => _ end) as [i1 g1].
  destruct (match dbtree_find_shared_clients d t with Some _ => _ | None => _ end) as [i2 g2].
  destruct (handle_pub_retain _ _ _ _ _ _) as [[m' dr'] refs] eqn:E.
  eexists _, refs. split; [reflexivity|]. cbn [ps_retain ps_msg ps_refs].
  destruct (handle_pub_retain_spec _ _ _ _ _ _ _ _ _ E) as (Hoth & Hnew & Hbal).
  split; [done|]. split; [|done]. rewrite Hnew, Ha3.
  unfold publish_packet, payload_of. cbn [pp_fixed_header pp_payload pl_len].
  rewrite orb_true_r, andb_true_r. by destruct (fh_retain fh =? 0).
Qed.

(** C35: after a client names a topic together with an alias, a packet of the
    same client with an empty topic and that alias is routed under the same
    topic, until the alias is set again; another client's alias is
    independent, and an unknown alias routes nowhere. *)
Theorem topic_alias_resolves p fh t id props plen data (h : hash) a pd fh2 id2 props2 plen2 data2 :
  utf8_ok t -> 0 < Zlen t < 2 ^ 32 ->
  property_get_value props TOPIC_ALIAS = Some pd -> p_value_u16 pd = a ->
  property_get_value props2 TOPIC_ALIAS = Some pd ->
  let h1 := alias_after h p MQTT_PROTOCOL_VERSION_v5 props t in
  let anonymous :=
    PubPacket fh2 (VPublish (PublishHeader id2 (MqttString None 0) props2 plen2)) (payload_of data2) in
  resolve_topic p MQTT_PROTOCOL_VERSION_v5 (publish_packet fh t id props plen data) h =
    Some (Some t, h1, publish_packet fh t id props plen data) /\
  resolve_topic p MQTT_PROTOCOL_VERSION_v5 anonymous h1 =
    Some (Some t, h1, publish_packet fh2 t id2 props2 plen2 data2) /\
  forall q, q <> p -> dbhash_find_atpair h q a = None ->
    resolve_topic q MQTT_PROTOCOL_VERSION_v5 anonymous h1 = None.
Proof using Hlaws Hdl.
  intros Hu Ht Hp Ha Hp2 h1 anonymous. split; [apply resolve_named; [done|lia]|].
  unfold resolve_topic, anonymous, h1, alias_after.
  cbn [pp_var_header var_publish ph_topic_name ms_body ms_len ph_properties ph_packet_id
       pp_fixed_header pp_payload].
  rewrite Z.eqb_refl, Hp, Hp2, Ha. split.
  - rewrite find_insert_atpair. rewrite !(cstr_id t) by (by apply utf8_ok_no_nul).
    by rewrite u32_small by lia.
  - intros q Hq Hn. rewrite find_insert_atpair_ne by congruence. by rewrite Hn.
Qed.

(** C38: an MQTT 5 message is expired exactly when its expiry interval, in
    seconds, has gone by, as long as the interval in milliseconds fits in 32
    bits; the product wraps, so an interval of 4294968 s (about 50 days)
    expires in under a second. *)
Theorem check_msg_exp_correct now (m : msg) (prop : option property) pd :
  nng_msg_cmd_type m = CMD_PUBLISH_V5 ->
  property_get_value prop MESSAGE_EXPIRY_INTERVAL = Some pd ->
  0 <= nng_msg_get_timestamp m -> nng_msg_get_timestamp m + 2 ^ 32 <= 2 ^ 64 ->
  (p_value_u32 pd * 1000 < 2 ^ 32 ->
   check_msg_exp now m prop = true <-> now <= nng_msg_get_timestamp m + p_value_u32 pd * 1000) /\
  (p_value_u32 pd = 4294968 ->
   check_msg_exp now m prop = true <-> now <= nng_msg_get_timestamp m + 704).
Proof.
  intros Hc Hv Hr Hr2. unfold check_msg_exp. rewrite decide_True, Hv by done.
  assert (0 <= p_value_u32 pd) by (destruct pd; apply u32_range).
  split; intros Hi.
  - rewrite u32_small by lia. unfold u64. rewrite Z.mod_small by lia.
    rewrite negb_true_iff, Z.ltb_ge. lia.
  - rewrite Hi. change (u32 (4294968 * 1000)) with 704. unfold u64. rewrite Z.mod_small by lia.
    rewrite negb_true_iff, Z.ltb_ge. lia.
Qed.
End HandleClaims.

(** ** Witnesses *)

(** QoS 1 PUBLISH of "hi" to "a", packet id 10. *)
Definition demo_pub : rmsg := RMsg [50; 7] [0; 1; 97; 0; 10; 104; 105] 5 7 CMD_PUBLISH 0.

Definition demo_fh : fixed_header := FixedHeader 0 1 0 PUBLISH 7.

Lemma demo_no_wildcard : no_wildcard [97].
Proof. split; intros H%list_elem_of_singleton; discriminate H. Qed.

Lemma ascii_a : ascii_ok [97].
Proof. apply Forall_cons_2; [lia|apply Forall_nil_2]. Qed.

Lemma decode_pub_message_correct_witness :
  decode_pub_message (property := list (Z * property_data)) true demo_pub zero_pub_packet 4 =
  Ret (SUCCESS, publish_packet demo_fh [97] 10 None 0 [104; 105]).
Proof.
  refine (decode_pub_message_correct (utf8_ok := ascii_ok) demo_pub 50 [7] 4 [97] 10 None 0 [] [104; 105]
    _ _ _ _ _ _ _ _ _ _).
  - reflexivity.
  - reflexivity.
  - vm_compute. discriminate.
  - exact ascii_a.
  - vm_compute. split; reflexivity.
  - exact demo_no_wildcard.
  - lia.
  - reflexivity.
  - reflexivity.
  - left. split; [discriminate|]. repeat split.
Defined.

(** MQTT 5, with a topic alias. *)
Lemma publish_roundtrip_witness :
  exists m' pkt' plen,
    encode_pub_message (nng_msg_set_cmd_type demo_pub CMD_PUBLISH_V5)
      (publish_packet demo_fh [97] 10 (Some [(TOPIC_ALIAS, PU16 5)]) 0 [104; 105]) PUBLISH
      = Ret (true, m', pkt') /\
    decode_pub_message true m' zero_pub_packet 5 =
    Ret (SUCCESS, publish_packet (FixedHeader 0 1 0 PUBLISH 11) [97] 10
                    (Some [(TOPIC_ALIAS, PU16 5)]) plen [104; 105]).
Proof.
  destruct (publish_roundtrip (utf8_ok := ascii_ok) (prop_ok := alias_only)
    (nng_msg_set_cmd_type demo_pub CMD_PUBLISH_V5) demo_fh [97] 10
    (Some [(TOPIC_ALIAS, PU16 5)]) 0 [104; 105]) as (m' & pkt' & plen & He & Hd).
  - vm_compute. intuition congruence.
  - exact ascii_a.
  - vm_compute. split; reflexivity.
  - exact demo_no_wildcard.
  - lia.
  - right. exists 5. split; [lia|reflexivity].
  - exists m', pkt', plen. split; [exact He|].
    assert (Hl : nng_msg_len m' = 11) by (vm_compute in He; by injection He as <- <-).
    rewrite Hl in Hd. apply Hd. lia.
Defined.

Lemma decode_pub_message_safe_witness :
  exists pkt, decode_pub_message (property := list (Z * property_data)) true demo_pub zero_pub_packet 4
      = Ret (SUCCESS, pkt) /\
    exists t pos, ms_body (ph_topic_name (var_publish (pp_var_header pkt))) = Some t /\ no_wildcard (cstr t) /\
      pp_payload pkt = payload_of (drop (Z.to_nat pos) (nng_msg_body demo_pub)).
Proof.
  assert (Hd : exists pkt, decode_pub_message (property := list (Z * property_data)) true demo_pub zero_pub_packet 4
      = Ret (SUCCESS, pkt) /\ fh_packet_type (pp_fixed_header pkt) = PUBLISH /\
    ms_body (ph_topic_name (var_publish (pp_var_header pkt))) = Some [97]).
  { eexists. split; [vm_compute; reflexivity|]. split; reflexivity. }
  destruct Hd as (pkt & Hd & Hty & Hb). exists pkt. split; [exact Hd|].
  assert (Hlen : nng_msg_len demo_pub < 2 ^ 32) by (vm_compute; reflexivity).
  destruct (decode_pub_message_safe (utf8_ok := ascii_ok) true demo_pub 4 pkt Hlen Hd Hty)
    as (b0 & pos1 & tlen & pos2 & pos & _ & _ & _ & Hc & _ & Hw & _ & _ & _ & Hp).
  exists [97], pos. split; [exact Hb|]. split; [|exact Hp]. apply Hw; [exact Hb|].
  vm_compute in Hc. injection Hc as _ _ <-. reflexivity.
Defined.

(** Topic "a/#". *)
Definition demo_wild : rmsg := RMsg [48; 5] [0; 3; 97; 47; 35] 0 5 CMD_PUBLISH 0.

Lemma decode_pub_message_rejects_wildcard_witness :
  exists pkt, decode_pub_message (property := list (Z * property_data)) true demo_wild zero_pub_packet 4
    = Ret (PROTOCOL_ERROR, pkt).
Proof.
  apply (decode_pub_message_rejects_wildcard (utf8_ok := ascii_ok) true demo_wild 48 [5] 4 [97; 47; 35] []).
  - reflexivity.
  - reflexivity.
  - vm_compute. discriminate.
  - repeat (apply Forall_cons_2; [lia|]). apply Forall_nil_2.
  - vm_compute. split; reflexivity.
  - right. apply list_elem_of_In. do 2 right. left. reflexivity.
  - reflexivity.
Defined.

(** QoS 1 and nothing behind the topic. *)
Definition demo_short : rmsg := RMsg [50; 3] [0; 1; 97] 0 3 CMD_PUBLISH 0.

Lemma decode_pub_message_packet_id_overread_witness :
  decode_pub_message (property := list (Z * property_data)) true demo_short zero_pub_packet 4 = UB.
Proof.
  apply (decode_pub_message_packet_id_overread (utf8_ok := ascii_ok) true demo_short 50 [3] 4 [97]).
  - reflexivity.
  - reflexivity.
  - reflexivity.
  - vm_compute. discriminate.
  - exact ascii_a.
  - vm_compute. split; reflexivity.
  - exact demo_no_wildcard.
  - reflexivity.
Defined.

(** A topic length beyond the end of the packet. *)
Definition demo_bad_topic : rmsg := RMsg [48; 2] [0; 9] 0 2 CMD_PUBLISH 0.

Lemma decode_pub_message_accepts_bad_topic_witness :
  decode_pub_message (property := list (Z * property_data)) true demo_bad_topic zero_pub_packet 4 =
  Ret (SUCCESS, PubPacket (FixedHeader 0 0 0 PUBLISH 2)
    (VPublish (PublishHeader 0 (MqttString None (2 ^ 32 - 1)) None 0)) (MqttPayload None 0)).
Proof.
  refine (decode_pub_message_accepts_bad_topic true demo_bad_topic 48 [2] 9 2 _ _ _ _ _ _ _);
    first [reflexivity | vm_compute; discriminate].
Defined.

Lemma encode_ack_correct_witness :
  exists m', encode_pub_message (property := list (Z * property_data)) demo_pub
      (publish_packet demo_fh [97] 10 None 0 []) PUBACK =
      Ret (true, m', publish_packet demo_fh [97] 10 None 0 []) /\
    nng_msg_header m' = [64; 2] /\ nng_msg_body m' = [0; 10] /\ nng_msg_cmd_type m' = CMD_PUBCOMP.
Proof.
  refine (encode_ack_correct (property := list (Z * property_data)) demo_pub
           (publish_packet demo_fh [97] 10 None 0 []) PUBACK _).
  apply list_elem_of_In. left. reflexivity.
Defined.

Abbreviation demo_state m := (PubState m None [] g_msg empty_hash (∅ : gmap bytes (dbtree_retain_msg rmsg)) []).

Definition all_allocs : pub_allocs := PubAllocs true true true.

(** [demo_pub] with the retain flag. *)
Definition demo_retained : rmsg := RMsg [51; 7] [0; 1; 97; 0; 10; 104; 105] 5 7 CMD_PUBLISH 0.

Lemma demo_pub_wf b fh :
  (b = 50 /\ fh = demo_fh) \/ (b = 51 /\ fh = FixedHeader 1 1 0 PUBLISH 7) ->
  wf_publish (property := list (Z * property_data)) ascii_ok
    (RMsg [b; 7] [0; 1; 97; 0; 10; 104; 105] 5 7 CMD_PUBLISH 0) 4 fh [97] 10 None 0 [] [104; 105].
Proof.
  intros Hb. constructor.
  - exists b, [7]. split; [reflexivity|]. destruct Hb as [[-> ->]|[-> ->]]; reflexivity.
  - destruct Hb as [[-> ->]|[-> ->]]; reflexivity.
  - vm_compute. discriminate.
  - exact ascii_a.
  - vm_compute. split; reflexivity.
  - exact demo_no_wildcard.
  - lia.
  - destruct Hb as [[-> ->]|[-> ->]]; reflexivity.
  - reflexivity.
  - left. split; [discriminate|]. repeat split.
Qed.

Lemma handle_pub_delivers_witness :
  exists s', handle_pub all_allocs (demo_db ∪ {[([97], 9)]}) 3 4 (demo_state demo_pub) 4 = Ret (SUCCESS, s') /\
    ps_msg_infos s' ≡ₚ [7; 9] /\ st_msg_out (ps_stats s') = 2.
Proof.
  destruct (handle_pub_delivers (utf8_ok := ascii_ok) all_allocs (demo_db ∪ {[([97], 9)]}) 3 4 4
    (demo_state demo_pub) demo_fh [97] 10 None 0 [] [104; 105])
    as (s' & Hrun & Hi & Hs & _); [reflexivity|reflexivity|by apply demo_pub_wf; left| | | |].
  - vm_compute. split; [discriminate|reflexivity].
  - reflexivity.
  - reflexivity.
  - exists s'. rewrite Hi, Hs. split; [exact Hrun|]. split; [|reflexivity].
    vm_compute. first [reflexivity | apply Permutation_swap].
Defined.

Lemma handle_pub_retains_witness :
  exists s' refs, handle_pub all_allocs demo_db 3 4 (demo_state demo_retained) 4 = Ret (SUCCESS, s') /\
    retained (ps_retain s') [97] = Some (RetainMsg 1 true (Some (ps_msg s'))) /\
    ps_refs s' = refs /\ ref_balance refs = 1.
Proof.
  destruct (handle_pub_retains (utf8_ok := ascii_ok) all_allocs demo_db 3 4 4
    (demo_state demo_retained) (FixedHeader 1 1 0 PUBLISH 7) [97] 10 None 0 [] [104; 105])
    as (s' & refs & Hrun & _ & Hr & He & Hb); [reflexivity..|by apply demo_pub_wf; right|].
  exists s', refs. split; [exact Hrun|]. split; [exact Hr|]. split; [exact He|].
  rewrite Hb, Hr. reflexivity.
Defined.

Lemma topic_alias_resolves_witness :
  resolve_topic 3 5 (PubPacket demo_fh
      (VPublish (PublishHeader 0 (MqttString None 0) (Some [(TOPIC_ALIAS, PU16 5)]) 3)) (payload_of []))
    (RHash ∅ {[(3, 5) := [97]]}) =
  Some (Some [97], RHash ∅ {[(3, 5) := [97]]},
    publish_packet demo_fh [97] 0 (Some [(TOPIC_ALIAS, PU16 5)]) 3 []).
Proof.
  refine (proj1 (proj2 (topic_alias_resolves (utf8_ok := ascii_ok) 3 demo_fh [97] 10
    (Some [(TOPIC_ALIAS, PU16 5)]) 3 [] empty_hash 5 (PU16 5) demo_fh 0
    (Some [(TOPIC_ALIAS, PU16 5)]) 3 [] _ _ _ _ _))).
  - exact ascii_a.
  - vm_compute. split; reflexivity.
  - reflexivity.
  - reflexivity.
  - reflexivity.
Defined.

(** Sent at time 1000 with an interval of 10 s. *)
Definition demo_expiring : rmsg := RMsg [48; 3] [0; 1; 97] 0 3 CMD_PUBLISH_V5 1000.

Lemma check_msg_exp_correct_witness :
  check_msg_exp 11001 demo_expiring (Some [(MESSAGE_EXPIRY_INTERVAL, PU32 10)]) <> true.
Proof.
  intros H.
  destruct (check_msg_exp_correct (Hmsg := rmsg_NngMsg) (Hpar := rmsg_parser) 11001 demo_expiring
    (Some [(MESSAGE_EXPIRY_INTERVAL, PU32 10)]) (PU32 10)) as [He _].
  - reflexivity.
  - reflexivity.
  - vm_compute. discriminate.
  - vm_compute. discriminate.
  - apply He in H; [|reflexivity]. vm_compute in H. by apply H.
Defined.
