(* ===== verification/Cstring.v ===== *)
(** * The C string functions the program uses

    A string is the list of its characters in front of the NUL. *)

From Stdlib Require Import ZArith Lia.
From stdpp Require Import base numbers list option.
From S2P Require Import Prelude Mqtt.

Local Open Scope Z_scope.

(** ** Numbers *)

Definition is_space (b : Z) : bool := (b =? 32) || ((9 <=? b) && (b <=? 13)).
Definition is_digit (b : Z) : bool := (48 <=? b) && (b <=? 57).

Fixpoint skip_space (s : bytes) : bytes :=
  match s with b :: s' => if is_space b then skip_space s' else s | [] => [] end.

Fixpoint digits (s : bytes) (acc : Z) : Z :=
  match s with b :: s' => if is_digit b then digits s' (acc * 10 + (b - 48)) else acc | [] => acc end.

(** [atoi]; the value is reduced to 32 bits (C leaves overflow open). *)
Definition atoi (s : bytes) : Z :=
  match skip_space s with
  | b :: s' => if b =? 45 then s32 (- digits s' 0) else if b =? 43 then s32 (digits s' 0)
               else s32 (digits (b :: s') 0)
  | [] => 0
  end.

(** ** Searching *)

(** [strrchr(s, c)]: what is before the last [c], and the rest from it on. *)
Fixpoint strrchr (s : bytes) (c : Z) : option (bytes * bytes) :=
  match s with
  | [] => None
  | b :: s' =>
      match strrchr s' c with
      | Some (pre, rest) => Some (b :: pre, rest)
      | None => if b =? c then Some ([], s) else None
      end
  end.

(** [strchr(s, c)]: what is before the first [c], and what is behind it. *)
Fixpoint cut (s : bytes) (c : Z) : option (bytes * bytes) :=
  match s with
  | [] => None
  | b :: s' =>
      if b =? c then Some ([], s')
      else match cut s' c with Some (pre, rest) => Some (b :: pre, rest) | None => None end
  end.

(** [strstr(s, pat)]: the rest from the first occurrence on. *)
Fixpoint strstr (s pat : bytes) : option bytes :=
  if strprefix pat s then Some s
  else match s with [] => None | _ :: s' => strstr s' pat end.

(** All tokens [strtok_r(s, [c])] finds: the non-empty pieces between [c]s. *)
Fixpoint strtok_go (s : bytes) (c : Z) (cur : bytes) : list bytes :=
  match s with
  | [] => if bool_decide (cur = []) then [] else [cur]
  | b :: s' =>
      if b =? c then (if bool_decide (cur = []) then [] else [cur]) ++ strtok_go s' c []
      else strtok_go s' c (cur ++ [b])
  end.

Definition strtok (s : bytes) (c : Z) : list bytes := strtok_go s c [].

(** The characters [%s] of [sscanf] reads: up to white space. *)
Fixpoint word (s : bytes) : bytes :=
  match s with b :: s' => if is_space b then [] else b :: word s' | [] => [] end.

(** Decimal digits of a natural number, for [%d] and [%lu]. *)
Fixpoint dec_go (fuel : nat) (n : Z) (acc : bytes) : bytes :=
  match fuel with
  | O => acc
  | S fuel' =>
      let acc := (48 + n mod 10) :: acc in
      if n / 10 =? 0 then acc else dec_go fuel' (n / 10) acc
  end.

(** Twenty digits are enough for 64 bits. *)
Definition dec (n : Z) : bytes := if n <? 0 then 45 :: dec_go 20 (- n) [] else dec_go 20 n [].

(** ** Lemmas *)

Lemma cut_spec s c pre rest :
  cut s c = Some (pre, rest) <-> s = pre ++ c :: rest /\ c ∉ pre.
Proof.
  revert pre. induction s as [|b s IH]; intros pre; cbn.
  - split; [done|]. intros [H _]. by destruct pre.
  - destruct (b =? c) eqn:E; bool_hyps.
    + subst b. split; [intros [= <- <-]; split; [done|apply not_elem_of_nil]|].
      intros [H Hn]. destruct pre as [|p pre]; cbn in H; [by injection H as ->|].
      injection H as -> _. exfalso. apply Hn. by left.
    + split.
      * destruct (cut s c) as [[p r]|] eqn:Es; [|done]. intros [= <- <-].
        destruct (proj1 (IH p) eq_refl) as [-> Hn]. split; [done|]. by intros [?|?]%elem_of_cons.
      * intros [H Hn]. destruct pre as [|p pre]; cbn in H; [congruence|]. injection H as -> ->.
        rewrite (proj2 (IH pre)); [done|]. split; [done|]. intros ?. apply Hn. by right.
Qed.

Lemma cut_None s c : cut s c = None <-> c ∉ s.
Proof.
  induction s as [|b s IH]; cbn; [by split; [intros _; apply not_elem_of_nil|]|].
  rewrite not_elem_of_cons. destruct (b =? c) eqn:E; bool_hyps.
  - split; [done|]. by intros [? _].
  - destruct (cut s c) as [[p r]|]; [split; [done|intros [_ ?%IH]; done]|].
    split; [intros _; split; [done|by apply IH]|done].
Qed.

Lemma cut_length s c pre rest : cut s c = Some (pre, rest) -> (length rest < length s)%nat.
Proof. intros [-> _]%cut_spec. rewrite length_app. cbn. lia. Qed.

Lemma strprefix_app pat s : strprefix pat (pat ++ s) = true.
Proof. induction pat as [|p pat IH]; [done|]. cbn. by rewrite Z.eqb_refl, IH. Qed.

Lemma strstr_app pat s : strstr (pat ++ s) pat = Some (pat ++ s).
Proof.
  destruct (pat ++ s) as [|b l] eqn:E; cbn; rewrite <- ?E.
  - destruct pat; [done|done].
  - by rewrite strprefix_app.
Qed.

Lemma strtok_go_app pre c rest cur :
  c ∉ pre -> strtok_go (pre ++ c :: rest) c cur =
  (if bool_decide (cur ++ pre = []) then [] else [cur ++ pre]) ++ strtok_go rest c [].
Proof.
  revert cur. induction pre as [|b pre IH]; intros cur Hn; cbn [app strtok_go].
  - by rewrite Z.eqb_refl, app_nil_r.
  - apply not_elem_of_cons in Hn as [Hb Hn]. rewrite (proj2 (Z.eqb_neq b c)) by done.
    rewrite IH by done. by rewrite <- app_assoc.
Qed.

Lemma strtok_go_end pre c cur :
  c ∉ pre -> strtok_go pre c cur = if bool_decide (cur ++ pre = []) then [] else [cur ++ pre].
Proof.
  revert cur. induction pre as [|b pre IH]; intros cur Hn; cbn [strtok_go].
  - by rewrite app_nil_r.
  - apply not_elem_of_cons in Hn as [Hb Hn]. rewrite (proj2 (Z.eqb_neq b c)) by done.
    rewrite IH by done. by rewrite <- app_assoc.
Qed.

(** Texts joined by a separator. *)
Fixpoint join (c : Z) (l : list bytes) : bytes :=
  match l with [] => [] | [x] => x | x :: l' => x ++ c :: join c l' end.

Lemma join_snoc c x l y : join c ((x :: l) ++ [y]) = x ++ c :: join c (l ++ [y]).
Proof. by destruct l. Qed.

Lemma strtok_join c l :
  Forall (fun x => x <> [] /\ c ∉ x) l -> strtok (join c l) c = l.
Proof.
  unfold strtok. induction 1 as [|x l [Hx Hc] HF IH]; [done|]. destruct l as [|y l].
  - cbn [join]. rewrite strtok_go_end by done. cbn [app]. by rewrite bool_decide_eq_false_2.
  - change (join c (x :: y :: l)) with (x ++ c :: join c (y :: l)).
    rewrite strtok_go_app by done. cbn [app]. rewrite bool_decide_eq_false_2 by done. by rewrite IH.
Qed.

Lemma word_id s : forallb (fun b => negb (is_space b)) s = true -> word s = s.
Proof. induction s as [|b s IH]; cbn; [done|]. intros H. bool_hyps. rewrite H. f_equal. by apply IH. Qed.

(** The decimal text is short. *)
Lemma dec_go_length fuel n acc : (length (dec_go fuel n acc) <= fuel + length acc)%nat.
Proof.
  revert n acc. induction fuel as [|fuel IH]; intros n acc; cbn [dec_go]; [lia|].
  case_match; [cbn; lia|]. etransitivity; [apply IH|]. cbn. lia.
Qed.

Lemma dec_length n : Zlen (dec n) <= 21.
Proof.
  unfold dec, Zlen. case_match; cbn [length].
  - pose proof (dec_go_length 20 (- n) []). cbn [length] in *. lia.
  - pose proof (dec_go_length 20 n []). cbn [length] in *. lia.
Qed.
