(* ===== verification/Webhook.v ===== *)
(** * webhook_post.c: building web hook events

    The JSON object of an event is the sequence of cJSON calls that fill it;
    printing and sending it belong to cJSON and nng. *)

From Stdlib Require Import ZArith Lia.
From stdpp Require Import base numbers list gmap option strings.
From S2P Require Import Prelude Mqtt PubHandler.

Local Open Scope Z_scope.
Local Open Scope nano_scope.

(** ** Configuration (nanolib/conf.h), as far as the file reads it *)

Inductive webhook_event := MESSAGE_PUBLISH | CLIENT_CONNACK | CLIENT_DISCONNECTED | OTHER_EVENT (n : Z).

#[export] Instance webhook_event_eq_dec : EqDecision webhook_event.
Proof. solve_decision. Defined.

Record conf_web_hook_rule := HookRule { hr_event : webhook_event; hr_topic : option bytes }.

Inductive hook_payload_type := plain | base64 | base62 | other_encoding.

Record conf_web_hook := ConfWebHook {
  wh_enable : bool;
  wh_rules : list conf_web_hook_rule;
  wh_encode_payload : hook_payload_type
}.

(** ** Event filters *)

Fixpoint event_filter_loop (rules : list conf_web_hook_rule) (event : webhook_event) : bool :=
  match rules with
  | [] => false
  | r :: rules' => if decide (hr_event r = event) then true else event_filter_loop rules' event
  end.

Definition event_filter (hook_conf : conf_web_hook) (event : webhook_event) : bool :=
  event_filter_loop (wh_rules hook_conf) event.

Section TopicFilter.
(** [topic_filter] of nanolib; the topic may be NULL *)
Variable topic_filter : bytes -> option bytes -> bool.

Fixpoint event_filter_topic_loop (rules : list conf_web_hook_rule) (event : webhook_event)
    (topic : option bytes) : bool :=
  match rules with
  | [] => false
  | r :: rules' =>
      if decide (hr_event r = event) then
        match hr_topic r with
        | Some f => if negb (topic_filter f topic) then event_filter_topic_loop rules' event topic
                    else true
        | None => true
        end
      else event_filter_topic_loop rules' event topic
  end.

Definition event_filter_with_topic (hook_conf : conf_web_hook) (event : webhook_event)
    (topic : option bytes) : bool :=
  event_filter_topic_loop (wh_rules hook_conf) event topic.
End TopicFilter.

(** ** base62 *)

(** [BASE62_ENCODE_OUT_SIZE]: [s] is a [uint32_t]. *)
Definition BASE62_ENCODE_OUT_SIZE (s : Z) : Z := u32 (u32 (s * 8) / 6 + 2).

Definition set_char (out : bytes) (index c : Z) : exec (bytes * Z) :=
  let two a b := let* out := wr out index a in
                 let* out := wr out (index + 1) b in
                 Ret (out, u32 (index + 2)) in
  if c =? 105 (* i *) then two 105 97
  else if c =? 43 (* + *) then two 105 98
  else if c =? 47 (* / *) then two 105 99
  else let* out := wr out index c in Ret (out, u32 (index + 1)).

Definition base62en : bytes :=
  str "ABCDEFGHIJKLMNOPQRSTUVWXYZabcdefghijklmnopqrstuvwxyz0123456789+/".

(** The inner loop takes six bits off [val] while there are that many. *)
Fixpoint base62_inner (fuel : nat) (pos val : Z) (out : bytes) (j : Z)
    : exec (Z * Z * bytes * Z) :=
  match fuel with
  | O => OOF
  | S fuel' =>
      if 5 <? pos then
        let pos := pos - 6 in
        let* c := rd base62en (Z.shiftr val pos) in
        let* r := set_char out j c in
        let '(out, j) := r in
        base62_inner fuel' pos (Z.land val (Z.shiftl 1 pos - 1)) out j
      else Ret (pos, val, out, j)
  end.

Fixpoint base62_outer (inp : bytes) (pos val : Z) (out : bytes) (j : Z)
    : exec (Z * Z * bytes * Z) :=
  match inp with
  | [] => Ret (pos, val, out, j)
  | b :: inp' =>
      let val := Z.lor (u32 (Z.shiftl val 8)) (Z.land b 0xFF) in
      let pos := pos + 8 in
      let* r := base62_inner 4 pos val out j in
      let '(pos, val, out, j) := r in
      base62_outer inp' pos val out j
  end.

(** The buffer after, and the number of characters. *)
Definition base62_encode (inp out : bytes) : exec (bytes * Z) :=
  let* r := base62_outer inp 0 0 out 0 in
  let '(pos, val, out, j) := r in
  if 0 <? pos then
    let* c := rd base62en (u32 (Z.shiftl val (6 - pos))) in
    set_char out j c
  else Ret (out, j).

(** ** Events *)

(** A call on the JSON object; a NULL string argument is [None]. *)
Inductive json_call :=
| AddNumber (key : bytes) (v : Z)
| AddString (key : bytes) (v : option bytes)
| AddBool (key : bytes) (v : bool)
| AddNull (key : bytes).

(** What an entry point does: nothing (and returns -1), or send an object. *)
Inductive hook_result := NotSent | Sent (obj : list json_call).

Section Events.
Variable topic_filter : bytes -> option bytes -> bool.
(** [base64_encode] of nanolib: the text for a buffer *)
Variable base64_encode : bytes -> bytes.
Variable zalloc_ok : bool.

Definition username_or (u : option bytes) : option bytes :=
  Some (default (str "undefined") u).

(** The "payload" member. *)
Definition payload_member (enc : hook_payload_type) (payload : mqtt_payload) : exec (list json_call) :=
  match enc with
  | plain => Ret [AddString (str "payload") (cstr <$> pl_data payload)]
  | base64 =>
      let text := base64_encode (take (Z.to_nat (pl_len payload)) (default [] (pl_data payload))) in
      if zalloc_ok then
        Ret [if 0 <? Zlen text then AddString (str "payload") (Some (cstr text))
             else AddNull (str "payload")]
      else UB
  | base62 =>
      if zalloc_ok then
        let buf := replicate (Z.to_nat (BASE62_ENCODE_OUT_SIZE (pl_len payload))) 0 in
        let* inp := (if pl_len payload =? 0 then Ret [] else read_buf (pl_data payload) (pl_len payload)) in
        let* r := base62_encode inp buf in
        let '(encode, len) := r in
        if 0 <? len then
          (* cJSON copies up to the terminator *)
          if bool_decide (0 ∈ encode) then Ret [AddString (str "payload") (Some (cstr encode))] else UB
        else Ret [AddNull (str "payload")]
      else UB
  | other_encoding => Ret []
  end.

Definition webhook_msg_publish {property} (nng_timestamp : Z) (hook_conf : conf_web_hook)
    (pub_packet : pub_packet_struct property) (username client_id : option bytes)
    : exec hook_result :=
  let topic := ms_body (ph_topic_name (var_publish (pp_var_header pub_packet))) in
  if negb (wh_enable hook_conf) ||
     negb (event_filter_with_topic topic_filter hook_conf MESSAGE_PUBLISH topic)
  then Ret NotSent
  else
    let* payload := payload_member (wh_encode_payload hook_conf) (pp_payload pub_packet) in
    Ret (Sent (
      [AddNumber (str "ts") nng_timestamp;
       AddString (str "topic") topic;
       AddBool (str "retain") (negb (fh_retain (pp_fixed_header pub_packet) =? 0));
       AddNumber (str "qos") (fh_qos (pp_fixed_header pub_packet));
       AddString (str "action") (Some (str "message_publish"));
       AddString (str "from_username") (username_or username);
       match client_id with
       | Some c => AddString (str "from_client_id") (Some c)
       | None => AddNull (str "from_client_id")
       end] ++ payload)).

Definition webhook_client_connack (hook_conf : conf_web_hook) (proto_ver keepalive reason : Z)
    (username client_id : option bytes) : hook_result :=
  if negb (wh_enable hook_conf) || negb (event_filter hook_conf CLIENT_CONNACK) then NotSent
  else Sent
    [AddNumber (str "proto_ver") proto_ver;
     AddNumber (str "keepalive") keepalive;
     AddString (str "conn_ack") (Some (if reason =? SUCCESS then str "success" else str "fail"));
     AddString (str "username") (username_or username);
     AddString (str "clientid") client_id;
     AddString (str "action") (Some (str "client_connack"))].

Definition webhook_client_disconnect (hook_conf : conf_web_hook) (proto_ver keepalive reason : Z)
    (username client_id : option bytes) : hook_result :=
  if negb (wh_enable hook_conf) || negb (event_filter hook_conf CLIENT_DISCONNECTED) then NotSent
  else Sent
    [AddString (str "reason") (Some (if reason =? SUCCESS then str "normal" else str "abnormal"));
     AddString (str "username") (username_or username);
     AddString (str "clientid") client_id;
     AddString (str "action") (Some (str "client_disconnected"))].

(** The connection parameters the entry point reads. *)
Record hook_conn := HookConn {
  hc_protover : Z; hc_keepalive : Z; hc_username : option bytes; hc_clientid : option bytes
}.

(** [send] is the return code of [nng_send] for an object.  The result is the
    return code, the object sent and [work->flag] after ([CMD_UNKNOWN] for 0). *)
Definition webhook_entry {property} (send : list json_call -> Z) (nng_timestamp : Z)
    (hook_conf : conf_web_hook) (flag : cmd_type) (cparam : hook_conn)
    (pub_packet : pub_packet_struct property) (reason : Z)
    : exec (Z * option (list json_call) * cmd_type) :=
  if negb (wh_enable hook_conf) then Ret (0, None, flag)
  else
    let finish r := match r with
                    | NotSent => Ret (-1, None, CMD_UNKNOWN)
                    | Sent obj => Ret (send obj, Some obj, CMD_UNKNOWN)
                    end in
    match flag with
    | CMD_CONNACK =>
        finish (webhook_client_connack hook_conf (hc_protover cparam) (hc_keepalive cparam) reason
                  (hc_username cparam) (hc_clientid cparam))
    | CMD_PUBLISH =>
        let* r := webhook_msg_publish nng_timestamp hook_conf pub_packet
                    (hc_username cparam) (hc_clientid cparam) in
        finish r
    | CMD_DISCONNECT_EV =>
        finish (webhook_client_disconnect hook_conf (hc_protover cparam) (hc_keepalive cparam) reason
                  (hc_username cparam) (hc_clientid cparam))
    | _ => Ret (0, None, CMD_UNKNOWN)
    end.
End Events.

(** ** What base62 computes *)

(** The payload in groups of six bits, the last one filled up with zeros. *)
Fixpoint sextets (inp : bytes) : list Z :=
  match inp with
  | [] => []
  | [a] => [a / 4; (a mod 4) * 16]
  | [a; b] => [a / 4; (a mod 4) * 16 + b / 16; (b mod 16) * 4]
  | a :: b :: c :: inp' =>
      [a / 4; (a mod 4) * 16 + b / 16; (b mod 16) * 4 + c / 64; c mod 64] ++ sextets inp'
  end.

(** The character of a group. *)
Definition en (s : Z) : Z := default 0 (base62en !! Z.to_nat s).

(** Characters are escaped with 'i', the escape character itself included. *)
Definition esc (c : Z) : bytes :=
  if c =? 105 then [105; 97] else if c =? 43 then [105; 98]
  else if c =? 47 then [105; 99] else [c].

Definition base62_text (inp : bytes) : bytes := mjoin ((fun s => esc (en s)) <$> sextets inp).

Fixpoint emit (ss : list Z) (out : bytes) (j : Z) : exec (bytes * Z) :=
  match ss with
  | [] => Ret (out, j)
  | s :: ss' => let* r := set_char out j (en s) in emit ss' r.1 r.2
  end.

Lemma emit_app ss ss' out j :
  emit (ss ++ ss') out j = let* r := emit ss out j in emit ss' r.1 r.2.
Proof.
  revert out j. induction ss as [|s ss IH]; intros out j; [done|].
  cbn [app emit]. destruct (set_char out j (en s)) as [r| |]; cbn [ebind]; [apply IH|done..].
Qed.

Lemma rd_en s : 0 <= s < 64 -> rd base62en s = Ret (en s).
Proof.
  intros Hs. unfold rd, en. rewrite (proj2 (Z.leb_le _ _)) by lia.
  destruct (lookup_lt_is_Some_2 base62en (Z.to_nat s)) as [c Hc]; [|by rewrite Hc].
  assert (Hl : length base62en = 64%nat) by reflexivity. rewrite Hl. lia.
Qed.

Lemma inner_step fuel pos val out j :
  6 <= pos -> 0 <= val < 2 ^ pos ->
  base62_inner (S fuel) pos val out j =
  let* r := set_char out j (en (val / 2 ^ (pos - 6))) in
  base62_inner fuel (pos - 6) (val mod 2 ^ (pos - 6)) r.1 r.2.
Proof.
  intros Hp Hv. cbn [base62_inner]. rewrite (proj2 (Z.ltb_lt 5 pos)) by lia.
  rewrite Z.shiftr_div_pow2, Z.shiftl_1_l by lia.
  rewrite rd_en.
  - cbn [ebind]. replace (2 ^ (pos - 6) - 1) with (Z.ones (pos - 6)) by (rewrite Z.ones_equiv; lia).
    rewrite Z.land_ones by lia.
    destruct (set_char out j _) as [[o i]| |]; done.
  - assert (2 ^ pos = 64 * 2 ^ (pos - 6)) as H2.
    { replace pos with (6 + (pos - 6)) at 1 by lia. rewrite Z.pow_add_r by lia. lia. }
    assert (0 < 2 ^ (pos - 6)) by (apply Z.pow_pos_nonneg; lia).
    split; [apply Z.div_pos; lia|]. apply Z.div_lt_upper_bound; lia.
Qed.

Lemma inner_stop fuel pos val out j :
  pos <= 5 -> base62_inner (S fuel) pos val out j = Ret (pos, val, out, j).
Proof. intros Hp. cbn [base62_inner]. by rewrite (proj2 (Z.ltb_ge 5 pos)) by lia. Qed.

Lemma lor_byte v b : 0 <= v < 2 ^ 24 -> byte_ok b ->
  Z.lor (u32 (Z.shiftl v 8)) (Z.land b 255) = v * 256 + b.
Proof.
  intros Hv Hb. unfold byte_ok in Hb. rewrite Z.shiftl_mul_pow2 by lia.
  rewrite u32_small by lia. change 255 with (Z.ones 8). rewrite Z.land_ones, Z.mod_small by lia.
  rewrite <- Z.add_nocarry_lor; [lia|]. apply Z.bits_inj'. intros n Hn. rewrite Z.land_spec, Z.bits_0.
  destruct (decide (n < 8)).
  - by rewrite Z.mul_pow2_bits_low.
  - rewrite (Z.bits_above_log2 b n), andb_false_r; [done|lia|].
    destruct (decide (b = 0)) as [->|]; [cbn; lia|].
    apply Z.log2_lt_pow2; [lia|]. apply Z.lt_le_trans with (2 ^ 8); [lia|].
    apply Z.pow_le_mono_r; lia.
Qed.

Lemma shiftl_val v k : 0 <= k <= 6 -> 0 <= v < 64 -> u32 (Z.shiftl v k) = v * 2 ^ k.
Proof.
  intros Hk Hv. rewrite Z.shiftl_mul_pow2 by lia.
  assert (1 <= 2 ^ k <= 64) by (split; [apply (Z.pow_le_mono_r 2 0 k); lia | apply (Z.pow_le_mono_r 2 k 6); lia]).
  apply u32_small. nia.
Qed.

(** One byte, from each of the three positions the loop can be in. *)
Lemma outer_byte0 a inp out j : byte_ok a ->
  base62_outer (a :: inp) 0 0 out j =
  let* r := emit [a / 4] out j in base62_outer inp 2 (a mod 4) r.1 r.2.
Proof.
  intros Ha. cbn [base62_outer emit]. rewrite lor_byte by (done || lia).
  unfold byte_ok in Ha. rewrite inner_step by lia. cbn [Z.add Z.sub Z.opp Z.pos_sub Pos.pred_double].
  change (2 ^ (0 + 8 - 6)) with 4. rewrite Z.mul_0_l, Z.add_0_l.
  destruct (set_char out j _) as [[o i]| |]; [|done..]. cbn [ebind fst snd].
  rewrite inner_stop by lia. done.
Qed.

Lemma outer_byte2 v b inp out j : byte_ok b -> 0 <= v < 4 ->
  base62_outer (b :: inp) 2 v out j =
  let* r := emit [v * 16 + b / 16] out j in base62_outer inp 4 (b mod 16) r.1 r.2.
Proof.
  intros Hb Hv. cbn [base62_outer emit]. rewrite lor_byte by (done || lia).
  unfold byte_ok in Hb. rewrite inner_step by lia.
  change (2 ^ (2 + 8 - 6)) with 16.
  replace ((v * 256 + b) / 16) with (v * 16 + b / 16) by dm_lia.
  replace ((v * 256 + b) mod 16) with (b mod 16) by dm_lia.
  destruct (set_char out j _) as [[o i]| |]; [|done..]. cbn [ebind fst snd].
  rewrite inner_stop by lia. done.
Qed.

Lemma outer_byte4 v c inp out j : byte_ok c -> 0 <= v < 16 ->
  base62_outer (c :: inp) 4 v out j =
  let* r := emit [v * 4 + c / 64; c mod 64] out j in base62_outer inp 0 0 r.1 r.2.
Proof.
  intros Hc Hv. cbn [base62_outer emit]. rewrite lor_byte by (done || lia).
  unfold byte_ok in Hc. rewrite inner_step by lia.
  change (2 ^ (4 + 8 - 6)) with 64.
  replace ((v * 256 + c) / 64) with (v * 4 + c / 64) by dm_lia.
  replace ((v * 256 + c) mod 64) with (c mod 64) by dm_lia.
  destruct (set_char out j _) as [[o i]| |]; [|done..]. cbn [ebind fst snd].
  rewrite inner_step by dm_lia. change (2 ^ (4 + 8 - 6 - 6)) with 1.
  rewrite Z.div_1_r, Z.mod_1_r.
  destruct (set_char o i _) as [[o2 i2]| |]; [|done..]. cbn [ebind fst snd].
  rewrite inner_stop by lia. done.
Qed.

(** Induction by groups of three. *)
Lemma list_ind3 {A} (P : list A -> Prop) :
  P [] -> (forall a, P [a]) -> (forall a b, P [a; b]) ->
  (forall a b c l, P l -> P (a :: b :: c :: l)) -> forall l, P l.
Proof.
  intros H0 H1 H2 H3. fix IH 1. intros [|a [|b [|c l]]]; [apply H0|apply H1|apply H2|].
  apply H3, IH.
Qed.

Lemma base62_encode_emit inp out j :
  bytes_ok inp ->
  (let* r := base62_outer inp 0 0 out j in
   let '(pos, val, out, j) := r in
   if 0 <? pos then let* c := rd base62en (u32 (Z.shiftl val (6 - pos))) in set_char out j c
   else Ret (out, j)) = emit (sextets inp) out j.
Proof.
  unfold bytes_ok. revert out j.
  induction inp as [| a | a b | a b c inp IH] using list_ind3; intros out j Hok;
    rewrite ?Forall_cons in Hok; destruct_and? Hok.
  - done.
  - rewrite outer_byte0 by done. cbn [emit sextets].
    destruct (set_char out j _) as [[o i]| |]; [|done..]. cbn [ebind fst snd base62_outer Z.ltb Z.compare].
    rewrite shiftl_val, rd_en by dm_lia. cbn [ebind]. change (2 ^ (6 - 2)) with 16.
    by destruct (set_char o i _) as [[? ?]| |].
  - rewrite outer_byte0 by done. cbn [emit sextets].
    destruct (set_char out j _) as [[o i]| |]; [|done..]. cbn [ebind fst snd].
    rewrite outer_byte2 by (done || dm_lia). cbn [emit].
    destruct (set_char o i _) as [[o2 i2]| |]; [|done..]. cbn [ebind fst snd base62_outer Z.ltb Z.compare].
    rewrite shiftl_val, rd_en by dm_lia. cbn [ebind]. change (2 ^ (6 - 4)) with 4.
    by destruct (set_char o2 i2 _) as [[? ?]| |].
  - change (sextets (a :: b :: c :: inp)) with
      ([a / 4] ++ [(a mod 4) * 16 + b / 16] ++ [(b mod 16) * 4 + c / 64; c mod 64] ++ sextets inp).
    rewrite !emit_app, outer_byte0 by done.
    destruct (emit [a / 4] out j) as [[o i]| |]; [|done..]. cbn [ebind fst snd].
    rewrite outer_byte2 by (done || dm_lia). rewrite emit_app.
    destruct (emit [_] o i) as [[o2 i2]| |]; [|done..]. cbn [ebind fst snd].
    rewrite outer_byte4 by (done || dm_lia). rewrite emit_app.
    destruct (emit [_; _] o2 i2) as [[o3 i3]| |]; [|done..]. cbn [ebind fst snd].
    by apply IH.
Qed.

(** ** Writing the text *)

Lemma wr_app pre x b post : wr (pre ++ x :: post) (Zlen pre) b = Ret (pre ++ b :: post).
Proof.
  unfold wr. pose proof (Zlen_nonneg pre). pose proof (Zlen_nonneg post).
  rewrite (proj2 (Z.leb_le _ _)), (proj2 (Z.ltb_lt _ _)) by (zlen; lia). cbn [andb].
  unfold Zlen. rewrite Nat2Z.id, insert_app_r_alt, Nat.sub_diag by lia. done.
Qed.

Lemma wr_end pre b : wr pre (Zlen pre) b = UB.
Proof. unfold wr. by rewrite Z.ltb_irrefl, andb_false_r. Qed.

(** One character goes in front of what is left of the buffer, if it fits. *)
Lemma set_char_spec pre tail c :
  Zlen (pre ++ tail) < 2 ^ 32 ->
  set_char (pre ++ tail) (Zlen pre) c =
  if Zlen (esc c) <=? Zlen tail
  then Ret (pre ++ esc c ++ drop (length (esc c)) tail, Zlen (pre ++ esc c)) else UB.
Proof.
  intros Hsz. pose proof (Zlen_nonneg pre). rewrite Zlen_app in *.
  assert (H2 : forall a b, (let* out := wr (pre ++ tail) (Zlen pre) a in
      let* out := wr out (Zlen pre + 1) b in Ret (out, u32 (Zlen pre + 2))) =
      if Zlen [a; b] <=? Zlen tail then Ret (pre ++ [a; b] ++ drop 2 tail, Zlen pre + 2) else UB).
  { intros a b. destruct tail as [|x [|y tail]].
    - rewrite app_nil_r, wr_end. done.
    - rewrite wr_app. cbn [ebind]. replace (Zlen pre + 1) with (Zlen (pre ++ [a])) by (zlen; lia).
      rewrite wr_end. done.
    - rewrite wr_app. cbn [ebind]. replace (pre ++ a :: y :: tail) with ((pre ++ [a]) ++ y :: tail)
        by (by rewrite <- app_assoc).
      replace (Zlen pre + 1) with (Zlen (pre ++ [a])) by (zlen; lia).
      rewrite wr_app. cbn [ebind]. pose proof (Zlen_nonneg tail). zlen.
      rewrite (proj2 (Z.leb_le _ _)), u32_small by lia.
      by rewrite <- app_assoc. }
  unfold set_char, esc.
  destruct (c =? 105); [by rewrite H2|].
  destruct (c =? 43); [by rewrite H2|].
  destruct (c =? 47); [by rewrite H2|].
  destruct tail as [|x tail].
  - rewrite app_nil_r, wr_end. done.
  - rewrite wr_app. cbn [ebind]. pose proof (Zlen_nonneg tail). zlen.
    rewrite (proj2 (Z.leb_le _ _)), u32_small by lia. done.
Qed.

Lemma emit_spec ss pre tail :
  Zlen (pre ++ tail) < 2 ^ 32 ->
  let text := mjoin ((fun s => esc (en s)) <$> ss) in
  emit ss (pre ++ tail) (Zlen pre) =
  if Zlen text <=? Zlen tail
  then Ret (pre ++ text ++ drop (length text) tail, Zlen (pre ++ text)) else UB.
Proof.
  cbv zeta. revert pre tail. induction ss as [|s ss IH]; intros pre tail Hsz.
  - cbn. rewrite app_nil_r. pose proof (Zlen_nonneg tail).
    by rewrite (proj2 (Z.leb_le 0 _)) by lia.
  - cbn [emit fmap list_fmap mjoin list_join]. rewrite set_char_spec by done.
    set (e := esc (en s)). set (text := mjoin _) in *.
    pose proof (Zlen_nonneg text). rewrite (Zlen_app e text).
    destruct (Zlen e <=? Zlen tail) eqn:Ee; bool_hyps; cbn [ebind fst snd].
    + rewrite (app_assoc pre e), IH.
      * assert (Hd : Zlen (drop (length e) tail) = Zlen tail - Zlen e)
          by (unfold Zlen in *; rewrite length_drop; lia).
        rewrite Hd, length_app, drop_drop, <- !app_assoc.
        destruct (decide (Zlen e + Zlen text <= Zlen tail)).
        -- by rewrite !(proj2 (Z.leb_le _ _)) by lia.
        -- by rewrite !(proj2 (Z.leb_gt _ _)) by lia.
      * zlen. unfold Zlen in *. rewrite length_drop. lia.
    + by rewrite (proj2 (Z.leb_gt _ _)) by lia.
Qed.

(** ** The text determines the payload *)

Fixpoint unesc (t : bytes) : list Z :=
  match t with
  | [] => []
  | c :: t' =>
      if c =? 105 then
        match t' with
        | d :: t'' => (if d =? 97 then 105 else if d =? 98 then 43 else 47) :: unesc t''
        | [] => []
        end
      else c :: unesc t'
  end.

Lemma unesc_esc cs : unesc (mjoin (esc <$> cs)) = cs.
Proof.
  induction cs as [|c cs IH]; [done|].
  change (mjoin (esc <$> c :: cs)) with (esc c ++ mjoin (esc <$> cs)).
  revert IH. generalize (mjoin (esc <$> cs)). intros t IH.
  unfold esc. destruct (c =? 105) eqn:E1; bool_hyps; [subst c; cbn; by rewrite IH|].
  destruct (c =? 43) eqn:E2; bool_hyps; [subst c; cbn; by rewrite IH|].
  destruct (c =? 47) eqn:E3; bool_hyps; [subst c; cbn; by rewrite IH|].
  cbn. rewrite (proj2 (Z.eqb_neq c 105)) by done. by rewrite IH.
Qed.

Lemma base62en_NoDup : NoDup base62en.
Proof. apply (bool_decide_unpack _). vm_compute. exact I. Qed.

Lemma en_inj s s' : 0 <= s < 64 -> 0 <= s' < 64 -> en s = en s' -> s = s'.
Proof.
  assert (Hl : length base62en = 64%nat) by reflexivity. unfold en. intros Hs Hs' He.
  destruct (lookup_lt_is_Some_2 base62en (Z.to_nat s)) as [c Hc]; [lia|].
  destruct (lookup_lt_is_Some_2 base62en (Z.to_nat s')) as [c' Hc']; [lia|].
  rewrite Hc, Hc' in He. cbn in He. subst c'.
  pose proof (NoDup_lookup _ _ _ _ base62en_NoDup Hc Hc'). lia.
Qed.

Lemma sextets_range inp : bytes_ok inp -> Forall (fun s => 0 <= s < 64) (sextets inp).
Proof.
  unfold bytes_ok, byte_ok. induction inp as [| a | a b | a b c inp IH] using list_ind3; intros Hok;
    rewrite ?Forall_cons in Hok; destruct_and? Hok; cbn [sextets app];
    repeat (apply Forall_cons_2; [dm_lia|]); [apply Forall_nil_2..|by apply IH].
Qed.

Lemma sextets_inj l l' : bytes_ok l -> bytes_ok l' -> sextets l = sextets l' -> l = l'.
Proof.
  unfold bytes_ok, byte_ok. revert l'.
  induction l as [| a | a b | a b c l IH] using list_ind3; intros [|a' [|b' [|c' l']]] H H' He;
    rewrite ?Forall_cons in H, H'; destruct_and? H; destruct_and? H'; cbn [sextets app] in He;
    try discriminate He; try done.
  - injection He as ? ?. f_equal. dm_lia.
  - injection He as ? ? ?. assert (a = a') by dm_lia. subst a'. f_equal. f_equal. dm_lia.
  - injection He as ? ? ? ? He. assert (a = a') by dm_lia. subst a'.
    assert (b = b') by dm_lia. subst b'. assert (c = c') by dm_lia. subst c'.
    do 3 f_equal. by apply IH.
Qed.

Lemma fmap_en_inj ss ss' :
  Forall (fun s => 0 <= s < 64) ss -> Forall (fun s => 0 <= s < 64) ss' ->
  en <$> ss = en <$> ss' -> ss = ss'.
Proof.
  intros H. revert ss'. induction H as [|s ss Hs _ IH]; intros [|s' ss'] H' He; try done.
  inversion_clear H'. rewrite !fmap_cons in He. injection He as He1 He2.
  f_equal; [by apply en_inj|by apply IH].
Qed.

Lemma base62_text_chars inp : base62_text inp = mjoin (esc <$> (en <$> sextets inp)).
Proof. unfold base62_text. by rewrite <- list_fmap_compose. Qed.

(** ** Which events are sent *)

(** A rule that asks for the event a handled packet stands for. *)
Definition flag_event (flag : cmd_type) : option webhook_event :=
  match flag with
  | CMD_CONNACK => Some CLIENT_CONNACK
  | CMD_PUBLISH => Some MESSAGE_PUBLISH
  | CMD_DISCONNECT_EV => Some CLIENT_DISCONNECTED
  | _ => None
  end.

Section FilterProofs.
Variable topic_filter : bytes -> option bytes -> bool.

Definition rule_wants (flag : cmd_type) (topic : option bytes) (r : conf_web_hook_rule) : Prop :=
  flag_event flag = Some (hr_event r) /\
  (flag = CMD_PUBLISH -> forall f, hr_topic r = Some f -> topic_filter f topic = true).

Lemma event_filter_spec hc e :
  event_filter hc e = true <-> exists r, r ∈ wh_rules hc /\ hr_event r = e.
Proof.
  unfold event_filter. induction (wh_rules hc) as [|r rs IH]; cbn [event_filter_loop].
  - split; [done|]. by intros (r & ?%elem_of_nil & _).
  - case_decide as E.
    + split; [|done]. intros _. exists r. split; [by left|done].
    + rewrite IH. split; intros (r' & Hin & He).
      * exists r'. split; [by right|done].
      * apply elem_of_cons in Hin as [->|Hin]; [done|by exists r'].
Qed.

Lemma event_filter_with_topic_spec hc e topic :
  event_filter_with_topic topic_filter hc e topic = true <->
  exists r, r ∈ wh_rules hc /\ hr_event r = e /\
    forall f, hr_topic r = Some f -> topic_filter f topic = true.
Proof.
  unfold event_filter_with_topic. induction (wh_rules hc) as [|r rs IH]; cbn [event_filter_topic_loop].
  - split; [done|]. by intros (r & ?%elem_of_nil & _).
  - assert (Hskip : ~ (hr_event r = e /\ forall f, hr_topic r = Some f -> topic_filter f topic = true) ->
      event_filter_topic_loop topic_filter rs e topic = true <->
      exists r', r' ∈ r :: rs /\ hr_event r' = e /\
        forall f, hr_topic r' = Some f -> topic_filter f topic = true).
    { intros Hn. rewrite IH. split; intros (r' & Hin & He).
      - exists r'. split; [by right|done].
      - apply elem_of_cons in Hin as [->|Hin]; [done|by exists r']. }
    case_decide as E; [|apply Hskip; tauto].
    destruct (hr_topic r) as [f|] eqn:Ef.
    + destruct (topic_filter f topic) eqn:Et; cbn [negb].
      * split; [|done]. intros _. exists r. split; [by left|]. split; [done|]. intros f'. congruence.
      * apply Hskip. intros [_ Hf]. specialize (Hf f eq_refl). congruence.
    + split; [|done]. intros _. exists r. split; [by left|]. split; [done|]. intros f'. congruence.
Qed.

Lemma event_filter_wants hc e f topic :
  f <> CMD_PUBLISH -> flag_event f = Some e ->
  event_filter hc e = true <-> exists r, r ∈ wh_rules hc /\ rule_wants f topic r.
Proof.
  intros Hp Hf. rewrite event_filter_spec. unfold rule_wants. rewrite Hf.
  split; intros (r & Hin & Hr); exists r; (split; [done|]).
  - split; [congruence|done].
  - destruct Hr as [Hr _]. congruence.
Qed.

Lemma publish_filter_wants hc topic :
  event_filter_with_topic topic_filter hc MESSAGE_PUBLISH topic = true <->
  exists r, r ∈ wh_rules hc /\ rule_wants CMD_PUBLISH topic r.
Proof.
  rewrite event_filter_with_topic_spec. unfold rule_wants. cbn [flag_event].
  split; intros (r & Hin & Hr & Hf); exists r; (split; [done|]); (split; [congruence|auto]).
Qed.

Lemma no_event_wants hc f topic :
  flag_event f = None -> ~ exists r, r ∈ wh_rules hc /\ rule_wants f topic r.
Proof. intros Hf (r & _ & Hr & _). congruence. Qed.
End FilterProofs.

(** ** Properties *)

Lemma base62_encode_run inp out :
  bytes_ok inp -> Zlen out < 2 ^ 32 ->
  base62_encode inp out =
  if Zlen (base62_text inp) <=? Zlen out
  then Ret (base62_text inp ++ drop (length (base62_text inp)) out, Zlen (base62_text inp))
  else UB.
Proof.
  intros Hok Hsz. unfold base62_encode. rewrite base62_encode_emit by done.
  apply (emit_spec (sextets inp) [] out). done.
Qed.

(** C28: base62_encode writes the escaped text of the payload's six-bit groups
    to the front of the buffer and returns its length, when it fits; when it
    does not fit, it writes behind the buffer. *)
Theorem base62_encode_correct inp out :
  bytes_ok inp -> Zlen out < 2 ^ 32 ->
  base62_encode inp out =
  if Zlen (base62_text inp) <=? Zlen out
  then Ret (base62_text inp ++ drop (length (base62_text inp)) out, Zlen (base62_text inp))
  else UB.
Proof. apply base62_encode_run. Qed.

(** The base62 text determines the payload: different payloads have
    different texts. *)
Theorem base62_text_injective inp inp' :
  bytes_ok inp -> bytes_ok inp' -> base62_text inp = base62_text inp' -> inp = inp'.
Proof.
  intros H H' He. apply sextets_inj; [done..|].
  apply fmap_en_inj; [by apply sextets_range..|].
  rewrite <- (unesc_esc (en <$> sextets inp)), <- (unesc_esc (en <$> sextets inp')).
  by rewrite <- !base62_text_chars, He.
Qed.

(** Publishing the three bytes FF FF FF with base62 hooks on overruns the
    buffer: BASE62_ENCODE_OUT_SIZE does not count the escapes (8 characters in
    6 bytes). *)
Theorem base62_buffer_overflow topic_filter base64_encode ts username client_id :
  BASE62_ENCODE_OUT_SIZE 3 = 6 /\ base62_text [255; 255; 255] = str "icicicic" /\
  webhook_msg_publish topic_filter base64_encode true ts
    (ConfWebHook true [HookRule MESSAGE_PUBLISH None] base62)
    (publish_packet (property := unit) (FixedHeader 0 0 0 PUBLISH 6) (str "a") 0 None 0 [255; 255; 255])
    username client_id = UB.
Proof. repeat split. Qed.

(** Payloads whose text can be written: base64 needs memory; base62 also a
    buffer that takes the escaped text and a terminator. *)
Definition payload_encodable (za : bool) (enc : hook_payload_type) (p : mqtt_payload) : Prop :=
  match enc with
  | plain | other_encoding => True
  | base64 => za = true
  | base62 => za = true /\ exists data, p = payload_of data /\ bytes_ok data /\
      Zlen (base62_text data) < BASE62_ENCODE_OUT_SIZE (Zlen data)
  end.

Lemma payload_member_returns base64_encode za enc p :
  payload_encodable za enc p -> exists l, payload_member base64_encode za enc p = Ret l.
Proof.
  unfold payload_member. destruct enc; cbn [payload_encodable]; [by eexists|by intros ->; eexists| |by eexists].
  intros (-> & data & -> & Hok & Hfit). cbv zeta. cbn [payload_of pl_len pl_data].
  set (n := BASE62_ENCODE_OUT_SIZE (Zlen data)) in *.
  assert (Hn : 0 <= n < 2 ^ 32) by apply u32_range.
  assert (Hin : (if Zlen data =? 0 then Ret [] else read_buf (if bool_decide (data = []) then None else Some data) (Zlen data)) = Ret data).
  { destruct data as [|b data]; [done|]. rewrite (proj2 (Z.eqb_neq _ _)) by (rewrite Zlen_cons; pose proof (Zlen_nonneg data); lia).
    rewrite bool_decide_eq_false_2 by done. apply read_buf_exact. }
  rewrite Hin. cbn [ebind].
  assert (Hz : Zlen (replicate (Z.to_nat n) 0) = n) by (unfold Zlen; rewrite length_replicate; lia).
  rewrite base62_encode_run, Hz, (proj2 (Z.leb_le _ _)) by (done || rewrite ?Hz; lia). cbn [ebind].
  destruct (0 <? _); [|by eexists]. rewrite bool_decide_eq_true_2; [by eexists|].
  apply elem_of_app. right. rewrite drop_replicate.
  destruct (Z.to_nat n - length (base62_text data))%nat eqn:E; [unfold Zlen in *; lia|by left].
Qed.


(** ** Witnesses *)

Lemma base62_encode_correct_witness :
  base62_encode (str "hi!") (replicate 6 0) = Ret (str "aGkh" ++ [0; 0], 4).
Proof.
  refine (base62_encode_correct (str "hi!") (replicate 6 0) _ _).
  - repeat (apply Forall_cons_2; [split; vm_compute; congruence|]). apply Forall_nil_2.
  - reflexivity.
Defined.

Lemma base62_text_injective_witness : str "hi!" = str "hi!".
Proof.
  apply base62_text_injective;
    [repeat (apply Forall_cons_2; [split; vm_compute; congruence|]); apply Forall_nil_2..|].
  vm_compute. reflexivity.
Defined.

(** A rule for PUBLISH under "a" only. *)
Definition demo_hook : conf_web_hook := ConfWebHook true [HookRule MESSAGE_PUBLISH (Some (str "a"))] plain.
Definition same_topic (f : bytes) (t : option bytes) : bool := bool_decide (Some f = t).

(** The same with base62. *)
Definition demo_hook62 : conf_web_hook := ConfWebHook true (wh_rules demo_hook) base62.

