(* ===== verification/WebhookInproc.v ===== *)
(** * webhook_inproc.c: the queue between the broker and the HTTP endpoint

    Each work item receives events on a socket ([webhook_cb]), queues them,
    and a thread of its own posts them ([thread_cb], [send_msg]).  A step of the
    model is one callback or one turn of the thread's loop; the queue is taken
    under the item's mutex in both.  [fatal] of this file only prints. *)

From Stdlib Require Import ZArith Lia.
From stdpp Require Import base numbers list gmap option strings.
From S2P Require Import Prelude SubHandler.

Local Open Scope Z_scope.
Local Open Scope nano_scope.

(** ** nng's message queue *)

(** Return codes as in nng: 0 is success. *)
Class NngLmq (lmq M : Type) := {
  nng_lmq_empty : lmq -> bool;
  nng_lmq_full : lmq -> bool;
  nng_lmq_len : lmq -> Z;
  nng_lmq_cap : lmq -> Z;
  nng_lmq_get : lmq -> Z * option M * lmq;
  nng_lmq_put : lmq -> M -> Z * lmq;
  nng_lmq_resize : lmq -> Z -> Z * lmq;
  nng_lmq_alloc : Z -> lmq
}.

(** The queue holds up to its capacity, in order. *)
Class NngLmqLaws (lmq M : Type) `{NngLmq lmq M} := {
  items : lmq -> list M;
  lmq_len_spec : forall q, nng_lmq_len q = Zlen (items q);
  lmq_cap_pos : forall q, 1 < nng_lmq_cap q;
  lmq_empty_spec : forall q, nng_lmq_empty q = bool_decide (items q = []);
  lmq_full_spec : forall q, nng_lmq_full q = (nng_lmq_cap q <=? Zlen (items q));
  lmq_get_spec : forall q m ms, items q = m :: ms ->
    exists q', nng_lmq_get q = (0, Some m, q') /\ items q' = ms;
  lmq_put_spec : forall q m, Zlen (items q) < nng_lmq_cap q ->
    exists q', nng_lmq_put q m = (0, q') /\ items q' = items q ++ [m];
  lmq_put_full : forall q m, nng_lmq_cap q <= Zlen (items q) ->
    exists rv, nng_lmq_put q m = (rv, q) /\ rv <> 0;
  lmq_resize_ok : forall q n q', Zlen (items q) <= n -> nng_lmq_resize q n = (0, q') ->
    items q' = items q /\ n <= nng_lmq_cap q';
  lmq_resize_fail : forall q n rv q', nng_lmq_resize q n = (rv, q') -> rv <> 0 -> q' = q;
  lmq_len_cap : forall q, Zlen (items q) <= nng_lmq_cap q;
  lmq_alloc_spec : forall n, items (nng_lmq_alloc n) = []
}.

Definition NANO_LMQ_INIT_CAP : Z := 16.

(** ** Posting one event *)

Inductive http_res := RUrl | RClient | RReq | RRes | RAio | RConn.

#[export] Instance http_res_eq_dec : EqDecision http_res.
Proof. solve_decision. Defined.

Inductive http_ev :=
| HAlloc (r : http_res)
| HFree (r : http_res)
| HFinish (rv : Z)
| HHeader (key value : bytes)
| HPost (body : bytes).

(** Return codes of the calls [send_msg] makes. *)
Record http_codes := HttpCodes {
  rc_url : Z; rc_client : Z; rc_req : Z; rc_res : Z; rc_aio : Z;
  rc_connect : Z; rc_write : Z
}.

(** The label [out:]: release what is not NULL. *)
Definition send_out (have : list http_res) : list http_ev :=
  HFree <$> filter (fun r => r ∈ have) [RUrl; RConn; RClient; RReq; RRes; RAio].

Definition send_msg (c : http_codes) (headers : list (bytes * bytes)) (body : bytes) : list http_ev :=
  if negb (rc_url c =? 0) then send_out []
  else [HAlloc RUrl] ++
  if negb (rc_client c =? 0) then send_out [RUrl]
  else [HAlloc RClient] ++
  if negb (rc_req c =? 0) then send_out [RUrl; RClient]
  else [HAlloc RReq] ++
  if negb (rc_res c =? 0) then send_out [RUrl; RClient; RReq]
  else [HAlloc RRes] ++
  if negb (rc_aio c =? 0) then send_out [RUrl; RClient; RReq; RRes]
  else [HAlloc RAio] ++
  if negb (rc_connect c =? 0) then HFinish (rc_connect c) :: send_out [RUrl; RClient; RReq; RRes; RAio]
  else [HAlloc RConn] ++ ((fun h => HHeader h.1 h.2) <$> headers) ++ [HPost body] ++
  (if negb (rc_write c =? 0) then [HFinish (rc_write c)] else []) ++
  send_out [RUrl; RClient; RReq; RRes; RAio; RConn].

(** ** Work items *)

Inductive hook_state := HOOK_INIT | HOOK_RECV | HOOK_WAIT | HOOK_SEND.

Section Work.
Context {lmq M : Type} `{Hq : NngLmq lmq (option M)}.

Record hook_work := HookWork {
  hw_state : hook_state;
  hw_lmq : lmq;
  hw_id : Z;
  hw_busy : bool
}.

Inductive hook_ev := EvRecv | EvFatal (rv : Z) | EvPutFailed.

(** One completion of the receive; [rv] and [m] are the aio's result and
    message.  [fatal] only prints; the result of the put is not looked at. *)
Definition webhook_cb (rv : Z) (m : option M) (w : hook_work) : hook_work * list hook_ev :=
  match hw_state w with
  | HOOK_INIT => (HookWork HOOK_RECV (hw_lmq w) (hw_id w) (hw_busy w), [EvRecv])
  | HOOK_RECV =>
      let ev1 := if negb (rv =? 0) then [EvFatal rv] else [] in
      let '(q, ev2) :=
        if nng_lmq_full (hw_lmq w) then
          let lmq_cap := nng_lmq_cap (hw_lmq w) in
          let '(rv, q) := nng_lmq_resize (hw_lmq w) (lmq_cap + lmq_cap / 2) in
          (q, if negb (rv =? 0) then [EvFatal rv] else [])
        else (hw_lmq w, []) in
      let '(rv, q) := nng_lmq_put q m in
      (HookWork HOOK_RECV q (hw_id w) (hw_busy w),
       ev1 ++ ev2 ++ (if rv =? 0 then [] else [EvPutFailed]) ++ [EvRecv])
  | _ => (w, [EvFatal 11])
  end.

Variable msg_body : M -> bytes.
Variable headers : list (bytes * bytes).

(** One turn of the thread: the event taken, if any, with what [send_msg] does
    with it; [c] are the return codes of its calls.  The event is released
    whatever they are. *)
Definition thread_cb (c : http_codes) (w : hook_work) : exec (hook_work * option (M * list http_ev)) :=
  let lmq := hw_lmq w in
  if negb (nng_lmq_empty lmq) then
    let '(rv, msg, q) := nng_lmq_get lmq in
    let w := HookWork (hw_state w) q (hw_id w) (hw_busy w) in
    if 0 =? rv then
      (* send_msg and nng_msg_free follow the pointer *)
      match msg with
      | Some (Some m) => Ret (w, Some (m, send_msg c headers (msg_body m)))
      | _ => UB
      end
    else Ret (w, None)
  else
    let lmq_len := nng_lmq_len lmq in
    if NANO_LMQ_INIT_CAP * 2 <? lmq_len then
      let lmq_cap := nng_lmq_cap lmq in
      if lmq_len * 2 <? lmq_cap then
        let '(_, q) := nng_lmq_resize lmq (lmq_cap / 2) in
        Ret (HookWork (hw_state w) q (hw_id w) (hw_busy w), None)
      else Ret (w, None)
    else Ret (w, None).

(** [fatal(w->id, ...)] after a failed [nng_alloc] follows NULL. *)
Definition alloc_work (alloc_ok : bool) (id : Z) : exec hook_work :=
  if alloc_ok then Ret (HookWork HOOK_INIT (nng_lmq_alloc NANO_LMQ_INIT_CAP) id false) else UB.

(** [webhook_thr]: allocate the pool and start every item. *)
Fixpoint webhook_pool (alloc_ok : Z -> bool) (n : nat) (i : Z) : exec (list hook_work) :=
  match n with
  | O => Ret []
  | S n' =>
      let* w := alloc_work (alloc_ok i) i in
      let* ws := webhook_pool alloc_ok n' (i + 1) in
      Ret (w :: ws)
  end.

Definition webhook_thr (alloc_ok : Z -> bool) (pool_size : nat) : exec (list hook_work) :=
  let* works := webhook_pool alloc_ok pool_size 0 in
  Ret ((fun w => (webhook_cb 0 None w).1) <$> works).

(** The calls of [start_webhook_service] and of the thread it makes. *)
Inductive hook_start :=
| HService | HPull | HWork (id : Z) | HAio (id : Z) | HMtx (id : Z) | HLmq (id : Z) | HThread (id : Z)
| HListen | HRecv (id : Z).

Definition hook_alloc_calls (id : Z) : list hook_start := [HWork id; HAio id; HMtx id; HLmq id; HThread id].

(** A failed call is printed and the next one is made.  Only where the service
    has no thread nothing else happens; and what was not made is used all the
    same: the identifier of an item that is NULL is printed, its aio is received
    on, and its thread reads its queue. *)
Definition start_webhook_service (rv : Z) (fails : hook_start -> bool) (pool_size : nat) : exec (Z * list hook_start) :=
  if negb (rv =? 0) then Ret (rv, [HService])
  else
    let ids := Z.of_nat <$> seq 0 pool_size in
    if existsb (fun i => fails (HWork i) || fails (HAio i) || (fails (HLmq i) && negb (fails (HThread i)))) ids then UB
    else Ret (rv, [HService; HPull] ++ mjoin (hook_alloc_calls <$> ids) ++ [HListen] ++ (HRecv <$> ids)).

(** ** Runs *)

(** What happens at the pool: an event arrives at item [i], or its thread takes
    a turn. *)
Inductive hook_step := Arrive (i : nat) (m : M) | Turn (i : nat) (c : http_codes).

(** The events the threads took, each with its item and what was done. *)
Fixpoint pool_run (ws : list hook_work) (steps : list hook_step)
    : exec (list hook_work * list (nat * (M * list http_ev))) :=
  match steps with
  | [] => Ret (ws, [])
  | Arrive i m :: steps' => pool_run (base.alter (fun w => (webhook_cb 0 (Some m) w).1) i ws) steps'
  | Turn i c :: steps' =>
      match ws !! i with
      | None => pool_run ws steps'
      | Some w =>
          let* r := thread_cb c w in
          let* r' := pool_run (<[i := r.1]> ws) steps' in
          Ret (r'.1, option_list (pair i <$> r.2) ++ r'.2)
      end
  end.

(** What arrived at item [i], and what its thread took. *)
Definition arrived (i : nat) (steps : list hook_step) : list M :=
  omap (fun s => match s with Arrive j m => if decide (j = i) then Some m else None | Turn _ _ => None end) steps.
Definition taken (i : nat) (out : list (nat * (M * list http_ev))) : list M :=
  omap (fun x => if decide (x.1 = i) then Some x.2.1 else None) out.
End Work.

Arguments hook_work : clear implicits.
Arguments hook_step : clear implicits.
Arguments Turn {M}.
Arguments arrived {M}.
Arguments taken {M}.

(** ** Releasing what a post acquired *)

Definition touches (r : http_res) (e : http_ev) : bool :=
  match e with
  | HAlloc r' | HFree r' => bool_decide (r = r')
  | _ => false
  end.

(** A step failed: every resource is balanced, nothing was posted. *)
Local Ltac early Hno :=
  cbn [negb];
  split; [intros []; vm_compute; first [by left | right; by left]
         | split; [by intros ?%Hno | intros ?; exfalso; tauto]].

(** Whichever step of posting an event fails, every object that was
    created is released exactly once, after it was created, and nothing else
    is released; the body is posted exactly when everything up to the
    connection succeeded. *)
Theorem send_msg_releases_everything c headers body :
  (forall r, filter (fun e => touches r e = true) (send_msg c headers body) ∈
     [[]; [HAlloc r; HFree r]]) /\
  (HPost body ∈ send_msg c headers body <->
   rc_url c = 0 /\ rc_client c = 0 /\ rc_req c = 0 /\ rc_res c = 0 /\ rc_aio c = 0 /\
   rc_connect c = 0).
Proof.
  assert (Hh : forall r l, filter (fun e => touches r e = true)
      (((fun h => HHeader h.1 h.2) <$> headers) ++ l) = filter (fun e => touches r e = true) l).
  { intros r l. by induction headers. }
  assert (Hno : forall l, forallb (fun e => match e with HPost _ => false | _ => true end) l = true ->
    HPost body ∈ l -> False).
  { intros l Hl Hin%list_elem_of_In. rewrite forallb_forall in Hl. by specialize (Hl _ Hin). }
  unfold send_msg.
  destruct (rc_url c =? 0) eqn:E1; bool_hyps; [|early Hno].
  destruct (rc_client c =? 0) eqn:E2; bool_hyps; [|early Hno].
  destruct (rc_req c =? 0) eqn:E3; bool_hyps; [|early Hno].
  destruct (rc_res c =? 0) eqn:E4; bool_hyps; [|early Hno].
  destruct (rc_aio c =? 0) eqn:E5; bool_hyps; [|early Hno].
  destruct (rc_connect c =? 0) eqn:E6; bool_hyps; [|early Hno].
  cbn [negb]. split.
  - intros r. rewrite !(filter_app (fun e => touches r e = true) [_]).
    rewrite Hh. destruct (rc_write c =? 0), r; vm_compute; right; by left.
  - split; [done|]. intros _. do 6 (apply elem_of_app; right). apply elem_of_app; right.
    apply elem_of_app; left. by left.
Qed.

Section Proofs.
Context {lmq M : Type} `{Hq : NngLmq lmq (option M)} {Hl : NngLmqLaws lmq (option M)}.

(** The queue holds the events [l], none of them NULL. *)
Definition queued (w : hook_work lmq) (l : list M) : Prop :=
  hw_state w = HOOK_RECV /\ items (hw_lmq w) = Some <$> l.

Lemma webhook_cb_queues (w : hook_work lmq) (l : list M) m :
  (forall (q : lmq) n, (nng_lmq_resize q n).1 = 0) -> queued w l ->
  queued (webhook_cb 0 (Some m) w).1 (l ++ [m]).
Proof using Hl.
  intros Hres [Hst Hit]. unfold webhook_cb. rewrite Hst, lmq_full_spec.
  assert (Hput : forall q, items q = Some <$> l -> Zlen (items q) < nng_lmq_cap q ->
    exists q', nng_lmq_put q (Some m) = (0, q') /\ items q' = Some <$> (l ++ [m])).
  { intros q Hi Hlt. destruct (lmq_put_spec q (Some m) Hlt) as (q' & Hp & Hi').
    exists q'. split; [done|]. by rewrite Hi', Hi, fmap_app. }
  destruct (nng_lmq_cap (hw_lmq w) <=? Zlen (items (hw_lmq w))) eqn:Ef; bool_hyps.
  - set (n := nng_lmq_cap (hw_lmq w) + nng_lmq_cap (hw_lmq w) / 2).
    destruct (nng_lmq_resize (hw_lmq w) n) as [rv q] eqn:Er.
    pose proof (Hres (hw_lmq w) n) as Hz. rewrite Er in Hz. cbn in Hz. subst rv.
    pose proof (lmq_cap_pos (hw_lmq w)). pose proof (lmq_len_cap (hw_lmq w)).
    assert (Zlen (items (hw_lmq w)) < n) by (unfold n; dm_lia).
    apply lmq_resize_ok in Er as [Hi Hc]; [|lia].
    destruct (Hput q) as (q' & -> & Hi'); [congruence|rewrite Hi; lia|]. done.
  - destruct (Hput (hw_lmq w)) as (q' & -> & Hi'); [done|done|]. done.
Qed.

Variable msg_body : M -> bytes.
Variable headers : list (bytes * bytes).

Local Notation thread_cb := (thread_cb msg_body headers).
Local Notation pool_run := (pool_run msg_body headers).

Lemma thread_cb_takes c (w : hook_work lmq) (l : list M) :
  queued w l ->
  match l with
  | [] => thread_cb c w = Ret (w, None)
  | m :: l' => exists w', thread_cb c w = Ret (w', Some (m, send_msg c headers (msg_body m))) /\ queued w' l'
  end.
Proof using Hl msg_body headers.
  intros [Hst Hit]. unfold WebhookInproc.thread_cb. rewrite lmq_empty_spec, Hit.
  destruct l as [|m l]; cbn [fmap list_fmap].
  - rewrite bool_decide_eq_true_2 by done. cbn [negb]. by rewrite lmq_len_spec, Hit.
  - rewrite bool_decide_eq_false_2 by done. cbn [negb].
    destruct (lmq_get_spec (hw_lmq w) (Some m) (fmap (M:=list) Some l) Hit) as (q' & -> & Hi').
    cbn [Z.eqb]. eexists. split; [reflexivity|]. done.
Qed.

(** All calls of [send_msg] up to the connection succeeded: the event is written. *)
Definition connected (c : http_codes) : Prop :=
  rc_url c = 0 /\ rc_client c = 0 /\ rc_req c = 0 /\ rc_res c = 0 /\ rc_aio c = 0 /\ rc_connect c = 0.

(** The queues of the pool. *)
Definition pool_queued (ws : list (hook_work lmq)) (ls : list (list M)) : Prop := Forall2 queued ws ls.

Lemma pool_arrive ws ls i m :
  (forall (q : lmq) n, (nng_lmq_resize q n).1 = 0) -> pool_queued ws ls ->
  pool_queued (base.alter (fun w => (webhook_cb 0 (Some m) w).1) i ws) (base.alter (fun l => l ++ [m]) i ls).
Proof using Hl.
  intros Hres Hws. apply Forall2_alter; [done|]. intros w l _ _ Hw. by apply webhook_cb_queues.
Qed.

(** C30: As long as receives succeed and the queues can grow, every item of the
    pool hands the events it receives to [send_msg] in the order they arrived,
    none skipped or handed over twice, however the receivers and the threads
    take turns: what its thread took and what is still queued is what was queued
    and what arrived.  What became of an event is what [send_msg] does with the
    return codes of that turn: it is posted when the connection is made, and is
    gone otherwise. *)
Theorem webhook_queue_fifo ws ls steps :
  (forall (q : lmq) n, (nng_lmq_resize q n).1 = 0) -> pool_queued ws ls ->
  exists ws' out ls', pool_run ws steps = Ret (ws', out) /\ pool_queued ws' ls' /\
    (forall i l, ls !! i = Some l -> exists l', ls' !! i = Some l' /\ taken i out ++ l' = l ++ arrived i steps) /\
    forall i m evs, (i, (m, evs)) ∈ out ->
      exists c, Turn i c ∈ steps /\ evs = send_msg c headers (msg_body m) /\
        (HPost (msg_body m) ∈ evs <-> connected c).
Proof using Hl msg_body headers.
  intros Hres. revert ws ls. induction steps as [|[i m|i c] steps IH]; intros ws ls Hws; cbn [WebhookInproc.pool_run].
  - exists ws, [], ls. split; [done|]. split; [done|]. split; [|by intros ??? ?%elem_of_nil].
    intros i l Hi. exists l. split; [done|]. cbn. by rewrite app_nil_r.
  - destruct (IH _ _ (pool_arrive ws ls i m Hres Hws)) as (ws' & out & ls' & Hr & Hws' & Hord & Hev).
    exists ws', out, ls'. split; [done|]. split; [done|]. split.
    + intros j l Hj. cbn. destruct (decide (i = j)) as [->|Hne].
      * destruct (Hord j (l ++ [m])) as (l' & Hl' & He); [by rewrite list_lookup_alter_eq, Hj|].
        exists l'. split; [done|]. by rewrite He, <- app_assoc.
      * apply Hord. by rewrite list_lookup_alter_ne.
    + intros j m' evs Hin. destruct (Hev j m' evs Hin) as (c & Hc & He). exists c. split; [by right|done].
  - destruct (ws !! i) as [w|] eqn:Hi.
    2: { destruct (IH _ _ Hws) as (ws' & out & ls' & Hr & Hws' & Hord & Hev).
         exists ws', out, ls'. split_and!; [done..|]. intros j m' evs Hin.
         destruct (Hev j m' evs Hin) as (c' & Hc & He). exists c'. split; [by right|done]. }
    destruct (Forall2_lookup_l _ _ _ _ _ Hws Hi) as (l & Hli & Hwl). pose proof (thread_cb_takes c w l Hwl) as Ht.
    assert (Hstep : exists w1 o l1, thread_cb c w = Ret (w1, o) /\ queued w1 l1 /\
      l = option_list (fst <$> o) ++ l1 /\ (forall x, o = Some x -> x.2 = send_msg c headers (msg_body x.1))).
    { destruct l as [|m l1]; [by exists w, None, []|]. destruct Ht as (w1 & Ht & Hq1).
      exists w1, (Some (m, send_msg c headers (msg_body m))), l1. split_and!; [done..|]. by intros x [= <-]. }
    destruct Hstep as (w1 & o & l1 & -> & Hq1 & -> & Ho). cbn [ebind fst snd].
    destruct (IH (<[i := w1]> ws) (<[i := l1]> ls)) as (ws' & out & ls' & -> & Hws' & Hord & Hev);
      [by apply Forall2_insert|].
    exists ws', (option_list (pair i <$> o) ++ out), ls'. split; [done|]. split; [done|]. split.
    + intros j l Hj. unfold taken. rewrite omap_app. fold (taken j out).
      change (arrived j (Turn i c :: steps)) with (arrived j steps). destruct (decide (i = j)) as [->|Hne].
      * rewrite Hli in Hj. injection Hj as <-. destruct (Hord j l1) as (l' & Hl' & He).
        { apply list_lookup_insert_eq. by eapply lookup_lt_Some. }
        exists l'. split; [done|]. rewrite <- !app_assoc, He.
        destruct o as [[x e]|]; cbn; [by rewrite decide_True|done].
      * destruct (Hord j l) as (l' & Hl' & He); [by rewrite list_lookup_insert_ne|].
        exists l'. split; [done|]. rewrite <- He. destruct o as [[x e]|]; cbn; [by rewrite decide_False|done].
    + intros j m' evs [Hin|Hin]%elem_of_app.
      * destruct o as [[x e]|]; [|by apply elem_of_nil in Hin]. cbn in Hin. apply list_elem_of_singleton in Hin as [= -> -> ->].
        exists c. split; [by left|]. pose proof (Ho _ eq_refl) as He. cbn in He. subst e. split; [done|].
        apply send_msg_releases_everything.
      * destruct (Hev j m' evs Hin) as (c' & Hc & He). exists c'. split; [by right|done].
Qed.

(** A receive that fails queues the NULL message all the same (fatal only
    prints), and the posting thread then follows it. *)
Theorem webhook_failed_receive_is_followed (w : hook_work lmq) rv :
  queued w [] -> rv <> 0 ->
  forall c, thread_cb c (webhook_cb rv None w).1 = UB.
Proof using Hl msg_body headers.
  intros [Hst Hit] Hrv c. unfold webhook_cb. rewrite Hst, lmq_full_spec, Hit.
  pose proof (lmq_cap_pos (hw_lmq w)). change (Zlen (fmap (M:=list) (@Some M) [])) with 0.
  rewrite (proj2 (Z.leb_gt _ _)) by lia.
  destruct (lmq_put_spec (hw_lmq w) None) as (q' & -> & Hi').
  { rewrite Hit. change (Zlen (fmap (M:=list) (@Some M) [])) with 0. lia. }
  unfold WebhookInproc.thread_cb. cbn [fst hw_lmq]. rewrite lmq_empty_spec, Hi', Hit. cbn [fmap list_fmap app].
  rewrite bool_decide_eq_false_2 by done. cbn [negb].
  destruct (lmq_get_spec q' None []) as (q2 & -> & _); [by rewrite Hi', Hit|]. done.
Qed.

(** The branch that shrinks the queue is only entered when it is empty. *)
Lemma thread_cb_never_shrinks c (w : hook_work lmq) :
  nng_lmq_empty (hw_lmq w) = true -> thread_cb c w = Ret (w, None).
Proof using Hl msg_body headers.
  intros He. unfold WebhookInproc.thread_cb. rewrite He. cbn [negb].
  rewrite lmq_empty_spec in He. bool_hyps. by rewrite lmq_len_spec, He.
Qed.

Lemma webhook_pool_ok (n : nat) i :
  exists ws, webhook_pool (lmq := lmq) (fun _ => true) n i = Ret ws /\ length ws = n /\
    Forall (fun w => hw_state w = HOOK_INIT /\ items (hw_lmq w) = []) ws.
Proof using Hl.
  revert i. induction n as [|n IH]; intros i; cbn [webhook_pool].
  - exists []. done.
  - cbn [alloc_work ebind]. destruct (IH (i + 1)) as (ws & -> & Hlen & HF). cbn [ebind].
    eexists. split; [reflexivity|]. split; [cbn; by rewrite Hlen|].
    constructor; [|done]. split; [done|]. apply lmq_alloc_spec.
Qed.

(** Nothing stops the start of the service: the socket listens and the items
    receive even when the socket, a mutex or a thread could not be made. *)
Lemma start_webhook_service_goes_on rv fails n rv' t :
  start_webhook_service rv fails n = Ret (rv', t) ->
  rv' = rv /\ (rv = 0 -> HListen ∈ t /\ forall i, (i < n)%nat -> HRecv (Z.of_nat i) ∈ t /\ fails (HAio (Z.of_nat i)) = false).
Proof.
  unfold start_webhook_service. destruct (rv =? 0) eqn:E; bool_hyps; cbn [negb]; [|intros [= <- <-]; done].
  case_match eqn:Ex; [done|]. intros [= <- <-]. split; [done|]. intros _.
  split; [rewrite !elem_of_cons, elem_of_app, elem_of_cons; tauto|]. intros i Hi.
  assert (Hin : Z.of_nat i ∈ Z.of_nat <$> seq 0 n).
  { apply list_elem_of_fmap. exists i. split; [done|]. apply list_elem_of_In, in_seq. lia. }
  split.
  - rewrite !elem_of_cons, elem_of_app, elem_of_cons. do 4 right. by apply list_elem_of_fmap_2.
  - destruct (fails (HAio (Z.of_nat i))) eqn:Ef; [|done]. exfalso. apply not_true_iff_false in Ex. apply Ex.
    apply existsb_exists. exists (Z.of_nat i). split; [by apply list_elem_of_In|]. rewrite Ef. by rewrite orb_true_r.
Qed.

(** After start-up every item of the pool waits for events with an empty queue. *)
Lemma webhook_thr_ready n :
  exists ws, webhook_thr (lmq := lmq) (fun _ => true) n = Ret ws /\ length ws = n /\
    Forall (fun w => queued w []) ws.
Proof using Hl.
  unfold webhook_thr. destruct (webhook_pool_ok n 0) as (ws & -> & Hlen & HF). cbn [ebind].
  eexists. split; [reflexivity|]. rewrite length_fmap. split; [done|].
  apply Forall_fmap. eapply Forall_impl; [exact HF|]. intros w [Hst Hit]. cbn.
  unfold webhook_cb. rewrite Hst. done.
Qed.
End Proofs.

(** ** A concrete queue, and witnesses *)

(** Capacity (at least 2) and elements; elements beyond it are not stored. *)
Record rlmq (M : Type) := RLmq { rl_cap : Z; rl_items : list M; rl_ok : 1 < rl_cap /\ Zlen rl_items <= rl_cap }.
Arguments RLmq {M}.
Arguments rl_cap {M}.
Arguments rl_items {M}.
Arguments rl_ok {M}.

Lemma rl_tail {M} (q : rlmq M) m ms : rl_items q = m :: ms -> 1 < rl_cap q /\ Zlen ms <= rl_cap q.
Proof. intros E. destruct (rl_ok q) as [? Hl]. rewrite E, Zlen_cons in Hl. lia. Qed.

Lemma rl_snoc {M} (q : rlmq M) m : Zlen (rl_items q) < rl_cap q ->
  1 < rl_cap q /\ Zlen (rl_items q ++ [m]) <= rl_cap q.
Proof. intros Hlt. destruct (rl_ok q). zlen. change (Zlen [m]) with 1. lia. Qed.

Lemma rl_grow {M} (q : rlmq M) n : 1 < Z.max 2 (Z.max n (Zlen (rl_items q))) /\
  Zlen (rl_items q) <= Z.max 2 (Z.max n (Zlen (rl_items q))).
Proof. lia. Qed.

Definition rl_get {M} (q : rlmq M) : Z * option M * rlmq M :=
  match rl_items q as l return rl_items q = l -> _ with
  | [] => fun _ => (8, None, q)
  | m :: ms => fun E => (0, Some m, RLmq (rl_cap q) ms (rl_tail q m ms E))
  end eq_refl.

Definition rl_put {M} (q : rlmq M) (m : M) : Z * rlmq M :=
  match Z_lt_dec (Zlen (rl_items q)) (rl_cap q) with
  | left Hlt => (0, RLmq (rl_cap q) (rl_items q ++ [m]) (rl_snoc q m Hlt))
  | right _ => (8, q)
  end.

#[export] Instance r_lmq {M} : NngLmq (rlmq M) M := {
  nng_lmq_empty q := bool_decide (rl_items q = []);
  nng_lmq_full q := rl_cap q <=? Zlen (rl_items q);
  nng_lmq_len q := Zlen (rl_items q);
  nng_lmq_cap := rl_cap;
  nng_lmq_get := rl_get;
  nng_lmq_put := rl_put;
  nng_lmq_resize q n := (0, RLmq (Z.max 2 (Z.max n (Zlen (rl_items q)))) (rl_items q) (rl_grow q n));
  nng_lmq_alloc n := RLmq (Z.max 2 (Z.max n 0)) [] ltac:(unfold Zlen; simpl; lia)
}.

#[export] Instance r_lmq_laws {M} : NngLmqLaws (rlmq M) M.
Proof.
  refine {| items (q : rlmq M) := rl_items q |}; cbn; try done.
  - intros q. apply (rl_ok q).
  - intros [cap its ok] m ms E. cbn in E. subst its. unfold rl_get. cbn. eexists. split; reflexivity.
  - intros q m Hlt. unfold rl_put. destruct (Z_lt_dec _ _); [|lia]. eexists. split; reflexivity.
  - intros q m Hge. unfold rl_put. destruct (Z_lt_dec _ _); [lia|]. exists 8. done.
  - intros q n q' Hn [= <-]. cbn. split; [done|lia].
  - intros q n rv q' [= <- <-]. done.
  - intros q. apply (rl_ok q).
Defined.

Definition demo_hook_work : hook_work (rlmq (option Z)) := HookWork HOOK_RECV (nng_lmq_alloc 16) 0 false.

Lemma demo_hook_queued : queued demo_hook_work [].
Proof. split; reflexivity. Qed.

(** Two items; the second post of the first item finds no connection. *)
Definition codes_ok (connect : Z) : http_codes := HttpCodes 0 0 0 0 0 connect 0.
Definition demo_body (m : Z) : bytes := [m].
Definition demo_steps : list (hook_step Z) :=
  [Arrive 0 1; Arrive 1 7; Arrive 0 2; Turn 0 (codes_ok 0); Turn 0 (codes_ok 6); Arrive 0 3].

Lemma webhook_queue_fifo_witness :
  exists ws' out (ls' : list (list Z)), pool_run demo_body [] [demo_hook_work; demo_hook_work] demo_steps = Ret (ws', out) /\
    taken 0 out = [1; 2] /\ (exists l', ls' !! 0%nat = Some l' /\ [1; 2] ++ l' = [1; 2; 3]) /\
    (HPost [2] ∈ (send_msg (codes_ok 6) [] [2]) -> False).
Proof.
  destruct (webhook_queue_fifo demo_body [] [demo_hook_work; demo_hook_work] [[]; []] demo_steps)
    as (ws' & out & ls' & Hr & _ & Hord & Hev).
  - reflexivity.
  - repeat constructor.
  - assert (Ht : (fun r => taken 0 r.2) <$> (match pool_run demo_body [] [demo_hook_work; demo_hook_work] demo_steps with
        Ret r => Some r | _ => None end) = Some [1; 2]) by (vm_compute; reflexivity).
    rewrite Hr in Ht. injection Ht as Ht.
    destruct (Hord 0%nat []) as (l' & Hl' & He); [reflexivity|]. rewrite Ht in He.
    exists ws', out, ls'. split; [exact Hr|]. split; [exact Ht|]. split; [by exists l'|].
    intros Hin. assert (Ho : exists rest, out = (0%nat, (1, send_msg (codes_ok 0) [] [1])) :: (0%nat, (2, send_msg (codes_ok 6) [] [2])) :: rest).
    { assert (Hc : (match pool_run demo_body [] [demo_hook_work; demo_hook_work] demo_steps with Ret r => r.2 | _ => [] end) = out)
        by (rewrite Hr; reflexivity). rewrite <- Hc. eexists. vm_compute. reflexivity. }
    destruct Ho as [rest ->]. destruct (Hev 0%nat 2 (send_msg (codes_ok 6) [] [2])) as (c & Hc & Hs & Hpost).
    { right. by left. }
    apply Hpost in Hin. destruct Hin as (_ & _ & _ & _ & _ & Hc0).
    unfold demo_steps in Hc. rewrite !elem_of_cons, elem_of_nil in Hc. destruct Hc as [?|[?|[?|[Hc|[Hc|[?|[]]]]]]]; try discriminate;
      injection Hc as ->; vm_compute in Hs; discriminate.
Defined.

Lemma webhook_failed_receive_is_followed_witness :
  thread_cb demo_body [] (codes_ok 0) (webhook_cb 7 None demo_hook_work).1 = UB.
Proof. apply webhook_failed_receive_is_followed; [exact demo_hook_queued | discriminate]. Defined.
