(* ===== verification/MqttApi.v ===== *)
(** * mqtt_api.c: messages between the broker's sockets, listeners and logs

    MQTT messages cross an inproc socket as header, body, client id and
    protocol version, each string with a 32-bit length in front. *)

From Stdlib Require Import ZArith Lia.
From stdpp Require Import base numbers list gmap option strings.
From S2P Require Import Prelude Mqtt Nng NngModel SubHandler PubHandler.

Local Open Scope Z_scope.
Local Open Scope nano_scope.

(** ** Listeners *)

Inductive listener_ev := LCreate (addr : bytes) | LSetConf | LStart | LClose.

(** The return code, the calls, and the id stored through [lp]. *)
Definition nano_listen (start_rv listener_id : Z) (addr : bytes) (lp_given : bool)
    : Z * list listener_ev * option Z :=
  let ev := [LCreate addr; LSetConf; LStart] in
  if negb (start_rv =? 0) then (start_rv, ev ++ [LClose], None)
  else (start_rv, ev, if lp_given then Some listener_id else None).

(** ** TLS *)

Inductive tls_auth_mode := AUTH_NONE | AUTH_OPTIONAL | AUTH_REQUIRED.

Record conf_tls := ConfTls {
  tls_verify_peer : bool;
  tls_set_fail : bool;
  tls_cert : option bytes;
  tls_key : option bytes;
  tls_key_password : option bytes;
  tls_ca : option bytes
}.

Inductive tls_ev :=
| TlsAuthMode (m : tls_auth_mode)
| TlsOwnCert (cert key : bytes) (pass : option bytes)
| TlsCaChain (ca : bytes)
| TlsSetOption
| TlsFree.

(** Return codes of the nng calls. *)
Record tls_codes := TlsCodes {
  tc_alloc : Z; tc_auth : Z; tc_cert : Z; tc_ca : Z; tc_set : Z
}.

Definition tls_mode (tls : conf_tls) : tls_auth_mode :=
  if tls_verify_peer tls then if tls_set_fail tls then AUTH_REQUIRED else AUTH_OPTIONAL
  else AUTH_NONE.

Definition init_listener_tls (c : tls_codes) (tls : conf_tls) : Z * list tls_ev :=
  if negb (tc_alloc c =? 0) then (tc_alloc c, [])
  else
    let rv := tc_auth c in
    let ev := [TlsAuthMode (tls_mode tls)] in
    let '(rv, ev, out) :=
      match tls_cert tls with
      | Some cert =>
          if rv =? 0 then
            (tc_cert c, ev ++ [TlsOwnCert cert (default cert (tls_key tls)) (tls_key_password tls)],
             negb (tc_cert c =? 0))
          else (rv, ev, false)
      | None => (rv, ev, false)
      end in
    if out then (rv, ev ++ [TlsFree])
    else
      let '(rv, ev, out) :=
        match tls_ca tls with
        | Some ca =>
            if rv =? 0 then (tc_ca c, ev ++ [TlsCaChain ca], negb (tc_ca c =? 0)) else (rv, ev, false)
        | None => (rv, ev, false)
        end in
      if out then (rv, ev ++ [TlsFree])
      else (* the code of the calls above is overwritten *)
        (tc_set c, ev ++ [TlsSetOption; TlsFree]).

(** ** Messages over inproc *)

(** The connection parameters a message carries: [create_cparam]. *)
Record conn_param := ConnParam { cp_clientid : bytes; cp_proto_ver : Z }.

Definition create_cparam (clientid : bytes) (proto_ver : Z) : conn_param :=
  ConnParam (cstr clientid) proto_ver.

Section Common.
Context {msg : Type} `{Hmsg : NngMsg msg}.
(** the MQTT codec of nng, in place *)
Variables mqtt_encode mqttv5_encode mqtt_decode mqttv5_decode : msg -> msg.
(** return code of the allocation and the empty message *)
Variable msg_alloc : Z * msg.

Definition encode_common_mqtt_msg (src : msg) (clientid : bytes) (proto_ver : Z) : Z * option msg :=
  let src := if proto_ver =? MQTT_PROTOCOL_VERSION_v5 then mqttv5_encode src else mqtt_encode src in
  let clientid := cstr clientid in
  let clientid_sz := Zlen clientid in
  let '(rv, m) := msg_alloc in
  if negb (rv =? 0) then (rv, None)
  else
    let m := app_ m (NNI_PUT32 (Zlen (nng_msg_header src))) in
    let m := app_ m (nng_msg_header src) in
    let m := app_ m (NNI_PUT32 (nng_msg_len src)) in
    let m := app_ m (nng_msg_body src) in
    let m := app_ m (NNI_PUT32 clientid_sz) in
    let m := app_ m clientid in
    let m := app_ m [u8 proto_ver] in
    (0, Some m).

(** Lengths are taken from the message and not checked. *)
Definition decode_common_mqtt_msg (src : msg) : exec (Z * option (msg * conn_param)) :=
  let '(rv, m) := msg_alloc in
  if negb (rv =? 0) then Ret (rv, None)
  else
    let body := nng_msg_body src in
    let ptr := 0 in
    let* header_len := NNI_GET32 body ptr in
    let ptr := ptr + 4 in
    let* hdr := slice body ptr header_len in
    let m := happ_ m hdr in
    let ptr := ptr + header_len in
    let* body_len := NNI_GET32 body ptr in
    let ptr := ptr + 4 in
    let* bdy := slice body ptr body_len in
    let m := app_ m bdy in
    let ptr := ptr + body_len in
    let* clientid_sz := NNI_GET32 body ptr in
    let ptr := ptr + 4 in
    let* clientid := slice body ptr clientid_sz in
    let ptr := ptr + clientid_sz in
    let* proto_ver := rd body ptr in
    let cparam := create_cparam clientid proto_ver in
    let m := if proto_ver =? MQTT_PROTOCOL_VERSION_v5 then mqttv5_decode m else mqtt_decode m in
    Ret (0, Some (m, cparam)).
End Common.

(** ** Logs *)

Record conf_log := ConfLog {
  log_level : Z;
  log_to_console : bool;
  log_to_file : bool;
  log_dir : option bytes;
  log_file : option bytes;
  log_fp : option Z;
  log_abs_path : option bytes
}.

Inductive log_ev := SetLevel (l : Z) | AllocMtx (file : bool) | AddConsole (l : Z) | AddFp (fp l : Z)
| FreeMtx (file : bool).

Section Log.
Variable is_dir : bytes -> bool.
Variable concat_path : bytes -> bytes -> bytes.
(** [fopen(path, "a")] *)
Variable fopen : bytes -> option Z.
Variable NNG_EINVAL : Z.

Definition log_file_init (log : conf_log) : Z * conf_log :=
  let bad := match log_dir log with Some d => negb (is_dir d) | None => false end in
  if bad then (NNG_EINVAL, log)
  else
    let dir := default (str "./") (log_dir log) in
    let file := default (str "nanomq.log") (log_file log) in
    let path := concat_path dir file in
    let log' fp abs := ConfLog (log_level log) (log_to_console log) (log_to_file log)
                         (Some dir) (Some file) fp abs in
    match fopen path with
    | None => (NNG_EINVAL, log' None (log_abs_path log))
    | Some fp => (0, log' (Some fp) (Some path))
    end.

(** [mtx_rv]: return code of a mutex allocation. *)
Definition log_init (mtx_stdout mtx_file : Z) (log : conf_log) : Z * conf_log * list log_ev :=
  let ev := [SetLevel (log_level log)] in
  let file_part (ev : list log_ev) :=
    if log_to_file log then
      let '(rv, log) := log_file_init log in
      if negb (rv =? 0) then (rv, log, ev)
      else if negb (mtx_file =? 0) then (mtx_file, log, ev)
      else (0, log, ev ++ [AllocMtx true; AddFp (default 0 (log_fp log)) (log_level log)])
    else (0, log, ev) in
  if log_to_console log then
    if negb (mtx_stdout =? 0) then (mtx_stdout, log, ev)
    else file_part (ev ++ [AllocMtx false; AddConsole (log_level log)])
  else file_part ev.

Definition log_fini (log : conf_log) : Z * list log_ev :=
  (0, (if log_to_file log then [FreeMtx true] else []) ++
      (if log_to_console log then [FreeMtx false] else [])).
End Log.

(** ** Lemmas *)

Lemma Zlen_PUT32 v : Zlen (NNI_PUT32 v) = 4.
Proof. reflexivity. Qed.

(** Reading a length and the string behind it. *)
Lemma read_sized {A} buf pre s post off (k : Z -> bytes -> exec A) :
  buf = pre ++ NNI_PUT32 (Zlen s) ++ s ++ post -> off = Zlen pre -> Zlen s < 2 ^ 32 ->
  (let* n := NNI_GET32 buf off in let* x := slice buf (off + 4) n in k n x) = k (Zlen s) s.
Proof.
  intros -> -> Hs. pose proof (Zlen_nonneg s). rewrite NNI_GET32_PUT32 by lia. cbn [ebind].
  replace (Zlen pre + 4) with (Zlen (pre ++ NNI_PUT32 (Zlen s))) by (rewrite Zlen_app; done).
  rewrite (app_assoc pre). by rewrite slice_app.
Qed.

Section CommonProofs.
Context {msg : Type} `{Hmsg : NngMsg msg} {Hml : NngMsgLaws msg} {Hnf : NngMsgNoFail msg}.
Variables mqtt_encode mqttv5_encode mqtt_decode mqttv5_decode : msg -> msg.

(** The bytes on the inproc socket. *)
Definition common_wire (hdr body clientid : bytes) (proto_ver : Z) : bytes :=
  NNI_PUT32 (Zlen hdr) ++ hdr ++ NNI_PUT32 (Zlen body) ++ body ++
  NNI_PUT32 (Zlen clientid) ++ clientid ++ [proto_ver].

Lemma decode_common_wire m0 (src : msg) hdr body clientid proto_ver :
  nng_msg_body m0 = [] -> nng_msg_header m0 = [] ->
  nng_msg_body src = common_wire hdr body clientid proto_ver ->
  Zlen hdr < 2 ^ 32 -> Zlen body < 2 ^ 32 -> Zlen clientid < 2 ^ 32 ->
  exists m, nng_msg_header m = hdr /\ nng_msg_body m = body /\
    decode_common_mqtt_msg mqtt_decode mqttv5_decode (0, m0) src =
    Ret (0, Some ((if proto_ver =? MQTT_PROTOCOL_VERSION_v5 then mqttv5_decode m else mqtt_decode m),
                  create_cparam clientid proto_ver)).
Proof using Hml Hnf.
  intros Hb0 Hh0 Hsrc Hh Hb Hc. exists (app_ (happ_ m0 hdr) body).
  split; [by rewrite app_header, happ_header, Hh0|].
  split; [by rewrite app_body, happ_body, Hb0|].
  unfold decode_common_mqtt_msg. cbn [Z.eqb negb].
  set (buf := nng_msg_body src) in *.
  assert (Hs2 : buf = (NNI_PUT32 (Zlen hdr) ++ hdr) ++ NNI_PUT32 (Zlen body) ++ body ++
    NNI_PUT32 (Zlen clientid) ++ clientid ++ [proto_ver])
    by (rewrite Hsrc; unfold common_wire; by rewrite <- !app_assoc).
  assert (Hs3 : buf = ((NNI_PUT32 (Zlen hdr) ++ hdr) ++ NNI_PUT32 (Zlen body) ++ body) ++
    NNI_PUT32 (Zlen clientid) ++ clientid ++ [proto_ver])
    by (rewrite Hs2; by rewrite <- !app_assoc).
  assert (Hs4 : buf = (((NNI_PUT32 (Zlen hdr) ++ hdr) ++ NNI_PUT32 (Zlen body) ++ body) ++
    NNI_PUT32 (Zlen clientid) ++ clientid) ++ proto_ver :: [])
    by (rewrite Hs3; by rewrite <- !app_assoc).
  rewrite (read_sized buf [] hdr _ 0 _ Hsrc) by (done || lia).
  rewrite (read_sized buf _ body _ _ _ Hs2) by (rewrite ?Zlen_app, ?Zlen_PUT32; lia).
  rewrite (read_sized buf _ clientid _ _ _ Hs3) by (rewrite ?Zlen_app, ?Zlen_PUT32; lia).
  rewrite Hs4 at 1. match goal with |- context [rd (?pre ++ proto_ver :: []) ?off] =>
    replace off with (Zlen pre) by (rewrite ?Zlen_app, ?Zlen_PUT32; lia) end.
  by rewrite rd_app_l.
Qed.

(** Encoding and decoding, for any codec of MQTT. *)
Lemma common_roundtrip m0 m1 (src : msg) clientid proto_ver :
  nng_msg_body m0 = [] -> nng_msg_body m1 = [] -> nng_msg_header m1 = [] ->
  Forall (fun b => b <> 0) clientid -> 0 <= proto_ver < 256 ->
  let enc := if proto_ver =? MQTT_PROTOCOL_VERSION_v5 then mqttv5_encode src else mqtt_encode src in
  Zlen (nng_msg_header enc) < 2 ^ 32 -> Zlen (nng_msg_body enc) < 2 ^ 32 -> Zlen clientid < 2 ^ 32 ->
  exists packed m,
    encode_common_mqtt_msg mqtt_encode mqttv5_encode (0, m0) src clientid proto_ver = (0, Some packed) /\
    nng_msg_header m = nng_msg_header enc /\ nng_msg_body m = nng_msg_body enc /\
    decode_common_mqtt_msg mqtt_decode mqttv5_decode (0, m1) packed =
    Ret (0, Some ((if proto_ver =? MQTT_PROTOCOL_VERSION_v5 then mqttv5_decode m else mqtt_decode m),
                  ConnParam clientid proto_ver)).
Proof using Hml Hnf.
  intros Hm0 Hm1 Hh1 Hc Hp enc Hlh Hlb Hlc. unfold encode_common_mqtt_msg. fold enc.
  cbn [Z.eqb negb]. rewrite (cstr_id clientid) by done. unfold nng_msg_len.
  set (packed := app_ _ [u8 proto_ver]).
  assert (Hbody : nng_msg_body packed =
    common_wire (nng_msg_header enc) (nng_msg_body enc) clientid proto_ver).
  { unfold packed, common_wire. rewrite !app_body, Hm0, (u8_small proto_ver) by done.
    by rewrite <- !app_assoc. }
  destruct (decode_common_wire m1 packed _ _ _ _ Hm1 Hh1 Hbody Hlh Hlb Hlc) as (m & Hmh & Hmb & Hd).
  exists packed, m. split; [done|]. split; [done|]. split; [done|].
  rewrite Hd. unfold create_cparam. by rewrite cstr_id.
Qed.

(** C31: a message sent over the inproc socket arrives with the header and body
    its MQTT encoding produced, the client id and the protocol version. *)
Theorem common_mqtt_msg_roundtrip m0 m1 (src : msg) clientid proto_ver :
  nng_msg_body m0 = [] -> nng_msg_body m1 = [] -> nng_msg_header m1 = [] ->
  Forall (fun b => b <> 0) clientid -> 0 <= proto_ver < 256 ->
  let enc := if proto_ver =? MQTT_PROTOCOL_VERSION_v5 then mqttv5_encode src else mqtt_encode src in
  Zlen (nng_msg_header enc) < 2 ^ 32 -> Zlen (nng_msg_body enc) < 2 ^ 32 -> Zlen clientid < 2 ^ 32 ->
  exists packed m,
    encode_common_mqtt_msg mqtt_encode mqttv5_encode (0, m0) src clientid proto_ver = (0, Some packed) /\
    nng_msg_header m = nng_msg_header enc /\ nng_msg_body m = nng_msg_body enc /\
    decode_common_mqtt_msg mqtt_decode mqttv5_decode (0, m1) packed =
    Ret (0, Some ((if proto_ver =? MQTT_PROTOCOL_VERSION_v5 then mqttv5_decode m else mqtt_decode m),
                  ConnParam clientid proto_ver)).
Proof using Hml Hnf. apply common_roundtrip. Qed.
End CommonProofs.

(** The TLS configuration of a listener is released exactly once whenever
    it was allocated, and a certificate or CA that cannot be loaded makes the
    call fail; but a failure to set the authentication mode is overwritten by
    the last call, so the listener can be set up, and 0 returned, without the
    peer verification the configuration asks for. *)
Theorem init_listener_tls_result c tls :
  let '(rv, ev) := init_listener_tls c tls in
  (tc_alloc c <> 0 -> rv = tc_alloc c /\ ev = []) /\
  (tc_alloc c = 0 ->
   (exists pre, ev = pre ++ [TlsFree] /\ TlsFree ∉ pre) /\
   head ev = Some (TlsAuthMode (tls_mode tls)) /\
   (tc_auth c = 0 -> rv = 0 ->
      (tls_cert tls <> None -> tc_cert c = 0) /\ (tls_ca tls <> None -> tc_ca c = 0) /\ tc_set c = 0) /\
   (tc_auth c <> 0 -> rv = tc_set c /\ ev = [TlsAuthMode (tls_mode tls); TlsSetOption; TlsFree])).
Proof.
  unfold init_listener_tls.
  assert (Hnot : forall l, forallb (fun e => match e with TlsFree => false | _ => true end) l = true ->
    TlsFree ∉ l).
  { intros l Hl Hin%list_elem_of_In. rewrite forallb_forall in Hl. by specialize (Hl _ Hin). }
  assert (Hpre : forall l, forallb (fun e => match e with TlsFree => false | _ => true end) l = true ->
    exists pre, l ++ [TlsFree] = pre ++ [TlsFree] /\ TlsFree ∉ pre) by (intros l Hl; exists l; auto).
  destruct (tc_alloc c =? 0) eqn:Ea; bool_hyps; cbn [negb]; [|by split].
  destruct (tls_cert tls) as [cert|], (tls_ca tls) as [ca|], (tc_auth c =? 0) eqn:E1,
    (tc_cert c =? 0) eqn:E2, (tc_ca c =? 0) eqn:E3; bool_hyps; cbn [negb];
    rewrite ?E1, ?E2, ?E3; cbn [negb Z.eqb];
    repeat (rewrite (proj2 (Z.eqb_neq _ 0)) by done); cbn [negb];
    (split; [intros; done|]; intros _; split; [|split; [done|split; [intros; split_and!; intros; (done || congruence)|intros; (done || congruence)]]]);
    first [ by apply (Hpre [_]) | by apply (Hpre [_; _]) | by apply (Hpre [_; _; _]) | by apply (Hpre [_; _; _; _]) ].
Qed.

(** ** Witnesses *)

Definition empty_msg : rmsg := RMsg [] [] 0 0 CMD_UNKNOWN 0.

Lemma common_mqtt_msg_roundtrip_witness :
  exists packed m,
    encode_common_mqtt_msg id id (0, empty_msg) demo_pub (str "c1") 4 = (0, Some packed) /\
    nng_msg_body m = nng_msg_body demo_pub /\
    decode_common_mqtt_msg id id (0, empty_msg) packed = Ret (0, Some (m, ConnParam (str "c1") 4)).
Proof.
  destruct (common_mqtt_msg_roundtrip id id id id empty_msg empty_msg demo_pub (str "c1") 4)
    as (packed & m & H1 & H2 & H3 & H4).
  - reflexivity.
  - reflexivity.
  - reflexivity.
  - vm_compute. repeat (apply Forall_cons_2; [discriminate|]). apply Forall_nil_2.
  - lia.
  - reflexivity.
  - reflexivity.
  - reflexivity.
  - exists packed, m. split; [exact H1|]. split; [exact H3|]. exact H4.
Defined.
