(* ===== verification/Bridge.v ===== *)
(** * bridge.c: forwarding to and subscribing at other brokers *)

From Stdlib Require Import ZArith Lia.
From stdpp Require Import base numbers list gmap option strings.
From S2P Require Import Prelude Mqtt.

Local Open Scope Z_scope.
Local Open Scope nano_scope.

(** [conf_bridge_node] of nanolib's conf.h, as far as the broker reads it. *)
Record conf_bridge_node := BridgeNode {
  bn_enable : bool;
  bn_address : bytes;
  bn_proto_ver : Z;
  bn_keepalive : Z;
  bn_clean_start : bool;
  bn_clientid : option bytes;
  bn_username : option bytes;
  bn_password : option bytes;
  bn_forwards : list bytes;
  bn_sub_list : list (bytes * Z);
  bn_parallel : Z
}.

(** ** Messages for the bridge *)

(** What the setters of nng's MQTT messages are given. *)
Record bridge_publish := BridgePublish {
  bp_dup : bool; bp_qos : Z; bp_retain : bool;
  bp_payload : bytes; bp_topic : option bytes
}.

(** The properties are set only when there are any.  The payload is read for
    [len] bytes; NULL is fine when there are none. *)
Definition bridge_publish_msg {property} (topic : option bytes) (payload : option bytes) (len : Z)
    (dup : bool) (qos : Z) (retain : bool) (props : option property)
    : exec (bridge_publish * option property) :=
  let* data := match payload with
               | Some b => slice b 0 len
               | None => if len =? 0 then Ret [] else UB
               end in
  Ret (BridgePublish dup (u8 qos) retain data topic, props).

(** ** Connecting *)

Definition apply_sqlite_config (node : conf_bridge_node) (db_name : bytes) : Z := 0.

Inductive bridge_call :=
| BClientOpen (v5 : bool)
| BDialerCreate (address : bytes)
| BConnect (keepalive proto_ver : Z) (clean : bool) (clientid username password : option bytes)
| BSetCallbacks
| BDialerStart
| BSubscribe (topics : list (bytes * Z))
| BUnsupported.

(** [open_rv], [dialer_rv]: the return codes of the two calls that are checked. *)
Definition bridge_tcp_client (open_rv dialer_rv : Z) (node : conf_bridge_node) : Z * list bridge_call :=
  let ev := [BClientOpen (bn_proto_ver node =? MQTT_PROTOCOL_VERSION_v5)] in
  if negb (open_rv =? 0) then (open_rv, ev)
  else
    let ev := ev ++ [BDialerCreate (bn_address node)] in
    if negb (dialer_rv =? 0) then (dialer_rv, ev)
    else
      (0, ev ++ [BConnect (bn_keepalive node) (bn_proto_ver node) (bn_clean_start node)
                   (bn_clientid node) (bn_username node) (bn_password node);
                 BSetCallbacks; BDialerStart]).

Definition tcp_scheme : bytes := str "mqtt-tcp".

(** Returns 0 whatever happened. *)
Definition bridge_client (open_rv dialer_rv : Z) (node : conf_bridge_node) : Z * list bridge_call :=
  if strprefix tcp_scheme (bn_address node)
  then (0, snd (bridge_tcp_client open_rv dialer_rv node))
  else (0, [BUnsupported]).

(** ** The connect callback *)

(** [session_is_kept_tcp]: one flag for all bridges of the process. *)
Definition session_is_kept_tcp : bool := false.

Definition bridge_connect_cb (kept : bool) (reason : Z) (node : conf_bridge_node)
    : bool * list bridge_call :=
  if kept then (kept, [])
  else
    let ev := if (reason =? 0) && negb (bool_decide (bn_sub_list node = []))
              then [BSubscribe (bn_sub_list node)] else [] in
    (if bn_clean_start node then kept else true, ev).

(** The callbacks of a run: which bridge, with which reason code. *)
Fixpoint connect_run (kept : bool) (evs : list (Z * conf_bridge_node)) : bool * list (list bridge_call) :=
  match evs with
  | [] => (kept, [])
  | (reason, node) :: evs' =>
      let '(kept, c) := bridge_connect_cb kept reason node in
      let '(kept, cs) := connect_run kept evs' in (kept, c :: cs)
  end.

(** ** The send callback *)

Inductive send_cb_action := SCNothing | SCFreeSuback | SCConnectSent.

Definition send_callback (type : option cmd_type) : send_cb_action :=
  match type with
  | None => SCNothing
  | Some CMD_SUBACK => SCFreeSuback
  | Some CMD_CONNECT => SCConnectSent
  | Some _ => SCNothing
  end.

(** ** Properties *)

Lemma connect_run_kept evs : connect_run true evs = (true, (fun _ => []) <$> evs).
Proof. induction evs as [|[r n] evs IH]; [done|]. cbn. by rewrite IH. Qed.

Lemma connect_run_app kept evs evs' :
  connect_run kept (evs ++ evs') =
  let '(k1, c1) := connect_run kept evs in
  let '(k2, c2) := connect_run k1 evs' in (k2, c1 ++ c2).
Proof.
  revert kept. induction evs as [|[r n] evs IH]; intros kept; cbn [app connect_run].
  - by destruct (connect_run kept evs').
  - destruct (bridge_connect_cb kept r n) as [k c]. rewrite IH.
    destruct (connect_run k evs) as [k1 c1]. by destruct (connect_run k1 evs').
Qed.

Lemma connect_run_clean evs :
  Forall (fun e => bn_clean_start e.2 = true) evs ->
  connect_run false evs =
  (false, (fun e => if (e.1 =? 0) && negb (bool_decide (bn_sub_list e.2 = []))
                    then [BSubscribe (bn_sub_list e.2)] else []) <$> evs).
Proof.
  induction 1 as [|[r n] evs Hc _ IH]; [done|]. cbn in Hc. cbn. by rewrite Hc, IH.
Qed.

(** C36: bridges that start clean subscribe at every successful connection.
    But once any bridge that keeps its session was called back, even with a
    refused connection, no bridge subscribes any more: the flag is one for all
    of them and set whatever the reason code. *)
Theorem bridge_subscriptions evs r node evs' :
  Forall (fun e => bn_clean_start e.2 = true) evs -> bn_clean_start node = false ->
  snd (connect_run session_is_kept_tcp (evs ++ (r, node) :: evs')) =
  ((fun e => if (e.1 =? 0) && negb (bool_decide (bn_sub_list e.2 = []))
             then [BSubscribe (bn_sub_list e.2)] else []) <$> evs ++ [(r, node)]) ++
  ((fun _ => []) <$> evs').
Proof.
  intros Hc Hn. rewrite connect_run_app. unfold session_is_kept_tcp.
  rewrite connect_run_clean by done. cbn [connect_run bridge_connect_cb]. rewrite Hn.
  rewrite connect_run_kept. cbn [snd]. rewrite fmap_app, <- app_assoc. done.
Qed.

Definition demo_node (clean : bool) : conf_bridge_node :=
  BridgeNode true (str "mqtt-tcp://127.0.0.1:1883") 4 60 clean None None None [] [(str "cmd", 1)] 2.

(** The first bridge is refused; the second connects and does not subscribe. *)
Lemma bridge_subscriptions_witness :
  snd (connect_run session_is_kept_tcp [(5, demo_node false); (0, demo_node true)]) = [[]; []].
Proof.
  apply (bridge_subscriptions [] 5 (demo_node false) [(0, demo_node true)]);
    [apply Forall_nil_2 | reflexivity].
Defined.
