(* ===== verification/Conf.v ===== *)
(** * The broker's configuration

    The fields of nanolib's [conf] the broker reads or writes, and the
    assignments to them. *)

From Stdlib Require Import ZArith Lia.
From stdpp Require Import base numbers list option.
From S2P Require Import Prelude MqttApi Bridge Webhook.

Local Open Scope Z_scope.

Record conf := Conf {
  cf_conf_file : option bytes;
  cf_url : option bytes;
  cf_enable : bool;
  cf_daemon : bool;
  cf_parallel : Z;
  cf_num_taskq_thread : Z;
  cf_max_taskq_thread : Z;
  cf_property_size : Z;
  cf_msq_len : Z;
  cf_qos_duration : Z;
  cf_tls_enable : bool;
  cf_tls_url : option bytes;
  cf_tls : conf_tls;
  cf_ws_enable : bool;
  cf_ws_url : option bytes;
  cf_ws_tls_url : option bytes;
  cf_http_enable : bool;
  cf_http_port : Z;
  cf_log : conf_log;
  cf_bridge_mode : bool;
  cf_bridge_nodes : list conf_bridge_node;
  cf_web_hook : conf_web_hook
}.

(** [config->field = v], one definition per field. *)
Definition set_conf_file (c : conf) (v : option bytes) : conf :=
  Conf v (cf_url c) (cf_enable c) (cf_daemon c) (cf_parallel c) (cf_num_taskq_thread c)
    (cf_max_taskq_thread c) (cf_property_size c) (cf_msq_len c) (cf_qos_duration c)
    (cf_tls_enable c) (cf_tls_url c) (cf_tls c) (cf_ws_enable c) (cf_ws_url c) (cf_ws_tls_url c)
    (cf_http_enable c) (cf_http_port c) (cf_log c) (cf_bridge_mode c) (cf_bridge_nodes c)
    (cf_web_hook c).

Definition set_url (c : conf) (v : option bytes) : conf :=
  Conf (cf_conf_file c) v (cf_enable c) (cf_daemon c) (cf_parallel c) (cf_num_taskq_thread c)
    (cf_max_taskq_thread c) (cf_property_size c) (cf_msq_len c) (cf_qos_duration c)
    (cf_tls_enable c) (cf_tls_url c) (cf_tls c) (cf_ws_enable c) (cf_ws_url c) (cf_ws_tls_url c)
    (cf_http_enable c) (cf_http_port c) (cf_log c) (cf_bridge_mode c) (cf_bridge_nodes c)
    (cf_web_hook c).

Definition set_daemon (c : conf) (v : bool) : conf :=
  Conf (cf_conf_file c) (cf_url c) (cf_enable c) v (cf_parallel c) (cf_num_taskq_thread c)
    (cf_max_taskq_thread c) (cf_property_size c) (cf_msq_len c) (cf_qos_duration c)
    (cf_tls_enable c) (cf_tls_url c) (cf_tls c) (cf_ws_enable c) (cf_ws_url c) (cf_ws_tls_url c)
    (cf_http_enable c) (cf_http_port c) (cf_log c) (cf_bridge_mode c) (cf_bridge_nodes c)
    (cf_web_hook c).

Definition set_parallel (c : conf) (v : Z) : conf :=
  Conf (cf_conf_file c) (cf_url c) (cf_enable c) (cf_daemon c) v (cf_num_taskq_thread c)
    (cf_max_taskq_thread c) (cf_property_size c) (cf_msq_len c) (cf_qos_duration c)
    (cf_tls_enable c) (cf_tls_url c) (cf_tls c) (cf_ws_enable c) (cf_ws_url c) (cf_ws_tls_url c)
    (cf_http_enable c) (cf_http_port c) (cf_log c) (cf_bridge_mode c) (cf_bridge_nodes c)
    (cf_web_hook c).

Definition set_num_taskq_thread (c : conf) (v : Z) : conf :=
  Conf (cf_conf_file c) (cf_url c) (cf_enable c) (cf_daemon c) (cf_parallel c) v
    (cf_max_taskq_thread c) (cf_property_size c) (cf_msq_len c) (cf_qos_duration c)
    (cf_tls_enable c) (cf_tls_url c) (cf_tls c) (cf_ws_enable c) (cf_ws_url c) (cf_ws_tls_url c)
    (cf_http_enable c) (cf_http_port c) (cf_log c) (cf_bridge_mode c) (cf_bridge_nodes c)
    (cf_web_hook c).

Definition set_max_taskq_thread (c : conf) (v : Z) : conf :=
  Conf (cf_conf_file c) (cf_url c) (cf_enable c) (cf_daemon c) (cf_parallel c)
    (cf_num_taskq_thread c) v (cf_property_size c) (cf_msq_len c) (cf_qos_duration c)
    (cf_tls_enable c) (cf_tls_url c) (cf_tls c) (cf_ws_enable c) (cf_ws_url c) (cf_ws_tls_url c)
    (cf_http_enable c) (cf_http_port c) (cf_log c) (cf_bridge_mode c) (cf_bridge_nodes c)
    (cf_web_hook c).

Definition set_property_size (c : conf) (v : Z) : conf :=
  Conf (cf_conf_file c) (cf_url c) (cf_enable c) (cf_daemon c) (cf_parallel c)
    (cf_num_taskq_thread c) (cf_max_taskq_thread c) v (cf_msq_len c) (cf_qos_duration c)
    (cf_tls_enable c) (cf_tls_url c) (cf_tls c) (cf_ws_enable c) (cf_ws_url c) (cf_ws_tls_url c)
    (cf_http_enable c) (cf_http_port c) (cf_log c) (cf_bridge_mode c) (cf_bridge_nodes c)
    (cf_web_hook c).

Definition set_msq_len (c : conf) (v : Z) : conf :=
  Conf (cf_conf_file c) (cf_url c) (cf_enable c) (cf_daemon c) (cf_parallel c)
    (cf_num_taskq_thread c) (cf_max_taskq_thread c) (cf_property_size c) v (cf_qos_duration c)
    (cf_tls_enable c) (cf_tls_url c) (cf_tls c) (cf_ws_enable c) (cf_ws_url c) (cf_ws_tls_url c)
    (cf_http_enable c) (cf_http_port c) (cf_log c) (cf_bridge_mode c) (cf_bridge_nodes c)
    (cf_web_hook c).

Definition set_qos_duration (c : conf) (v : Z) : conf :=
  Conf (cf_conf_file c) (cf_url c) (cf_enable c) (cf_daemon c) (cf_parallel c)
    (cf_num_taskq_thread c) (cf_max_taskq_thread c) (cf_property_size c) (cf_msq_len c) v
    (cf_tls_enable c) (cf_tls_url c) (cf_tls c) (cf_ws_enable c) (cf_ws_url c) (cf_ws_tls_url c)
    (cf_http_enable c) (cf_http_port c) (cf_log c) (cf_bridge_mode c) (cf_bridge_nodes c)
    (cf_web_hook c).

Definition set_tls_enable (c : conf) (v : bool) : conf :=
  Conf (cf_conf_file c) (cf_url c) (cf_enable c) (cf_daemon c) (cf_parallel c)
    (cf_num_taskq_thread c) (cf_max_taskq_thread c) (cf_property_size c) (cf_msq_len c)
    (cf_qos_duration c) v (cf_tls_url c) (cf_tls c) (cf_ws_enable c) (cf_ws_url c)
    (cf_ws_tls_url c) (cf_http_enable c) (cf_http_port c) (cf_log c) (cf_bridge_mode c)
    (cf_bridge_nodes c) (cf_web_hook c).

Definition set_tls_url (c : conf) (v : option bytes) : conf :=
  Conf (cf_conf_file c) (cf_url c) (cf_enable c) (cf_daemon c) (cf_parallel c)
    (cf_num_taskq_thread c) (cf_max_taskq_thread c) (cf_property_size c) (cf_msq_len c)
    (cf_qos_duration c) (cf_tls_enable c) v (cf_tls c) (cf_ws_enable c) (cf_ws_url c)
    (cf_ws_tls_url c) (cf_http_enable c) (cf_http_port c) (cf_log c) (cf_bridge_mode c)
    (cf_bridge_nodes c) (cf_web_hook c).

Definition set_tls (c : conf) (v : conf_tls) : conf :=
  Conf (cf_conf_file c) (cf_url c) (cf_enable c) (cf_daemon c) (cf_parallel c)
    (cf_num_taskq_thread c) (cf_max_taskq_thread c) (cf_property_size c) (cf_msq_len c)
    (cf_qos_duration c) (cf_tls_enable c) (cf_tls_url c) v (cf_ws_enable c) (cf_ws_url c)
    (cf_ws_tls_url c) (cf_http_enable c) (cf_http_port c) (cf_log c) (cf_bridge_mode c)
    (cf_bridge_nodes c) (cf_web_hook c).

Definition set_ws_enable (c : conf) (v : bool) : conf :=
  Conf (cf_conf_file c) (cf_url c) (cf_enable c) (cf_daemon c) (cf_parallel c)
    (cf_num_taskq_thread c) (cf_max_taskq_thread c) (cf_property_size c) (cf_msq_len c)
    (cf_qos_duration c) (cf_tls_enable c) (cf_tls_url c) (cf_tls c) v (cf_ws_url c)
    (cf_ws_tls_url c) (cf_http_enable c) (cf_http_port c) (cf_log c) (cf_bridge_mode c)
    (cf_bridge_nodes c) (cf_web_hook c).

Definition set_ws_url (c : conf) (v : option bytes) : conf :=
  Conf (cf_conf_file c) (cf_url c) (cf_enable c) (cf_daemon c) (cf_parallel c)
    (cf_num_taskq_thread c) (cf_max_taskq_thread c) (cf_property_size c) (cf_msq_len c)
    (cf_qos_duration c) (cf_tls_enable c) (cf_tls_url c) (cf_tls c) (cf_ws_enable c) v
    (cf_ws_tls_url c) (cf_http_enable c) (cf_http_port c) (cf_log c) (cf_bridge_mode c)
    (cf_bridge_nodes c) (cf_web_hook c).

Definition set_ws_tls_url (c : conf) (v : option bytes) : conf :=
  Conf (cf_conf_file c) (cf_url c) (cf_enable c) (cf_daemon c) (cf_parallel c)
    (cf_num_taskq_thread c) (cf_max_taskq_thread c) (cf_property_size c) (cf_msq_len c)
    (cf_qos_duration c) (cf_tls_enable c) (cf_tls_url c) (cf_tls c) (cf_ws_enable c) (cf_ws_url
    c) v (cf_http_enable c) (cf_http_port c) (cf_log c) (cf_bridge_mode c) (cf_bridge_nodes c)
    (cf_web_hook c).

Definition set_http_enable (c : conf) (v : bool) : conf :=
  Conf (cf_conf_file c) (cf_url c) (cf_enable c) (cf_daemon c) (cf_parallel c)
    (cf_num_taskq_thread c) (cf_max_taskq_thread c) (cf_property_size c) (cf_msq_len c)
    (cf_qos_duration c) (cf_tls_enable c) (cf_tls_url c) (cf_tls c) (cf_ws_enable c) (cf_ws_url
    c) (cf_ws_tls_url c) v (cf_http_port c) (cf_log c) (cf_bridge_mode c) (cf_bridge_nodes c)
    (cf_web_hook c).

Definition set_http_port (c : conf) (v : Z) : conf :=
  Conf (cf_conf_file c) (cf_url c) (cf_enable c) (cf_daemon c) (cf_parallel c)
    (cf_num_taskq_thread c) (cf_max_taskq_thread c) (cf_property_size c) (cf_msq_len c)
    (cf_qos_duration c) (cf_tls_enable c) (cf_tls_url c) (cf_tls c) (cf_ws_enable c) (cf_ws_url
    c) (cf_ws_tls_url c) (cf_http_enable c) v (cf_log c) (cf_bridge_mode c) (cf_bridge_nodes c)
    (cf_web_hook c).

Definition set_log (c : conf) (v : conf_log) : conf :=
  Conf (cf_conf_file c) (cf_url c) (cf_enable c) (cf_daemon c) (cf_parallel c)
    (cf_num_taskq_thread c) (cf_max_taskq_thread c) (cf_property_size c) (cf_msq_len c)
    (cf_qos_duration c) (cf_tls_enable c) (cf_tls_url c) (cf_tls c) (cf_ws_enable c) (cf_ws_url
    c) (cf_ws_tls_url c) (cf_http_enable c) (cf_http_port c) v (cf_bridge_mode c)
    (cf_bridge_nodes c) (cf_web_hook c).

