(* ===== verification/Process.v ===== *)
(** * process.c and the signals of broker.c

    Signals sent to a process, a process that becomes a daemon, its pid file, and
    the signals the broker catches.  What the system answers is an argument. *)

From Stdlib Require Import ZArith Lia.
From stdpp Require Import base numbers list option strings.
From S2P Require Import Prelude Cstring.

Local Open Scope Z_scope.
Local Open Scope nano_scope.

(** ** Sending signals *)

(** [kill] and [getpgid] are the system's. *)
Definition process_is_alive (kill : Z -> Z -> Z) (pid : Z) : Z :=
  if pid <? 1 then 0 else if kill pid 0 =? 0 then 1 else 0.

Definition process_send_signal (kill : Z -> Z -> Z) (pid signal : Z) : Z :=
  if pid <? 1 then 0 else kill pid signal.

Definition pidgrp_send_signal (kill : Z -> Z -> Z) (getpgid : Z -> Z) (pid signal : Z) : Z :=
  if pid <? 1 then 0
  else let gpid := getpgid pid in if gpid <? 0 then 0 else kill (- gpid) signal.

(** ** Daemons *)

Definition EXIT_SUCCESS : Z := 0.
Definition EXIT_FAILURE : Z := 1.

(** How a function ends in one process. *)
Inductive outcome := Exits (code : Z) | Returns (rv : Z).

Inductive proc_call := PFork | PSetsid | PChdir (path : bytes) | POpenNull | PDup2 (fd to : Z) | PClose (fd : Z).

(** What [fork], [setsid], the second [fork] and [open] return. *)
Record proc_env := ProcEnv { pe_fork : Z; pe_setsid : Z; pe_fork2 : Z; pe_open : Z }.

Definition process_daemonize (e : proc_env) : list proc_call * outcome :=
  if pe_fork e =? -1 then ([PFork], Returns (-1))
  else if negb (pe_fork e =? 0) then ([PFork], Exits EXIT_SUCCESS)
  else if pe_setsid e =? -1 then ([PFork; PSetsid], Returns EXIT_FAILURE)
  else if negb (pe_fork2 e =? 0) then ([PFork; PSetsid; PFork], Exits EXIT_SUCCESS)
  else
    let fd := pe_open e in
    ([PFork; PSetsid; PFork; PChdir (str "/"); POpenNull] ++
     (if negb (fd =? -1)
      then [PDup2 fd 0; PDup2 fd 1; PDup2 fd 2] ++ (if 2 <? fd then [PClose fd] else []) else []),
     Returns 0).

Definition process_create_child (fork child_run : Z) : outcome :=
  if fork =? -1 then Returns (-1) else if fork =? 0 then Exits child_run else Returns fork.

(** ** The pid file *)

(** [file]: the contents, if readable; [scan]: the number in them; [alive]:
    [kill(pid, 0) == 0]. *)
Definition status_check (file : option (option bytes)) (scan : bytes -> Z) (alive : Z -> bool)
    (delete_rv : Z) : Z * option Z :=
  match file with
  | None => (1, None)
  | Some data =>
      let pid := scan <$> data in
      match pid with
      | Some p => if alive p then (0, pid) else (if delete_rv =? 0 then 1 else -1, pid)
      | None => (if delete_rv =? 0 then 1 else -1, None)
      end
  end.

(** [sprintf] into twelve bytes of zeros, all of which are written. *)
Definition store_pid (pid : Z) : exec bytes :=
  let text := dec pid in
  if Zlen text <? 12 then Ret (text ++ replicate (12 - length text) 0) else UB.

(** [sscanf(data, "%u", pid)] *)
Definition scan_pid (data : bytes) : Z := u32 (atoi data).

(** ** Catching signals *)

Inductive signal :=
  SIGHUP | SIGQUIT | SIGTRAP | SIGIO | SIGABRT | SIGFPE | SIGILL | SIGINT | SIGSEGV | SIGTERM | SIG_OTHER (n : Z).

#[export] Instance signal_eq_dec : EqDecision signal.
Proof. solve_decision. Defined.

Definition all_signals : list signal :=
  [SIGHUP; SIGQUIT; SIGTRAP; SIGIO; SIGABRT; SIGFPE; SIGILL; SIGINT; SIGSEGV; SIGTERM].

(** What the handler does to the process: [None], it goes on. *)
Definition sig_handler (signum : signal) : option Z :=
  if bool_decide (signum = SIGINT) || bool_decide (signum = SIGABRT) || bool_decide (signum = SIGSEGV)
  then Some EXIT_FAILURE
  else if bool_decide (signum = SIGILL) || bool_decide (signum = SIGTERM) then Some EXIT_SUCCESS
  else None.

(** [do { sigaction(all_signals[i], ...) } while (all_signals[i++] != SIGTERM)]:
    the handlers that were asked for. *)
Fixpoint install_signals (signals : list signal) : exec (list signal) :=
  match signals with
  | [] => UB
  | s :: rest =>
      if bool_decide (s = SIGTERM) then Ret [s]
      else let* l := install_signals rest in Ret (s :: l)
  end.

(** ** Properties *)

Lemma digits_dec_go fuel n acc :
  0 <= n < 10 ^ Z.of_nat fuel -> digits (dec_go fuel n acc) 0 = digits acc n.
Proof.
  revert n acc. induction fuel as [|fuel IH]; intros n acc Hn; cbn [dec_go].
  - change (10 ^ Z.of_nat 0) with 1 in Hn. by replace n with 0 by lia.
  - rewrite Nat2Z.inj_succ, Z.pow_succ_r in Hn by lia.
    pose proof (Z.div_mod n 10 ltac:(lia)). pose proof (Z.mod_pos_bound n 10 ltac:(lia)).
    assert (Hd : forall a, digits ((48 + n mod 10) :: acc) a = digits acc (a * 10 + n mod 10)).
    { intros a. cbn [digits]. unfold is_digit. rewrite (proj2 (Z.leb_le _ _)), (proj2 (Z.leb_le _ _)) by lia. cbn [andb].
      f_equal. lia. }
    destruct (Z.eqb_spec (n / 10) 0).
    + rewrite Hd. f_equal. lia.
    + rewrite IH, Hd; [f_equal; lia|]. split; [apply Z.div_pos; lia|apply Z.div_lt_upper_bound; lia].
Qed.

Lemma dec_go_app fuel n acc rest : dec_go fuel n acc ++ rest = dec_go fuel n (acc ++ rest).
Proof.
  revert n acc. induction fuel as [|fuel IH]; intros n acc; cbn [dec_go]; [done|]. case_match; [done|]. apply IH.
Qed.

Lemma dec_go_head fuel n acc :
  exists b s, dec_go (S fuel) n acc = b :: s /\ 48 <= b <= 57.
Proof.
  revert n acc. induction fuel as [|fuel IH]; intros n acc.
  - cbn [dec_go]. pose proof (Z.mod_pos_bound n 10 ltac:(lia)). case_match; eexists _, _; (split; [done|lia]).
  - cbn [dec_go]. pose proof (Z.mod_pos_bound n 10 ltac:(lia)).
    destruct (n / 10 =? 0); [eexists _, _; (split; [done|lia])|]. apply IH.
Qed.

Lemma dec_go_digits fuel k n acc :
  0 <= n < 10 ^ Z.of_nat (S k) -> (length (dec_go fuel n acc) <= S k + length acc)%nat.
Proof.
  revert k n acc. induction fuel as [|fuel IH]; intros k n acc Hn; cbn [dec_go]; [lia|].
  destruct (Z.eqb_spec (n / 10) 0); [cbn; lia|]. destruct k as [|k].
  - change (10 ^ Z.of_nat 1) with 10 in Hn. rewrite Z.div_small in n0 by lia. lia.
  - rewrite Nat2Z.inj_succ, Z.pow_succ_r in Hn by lia. etransitivity; [apply (IH k)|cbn; lia].
    split; [apply Z.div_pos; lia|apply Z.div_lt_upper_bound; lia].
Qed.

Lemma atoi_dec n rest :
  0 <= n < 2 ^ 31 -> match rest with b :: _ => b < 48 \/ 57 < b | [] => True end -> atoi (dec n ++ rest) = n.
Proof.
  intros Hn Hr. unfold dec. rewrite (proj2 (Z.ltb_ge _ _)), dec_go_app by lia. cbn [app].
  assert (Hd : digits (dec_go 20 n rest) 0 = n).
  { rewrite digits_dec_go by (change (10 ^ Z.of_nat 20) with 100000000000000000000; lia).
    destruct rest as [|b rest]; [done|]. cbn [digits]. unfold is_digit.
    destruct (Z.leb_spec 48 b), (Z.leb_spec b 57); cbn [andb]; done || lia. }
  destruct (dec_go_head 19 n rest) as (b & s & Hs & Hb). rewrite Hs in *. unfold atoi. cbn [skip_space].
  unfold is_space. replace (b =? 32) with false by lia. replace (b <=? 13) with false by lia.
  rewrite andb_false_r. cbn [orb]. replace (b =? 45) with false by lia. replace (b =? 43) with false by lia.
  rewrite Hd. unfold s32. rewrite Z.mod_small by lia. by rewrite (proj2 (Z.ltb_lt _ _)) by lia.
Qed.

(** The pid that a broker stores is the one the next start reads: a broker that
    is still running is found, and a file that is left over is removed. *)
Lemma pid_file_roundtrip pid :
  0 <= pid < 2 ^ 31 ->
  exists data, store_pid pid = Ret data /\
    forall alive delete_rv, status_check (Some (Some data)) scan_pid alive delete_rv =
      (if alive pid then 0 else if delete_rv =? 0 then 1 else -1, Some pid).
Proof.
  intros Hp. unfold store_pid.
  assert (Hl : (length (dec pid) <= 10)%nat).
  { unfold dec. rewrite (proj2 (Z.ltb_ge _ _)) by lia. apply (dec_go_digits 20 9 pid []).
    change (10 ^ Z.of_nat 10) with 10000000000. lia. }
  rewrite (proj2 (Z.ltb_lt _ _)) by (unfold Zlen; lia). eexists. split; [done|]. intros alive delete_rv.
  unfold status_check. cbn [fmap option_fmap option_map].
  assert (Hs : scan_pid (dec pid ++ replicate (12 - length (dec pid)) 0) = pid).
  { unfold scan_pid. rewrite atoi_dec; [by apply u32_small; lia|done|].
    destruct (12 - length (dec pid))%nat eqn:E; [lia|]. cbn. lia. }
  rewrite Hs. by destruct (alive pid).
Qed.

(** The one process that returns 0 is a grandchild in a session of its own,
    without a terminal. *)
Lemma process_daemonize_spec e calls :
  process_daemonize e = (calls, Returns 0) <->
  pe_fork e = 0 /\ pe_setsid e <> -1 /\ pe_fork2 e = 0 /\
  calls = [PFork; PSetsid; PFork; PChdir (str "/"); POpenNull] ++
    (if bool_decide (pe_open e = -1) then []
     else [PDup2 (pe_open e) 0; PDup2 (pe_open e) 1; PDup2 (pe_open e) 2] ++
          (if 2 <? pe_open e then [PClose (pe_open e)] else [])).
Proof.
  destruct e as [f s f2 o]. unfold process_daemonize. cbn [pe_fork pe_setsid pe_fork2 pe_open].
  destruct (Z.eqb_spec f (-1)); [split; [done|lia]|]. destruct (Z.eqb_spec f 0); cbn [negb]; [|split; [done|lia]].
  destruct (Z.eqb_spec s (-1)); [split; [done|lia]|]. destruct (Z.eqb_spec f2 0); cbn [negb]; [|split; [done|lia]].
  destruct (Z.eqb_spec o (-1)).
  - rewrite bool_decide_eq_true_2 by done. cbn [negb]. split; [by intros [= <-]|by intros (_ & _ & _ & ->)].
  - rewrite bool_decide_eq_false_2 by done. cbn [negb]. split; [by intros [= <-]|by intros (_ & _ & _ & ->)].
Qed.

(** When the second [fork] fails nobody is left, and it counts as a success. *)
Lemma process_daemonize_vanishes e :
  pe_fork e = 0 -> pe_setsid e <> -1 -> pe_fork2 e = -1 ->
  process_daemonize e = ([PFork; PSetsid; PFork], Exits EXIT_SUCCESS).
Proof.
  destruct e as [f s f2 o]. cbn. intros -> Hs ->. unfold process_daemonize. cbn.
  by rewrite (proj2 (Z.eqb_neq _ _)).
Qed.

(** Every signal of the table is caught, but half of them are only reported:
    the process goes on. *)
Lemma signals_caught :
  install_signals all_signals = Ret all_signals /\
  filter (fun s => sig_handler s = None) all_signals = [SIGHUP; SIGQUIT; SIGTRAP; SIGIO; SIGFPE].
Proof. split; reflexivity. Qed.
