(* ===== verification/RestHttp.v ===== *)
(** * rest_api.c, web_server.c: HTTP messages and authorization

    [http_msg] is what the two threads of the HTTP server pass to each other:
    a struct of heap strings.  Its strings are modelled as the bytes in front
    of the NUL, NULL is [None]. *)

From Stdlib Require Import ZArith Lia.
From stdpp Require Import base numbers list option strings.
From S2P Require Import Prelude Mqtt Cstring.

Local Open Scope Z_scope.
Local Open Scope nano_scope.

(** ** Messages *)

Record http_msg := HttpMsg {
  hm_status : Z;
  hm_request : Z;
  hm_content_type_len : Z; hm_content_type : option bytes;
  hm_method_len : Z; hm_method : option bytes;
  hm_uri_len : Z; hm_uri : option bytes;
  hm_token_len : Z; hm_token : option bytes;
  hm_data_len : Z; hm_data : option bytes;
  hm_encrypt_data : bool
}.

(** [http_msg m = { 0 }] *)
Definition zero_http_msg : http_msg :=
  HttpMsg 0 0 0 None 0 None 0 None 0 None 0 None false.

Definition set_status (m : http_msg) (status : Z) : http_msg :=
  HttpMsg status (hm_request m) (hm_content_type_len m) (hm_content_type m) (hm_method_len m) (hm_method m)
    (hm_uri_len m) (hm_uri m) (hm_token_len m) (hm_token m) (hm_data_len m) (hm_data m) (hm_encrypt_data m).

Definition set_token (m : http_msg) (token : bytes) : http_msg :=
  HttpMsg (hm_status m) (hm_request m) (hm_content_type_len m) (hm_content_type m) (hm_method_len m)
    (hm_method m) (hm_uri_len m) (hm_uri m) (hm_token_len m) (Some token) (hm_data_len m) (hm_data m)
    (hm_encrypt_data m).

(** Length and copy of a string that is given; the old fields otherwise. *)
Definition put_str (s : option bytes) (old_len : Z) (old : option bytes) : Z * option bytes :=
  match s with Some s => (Zlen s, Some s) | None => (old_len, old) end.

(** [data] is read for [data_sz] bytes. *)
Definition put_http_msg (msg : http_msg) (content_type method uri token data : option bytes)
    (data_sz : Z) : exec http_msg :=
  let '(ctl, ct) := put_str content_type (hm_content_type_len msg) (hm_content_type msg) in
  let '(ml, mt) := put_str method (hm_method_len msg) (hm_method msg) in
  let '(ul, ur) := put_str uri (hm_uri_len msg) (hm_uri msg) in
  let '(tl, tk) := put_str token (hm_token_len msg) (hm_token msg) in
  let* d := match data with
            | Some d => let* bytes := slice d 0 data_sz in Ret (data_sz, Some bytes)
            | None => Ret (hm_data_len msg, hm_data msg)
            end in
  Ret (HttpMsg (hm_status msg) (hm_request msg) ctl ct ml mt ul ur tl tk (fst d) (snd d)
         (hm_encrypt_data msg)).

(** The strings a message owns, and those [destory_http_msg] releases; its
    lengths are 0 afterwards, its pointers stay. *)
Inductive http_field := FContentType | FMethod | FToken | FData | FUri.

Definition owned (m : http_msg) : list http_field :=
  (if hm_content_type m then [FContentType] else []) ++ (if hm_method m then [FMethod] else []) ++
  (if hm_token m then [FToken] else []) ++ (if hm_data m then [FData] else []) ++
  (if hm_uri m then [FUri] else []).

Definition destory_http_msg (m : http_msg) : http_msg * list http_field :=
  (HttpMsg (hm_status m) (hm_request m) 0 (hm_content_type m) 0 (hm_method m) 0 (hm_uri m)
     0 (hm_token m) 0 (hm_data m) (hm_encrypt_data m),
   (if 0 <? hm_content_type_len m then [FContentType] else []) ++
   (if 0 <? hm_method_len m then [FMethod] else []) ++
   (if 0 <? hm_token_len m then [FToken] else []) ++
   (if 0 <? hm_data_len m then [FData] else []) ++
   (if 0 <? hm_uri_len m then [FUri] else [])).

(** ** Result codes *)

Definition SUCCEED : Z := 0.
Definition RPC_ERROR : Z := 101.
Definition UNKNOWN_MISTAKE : Z := 102.
Definition WRONG_USERNAME_OR_PASSWORD : Z := 103.
Definition EMPTY_USERNAME_OR_PASSWORD : Z := 104.
Definition MISSING_KEY_REQUEST_PARAMES : Z := 107.
Definition REQ_PARAM_ERROR : Z := 108.
Definition TOKEN_EXPIRED : Z := 116.
Definition REQ_PARAMS_JSON_FORMAT_ILLEGAL : Z := 109.

(** Statuses of nng's HTTP library (RFC 7231). *)
Definition NNG_HTTP_STATUS_OK : Z := 200.
Definition NNG_HTTP_STATUS_BAD_REQUEST : Z := 400.
Definition NNG_HTTP_STATUS_UNAUTHORIZED : Z := 401.
Definition NNG_HTTP_STATUS_NOT_FOUND : Z := 404.
Definition NNG_HTTP_STATUS_METHOD_NOT_ALLOWED : Z := 405.
Definition NNG_HTTP_STATUS_INTERNAL_SERVER_ERROR : Z := 500.

(** ** Authorization *)

Inductive auth_type := NONE_AUTH | BASIC | JWT.

Record conf_http_server := ConfHttp {
  http_port : Z;
  http_parallel : Z;
  http_username : option bytes;
  http_password : option bytes;
  http_auth_type : auth_type
}.

Definition HTTP_DEFAULT_USER : bytes := str "admin".
Definition HTTP_DEFAULT_PASSWORD : bytes := str "public".
Definition HTTP_DEFAULT_PORT : Z := 8081.

(** The server's configuration, from its start on. *)
Definition set_http_server_conf (c : conf_http_server) : conf_http_server :=
  ConfHttp (http_port c) (http_parallel c)
    (Some (default HTTP_DEFAULT_USER (http_username c)))
    (Some (default HTTP_DEFAULT_PASSWORD (http_password c)))
    (http_auth_type c).

(** [sscanf(s, "<scheme> %s", out) == 1]: what is written to [out].  The white
    space of the format skips any amount of it, also none. *)
Definition scan_scheme (scheme s : bytes) : option bytes :=
  if strprefix scheme s then
    let w := word (skip_space (drop (length scheme) s)) in
    if bool_decide (w = []) then None else Some w
  else None.

(** [strncmp(a, b, n) == 0] for NUL-terminated or long enough arrays. *)
Fixpoint strncmp_eq (n : nat) (a b : bytes) : exec bool :=
  match n with
  | O => Ret true
  | S n' =>
      match a, b with
      | x :: a', y :: b' =>
          if negb (x =? y) then Ret false
          else if x =? 0 then Ret true else strncmp_eq n' a' b'
      | _, _ => UB
      end
  end.

(** The token of a request that has one of this scheme. *)
Definition scheme_token (scheme : bytes) (m : http_msg) : option bytes :=
  if hm_token_len m <=? 0 then None else text ← hm_token m; scan_scheme scheme text.

Section Authorize.
(** [base64_decode] of nanolib: the bytes it writes *)
Variable base64_decode : bytes -> bytes.
(** contents of a fresh block of [nng_alloc] *)
Variable garbage : Z -> bytes.

(** The result, and the message, whose token was overwritten in place. *)
Definition basic_authorize (server : conf_http_server) (msg : http_msg) : exec (Z * http_msg) :=
  if hm_token_len msg <=? 0 then Ret (EMPTY_USERNAME_OR_PASSWORD, msg)
  else
    match hm_token msg with
    | None => UB
    | Some text =>
        match scan_scheme (str "Basic") text with
        | None => Ret (EMPTY_USERNAME_OR_PASSWORD, msg)
        | Some token =>
            let msg := set_token msg token in
            match http_username server, http_password server with
            | Some user, Some pass =>
                let auth_len := Zlen user + Zlen pass + 2 in
                let auth := user ++ 58 :: pass ++ [0] in
                let decode := garbage auth_len in
                let* decode := wr decode (auth_len - 1) 0 in
                let out := base64_decode token in
                if Zlen out <=? Zlen decode then
                  let decode := out ++ drop (length out) decode in
                  let* same := strncmp_eq (Z.to_nat auth_len) auth decode in
                  Ret (if same : bool then SUCCEED else WRONG_USERNAME_OR_PASSWORD, msg)
                else UB
            | _, _ => UB
            end
        end
    end.
End Authorize.

(** What [l8w8jwt_decode] says of a token, for the key and the issuer of the
    configuration: valid, with the claims and their types; expired; or neither. *)
Inductive jwt_outcome := JwtValid (claims : list (bytes * Z)) | JwtExpired | JwtInvalid.

Definition set_encrypt (m : http_msg) (b : bool) : http_msg :=
  HttpMsg (hm_status m) (hm_request m) (hm_content_type_len m) (hm_content_type m) (hm_method_len m) (hm_method m)
    (hm_uri_len m) (hm_uri m) (hm_token_len m) (hm_token m) (hm_data_len m) (hm_data m) b.

(** The first claim "bodyEncode" says whether the body is encrypted. *)
Definition body_encode (claims : list (bytes * Z)) : option Z :=
  snd <$> List.find (fun c => bool_decide (c.1 = str "bodyEncode")) claims.

(** Built without SUPP_JWT there is no decoder. *)
Definition jwt_authorize (l8w8jwt_decode : option (bytes -> jwt_outcome)) (msg : http_msg) : exec (Z * http_msg) :=
  match l8w8jwt_decode with
  | None => Ret (REQ_PARAM_ERROR, msg)
  | Some decode =>
      if hm_token_len msg <=? 0 then Ret (EMPTY_USERNAME_OR_PASSWORD, msg)
      else
        match hm_token msg with
        | None => UB
        | Some text =>
            match scan_scheme (str "Bearer") text with
            | None => Ret (EMPTY_USERNAME_OR_PASSWORD, msg)
            | Some token =>
                let msg := set_token msg token in
                match decode token with
                | JwtValid claims =>
                    Ret (SUCCEED, match body_encode claims with
                                  | Some type => set_encrypt msg (type =? 1)
                                  | None => msg
                                  end)
                | JwtExpired => Ret (TOKEN_EXPIRED, msg)
                | JwtInvalid => Ret (WRONG_USERNAME_OR_PASSWORD, msg)
                end
            end
        end
  end.

(** ** Lemmas *)

Lemma strncmp_eq_spec creds d :
  0 ∉ creds -> length d = S (length creds) ->
  strncmp_eq (S (length creds)) (creds ++ [0]) d = Ret (bool_decide (d = creds ++ [0])).
Proof.
  revert d. induction creds as [|c creds IH]; intros [|x d] Hn Hl; try done.
  - destruct d; [|done].
    cbn [strncmp_eq length app]. destruct (0 =? x) eqn:E; bool_hyps; cbn [negb].
    + subst x. by rewrite bool_decide_eq_true_2.
    + by rewrite bool_decide_eq_false_2 by (intros [= ->]; done).
  - apply not_elem_of_cons in Hn as [Hc Hn]. cbn in Hl.
    cbn [length app]. remember (S (length creds)) as n eqn:En. cbn [strncmp_eq].
    destruct (c =? x) eqn:E; bool_hyps; cbn [negb].
    + subst x n. rewrite (proj2 (Z.eqb_neq c 0)) by congruence. rewrite IH by (done || lia).
      f_equal. apply bool_decide_ext. cbn. split; [by intros ->|by intros [= ->]].
    + rewrite bool_decide_eq_false_2; [done|]. intros [= ? _]. congruence.
Qed.

Lemma basic_token msg t :
  0 < hm_token_len msg -> hm_token msg = Some (str "Basic " ++ t) ->
  t <> [] -> forallb (fun b => negb (is_space b)) t = true -> scheme_token (str "Basic") msg = Some t.
Proof.
  intros Hl Htok Ht Hw. unfold scheme_token. rewrite (proj2 (Z.leb_gt _ _)) by done. rewrite Htok.
  change (str "Basic " ++ t) with (str "Basic" ++ 32 :: t). cbn [mbind option_bind]. unfold scan_scheme.
  rewrite strprefix_app, drop_app_length. cbn [skip_space is_space].
  change ((32 =? 32) || (9 <=? 32) && (32 <=? 13)) with true. cbv iota.
  assert (Hsk : skip_space t = t).
  { destruct t as [|b t]; [done|]. cbn in *. bool_hyps. by rewrite H. }
  rewrite Hsk, word_id by done. by rewrite bool_decide_eq_false_2.
Qed.

(** The overwritten decode buffer is compared as a whole. *)
Lemma basic_authorize_spec b64 garbage user pass c msg t :
  http_username c = Some user -> http_password c = Some pass -> 0 ∉ user -> 0 ∉ pass ->
  (forall n, 0 <= n -> Zlen (garbage n) = n) ->
  scheme_token (str "Basic") msg = Some t ->
  let creds := user ++ 58 :: pass in
  let decode := <[length creds := 0]> (garbage (Zlen creds + 1)) in
  basic_authorize b64 garbage c msg =
  if Zlen (b64 t) <=? Zlen creds + 1
  then Ret (if bool_decide (b64 t ++ drop (length (b64 t)) decode = creds ++ [0])
            then SUCCEED else WRONG_USERNAME_OR_PASSWORD, set_token msg t)
  else UB.
Proof.
  intros Hu Hp Hun Hpn Hg Htok creds decode. unfold basic_authorize, scheme_token in *.
  destruct (hm_token_len msg <=? 0); [done|]. destruct (hm_token msg) as [text|]; [|done]. cbn [mbind option_bind] in Htok.
  rewrite Htok, Hu, Hp.
  assert (Hlen : Zlen user + Zlen pass + 2 = Zlen creds + 1) by (unfold creds; zlen; lia).
  rewrite Hlen. pose proof (Zlen_nonneg creds) as Hc0.
  pose proof (Hg (Zlen creds + 1) ltac:(lia)) as Hgl.
  unfold wr. rewrite (proj2 (Z.leb_le _ _)), (proj2 (Z.ltb_lt _ _)) by lia. cbn [andb ebind].
  replace (Z.to_nat (Zlen creds + 1 - 1)) with (length creds) by (unfold Zlen; lia). fold decode.
  assert (Hd : Zlen decode = Zlen creds + 1) by (unfold decode, Zlen in *; rewrite length_insert; lia).
  rewrite Hd. destruct (Zlen (b64 t) <=? Zlen creds + 1) eqn:E; bool_hyps; [|done].
  replace (user ++ 58 :: pass ++ [0]) with (creds ++ [0]) by (unfold creds; by rewrite <- app_assoc).
  replace (Z.to_nat (Zlen creds + 1)) with (S (length creds)) by (unfold Zlen; lia).
  rewrite strncmp_eq_spec; [|by unfold creds; rewrite not_elem_of_app, not_elem_of_cons|unfold Zlen in *; rewrite length_app, length_drop; lia].
  done.
Qed.

(** Overwriting the last element. *)
Lemma insert_last {A} (x : A) (g : list A) n : length g = S n -> <[n := x]> g = take n g ++ [x].
Proof.
  revert n. induction g as [|y g IH]; intros n Hl; [done|]. destruct n as [|n].
  - by destruct g.
  - cbn in *. f_equal. apply IH. lia.
Qed.

Section AuthorizeProps.
Variable base64_decode : bytes -> bytes.
Variable garbage : Z -> bytes.
Hypothesis garbage_len : forall n, 0 <= n -> Zlen (garbage n) = n.
Variables (user pass : bytes) (server : conf_http_server).
Hypotheses (Huser : http_username server = Some user) (Hpass : http_password server = Some pass).
Hypotheses (Huser0 : 0 ∉ user) (Hpass0 : 0 ∉ pass).
Let creds := user ++ 58 :: pass.

(** A request with a "Basic" token of printable text. *)
Definition basic_request (msg : http_msg) (t : bytes) : Prop :=
  0 < hm_token_len msg /\ hm_token msg = Some (str "Basic " ++ t) /\
  t <> [] /\ forallb (fun b => negb (is_space b)) t = true.

(** The text compared with user:password: what the token decodes to, and behind
    it what the fresh buffer holds, up to its last byte, a zero. *)
Definition login_text (t : bytes) : bytes :=
  base64_decode t ++ drop (length (base64_decode t)) (take (length creds) (garbage (Zlen creds + 1)) ++ [0]).

(** When as many bytes were decoded as user:password has, it is these. *)
Lemma login_text_exact t :
  Zlen (base64_decode t) = Zlen creds -> login_text t = user ++ 58 :: pass ++ [0] <-> base64_decode t = user ++ 58 :: pass.
Proof using garbage_len.
  intros Hz. pose proof (garbage_len (Zlen creds + 1) ltac:(unfold Zlen; lia)) as Hg. unfold login_text.
  replace (drop (length (base64_decode t)) (take (length creds) (garbage (Zlen creds + 1)) ++ [0]))
    with [0] by (symmetry; apply drop_app_length'; rewrite length_take; unfold Zlen in *; lia).
  change (user ++ 58 :: pass ++ [0]) with (user ++ (58 :: pass) ++ [0]). rewrite app_assoc.
  split; [by intros ?%app_inv_tail|by intros ->].
Qed.

(** A token that fits the buffer is accepted exactly when that text is
    user:password. *)
Lemma basic_authorize_correct msg t :
  scheme_token (str "Basic") msg = Some t -> Zlen (base64_decode t) <= Zlen creds + 1 ->
  basic_authorize base64_decode garbage server msg =
  Ret (if bool_decide (login_text t = user ++ 58 :: pass ++ [0])
       then SUCCEED else WRONG_USERNAME_OR_PASSWORD, set_token msg t).
Proof using garbage_len Huser Hpass Huser0 Hpass0.
  intros Htok Hz. erewrite basic_authorize_spec by done. fold creds.
  rewrite (proj2 (Z.leb_le _ _)) by lia. do 3 f_equal.
  pose proof (garbage_len (Zlen creds + 1) ltac:(unfold Zlen; lia)) as Hg.
  rewrite (insert_last 0 _ (length creds)) by (unfold Zlen in *; lia).
  unfold login_text, creds. by rewrite <- !app_assoc.
Qed.

Lemma basic_authorize_none msg :
  (0 < hm_token_len msg -> hm_token msg <> None) -> scheme_token (str "Basic") msg = None ->
  basic_authorize base64_decode garbage server msg = Ret (EMPTY_USERNAME_OR_PASSWORD, msg).
Proof.
  unfold basic_authorize, scheme_token. intros Hok. destruct (hm_token_len msg <=? 0) eqn:E; [done|]. bool_hyps.
  destruct (hm_token msg); [|by destruct Hok]. cbn [mbind option_bind]. by intros ->.
Qed.

(** C37: A token that decodes to fewer bytes is compared together with what the
    fresh buffer held before: if that is the rest of user:password (left there
    by an earlier login), the request is let in without the password.  A token
    that decodes to more bytes writes behind the buffer. *)
Theorem basic_authorize_stale_memory msg t :
  basic_request msg t ->
  (Zlen (base64_decode t) < Zlen creds ->
   base64_decode t ++ drop (length (base64_decode t)) (take (length creds) (garbage (Zlen creds + 1))) =
     creds ->
   basic_authorize base64_decode garbage server msg = Ret (SUCCEED, set_token msg t)) /\
  (Zlen creds + 1 < Zlen (base64_decode t) ->
   basic_authorize base64_decode garbage server msg = UB).
Proof.
  intros (Hl & Ht & Hne & Hw). erewrite basic_authorize_spec by (done || by apply basic_token). fold creds. split.
  - intros Hz Hc. rewrite (proj2 (Z.leb_le _ _)) by lia. rewrite bool_decide_eq_true_2; [done|].
    pose proof (garbage_len (Zlen creds + 1) ltac:(unfold Zlen; lia)) as Hg.
    rewrite (insert_last 0 _ (length creds)) by (unfold Zlen in *; lia).
    rewrite drop_app_le by (rewrite length_take; unfold Zlen in *; lia). by rewrite app_assoc, Hc.
  - intros Hz. by rewrite (proj2 (Z.leb_gt _ _)) by lia.
Qed.
End AuthorizeProps.

(** ** Witnesses *)

Definition demo_sextet (c : Z) : Z :=
  if (65 <=? c) && (c <=? 90) then c - 65
  else if (97 <=? c) && (c <=? 122) then c - 71
  else if (48 <=? c) && (c <=? 57) then c + 4
  else if c =? 43 then 62 else 63.

(** A decoder for groups of four characters, with padding. *)
Fixpoint demo_base64 (s : bytes) : bytes :=
  match s with
  | a :: b :: c :: d :: s' =>
      let v := demo_sextet a * 2 ^ 18 + demo_sextet b * 2 ^ 12 + demo_sextet c * 2 ^ 6 + demo_sextet d in
      take (if c =? 61 then 1 else if d =? 61 then 2 else 3)
        [v / 2 ^ 16; v / 2 ^ 8 mod 256; v mod 256] ++ demo_base64 s'
  | _ => []
  end.

Definition demo_http_conf : conf_http_server := set_http_server_conf (ConfHttp 0 4 None None BASIC).

Definition demo_zeros (n : Z) : bytes := replicate (Z.to_nat n) 0.
(** the block a login left behind *)
Definition demo_stale (n : Z) : bytes := take (Z.to_nat n) (str "admin:public" ++ replicate (Z.to_nat n) 0).

Definition demo_request (text : bytes) : http_msg :=
  HttpMsg 0 0 0 None 3 (Some (str "GET")) 15 (Some (str "/api/v4/brokers")) (Zlen text) (Some text)
    0 None false.

(** "Basic YQ==" is the single letter a; after a login it is enough.  The token
    of "admin:public:xy" is too long for the buffer. *)
Lemma basic_authorize_stale_memory_witness :
  basic_authorize demo_base64 demo_stale demo_http_conf (demo_request (str "Basic YQ==")) =
    Ret (SUCCEED, set_token (demo_request (str "Basic YQ==")) (str "YQ==")) /\
  basic_authorize demo_base64 demo_stale demo_http_conf (demo_request (str "Basic YWRtaW46cHVibGljOnh5")) = UB.
Proof.
  assert (Hg : forall n, 0 <= n -> Zlen (demo_stale n) = n).
  { intros n Hn. unfold demo_stale, Zlen.
    rewrite length_take, length_app, length_replicate. lia. }
  assert (Hu : 0 ∉ str "admin") by (apply (bool_decide_eq_true_1 _); vm_compute; reflexivity).
  assert (Hp : 0 ∉ str "public") by (apply (bool_decide_eq_true_1 _); vm_compute; reflexivity).
  split.
  - apply (basic_authorize_stale_memory demo_base64 demo_stale Hg (str "admin") (str "public")
      demo_http_conf eq_refl eq_refl Hu Hp _ (str "YQ=="));
      [repeat split; discriminate|reflexivity|reflexivity].
  - apply (basic_authorize_stale_memory demo_base64 demo_stale Hg (str "admin") (str "public")
      demo_http_conf eq_refl eq_refl Hu Hp _ (str "YWRtaW46cHVibGljOnh5"));
      [repeat split; discriminate|reflexivity].
Defined.
