(* ===== verification/Cjson.v ===== *)
(** * JSON values

    cJSON is part of nanolib: parsing, looking at a value and printing are
    operations of a class.  What the program builds is a tree of its own. *)

From Stdlib Require Import ZArith Lia.
From stdpp Require Import base numbers list option strings.
From S2P Require Import Prelude Mqtt RestHttp.

Local Open Scope Z_scope.
Local Open Scope nano_scope.

(** A double, as far as the program looks at it: towards zero, whether that is
    exact, and its text for [%lf]. *)
Record jnum := JNum { jn_trunc : Z; jn_exact : bool; jn_lf : bytes }.

(** [cJSON_number], [cJSON_bool], [cJSON_string]: the type test and the value.
    NULL is [None] and of no type. *)
Class Cjson (J : Type) := {
  cJSON_ParseWithLength : bytes -> option J;
  cJSON_GetObjectItem : J -> bytes -> option J;
  cJSON_number : J -> option jnum;
  cJSON_bool : J -> option bool;
  cJSON_string : J -> option bytes;
  cJSON_IsObject : J -> bool;
  cJSON_IsArray : J -> bool;
  (** the elements of an array or members of an object, with their keys *)
  cJSON_children : J -> list (bytes * J)
}.

(** Values the program makes; a NULL string is [None]. *)
Inductive jval :=
| JNumber (v : Z)
| JString (s : option bytes)
| JBool (b : bool)
| JNull
| JObject (l : list (bytes * jval))
| JArray (l : list jval).

Section Access.
Context {J : Type} `{HJ : Cjson J}.

(** The macros [getNumberValue], [getBoolValue], [getStringValue]: [rv] is 0
    when there is a value. *)
Definition getNumberValue (obj : option J) (key : bytes) : option jnum :=
  obj ≫= fun o => cJSON_GetObjectItem o key ≫= cJSON_number.
Definition getBoolValue (obj : option J) (key : bytes) : option bool :=
  obj ≫= fun o => cJSON_GetObjectItem o key ≫= cJSON_bool.
Definition getStringValue (obj : option J) (key : bytes) : option bytes :=
  obj ≫= fun o => cJSON_GetObjectItem o key ≫= cJSON_string.

Definition get_object (obj : option J) (key : bytes) : option J := obj ≫= fun o => cJSON_GetObjectItem o key.
End Access.

(** Conversion of a double to an unsigned type of [w] bits: undefined when the
    integral part does not fit. *)
Definition to_uint (w : Z) (n : jnum) : exec Z :=
  if (0 <=? jn_trunc n) && (jn_trunc n <? 2 ^ w) then Ret (jn_trunc n) else UB.

(** Conversion to [int]. *)
Definition to_int (n : jnum) : exec Z :=
  if (- 2 ^ 31 <=? jn_trunc n) && (jn_trunc n <? 2 ^ 31) then Ret (jn_trunc n) else UB.

(** ** Responses *)

Section Reply.
(** [cJSON_PrintUnformatted] *)
Variable print : jval -> bytes.

Definition json_reply (status : Z) (content_type : option bytes) (v : jval) : exec http_msg :=
  let dest := print v in
  put_http_msg (set_status zero_http_msg status) content_type None None None (Some dest) (Zlen dest).

Definition application_json : option bytes := Some (str "application/json").

(** The content type of the request is repeated. *)
Definition error_response (msg : http_msg) (status code : Z) : exec http_msg :=
  json_reply status (hm_content_type msg) (JObject [(str "code", JNumber code)]).

Definition code_reply (status code : Z) : exec http_msg :=
  json_reply status application_json (JObject [(str "code", JNumber code)]).

(** The message of a reply. *)
Definition reply_msg (status : Z) (content_type : option bytes) (v : jval) : http_msg :=
  HttpMsg status 0 (match content_type with Some c => Zlen c | None => 0 end) content_type
    0 None 0 None 0 None (Zlen (print v)) (Some (print v)) false.

Lemma json_reply_ok status ct v : json_reply status ct v = Ret (reply_msg status ct v).
Proof.
  unfold json_reply, put_http_msg, reply_msg. rewrite slice_in by (pose proof (Zlen_nonneg (print v)); lia).
  cbn [ebind]. change (Z.to_nat 0) with 0%nat. rewrite drop_0, take_ge by (unfold Zlen; lia).
  by destruct ct.
Qed.
End Reply.

(** ** A concrete instance

    Values are trees; looking a member up takes the first with the key.  The
    parser is given by its table of texts. *)

Inductive jtree :=
| TNum (n : jnum) | TStr (s : bytes) | TBool (b : bool) | TNull
| TObj (l : list (bytes * jtree)) | TArr (l : list jtree).

Fixpoint tfind (key : bytes) (l : list (bytes * jtree)) : option jtree :=
  match l with
  | [] => None
  | (k, v) :: l' => if bool_decide (k = key) then Some v else tfind key l'
  end.

Definition jtree_cjson (parse : bytes -> option jtree) : Cjson jtree := {|
  cJSON_ParseWithLength := parse;
  cJSON_GetObjectItem o key := match o with TObj l => tfind key l | _ => None end;
  cJSON_number o := match o with TNum n => Some n | _ => None end;
  cJSON_bool o := match o with TBool b => Some b | _ => None end;
  cJSON_string o := match o with TStr s => Some s | _ => None end;
  cJSON_IsObject o := match o with TObj _ => true | _ => false end;
  cJSON_IsArray o := match o with TArr _ => true | _ => false end;
  cJSON_children o := match o with TObj l => l | TArr l => (fun v => ([], v)) <$> l | _ => [] end
|}.

(** What the program makes, read again.  A member with a NULL string was never
    added: it has no value of any type. *)
Fixpoint jfind (key : bytes) (l : list (bytes * jval)) : option jval :=
  match l with
  | [] => None
  | (k, v) :: l' => if bool_decide (k = key) then Some v else jfind key l'
  end.

Definition jval_cjson (parse : bytes -> option jval) : Cjson jval := {|
  cJSON_ParseWithLength := parse;
  cJSON_GetObjectItem o key := match o with JObject l => jfind key l | _ => None end;
  cJSON_number o := match o with JNumber n => Some (JNum n true []) | _ => None end;
  cJSON_bool o := match o with JBool b => Some b | _ => None end;
  cJSON_string o := match o with JString s => s | _ => None end;
  cJSON_IsObject o := match o with JObject _ => true | _ => false end;
  cJSON_IsArray o := match o with JArray _ => true | _ => false end;
  cJSON_children o := match o with JObject l => l | JArray l => (fun v => ([], v)) <$> l | _ => [] end
|}.
