(* ===== verification/RuleEngine.v ===== *)
(** * pub_handler.c: the rule engine

    Compiled with SUPP_RULE_ENGINE.  Each PUBLISH that a work item sends is
    compared with the rules; for a rule that matches, the parts it selects are
    published again as JSON, or inserted into a table of SQLite or MySQL.  The
    code for FoundationDB (FDB_SUPPORT) is left out but for its keys. *)

From Stdlib Require Import ZArith Lia.
From stdpp Require Import base numbers list option strings.
From S2P Require Import Prelude Mqtt Cstring RestHttp Cjson.

Local Open Scope Z_scope.
Local Open Scope nano_scope.

(** ** Rules *)

Inductive rule_cmp_type :=
| RULE_CMP_EQUAL | RULE_CMP_UNEQUAL | RULE_CMP_GREATER | RULE_CMP_LESS
| RULE_CMP_GREATER_AND_EQUAL | RULE_CMP_LESS_AND_EQUAL | RULE_CMP_NONE.

(** The nine indexes of the arrays of a rule. *)
Inductive rule_field :=
| RULE_QOS | RULE_ID | RULE_TOPIC | RULE_CLIENTID | RULE_USERNAME | RULE_PASSWORD
| RULE_TIMESTAMP | RULE_PAYLOAD_ALL | RULE_PAYLOAD_FIELD.

#[export] Instance rule_field_eq_dec : EqDecision rule_field.
Proof. solve_decision. Defined.

Inductive rule_forword := RULE_FORWORD_REPUB | RULE_FORWORD_SQLITE | RULE_FORWORD_MYSOL | RULE_FORWORD_FDB.

#[export] Instance rule_forword_eq_dec : EqDecision rule_forword.
Proof. solve_decision. Defined.

(** A word that is a number, a string, a cJSON value or one that was deleted;
    the type is the one of [payload->type]. *)
Inductive pvalue (J : Type) := PNum (v : Z) | PStr (s : bytes) | PObj (j : J) | PGone.
Arguments PNum {J}.
Arguments PStr {J}.
Arguments PObj {J}.
Arguments PGone {J}.

Record rule_payload (J : Type) := RulePayload {
  rp_psa : list bytes;
  rp_filter : option bytes;
  rp_cmp_type : rule_cmp_type;
  rp_is_store : bool;
  rp_pas : option bytes;
  rp_value : option (pvalue J)
}.
Arguments RulePayload {J}.
Arguments rp_psa {J}. Arguments rp_filter {J}. Arguments rp_cmp_type {J}.
Arguments rp_is_store {J}. Arguments rp_pas {J}. Arguments rp_value {J}.

Record rule_key := RuleKey { rk_flag : rule_field -> bool; rk_auto_inc : bool; rk_key_arr : list bytes }.

(** Arrays are functions of their index; a NULL array of filters is [None]. *)
Record rule (J : Type) := Rule {
  ru_enabled : bool;
  ru_topic : bytes;
  ru_filter : option (rule_field -> option bytes);
  ru_cmp_type : rule_field -> rule_cmp_type;
  ru_flag : rule_field -> bool;
  ru_as : rule_field -> option bytes;
  ru_payload : list (rule_payload J);
  ru_forword_type : rule_forword;
  ru_repub_clientid : option bytes;
  ru_repub_topic : bytes;
  ru_table : bytes;
  ru_key : rule_key
}.
Arguments Rule {J}.
Arguments ru_enabled {J}. Arguments ru_topic {J}. Arguments ru_filter {J}. Arguments ru_cmp_type {J}.
Arguments ru_flag {J}. Arguments ru_as {J}. Arguments ru_payload {J}. Arguments ru_forword_type {J}.
Arguments ru_repub_clientid {J}. Arguments ru_repub_topic {J}. Arguments ru_table {J}. Arguments ru_key {J}.

(** What the rule engine reads of a work item; [time(NULL)]. *)
Record rule_input := RuleInput {
  in_qos : Z;
  in_packet_id : Z;
  in_topic : option bytes;
  in_payload : mqtt_payload;
  in_clientid : option bytes;
  in_username : option bytes;
  in_password : option bytes;
  in_time : Z
}.

(** ** Comparing *)

Definition cmp_int (value_checked value_seted : Z) (type : rule_cmp_type) : bool :=
  match type with
  | RULE_CMP_EQUAL => value_checked =? value_seted
  | RULE_CMP_UNEQUAL => negb (value_checked =? value_seted)
  | RULE_CMP_GREATER => negb (value_checked <=? value_seted)
  | RULE_CMP_LESS => negb (value_seted <=? value_checked)
  | RULE_CMP_GREATER_AND_EQUAL => negb (value_checked <? value_seted)
  | RULE_CMP_LESS_AND_EQUAL => negb (value_seted <? value_checked)
  | RULE_CMP_NONE => true
  end.

(** The comparison ends after [len] characters of the checked string. *)
Definition cmp_str (value_checked : option bytes) (len : Z) (value_seted : bytes) (type : rule_cmp_type)
    : exec bool :=
  match value_checked with
  | None => Ret false
  | Some s =>
      match type with
      | RULE_CMP_EQUAL => strncmp_eq (Z.to_nat len) (s ++ [0]) (value_seted ++ [0])
      | RULE_CMP_UNEQUAL =>
          let* same := strncmp_eq (Z.to_nat len) (s ++ [0]) (value_seted ++ [0]) in Ret (negb same)
      | _ => Ret true
      end
  end.

(** [cmp_str(s, strlen(s), ..)]: the length is taken before NULL is looked for. *)
Definition cmp_strlen (s : option bytes) (value_seted : bytes) (type : rule_cmp_type) : exec bool :=
  match s with Some t => cmp_str s (Zlen t) value_seted type | None => UB end.

Section Engine.
Context {J : Type} `{HJ : Cjson J}.
(** [cJSON_Compare], with case *)
Variable cJSON_Compare : J -> J -> bool.
(** [topic_filter] of nanolib *)
Variable topic_filter : bytes -> option bytes -> bool.
(** the fields in the order of their indexes *)
Variable fields : list rule_field.

(** ** Payload conditions *)

(** A double as a [long]. *)
Definition to_long (n : jnum) : exec Z :=
  if (- 2 ^ 63 <=? jn_trunc n) && (jn_trunc n <? 2 ^ 63) then Ret (jn_trunc n) else UB.

Definition set_value (p : rule_payload J) (v : option (pvalue J)) : rule_payload J :=
  RulePayload (rp_psa p) (rp_filter p) (rp_cmp_type p) (rp_is_store p) (rp_pas p) v.

(** [free(payload->value)], if it is not NULL. *)
Definition free_value (v : option (pvalue J)) : exec unit :=
  match v with
  | None => Ret tt
  | Some (PNum n) => if n =? 0 then Ret tt else UB
  | Some (PStr _) | Some (PObj _) => Ret tt
  | Some PGone => UB
  end.

(** One condition on the value found.  In the case of an object, [filter] is a
    variable of its own, so the result is never [false]. *)
Definition payload_step (p : rule_payload J) (jp : J) : exec (bool * rule_payload J) :=
  match cJSON_number jp with
  | Some n =>
      let* num := to_long n in
      if match rp_filter p with Some f => negb (cmp_int (s32 num) (atoi f) (rp_cmp_type p)) | None => false end
      then Ret (false, p)
      else Ret (true, set_value p (Some (PNum num)))
  | None =>
      match cJSON_string jp with
      | Some s =>
          let* ok := match rp_filter p with
                     | Some f => cmp_strlen (Some s) f (rp_cmp_type p)
                     | None => Ret true
                     end in
          if negb ok then Ret (false, p)
          else let* _ := free_value (rp_value p) in Ret (true, set_value p (Some (PStr s)))
      | None =>
          if cJSON_IsObject jp then
            let filter := rp_filter p ≫= cJSON_ParseWithLength in
            if negb (rp_is_store p) && match filter with Some f => negb (cJSON_Compare jp f) | None => false end
            then Ret (true, p)
            else Ret (true, set_value p (Some (PObj jp)))
          else Ret (true, p)
      end
  end.

(** The value under a path. *)
Definition follow (jp : option J) (psa : list bytes) : option J :=
  foldl (fun jp key => jp ≫= fun o => cJSON_GetObjectItem o key) jp psa.

Fixpoint payload_loop (jp : option J) (ps : list (rule_payload J)) : exec (bool * list (rule_payload J)) :=
  match ps with
  | [] => Ret (true, [])
  | p :: ps' =>
      match follow jp (rp_psa p) with
      | None => Ret (false, ps)
      | Some o =>
          let* r := payload_step p o in
          let '(ok, p) := r in
          if negb ok then Ret (false, p :: ps')
          else let* r := payload_loop jp ps' in Ret (r.1, p :: r.2)
      end
  end.

Definition set_payload (info : rule J) (ps : list (rule_payload J)) : rule J :=
  Rule (ru_enabled info) (ru_topic info) (ru_filter info) (ru_cmp_type info) (ru_flag info) (ru_as info) ps
    (ru_forword_type info) (ru_repub_clientid info) (ru_repub_topic info) (ru_table info) (ru_key info).

Definition payload_filter (pay : mqtt_payload) (info : rule J) : exec (bool * rule J) :=
  let jp := pl_data pay ≫= fun d => cJSON_ParseWithLength (take (Z.to_nat (pl_len pay)) d) in
  let* r := payload_loop jp (ru_payload info) in
  Ret (r.1, set_payload info r.2).

(** ** Matching *)

Definition no_payload (pay : mqtt_payload) : bool :=
  bool_decide (pl_data pay = None) || (pl_len pay <=? 0).

(** The condition on one field, when there is one. *)
Definition check_field (inp : rule_input) (info : rule J) (f : rule_field) (val : option bytes)
    : exec (bool * rule J) :=
  let cmp := ru_cmp_type info f in
  let plain r := let* ok := r in Ret (ok, info) in
  match f, val with
  | RULE_PAYLOAD_FIELD, _ =>
      if no_payload (in_payload inp) then Ret (false, info) else payload_filter (in_payload inp) info
  | _, None => Ret (true, info)
  | RULE_QOS, Some v => Ret (cmp_int (in_qos inp) (atoi v) cmp, info)
  | RULE_ID, Some v => Ret (cmp_int (in_packet_id inp) (atoi v) cmp, info)
  | RULE_TOPIC, Some v => plain (cmp_strlen (in_topic inp) v cmp)
  | RULE_CLIENTID, Some v => plain (cmp_strlen (in_clientid inp) v cmp)
  | RULE_USERNAME, Some v => plain (cmp_strlen (in_username inp) v cmp)
  | RULE_PASSWORD, Some v => plain (cmp_strlen (in_password inp) v cmp)
  | RULE_TIMESTAMP, Some v => Ret (cmp_int (s32 (in_time inp)) (atoi v) cmp, info)
  | RULE_PAYLOAD_ALL, Some v =>
      if no_payload (in_payload inp) then Ret (false, info)
      else plain (cmp_str (pl_data (in_payload inp)) (pl_len (in_payload inp)) v cmp)
  end.

Fixpoint filter_loop (inp : rule_input) (info : rule J) (filter : rule_field -> option bytes)
    (fs : list rule_field) : exec (bool * rule J) :=
  match fs with
  | [] => Ret (true, info)
  | f :: fs' =>
      let* r := check_field inp info f (filter f) in
      let '(ok, info) := r in
      if negb ok then Ret (false, info) else filter_loop inp info filter fs'
  end.

Definition rule_engine_filter (inp : rule_input) (info : rule J) : exec (bool * rule J) :=
  let* own := match ru_forword_type info, ru_repub_clientid info with
              | RULE_FORWORD_REPUB, Some id => cmp_strlen (in_clientid inp) id RULE_CMP_EQUAL
              | _, _ => Ret false
              end in
  if own : bool then Ret (false, info)
  else if topic_filter (ru_topic info) (in_topic inp) then
    match ru_filter info with
    | Some filter => filter_loop inp info filter fields
    | None => Ret (true, info)
    end
  else Ret (false, info).
End Engine.

(** ** Keys and JSON *)

(** [sprintf] and [strcat] into a buffer of [cap] characters; [%s] of NULL is
    undefined. *)
Definition fits (cap : Z) (s : bytes) : exec bytes := if Zlen s <? cap then Ret s else UB.
Definition text (s : option bytes) : exec bytes := match s with Some s => Ret s | None => UB end.

(** A member of the JSON object: a NULL string is not added. *)
Inductive jmember (J : Type) := MNum (v : Z) | MStr (s : option bytes) | MItem (j : J).
Arguments MNum {J}.
Arguments MStr {J}.
Arguments MItem {J}.

Section Output.
Context {J : Type} `{HJ : Cjson J}.
Variable fields : list rule_field.

(** The text a field gives, and the index behind it when it counts. *)
Definition key_text (inp : rule_input) (key : rule_key) (f : rule_field) : exec (option bytes) :=
  let some r := let* t := r in Ret (Some t) in
  match f with
  | RULE_QOS => Ret (Some (dec (in_qos inp)))
  | RULE_ID => Ret (Some (dec (in_packet_id inp)))
  | RULE_TOPIC => some (text (in_topic inp))
  | RULE_CLIENTID => some (text (in_clientid inp))
  | RULE_USERNAME => some (text (in_username inp))
  | RULE_PASSWORD => some (text (in_password inp))
  | RULE_TIMESTAMP => Ret (Some (dec (in_time inp)))
  | RULE_PAYLOAD_ALL => some (let* d := text (pl_data (in_payload inp)) in Ret (cstr d))
  | RULE_PAYLOAD_FIELD =>
      let jp := pl_data (in_payload inp) ≫= fun d =>
                  cJSON_ParseWithLength (take (Z.to_nat (pl_len (in_payload inp))) d) in
      match follow jp (rk_key_arr key) with
      | None => UB
      | Some o =>
          match cJSON_string o with
          | Some s => Ret (Some s)
          | None =>
              match cJSON_number o with
              | Some n => let* v := to_long n in Ret (Some (dec v))
              | None => Ret None
              end
          end
      end
  end.

(** The key for field [f], and the index after it, which never reaches its
    largest value. *)
Definition generate_key (inp : rule_input) (key : rule_key) (f : rule_field) (index : Z)
    : exec (option bytes * Z) :=
  let index := if index =? 2 ^ 32 - 1 then 0 else index in
  if negb (rk_flag key f) then Ret (None, index)
  else
    let* t := key_text inp key f in
    match t with
    | None => Ret (None, index)
    | Some t =>
        let* s := fits 64 (if rk_auto_inc key then t ++ dec (s32 index) else t) in
        Ret (if bool_decide (s = []) then None else Some s, if rk_auto_inc key then u32 (index + 1) else index)
    end.

Fixpoint payload_members (ps : list (rule_payload J)) : exec (list (bytes * jmember J)) :=
  match ps with
  | [] => Ret []
  | p :: ps' =>
      let* m := match rp_is_store p, rp_pas p, rp_value p with
                | true, Some pas, Some (PNum n) => Ret [(pas, MNum n)]
                | true, Some pas, Some (PStr s) => Ret [(pas, MStr (Some s))]
                | true, Some pas, Some (PObj j) => Ret [(pas, MItem j)]
                | true, Some _, Some PGone => UB
                | _, _, _ => Ret []
                end in
      let* ms := payload_members ps' in
      Ret (m ++ ms)
  end.

Definition add_info_to_json (inp : rule_input) (info : rule J) (f : rule_field) : exec (list (bytes * jmember J)) :=
  if negb (ru_flag info f) then Ret []
  else
    let as_or name := default (str name) (ru_as info f) in
    match f with
    | RULE_QOS => Ret [(as_or "qos"%string, MNum (in_qos inp))]
    | RULE_ID => Ret [(as_or "id"%string, MNum (in_packet_id inp))]
    | RULE_TOPIC => Ret [(as_or "topic"%string, MStr (in_topic inp))]
    | RULE_CLIENTID => Ret [(as_or "clientid"%string, MStr (in_clientid inp))]
    | RULE_USERNAME => Ret [(as_or "username"%string, MStr (in_username inp))]
    | RULE_PASSWORD => Ret [(as_or "password"%string, MStr (in_password inp))]
    | RULE_TIMESTAMP => Ret [(as_or "timestamp"%string, MNum (in_time inp))]
    | RULE_PAYLOAD_ALL =>
        let data := pl_data (in_payload inp) in
        match data ≫= fun d => cJSON_ParseWithLength (take (Z.to_nat (pl_len (in_payload inp))) d) with
        | Some jp => Ret [(as_or "payload"%string, MItem jp)]
        | None => Ret [(as_or "payload"%string, MStr (cstr <$> data))]
        end
    | RULE_PAYLOAD_FIELD => payload_members (ru_payload info)
    end.

Fixpoint members_loop (inp : rule_input) (info : rule J) (fs : list rule_field) : exec (list (bytes * jmember J)) :=
  match fs with
  | [] => Ret []
  | f :: fs' =>
      let* m := add_info_to_json inp info f in
      let* ms := members_loop inp info fs' in
      Ret (m ++ ms)
  end.

(** [cJSON_Delete] of the object: the values that were put into it are gone. *)
Definition drop_objects (info : rule J) : rule J :=
  if ru_flag info RULE_PAYLOAD_FIELD then
    set_payload info
      ((fun p => match rp_is_store p, rp_pas p, rp_value p with
                 | true, Some _, Some (PObj _) => set_value p (Some PGone)
                 | _, _, _ => p
                 end) <$> ru_payload info)
  else info.

(** ** SQL *)

(** [cJSON_PrintUnformatted] of a parsed value *)
Variable print_item : J -> bytes.

(** The column and the value of a plain field. *)
Definition column_name (info : rule J) (f : rule_field) : bytes :=
  default (str match f with
               | RULE_QOS => "Qos" | RULE_ID => "Id" | RULE_TOPIC => "Topic" | RULE_CLIENTID => "Clientid"
               | RULE_USERNAME => "Username" | RULE_PASSWORD => "Password" | RULE_TIMESTAMP => "Timestamp"
               | RULE_PAYLOAD_ALL => "Payload" | RULE_PAYLOAD_FIELD => ""
               end) (ru_as info f).

Definition quoted (s : option bytes) : exec bytes := let* t := text s in Ret (39 :: t ++ [39]).

Definition column_value (inp : rule_input) (f : rule_field) : exec bytes :=
  match f with
  | RULE_QOS => Ret (dec (in_qos inp))
  | RULE_ID => quoted (Some (dec (in_packet_id inp)))
  | RULE_TOPIC => quoted (in_topic inp)
  | RULE_CLIENTID => quoted (in_clientid inp)
  | RULE_USERNAME => quoted (in_username inp)
  | RULE_PASSWORD => quoted (in_password inp)
  | RULE_TIMESTAMP => Ret (dec (in_time inp))
  | RULE_PAYLOAD_ALL => quoted (cstr <$> pl_data (in_payload inp))
  | RULE_PAYLOAD_FIELD => Ret []
  end.

(** "ALTER TABLE .. ADD ..", at most 127 characters of it. *)
Definition alter (info : rule J) (is_need_set : bool) (pas type : bytes) : bytes :=
  if is_need_set && (bool_decide (ru_forword_type info = RULE_FORWORD_SQLITE) ||
                     bool_decide (ru_forword_type info = RULE_FORWORD_MYSOL))
  then take 127 (str "ALTER TABLE " ++ ru_table info ++ str " ADD " ++ pas ++ str " " ++ type ++ str ";" ++ [10])
  else [].

Definition VALUES : bytes := str "VALUES (".

(** The stored payload values behind [key] and [value]; the third text collects
    the changes of the table. *)
Fixpoint payload_columns (info : rule J) (is_need_set : bool) (ps : list (rule_payload J))
    (key value ret_key : bytes) : exec (bytes * bytes * bytes) :=
  match ps with
  | [] => Ret (key, value, ret_key)
  | p :: ps' =>
      match rp_is_store p, rp_pas p, rp_value p with
      | true, Some pas, Some v =>
          let* c := match v with
                    | PNum n => Ret (str "INT", dec n)
                    | PStr s => Ret (str "TEXT", 39 :: s ++ [39])
                    | PObj j => Ret (str "TEXT", 39 :: print_item j ++ [39])
                    | PGone => UB
                    end in
          let* key := fits 128 (key ++ pas ++ str ", ") in
          let* value := fits 800 (value ++ (if Zlen VALUES <? Zlen value then str ", " else str " ") ++ c.2) in
          let* ret_key := fits 512 (ret_key ++ alter info is_need_set pas c.1) in
          payload_columns info is_need_set ps' key value ret_key
      | _, _, _ => payload_columns info is_need_set ps' key value ret_key
      end
  end.

(** [key] and [value] after field [f], and the commands for the table. *)
Definition compose_sql_clause (inp : rule_input) (info : rule J) (is_need_set : bool) (f : rule_field)
    (key value : bytes) : exec (bytes * bytes * option bytes) :=
  if negb (ru_flag info f) then Ret (key, value, None)
  else
    match f with
    | RULE_PAYLOAD_FIELD =>
        let* r := payload_columns info is_need_set (ru_payload info) key value [] in
        let '(key, value, ret_key) := r in
        let* value := fits 800 (value ++ str ", ") in
        Ret (key, value, if bool_decide (ret_key = []) then None else Some ret_key)
    | _ =>
        let* v := column_value inp f in
        let* key := fits 128 (key ++ column_name info f ++ str ", ") in
        let* value := fits 800 (value ++ v ++ str ", ") in
        Ret (key, value, None)
    end.

(** [*strrchr(s, ',') = ')'] *)
Definition close_paren (s : bytes) : exec bytes :=
  match strrchr s 44 with Some (pre, rest) => Ret (pre ++ 41 :: drop 1 rest) | None => UB end.

(** The command for both texts, in a buffer of 1024 characters. *)
Definition insert_clause (key value : bytes) : exec bytes :=
  let* key := close_paren key in
  let* value := close_paren value in
  fits 1024 (str "INSERT INTO " ++ key ++ value ++ str ";").
End Output.

(** ** Running the rules *)

(** Publishing again, and commands for the databases. *)
Inductive rule_ev :=
| RPublish (topic json : bytes)
| RSqlite (sql : bytes)
| RSqliteClose
| RMysql (sql : bytes)
| RMysqlClose.

(** The bits of [rule_eng.option]. *)
Record rule_opts := RuleOpts { opt_rpb : bool; opt_sdb : bool; opt_mdb : bool }.

(** [rdb[0]]: NULL before the first [nanomq_client_sqlite], then open until the
    engine closes it; the pointer stays. *)
Inductive sqlite_conn := SqliteNone | SqliteOpen | SqliteClosed.

(** The static variables, and the SQLite connection. *)
Record engine_flags := EngineFlags { fl_first : bool; fl_first_mysql : bool; fl_sdb : sqlite_conn }.

Section Run.
Context {J : Type} `{HJ : Cjson J}.
Variable cJSON_Compare : J -> J -> bool.
Variable topic_filter : bytes -> option bytes -> bool.
Variable fields : list rule_field.
(** [cJSON_PrintUnformatted] of a parsed value and of the object *)
Variable print_item : J -> bytes.
Variable print_obj : list (bytes * jmember J) -> bytes.
(** whether the databases accept a command *)
Variables sqlite_ok mysql_ok : bytes -> bool.
Variable opts : rule_opts.

Definition sql_key (info : rule J) : bytes := take 127 (ru_table info ++ str " (").

(** [sqlite3_exec] turns NULL away (SQLITE_MISUSE); a closed connection must not
    be used. *)
Fixpoint sqlite_loop (inp : rule_input) (info : rule J) (sdb : sqlite_conn) (need : bool) (fs : list rule_field)
    (key value : bytes) : exec (list rule_ev * bytes * bytes) :=
  match fs with
  | [] => Ret ([], key, value)
  | f :: fs' =>
      let* c := compose_sql_clause print_item inp info need f key value in
      let '(key, value, ret) := c in
      let* evs := match ret with
                  | Some sql =>
                      match sdb with SqliteNone => Ret [] | SqliteOpen => Ret [RSqlite sql] | SqliteClosed => UB end
                  | None => Ret []
                  end in
      let* r := sqlite_loop inp info sdb need fs' key value in
      let '(evs', key, value) := r in
      Ret (evs ++ evs', key, value)
  end.

(** The commands of a text, one per line. *)
Fixpoint sql_lines (fuel : nat) (s : bytes) : list bytes :=
  match fuel with
  | O => []
  | S fuel' => match cut s 10 with Some (line, rest) => line :: sql_lines fuel' rest | None => [] end
  end.

(** The table is changed by the first text only. *)
Fixpoint mysql_loop (inp : rule_input) (info : rule J) (need : bool) (fs : list rule_field)
    (key value : bytes) : exec (list rule_ev * bool * bytes * bytes) :=
  match fs with
  | [] => Ret ([], need, key, value)
  | f :: fs' =>
      let* c := compose_sql_clause print_item inp info need f key value in
      let '(key, value, ret) := c in
      let '(evs, need) := match ret with
                          | Some sql => if need then (RMysql <$> sql_lines (length sql) sql, false) else ([], need)
                          | None => ([], need)
                          end in
      let* r := mysql_loop inp info need fs' key value in
      let '(evs', need, key, value) := r in
      Ret (evs ++ evs', need, key, value)
  end.

(** One rule that matches: the calls, the rule, the variables, and what the
    function returns at once ([Some (Some 1)]), or that the process exits
    ([Some None]). *)
Definition apply_rule (inp : rule_input) (info : rule J) (fl : engine_flags) (need need_mysql : bool)
    : exec (list rule_ev * rule J * engine_flags * bool * bool * option (option Z)) :=
  match ru_forword_type info with
  | RULE_FORWORD_REPUB =>
      if opt_rpb opts then
        let* ms := members_loop inp info fields in
        Ret ([RPublish (ru_repub_topic info) (print_obj ms)], drop_objects info, fl, need, need_mysql, None)
      else Ret ([], info, fl, need, need_mysql, None)
  | RULE_FORWORD_SQLITE =>
      if opt_sdb opts then
        let need := need || fl_first fl in
        let* r := sqlite_loop inp info (fl_sdb fl) need fields (sql_key info) VALUES in
        let '(evs, key, value) := r in
        let* sql := insert_clause key value in
        match fl_sdb fl with
        | SqliteNone =>
            Ret (evs, info, EngineFlags false (fl_first_mysql fl) SqliteNone, need, need_mysql, Some (Some 1))
        | SqliteOpen =>
            if sqlite_ok sql then
              Ret (evs ++ [RSqlite sql], info, EngineFlags false (fl_first_mysql fl) SqliteOpen, need, need_mysql, None)
            else
              Ret (evs ++ [RSqlite sql; RSqliteClose], info, EngineFlags false (fl_first_mysql fl) SqliteClosed, need,
                   need_mysql, Some (Some 1))
        | SqliteClosed => UB
        end
      else Ret ([], info, fl, need, need_mysql, None)
  | RULE_FORWORD_MYSOL =>
      if opt_mdb opts then
        let need_mysql := need_mysql || fl_first_mysql fl in
        let* r := mysql_loop inp info need_mysql fields (sql_key info) VALUES in
        let '(evs, need_mysql, key, value) := r in
        let* sql := insert_clause key value in
        let fl := EngineFlags (fl_first fl) false (fl_sdb fl) in
        if mysql_ok sql then Ret (evs ++ [RMysql sql], info, fl, need, need_mysql, None)
        else Ret (evs ++ [RMysql sql; RMysqlClose], info, fl, need, need_mysql, Some None)
      else Ret ([], info, fl, need, need_mysql, None)
  | RULE_FORWORD_FDB => Ret ([], info, fl, need, need_mysql, None)
  end.

Fixpoint rules_loop (inp : rule_input) (rules : list (rule J)) (fl : engine_flags) (need need_mysql : bool)
    : exec (list rule_ev * list (rule J) * engine_flags * option Z) :=
  match rules with
  | [] => Ret ([], [], fl, Some 0)
  | info :: rules' =>
      let* m := (if ru_enabled info then rule_engine_filter cJSON_Compare topic_filter fields inp info
                 else Ret (false, info)) in
      let '(ok, info) := m in
      let* a := (if ok : bool then apply_rule inp info fl need need_mysql
                 else Ret ([], info, fl, need, need_mysql, None)) in
      let '(evs, info, fl, need, need_mysql, stop) := a in
      match stop with
      | Some rv => Ret (evs, info :: rules', fl, rv)
      | None =>
          let* r := rules_loop inp rules' fl need need_mysql in
          let '(evs', rules', fl, rv) := r in
          Ret (evs ++ evs', info :: rules', fl, rv)
      end
  end.

Definition rule_engine_insert_sql (inp : rule_input) (rules : list (rule J)) (fl : engine_flags)
    : exec (list rule_ev * list (rule J) * engine_flags * option Z) :=
  rules_loop inp rules fl false false.
End Run.

(** ** Lemmas *)

Lemma strncmp_prefix s v :
  0 ∉ s -> 0 ∉ v -> strncmp_eq (length s) (s ++ [0]) (v ++ [0]) = Ret (bool_decide (s `prefix_of` v)).
Proof.
  revert v. induction s as [|x s IH]; intros v Hs Hv; cbn [length strncmp_eq app].
  - by rewrite bool_decide_eq_true_2 by apply prefix_nil.
  - apply not_elem_of_cons in Hs as [Hx Hs]. destruct v as [|y v]; cbn [app].
    + rewrite (proj2 (Z.eqb_neq _ _)) by done. cbn [negb].
      rewrite bool_decide_eq_false_2; [done|]. by intros [? [=]].
    + apply not_elem_of_cons in Hv as [Hy Hv]. destruct (Z.eqb_spec x y) as [<-|Hxy]; cbn [negb].
      * rewrite (proj2 (Z.eqb_neq _ _)) by done. rewrite IH by done. f_equal. apply bool_decide_ext.
        split; [apply prefix_cons|apply prefix_cons_inv_2].
      * rewrite bool_decide_eq_false_2; [done|]. by intros ?%prefix_cons_inv_1.
Qed.

(** What a condition on a string asks: of the six comparisons only two look at
    it, and equal means that the checked string is a beginning. *)
Definition str_holds (s v : bytes) (type : rule_cmp_type) : bool :=
  match type with
  | RULE_CMP_EQUAL => bool_decide (s `prefix_of` v)
  | RULE_CMP_UNEQUAL => negb (bool_decide (s `prefix_of` v))
  | _ => true
  end.

Lemma cmp_strlen_ok s v type :
  0 ∉ s -> 0 ∉ v -> cmp_strlen (Some s) v type = Ret (str_holds s v type).
Proof.
  intros Hs Hv. unfold cmp_strlen, cmp_str, Zlen. rewrite Nat2Z.id, strncmp_prefix by done.
  by destruct type.
Qed.

(** The meaning of the comparisons, for integers and for strings. *)
Definition int_means (a b : Z) (type : rule_cmp_type) : Prop :=
  match type with
  | RULE_CMP_EQUAL => a = b | RULE_CMP_UNEQUAL => a <> b
  | RULE_CMP_GREATER => b < a | RULE_CMP_LESS => a < b
  | RULE_CMP_GREATER_AND_EQUAL => b <= a | RULE_CMP_LESS_AND_EQUAL => a <= b
  | RULE_CMP_NONE => True
  end.

Definition str_means (s v : bytes) (type : rule_cmp_type) : Prop :=
  match type with
  | RULE_CMP_EQUAL => s `prefix_of` v
  | RULE_CMP_UNEQUAL => ~ s `prefix_of` v
  | _ => True
  end.

(** Integers are compared as the names say. *)
Lemma cmp_int_means a b type : cmp_int a b type = true <-> int_means a b type.
Proof. destruct type; cbn; rewrite ?negb_true_iff; try lia; done. Qed.

Lemma str_holds_means s v type : str_holds s v type = true <-> str_means s v type.
Proof. destruct type; cbn; rewrite ?negb_true_iff, ?bool_decide_eq_true, ?bool_decide_eq_false; done. Qed.

Section FilterProps.
Context {J : Type} `{HJ : Cjson J}.
Variable cJSON_Compare : J -> J -> bool.
Variable topic_filter : bytes -> option bytes -> bool.
Variable fields : list rule_field.

(** A message whose strings are there and free of NULs. *)
Record input_ok (inp : rule_input) (t cid user pass : bytes) : Prop := InputOk {
  io_topic : in_topic inp = Some t /\ 0 ∉ t;
  io_clientid : in_clientid inp = Some cid /\ 0 ∉ cid;
  io_username : in_username inp = Some user /\ 0 ∉ user;
  io_password : in_password inp = Some pass /\ 0 ∉ pass;
  io_payload : match pl_data (in_payload inp) with
               | Some d => 0 ∉ d /\ pl_len (in_payload inp) = Zlen d
               | None => True
               end
}.

Definition field_holds (inp : rule_input) (t cid user pass : bytes) (f : rule_field) (type : rule_cmp_type)
    (val : option bytes) : bool :=
  match f, val with
  | RULE_PAYLOAD_FIELD, _ => negb (no_payload (in_payload inp))
  | _, None => true
  | RULE_QOS, Some v => cmp_int (in_qos inp) (atoi v) type
  | RULE_ID, Some v => cmp_int (in_packet_id inp) (atoi v) type
  | RULE_TOPIC, Some v => str_holds t v type
  | RULE_CLIENTID, Some v => str_holds cid v type
  | RULE_USERNAME, Some v => str_holds user v type
  | RULE_PASSWORD, Some v => str_holds pass v type
  | RULE_TIMESTAMP, Some v => cmp_int (s32 (in_time inp)) (atoi v) type
  | RULE_PAYLOAD_ALL, Some v =>
      negb (no_payload (in_payload inp)) && str_holds (default [] (pl_data (in_payload inp))) v type
  end.

(** What a condition says of a message. *)
Definition field_means (inp : rule_input) (t cid user pass : bytes) (f : rule_field) (type : rule_cmp_type)
    (val : option bytes) : Prop :=
  let some_payload (P : bytes -> Prop) := exists d, pl_data (in_payload inp) = Some d /\ 0 < pl_len (in_payload inp) /\ P d in
  match f, val with
  | RULE_PAYLOAD_FIELD, _ => some_payload (fun _ => True)
  | _, None => True
  | RULE_QOS, Some v => int_means (in_qos inp) (atoi v) type
  | RULE_ID, Some v => int_means (in_packet_id inp) (atoi v) type
  | RULE_TOPIC, Some v => str_means t v type
  | RULE_CLIENTID, Some v => str_means cid v type
  | RULE_USERNAME, Some v => str_means user v type
  | RULE_PASSWORD, Some v => str_means pass v type
  | RULE_TIMESTAMP, Some v => int_means (s32 (in_time inp)) (atoi v) type
  | RULE_PAYLOAD_ALL, Some v => some_payload (fun d => str_means d v type)
  end.

Lemma payload_there p (P : bytes -> Prop) (Q : Prop) :
  (forall d, pl_data p = Some d -> (P d <-> Q)) ->
  (exists d, pl_data p = Some d /\ 0 < pl_len p /\ P d) <-> negb (no_payload p) = true /\ Q.
Proof.
  intros HP. unfold no_payload. destruct p as [[d|] len]; cbn [pl_data pl_len] in *.
  - specialize (HP d eq_refl). split.
    + intros (? & [= <-] & Hl & Hd). split; [|by apply HP]. destruct (Z.leb_spec len 0); [lia|done].
    + intros [Hl HQ]. exists d. split; [done|]. split; [|by apply HP].
      destruct (Z.leb_spec len 0); [done|lia].
  - split; [by intros (? & [=] & _)|]. by intros [? _].
Qed.

Lemma field_holds_means inp t cid user pass f type val :
  field_holds inp t cid user pass f type val = true <-> field_means inp t cid user pass f type val.
Proof.
  destruct f, val as [v|]; cbn [field_holds field_means];
    rewrite ?cmp_int_means, ?str_holds_means; try done.
  - rewrite andb_true_iff, str_holds_means. symmetry. apply payload_there. by intros d ->.
  - rewrite (payload_there _ _ True) by done. tauto.
  - rewrite (payload_there _ _ True) by done. tauto.
Qed.

Lemma fields_hold_means inp t cid user pass types (filter : rule_field -> option bytes) fs :
  forallb (fun f => field_holds inp t cid user pass f (types f) (filter f)) fs = true <->
  Forall (fun f => field_means inp t cid user pass f (types f) (filter f)) fs.
Proof.
  rewrite forallb_forall, List.Forall_forall. split; intros H f Hf; apply field_holds_means; auto.
Qed.

Lemma check_field_ok inp info f val t cid user pass :
  input_ok inp t cid user pass -> ru_payload info = [] ->
  match val with Some v => 0 ∉ v | None => True end ->
  check_field cJSON_Compare inp info f val =
  Ret (field_holds inp t cid user pass f (ru_cmp_type info f) val, info).
Proof.
  intros [[Et Ht] [Ec Hc] [Eu Hu] [Ep Hp] Hd] Hpl Hv.
  assert (Hpf : check_field cJSON_Compare inp info RULE_PAYLOAD_FIELD val =
    Ret (negb (no_payload (in_payload inp)), info)).
  { cbn. destruct (no_payload (in_payload inp)); [done|]. unfold payload_filter. rewrite Hpl. cbn.
    unfold set_payload. rewrite <- Hpl. by destruct info. }
  destruct val as [v|]; [|by destruct f].
  destruct f; try done; cbn [check_field field_holds];
    try (by rewrite ?Et, ?Ec, ?Eu, ?Ep, cmp_strlen_ok by done).
  - clear Hpf. destruct (in_payload inp) as [[d|] len]; [|done]. cbn [pl_data pl_len default from_option id] in *.
    destruct Hd as [Hd ->]. destruct (no_payload _); cbn [negb andb]; [done|].
    change (cmp_str (Some d) (Zlen d) v (ru_cmp_type info RULE_PAYLOAD_ALL)) with
      (cmp_strlen (Some d) v (ru_cmp_type info RULE_PAYLOAD_ALL)).
    by rewrite cmp_strlen_ok.
Qed.

Lemma filter_loop_ok inp info filter fs t cid user pass :
  input_ok inp t cid user pass -> ru_payload info = [] ->
  (forall f v, filter f = Some v -> 0 ∉ v) ->
  filter_loop cJSON_Compare inp info filter fs =
  Ret (forallb (fun f => field_holds inp t cid user pass f (ru_cmp_type info f) (filter f)) fs, info).
Proof.
  intros Hi Hp Hv. induction fs as [|f fs IH]; [done|]. cbn [filter_loop forallb].
  rewrite (check_field_ok _ _ _ _ t cid user pass); [|done..|by destruct (filter f) eqn:E; [apply (Hv f)|]].
  cbn [ebind]. destruct (field_holds _ _ _ _ _ f _ _); cbn [negb andb]; [apply IH|done].
Qed.

(** What the filter says of a rule without conditions on payload fields. *)
Lemma rule_engine_filter_value inp info t cid user pass :
  input_ok inp t cid user pass -> ru_payload info = [] ->
  (forall filter f v, ru_filter info = Some filter -> filter f = Some v -> 0 ∉ v) ->
  (forall id, ru_repub_clientid info = Some id -> 0 ∉ id) ->
  rule_engine_filter cJSON_Compare topic_filter fields inp info =
  Ret (negb (bool_decide (ru_forword_type info = RULE_FORWORD_REPUB) &&
             match ru_repub_clientid info with Some id => bool_decide (cid `prefix_of` id) | None => false end) &&
       topic_filter (ru_topic info) (Some t) &&
       match ru_filter info with
       | Some filter => forallb (fun f => field_holds inp t cid user pass f (ru_cmp_type info f) (filter f)) fields
       | None => true
       end, info).
Proof.
  intros Hi Hp Hv Hid. pose proof Hi as [[Ht _] [Hc Hc0] _ _ _]. unfold rule_engine_filter.
  assert (Hown : (match ru_forword_type info, ru_repub_clientid info with
      | RULE_FORWORD_REPUB, Some id => cmp_strlen (in_clientid inp) id RULE_CMP_EQUAL
      | _, _ => Ret false end) =
    Ret (bool_decide (ru_forword_type info = RULE_FORWORD_REPUB) &&
         match ru_repub_clientid info with Some id => bool_decide (cid `prefix_of` id) | None => false end)).
  { destruct (ru_forword_type info); try done. destruct (ru_repub_clientid info) as [id|]; [|done].
    rewrite Hc, cmp_strlen_ok by (done || by apply Hid). done. }
  rewrite Hown. cbn [ebind]. destruct (bool_decide _ && _); cbn [negb andb]; [done|].
  rewrite Ht. destruct (topic_filter _ _); cbn [andb]; [|done].
  destruct (ru_filter info) as [filter|] eqn:Ef; [|done].
  apply filter_loop_ok; [done..|]. intros f v. by apply Hv.
Qed.

(** C23: A rule without conditions on payload fields, whose texts and whose
    message's strings are there and free of NULs, matches a message exactly when
    the topic fits its filter, each of its conditions holds (integers as the
    comparisons say; of strings "equal" says that the message's is a beginning of
    the rule's, "unequal" that it is not, and the others nothing) and, for a rule
    that publishes again, the message is not of its own client.  A rule with
    conditions matches no message without payload. *)
Theorem rule_engine_filter_correct inp info t cid user pass :
  input_ok inp t cid user pass -> ru_payload info = [] ->
  (forall filter f v, ru_filter info = Some filter -> filter f = Some v -> 0 ∉ v) ->
  (forall id, ru_repub_clientid info = Some id -> 0 ∉ id) ->
  exists b, rule_engine_filter cJSON_Compare topic_filter fields inp info = Ret (b, info) /\
    (b = true <->
     topic_filter (ru_topic info) (Some t) = true /\
     (forall id, ru_forword_type info = RULE_FORWORD_REPUB -> ru_repub_clientid info = Some id -> ~ cid `prefix_of` id) /\
     (forall filter, ru_filter info = Some filter ->
        Forall (fun f => field_means inp t cid user pass f (ru_cmp_type info f) (filter f)) fields)).
Proof.
  intros Hi Hp Hv Hid. eexists. split; [by apply (rule_engine_filter_value inp info t cid user pass)|].
  rewrite !andb_true_iff, negb_true_iff, andb_false_iff, bool_decide_eq_false.
  assert (Hcond : (match ru_filter info with
       | Some filter => forallb (fun f => field_holds inp t cid user pass f (ru_cmp_type info f) (filter f)) fields
       | None => true end = true) <->
     (forall filter, ru_filter info = Some filter ->
        Forall (fun f => field_means inp t cid user pass f (ru_cmp_type info f) (filter f)) fields)).
  { destruct (ru_filter info) as [filter|]; [|done]. rewrite fields_hold_means. split; [by intros ? ? [= <-]|auto]. }
  rewrite Hcond. split.
  - intros [[Hown Ht] Hf]. split_and!; [done| |done]. intros id Hty Hc. rewrite Hc in Hown.
    destruct Hown as [?|Hown]; [done|]. by apply bool_decide_eq_false in Hown.
  - intros (Ht & Hown & Hf). split_and!; [|done..]. destruct (decide (ru_forword_type info = RULE_FORWORD_REPUB)); [|by left].
    right. destruct (ru_repub_clientid info) as [id|]; [|done]. apply bool_decide_eq_false. by apply Hown.
Qed.

(** A rule on the user name follows NULL for a client without one. *)
Lemma rule_missing_username inp info v :
  in_username inp = None -> check_field cJSON_Compare inp info RULE_USERNAME (Some v) = UB.
Proof. intros Hu. cbn. by rewrite Hu. Qed.

(** A condition that asks for an object holds for any object. *)
Lemma rule_object_condition_ignored p o :
  cJSON_number o = None -> cJSON_string o = None -> cJSON_IsObject o = true ->
  exists p', payload_step cJSON_Compare p o = Ret (true, p').
Proof. intros Hn Hs Ho. unfold payload_step. rewrite Hn, Hs, Ho. by case_match; eexists. Qed.

(** The value of the payload field [psa]. *)
Definition payload_value (pay : mqtt_payload) (psa : list bytes) : option J :=
  follow (pl_data pay ≫= fun d => cJSON_ParseWithLength (take (Z.to_nat (pl_len pay)) d)) psa.

(** A rule that keeps a payload field takes a message whose field is a
    number other than 0, and is then destroyed by one whose field is a string:
    the number is released as if it were the address of a string. *)
Theorem rule_payload_type_change psa store pas pay1 pay2 info v1 v2 n k s :
  ru_payload info = [RulePayload psa None RULE_CMP_NONE store pas None] ->
  payload_value pay1 psa = Some v1 -> cJSON_number v1 = Some n -> to_long n = Ret k -> k <> 0 ->
  payload_value pay2 psa = Some v2 -> cJSON_number v2 = None -> cJSON_string v2 = Some s ->
  exists info', payload_filter cJSON_Compare pay1 info = Ret (true, info') /\
    payload_filter cJSON_Compare pay2 info' = UB.
Proof.
  unfold payload_value. intros Hp Hv1 Hn Hk Hk0 Hv2 Hn2 Hs2. unfold payload_filter. rewrite Hp.
  cbn [payload_loop rp_psa]. rewrite Hv1. unfold payload_step at 1. rewrite Hn, Hk. cbn [ebind rp_filter negb].
  eexists. split; [done|]. cbn [set_payload ru_payload fst snd set_value rp_psa payload_loop]. rewrite Hv2.
  unfold payload_step. rewrite Hn2, Hs2. cbn [rp_filter set_value ebind negb rp_value free_value].
  by rewrite (proj2 (Z.eqb_neq _ _)).
Qed.
End FilterProps.

(** ** SQL *)

Lemma strrchr_last pre c post : c ∉ post -> strrchr (pre ++ c :: post) c = Some (pre, c :: post).
Proof.
  intros Hp. induction pre as [|b pre IH]; cbn [app strrchr].
  - assert (Hn : strrchr post c = None).
    { induction post as [|b post IH]; [done|]. apply not_elem_of_cons in Hp as [Hb Hp]. cbn [strrchr].
      rewrite IH by done. by rewrite (proj2 (Z.eqb_neq b c)). }
    by rewrite Hn, Z.eqb_refl.
  - by rewrite IH.
Qed.

(** Each text with a comma behind it; with commas between them. *)
Definition with_commas (l : list bytes) : bytes := mjoin ((fun t => t ++ str ", ") <$> l).
Fixpoint commas (l : list bytes) : bytes :=
  match l with [] => [] | [x] => x | x :: l' => x ++ str ", " ++ commas l' end.

Lemma with_commas_eq l : l <> [] -> with_commas l = commas l ++ str ", ".
Proof.
  unfold with_commas. induction l as [|x [|y l] IH]; [done| |].
  - intros _. cbn -[str]. by rewrite app_nil_r.
  - intros _. change (mjoin ((fun t => t ++ str ", ") <$> x :: y :: l)) with
      ((x ++ str ", ") ++ mjoin ((fun t => t ++ str ", ") <$> y :: l)).
    rewrite IH by done. change (commas (x :: y :: l)) with (x ++ str ", " ++ commas (y :: l)).
    by rewrite <- !app_assoc.
Qed.

Lemma close_paren_commas pre : close_paren (pre ++ str ", ") = Ret (pre ++ str ") ").
Proof.
  unfold close_paren. change (str ", ") with (44 :: [32]). rewrite strrchr_last; [done|].
  by intros [?|?%elem_of_nil]%elem_of_cons.
Qed.

Lemma fits_ok cap s : Zlen s < cap -> fits cap s = Ret s.
Proof. intros H. unfold fits. by rewrite (proj2 (Z.ltb_lt _ _)). Qed.

Section SqlProps.
Context {J : Type} `{HJ : Cjson J}.
Variable print_item : J -> bytes.
Variable print_obj : list (bytes * jmember J) -> bytes.
Variables sqlite_ok mysql_ok : bytes -> bool.
Variable opts : rule_opts.

(** The fields a rule selects, in order. *)
Definition selected (info : rule J) (fs : list rule_field) : list rule_field :=
  List.filter (ru_flag info) fs.

Definition columns (info : rule J) (fs : list rule_field) : list bytes := column_name info <$> selected info fs.

Definition values_of (inp : rule_input) (info : rule J) (fs : list rule_field) (vals : list bytes) : Prop :=
  Forall2 (fun f v => column_value inp f = Ret v) (selected info fs) vals.

(** One plain field. *)
Lemma compose_plain inp info need f v key value :
  f <> RULE_PAYLOAD_FIELD -> ru_flag info f = true -> column_value inp f = Ret v ->
  Zlen (key ++ column_name info f ++ str ", ") < 128 -> Zlen (value ++ v ++ str ", ") < 800 ->
  compose_sql_clause print_item inp info need f key value =
  Ret (key ++ column_name info f ++ str ", ", value ++ v ++ str ", ", None).
Proof.
  intros Hf Hfl Hv Hk Hl. unfold compose_sql_clause. rewrite Hfl. cbn [negb].
  destruct f; try done; rewrite Hv; cbn [ebind]; by rewrite !fits_ok.
Qed.

Lemma Zlen_prefix {A} (l k : list A) n : Zlen (l ++ k) < n -> Zlen l < n.
Proof. rewrite Zlen_app. pose proof (Zlen_nonneg k). lia. Qed.

(** The loop over plain fields writes their columns and values. *)
Lemma sqlite_loop_plain inp info sdb need fs rest vals key value :
  RULE_PAYLOAD_FIELD ∉ fs -> values_of inp info fs vals ->
  Zlen (key ++ with_commas (columns info fs)) < 128 -> Zlen (value ++ with_commas vals) < 800 ->
  sqlite_loop print_item inp info sdb need (fs ++ rest) key value =
  sqlite_loop print_item inp info sdb need rest (key ++ with_commas (columns info fs)) (value ++ with_commas vals).
Proof.
  unfold values_of, columns. revert vals key value. induction fs as [|f fs IH]; intros vals key value Hpf Hv Hk Hl.
  - inversion Hv; subst. cbn. by rewrite !app_nil_r.
  - apply not_elem_of_cons in Hpf as [Hf Hpf]. cbn [app sqlite_loop]. unfold selected in *. cbn [List.filter] in *.
    destruct (ru_flag info f) eqn:Ef.
    + inversion Hv as [|? v ? vs Hv1 Hv2]; subst.
      change (with_commas (column_name info <$> f :: ?l)) with
        ((column_name info f ++ str ", ") ++ with_commas (column_name info <$> l)) in *.
      change (with_commas (v :: vs)) with ((v ++ str ", ") ++ with_commas vs) in *.
      rewrite (app_assoc key) in Hk |- *. rewrite (app_assoc value) in Hl |- *.
      erewrite compose_plain; [|done..|by eapply Zlen_prefix|by eapply Zlen_prefix]. cbn [ebind].
      rewrite (IH vs) by done. by destruct (sqlite_loop _ _ _ _ _ _ _ _) as [[[??]?]| |].
    + unfold compose_sql_clause. rewrite Ef. cbn [negb ebind]. rewrite (IH vals) by done.
      by destruct (sqlite_loop _ _ _ _ _ _ _ _) as [[[??]?]| |].
Qed.

(** The command that inserts some columns. *)
Definition insert_text (table : bytes) (cols vals : bytes) : bytes :=
  str "INSERT INTO " ++ (table ++ str " (" ++ cols ++ str ") ") ++ (VALUES ++ vals ++ str ") ") ++ str ";".

Lemma insert_clause_ok table cols vals :
  Zlen (table ++ str " (" ++ cols ++ str ", ") < 128 -> Zlen (VALUES ++ vals ++ str ", ") < 800 ->
  insert_clause (table ++ str " (" ++ cols ++ str ", ") (VALUES ++ vals ++ str ", ") =
  Ret (insert_text table cols vals).
Proof.
  intros Hk Hv. unfold insert_clause, insert_text.
  rewrite (app_assoc (str " (")), (app_assoc table), close_paren_commas. cbn [ebind].
  rewrite (app_assoc VALUES), close_paren_commas. cbn [ebind].
  rewrite fits_ok; [by rewrite <- !app_assoc|].
  rewrite !Zlen_app in *. change (Zlen (str "INSERT INTO ")) with 12. change (Zlen (str ";")) with 1.
  change (Zlen (str ", ")) with 2 in *. change (Zlen (str ") ")) with 2. lia.
Qed.

Section Insert.
Variables (inp : rule_input) (info : rule J) (plain : list rule_field) (vals : list bytes).
Local Notation fields := (plain ++ [RULE_PAYLOAD_FIELD]).
Local Notation apply := (apply_rule fields print_item print_obj sqlite_ok mysql_ok opts).

(** A rule for SQLite that selects plain fields, whose texts fit. *)
Record plain_insert : Prop := PlainInsert {
  pi_sqlite : ru_forword_type info = RULE_FORWORD_SQLITE;
  pi_opt : opt_sdb opts = true;
  pi_plain : RULE_PAYLOAD_FIELD ∉ plain;
  pi_some : columns info plain <> [];
  pi_vals : values_of inp info plain vals;
  pi_key : Zlen (ru_table info ++ str " (" ++ commas (columns info plain) ++ str ", ") < 128;
  pi_value : Zlen (VALUES ++ commas vals ++ str ", ") < 800
}.

Lemma vals_some : plain_insert -> vals <> [].
Proof.
  intros H He. pose proof (pi_vals H) as Hv. unfold values_of in Hv. rewrite He in Hv.
  apply Forall2_nil_inv_r in Hv.
  apply (pi_some H). unfold columns. by rewrite Hv.
Qed.

Lemma sqlite_loop_fields sdb need rest :
  plain_insert ->
  sqlite_loop print_item inp info sdb need (plain ++ rest) (sql_key info) VALUES =
  sqlite_loop print_item inp info sdb need rest
    (ru_table info ++ str " (" ++ commas (columns info plain) ++ str ", ") (VALUES ++ commas vals ++ str ", ").
Proof.
  intros H. pose proof (vals_some H) as Hne. pose proof (pi_key H) as Hk. pose proof (pi_value H) as Hv.
  assert (Hkey : sql_key info = ru_table info ++ str " (").
  { unfold sql_key. apply take_ge. rewrite app_assoc in Hk. apply Zlen_prefix in Hk. unfold Zlen in Hk. lia. }
  rewrite (sqlite_loop_plain _ _ _ _ plain rest vals); [|by apply H|by apply H|..];
    rewrite ?Hkey, ?with_commas_eq, <- ?app_assoc by (done || apply H); done.
Qed.

Lemma sqlite_loop_insert sdb need :
  plain_insert -> ru_flag info RULE_PAYLOAD_FIELD = false ->
  sqlite_loop print_item inp info sdb need fields (sql_key info) VALUES =
    Ret ([], ru_table info ++ str " (" ++ commas (columns info plain) ++ str ", ", VALUES ++ commas vals ++ str ", ").
Proof. intros H Hf. rewrite sqlite_loop_fields by done. cbn [sqlite_loop]. unfold compose_sql_clause. by rewrite Hf. Qed.

Definition insert_command : bytes := insert_text (ru_table info) (commas (columns info plain)) (commas vals).

Lemma apply_rule_sqlite fl need need_mysql :
  plain_insert -> ru_flag info RULE_PAYLOAD_FIELD = false -> fl_sdb fl = SqliteOpen ->
  apply inp info fl need need_mysql =
    Ret (if sqlite_ok insert_command
         then ([RSqlite insert_command], info, EngineFlags false (fl_first_mysql fl) SqliteOpen, need || fl_first fl,
               need_mysql, None)
         else ([RSqlite insert_command; RSqliteClose], info, EngineFlags false (fl_first_mysql fl) SqliteClosed,
               need || fl_first fl, need_mysql, Some (Some 1))).
Proof.
  intros H Hf Hs. unfold apply_rule, insert_command. rewrite (pi_sqlite H), (pi_opt H), sqlite_loop_insert by done.
  cbn [ebind]. rewrite insert_clause_ok by apply H. cbn [ebind]. rewrite Hs. cbn [negb app].
  by destruct (sqlite_ok _).
Qed.


(** With a payload field behind plain ones there are two commas between the
    values: no database takes the command. *)
Lemma rule_sql_mixed_columns fl pas n psa cond type :
  plain_insert -> ru_flag info RULE_PAYLOAD_FIELD = true -> fl_sdb fl = SqliteOpen -> fl_first fl = false ->
  ru_payload info = [RulePayload psa cond type true (Some pas) (Some (PNum n))] ->
  Zlen (ru_table info ++ str " (" ++ commas (columns info plain) ++ str ", " ++ pas ++ str ", ") < 128 ->
  Zlen (VALUES ++ commas vals ++ str ", , " ++ dec n ++ str ", ") < 800 ->
  exists rest, apply inp info fl false false =
    Ret (RSqlite (insert_text (ru_table info) (commas (columns info plain) ++ str ", " ++ pas)
           (commas vals ++ str ", , " ++ dec n)) :: rest,
         info, EngineFlags false (fl_first_mysql fl)
           (if sqlite_ok (insert_text (ru_table info) (commas (columns info plain) ++ str ", " ++ pas)
             (commas vals ++ str ", , " ++ dec n)) then SqliteOpen else SqliteClosed), false, false,
         if sqlite_ok (insert_text (ru_table info) (commas (columns info plain) ++ str ", " ++ pas)
             (commas vals ++ str ", , " ++ dec n)) then None else Some (Some 1)).
Proof.
  intros H Hf Hs Hfirst Hp Hk Hv. unfold apply_rule. rewrite (pi_sqlite H), (pi_opt H), Hfirst.
  cbn [orb]. rewrite sqlite_loop_fields by done. cbn [sqlite_loop]. unfold compose_sql_clause. rewrite Hf, Hp.
  cbn [negb payload_columns rp_is_store rp_pas rp_value ebind fst snd].
  assert (Hlong : Zlen VALUES <? Zlen (VALUES ++ commas vals ++ str ", ") = true).
  { apply Z.ltb_lt. rewrite !Zlen_app. change (Zlen (str ", ")) with 2. pose proof (Zlen_nonneg (commas vals)). lia. }
  rewrite Hlong. cbn [alter andb].
  replace ((ru_table info ++ str " (" ++ commas (columns info plain) ++ str ", ") ++ pas ++ str ", ") with
    (ru_table info ++ str " (" ++ (commas (columns info plain) ++ str ", " ++ pas) ++ str ", ")
    by (by rewrite <- !app_assoc).
  replace ((VALUES ++ commas vals ++ str ", ") ++ str ", " ++ dec n) with
    (VALUES ++ commas vals ++ str ", , " ++ dec n) by (by rewrite <- !app_assoc).
  rewrite !app_assoc in Hk. rewrite !app_assoc in Hv.
  rewrite (fits_ok 128) by (by rewrite !app_assoc). cbn [ebind].
  rewrite (fits_ok 800) by (rewrite !app_assoc; by eapply Zlen_prefix). cbn [ebind app].
  rewrite (fits_ok 512) by done. cbn [ebind].
  rewrite (fits_ok 800) by (by rewrite !app_assoc). cbn [ebind].
  rewrite bool_decide_eq_true_2 by done. cbn [ebind app].
  replace ((VALUES ++ commas vals ++ str ", , " ++ dec n) ++ str ", ") with
    (VALUES ++ (commas vals ++ str ", , " ++ dec n) ++ str ", ") by (by rewrite <- !app_assoc).
  rewrite insert_clause_ok by (by rewrite !app_assoc). cbn [ebind]. rewrite Hs.
  destruct (sqlite_ok _); by eexists.
Qed.
End Insert.
End SqlProps.

(** ** Runs over several rules *)

Section RulesLoop.
Context {J : Type} `{HJ : Cjson J}.
Variable cJSON_Compare : J -> J -> bool.
Variable topic_filter : bytes -> option bytes -> bool.
Variable fields : list rule_field.
Variable print_item : J -> bytes.
Variable print_obj : list (bytes * jmember J) -> bytes.
Variables sqlite_ok mysql_ok : bytes -> bool.
Variable opts : rule_opts.

Local Notation loop := (rules_loop cJSON_Compare topic_filter fields print_item print_obj sqlite_ok mysql_ok opts).
Local Notation apply := (apply_rule fields print_item print_obj sqlite_ok mysql_ok opts).

(** A rule ends the run with 1 or with the process, never with 0. *)
Lemma apply_rule_stop inp (info : rule J) fl n nm evs info' fl' n' nm' :
  apply inp info fl n nm <> Ret (evs, info', fl', n', nm', Some (Some 0)).
Proof.
  unfold apply_rule. intros H.
  destruct (ru_forword_type info); [destruct (opt_rpb opts)|destruct (opt_sdb opts)|destruct (opt_mdb opts)|];
    try done; apply ebind_Ret in H as (r & _ & H); try done.
  - destruct r as [[evs0 k] v]. apply ebind_Ret in H as (sql & _ & H).
    destruct (fl_sdb fl); [done| |done]. by destruct (sqlite_ok sql).
  - destruct r as [[[evs0 nd] k] v]. apply ebind_Ret in H as (sql & _ & H). by destruct (mysql_ok sql).
Qed.

Lemma rules_loop_app inp (a b : list (rule J)) fl n nm evs a' fl' :
  loop inp a fl n nm = Ret (evs, a', fl', Some 0) ->
  exists n' nm', loop inp (a ++ b) fl n nm =
    let* r := loop inp b fl' n' nm' in
    let '(evs', b', fl2, rv) := r in Ret (evs ++ evs', a' ++ b', fl2, rv).
Proof.
  revert fl n nm evs a'. induction a as [|info a IH]; intros fl n nm evs a'; cbn [app rules_loop].
  - intros [= <- <- <-]. exists n, nm. by destruct (loop inp b fl n nm) as [[[[??]?]?]| |].
  - intros ([ok info1] & -> & H)%ebind_Ret. cbn [ebind] in *.
    apply ebind_Ret in H as ([[[[[ev info2] fl2] n2] nm2] stop] & Ha & H). rewrite Ha. cbn [ebind].
    destruct stop as [rv|].
    + injection H as <- <- <- ->. destruct ok; [by apply apply_rule_stop in Ha|done].
    + apply ebind_Ret in H as ([[[ev3 a3] fl3] rv3] & Hl & H). injection H as <- <- -> ->.
      destruct (IH _ _ _ _ _ Hl) as (n' & nm' & ->). exists n', nm'.
      destruct (loop inp b fl' n' nm') as [[[[??]?]?]| |]; cbn [ebind]; by rewrite ?app_assoc.
Qed.

Lemma rules_loop_length inp (a : list (rule J)) fl n nm evs a' fl' rv :
  loop inp a fl n nm = Ret (evs, a', fl', rv) -> length a' = length a.
Proof.
  revert fl n nm evs a' fl'. induction a as [|info a IH]; intros fl n nm evs a' fl'; cbn [rules_loop].
  - by intros [= <- <- <- <-].
  - intros ([ok info1] & _ & H)%ebind_Ret.
    apply ebind_Ret in H as ([[[[[ev info2] fl2] n2] nm2] stop] & _ & H).
    destruct stop as [?|]; [by injection H as <- <- <- <-|].
    apply ebind_Ret in H as ([[[ev3 a3] fl3] rv3] & Hl & H). injection H as <- <- <- ->. cbn. f_equal. by eapply IH.
Qed.
End RulesLoop.

(** ** Witnesses *)

Definition nine_fields : list rule_field :=
  [RULE_QOS; RULE_ID; RULE_TOPIC; RULE_CLIENTID; RULE_USERNAME; RULE_PASSWORD; RULE_TIMESTAMP; RULE_PAYLOAD_ALL]
  ++ [RULE_PAYLOAD_FIELD].

(** {"x": 5} and {"x": "a"} *)
#[local] Instance rule_cjson : Cjson jtree :=
  jtree_cjson (fun b => if bool_decide (b = str "A") then Some (TObj [(str "x", TNum (JNum 5 true []))])
                        else Some (TObj [(str "x", TStr (str "a"))])).

Definition rule_inp : rule_input :=
  RuleInput 1 7 (Some (str "t")) (MqttPayload (Some (str "A")) 1) (Some (str "ab")) (Some (str "u")) (Some (str "p")) 0.

Definition demo_rule (payload : list (rule_payload jtree)) : rule jtree :=
  Rule true (str "t") (Some (fun f => if bool_decide (f = RULE_CLIENTID) then Some (str "abc") else None))
    (fun _ => RULE_CMP_EQUAL) (fun f => bool_decide (f = RULE_QOS) || bool_decide (f = RULE_TOPIC)) (fun _ => None)
    payload RULE_FORWORD_SQLITE None [] (str "tbl") (RuleKey (fun _ => false) false []).

Lemma no_nul (s : bytes) : forallb (fun b => negb (b =? 0)) s = true -> 0 ∉ s.
Proof.
  induction s as [|b s IH]; cbn; [intros _; apply not_elem_of_nil|]. intros H. bool_hyps.
  apply not_elem_of_cons. split; [congruence|by apply IH].
Qed.

(** The client "ab" is let through by the condition "abc". *)
Lemma rule_engine_filter_correct_witness :
  exists b, rule_engine_filter (fun _ _ => true) (fun a b => bool_decide (Some a = b)) nine_fields rule_inp (demo_rule []) =
    Ret (b, demo_rule []) /\ b = true.
Proof.
  destruct (rule_engine_filter_correct (fun _ _ => true) (fun a b => bool_decide (Some a = b)) nine_fields rule_inp
    (demo_rule []) (str "t") (str "ab") (str "u") (str "p")) as (b & Hr & Hb).
  - constructor; (split; [reflexivity|apply no_nul; reflexivity]) || (split; [apply no_nul; reflexivity|reflexivity]).
  - reflexivity.
  - intros filter f v Hf Hv. injection Hf as <-. case_bool_decide; [|discriminate]. injection Hv as <-.
    apply no_nul. reflexivity.
  - intros id. discriminate.
  - exists b. split; [exact Hr|]. apply Hb. split; [reflexivity|]. split; [discriminate|].
    intros filter Hf. injection Hf as <-. repeat apply Forall_cons_2; cbn; try exact I; [|..|apply Forall_nil_2].
    + by exists (str "c").
    + by exists (str "A").
Defined.

Lemma rule_payload_type_change_witness :
  exists info', payload_filter (fun _ _ => true) (MqttPayload (Some (str "A")) 1)
      (demo_rule [RulePayload [str "x"] None RULE_CMP_NONE true None None]) = Ret (true, info') /\
    payload_filter (fun _ _ => true) (MqttPayload (Some (str "B")) 1) info' = UB.
Proof.
  apply (rule_payload_type_change (fun _ _ => true) [str "x"] true None (MqttPayload (Some (str "A")) 1)
    (MqttPayload (Some (str "B")) 1) _ (TNum (JNum 5 true [])) (TStr (str "a")) (JNum 5 true []) 5 (str "a"));
    (reflexivity || discriminate).
Defined.

