(* ===== verification/Broker.v ===== *)
(** * broker.c: the state machine of a work item

    [server_cb] is called each time the aio of a work item completes.  The
    model runs one call: it takes the state of the work item and of the shared
    databases and returns both, with the calls into nng in their order. *)

From Stdlib Require Import ZArith Lia.
From stdpp Require Import base numbers list gmap option strings.
From S2P Require Import Prelude Mqtt Nng NngModel SubHandler UnsubHandler PubHandler Webhook MqttApi Bridge Conf RuleEngine.

Local Open Scope Z_scope.
Local Open Scope nano_scope.

(** ** nng: connection parameters and composed messages *)

Class NngConn (msg cparam property : Type) := {
  nng_msg_get_type : msg -> cmd_type;
  nng_msg_get_pipe : msg -> Z;
  nng_msg_get_conn_param : msg -> cparam;
  nng_msg_set_conn_param : msg -> cparam -> msg;
  nng_msg_get_proto_data : msg -> option property;
  new_conn_param : bytes -> Z -> cparam;
  conn_param_get_protover : cparam -> Z;
  conn_param_get_keepalive : cparam -> Z;
  conn_param_get_username : cparam -> option bytes;
  conn_param_get_password : cparam -> option bytes;
  conn_param_get_clientid : cparam -> option bytes;
  conn_param_get_will_flag : cparam -> Z;
  conn_param_get_will_topic : cparam -> option bytes;
  conn_param_get_will_msg : cparam -> option bytes;
  conn_param_get_will_retain : cparam -> Z;
  conn_param_get_will_qos : cparam -> Z;
  conn_param_get_will_property : cparam -> option property;
  nano_msg_notify_connect : cparam -> Z -> msg;
  nano_pubmsg_composer : Z -> Z -> option bytes -> option bytes -> Z -> Z -> msg;
  nano_dismsg_composer : Z -> msg;
  nng_msg_alloc : msg;
  property_pub_by_will : option property -> option property;
  get_properties_len : option property -> Z;
  mqtt_property_dup : option property -> option property;
  (** the MQTT codec, in place *)
  nng_mqtt_msg_decode : msg -> msg;
  nng_mqttv5_msg_decode : msg -> msg;
  (** the message a bridge sends *)
  bridge_msg : bridge_publish -> option property -> msg
}.

(** Whether [nng_ctx_send] on an extra context ([true]) or on the broker's
    ([false]) makes the aio complete, so that the callback runs again.  The
    handlers finish the aio themselves behind a send on the broker's context,
    and leave it to the send on an extra one. *)
Class NngAio := { send_completes : bool -> bool }.

Class NngAioLaws `{NngAio} : Prop := {
  broker_send_waits : send_completes false = false;
  extra_send_completes : send_completes true = true
}.

(** ** Work items *)

Inductive work_state := INIT | RECV | WAIT | SEND | HOOK | END_ | CLOSE.

#[export] Instance work_state_eq_dec : EqDecision work_state.
Proof. solve_decision. Defined.

Definition PROTO_MQTT_BROKER : Z := 0x00.
Definition PROTO_MQTT_BRIDGE : Z := 0x01.
Definition PROTO_AWS_BRIDGE : Z := 0x02.
Definition PROTO_HTTP_SERVER : Z := 0x03.

Section Work.
Context {msg property cparam db hash db_ret rules : Type}.

(** [w_msg] may be a stale pointer in state RECV; it is not used there. *)
Record work := Work {
  w_state : work_state;
  w_proto : Z;
  w_proto_ver : Z;
  w_flag : cmd_type;
  w_msg : option msg;
  w_pid : Z;
  w_code : Z;
  w_msg_infos : list Z;
  w_cparam : option cparam;
  w_pub_packet : option (pub_packet_struct property)
}.

(** The state all work items share. *)
Record world := World {
  wd_db : db;
  wd_hash : hash;
  wd_ret : db_ret;
  wd_stats : msg_statistics;
  wd_rules : rules
}.

(** Calls into nng and cJSON.  A send gives the message to nng, with the
    pipe set on it at that moment. *)
Inductive eff :=
| ECtxRecv (extra : bool)
| ECtxSend (extra : bool) (m : msg) (pipe : Z)
| EAioFinish
| EMsgRecv (m : msg)
| EMsgNew (m : msg)
| EMsgClone (m : msg)
| EMsgFree (m : msg)
| ECparamClone
| ECparamFree
| EBridgeSend (node : Z) (m : msg)
| EHook (obj : option (list json_call))
| ERules (l : list rule_ev)
| EFreePacket (l : list pub_free_event)
| ERetain (l : list (ref_event msg))
| EFatal (rv : Z).
End Work.

Arguments work : clear implicits.
Arguments world : clear implicits.
Arguments eff : clear implicits.
Arguments Work {msg property cparam}.
Arguments w_state {msg property cparam}.
Arguments w_proto {msg property cparam}.
Arguments w_proto_ver {msg property cparam}.
Arguments w_flag {msg property cparam}.
Arguments w_msg {msg property cparam}.
Arguments w_pid {msg property cparam}.
Arguments w_code {msg property cparam}.
Arguments w_msg_infos {msg property cparam}.
Arguments w_cparam {msg property cparam}.
Arguments w_pub_packet {msg property cparam}.

Section Setters.
Context {msg property cparam : Type}.
Implicit Types w : work msg property cparam.

Definition with_state w (s : work_state) : work msg property cparam := Work s (w_proto w) (w_proto_ver w) (w_flag w) (w_msg w) (w_pid w)
  (w_code w) (w_msg_infos w) (w_cparam w) (w_pub_packet w).
Definition with_msg w (m : option msg) : work msg property cparam := Work (w_state w) (w_proto w) (w_proto_ver w) (w_flag w) m (w_pid w)
  (w_code w) (w_msg_infos w) (w_cparam w) (w_pub_packet w).
Definition with_flag w (f : cmd_type) : work msg property cparam := Work (w_state w) (w_proto w) (w_proto_ver w) f (w_msg w) (w_pid w)
  (w_code w) (w_msg_infos w) (w_cparam w) (w_pub_packet w).
Definition with_pid w (p : Z) : work msg property cparam := Work (w_state w) (w_proto w) (w_proto_ver w) (w_flag w) (w_msg w) p
  (w_code w) (w_msg_infos w) (w_cparam w) (w_pub_packet w).
Definition with_code w (c : Z) : work msg property cparam := Work (w_state w) (w_proto w) (w_proto_ver w) (w_flag w) (w_msg w) (w_pid w)
  c (w_msg_infos w) (w_cparam w) (w_pub_packet w).
(** [pipe_ct->msg_infos] and [pub_packet] *)
Definition with_pub w (infos : list Z) (pkt : option (pub_packet_struct property))
    : work msg property cparam := Work (w_state w) (w_proto w) (w_proto_ver w) (w_flag w) (w_msg w)
  (w_pid w) (w_code w) infos (w_cparam w) pkt.
End Setters.

(** ** The callback *)

Section ServerCb.
Context {msg property cparam db hash db_ret rules : Type}.
Context `{Hmsg : NngMsg msg} `{Hpar : NngParser msg property} `{Hmp : NngMsgProp msg property}.
Context `{Hdb : NngDb db hash} `{Hret : NngRetain db_ret (dbtree_retain_msg msg)}.
Context `{Hcn : NngConn msg cparam property}.

(** What one call finds: the aio's result and message, the clock, which
    allocations succeed, which bridge nodes have a socket ([node->sock], NULL
    when the bridge did not start), whether the bridge aio is busy before each
    forward, and [time(NULL)]. *)
Record cb_env := CbEnv {
  e_aio_result : Z;
  e_aio_msg : option msg;
  e_clock : Z;
  e_allocs : pub_allocs;
  e_pkt_alloc : bool;
  e_node_alloc : nat -> bool;
  e_uninit : Z;
  e_bridge_sock : Z -> bool;
  e_bridge_busy : nat -> bool;
  e_decode_alloc : Z;
  e_hook_rv : list json_call -> Z;
  e_time : Z
}.

(** Fixed for a run of the broker: the configuration, nanolib's topic filter
    and base64, nng's number for a closed connection, and whether
    [cvector_free] clears its argument; with SUPP_RULE_ENGINE, whether
    [rule_eng.option] is set, and [rule_engine_insert_sql], which needs a
    packet as soon as a rule is enabled and may end the process ([None]). *)
Variable config : conf.
Variable topic_filter : bytes -> option bytes -> bool.
Variable base64_encode : bytes -> bytes.
Variable NNG_ECONNSHUT : Z.
Variable cvector_free_clears : bool.
Variable rule_on : rules -> bool.
Variable rule_engine : option rule_input -> rules -> exec (list rule_ev * rules * option Z).

Abbreviation wk := (work msg property cparam).
Abbreviation wd := (world db hash db_ret rules).
Abbreviation effs := (list (eff msg)).
(** shared state, work item and calls so far *)
Abbreviation cb_result := (exec (wd * wk * effs)).

Implicit Types w : work msg property cparam.

(** [ctx] for the broker protocol, [extra_ctx] for the others. *)
Definition rearm w : eff msg := ECtxRecv (negb (w_proto w =? PROTO_MQTT_BROKER)).

(** [webhook_entry(work, reason)]: the packet is looked at for PUBLISH only. *)
Definition run_hook (env : cb_env) w (reason : Z) : exec (wk * effs) :=
  let cp := match w_cparam w with
            | Some c => HookConn (conn_param_get_protover c) (conn_param_get_keepalive c)
                          (conn_param_get_username c) (conn_param_get_clientid c)
            | None => HookConn 0 0 None None
            end in
  let* r := match w_pub_packet w with
            | Some pkt =>
                webhook_entry topic_filter base64_encode (pa_payload (e_allocs env)) (e_hook_rv env)
                  (e_clock env) (cf_web_hook config) (w_flag w) cp pkt reason
            | None =>
                if wh_enable (cf_web_hook config) && bool_decide (w_flag w = CMD_PUBLISH) then UB
                else webhook_entry topic_filter base64_encode (pa_payload (e_allocs env)) (e_hook_rv env)
                  (e_clock env) (cf_web_hook config) (w_flag w) cp (zero_pub_packet (property := property)) reason
            end in
  let '(_, obj, flag) := r in
  Ret (with_flag w flag, match obj with Some _ => [EHook obj] | None => [] end).

(** [handle_pub] on [work->msg]: the work item, its code, the shared state. *)
Definition run_handle_pub (env : cb_env) (s : wd) w (m : msg) (proto : Z) : exec (wd * wk * Z * effs) :=
  let* r := handle_pub (e_allocs env) (wd_db s) (w_pid w) (w_proto_ver w)
              (PubState m (w_pub_packet w) (w_msg_infos w) (wd_stats s) (wd_hash s) (wd_ret s) []) proto in
  let '(rc, ps) := r in
  Ret (World (wd_db s) (ps_hash ps) (ps_retain ps) (ps_stats ps) (wd_rules s),
       with_pub (with_msg w (Some (ps_msg ps))) (ps_msg_infos ps) (ps_packet ps), rc,
       [ERetain (ps_refs ps)]).

(** *** SUBSCRIBE *)

(** Retained messages go out until the first expired one. *)
Fixpoint send_retained (now pid : Z) (msg_ret : list (option msg)) : exec effs :=
  match msg_ret with
  | [] => Ret []
  | None :: _ => UB
  | Some m :: rest =>
      if check_msg_exp now m (nng_msg_get_proto_data m) then
        let* effs := send_retained now pid rest in
        Ret ([EMsgClone m; ECtxSend false m pid] ++ effs)
      else Ret []
  end.

Definition on_subscribe (env : cb_env) (s : wd) w (m : msg) : cb_result :=
  if negb (e_pkt_alloc env) then UB
  else
    let* r := decode_sub_msg (property := property) (e_node_alloc env) (sub_fuel m) m (w_proto_ver w) in
    let '(rv, pkt) := r in
    let* r := (if negb (rv =? 0) then Ret (rv, (wd_db s, wd_hash s, []))
               else sub_ctx_handle cvector_free_clears (w_pid w) (Some pkt) (wd_db s) (wd_hash s) (wd_ret s)) in
    let '(rv, (d, h, msg_ret)) := r in
    let s := World d h (wd_ret s) (wd_stats s) (wd_rules s) in
    let w := if negb (rv =? 0) then with_code w rv else w in
    if negb (w_code w =? SUCCESS) then
      Ret (s, with_state w CLOSE, [ECparamFree; EAioFinish])
    else
      let '(_, smsg) := encode_suback_msg m (w_proto_ver w) (Some pkt) in
      let* retained := send_retained (e_clock env) (w_pid w) msg_ret in
      let smsg := nng_msg_set_cmd_type smsg CMD_SUBACK in
      Ret (s, with_state (with_msg w None) SEND,
           retained ++ [ECtxSend false smsg (w_pid w); EAioFinish]).

(** *** UNSUBSCRIBE *)

Definition on_unsubscribe (env : cb_env) (s : wd) w (m : msg) : cb_result :=
  if negb (e_pkt_alloc env) then UB
  else
    let* r := decode_unsub_msg (e_node_alloc env) (e_uninit env) (unsub_fuel m) m (w_proto_ver w) in
    let '(rv, pkt) := r in
    let* r := (if negb (rv =? 0) then Ret (pkt, (wd_db s, wd_hash s))
               else
                 let* r := unsub_ctx_handle (conn_param_get_clientid (nng_msg_get_conn_param m)) (w_pid w) pkt
                             (wd_db s) (wd_hash s) in
                 Ret r.2) in
    let '(pkt, (d, h)) := r in
    let* r := encode_unsuback_msg m (w_proto_ver w) pkt in
    let '(_, smsg) := r in
    let* _ := unsub_pkt_free (Some pkt) in
    let w := with_pid w 0 in
    Ret (World d h (wd_ret s) (wd_stats s) (wd_rules s), with_state (with_msg w None) SEND,
         [ECtxSend false smsg (w_pid w); EAioFinish]).

(** *** PUBLISH *)

Definition on_publish (env : cb_env) (s : wd) w (m : msg) : cb_result :=
  let m := nng_msg_set_cmd_type m
             (if w_proto_ver w =? MQTT_PROTOCOL_VERSION_v5 then CMD_PUBLISH_V5 else CMD_PUBLISH) in
  let* r := run_handle_pub env s w m (w_proto_ver w) in
  let '(s, w, code, ev) := r in
  let w := with_code w code in
  if (w_proto w =? PROTO_HTTP_SERVER) || (w_proto w =? PROTO_AWS_BRIDGE) then
    let rep_msg := nng_msg_alloc in
    Ret (s, with_state w (if code =? SUCCESS then WAIT else SEND),
         ev ++ [EMsgNew rep_msg; ECtxSend true rep_msg (nng_msg_get_pipe rep_msg)])
  else if negb (code =? SUCCESS) then
    if negb (w_proto w =? PROTO_MQTT_BROKER) then Ret (s, with_state w SEND, ev ++ [EAioFinish])
    else
      Ret (s, with_state (with_pub w (w_msg_infos w) None) CLOSE,
           ev ++ [EFreePacket (free_pub_packet (w_pub_packet w)); ECparamFree; EAioFinish])
  else Ret (s, with_state w WAIT, ev ++ [EAioFinish]).

(** *** CONNACK and disconnect events *)

Definition on_connack (env : cb_env) (s : wd) w (m : msg) : cb_result :=
  let* reason_code := rd (nng_msg_body m) 1 in
  let ev := if w_proto w =? PROTO_MQTT_BROKER
            then [EMsgClone m; ECtxSend false m (w_pid w)] else [] in
  match w_cparam w with
  | None => UB
  | Some cp =>
      let smsg := nano_msg_notify_connect cp reason_code in
      let* r := run_hook env w reason_code in
      let '(w, hook) := r in
      let smsg := nng_msg_set_cmd_type smsg CMD_PUBLISH in
      let w := with_flag w CMD_PUBLISH in
      let* r := run_handle_pub env s w smsg MQTT_PROTOCOL_VERSION_v311 in
      let '(s, w, _, ev2) := r in
      Ret (s, with_state w WAIT,
           ev ++ [EMsgNew smsg] ++ hook ++ [EMsgFree m] ++ ev2 ++ [EAioFinish])
  end.

Definition has_will (cp : cparam) : bool :=
  negb (conn_param_get_will_flag cp =? 0) &&
  bool_decide (conn_param_get_will_topic cp <> None) &&
  bool_decide (conn_param_get_will_msg cp <> None).

Definition on_disconnect (env : cb_env) (s : wd) w (m : msg) : cb_result :=
  let* r := run_hook env w 0 in
  let '(w, hook) := r in
  let m := nng_msg_set_cmd_type m CMD_PUBLISH in
  let w := with_flag w CMD_PUBLISH in
  let* r := run_handle_pub env s w m MQTT_PROTOCOL_VERSION_v311 in
  let '(s, w, _, ev) := r in
  let '(d, h) := if dbhash_check_id (wd_hash s) (w_pid w)
                 then destroy_sub_client (w_pid w) (wd_db s) (wd_hash s) else (wd_db s, wd_hash s) in
  let s := World d h (wd_ret s) (wd_stats s) (wd_rules s) in
  match w_cparam w with
  | None => UB
  | Some cp =>
      if negb (has_will cp) then
        Ret (s, with_state w WAIT, hook ++ ev ++ [ECparamFree; EAioFinish])
      else Ret (s, with_state w END_, hook ++ ev ++ [EAioFinish])
  end.

(** *** RECV *)

Definition dispatch (env : cb_env) (s : wd) w (m : msg) : cb_result :=
  let cp := nng_msg_get_conn_param m in
  let w := Work (w_state w) (w_proto w) (conn_param_get_protover cp) (nng_msg_cmd_type m) (Some m)
             (nng_msg_get_pipe m) (w_code w) (w_msg_infos w) (Some cp) (w_pub_packet w) in
  match w_flag w with
  | CMD_SUBSCRIBE => on_subscribe env s w m
  | CMD_UNSUBSCRIBE => on_unsubscribe env s w m
  | CMD_PUBLISH => on_publish env s w m
  | CMD_CONNACK => on_connack env s w m
  | CMD_DISCONNECT_EV => on_disconnect env s w m
  | _ => Ret (s, with_state w WAIT, [EAioFinish])
  end.

(** More calls in front of those of the continuation. *)
Definition after (ev : effs) (r : cb_result) : cb_result :=
  let* r := r in let '(s, w, ev') := r in Ret (s, w, ev ++ ev').

Definition on_recv_msg (env : cb_env) (s : wd) w : cb_result :=
  match e_aio_msg env with
  | None => Ret (s, w, [EFatal (e_aio_result env)])
  | Some m =>
      if w_proto w =? PROTO_MQTT_BRIDGE then
        let type := nng_msg_get_type m in
        if decide (type = CMD_CONNACK) then
          after [EMsgRecv m] (dispatch env s w (nng_msg_set_cmd_type m type))
        else if decide (type <> CMD_PUBLISH) then
          Ret (s, with_state w RECV, [EMsgRecv m; EMsgFree m; ECtxRecv true])
        else after [EMsgRecv m; ECparamClone] (dispatch env s w (nng_msg_set_cmd_type m type))
      else if (w_proto w =? PROTO_HTTP_SERVER) || (w_proto w =? PROTO_AWS_BRIDGE) then
        let* r := decode_common_mqtt_msg nng_mqtt_msg_decode nng_mqttv5_msg_decode
                    (e_decode_alloc env, nng_msg_alloc) m in
        match snd r with
        | None => UB
        | Some (dm, cp) =>
            let dm := nng_msg_set_conn_param dm (new_conn_param (cp_clientid cp) (cp_proto_ver cp)) in
            let ev := [EMsgRecv m; EMsgFree m; EMsgNew dm] in
            if decide (nng_msg_get_type dm <> CMD_PUBLISH) then
              Ret (s, with_state w RECV, ev ++ [ECparamFree; ECtxRecv true])
            else after ev (dispatch env s w (nng_msg_set_cmd_type dm CMD_PUBLISH))
        end
      else after [EMsgRecv m] (dispatch env s w m)
  end.

Definition on_recv (env : cb_env) (s : wd) w : cb_result :=
  if negb (e_aio_result env =? 0) then
    let w := with_state w RECV in
    if w_proto w =? PROTO_MQTT_BROKER then Ret (s, w, [ECtxRecv false])
    else if negb (e_aio_result env =? NNG_ECONNSHUT) then Ret (s, w, [ECtxRecv true])
    else on_recv_msg env s w
  else on_recv_msg env s w.

(** *** WAIT *)

(** One shared message, sent to every pipe. *)
Definition send_all (m : msg) (infos : list Z) : effs :=
  mjoin ((fun p => [EMsgClone m; ECtxSend false m p]) <$> infos).

(** Encoding happens only when somebody receives the message. *)
Definition forward_publish w (m : msg) : exec (msg * wk * effs) :=
  match w_msg_infos w with
  | [] => Ret (m, w, [])
  | infos =>
      match w_pub_packet w with
      | None => UB
      | Some pkt =>
          let* r := encode_pub_message m pkt PUBLISH in
          let '(ok, m, pkt) := r in
          let w := with_pub w infos (Some pkt) in
          if ok : bool then Ret (m, with_pid w (default 0 (last infos)), send_all m infos)
          else Ret (m, w, [])
      end
  end.

(** The forwards of one node; [n] counts the checks of the bridge aio.  The
    socket is used only when the aio is free. *)
Fixpoint bridge_forwards (env : cb_env) (t : Z) (topic : option bytes) (smsg : msg)
    (forwards : list bytes) (n : nat) : exec (bool * nat * effs) :=
  match forwards with
  | [] => Ret (false, n, [])
  | f :: fs =>
      if topic_filter f topic then
        let* ev := (if e_bridge_busy env n then Ret [EMsgClone smsg; EMsgFree smsg]
                    else if e_bridge_sock env t then Ret [EMsgClone smsg; EBridgeSend t smsg] else UB) in
        let* r := bridge_forwards env t topic smsg fs (S n) in
        let '(_, n, ev') := r in
        Ret (true, n, ev ++ ev')
      else bridge_forwards env t topic smsg fs n
  end.

Fixpoint bridge_nodes (env : cb_env) (t : Z) (topic : option bytes) (smsg : msg)
    (nodes : list conf_bridge_node) (n : nat) : exec (bool * effs) :=
  match nodes with
  | [] => Ret (false, [])
  | node :: rest =>
      let* r := (if bn_enable node
                 then bridge_forwards env t topic smsg (bn_forwards node) n
                 else Ret (false, n, [])) in
      let '(rv, n, ev) := r in
      let* r := bridge_nodes env (t + 1) topic smsg rest n in
      let '(rv', ev') := r in
      Ret (rv || rv', ev ++ ev')
  end.

Definition bridge_handler (env : cb_env) w : exec (wk * bool * effs) :=
  match w_pub_packet w with
  | None => UB
  | Some pkt =>
      let v := var_publish (pp_var_header pkt) in
      let props := if w_proto_ver w =? MQTT_PROTOCOL_VERSION_v5
                   then mqtt_property_dup (ph_properties v) else None in
      let topic := ms_body (ph_topic_name v) in
      let* r := bridge_publish_msg topic (pl_data (pp_payload pkt)) (pl_len (pp_payload pkt))
                  (negb (fh_dup (pp_fixed_header pkt) =? 0)) (fh_qos (pp_fixed_header pkt))
                  (negb (fh_retain (pp_fixed_header pkt) =? 0)) props in
      let smsg := bridge_msg r.1 r.2 in
      let* r := bridge_nodes env 0 topic smsg (cf_bridge_nodes config) 0 in
      let '(rv, ev) := r in
      Ret (if rv : bool then with_state w SEND else w, rv, [EMsgNew smsg] ++ ev ++ [EMsgFree smsg])
  end.

(** Releasing the packet of a finished PUBLISH. *)
Definition release_pub w : effs := [EFreePacket (free_pub_packet (w_pub_packet w))].

Definition on_wait (env : cb_env) (s : wd) w : cb_result :=
  match w_msg w with
  | None => UB
  | Some m =>
      if decide (nng_msg_get_type m = CMD_PUBLISH) then
        if negb (e_aio_result env =? 0) then Ret (s, w, [EFatal (e_aio_result env)])
        else
          let* r := forward_publish w m in
          let '(smsg, w, ev) := r in
          let w := with_msg w (Some smsg) in
          let* r := (if cf_bridge_mode config then bridge_handler env w else Ret (w, false, [])) in
          let '(w, _, ev2) := r in
          if wh_enable (cf_web_hook config) || rule_on (wd_rules s) then
            Ret (s, with_state w SEND, ev ++ ev2 ++ [EAioFinish])
          else
            Ret (s, with_state (with_pub (with_msg w None) [] None) RECV,
                 ev ++ ev2 ++ [EMsgFree smsg; ECparamFree] ++ release_pub w ++ [rearm w])
      else (* acknowledgements and everything else: nothing to do *)
        Ret (s, with_state (with_msg w None) RECV, [EMsgFree m; ECtxRecv false])
  end.

(** *** SEND, END, CLOSE *)

(** What [rule_engine_insert_sql] reads of the work item. *)
Definition rule_input_of (env : cb_env) w : option rule_input :=
  match w_pub_packet w, w_cparam w with
  | Some pkt, Some cp =>
      let v := var_publish (pp_var_header pkt) in
      Some (RuleInput (fh_qos (pp_fixed_header pkt)) (ph_packet_id v) (ms_body (ph_topic_name v))
              (pp_payload pkt) (conn_param_get_clientid cp) (conn_param_get_username cp)
              (conn_param_get_password cp) (e_time env))
  | _, _ => None
  end.

Definition run_rules (env : cb_env) (s : wd) w : exec (wd * effs) :=
  if bool_decide (w_flag w = CMD_PUBLISH) && rule_on (wd_rules s) then
    let* r := rule_engine (rule_input_of env w) (wd_rules s) in
    let '(evs, rules, rv) := r in
    Ret (World (wd_db s) (wd_hash s) (wd_ret s) (wd_stats s) rules,
         ERules evs :: match rv with Some _ => [] | None => [EFatal 1] end)
  else Ret (s, []).

Definition is_fatal (e : eff msg) : bool := match e with EFatal _ => true | _ => false end.

Definition on_send (env : cb_env) (s : wd) w : cb_result :=
  let* r := run_rules env s w in
  let '(s, rule_evs) := r in
  if existsb is_fatal rule_evs then Ret (s, w, rule_evs) else
  let* r := run_hook env w 0 in
  let '(w, hook) := r in
  let hook := rule_evs ++ hook in
  let ev := hook ++ match w_msg w with Some m => [EMsgFree m] | None => [] end in
  let w := with_msg w None in
  if negb (e_aio_result env =? 0) then Ret (s, w, ev ++ [EFatal (e_aio_result env)])
  else
    let ev := ev ++ match w_pub_packet w with Some _ => release_pub w | None => [] end in
    let w := with_flag (with_state (with_pub w [] None) RECV) CMD_UNKNOWN in
    Ret (s, w, ev ++ [ECparamFree; rearm w]).

(** The will of a client that went away, as a message of its own. *)
Definition publish_will (env : cb_env) (s : wd) w (cp : cparam) : exec (wd * wk * effs) :=
  let m := nano_pubmsg_composer (conn_param_get_will_retain cp) (conn_param_get_will_qos cp)
             (conn_param_get_will_msg cp) (conn_param_get_will_topic cp)
             (conn_param_get_protover cp) (e_clock env) in
  let w := with_flag w CMD_PUBLISH in
  if conn_param_get_protover cp =? 5 then
    let* r := run_handle_pub env s w (nng_msg_set_cmd_type m CMD_PUBLISH_V5) MQTT_PROTOCOL_VERSION_v5 in
    let '(s, w, _, ev) := r in
    match w_pub_packet w with
    | None => UB
    | Some pkt =>
        let v := var_publish (pp_var_header pkt) in
        let props := property_pub_by_will (conn_param_get_will_property cp) in
        let pkt := PubPacket (pp_fixed_header pkt)
          (VPublish (PublishHeader (ph_packet_id v) (ph_topic_name v) props (get_properties_len props)))
          (pp_payload pkt) in
        Ret (s, with_pub w (w_msg_infos w) (Some pkt), [EMsgNew m] ++ ev)
    end
  else
    let* r := run_handle_pub env s w (nng_msg_set_cmd_type m CMD_PUBLISH) MQTT_PROTOCOL_VERSION_v311 in
    let '(s, w, _, ev) := r in
    Ret (s, w, [EMsgNew m] ++ ev).

Definition on_end (env : cb_env) (s : wd) w : cb_result :=
  match w_msg w, w_cparam w with
  | Some m, Some cp =>
      if decide (nng_msg_get_type m = CMD_PUBLISH) then
        if negb (e_aio_result env =? 0) then Ret (s, w, [EFatal (e_aio_result env)])
        else
          let* r := forward_publish (with_msg w None) m in
          let '(smsg, w, ev) := r in
          let* r := run_hook env w 0 in
          let '(w, hook) := r in
          let ev := ev ++ hook ++ [EMsgFree smsg] ++ release_pub w in
          let w := with_pub (with_msg w None) [] None in
          if negb (conn_param_get_will_flag cp =? 0) then
            let* r := publish_will env s w cp in
            let '(s, w, ev2) := r in
            Ret (s, with_state w WAIT, ev ++ ev2 ++ [EAioFinish; ECparamFree])
          else Ret (s, with_state w RECV, ev ++ [rearm w; ECparamFree])
      else Ret (s, w, [ECparamFree])
  | _, _ => UB
  end.

Definition on_close (s : wd) w : cb_result :=
  let smsg := nano_dismsg_composer (w_code w) in
  let ev := EMsgNew smsg :: match w_msg w with Some m => [EMsgFree m] | None => [] end in
  let w := with_msg w (Some smsg) in
  Ret (s, with_state (with_code w SUCCESS) RECV,
       ev ++ [ECtxSend false smsg (w_pid w); ECtxRecv false]).

Definition server_cb (env : cb_env) (s : wd) w : cb_result :=
  match w_state w with
  | INIT => Ret (s, with_state w RECV, [rearm w])
  | RECV => on_recv env s w
  | WAIT => on_wait env s w
  | SEND => on_send env s w
  | END_ => on_end env s w
  | CLOSE => on_close s w
  | HOOK => Ret (s, w, [EFatal 11])
  end.

(** [alloc_work] and [proto_work_init]. *)
Definition alloc_work (proto : Z) : wk :=
  Work INIT proto 0 CMD_UNKNOWN None 0 SUCCESS init_pipe_content None None.
End ServerCb.

(** ** Accounting *)

Section Accounts.
Context {msg : Type}.

(** References to messages a work item takes (positive) or gives away. *)
Definition item_refs (e : eff msg) : Z :=
  match e with
  | EMsgRecv _ | EMsgNew _ | EMsgClone _ => 1
  | EMsgFree _ | ECtxSend _ _ _ | EBridgeSend _ _ => -1
  | _ => 0
  end.

(** Those taken and given away for the retained tree. *)
Definition tree_refs (e : eff msg) : Z := match e with ERetain l => ref_balance l | _ => 0 end.

Definition ref_change (e : eff msg) : Z := item_refs e + tree_refs e.

(** Calls after which the aio completes again and [server_cb] is run; [sent]
    says whether a send does that, on an extra context or on the broker's. *)
Definition arms_if (sent : bool -> bool) (e : eff msg) : Z :=
  match e with
  | ECtxRecv _ | EAioFinish => 1
  | ECtxSend extra _ _ => if sent extra then 1 else 0
  | _ => 0
  end.

(** A send on the broker's context completes nothing by itself, one on an extra
    context does. *)
Definition arms (e : eff msg) : Z := arms_if (fun extra => extra) e.

Definition total (f : eff msg -> Z) (l : list (eff msg)) : Z := foldr (fun e n => f e + n) 0 l.

Lemma total_app f l k : total f (l ++ k) = total f l + total f k.
Proof. induction l as [|e l IH]; cbn; [done|]. unfold total in *. cbn in *. lia. Qed.

Lemma total_cons f e l : total f (e :: l) = f e + total f l.
Proof. done. Qed.

Lemma total_ref_change l : total ref_change l = total item_refs l + total tree_refs l.
Proof. induction l as [|e l IH]; [done|]. rewrite !total_cons, IH. unfold ref_change. lia. Qed.

(** Calls that leave the account even and arm nothing. *)
Definition even (l : list (eff msg)) : Prop := total item_refs l = 0 /\ total arms l = 0.

Lemma even_app l k : even l -> even k -> even (l ++ k).
Proof. unfold even. rewrite !total_app. lia. Qed.

Lemma even_nil : even [].
Proof. done. Qed.

Lemma total_arms `{NngAioLaws} l : total (arms_if send_completes) l = total arms l.
Proof.
  induction l as [|e l IH]; [done|]. rewrite !total_cons, IH. f_equal. destruct e as [|[]| | | | | | | | | | | | |]; try done; cbn.
  - by rewrite extra_send_completes.
  - by rewrite broker_send_waits.
Qed.
End Accounts.

#[export] Hint Resolve even_app even_nil : nano.
Create Rewrite HintDb acct.
#[export] Hint Rewrite @total_app @total_cons : acct.

(** Add up a list of calls. *)
Ltac acct := unfold even, release_pub, rearm in *; autorewrite with acct in *; cbn [item_refs arms arms_if] in *;
  repeat (change (total _ []) with 0 in *); intuition lia.

Section CbProofs.
Context {msg property cparam db hash db_ret rules : Type}.
Context `{Hmsg : NngMsg msg} `{Hpar : NngParser msg property} `{Hmp : NngMsgProp msg property}.
Context `{Hdb : NngDb db hash} `{Hret : NngRetain db_ret (dbtree_retain_msg msg)}.
Context `{Hcn : NngConn msg cparam property}.
Variable config : conf.
Variable topic_filter : bytes -> option bytes -> bool.
Variable base64_encode : bytes -> bytes.
Variable NNG_ECONNSHUT : Z.
Variable clears : bool.
Variable rule_on : rules -> bool.
Variable rule_engine : option rule_input -> rules -> exec (list rule_ev * rules * option Z).

Implicit Types w : work msg property cparam.
Implicit Types s : world db hash db_ret rules.

(** The reference a work item holds between two calls. *)
Definition held_msg w : Z :=
  match w_state w with
  | WAIT | SEND | END_ | CLOSE => match w_msg w with Some _ => 1 | None => 0 end
  | _ => 0
  end.

(** A run that began with [k] references: the account is even, and exactly one
    call makes the aio complete again. *)
Definition accounted (k : Z) w' (ev : list (eff msg)) : Prop :=
  k + total item_refs ev = held_msg w' /\ total arms ev = 1.

Lemma accounted_even k w ev ev' : even ev -> accounted k w ev' -> accounted k w (ev ++ ev').
Proof. unfold even, accounted. rewrite !total_app. lia. Qed.

Lemma run_hook_frame env w r w' ev :
  run_hook config topic_filter base64_encode env w r = Ret (w', ev) ->
  even ev /\ exists f, w' = with_flag w f.
Proof.
  unfold run_hook. intros ([[? obj] f] & _ & [= <- <-])%ebind_Ret.
  split; [by destruct obj|]. by exists f.
Qed.

Lemma run_handle_pub_frame env s w m proto s' w' rc ev :
  run_handle_pub env s w m proto = Ret (s', w', rc, ev) ->
  even ev /\ exists m' infos pkt, w' = with_pub (with_msg w (Some m')) infos pkt.
Proof.
  unfold run_handle_pub. intros ([rc' ps] & _ & [= <- <- <- <-])%ebind_Ret.
  split; [done|]. by eexists _, _, _.
Qed.

Lemma send_retained_even now pid l ev :
  send_retained (msg := msg) now pid l = Ret ev -> even ev.
Proof.
  revert ev. induction l as [|[m|] l IH]; intros ev; cbn [send_retained]; [by intros [= <-]| |done].
  case_match; [|by intros [= <-]]. intros (ev' & Hr & [= <-])%ebind_Ret.
  apply (even_app (msg := msg) [_; _]); [done|by apply IH].
Qed.

Lemma send_all_even (m : msg) infos : even (send_all m infos).
Proof.
  induction infos as [|p infos IH]; [done|].
  change (send_all m (p :: infos)) with ([EMsgClone m; ECtxSend false m p] ++ send_all m infos).
  by apply even_app.
Qed.

Lemma bridge_forwards_even env t topic smsg fs n r n' ev :
  bridge_forwards (msg := msg) topic_filter env t topic smsg fs n = Ret (r, n', ev) -> even ev.
Proof.
  revert n r n' ev. induction fs as [|f fs IH]; intros n r n' ev; cbn [bridge_forwards];
    [by intros [= <- <- <-]|].
  case_match; [|by apply IH]. intros (ev0 & H0 & ([[r1 n1] ev1] & E & [= <- <- <-])%ebind_Ret)%ebind_Ret.
  apply IH in E. apply even_app; [|done]. by repeat (case_match; simplify_eq).
Qed.

Lemma bridge_nodes_even env t topic smsg nodes n r ev :
  bridge_nodes (msg := msg) topic_filter env t topic smsg nodes n = Ret (r, ev) -> even ev.
Proof.
  revert t n r ev. induction nodes as [|nd nodes IH]; intros t n r ev; cbn [bridge_nodes];
    [by intros [= <- <-]|].
  intros ([[r1 n1] ev1] & E1 & ([r2 ev2] & E2 & [= <- <-])%ebind_Ret)%ebind_Ret.
  apply even_app; [|by eapply IH].
  destruct (bn_enable nd); [by eapply bridge_forwards_even|]. by injection E1 as <- <- <-.
Qed.

Lemma bridge_handler_frame env w w' rv ev :
  bridge_handler config topic_filter env w = Ret (w', rv, ev) ->
  even ev /\ w' = if rv : bool then with_state w SEND else w.
Proof.
  unfold bridge_handler. destruct (w_pub_packet w) as [pkt|]; [|done].
  intros ([bp pr] & _ & ([r1 ev1] & E & [= <- <- <-])%ebind_Ret)%ebind_Ret.
  apply bridge_nodes_even in E. split; [|done]. acct.
Qed.

Lemma forward_publish_frame w m m' w' ev :
  forward_publish w m = Ret (m', w', ev) -> even ev /\ w_msg w' = w_msg w.
Proof.
  unfold forward_publish. destruct (w_msg_infos w) as [|p infos]; [by intros [= <- <- <-]|].
  destruct (w_pub_packet w) as [pkt|]; [|done].
  intros ([[ok m1] pkt1] & _ & Hrun)%ebind_Ret. destruct ok; injection Hrun as <- <- <-.
  - split; [apply send_all_even|done].
  - done.
Qed.

Lemma on_subscribe_accounted env s w m s' w' ev :
  w_msg w = Some m ->
  on_subscribe clears env s w m = Ret (s', w', ev) -> accounted 1 w' ev.
Proof.
  intros Hm. unfold on_subscribe. case_match; [done|].
  intros ([rv pkt] & _ & Hrun)%ebind_Ret.
  apply ebind_Ret in Hrun as ([rv2 [[d h] mr]] & _ & Hrun).
  set (w1 := if negb (rv2 =? 0) then _ else _) in Hrun.
  assert (Hm1 : w_msg w1 = Some m) by (unfold w1; destruct (rv2 =? 0); exact Hm).
  case_match.
  - injection Hrun as <- <- <-. unfold accounted, held_msg. cbn [w_state with_state w_msg].
    by rewrite Hm1.
  - destruct (encode_suback_msg m _ _) as [? smsg].
    apply ebind_Ret in Hrun as (ret & Hret' & [= <- <- <-]).
    apply accounted_even; [by eapply send_retained_even|done].
Qed.

Lemma on_unsubscribe_accounted env s w m s' w' ev :
  on_unsubscribe env s w m = Ret (s', w', ev) -> accounted 1 w' ev.
Proof.
  unfold on_unsubscribe. case_match; [done|].
  intros ([rv pkt] & _ & Hrun)%ebind_Ret.
  apply ebind_Ret in Hrun as ([pkt2 [d h]] & _ & Hrun).
  apply ebind_Ret in Hrun as ([? smsg] & _ & Hrun).
  by apply ebind_Ret in Hrun as (? & _ & [= <- <- <-]).
Qed.

Lemma on_publish_accounted env s w m s' w' ev :
  on_publish env s w m = Ret (s', w', ev) -> accounted 1 w' ev.
Proof.
  unfold on_publish. intros ([[[s1 w1] code] ev1] & Hh & Hrun)%ebind_Ret.
  apply run_handle_pub_frame in Hh as (He & m' & infos & pkt & ->).
  repeat case_match; injection Hrun as <- <- <-; apply accounted_even; done.
Qed.

Lemma on_connack_accounted env s w m s' w' ev :
  on_connack config topic_filter base64_encode env s w m = Ret (s', w', ev) -> accounted 1 w' ev.
Proof.
  unfold on_connack. intros (rc & _ & Hrun)%ebind_Ret.
  destruct (w_cparam w) as [cp|]; [|done].
  apply ebind_Ret in Hrun as ([w1 hook] & Hk & Hrun). apply run_hook_frame in Hk as (Hek & f & ->).
  apply ebind_Ret in Hrun as ([[[s1 w1] c1] ev1] & Hh & [= <- <- <-]).
  apply run_handle_pub_frame in Hh as (He & m' & infos & pkt & ->).
  apply accounted_even; [by destruct (w_proto w =? _)|].
  unfold accounted, held_msg. cbn [w_state with_state w_msg with_pub with_msg]. acct.
Qed.

Lemma on_disconnect_accounted env s w m s' w' ev :
  on_disconnect config topic_filter base64_encode env s w m = Ret (s', w', ev) -> accounted 1 w' ev.
Proof.
  unfold on_disconnect. intros ([w1 hook] & Hk & Hrun)%ebind_Ret.
  apply run_hook_frame in Hk as (Hek & f & ->).
  apply ebind_Ret in Hrun as ([[[s1 w1] c1] ev1] & Hh & Hrun).
  apply run_handle_pub_frame in Hh as (He & m' & infos & pkt & ->).
  destruct (if dbhash_check_id _ _ then _ else _) as [d h].
  destruct (w_cparam _) as [cp|]; [|done].
  case_match; injection Hrun as <- <- <-; unfold accounted, held_msg;
    cbn [w_state with_state w_msg with_pub with_msg]; acct.
Qed.

Lemma dispatch_accounted env s w m s' w' ev :
  dispatch config topic_filter base64_encode clears env s w m = Ret (s', w', ev) ->
  accounted 1 w' ev.
Proof.
  unfold dispatch. cbn [w_flag].
  destruct (nng_msg_cmd_type m);
    first [ by intros ?%on_publish_accounted | by intros ?%on_connack_accounted
          | by intros ?%on_subscribe_accounted | by intros ?%on_unsubscribe_accounted
          | by intros ?%on_disconnect_accounted | by intros [= <- <- <-] ].
Qed.

(** The message that leaks: an HTTP client's request that is not a PUBLISH. *)
Definition leaks env w w' ev : Prop :=
  w_state w = RECV /\ w_state w' = RECV /\ w_proto w <> PROTO_MQTT_BROKER /\
  exists m dm, e_aio_msg env = Some m /\ nng_msg_get_type dm <> CMD_PUBLISH /\
    ev = [EMsgRecv m; EMsgFree m; EMsgNew dm; ECparamFree; ECtxRecv true].

Lemma on_recv_accounted env s w s' w' ev :
  w_state w = RECV ->
  on_recv config topic_filter base64_encode NNG_ECONNSHUT clears env s w = Ret (s', w', ev) ->
  forallb (fun e => negb (is_fatal e)) ev = true ->
  accounted 0 w' ev \/ leaks env w w' ev.
Proof.
  intros Hst Hrun Hf. unfold on_recv in Hrun.
  assert (Hmsg0 : forall w0, w_proto w0 = w_proto w -> w_state w0 = RECV ->
    on_recv_msg config topic_filter base64_encode clears env s w0 = Ret (s', w', ev) ->
    accounted 0 w' ev \/ leaks env w w' ev).
  { clear Hrun. intros w0 Hp0 Hs0. unfold on_recv_msg.
    destruct (e_aio_msg env) as [m|] eqn:Em; [|intros [= <- <- <-]; discriminate Hf].
    assert (Hafter : forall pre m', total item_refs pre = 1 -> total arms pre = 0 ->
      after pre (dispatch config topic_filter base64_encode clears env s w0 m') = Ret (s', w', ev) ->
      accounted 0 w' ev).
    { intros pre m' H1 H2. unfold after. intros ([[s1 w1] ev1] & Hd & [= <- <- <-])%ebind_Ret.
      apply dispatch_accounted in Hd as [Hd1 Hd2]. unfold accounted. acct. }
    rewrite Hp0. destruct (w_proto w =? PROTO_MQTT_BRIDGE) eqn:Eb; bool_hyps.
    - case_decide; [intros Hx; left; eapply Hafter; [| |exact Hx]; done|].
      case_decide; [intros [= <- <- <-]; by left|].
      intros Hx; left; eapply Hafter; [| |exact Hx]; done.
    - case_match; [|intros Hx; left; eapply Hafter; [| |exact Hx]; done].
      intros ([rv o] & _ & Hrun)%ebind_Ret. cbn [snd] in Hrun. destruct o as [[dm cp]|]; [|done].
      case_decide; [|left; eapply Hafter; [| |exact Hrun]; done].
      injection Hrun as <- <- <-. right. split_and!; [done|done| |by eexists m, _].
      intros Hb. rewrite Hb in *. done. }
  case_match; [|by apply (Hmsg0 w)].
  case_match; [injection Hrun as <- <- <-; by left|].
  case_match; [injection Hrun as <- <- <-; by left|]. by apply (Hmsg0 (with_state w RECV)).
Qed.

Lemma on_wait_accounted env s w s' w' ev :
  w_state w = WAIT -> on_wait config topic_filter rule_on env s w = Ret (s', w', ev) ->
  forallb (fun e => negb (is_fatal e)) ev = true -> accounted (held_msg w) w' ev.
Proof.
  intros Hst Hrun Hf. unfold on_wait in Hrun. unfold held_msg at 1. rewrite Hst.
  destruct (w_msg w) as [m|]; [|done].
  case_decide; [|by injection Hrun as <- <- <-].
  destruct (e_aio_result env =? 0); cbn [negb] in Hrun;
    [|injection Hrun as <- <- <-; discriminate Hf].
  apply ebind_Ret in Hrun as ([[smsg w1] ev1] & Hfw & Hrun).
  apply forward_publish_frame in Hfw as [He1 _].
  apply ebind_Ret in Hrun as ([[w2 rv] ev2] & Hb & Hrun).
  assert (He2 : even ev2 /\ w_msg w2 = Some smsg).
  { destruct (cf_bridge_mode config); [|by injection Hb as <- <- <-].
    apply bridge_handler_frame in Hb as [He ->]. split; [done|by destruct rv]. }
  destruct He2 as [He2 Hm2].
  case_match; injection Hrun as <- <- <-; (apply accounted_even; [done|]);
    (apply accounted_even; [done|]); unfold accounted, held_msg;
    cbn [w_state with_state w_msg]; rewrite ?Hm2; cbn; [done|].
  done.
Qed.

(** The rules take no message and complete nothing. *)
Lemma run_rules_even env s w s' ev :
  run_rules rule_on rule_engine env s w = Ret (s', ev) -> existsb is_fatal ev = false -> even ev.
Proof.
  unfold run_rules. case_match; [|by intros [= <- <-]].
  intros ([[evs r] [rv|]] & _ & [= <- <-])%ebind_Ret; done.
Qed.

Lemma on_send_accounted env s w s' w' ev :
  w_state w = SEND ->
  on_send config topic_filter base64_encode rule_on rule_engine env s w = Ret (s', w', ev) ->
  forallb (fun e => negb (is_fatal e)) ev = true -> accounted (held_msg w) w' ev.
Proof.
  intros Hst Hrun Hf. unfold on_send in Hrun. unfold held_msg at 1. rewrite Hst.
  apply ebind_Ret in Hrun as ([s1 revs] & Hr & Hrun). destruct (existsb is_fatal revs) eqn:Ef.
  { injection Hrun as <- <- <-. by rewrite forallb_negb_existsb, Ef in Hf. }
  apply run_rules_even in Hr; [|done].
  apply ebind_Ret in Hrun as ([w1 hook] & Hk & Hrun). apply run_hook_frame in Hk as (Hek & f & ->).
  destruct (e_aio_result env =? 0); cbn [negb] in Hrun.
  - injection Hrun as <- <- <-. cbn [w_msg with_flag].
    set (fp := match w_pub_packet _ with Some _ => _ | None => _ end).
    assert (Hfp : even fp) by (unfold fp; destruct (w_pub_packet w); split; reflexivity). clearbody fp.
    unfold accounted, held_msg. cbn [w_state with_state with_flag].
    destruct (w_msg w); unfold rearm; cbn; acct.
  - injection Hrun as <- <- <-. rewrite forallb_app in Hf. bool_hyps. done.
Qed.

Lemma publish_will_frame env s w cp s' w' ev :
  publish_will env s w cp = Ret (s', w', ev) ->
  total item_refs ev = 1 /\ total arms ev = 0 /\ exists m, w_msg w' = Some m.
Proof.
  unfold publish_will. case_match.
  - intros ([[[s1 w1] c1] ev1] & Hh & Hrun)%ebind_Ret.
    apply run_handle_pub_frame in Hh as (He & m' & infos & pkt & ->).
    destruct (w_pub_packet _); [|done]. injection Hrun as <- <- <-. split_and!; [acct..|]. by eexists.
  - intros ([[[s1 w1] c1] ev1] & Hh & [= <- <- <-])%ebind_Ret.
    apply run_handle_pub_frame in Hh as (He & m' & infos & pkt & ->).
    split_and!; [acct..|]. by eexists.
Qed.

(** In state END a message that is not a PUBLISH is dropped on the floor: the
    state stays, and nothing makes the aio complete again. *)
Definition stalls w w' (ev : list (eff msg)) : Prop :=
  w_state w = END_ /\ w' = w /\ ev = [ECparamFree] /\
  exists m, w_msg w = Some m /\ nng_msg_get_type m <> CMD_PUBLISH.

Lemma on_end_accounted env s w s' w' ev :
  w_state w = END_ ->
  on_end config topic_filter base64_encode env s w = Ret (s', w', ev) ->
  forallb (fun e => negb (is_fatal e)) ev = true ->
  accounted (held_msg w) w' ev \/ stalls w w' ev.
Proof.
  intros Hst Hrun Hf. unfold on_end in Hrun. unfold held_msg at 1. rewrite Hst.
  destruct (w_msg w) as [m|] eqn:Em; [|done]. destruct (w_cparam w) as [cp|]; [|done].
  case_decide; [|injection Hrun as <- <- <-; right; split_and!; [done..|by exists m]].
  destruct (e_aio_result env =? 0); cbn [negb] in Hrun;
    [|injection Hrun as <- <- <-; discriminate Hf].
  apply ebind_Ret in Hrun as ([[smsg w1] ev1] & Hfw & Hrun).
  apply forward_publish_frame in Hfw as [He1 _].
  apply ebind_Ret in Hrun as ([w2 hook] & Hk & Hrun). apply run_hook_frame in Hk as (Hek & f & ->).
  left. destruct (conn_param_get_will_flag cp =? 0); cbn [negb] in Hrun.
  - injection Hrun as <- <- <-. unfold accounted, held_msg, rearm. cbn [w_state with_state].
    cbn [w_proto with_pub with_msg with_flag]. cbn; acct.
  - apply ebind_Ret in Hrun as ([[s3 w3] ev3] & Hw & [= <- <- <-]).
    apply publish_will_frame in Hw as (H1 & H2 & m3 & Hm3).
    unfold accounted, held_msg. cbn [w_state with_state w_msg]. rewrite Hm3. acct.
Qed.

Lemma on_close_accounted s w s' w' ev :
  w_state w = CLOSE -> on_close s w = Ret (s', w', ev) -> accounted (held_msg w) w' ev.
Proof.
  intros Hst [= <- <- <-]. unfold accounted, held_msg. rewrite Hst. cbn [w_state with_state].
  by destruct (w_msg w).
Qed.

Lemma server_cb_cases env s w s' w' ev :
  server_cb config topic_filter base64_encode NNG_ECONNSHUT clears rule_on rule_engine env s w = Ret (s', w', ev) ->
  forallb (fun e => negb (is_fatal e)) ev = true ->
  accounted (held_msg w) w' ev \/ leaks env w w' ev \/ stalls w w' ev.
Proof.
  unfold server_cb. intros Hrun Hf. destruct (w_state w) eqn:Hst.
  - injection Hrun as <- <- <-. left. unfold accounted, held_msg, rearm. rewrite Hst.
    by destruct (w_proto w =? _).
  - destruct (on_recv_accounted env s w s' w' ev) as [Ha|Hl]; [done..| |by right; left].
    left. unfold held_msg. by rewrite Hst.
  - left. by eapply on_wait_accounted.
  - left. by eapply on_send_accounted.
  - injection Hrun as <- <- <-. discriminate Hf.
  - destruct (on_end_accounted env s w s' w' ev) as [Ha|Hl]; [done..|by left|by right; right].
  - left. by eapply on_close_accounted.
Qed.

(** Every call of [server_cb] (that does not stop the broker) leaves the
    references on messages balanced: what the work item held before, plus what
    the call took, is what it gave away plus what it still holds.  The one
    exception is an HTTP client's message that is not a PUBLISH: it is decoded
    and never released. *)
Theorem server_cb_balances_references env s w s' w' ev :
  server_cb config topic_filter base64_encode NNG_ECONNSHUT clears rule_on rule_engine env s w = Ret (s', w', ev) ->
  forallb (fun e => negb (is_fatal e)) ev = true ->
  (held_msg w + total item_refs ev = held_msg w') \/
  (leaks env w w' ev /\ held_msg w + total item_refs ev = held_msg w + 1).
Proof.
  intros Hrun Hf. destruct (server_cb_cases _ _ _ _ _ _ Hrun Hf) as [[Ha _]|[Hl|Hs]].
  - by left.
  - right. split; [done|]. destruct Hl as (_ & _ & _ & m & dm & _ & _ & ->). done.
  - left. destruct Hs as (_ & -> & -> & _). cbn. lia.
Qed.

(** Every call of [server_cb] ends with the aio set to complete exactly
    once more, so a work item is never served twice at a time and never lost;
    the exception is state END with a message that is not a PUBLISH, which
    stops the work item for good. *)
Theorem server_cb_rearms_once env s w s' w' ev :
  server_cb config topic_filter base64_encode NNG_ECONNSHUT clears rule_on rule_engine env s w = Ret (s', w', ev) ->
  forallb (fun e => negb (is_fatal e)) ev = true ->
  total arms ev = 1 \/ (stalls w w' ev /\ total arms ev = 0).
Proof.
  intros Hrun Hf. destruct (server_cb_cases _ _ _ _ _ _ Hrun Hf) as [[_ Ha]|[Hl|Hs]].
  - by left.
  - left. by destruct Hl as (_ & _ & _ & m & dm & _ & _ & ->).
  - right. split; [done|]. by destruct Hs as (_ & -> & -> & _).
Qed.

Lemma send_retained_all now pid (ms : list msg) :
  Forall (fun m => check_msg_exp now m (nng_msg_get_proto_data m) = true) ms ->
  send_retained now pid (Some <$> ms) = Ret (mjoin ((fun m => [EMsgClone m; ECtxSend false m pid]) <$> ms)).
Proof.
  intros Hms. induction Hms as [|m ms Hm _ IH]; [done|]. cbn [fmap list_fmap send_retained] in *. by rewrite Hm, IH.
Qed.

(** A work item of the broker has no error code but in state CLOSE. *)
Definition code_ok w : Prop := w_proto w = PROTO_MQTT_BROKER -> w_state w <> CLOSE -> w_code w = SUCCESS.

Lemma run_handle_pub_code env s w m proto s' w' rc ev :
  run_handle_pub env s w m proto = Ret (s', w', rc, ev) -> w_proto w' = w_proto w /\ w_code w' = w_code w.
Proof. intros (_ & m' & infos & pkt & ->)%run_handle_pub_frame. done. Qed.

Lemma publish_will_code env s w cp s' w' ev :
  publish_will env s w cp = Ret (s', w', ev) -> w_proto w' = w_proto w /\ w_code w' = w_code w.
Proof.
  unfold publish_will. case_match; intros ([[[s1 w1] c1] ev1] & Hh & Hrun)%ebind_Ret;
    apply run_handle_pub_code in Hh; [destruct (w_pub_packet w1); [|done]|]; by injection Hrun as <- <- <-.
Qed.

Lemma dispatch_code env s w m s' w' ev :
  dispatch config topic_filter base64_encode clears env s w m = Ret (s', w', ev) ->
  (w_proto w = PROTO_MQTT_BROKER -> w_code w = SUCCESS) -> code_ok w'.
Proof.
  unfold dispatch. cbn [w_flag]. set (w0 := Work _ _ _ _ _ _ _ _ _ _). intros Hrun Hc0.
  assert (Hc : w_proto w0 = PROTO_MQTT_BROKER -> w_code w0 = SUCCESS) by exact Hc0. clearbody w0. clear Hc0.
  destruct (nng_msg_cmd_type m); try (injection Hrun as <- <- <-; intros Hp _; by apply Hc).
  - unfold on_connack in Hrun. apply ebind_Ret in Hrun as (rc & _ & Hrun). destruct (w_cparam w0); [|done].
    apply ebind_Ret in Hrun as ([w1 hook] & Hk & Hrun). apply run_hook_frame in Hk as (_ & f & ->).
    apply ebind_Ret in Hrun as ([[[s1 w1] c1] ev1] & Hh & [= <- <- <-]). apply run_handle_pub_code in Hh as [Hp1 Hc1].
    intros Hp _. cbn in *. rewrite Hc1. apply Hc. congruence.
  - unfold on_publish in Hrun. apply ebind_Ret in Hrun as ([[[s1 w1] code] ev1] & Hh & Hrun).
    apply run_handle_pub_code in Hh as [Hp1 Hc1]. cbn [w_proto with_code] in Hrun.
    case_match eqn:Ehttp; [injection Hrun as <- <- <-|].
    { intros Hp. cbn in Hp. rewrite Hp in Ehttp. done. }
    case_match eqn:Ecode; [case_match eqn:Eb|]; injection Hrun as <- <- <-; intros Hp Hs; bool_hyps; try done.
  - unfold on_subscribe in Hrun. case_match; [done|]. apply ebind_Ret in Hrun as ([rv pkt] & _ & Hrun).
    apply ebind_Ret in Hrun as ([rv2 [[d h] mr]] & _ & Hrun). set (w1 := if negb (rv2 =? 0) then _ else _) in Hrun.
    destruct (w_code w1 =? SUCCESS) eqn:E; cbn [negb] in Hrun; [|injection Hrun as <- <- <-; by intros _ []].
    destruct (encode_suback_msg m _ _). apply ebind_Ret in Hrun as (? & _ & [= <- <- <-]).
    intros _ _. by bool_hyps.
  - unfold on_unsubscribe in Hrun. case_match; [done|]. apply ebind_Ret in Hrun as ([rv pkt] & _ & Hrun).
    apply ebind_Ret in Hrun as ([pkt2 [d h]] & _ & Hrun). apply ebind_Ret in Hrun as ([? smsg] & _ & Hrun).
    apply ebind_Ret in Hrun as (? & _ & [= <- <- <-]). intros Hp _. by apply Hc.
  - unfold on_disconnect in Hrun. apply ebind_Ret in Hrun as ([w1 hook] & Hk & Hrun).
    apply run_hook_frame in Hk as (_ & f & ->). apply ebind_Ret in Hrun as ([[[s1 w1] c1] ev1] & Hh & Hrun).
    apply run_handle_pub_code in Hh as [Hp1 Hc1]. destruct (if dbhash_check_id _ _ then _ else _) as [d h].
    destruct (w_cparam _); [|done]. case_match; injection Hrun as <- <- <-; intros Hp _; cbn in *; rewrite Hc1; apply Hc; congruence.
Qed.

Lemma forward_publish_code w m m' w' ev :
  forward_publish w m = Ret (m', w', ev) -> w_proto w' = w_proto w /\ w_code w' = w_code w.
Proof.
  unfold forward_publish. destruct (w_msg_infos w); [by intros [= <- <- <-]|].
  destruct (w_pub_packet w); [|done]. intros ([[ok m1] pkt1] & _ & Hrun)%ebind_Ret. by destruct ok; injection Hrun as <- <- <-.
Qed.

Lemma on_recv_code env s w s' w' ev :
  w_state w = RECV -> code_ok w ->
  on_recv config topic_filter base64_encode NNG_ECONNSHUT clears env s w = Ret (s', w', ev) -> code_ok w'.
Proof.
  intros Hst Hc Hrun. unfold on_recv in Hrun.
  assert (Hc0 : w_proto w = PROTO_MQTT_BROKER -> w_code w = SUCCESS) by (intros Hp; apply Hc; congruence).
  assert (Hrecv : forall w0, (w_proto w0 = PROTO_MQTT_BROKER -> w_code w0 = SUCCESS) ->
    on_recv_msg config topic_filter base64_encode clears env s w0 = Ret (s', w', ev) -> code_ok w').
  { clear Hrun. intros w0 H0 Hrun. unfold on_recv_msg in Hrun.
    destruct (e_aio_msg env); [|injection Hrun as <- <- <-; intros Hp _; by apply H0].
    assert (Hafter : forall pre m',
      after pre (dispatch config topic_filter base64_encode clears env s w0 m') = Ret (s', w', ev) -> code_ok w').
    { intros pre m'. unfold after. intros ([[s1 w1] ev1] & Hd & [= <- <- <-])%ebind_Ret. by eapply dispatch_code. }
    case_match; [case_decide; [by eapply Hafter|case_decide; [|by eapply Hafter]]|].
    { injection Hrun as <- <- <-. intros Hp _. by apply H0. }
    case_match; [|by eapply Hafter]. apply ebind_Ret in Hrun as ([rv [[dm cp]|]] & _ & Hrun); cbn [snd] in Hrun; [|done].
    case_decide; [injection Hrun as <- <- <-; intros Hp _; by apply H0|by eapply Hafter]. }
  case_match; [|by apply (Hrecv w)]. case_match; [injection Hrun as <- <- <-; intros Hp _; by apply Hc0|].
  case_match; [injection Hrun as <- <- <-; intros Hp _; by apply Hc0|]. by apply (Hrecv (with_state w RECV)).
Qed.

Lemma server_cb_code env s w s' w' ev :
  server_cb config topic_filter base64_encode NNG_ECONNSHUT clears rule_on rule_engine env s w = Ret (s', w', ev) ->
  code_ok w -> code_ok w'.
Proof.
  unfold server_cb. intros Hrun Hc.
  assert (Hsame : w_proto w' = w_proto w -> w_code w' = w_code w -> w_state w <> CLOSE -> code_ok w').
  { intros Hp Hk Hs Hb _. rewrite Hk. apply Hc; congruence. }
  destruct (w_state w) eqn:Hst.
  - injection Hrun as <- <- <-. by apply Hsame.
  - by eapply on_recv_code.
  - unfold on_wait in Hrun. destruct (w_msg w); [|done].
    case_decide; [|injection Hrun as <- <- <-; by apply Hsame].
    case_match; [injection Hrun as <- <- <-; by apply Hsame|].
    apply ebind_Ret in Hrun as ([[smsg w1] ev1] & Hf & Hrun). apply forward_publish_code in Hf as [Hp1 Hc1].
    apply ebind_Ret in Hrun as ([[w2 rv] ev2] & Hb & Hrun).
    assert (Hw2 : w_proto w2 = w_proto w /\ w_code w2 = w_code w).
    { destruct (cf_bridge_mode config); [|by injection Hb as <- <- <-].
      apply bridge_handler_frame in Hb as [_ ->]. by destruct rv. }
    destruct Hw2. case_match; injection Hrun as <- <- <-; by apply Hsame.
  - unfold on_send in Hrun. apply ebind_Ret in Hrun as ([s1 evs] & _ & Hrun).
    destruct (existsb _ _); [injection Hrun as <- <- <-; by apply Hsame|].
    apply ebind_Ret in Hrun as ([w1 hook] & Hk & Hrun). apply run_hook_frame in Hk as (_ & f & ->).
    destruct (_ =? 0); injection Hrun as <- <- <-; by apply Hsame.
  - injection Hrun as <- <- <-. by apply Hsame.
  - unfold on_end in Hrun. destruct (w_msg w); [|done]. destruct (w_cparam w); [|done].
    case_decide; [|injection Hrun as <- <- <-; by apply Hsame]. case_match; [injection Hrun as <- <- <-; by apply Hsame|].
    apply ebind_Ret in Hrun as ([[smsg w1] ev1] & Hf & Hrun). apply forward_publish_code in Hf as [Hp1 Hc1].
    apply ebind_Ret in Hrun as ([w2 hook] & Hk & Hrun). apply run_hook_frame in Hk as (_ & f & ->).
    case_match; [|injection Hrun as <- <- <-; by apply Hsame].
    apply ebind_Ret in Hrun as ([[s3 w3] ev3] & Hw & [= <- <- <-]). apply publish_will_code in Hw as [Hp3 Hc3].
    apply Hsame; cbn in *; congruence.
  - injection Hrun as <- <- <-. by intros _ _.
Qed.

(** Subscribing sends the retained messages only up to the first expired
    one; messages behind it are not sent although they are still valid. *)
Theorem send_retained_stops_at_expired now pid pre (m : msg) post :
  Forall (fun m => check_msg_exp now m (nng_msg_get_proto_data m) = true) pre ->
  check_msg_exp now m (nng_msg_get_proto_data m) = false ->
  send_retained now pid (Some <$> pre ++ m :: post) =
  Ret (mjoin ((fun m => [EMsgClone m; ECtxSend false m pid]) <$> pre)).
Proof.
  intros Hpre Hm. induction Hpre as [|x pre Hx _ IH]; cbn [app fmap list_fmap send_retained].
  - by rewrite Hm.
  - rewrite Hx. rewrite fmap_app in IH. cbn [fmap list_fmap] in IH.
    cbn [app fmap list_fmap] in *. rewrite fmap_app. cbn [fmap list_fmap]. by rewrite IH.
Qed.
End CbProofs.

(** ** A PUBLISH from its arrival to its subscribers *)

(** The kind of packet is read from the fixed header: tags and properties kept
    with a message do not change it. *)
Class NngConnLaws (msg cparam property : Type) `{NngMsg msg} `{NngMsgProp msg property}
    `{NngConn msg cparam property} : Prop := {
  get_type_set_cmd : forall m c, nng_msg_get_type (nng_msg_set_cmd_type m c) = nng_msg_get_type m;
  get_type_set_property : forall m p,
    nng_msg_get_type (nng_msg_proto_set_property m p) = nng_msg_get_type m;
  set_property_keeps : forall m p,
    nng_msg_header (nng_msg_proto_set_property m p) = nng_msg_header m /\
    nng_msg_body (nng_msg_proto_set_property m p) = nng_msg_body m /\
    nng_msg_remaining_len (nng_msg_proto_set_property m p) = nng_msg_remaining_len m /\
    nng_msg_cmd_type (nng_msg_proto_set_property m p) = nng_msg_cmd_type m
}.

Section EndToEnd.
Context {msg property cparam db hash db_ret rules : Type}.
Context `{Hmsg : NngMsg msg} `{Hpar : NngParser msg property} `{Hmp : NngMsgProp msg property}.
Context `{Hdb : NngDb db hash} `{Hret : NngRetain db_ret (dbtree_retain_msg msg)}.
Context `{Hcn : NngConn msg cparam property} {Hcl : NngConnLaws msg cparam property}.
Context {utf8_ok : bytes -> Prop} {prop_ok : option property -> Prop}.
Context {Hlaws : NngParserLaws msg property utf8_ok} {Hpl : NngPropLaws msg property prop_ok}.
Context {Hml : NngMsgLaws msg} {Hnf : NngMsgNoFail msg}.
Variable config : conf.
Variable topic_filter : bytes -> option bytes -> bool.
Variable base64_encode : bytes -> bytes.
Variable NNG_ECONNSHUT : Z.
Variable clears : bool.
Variable rule_on : rules -> bool.
Variable rule_engine : option rule_input -> rules -> exec (list rule_ev * rules * option Z).

Abbreviation cb := (server_cb config topic_filter base64_encode NNG_ECONNSHUT clears rule_on rule_engine).

(** Messages sent to clients, with the client. *)
Definition sends (ev : list (eff msg)) : list (msg * Z) :=
  omap (fun e => match e with ECtxSend false m p => Some (m, p) | _ => None end) ev.

Lemma sends_send_all (m : msg) infos : sends (send_all m infos) = (fun p => (m, p)) <$> infos.
Proof.
  induction infos as [|p infos IH]; [done|].
  change (sends (send_all m (p :: infos))) with ((m, p) :: sends (send_all m infos)).
  by rewrite IH.
Qed.

Lemma bridge_sends_send_all (m : msg) infos :
  omap (fun e => match e with EBridgeSend n m => Some (n, m) | _ => None end) (send_all m infos) = [].
Proof. induction infos as [|p infos IH]; [done|]. exact IH. Qed.

Lemma send_all_not_fatal (m : msg) infos : forallb (fun e => negb (is_fatal e)) (send_all m infos) = true.
Proof. induction infos as [|p infos IH]; [done|]. exact IH. Qed.

(** What follows the sends of a PUBLISH sends nothing more. *)
Lemma sends_send_all_app (m : msg) infos ev :
  sends ev = [] -> sends (send_all m infos ++ [] ++ ev) = (fun p => (m, p)) <$> infos.
Proof.
  intros He. cbn [app]. transitivity (sends (send_all m infos) ++ sends ev); [apply omap_app|].
  by rewrite sends_send_all, He, app_nil_r.
Qed.

(** Keeping the message leaves its bytes and its tag. *)
Lemma handle_pub_retain_same ra (m : msg) proto_ver (pkt : pub_packet_struct property) dr topic m' dr' refs :
  handle_pub_retain (db_ret := db_ret) ra m proto_ver pkt dr topic = (m', dr', refs) ->
  m' = m \/ exists p, m' = nng_msg_proto_set_property m p.
Proof.
  unfold handle_pub_retain. case_match; [by intros [= <- <- <-]; left|].
  case_match; [case_match|].
  - destruct (dbtree_insert_retain _ _ _). intros [= <- <- <-].
    case_match; [|by left]. case_match; [by right; eexists|by left].
  - by intros [= <- <- <-]; left.
  - destruct (dbtree_delete_retain _ _). by intros [= <- <- <-]; left.
Qed.

Lemma handle_pub_retain_type ra (m : msg) proto_ver (pkt : pub_packet_struct property) dr topic m' dr' refs :
  handle_pub_retain (db_ret := db_ret) ra m proto_ver pkt dr topic = (m', dr', refs) ->
  nng_msg_get_type m' = nng_msg_get_type m.
Proof using Hcl. intros [->|[p ->]]%handle_pub_retain_same; [done|apply get_type_set_property]. Qed.

(** The message with the tag [on_publish] sets. *)
Definition tagged (m : msg) (proto_ver : Z) : msg := nng_msg_set_cmd_type m (publish_tag proto_ver).

Lemma kept_publish ra (m : msg) proto_ver (pkt : pub_packet_struct property) dr topic m' dr' refs fh t id props plen enc data :
  handle_pub_retain (db_ret := db_ret) ra (tagged m proto_ver) proto_ver pkt dr topic = (m', dr', refs) ->
  wf_publish utf8_ok (tagged m proto_ver) proto_ver fh t id props plen enc data ->
  wf_publish utf8_ok m' proto_ver fh t id props plen enc data /\ nng_msg_cmd_type m' = publish_tag proto_ver.
Proof using Hlaws Hml Hcl.
  intros Hr W. assert (Htag : nng_msg_cmd_type (tagged m proto_ver) = publish_tag proto_ver) by apply set_cmd.
  apply handle_pub_retain_same in Hr as [->|[p ->]]; [done|].
  destruct (set_property_keeps (tagged m proto_ver) p) as (Hh & Hb & Hl & Hc). split; [|by rewrite Hc].
  by eapply wf_publish_ext.
Qed.

(** The work item after a well-formed PUBLISH arrived: the packet is decoded
    and its receivers are known. *)
Lemma on_publish_run env (s : world db hash db_ret rules) (w : work msg property cparam) m fh t id props plen enc data :
  w_proto w = PROTO_MQTT_BROKER ->
  pa_packet (e_allocs env) = true -> pa_payload (e_allocs env) = true ->
  wf_publish utf8_ok (tagged m (w_proto_ver w)) (w_proto_ver w) fh t id props plen enc data ->
  out_ok (wd_stats s) ->
  Zlen (default [] (dbtree_find_clients (wd_db s) t)) < 2 ^ 31 ->
  Zlen (default [] (dbtree_find_shared_clients (wd_db s) t)) < 2 ^ 31 ->
  exists s1 m1 refs w1,
    on_publish env s w m = Ret (s1, w1, [ERetain refs; EAioFinish]) /\
    w_state w1 = WAIT /\ w_proto w1 = PROTO_MQTT_BROKER /\ w_msg w1 = Some m1 /\
    nng_msg_get_type m1 = nng_msg_get_type m /\
    w_msg_infos w1 = live (receivers (wd_db s) t) /\
    w_pub_packet w1 = Some (publish_packet fh t (fixed_id fh id) props plen data) /\
    w_flag w1 = w_flag w /\ w_cparam w1 = w_cparam w /\ w_proto_ver w1 = w_proto_ver w /\ wd_rules s1 = wd_rules s /\
    handle_pub_retain (pa_retain (e_allocs env)) (tagged m (w_proto_ver w)) (w_proto_ver w)
      (publish_packet fh t (fixed_id fh id) props plen data) (wd_ret s) t = (m1, wd_ret s1, refs).
Proof using Hlaws Hcl.
  intros Hpr Ha1 Ha2 W Ho H1 H2. unfold on_publish. fold (publish_tag (w_proto_ver w)). fold (tagged m (w_proto_ver w)).
  unfold run_handle_pub.
  set (ps := PubState (tagged m (w_proto_ver w)) _ _ _ _ _ _).
  rewrite (handle_pub_run (e_allocs env) (wd_db s) (w_pid w) (w_proto_ver w) (w_proto_ver w) ps
             fh t id props plen enc data Ha1 Ha2 W).
  cbn [ebind]. set (pkt := publish_packet _ _ _ _ _ _).
  set (ps1 := PubState (ps_msg ps) (Some pkt) [] _ _ _ _).
  destruct (deliver_spec (e_allocs env) (wd_db s) (w_proto_ver w) t pkt ps1) as (Hi & _ & Hpk & _ & Hm);
    [by apply started_out_ok|done|done|].
  destruct (handle_pub_retain _ _ _ _ _ _) as [[m' dr'] refs] eqn:Er in Hm.
  pose proof (handle_pub_retain_type _ _ _ _ _ _ _ _ _ Er) as Hty.
  injection Hm as Hm Hdr Hrefs. cbn [w_proto with_code with_pub with_msg]. rewrite Hpr.
  cbn [orb Z.eqb negb PROTO_HTTP_SERVER PROTO_AWS_BRIDGE PROTO_MQTT_BROKER SUCCESS app].
  eexists _, m', _, _. split; [reflexivity|]. cbn [w_state w_proto w_msg w_msg_infos w_pub_packet
    with_state with_code with_pub with_msg].
  split; [done|]. split; [done|]. split; [by rewrite Hm|].
  split; [rewrite Hty; apply get_type_set_cmd|]. split; [by rewrite Hi|]. do 5 (split; [done|]).
  cbn [wd_ret]. rewrite Hdr, Hrefs. exact Er.
Qed.

(** A well-formed PUBLISH with topic [t] and payload [data] arrives at a work
    item of the broker; all memory is there. *)
Record arriving env (s : world db hash db_ret rules) (w : work msg property cparam) (m : msg) fh t id props plen enc
    data : Prop := Arriving {
  ar_state : w_state w = RECV /\ w_proto w = PROTO_MQTT_BROKER;
  ar_aio : e_aio_result env = 0 /\ e_aio_msg env = Some m;
  ar_type : nng_msg_cmd_type m = CMD_PUBLISH /\ nng_msg_get_type m = CMD_PUBLISH;
  ar_allocs : pa_packet (e_allocs env) = true /\ pa_payload (e_allocs env) = true;
  ar_wf : let ver := conn_param_get_protover (nng_msg_get_conn_param m) in
          wf_publish utf8_ok (tagged m ver) ver fh t id props plen enc data;
  ar_props : prop_ok props;
  ar_stats : out_ok (wd_stats s);
  ar_clients : Zlen (default [] (dbtree_find_clients (wd_db s) t)) < 2 ^ 31;
  ar_shared : Zlen (default [] (dbtree_find_shared_clients (wd_db s) t)) < 2 ^ 31
}.

(** A PUBLISH that can be written and read again: bits as flags, a legal topic,
    an id of two bytes; properties only in MQTT 5. *)
Record sendable (proto : Z) fh t id props : Prop := Sendable {
  sd_flags : fixed_header_ok fh;
  sd_topic : utf8_ok t /\ 0 < Zlen t < 65536 /\ no_wildcard t;
  sd_id : 0 <= id < 65536;
  sd_props : prop_ok props /\ (proto <> MQTT_PROTOCOL_VERSION_v5 -> props = None)
}.

Lemma wf_publish_sendable (m : msg) proto fh t id props plen enc data :
  wf_publish utf8_ok m proto fh t id props plen enc data -> prop_ok props ->
  sendable proto fh t (fixed_id fh id) props.
Proof.
  intros W Hp. constructor; [by eapply wf_publish_flags|by destruct W| |].
  - pose proof (wp_id _ _ _ _ _ _ _ _ _ _ W). unfold fixed_id. case_match; lia.
  - split; [done|]. intros Hne. by eapply pub_props_empty in Hne as [-> _]; [|by destruct W].
Qed.

Lemma fixed_id_idem fh id : fixed_id fh (fixed_id fh id) = fixed_id fh id.
Proof. unfold fixed_id. by destruct (0 <? fh_qos fh). Qed.

(** The same packet, with another remaining length. *)
Lemma carries_fixed (m : msg) proto fh t id (props : option property) data :
  carries m proto fh t id props data -> carries m proto fh t (fixed_id fh id) props data.
Proof.
  intros [Hb Hd]. constructor; [|by rewrite fixed_id_idem].
  unfold pub_prefix, id_part, fixed_id in *. by destruct (0 <? fh_qos fh).
Qed.

(** A work item that has decoded such a packet and knows its receivers; its
    message is still the one that arrived. *)
Record forwarding (w : work msg property cparam) (rs : list Z) fh t id props plen data : Prop := Forwarding {
  fw_state : w_state w = WAIT /\ w_proto w = PROTO_MQTT_BROKER;
  fw_msg : exists m, w_msg w = Some m /\ nng_msg_get_type m = CMD_PUBLISH /\
    nng_msg_cmd_type m = publish_tag (w_proto_ver w) /\ carries m (w_proto_ver w) fh t id props data;
  fw_infos : w_msg_infos w = rs;
  fw_packet : w_pub_packet w = Some (publish_packet fh t id props plen data);
  fw_flag : w_flag w = CMD_PUBLISH;
  fw_sendable : sendable (w_proto_ver w) fh t id props
}.

(** What it forwards is the same PUBLISH. *)
Lemma forward_publish_run (w : work msg property cparam) m fh t id props plen data :
  w_pub_packet w = Some (publish_packet fh t id props plen data) -> sendable (w_proto_ver w) fh t id props ->
  nng_msg_cmd_type m = publish_tag (w_proto_ver w) -> carries m (w_proto_ver w) fh t id props data ->
  exists m2 w1 fh', forward_publish w m = Ret (m2, w1, send_all m2 (w_msg_infos w)) /\
    carries m2 (w_proto_ver w) fh t id props data /\
    w_pub_packet w1 = Some (publish_packet fh' t id props plen data) /\
    (fh_retain fh', fh_qos fh', fh_dup fh') = (fh_retain fh, fh_qos fh, fh_dup fh) /\
    w_flag w1 = w_flag w /\ w_cparam w1 = w_cparam w /\ w_proto_ver w1 = w_proto_ver w /\ w_proto w1 = w_proto w.
Proof using Hlaws Hpl Hml Hnf.
  intros Hp [Hok (Hu & Ht & Hw) Hid [Hpo Hv]] Htag Hc. unfold forward_publish. rewrite Hp.
  destruct (w_msg_infos w) as [|p ps].
  - exists m, w, fh. by split_and!.
  - destruct (encode_carries m (w_proto_ver w) fh t id props plen data) as (m2 & remain & -> & Hc2); [done..|].
    cbn [ebind]. do 3 eexists. by split_and!.
Qed.

(** The first call: the packet is decoded, nothing is sent. *)
Lemma publish_received env s w m fh t id props plen enc data :
  arriving env s w m fh t id props plen enc data ->
  exists s1 w1 refs, cb env s w = Ret (s1, w1, [EMsgRecv m; ERetain refs; EAioFinish]) /\
    forwarding w1 (live (receivers (wd_db s) t)) fh t (fixed_id fh id) props plen data /\
    w_cparam w1 = Some (nng_msg_get_conn_param m) /\ wd_rules s1 = wd_rules s /\
    let ver := conn_param_get_protover (nng_msg_get_conn_param m) in
    w_proto_ver w1 = ver /\
    exists m1, w_msg w1 = Some m1 /\
      handle_pub_retain (pa_retain (e_allocs env)) (tagged m ver) ver
        (publish_packet fh t (fixed_id fh id) props plen data) (wd_ret s) t = (m1, wd_ret s1, refs).
Proof using Hlaws Hml Hcl.
  intros [[Hst Hpr] [Hr1 Hm1] [Hc Hty] [Ha1 Ha2] W Hpo Ho H1 H2].
  set (ver := conn_param_get_protover (nng_msg_get_conn_param m)) in *.
  set (w0 := Work (w_state w) (w_proto w) ver (nng_msg_cmd_type m) (Some m) (nng_msg_get_pipe m)
               (w_code w) (w_msg_infos w) (Some (nng_msg_get_conn_param m)) (w_pub_packet w)).
  destruct (on_publish_run env s w0 m fh t id props plen enc data Hpr Ha1 Ha2 W Ho H1 H2)
    as (s1 & m1 & refs & w1 & Hrun1 & Hst1 & Hp1 & Hm1' & Hty1 & Hinf & Hpkt & Hfl & Hcp & Hv & Hru & Hre).
  pose proof Hre as Hk. eapply kept_publish in Hk as [W1 Htag]; [|exact W].
  exists s1, w1, refs. split.
  - unfold server_cb. rewrite Hst. unfold on_recv. rewrite Hr1. cbn [Z.eqb negb].
    unfold on_recv_msg. rewrite Hm1, Hpr. cbn [Z.eqb orb PROTO_MQTT_BROKER PROTO_MQTT_BRIDGE
      PROTO_HTTP_SERVER PROTO_AWS_BRIDGE].
    unfold after, dispatch. cbn [w_flag]. rewrite Hc. fold ver. rewrite <- Hc at 1. fold w0.
    by rewrite Hrun1.
  - split; [|split; [done|]; split; [done|]; split; [done|]; by exists m1]. constructor; try done; [|by rewrite Hfl|rewrite Hv; by eapply wf_publish_sendable].
    exists m1. rewrite Hty1, Hv. split_and!; [done..|]. by apply carries_fixed, (wf_publish_carries m1 _ _ _ _ _ plen enc).
Qed.

(** What goes to the bridges. *)
Definition bridge_sends (ev : list (eff msg)) : list (Z * msg) :=
  omap (fun e => match e with EBridgeSend n m => Some (n, m) | _ => None end) ev.

Lemma sends_app (l k : list (eff msg)) : sends (l ++ k) = sends l ++ sends k.
Proof. apply omap_app. Qed.

Lemma bridge_sends_app (l k : list (eff msg)) : bridge_sends (l ++ k) = bridge_sends l ++ bridge_sends k.
Proof. apply omap_app. Qed.

(** Neither a send to a client nor the end of the process. *)
Definition inside (ev : list (eff msg)) : Prop := sends ev = [] /\ forallb (fun e => negb (is_fatal e)) ev = true.

Lemma inside_app l k : inside l -> inside k -> inside (l ++ k).
Proof. intros [H1 H2] [H3 H4]. split; [by rewrite sends_app, H1, H3|by rewrite forallb_app, H2, H4]. Qed.

(** The bridge nodes that take the topic: an enabled node for each of its
    filters that covers it. *)
Definition node_takes (t : Z) (topic : option bytes) (node : conf_bridge_node) : list Z :=
  if bn_enable node then (fun _ => t) <$> filter (fun f => topic_filter f topic) (bn_forwards node) else [].

Fixpoint nodes_take (t : Z) (topic : option bytes) (nodes : list conf_bridge_node) : list Z :=
  match nodes with
  | [] => []
  | node :: rest => node_takes t topic node ++ nodes_take (t + 1) topic rest
  end.

(** One message for each, but those that found the aio busy. *)
Fixpoint not_busy (busy : nat -> bool) (n : nat) (smsg : msg) (ts : list Z) : list (Z * msg) :=
  match ts with
  | [] => []
  | t :: ts => (if busy n then [] else [(t, smsg)]) ++ not_busy busy (S n) smsg ts
  end.

Lemma not_busy_app busy n (smsg : msg) l k :
  not_busy busy n smsg (l ++ k) = not_busy busy n smsg l ++ not_busy busy (n + length l) smsg k.
Proof.
  revert n. induction l as [|t l IH]; intros n; cbn [app not_busy length]; [by rewrite Nat.add_0_r|].
  rewrite IH, <- app_assoc. by rewrite Nat.add_succ_r.
Qed.

Lemma bridge_forwards_spec env t topic (smsg : msg) fs n :
  let l := (fun _ => t) <$> filter (fun f => topic_filter f topic) fs in
  Forall (fun t => e_bridge_sock env t = true) l ->
  exists r ev, bridge_forwards topic_filter env t topic smsg fs n = Ret (r, (n + length l)%nat, ev) /\
    inside ev /\ bridge_sends ev = not_busy (e_bridge_busy env) n smsg l.
Proof.
  cbv zeta. revert n. induction fs as [|f fs IH]; intros n Hs; cbn [bridge_forwards].
  { do 2 eexists. by rewrite Nat.add_0_r. }
  destruct (topic_filter f topic) eqn:Ef.
  - rewrite filter_cons_True in * by (by rewrite Ef). cbn [fmap list_fmap] in *. apply Forall_cons in Hs as [Hsock Hs].
    destruct (IH (S n) Hs) as (r & ev & He & Hin & Hb). rewrite Hsock.
    exists true. rewrite He. cbn [length not_busy]. rewrite Nat.add_succ_r.
    destruct (e_bridge_busy env n); cbn [ebind]; eexists; (split; [reflexivity|]);
      (split; [by apply inside_app|]); by rewrite bridge_sends_app, Hb.
  - rewrite filter_cons_False in * by (rewrite Ef; by intros []). by apply IH.
Qed.

Lemma bridge_nodes_spec env t topic (smsg : msg) nodes n :
  Forall (fun t => e_bridge_sock env t = true) (nodes_take t topic nodes) ->
  exists r ev, bridge_nodes topic_filter env t topic smsg nodes n = Ret (r, ev) /\
    inside ev /\ bridge_sends ev = not_busy (e_bridge_busy env) n smsg (nodes_take t topic nodes).
Proof.
  revert t n. induction nodes as [|nd nodes IH]; intros t n; cbn [bridge_nodes nodes_take]; [by do 2 eexists|].
  intros [H1 H2]%Forall_app. unfold node_takes in *. rewrite not_busy_app. destruct (bn_enable nd).
  - destruct (bridge_forwards_spec env t topic smsg (bn_forwards nd) n H1) as (r1 & ev1 & -> & Hin1 & Hb1). cbn [ebind].
    destruct (IH (t + 1) (n + length ((fun _ => t) <$> filter (fun f => topic_filter f topic) (bn_forwards nd)))%nat H2)
      as (r2 & ev2 & -> & Hin2 & Hb2). cbn [ebind]. do 2 eexists. split; [done|].
    split; [by apply inside_app|]. by rewrite bridge_sends_app, Hb1, Hb2.
  - cbn [ebind length]. destruct (IH (t + 1) n H2) as (r2 & ev2 & -> & Hin2 & Hb2).
    rewrite Nat.add_0_r. by do 2 eexists.
Qed.

(** The message for the bridges: the PUBLISH with its flags. *)
Definition bridged (ver : Z) (props : option property) fh t data : msg :=
  bridge_msg (BridgePublish (negb (fh_dup fh =? 0)) (u8 (fh_qos fh)) (negb (fh_retain fh =? 0)) data (Some t))
    (if ver =? MQTT_PROTOCOL_VERSION_v5 then mqtt_property_dup props else None).

(** The nodes that take what is published on [t]. *)
Definition takers t : list Z :=
  if cf_bridge_mode config then nodes_take 0 (Some t) (cf_bridge_nodes config) else [].

Lemma bridge_handler_spec env w fh t id props plen data :
  w_pub_packet w = Some (publish_packet fh t id props plen data) ->
  Forall (fun n => e_bridge_sock env n = true) (nodes_take 0 (Some t) (cf_bridge_nodes config)) ->
  exists rv ev, bridge_handler config topic_filter env w = Ret (if rv : bool then with_state w SEND else w, rv, ev) /\
    inside ev /\
    bridge_sends ev = not_busy (e_bridge_busy env) 0 (bridged (w_proto_ver w) props fh t data)
      (nodes_take 0 (Some t) (cf_bridge_nodes config)).
Proof.
  intros Hp Hsock. unfold bridge_handler, bridged. rewrite Hp.
  cbn [publish_packet pp_var_header var_publish ph_properties ph_topic_name ms_body pp_payload pp_fixed_header].
  assert (Hpay : bridge_publish_msg (Some t) (pl_data (payload_of data)) (pl_len (payload_of data))
      (negb (fh_dup fh =? 0)) (fh_qos fh) (negb (fh_retain fh =? 0))
      (if w_proto_ver w =? MQTT_PROTOCOL_VERSION_v5 then mqtt_property_dup props else None) =
    Ret (BridgePublish (negb (fh_dup fh =? 0)) (u8 (fh_qos fh)) (negb (fh_retain fh =? 0)) data (Some t),
         if w_proto_ver w =? MQTT_PROTOCOL_VERSION_v5 then mqtt_property_dup props else None)).
  { unfold bridge_publish_msg, payload_of. cbn [pl_data pl_len]. case_bool_decide as Hd; [by subst data|].
    rewrite slice_in by (pose proof (Zlen_nonneg data); lia). unfold Zlen. by rewrite Nat2Z.id, firstn_all. }
  rewrite Hpay. cbn [ebind fst snd].
  edestruct bridge_nodes_spec as (rv & ev & -> & Hin & Hb); [exact Hsock|]. cbn [ebind].
  exists rv. eexists. split; [reflexivity|]. split.
  - apply inside_app; [done|]. by apply inside_app.
  - rewrite !bridge_sends_app, Hb. cbn. by rewrite app_nil_r.
Qed.

(** The second call: the packet is encoded once and sent to each receiver, and
    in bridge mode once to every bridge that takes the topic.  Nothing shared is
    looked at but the switch of the rules. *)
Lemma publish_forwarded env s w rs fh t id props plen data :
  e_aio_result env = 0 -> forwarding w rs fh t id props plen data ->
  Forall (fun n => e_bridge_sock env n = true) (takers t) ->
  exists m2 w2 ev, cb env s w = Ret (s, w2, ev) /\ forallb (fun e => negb (is_fatal e)) ev = true /\
    sends ev = (fun p => (m2, p)) <$> rs /\ carries m2 (w_proto_ver w) fh t id props data /\
    (w_state w2, w_msg w2) =
      (if wh_enable (cf_web_hook config) || rule_on (wd_rules s) then (SEND, Some m2) else (RECV, None)) /\
    (wh_enable (cf_web_hook config) || rule_on (wd_rules s) = true ->
     w_flag w2 = CMD_PUBLISH /\ w_cparam w2 = w_cparam w /\ exists fh',
       w_pub_packet w2 = Some (publish_packet fh' t id props plen data) /\ fh_qos fh' = fh_qos fh) /\
    bridge_sends ev = not_busy (e_bridge_busy env) 0 (bridged (w_proto_ver w) props fh t data) (takers t).
Proof using Hlaws Hpl Hml Hnf.
  intros Hr [[Hst Hpr] (m & Hm & Hty & Htag & Hc) Hinf Hpkt Hfl Hsd] Hsock.
  destruct (forward_publish_run w m fh t id props plen data Hpkt Hsd Htag Hc)
    as (m2 & w1 & fh' & Hf & Hc2 & Hpk1 & Hq & Hfl1 & Hcp1 & Hv1 & _). rewrite Hinf in Hf.
  assert (Hbr : exists rv ev2, (if cf_bridge_mode config then bridge_handler config topic_filter env (with_msg w1 (Some m2))
      else Ret (with_msg w1 (Some m2), false, [])) =
      Ret (if rv : bool then with_state (with_msg w1 (Some m2)) SEND else with_msg w1 (Some m2), rv, ev2) /\ inside ev2 /\
    bridge_sends ev2 = not_busy (e_bridge_busy env) 0 (bridged (w_proto_ver w) props fh t data) (takers t)).
  { unfold takers in *. destruct (cf_bridge_mode config); [|by exists false, []].
    destruct (bridge_handler_spec env (with_msg w1 (Some m2)) fh' t id props plen data Hpk1 Hsock) as (rv & ev2 & H1 & H2 & H3).
    exists rv, ev2. split; [done|]. split; [done|]. rewrite H3. cbn [w_proto_ver with_msg]. rewrite Hv1.
    unfold bridged. by injection Hq as -> -> ->. }
  destruct Hbr as (rv & ev2 & Hbh & [Hs2 Hnf2] & Hb2).
  unfold server_cb. rewrite Hst. unfold on_wait. rewrite Hm, decide_True, Hr by done. cbn [Z.eqb negb].
  rewrite Hf. cbn [ebind]. rewrite Hbh. cbn [ebind].
  destruct (_ || _); do 3 eexists; (split; [reflexivity|]); rewrite !forallb_app, send_all_not_fatal, Hnf2, !sends_app,
    sends_send_all, Hs2, !bridge_sends_app, Hb2; fold (bridge_sends (send_all m2 rs));
    unfold bridge_sends at 1; rewrite bridge_sends_send_all; cbn [andb app];
    (split_and!; [done| |exact Hc2| | |apply app_nil_r]).
  all: try (cbn; by rewrite app_nil_r).
  all: try done.
  all: try (by destruct rv).
  intros _. split; [destruct rv; cbn; congruence|]. split; [by destruct rv|]. exists fh'. split; [by destruct rv|]. congruence.
Qed.

(** A well-formed PUBLISH that reaches the broker is, two calls later,
    sent once to every client the subscription tree finds for its topic, in
    that order and to nobody else, as the same PUBLISH; without hooks and rules
    the work item is then back waiting for the next packet. *)
Theorem publish_reaches_subscribers env env2 s w m fh t id props plen enc data :
  e_aio_result env2 = 0 -> Forall (fun n => e_bridge_sock env2 n = true) (takers t) ->
  arriving env s w m fh t id props plen enc data ->
  exists s1 w1 ev1 w2 ev2 m2,
    cb env s w = Ret (s1, w1, ev1) /\ sends ev1 = [] /\
    cb env2 s1 w1 = Ret (s1, w2, ev2) /\
    sends ev2 = (fun p => (m2, p)) <$> live (receivers (wd_db s) t) /\
    carries m2 (conn_param_get_protover (nng_msg_get_conn_param m)) fh t (fixed_id fh id) props data /\
    (wh_enable (cf_web_hook config) || rule_on (wd_rules s1) = false -> w_state w2 = RECV /\ w_msg w2 = None).
Proof using Hlaws Hpl Hml Hnf Hcl.
  intros Hr2 Hsock Ha. destruct (publish_received _ _ _ _ _ _ _ _ _ _ _ Ha) as (s1 & w1 & refs & H1 & Hf & _ & _ & Hv & _).
  destruct (publish_forwarded env2 s1 w1 _ _ _ _ _ _ _ Hr2 Hf Hsock) as (m2 & w2 & ev2 & H2 & _ & Hs & Hc & Hw & _).
  rewrite Hv in Hc. eexists s1, w1, _, w2, ev2, m2. split_and!; try done. intros Hoff. rewrite Hoff in Hw. by injection Hw as -> ->.
Qed.
End EndToEnd.

(** ** A concrete connection interface, and witnesses *)

(** The packet kind is the high nibble of the first header byte; every message
    comes from client 3, which has no will and speaks version [ver]. *)
Definition r_conn_of (ver : Z) : NngConn rmsg conn_param (list (Z * property_data)) := {|
  nng_msg_get_type m :=
    match rm_header m with
    | b :: _ => if b / 16 =? PUBLISH then CMD_PUBLISH else CMD_UNKNOWN
    | [] => CMD_UNKNOWN
    end;
  nng_msg_get_pipe _ := 3;
  nng_msg_get_conn_param _ := ConnParam (str "c1") ver;
  nng_msg_set_conn_param m _ := m;
  nng_msg_get_proto_data m := Some [(MESSAGE_EXPIRY_INTERVAL, PU32 10)];
  new_conn_param := ConnParam;
  conn_param_get_protover := cp_proto_ver;
  conn_param_get_keepalive _ := 60;
  conn_param_get_username _ := Some (str "u");
  conn_param_get_password _ := Some (str "p");
  conn_param_get_clientid c := Some (cp_clientid c);
  conn_param_get_will_flag _ := 0;
  conn_param_get_will_topic _ := None;
  conn_param_get_will_msg _ := None;
  conn_param_get_will_retain _ := 0;
  conn_param_get_will_qos _ := 0;
  conn_param_get_will_property _ := None;
  nano_msg_notify_connect _ rc := RMsg [48; 2] [0; rc] 0 2 CMD_PUBLISH 0;
  nano_pubmsg_composer _ _ _ _ _ _ := RMsg [48; 4] [0; 1; 97; 0] 3 4 CMD_PUBLISH 0;
  nano_dismsg_composer rc := RMsg [224; 1] [rc] 0 1 CMD_DISCONNECT 0;
  nng_msg_alloc := empty_msg;
  property_pub_by_will p := p;
  get_properties_len _ := 0;
  mqtt_property_dup p := p;
  nng_mqtt_msg_decode m := m;
  nng_mqttv5_msg_decode m := m;
  bridge_msg b _ := RMsg [48] (default [] (bp_topic b) ++ bp_payload b) 0 0 CMD_PUBLISH 0
|}.

(** An MQTT 3.1.1 client. *)
#[export] Instance r_conn : NngConn rmsg conn_param (list (Z * property_data)) := r_conn_of 4.

#[export] Instance r_conn_laws : NngConnLaws rmsg conn_param (list (Z * property_data)).
Proof. by constructor. Qed.

(** nng's sends, as the broker expects them. *)
#[export] Instance nng_aio : NngAio := {| send_completes extra := extra |}.

#[export] Instance nng_aio_laws : NngAioLaws.
Proof. by constructor. Qed.

Definition demo_log : conf_log := ConfLog 0 true false None None None None.
Definition demo_tls : conf_tls := ConfTls false false None None None None.

(** No bridge, no hooks. *)
Definition demo_conf : conf :=
  Conf None None true false 32 0 0 0 0 0 false None demo_tls false None None false 8081 demo_log
    false [] (ConfWebHook false [] plain).

Definition demo_env (m : option rmsg) : cb_env :=
  CbEnv 0 m 0 all_allocs true (fun _ => true) 0 (fun _ => true) (fun _ => false) 0 (fun _ => 0) 0.

Abbreviation demo_world := (World demo_db demo_hash (∅ : gmap bytes (dbtree_retain_msg rmsg)) g_msg tt).
(** Built without SUPP_RULE_ENGINE. *)
Definition no_rules (_ : unit) : bool := false.
Definition no_engine (_ : option rule_input) (r : unit) : exec (list rule_ev * unit * option Z) := Ret ([], r, Some 0).

Abbreviation demo_cb := (server_cb demo_conf same_topic id 31 false no_rules no_engine).

Definition recv_work : work rmsg (list (Z * property_data)) conn_param :=
  with_state (alloc_work PROTO_MQTT_BROKER) RECV.

(** Two retained messages; the first expired at 11000. *)
Lemma send_retained_stops_at_expired_witness :
  send_retained (property := list (Z * property_data)) 11001 3
    [Some (RMsg [] [] 0 0 CMD_PUBLISH_V5 5000); Some (RMsg [] [] 0 0 CMD_PUBLISH_V5 1000);
     Some (RMsg [] [] 0 0 CMD_PUBLISH_V5 9000)] =
  Ret [EMsgClone (RMsg [] [] 0 0 CMD_PUBLISH_V5 5000);
       ECtxSend false (RMsg [] [] 0 0 CMD_PUBLISH_V5 5000) 3].
Proof.
  apply (send_retained_stops_at_expired 11001 3 [RMsg [] [] 0 0 CMD_PUBLISH_V5 5000]
    (RMsg [] [] 0 0 CMD_PUBLISH_V5 1000) [RMsg [] [] 0 0 CMD_PUBLISH_V5 9000]); [|reflexivity].
  apply Forall_cons_2; [reflexivity|apply Forall_nil_2].
Defined.

Lemma publish_reaches_subscribers_witness :
  exists s1 w1 ev1 w2 ev2 m2,
    demo_cb (demo_env (Some demo_pub)) demo_world recv_work = Ret (s1, w1, ev1) /\
    demo_cb (demo_env None) s1 w1 = Ret (s1, w2, ev2) /\
    sends ev2 = [(m2, 7)] /\ w_state w2 = RECV.
Proof.
  destruct (publish_reaches_subscribers (utf8_ok := ascii_ok) (prop_ok := alias_only) demo_conf
    same_topic id 31 false no_rules no_engine (demo_env (Some demo_pub)) (demo_env None) demo_world recv_work demo_pub
    demo_fh [97] 10 None 0 [] [104; 105])
    as (s1 & w1 & ev1 & w2 & ev2 & m2 & H1 & _ & H2 & Hs & _ & Hw); [reflexivity|constructor| |].
  - constructor; try (split; reflexivity); try reflexivity.
    + apply demo_pub_wf; left; split; reflexivity.
    + left; reflexivity.
  - exists s1, w1, ev1, w2, ev2, m2. split; [exact H1|]. split; [exact H2|].
    split; [rewrite Hs; reflexivity|]. apply Hw. reflexivity.
Defined.
