(* ===== verification/Shared.v ===== *)
(** * Messages shared by the retained tree and the work items

    [handle_pub_retain] keeps [work->msg] itself in the retained tree, with one
    more reference and not a copy; [encode_pub_message] then clears that message
    and writes it anew.  [server_cb] of [Broker] has the work item and the tree
    as separate values.  Here is what makes them one: which topic holds the
    message of which work item, how a call changes that, and the write through
    the shared pointer. *)

From Stdlib Require Import ZArith Lia.
From stdpp Require Import base numbers list gmap option.
From S2P Require Import Prelude Mqtt Nng NngModel SubHandler PubHandler RuleEngine MqttApi Bridge Webhook Conf Broker.

Local Open Scope Z_scope.
Local Open Scope nano_scope.

(** ** Writing to a message that the tree points to *)

Section Write.
Context {msg db_ret : Type} `{Hret : NngRetain db_ret (dbtree_retain_msg msg)}.
Context {Hrl : NngRetainLaws db_ret (dbtree_retain_msg msg)}.

(** The entry whose message has new contents. *)
Definition set_message (m : msg) (r : dbtree_retain_msg msg) : dbtree_retain_msg msg :=
  RetainMsg (rt_qos r) (rt_exist r) ((fun _ => m) <$> rt_message r).

Definition write_entry (t : bytes) (m : msg) (d : db_ret) : db_ret :=
  match retained d t with
  | Some r => snd (dbtree_insert_retain d t (set_message m r))
  | None => d
  end.

(** Every topic that holds the message of item [i]. *)
Definition write_shared (sh : gmap bytes nat) (i : nat) (m : msg) (d : db_ret) : db_ret :=
  foldr (fun x d => if decide (x.2 = i) then write_entry x.1 m d else d) d (map_to_list sh).

Lemma write_entry_eq t m d : retained (write_entry t m d) t = set_message m <$> retained d t.
Proof.
  unfold write_entry. destruct (retained d t) as [r|] eqn:E; [|by rewrite E].
  destruct (dbtree_insert_retain d t _) as [old d'] eqn:Ei. apply insert_retain_spec in Ei as (_ & He & _). exact He.
Qed.

Lemma write_entry_ne t t' m d : t' <> t -> retained (write_entry t m d) t' = retained d t'.
Proof.
  intros Hne. unfold write_entry. destruct (retained d t) as [r|]; [|done].
  destruct (dbtree_insert_retain d t _) as [old d'] eqn:Ei. apply insert_retain_spec in Ei as (_ & _ & Ho).
  exact (Ho _ Hne).
Qed.

Lemma write_shared_spec sh i m d t :
  retained (write_shared sh i m d) t =
  if decide (sh !! t = Some i) then set_message m <$> retained d t else retained d t.
Proof.
  unfold write_shared.
  assert (Hin : sh !! t = Some i <-> (t, i) ∈ map_to_list sh) by (by rewrite elem_of_map_to_list).
  pose proof (NoDup_fst_map_to_list sh) as Hnd. rewrite (decide_ext _ _ _ _ Hin). clear Hin.
  induction (map_to_list sh) as [|[u j] l IH]; cbn [foldr fst snd fmap list_fmap] in *.
  - by rewrite decide_False by apply not_elem_of_nil.
  - apply list.NoDup_cons in Hnd as [Hu Hnd]. specialize (IH Hnd). destruct (decide (u = t)) as [->|Hne].
    + assert (Hnot : (t, i) ∉ l).
      { intros H. apply Hu, list_elem_of_fmap. by exists (t, i). }
      rewrite decide_False in IH by done. destruct (decide (j = i)) as [->|Hj].
      * rewrite decide_True by left. by rewrite write_entry_eq, IH.
      * rewrite decide_False; [done|]. intros [[= <-]|]%elem_of_cons; done.
    + assert (He : (t, i) ∈ (u, j) :: l <-> (t, i) ∈ l) by (rewrite elem_of_cons; naive_solver).
      rewrite (decide_ext _ _ _ _ He), <- IH. destruct (decide (j = i)); [|done]. by apply write_entry_ne.
Qed.
End Write.

(** ** What a call does to the messages it shares *)

Section Calls.
Context {msg property cparam : Type} `{Hmsg : NngMsg msg} `{Hpar : NngParser msg property}.
Context `{Hcn : NngConn msg cparam property}.
Implicit Types w : work msg property cparam.

(** The topic [handle_pub] works with. *)
Definition packet_topic w : option bytes :=
  pkt ← w_pub_packet w; cstr <$> ms_body (ph_topic_name (var_publish (pp_var_header pkt))).

Definition retain_refs (ev : list (eff msg)) : list (ref_event msg) :=
  mjoin (omap (fun x => match x with ERetain l => Some l | _ => None end) ev).

(** The topic whose entry the call replaced ([true]) or removed; the packet is
    that of the item after the call. *)
Definition retain_change w' (ev : list (eff msg)) : option (bytes * bool) :=
  match retain_refs ev, packet_topic w' with
  | MsgClone _ :: _, Some t => Some (t, true)
  | _ :: _, Some t => Some (t, false)
  | _, _ => None
  end.

(** A PUBLISH is written anew in states WAIT and END. *)
Definition rewritten w : option msg :=
  match w_state w, w_msg w with
  | WAIT, Some m | END_, Some m =>
      if decide (nng_msg_get_type m = CMD_PUBLISH)
      then match forward_publish w m with Ret (m', _, _) => Some m' | _ => None end
      else None
  | _, _ => None
  end.

(** Whether the item still has the message it had before the call. *)
Definition keeps_msg w w' : bool :=
  match w_state w, w_state w' with
  | WAIT, SEND | END_, END_ => true
  | _, _ => false
  end.

(** Which topics hold the message of which item, after a call of item [i]. *)
Definition share_after (i : nat) w w' (ev : list (eff msg)) (sh : gmap bytes nat) : gmap bytes nat :=
  let sh := if keeps_msg w w' then sh else filter (fun x => x.2 <> i) sh in
  match retain_change w' ev with
  | Some (t, true) => <[t := i]> sh
  | Some (t, false) => delete t sh
  | None => sh
  end.

Definition forget (c : option (bytes * bool)) (sh : gmap bytes nat) : gmap bytes nat :=
  match c with Some (t, _) => delete t sh | None => sh end.

(** The writes of the call, seen by the entries that were there before it. *)
Definition write_back {db hash db_ret rules : Type} `{NngRetain db_ret (dbtree_retain_msg msg)}
    `{!NngRetainLaws db_ret (dbtree_retain_msg msg)} (i : nat) w w' (ev : list (eff msg)) (sh : gmap bytes nat)
    (s : world db hash db_ret rules) : world db hash db_ret rules :=
  match rewritten w with
  | Some m => World (wd_db s) (wd_hash s) (write_shared (forget (retain_change w' ev) sh) i m (wd_ret s))
                (wd_stats s) (wd_rules s)
  | None => s
  end.

(** Topics a call leaves alone. *)
Definition untouched (t : bytes) w' (ev : list (eff msg)) : Prop :=
  match retain_change w' ev with Some (t', _) => t' <> t | None => True end.

#[export] Instance untouched_dec t w' ev : Decision (untouched t w' ev).
Proof. unfold untouched. destruct (retain_change w' ev) as [[t' b]|]; apply _. Defined.

Lemma share_after_untouched i w w' ev sh t :
  untouched t w' ev ->
  share_after i w w' ev sh !! t = if decide (sh !! t = Some i /\ keeps_msg w w' = false) then None else sh !! t.
Proof.
  unfold untouched, share_after. intros Hu. set (sh1 := if keeps_msg w w' then sh else _).
  assert (H1 : sh1 !! t = if decide (sh !! t = Some i /\ keeps_msg w w' = false) then None else sh !! t).
  { unfold sh1. destruct (keeps_msg w w'); [by rewrite decide_False by naive_solver|].
    rewrite map_lookup_filter. destruct (sh !! t) as [j|] eqn:E; cbn; [|by rewrite decide_False by naive_solver].
    destruct (decide (j = i)) as [->|Hj].
    - rewrite decide_True by done. by rewrite option_guard_False by naive_solver.
    - rewrite decide_False by naive_solver. by rewrite option_guard_True. }
  rewrite <- H1. destruct (retain_change w' ev) as [[t' []]|]; [| |done].
  - by rewrite lookup_insert_ne.
  - by rewrite lookup_delete_ne.
Qed.

Lemma forget_untouched t w' ev sh : untouched t w' ev -> forget (retain_change w' ev) sh !! t = sh !! t.
Proof.
  unfold untouched. destruct (retain_change w' ev) as [[t' b]|]; [|done]. intros H. by apply lookup_delete_ne.
Qed.
End Calls.
