(* ===== verification/Entries.v ===== *)
(** * What a call does to the retained tree

    Every call of [server_cb] runs [handle_pub_retain] at most once, on the topic
    of its packet, or leaves the tree alone: from there, which entries keep their
    value, and how many messages the tree holds. *)

From Stdlib Require Import ZArith Lia.
From stdpp Require Import base numbers list gmap option.
From S2P Require Import Prelude Mqtt Nng NngModel SubHandler UnsubHandler PubHandler RuleEngine MqttApi Bridge Webhook Conf Broker Shared.

Local Open Scope Z_scope.
Local Open Scope nano_scope.

Section Entry.
Context {msg property cparam db hash db_ret rules : Type}.
Context `{Hmsg : NngMsg msg} `{Hpar : NngParser msg property} `{Hmp : NngMsgProp msg property}.
Context `{Hdb : NngDb db hash} `{Hret : NngRetain db_ret (dbtree_retain_msg msg)}.
Context `{Hcn : NngConn msg cparam property} {Hrl : NngRetainLaws db_ret (dbtree_retain_msg msg)}.
Variable config : conf.
Variable topic_filter : bytes -> option bytes -> bool.
Variable base64_encode : bytes -> bytes.
Variable NNG_ECONNSHUT : Z.
Variable clears : bool.
Variable rule_on : rules -> bool.
Variable rule_engine : option rule_input -> rules -> exec (list rule_ev * rules * option Z).

Abbreviation wk := (work msg property cparam).
Abbreviation wd := (world db hash db_ret rules).
Abbreviation env := (cb_env (msg := msg)).
Abbreviation cb := (server_cb config topic_filter base64_encode NNG_ECONNSHUT clears rule_on rule_engine).

Implicit Types (w : wk) (s : wd) (e : env) (m : msg).

(** ** What a call leaves alone *)

(** What the call did to the retained tree: nothing, or [handle_pub_retain] once,
    on the topic of its packet. *)
Definition retains s s' w' (ev : list (eff msg)) : Prop :=
  (retain_refs ev = [] /\ wd_ret s' = wd_ret s) \/
  exists ra m pv (pkt : pub_packet_struct property) m' topic,
    handle_pub_retain ra m pv pkt (wd_ret s) topic = (m', wd_ret s', retain_refs ev) /\ packet_topic w' = Some topic.

(** The entry of [t] is the same, unless the call names it. *)
Definition keeps_entry t s s' w' (ev : list (eff msg)) : Prop :=
  untouched t w' ev -> retained (wd_ret s') t = retained (wd_ret s) t.

Lemma retain_refs_app ev1 ev2 : retain_refs (msg := msg) (ev1 ++ ev2) = retain_refs ev1 ++ retain_refs ev2.
Proof. unfold retain_refs. by rewrite omap_app, join_app. Qed.

Lemma retain_refs_single refs : retain_refs (msg := msg) [ERetain refs] = refs.
Proof. unfold retain_refs. cbn. apply app_nil_r. Qed.

Lemma retain_refs_cons x ev :
  retain_refs (msg := msg) (x :: ev) = match x with ERetain l => l | _ => [] end ++ retain_refs ev.
Proof. unfold retain_refs. by destruct x. Qed.

Ltac refs := repeat (rewrite retain_refs_app || rewrite retain_refs_cons);
  repeat match goal with H : retain_refs _ = [] |- _ => rewrite H end; rewrite ?app_nil_r; try reflexivity.

(** What [handle_pub] leaves alone: everything, when it reports no references,
    and the entries of the other topics. *)
Lemma handle_pub_retain_keeps ra wmsg proto_ver (pkt : pub_packet_struct property) (dr : db_ret) topic m' dr' refs t :
  handle_pub_retain ra wmsg proto_ver pkt dr topic = (m', dr', refs) ->
  t <> topic \/ refs = [] -> retained dr' t = retained dr t.
Proof.
  intros Hrun Ht. pose proof (handle_pub_retain_spec _ _ _ _ _ _ _ _ _ Hrun) as (Hoth & _ & _).
  destruct Ht as [Ht| ->]; [by apply Hoth|]. destruct (decide (t = topic)) as [->|]; [|by apply Hoth].
  unfold handle_pub_retain in Hrun. case_match; [by injection Hrun as <- <-|].
  case_match; [case_match; [|by injection Hrun as <- <-]|].
  - by destruct (dbtree_insert_retain _ _ _).
  - destruct (dbtree_delete_retain _ _) as [r dr1] eqn:E. apply delete_retain_spec in E as (-> & Hd & _).
    injection Hrun as <- <- Hr. destruct (retained dr topic); [|done]. by destruct (rt_message _).
Qed.

Lemma resolve_topic_names p proto (pkt : pub_packet_struct property) (h : hash) topic h' pkt' :
  resolve_topic p proto pkt h = Some (topic, h', pkt') ->
  topic = ms_body (ph_topic_name (var_publish (pp_var_header pkt'))).
Proof. unfold resolve_topic. intros Hr. by repeat case_match; simplify_eq. Qed.

Lemma handle_pub_tree al (d : db) p pv (ps : pub_state msg property hash db_ret) proto rc ps' :
  handle_pub al d p pv ps proto = Ret (rc, ps') -> ps_refs ps = [] ->
  (ps_refs ps' = [] /\ ps_retain ps' = ps_retain ps) \/
  (rc = SUCCESS /\ exists ra m (pkt : pub_packet_struct property) m' topic,
    handle_pub_retain ra m pv pkt (ps_retain ps) topic = (m', ps_retain ps', ps_refs ps') /\
    (pkt ← ps_packet ps'; cstr <$> ms_body (ph_topic_name (var_publish (pp_var_header pkt)))) = Some topic).
Proof.
  unfold handle_pub. intros Hrun Hr0. case_match; [|done].
  apply ebind_Ret in Hrun as ([result pkt] & _ & Hrun).
  case_match; [by injection Hrun as <- <-; left|]. case_match; [by injection Hrun as <- <-; left|]. bool_hyps.
  destruct (resolve_topic _ _ _ _) as [[[topic h] pkt']|] eqn:Er; [|by injection Hrun as <- <-; left].
  apply resolve_topic_names in Er. destruct topic as [tp|]; [|by injection Hrun as <- <-; left].
  injection Hrun as <- <-. right. split; [done|]. unfold deliver. cbn [ps_refs ps_retain ps_msg ps_stats ps_msg_infos].
  destruct (match dbtree_find_clients d _ with Some _ => _ | None => _ end) as [i1 g1].
  destruct (match dbtree_find_shared_clients d _ with Some _ => _ | None => _ end) as [i2 g2].
  destruct (handle_pub_retain _ _ _ _ _ _) as [[m' dr'] refs] eqn:E. cbn [ps_refs ps_retain ps_packet].
  rewrite Hr0. cbn [app mbind option_bind]. rewrite <- Er. do 5 eexists. split; [exact E|done].
Qed.

Lemma run_handle_pub_tree e s w m proto s' w' rc ev :
  run_handle_pub e s w m proto = Ret (s', w', rc, ev) ->
  (retain_refs ev = [] /\ wd_ret s' = wd_ret s) \/ (rc = SUCCESS /\ retains s s' w' ev).
Proof.
  unfold run_handle_pub. intros ([rc' ps] & Hp & [= <- <- <- <-])%ebind_Ret. unfold retains.
  rewrite retain_refs_single. unfold packet_topic. cbn [wd_ret w_pub_packet with_pub with_msg].
  eapply handle_pub_tree in Hp as [H|[Hrc (ra & m0 & pkt & m' & topic & H & Ht)]]; [by left| |done].
  right. split; [done|]. right. by exists ra, m0, (w_proto_ver w), pkt, m', topic.
Qed.

Lemma run_handle_pub_retains e s w m proto s' w' rc ev :
  run_handle_pub e s w m proto = Ret (s', w', rc, ev) -> retains s s' w' ev.
Proof. by intros [H|[_ H]]%run_handle_pub_tree; [left|]. Qed.

Lemma run_hook_refs e w r w' ev :
  run_hook config topic_filter base64_encode e w r = Ret (w', ev) -> retain_refs ev = [].
Proof. unfold run_hook. intros ([[? obj] f] & _ & [= <- <-])%ebind_Ret. by destruct obj. Qed.

(** From what [handle_pub] does to what the whole call does. *)
Lemma retains_from s s1 s' w1 w' ev1 ev :
  retains s s1 w1 ev1 -> wd_ret s' = wd_ret s1 ->
  packet_topic w1 = packet_topic w' -> retain_refs ev = retain_refs ev1 -> retains s s' w' ev.
Proof. unfold retains. by intros H -> <- ->. Qed.

Lemma retains_none s s' w' ev : wd_ret s' = wd_ret s -> retain_refs ev = [] -> retains s s' w' ev.
Proof. by left. Qed.

Lemma on_publish_retains e s w m s' w' ev : on_publish e s w m = Ret (s', w', ev) -> retains s s' w' ev.
Proof.
  unfold on_publish. intros ([[[s1 w1] code] ev1] & Hh & Hrun)%ebind_Ret.
  apply run_handle_pub_tree in Hh as [[Hev Hs]|[-> Hk]].
  - left. case_match; [|case_match; [case_match|]]; injection Hrun as <- <- <-; by refs.
  - cbn [Z.eqb negb SUCCESS] in Hrun. case_match; injection Hrun as <- <- <-;
      (eapply retains_from; [exact Hk|done|done|by refs]).
Qed.

Lemma on_connack_retains e s w m s' w' ev :
  on_connack config topic_filter base64_encode e s w m = Ret (s', w', ev) -> retains s s' w' ev.
Proof.
  unfold on_connack. intros (rc & _ & Hrun)%ebind_Ret. destruct (w_cparam w); [|done].
  apply ebind_Ret in Hrun as ([w1 hook] & Hk & Hrun). apply run_hook_refs in Hk.
  apply ebind_Ret in Hrun as ([[[s1 w2] c1] ev1] & Hh & [= <- <- <-]).
  eapply retains_from; [by eapply run_handle_pub_retains|done|done|].
  by destruct (w_proto w =? _); refs.
Qed.

Lemma on_disconnect_retains e s w m s' w' ev :
  on_disconnect config topic_filter base64_encode e s w m = Ret (s', w', ev) -> retains s s' w' ev.
Proof.
  unfold on_disconnect. intros ([w1 hook] & Hk & Hrun)%ebind_Ret. apply run_hook_refs in Hk.
  apply ebind_Ret in Hrun as ([[[s1 w2] c1] ev1] & Hh & Hrun).
  destruct (if dbhash_check_id _ _ then _ else _) as [d h]. destruct (w_cparam w2); [|done].
  case_match; injection Hrun as <- <- <-;
    (eapply retains_from; [by eapply run_handle_pub_retains|done|done|]; by refs).
Qed.

Lemma publish_will_retains e s w cp s' w' ev : publish_will e s w cp = Ret (s', w', ev) -> retains s s' w' ev.
Proof.
  unfold publish_will. case_match; intros ([[[s1 w1] c1] ev1] & Hh & Hrun)%ebind_Ret.
  - destruct (w_pub_packet w1) as [pkt|] eqn:Ep; [|done]. injection Hrun as <- <- <-.
    eapply retains_from; [by eapply run_handle_pub_retains|done| |done].
    unfold packet_topic. by rewrite Ep.
  - injection Hrun as <- <- <-. eapply retains_from; [by eapply run_handle_pub_retains|done|done|done].
Qed.

Lemma send_retained_refs now pid l ev : send_retained (msg := msg) now pid l = Ret ev -> retain_refs ev = [].
Proof.
  revert ev. induction l as [|[m|] l IH]; intros ev; cbn [send_retained]; [by intros [= <-]| |done].
  case_match; [|by intros [= <-]]. intros (ev' & Hr & [= <-])%ebind_Ret. by apply IH in Hr.
Qed.

Lemma forward_publish_refs w m m' w' ev : forward_publish w m = Ret (m', w', ev) -> retain_refs ev = [].
Proof.
  unfold forward_publish. destruct (w_msg_infos w) as [|p infos]; [by intros [= <- <- <-]|].
  destruct (w_pub_packet w) as [pkt|]; [|done].
  intros ([[ok m1] pkt1] & _ & Hrun)%ebind_Ret. destruct ok; injection Hrun as <- <- <-; [|done].
  generalize (p :: infos). intros l. induction l as [|q l IH]; [done|]. exact IH.
Qed.

Lemma bridge_forwards_refs e t topic smsg fs n r n' ev :
  bridge_forwards (msg := msg) topic_filter e t topic smsg fs n = Ret (r, n', ev) -> retain_refs ev = [].
Proof.
  revert n r n' ev. induction fs as [|f fs IH]; intros n r n' ev; cbn [bridge_forwards]; [by intros [= <- <- <-]|].
  case_match; [|by apply IH]. intros (ev0 & H0 & ([[r1 n1] ev1] & E & [= <- <- <-])%ebind_Ret)%ebind_Ret.
  apply IH in E. by repeat (case_match; simplify_eq); refs.
Qed.

Lemma bridge_nodes_refs e t topic smsg nodes n r ev :
  bridge_nodes (msg := msg) topic_filter e t topic smsg nodes n = Ret (r, ev) -> retain_refs ev = [].
Proof.
  revert t n r ev. induction nodes as [|nd nodes IH]; intros t n r ev; cbn [bridge_nodes]; [by intros [= <- <-]|].
  intros ([[r1 n1] ev1] & E1 & ([r2 ev2] & E2 & [= <- <-])%ebind_Ret)%ebind_Ret. apply IH in E2.
  assert (Hev1 : retain_refs ev1 = [])
    by (destruct (bn_enable nd); [by eapply bridge_forwards_refs|by injection E1 as <- <- <-]). by refs.
Qed.

Lemma bridge_handler_refs e w w' rv ev :
  bridge_handler config topic_filter e w = Ret (w', rv, ev) -> retain_refs ev = [].
Proof.
  unfold bridge_handler. destruct (w_pub_packet w); [|done].
  intros ([bp pr] & _ & ([r1 ev1] & E & [= <- <- <-])%ebind_Ret)%ebind_Ret. apply bridge_nodes_refs in E. by refs.
Qed.

Lemma run_rules_refs e s w s' ev :
  run_rules rule_on rule_engine e s w = Ret (s', ev) -> wd_ret s' = wd_ret s /\ retain_refs ev = [].
Proof.
  unfold run_rules. case_match; [|by intros [= <- <-]].
  by intros ([[evs r] [rv|]] & _ & [= <- <-])%ebind_Ret.
Qed.

(** A call that is at its end and left the tree alone. *)
Ltac quiet H := injection H as <- <- <-; apply retains_none; [done|by refs].

Lemma dispatch_retains e s w m s' w' ev :
  dispatch config topic_filter base64_encode clears e s w m = Ret (s', w', ev) -> retains s s' w' ev.
Proof.
  unfold dispatch. cbn [w_flag]. intros Hrun.
  destruct (nng_msg_cmd_type m);
    first [ by eapply on_publish_retains | by eapply on_connack_retains | by eapply on_disconnect_retains | idtac ].
  all: try by quiet Hrun.
  - unfold on_subscribe in Hrun. case_match; [done|]. apply ebind_Ret in Hrun as ([rv pkt] & _ & Hrun).
    apply ebind_Ret in Hrun as ([rv2 [[d h] mr]] & _ & Hrun).
    case_match; [by quiet Hrun|]. destruct (encode_suback_msg m _ _).
    apply ebind_Ret in Hrun as (ret & Hr & Hrun). apply send_retained_refs in Hr. by quiet Hrun.
  - unfold on_unsubscribe in Hrun. case_match; [done|]. apply ebind_Ret in Hrun as ([rv pkt] & _ & Hrun).
    apply ebind_Ret in Hrun as ([pkt2 [d h]] & _ & Hrun).
    apply ebind_Ret in Hrun as ([? smsg] & _ & Hrun).
    apply ebind_Ret in Hrun as (? & _ & Hrun). by quiet Hrun.
Qed.

Lemma server_cb_retains e s w s' w' ev : cb e s w = Ret (s', w', ev) -> retains s s' w' ev.
Proof.
  unfold server_cb. intros Hrun.
  assert (Hrecv : forall w0, on_recv_msg config topic_filter base64_encode clears e s w0 = Ret (s', w', ev) ->
    retains s s' w' ev).
  { clear Hrun. intros w0 Hrun. unfold on_recv_msg in Hrun. destruct (e_aio_msg e); [|by quiet Hrun].
    assert (Hafter : forall pre m', retain_refs pre = [] ->
      after pre (dispatch config topic_filter base64_encode clears e s w0 m') = Ret (s', w', ev) ->
      retains s s' w' ev).
    { intros pre m' Hpre. unfold after. intros ([[s1 w1] ev1] & Hd & [= <- <- <-])%ebind_Ret.
      eapply retains_from; [by eapply dispatch_retains|done|done|]. by refs. }
    case_match; [case_decide; [eapply Hafter; [|exact Hrun]; done|case_decide; [by quiet Hrun|eapply Hafter; [|exact Hrun]; done]]|].
    case_match; [|eapply Hafter; [|exact Hrun]; done]. apply ebind_Ret in Hrun as ([rv [[dm cp]|]] & _ & Hrun); cbn [snd] in Hrun; [|done].
    case_decide; [by quiet Hrun|eapply Hafter; [|exact Hrun]; done]. }
  destruct (w_state w).
  - by quiet Hrun.
  - unfold on_recv in Hrun. case_match; [|by eapply Hrecv].
    case_match; [by quiet Hrun|]. case_match; [by quiet Hrun|by eapply Hrecv].
  - unfold on_wait in Hrun. destruct (w_msg w); [|done]. case_decide; [|by quiet Hrun].
    case_match; [by quiet Hrun|].
    apply ebind_Ret in Hrun as ([[smsg w1] ev1] & Hf & Hrun). apply forward_publish_refs in Hf.
    apply ebind_Ret in Hrun as ([[w2 rv] ev2] & Hb & Hrun).
    assert (Hev2 : retain_refs ev2 = [])
      by (destruct (cf_bridge_mode config); [by eapply bridge_handler_refs|by injection Hb as <- <- <-]).
    case_match; by quiet Hrun.
  - unfold on_send in Hrun. apply ebind_Ret in Hrun as ([s1 evs] & Hr & Hrun).
    apply run_rules_refs in Hr as [Hs1 Hr]. destruct (existsb _ _); [injection Hrun as <- <- <-; by left|].
    apply ebind_Ret in Hrun as ([w1 hook] & Hk & Hrun). apply run_hook_refs in Hk.
    destruct (_ =? 0); injection Hrun as <- <- <-; (apply retains_none; [done|]); refs;
      destruct (w_msg w1); try destruct (w_pub_packet _); done.
  - by quiet Hrun.
  - unfold on_end in Hrun. destruct (w_msg w); [|done]. destruct (w_cparam w); [|done].
    case_decide; [|by quiet Hrun]. case_match; [by quiet Hrun|].
    apply ebind_Ret in Hrun as ([[smsg w1] ev1] & Hf & Hrun). apply ebind_Ret in Hrun as ([w2 hook] & Hk & Hrun).
    apply run_hook_refs in Hk. apply forward_publish_refs in Hf. case_match; [|by quiet Hrun].
    apply ebind_Ret in Hrun as ([[s3 w3] ev3] & Hw & [= <- <- <-]).
    eapply retains_from; [by eapply publish_will_retains|done|done|]. by refs.
  - unfold on_close in Hrun. destruct (w_msg w); by quiet Hrun.
Qed.

(** Entries change only as [retain_change] says; [write_back] comes on top. *)
Lemma server_cb_keeps e s w s' w' ev t : cb e s w = Ret (s', w', ev) -> keeps_entry t s s' w' ev.
Proof.
  intros [[_ Hs]|(ra & m & pv & pkt & m' & topic & Hr & Ht)]%server_cb_retains Hu; [by rewrite Hs|].
  eapply handle_pub_retain_keeps; [exact Hr|]. unfold untouched, retain_change in Hu. rewrite Ht in Hu.
  destruct (retain_refs ev) as [|[] l]; [by right|left; congruence..].
Qed.
End Entry.

(** ** Messages in the tree *)

Section Count.
Context {msg db_ret : Type} `{Hret : NngRetain db_ret (dbtree_retain_msg msg)}.
Context {Hrl : NngRetainLaws db_ret (dbtree_retain_msg msg)}.
Implicit Types M : gmap bytes (dbtree_retain_msg msg).

(** The entries of the tree, and how many of them hold a message. *)
Definition tree_is (d : db_ret) M : Prop := forall t, retained d t = M !! t.

Definition tree_held M : Z := map_fold (fun _ r n => held (Some r) + n) 0 M.

Lemma tree_held_insert M t r : M !! t = None -> tree_held (<[t := r]> M) = held (Some r) + tree_held M.
Proof. intros Ht. unfold tree_held. rewrite map_fold_insert_L; [done| |done]. intros. lia. Qed.

Lemma tree_held_delete M t : tree_held (delete t M) = tree_held M - held (M !! t).
Proof.
  destruct (M !! t) as [r|] eqn:E.
  - rewrite <- (insert_delete_id M t r E) at 2. rewrite tree_held_insert by apply lookup_delete_eq. lia.
  - rewrite delete_id by done. cbn. lia.
Qed.

(** The tree after its entry for [t] was set to [o] or removed. *)
Lemma tree_step (d d' : db_ret) M t :
  tree_is d M -> (forall t', t' <> t -> retained d' t' = retained d t') ->
  exists M', tree_is d' M' /\ tree_held M' = tree_held M - held (retained d t) + held (retained d' t).
Proof.
  intros HM Ho. exists (partial_alter (fun _ => retained d' t) t M). split.
  - intros t'. destruct (decide (t' = t)) as [->|Hne]; [by rewrite lookup_partial_alter_eq|].
    rewrite lookup_partial_alter_ne by done. by rewrite Ho, HM.
  - rewrite HM. destruct (retained d' t) as [r|] eqn:E.
    + change (partial_alter _ t M) with (<[t := r]> M). rewrite <- insert_delete_eq, tree_held_insert by apply lookup_delete_eq.
      rewrite tree_held_delete. lia.
    + change (partial_alter _ t M) with (delete t M). rewrite tree_held_delete. cbn. lia.
Qed.

(** Writing to a shared message leaves the number. *)
Lemma write_shared_tree sh (i : nat) (m : msg) (d : db_ret) M :
  tree_is d M -> exists M', tree_is (write_shared sh i m d) M' /\ tree_held M' = tree_held M.
Proof.
  intros HM. set (f := fun t (r : dbtree_retain_msg msg) => if decide (sh !! t = Some i) then set_message m r else r).
  exists (map_imap (fun t r => Some (f t r)) M). split.
  - intros t. rewrite write_shared_spec, map_lookup_imap, <- HM. unfold f. by case_decide; destruct (retained d t).
  - clear HM. induction M as [|t r M Ht IH] using map_ind; [done|].
    rewrite map_imap_insert_Some with (y := f t r) by done. rewrite !tree_held_insert, IH; [|done|].
    + f_equal. unfold f. case_decide; [|done]. cbn. by destruct (rt_message r).
    + by rewrite map_lookup_imap, Ht.
Qed.
End Count.

Lemma tree_refs_total {msg} (ev : list (eff msg)) : total tree_refs ev = ref_balance (retain_refs ev).
Proof.
  assert (Happ : forall l k : list (ref_event msg), ref_balance (l ++ k) = ref_balance l + ref_balance k).
  { induction l as [|x l IH]; intros k; [done|].
    change (ref_delta x + ref_balance (l ++ k) = ref_delta x + ref_balance l + ref_balance k). rewrite IH. lia. }
  induction ev as [|e ev IH]; [done|]. rewrite total_cons, IH. destruct e; try done. symmetry. apply Happ.
Qed.
