(* ===== verification/BrokerStart.v ===== *)
(** * Starting the broker

    broker.c from the command line to the work items of the running broker,
    and main of nanomq.c. *)

From Stdlib Require Import ZArith Lia Ascii.
From stdpp Require Import base numbers list gmap option strings.
From S2P Require Import Prelude Mqtt Cstring MqttApi Bridge Webhook Conf Process Broker.

Local Open Scope Z_scope.
Local Open Scope nano_scope.

(** ** Command line *)

Inductive option_id :=
| OPT_HELP | OPT_CONFFILE | OPT_PARALLEL | OPT_DAEMON | OPT_THREADS | OPT_MAX_THREADS
| OPT_PROPERTY_SIZE | OPT_MSQ_LEN | OPT_QOS_DURATION | OPT_URL | OPT_HTTP_ENABLE | OPT_HTTP_PORT
| OPT_TLS_CA | OPT_TLS_CERT | OPT_TLS_KEY | OPT_TLS_KEYPASS | OPT_TLS_VERIFY_PEER
| OPT_TLS_FAIL_IF_NO_PEER_CERT | OPT_LOG_LEVEL | OPT_LOG_STDOUT | OPT_LOG_FILE | OPT_LOG_SYSLOG.

(** Name, short form and whether an argument follows. *)
Definition cmd_opts : list (string * option ascii * option_id * bool) :=
  [("help", Some "h"%char, OPT_HELP, false); ("conf", None, OPT_CONFFILE, true);
   ("daemon", Some "d"%char, OPT_DAEMON, false); ("tq_thread", Some "t"%char, OPT_THREADS, true);
   ("max_tq_thread", Some "T"%char, OPT_MAX_THREADS, true);
   ("parallel", Some "n"%char, OPT_PARALLEL, true);
   ("property_size", Some "s"%char, OPT_PROPERTY_SIZE, true);
   ("msq_len", Some "S"%char, OPT_MSQ_LEN, true);
   ("qos_duration", Some "D"%char, OPT_QOS_DURATION, true);
   ("url", None, OPT_URL, true); ("http", None, OPT_HTTP_ENABLE, false);
   ("port", Some "p"%char, OPT_HTTP_PORT, true); ("cacert", None, OPT_TLS_CA, true);
   ("cert", Some "E"%char, OPT_TLS_CERT, true); ("key", None, OPT_TLS_KEY, true);
   ("keypass", None, OPT_TLS_KEYPASS, true); ("verify", None, OPT_TLS_VERIFY_PEER, false);
   ("fail", None, OPT_TLS_FAIL_IF_NO_PEER_CERT, false); ("log_level", None, OPT_LOG_LEVEL, true);
   ("log_stdout", None, OPT_LOG_STDOUT, true); ("log_syslog", None, OPT_LOG_SYSLOG, true);
   ("log_file", None, OPT_LOG_FILE, true)]%string.

(** URL prefixes and defaults of nanolib's conf.h. *)
Record url_consts := UrlConsts {
  BROKER_NMQ_TCP_URL_PREFIX : bytes;
  BROKER_TCP_URL_PREFIX : bytes;
  BROKER_NMQ_TCP_TLS_URL_PREFIX : bytes;
  BROKER_NMQ_WS_URL_PREFIX : bytes;
  BROKER_WS_URL_PREFIX : bytes;
  BROKER_NMQ_WSS_URL_PREFIX : bytes;
  BROKER_WSS_URL_PREFIX : bytes;
  CONF_TCP_URL_DEFAULT : bytes;
  CONF_TLS_URL_DEFAULT : bytes;
  CONF_WS_URL_DEFAULT : bytes;
  CONF_WSS_URL_DEFAULT : bytes
}.

Section Options.
Variable U : url_consts.
(** [file_load_data], [log_level_num], [nng_strcasecmp(a, b) == 0] *)
Variable file_load_data : bytes -> option bytes.
Variable log_level_num : bytes -> Z.
Variable strcaseeq : bytes -> bytes -> bool.

Definition predicate_url (c : conf) (url : bytes) : conf :=
  let c := if strprefix (BROKER_NMQ_TCP_URL_PREFIX U) url || strprefix (BROKER_TCP_URL_PREFIX U) url
           then set_url c (Some url) else c in
  if strprefix (BROKER_NMQ_TCP_TLS_URL_PREFIX U) url then
    set_tls_url (set_tls_enable c true) (Some url)
  else if strprefix (BROKER_NMQ_WS_URL_PREFIX U) url || strprefix (BROKER_WS_URL_PREFIX U) url then
    let c := if strprefix (BROKER_NMQ_WSS_URL_PREFIX U) url || strprefix (BROKER_WSS_URL_PREFIX U) url
             then set_ws_tls_url (set_tls_enable c true) (Some url)
             else set_ws_url c (Some url) in
    set_ws_enable c true
  else c.

Definition set_log_console (l : conf_log) (b : bool) : conf_log :=
  ConfLog (log_level l) b (log_to_file l) (log_dir l) (log_file l) (log_fp l) (log_abs_path l).

(** The file name keeps the slash it was cut at. *)
Definition set_log_path (l : conf_log) (arg : bytes) : conf_log :=
  match strrchr arg 47 with
  | Some (dir, file) => ConfLog (log_level l) (log_to_console l) true (Some dir) (Some file)
                          (log_fp l) (log_abs_path l)
  | None => ConfLog (log_level l) (log_to_console l) true None (Some arg) (log_fp l) (log_abs_path l)
  end.

Definition upd_tls (c : conf) (f : conf_tls -> conf_tls) : conf := set_tls c (f (cf_tls c)).

(** [None]: the process exits (no syslog support in this build). *)
Definition apply_opt (c : conf) (o : option_id * bytes) : option conf :=
  let '(val, arg) := o in
  match val with
  | OPT_PARALLEL => Some (set_parallel c (atoi arg))
  | OPT_DAEMON => Some (set_daemon c true)
  | OPT_THREADS => Some (set_num_taskq_thread c (atoi arg))
  | OPT_MAX_THREADS => Some (set_max_taskq_thread c (atoi arg))
  | OPT_PROPERTY_SIZE => Some (set_property_size c (atoi arg))
  | OPT_MSQ_LEN => Some (set_msq_len c (atoi arg))
  | OPT_QOS_DURATION => Some (set_qos_duration c (atoi arg))
  | OPT_URL => Some (predicate_url c arg)
  | OPT_TLS_CA => Some (upd_tls c (fun t => ConfTls (tls_verify_peer t) (tls_set_fail t)
      (tls_cert t) (tls_key t) (tls_key_password t) (file_load_data arg)))
  | OPT_TLS_CERT => Some (upd_tls c (fun t => ConfTls (tls_verify_peer t) (tls_set_fail t)
      (file_load_data arg) (tls_key t) (tls_key_password t) (tls_ca t)))
  | OPT_TLS_KEY => Some (upd_tls c (fun t => ConfTls (tls_verify_peer t) (tls_set_fail t)
      (tls_cert t) (file_load_data arg) (tls_key_password t) (tls_ca t)))
  | OPT_TLS_KEYPASS => Some (upd_tls c (fun t => ConfTls (tls_verify_peer t) (tls_set_fail t)
      (tls_cert t) (tls_key t) (Some arg) (tls_ca t)))
  | OPT_TLS_VERIFY_PEER => Some (upd_tls c (fun t => ConfTls true (tls_set_fail t)
      (tls_cert t) (tls_key t) (tls_key_password t) (tls_ca t)))
  | OPT_TLS_FAIL_IF_NO_PEER_CERT => Some (upd_tls c (fun t => ConfTls (tls_verify_peer t) true
      (tls_cert t) (tls_key t) (tls_key_password t) (tls_ca t)))
  | OPT_HTTP_ENABLE => Some (set_http_enable c true)
  | OPT_HTTP_PORT => Some (set_http_port c (atoi arg))
  | OPT_LOG_LEVEL =>
      let l := cf_log c in
      Some (set_log c (ConfLog (log_level_num arg) (log_to_console l) (log_to_file l) (log_dir l)
                         (log_file l) (log_fp l) (log_abs_path l)))
  | OPT_LOG_FILE => Some (set_log c (set_log_path (cf_log c) arg))
  | OPT_LOG_SYSLOG => None
  | OPT_LOG_STDOUT =>
      if strcaseeq (str "true") arg then Some (set_log c (set_log_console (cf_log c) true))
      else if strcaseeq (str "false") arg then Some (set_log c (set_log_console (cf_log c) false))
      else Some c
  | OPT_HELP | OPT_CONFFILE => Some c
  end.

Fixpoint apply_opts (c : conf) (opts : list (option_id * bytes)) : option conf :=
  match opts with
  | [] => Some c
  | o :: opts' => match apply_opt c o with Some c => apply_opts c opts' | None => None end
  end.

(** [opts]: what [nng_opts_parse] returns while it returns 0; [rv]: its last
    result, -1 at the end of the arguments. *)
Definition broker_parse_opts (opts : list (option_id * bytes)) (rv : Z) (c : conf) : option (bool * conf) :=
  match apply_opts c opts with Some c => Some (rv =? -1, c) | None => None end.

(** [None]: the usage was asked for, and the process exits. *)
Fixpoint file_path_opts (opts : list (option_id * bytes)) (c : conf) : option conf :=
  match opts with
  | [] => Some c
  | (OPT_HELP, _) :: _ => None
  | (OPT_CONFFILE, arg) :: opts' => file_path_opts opts' (set_conf_file c (Some arg))
  | _ :: opts' => file_path_opts opts' c
  end.

Definition file_path_parse (opts : list (option_id * bytes)) (rv : Z) (c : conf) : option (bool * conf) :=
  match file_path_opts opts c with Some c => Some (rv =? -1, c) | None => None end.

(** Where nothing was configured, the default URLs. *)
Definition default_urls (c : conf) : conf :=
  let c := set_url c (Some (default (CONF_TCP_URL_DEFAULT U) (cf_url c))) in
  let c := if cf_tls_enable c
           then set_tls_url c (Some (default (CONF_TLS_URL_DEFAULT U) (cf_tls_url c))) else c in
  if cf_ws_enable c then
    let c := set_ws_url c (Some (default (CONF_WS_URL_DEFAULT U) (cf_ws_url c))) in
    if cf_tls_enable c
    then set_ws_tls_url c (Some (default (CONF_WSS_URL_DEFAULT U) (cf_ws_tls_url c))) else c
  else c.

(** [broker_start] up to the logs: [conf_parse] reads the configuration file
    named on the command line.  [None]: the process exits. *)
Definition broker_start (conf_parse : conf -> conf) (opts : list (option_id * bytes)) (rv : Z) (c : conf)
    : option conf :=
  match file_path_parse opts rv c with
  | Some (true, c) =>
      match broker_parse_opts opts rv (conf_parse c) with
      | Some (true, c) => Some (default_urls c)
      | _ => None
      end
  | _ => None
  end.
End Options.

(** ** Work items of a configuration *)

Definition HTTP_CTX_NUM : Z := 4.

(** [num_ctx] is 64 bits wide. *)
Definition num_ctx (c : conf) : Z :=
  let n := u64 (cf_parallel c) in
  let n := if (cf_http_enable c || cf_bridge_mode c) && cf_http_enable c
           then u64 (n + HTTP_CTX_NUM) else n in
  if cf_bridge_mode c then
    foldl (fun n node => if bn_enable node then u64 (n + bn_parallel node) else n) n (cf_bridge_nodes c)
  else n.

Definition set_work (works : list (option Z)) (i : Z) (proto : Z) : exec (list (option Z)) :=
  if (0 <=? i) && (i <? Zlen works) then Ret (<[Z.to_nat i := Some proto]> works) else UB.

(** [works[i] = proto_work_init(...)] for [n] indices from [i]. *)
Fixpoint fill_works (n : nat) (i : Z) (proto : Z) (works : list (option Z)) : exec (list (option Z)) :=
  match n with
  | O => Ret works
  | S n' => let* works := set_work works i proto in fill_works n' (i + 1) proto works
  end.

Fixpoint fill_bridges (nodes : list conf_bridge_node) (tmp : Z) (works : list (option Z))
    : exec (Z * list (option Z)) :=
  match nodes with
  | [] => Ret (tmp, works)
  | node :: rest =>
      if bn_enable node then
        let* works := fill_works (Z.to_nat (bn_parallel node)) tmp PROTO_MQTT_BRIDGE works in
        fill_bridges rest (tmp + bn_parallel node) works
      else fill_bridges rest tmp works
  end.

(** The array [works] of [broker]: NULL is [None]. *)
Definition broker_works (c : conf) : exec (list (option Z)) :=
  let works := replicate (Z.to_nat (num_ctx c)) None in
  let* works := fill_works (Z.to_nat (cf_parallel c)) 0 PROTO_MQTT_BROKER works in
  let tmp := cf_parallel c in
  let* r := (if cf_bridge_mode c then fill_bridges (cf_bridge_nodes c) tmp works
             else Ret (tmp, works)) in
  let '(tmp, works) := r in
  if cf_http_enable c then fill_works (Z.to_nat HTTP_CTX_NUM) tmp PROTO_HTTP_SERVER works
  else Ret works.

(** What one work item opens.  The second context belongs to the protocol it
    receives from. *)
Inductive work_sock := SockInproc | SockBridge.
Inductive init_call := IAlloc | IAio | IBridgeAio | ICtx | IExtraCtx (s : work_sock) | IHookOpen | IHookDial.

Definition alloc_calls : list init_call := [IAlloc; IAio; IBridgeAio; ICtx].

Definition proto_work_init (c : conf) (proto : Z) : list init_call :=
  alloc_calls ++
  (if cf_http_enable c && (proto =? PROTO_HTTP_SERVER) then [IExtraCtx SockInproc]
   else if cf_bridge_mode c then
     if proto =? PROTO_MQTT_BRIDGE then [IExtraCtx SockBridge]
     else if proto =? PROTO_AWS_BRIDGE then [IExtraCtx SockInproc] else []
   else []) ++
  (if wh_enable (cf_web_hook c) then [IHookOpen; IHookDial] else []).

(** The context [rearm] receives on. *)
Definition receives_on (proto : Z) (i : init_call) : bool :=
  match i with
  | ICtx => proto =? PROTO_MQTT_BROKER
  | IExtraCtx _ => negb (proto =? PROTO_MQTT_BROKER)
  | _ => false
  end.

(** ** Sockets, listeners and services *)

Inductive start_ev :=
| SInit (i : init_call)
| SOpenTcp
| SOpenRep
| SWebhook
| SBridgeClient (node : conf_bridge_node)
| SListen (url : option bytes)
| STlsListen (url : option bytes) (tls_rv : Z)
| SInproc
| SServe (proto : Z)
| SRest.

(** The calls before the work items are made. *)
Definition broker_open (c : conf) : list start_ev :=
  [SOpenTcp] ++
  (if cf_http_enable c || cf_bridge_mode c then [SOpenRep] else []) ++
  (if wh_enable (cf_web_hook c) then [SWebhook] else []) ++
  (if cf_bridge_mode c
   then SBridgeClient <$> filter (fun node => bn_enable node = true) (cf_bridge_nodes c) else []).

(** The URLs [broker] listens at.  The result [tls_rv] of the TLS configuration
    is not looked at. *)
Definition broker_listen (tls_rv : Z) (c : conf) : list start_ev :=
  (if cf_enable c then [SListen (cf_url c)] else []) ++
  (if cf_ws_enable c then [SListen (cf_ws_url c)] else []) ++
  (if cf_tls_enable c then [STlsListen (cf_tls_url c) tls_rv] else []) ++
  (if cf_http_enable c || cf_bridge_mode c then [SInproc] else []).

(** Making the work items, in the order of their slots. *)
Definition init_works (c : conf) (works : list (option Z)) : list start_ev :=
  SInit <$> mjoin (proto_work_init c <$> omap id works).

(** [server_cb(works[i])] for every index: a NULL is dereferenced. *)
Fixpoint serve (works : list (option Z)) : exec (list start_ev) :=
  match works with
  | [] => Ret []
  | Some proto :: rest => let* evs := serve rest in Ret (SServe proto :: evs)
  | None :: _ => UB
  end.

(** [broker]: the calls, in their order, and whether it got to the end;
    [fails] is the outcome of the library's calls. *)
Definition broker (fails : start_ev -> bool) (tls_rv : Z) (c : conf) : exec (list start_ev * bool) :=
  let '(opened, ok) := until_fatal fails (broker_open c) in
  if negb ok then Ret (opened, false) else
  let* works := broker_works c in
  let '(made, ok) := until_fatal fails (init_works c works) in
  if negb ok then Ret (opened ++ made, false) else
  let '(listening, ok) := until_fatal fails (broker_listen tls_rv c) in
  if negb ok then Ret (opened ++ made ++ listening, false) else
  let* served := serve works in
  Ret (opened ++ made ++ listening ++ served ++ (if cf_http_enable c then [SRest] else []), true).

(** ** The process *)

(** [active_conf]: the process may end as a daemon is made of it ([inl]); the
    task queue is set when one of the counts is given. *)
Definition active_conf (e : proc_env) (c : conf) : Z + option (Z * Z) :=
  let taskq := if negb (cf_num_taskq_thread c =? 0) || negb (cf_max_taskq_thread c =? 0)
               then Some (cf_num_taskq_thread c, cf_max_taskq_thread c) else None in
  if cf_daemon c then
    match (process_daemonize e).2 with
    | Exits code => inl code
    | Returns rv => if rv =? 0 then inr taskq else inl EXIT_FAILURE
    end
  else inr taskq.

(** ** nanomq.c *)

Inductive command := CmdStart | CmdStop | CmdRestart | CmdUsage | CmdHelp.

Definition main_command (argv : list bytes) : command :=
  match argv with
  | _ :: a :: _ =>
      if bool_decide (a = str "start") then CmdStart
      else if bool_decide (a = str "stop") then CmdStop
      else if bool_decide (a = str "restart") then CmdRestart
      else if bool_decide (a = str "--help") then CmdUsage
      else CmdHelp
  | _ => CmdHelp
  end.

(** ** Properties *)

(** The protocols of the work items, in their order. *)
Definition bridge_count (nodes : list conf_bridge_node) : Z :=
  foldr (fun node n => (if bn_enable node then bn_parallel node else 0) + n) 0 nodes.

Definition expected_works (c : conf) : list Z :=
  replicate (Z.to_nat (cf_parallel c)) PROTO_MQTT_BROKER ++
  replicate (Z.to_nat (if cf_bridge_mode c then bridge_count (cf_bridge_nodes c) else 0)) PROTO_MQTT_BRIDGE ++
  replicate (Z.to_nat (if cf_http_enable c then HTTP_CTX_NUM else 0)) PROTO_HTTP_SERVER.

(** Counts are not negative, and small enough for the machine. *)
Definition counts_ok (c : conf) : Prop :=
  0 <= cf_parallel c /\ Forall (fun node => 0 <= bn_parallel node) (cf_bridge_nodes c) /\
  cf_parallel c + bridge_count (cf_bridge_nodes c) + HTTP_CTX_NUM < 2 ^ 31.

Lemma bridge_count_nonneg nodes :
  Forall (fun node => 0 <= bn_parallel node) nodes -> 0 <= bridge_count nodes.
Proof. induction 1 as [|node nodes Hn _ IH]; cbn; [lia|]. destruct (bn_enable node); unfold bridge_count in *; lia. Qed.

Lemma num_ctx_fold nodes n :
  Forall (fun node => 0 <= bn_parallel node) nodes -> 0 <= n -> n + bridge_count nodes < 2 ^ 31 ->
  foldl (fun n node => if bn_enable node then u64 (n + bn_parallel node) else n) n nodes =
  n + bridge_count nodes.
Proof.
  intros HF. revert n. induction HF as [|node nodes Hn HF IH]; intros n Hn0 Hlt; cbn in *; [lia|].
  pose proof (bridge_count_nonneg nodes HF) as Hc. unfold bridge_count in Hc, Hlt.
  destruct (bn_enable node).
  - unfold u64. rewrite Z.mod_small by lia. rewrite IH; unfold bridge_count; lia.
  - rewrite IH; unfold bridge_count; lia.
Qed.

Lemma num_ctx_value c : counts_ok c ->
  num_ctx c = cf_parallel c + (if cf_bridge_mode c then bridge_count (cf_bridge_nodes c) else 0) +
              (if cf_http_enable c then HTTP_CTX_NUM else 0).
Proof.
  intros (Hp & HF & Hlt). pose proof (bridge_count_nonneg _ HF). unfold HTTP_CTX_NUM in *.
  unfold num_ctx, HTTP_CTX_NUM, u64. rewrite (Z.mod_small (cf_parallel c)) by lia.
  assert (Hh : (cf_http_enable c || cf_bridge_mode c) && cf_http_enable c = cf_http_enable c)
    by (by destruct (cf_http_enable c), (cf_bridge_mode c)).
  rewrite Hh. destruct (cf_http_enable c), (cf_bridge_mode c);
    rewrite ?num_ctx_fold by (done || (rewrite ?Z.mod_small by lia; lia)); rewrite ?Z.mod_small by lia; lia.
Qed.

(** Filling the next [n] free slots. *)
Lemma fill_works_spec n proto done_ free :
  (n <= free)%nat ->
  fill_works n (Zlen done_) proto ((Some <$> done_) ++ replicate free None) =
  Ret ((Some <$> (done_ ++ replicate n proto)) ++ replicate (free - n) None).
Proof.
  revert done_ free. induction n as [|n IH]; intros done_ free Hf; cbn [fill_works].
  - by rewrite app_nil_r, Nat.sub_0_r.
  - destruct free as [|free]; [lia|]. unfold set_work.
    assert (Hlen : length (Some <$> done_) = length done_) by apply length_fmap.
    rewrite (proj2 (Z.leb_le _ _)), (proj2 (Z.ltb_lt _ _))
      by (unfold Zlen; rewrite ?length_app, ?length_replicate, ?Hlen; lia).
    cbn [andb ebind replicate].
    replace (Z.to_nat (Zlen done_)) with (length (Some <$> done_)) by (rewrite Hlen; unfold Zlen; lia).
    replace (<[length (Some <$> done_):=Some proto]> ((Some <$> done_) ++ None :: replicate free None))
      with ((Some <$> done_) ++ Some proto :: replicate free None)
      by (by rewrite insert_app_r_alt, Nat.sub_diag by lia).
    replace (Zlen done_ + 1) with (Zlen (done_ ++ [proto])) by (rewrite Zlen_app; done).
    change ((Some <$> done_) ++ Some proto :: replicate free None) with
      ((Some <$> done_) ++ ([Some proto] ++ replicate free None)).
    rewrite app_assoc. replace ((Some <$> done_) ++ [Some proto]) with (Some <$> (done_ ++ [proto]))
      by (by rewrite fmap_app).
    rewrite IH by lia. by rewrite <- app_assoc.
Qed.

Lemma fill_bridges_spec nodes done_ free :
  Forall (fun node => 0 <= bn_parallel node) nodes ->
  (Z.to_nat (bridge_count nodes) <= free)%nat ->
  fill_bridges nodes (Zlen done_) ((Some <$> done_) ++ replicate free None) =
  let done' := done_ ++ replicate (Z.to_nat (bridge_count nodes)) PROTO_MQTT_BRIDGE in
  Ret (Zlen done', (Some <$> done') ++ replicate (free - Z.to_nat (bridge_count nodes)) None).
Proof.
  intros HF. cbv zeta. revert done_ free. induction HF as [|node nodes Hn HF IH]; intros done_ free Hf.
  - cbn. by rewrite app_nil_r, Nat.sub_0_r.
  - pose proof (bridge_count_nonneg nodes HF) as Hc. cbn [fill_bridges].
    change (bridge_count (node :: nodes)) with
      ((if bn_enable node then bn_parallel node else 0) + bridge_count nodes) in *.
    destruct (bn_enable node).
    + rewrite fill_works_spec by lia. cbn [ebind].
      set (done1 := done_ ++ replicate (Z.to_nat (bn_parallel node)) PROTO_MQTT_BRIDGE).
      replace (Zlen done_ + bn_parallel node) with (Zlen done1)
        by (unfold done1; rewrite Zlen_app; unfold Zlen; rewrite length_replicate; lia).
      rewrite IH by lia. unfold done1. rewrite <- app_assoc, <- replicate_add.
      rewrite <- Z2Nat.inj_add by lia. do 4 f_equal. lia.
    + rewrite IH by lia. done.
Qed.

Lemma broker_works_spec c : counts_ok c -> broker_works c = Ret (Some <$> expected_works c).
Proof.
  intros Hok. pose proof (num_ctx_value c Hok) as Hn. destruct Hok as (Hp & HF & Hlt).
  pose proof (bridge_count_nonneg _ HF). unfold broker_works, HTTP_CTX_NUM in *.
  set (B := if cf_bridge_mode c then bridge_count (cf_bridge_nodes c) else 0) in *.
  set (Hc := if cf_http_enable c then 4 else 0) in *.
  assert (0 <= B) by (unfold B; by case_match). assert (0 <= Hc <= 4) by (unfold Hc; by case_match).
  pose proof (fill_works_spec (Z.to_nat (cf_parallel c)) PROTO_MQTT_BROKER [] (Z.to_nat (num_ctx c))) as Hf1.
  cbn [fmap list_fmap app] in Hf1. change (Zlen (@nil Z)) with 0 in Hf1. rewrite Hf1 by lia. cbn [ebind].
  set (d1 := replicate (Z.to_nat (cf_parallel c)) PROTO_MQTT_BROKER).
  assert (Hd1 : cf_parallel c = Zlen d1) by (unfold d1, Zlen; rewrite length_replicate; lia).
  set (f1 := (Z.to_nat (num_ctx c) - Z.to_nat (cf_parallel c))%nat).
  assert (Hb : (if cf_bridge_mode c then fill_bridges (cf_bridge_nodes c) (cf_parallel c)
      ((Some <$> d1) ++ replicate f1 None) else Ret (cf_parallel c, (Some <$> d1) ++ replicate f1 None)) =
    let d2 := d1 ++ replicate (Z.to_nat B) PROTO_MQTT_BRIDGE in
    Ret (Zlen d2, (Some <$> d2) ++ replicate (f1 - Z.to_nat B) None)).
  { unfold B in *. destruct (cf_bridge_mode c).
    - rewrite Hd1. apply fill_bridges_spec; [done|]. unfold f1. lia.
    - cbn. by rewrite app_nil_r, Nat.sub_0_r, Hd1. }
  fold f1. rewrite Hb. cbn [ebind]. unfold expected_works, HTTP_CTX_NUM. fold B d1.
  rewrite (app_assoc d1). set (d2 := d1 ++ replicate (Z.to_nat B) PROTO_MQTT_BRIDGE).
  assert (Hf2 : (f1 - Z.to_nat B)%nat = Z.to_nat Hc) by (unfold f1; lia). rewrite Hf2.
  unfold Hc. destruct (cf_http_enable c).
  - change (Z.to_nat 4) with 4%nat. rewrite fill_works_spec by lia. by rewrite Nat.sub_diag, app_nil_r.
  - cbn [Z.to_nat replicate]. by rewrite !app_nil_r.
Qed.

Lemma serve_spec works : serve (Some <$> works) = Ret (SServe <$> works).
Proof. induction works as [|w works IH]; [done|]. cbn [serve fmap list_fmap]. by rewrite IH. Qed.

Definition is_serve (e : start_ev) : bool := match e with SServe _ => true | _ => false end.

(** The calls before the work items are started. *)
Definition before_serving (tls_rv : Z) (c : conf) : list start_ev :=
  broker_open c ++ init_works c (Some <$> expected_works c) ++ broker_listen tls_rv c.

Lemma not_serving tls_rv c : Forall (fun e => is_serve e = false) (before_serving tls_rv c).
Proof.
  unfold before_serving, broker_open, broker_listen, init_works. rewrite !Forall_app.
  repeat split; repeat case_match; try (by repeat constructor); by apply Forall_fmap, Forall_true.
Qed.

(** Every work item of a configuration has the context it receives on. *)
Lemma works_can_receive c :
  Forall (fun proto => existsb (receives_on proto) (proto_work_init c proto) = true) (expected_works c).
Proof.
  unfold expected_works. rewrite !Forall_app.
  split_and!; apply Forall_replicate_eq || idtac;
    apply Forall_forall; intros p [-> Hn]%elem_of_replicate; unfold proto_work_init;
    destruct (cf_http_enable c), (cf_bridge_mode c); cbn in *; done || lia.
Qed.

Lemma expected_works_length c : counts_ok c -> Zlen (expected_works c) = num_ctx c.
Proof.
  intros Hok. pose proof (num_ctx_value c Hok) as Hn. destruct Hok as (Hp & HF & Hlt).
  pose proof (bridge_count_nonneg _ HF). rewrite Hn. unfold expected_works, Zlen, HTTP_CTX_NUM.
  rewrite !length_app, !length_replicate. destruct (cf_bridge_mode c), (cf_http_enable c); lia.
Qed.

Lemma broker_listen_urls tls_rv c :
  cf_url c <> None -> (cf_ws_enable c = true -> cf_ws_url c <> None) ->
  (cf_tls_enable c = true -> cf_tls_url c <> None) ->
  Forall (fun e => match e with SListen u | STlsListen u _ => u <> None | _ => True end) (broker_listen tls_rv c).
Proof.
  intros H1 H2 H3. unfold broker_listen. rewrite !Forall_app.
  split_and!; case_match; repeat constructor; auto.
Qed.

Lemma default_urls_listen U tls_rv c :
  Forall (fun e => match e with SListen u | STlsListen u _ => u <> None | _ => True end)
    (broker_listen tls_rv (default_urls U c)).
Proof.
  apply broker_listen_urls; unfold default_urls; destruct (cf_tls_enable c) eqn:Et, (cf_ws_enable c) eqn:Ew;
    destruct c; cbn in Et, Ew; subst; done.
Qed.

(** One list of calls, until one fails; then the work items run. *)
Lemma broker_run fails tls_rv c :
  counts_ok c ->
  broker fails tls_rv c =
  let '(t, ok) := until_fatal fails (before_serving tls_rv c) in
  Ret (if ok : bool then (t ++ (SServe <$> expected_works c) ++ (if cf_http_enable c then [SRest] else []), true)
       else (t, false)).
Proof.
  intros Hok. unfold broker, before_serving. rewrite !until_fatal_app, broker_works_spec by done.
  destruct (until_fatal fails (broker_open c)) as [t1 [|]]; cbn [negb ebind]; [|done].
  destruct (until_fatal fails (init_works _ _)) as [t2 [|]]; cbn [negb ebind]; [|done].
  destruct (until_fatal fails (broker_listen tls_rv c)) as [t3 [|]]; cbn [negb]; [|done].
  rewrite serve_spec. cbn [ebind]. by rewrite <- !app_assoc.
Qed.

(** C29: the broker starts exactly one work item per context it counted: the
    MQTT ones first, then those of every enabled bridge, then four for HTTP,
    and no slot of the array is written twice, missed or started while NULL.
    Each has the context it receives on.  They are started after every socket is
    open, every context made and every listener listens: when one of those calls
    fails, none is. *)
Theorem broker_starts_every_work fails tls_rv c :
  counts_ok c ->
  Zlen (expected_works c) = num_ctx c /\
  Forall (fun proto => existsb (receives_on proto) (proto_work_init c proto) = true) (expected_works c) /\
  exists evs ok, broker fails tls_rv c = Ret (evs, ok) /\
    (if ok then
       evs = before_serving tls_rv c ++ (SServe <$> expected_works c) ++ (if cf_http_enable c then [SRest] else [])
     else Forall (fun e => is_serve e = false) evs) /\
    (ok = true <-> Forall (fun e => fails e = false) (before_serving tls_rv c)).
Proof.
  intros Hok. split; [by apply expected_works_length|]. split; [apply works_can_receive|].
  rewrite broker_run by done. destruct (until_fatal fails (before_serving tls_rv c)) as [t [|]] eqn:Ht.
  - do 2 eexists. split; [done|]. pose proof (until_fatal_true _ _ _ Ht). by apply until_fatal_ok in Ht as ->.
  - do 2 eexists. split; [done|]. split; [|split; [done|]].
    + eapply prefix_Forall; [by eapply until_fatal_some|apply not_serving].
    + intros HF. by rewrite until_fatal_none in Ht.
Qed.

(** Whatever the environment, configuration file and command line say, a
    broker that starts listens at real URLs only: every listener it opens has
    one, its own or the default. *)
Theorem broker_start_sets_urls U fl ll sc conf_parse opts rv c c' tls_rv :
  broker_start U fl ll sc conf_parse opts rv c = Some c' ->
  Forall (fun e => match e with SListen u | STlsListen u _ => u <> None | _ => True end)
    (broker_listen tls_rv c').
Proof.
  unfold broker_start. destruct (file_path_parse opts rv c) as [[[|] c1]|]; [|done..].
  destruct (broker_parse_opts _ _ _ _ opts rv (conf_parse c1)) as [[[|] c2]|]; [|done..].
  intros [= <-]. apply default_urls_listen.
Qed.

(** ** Witnesses *)

Definition demo_start_bridge (enable : bool) : conf_bridge_node :=
  BridgeNode enable (str "mqtt-tcp://broker.org:1883") 4 60 true None None None
    [] [] 2.

Definition demo_start_conf : conf :=
  Conf None None true false 3 0 0 0 0 0 true None (ConfTls false false None None None None) true None None
    true 8081 (ConfLog 0 true false None None None None)
    true [demo_start_bridge true; demo_start_bridge false; demo_start_bridge true]
    (ConfWebHook true [] plain).

Definition demo_urls : url_consts :=
  UrlConsts (str "nmq-tcp") (str "tcp") (str "nmq-tcp+tls") (str "nmq-ws") (str "ws") (str "nmq-wss")
    (str "wss") (str "nmq-tcp://0.0.0.0:1883") (str "tls+nmq-tcp://0.0.0.0:8883")
    (str "nmq-ws://0.0.0.0:8083/mqtt") (str "nmq-wss://0.0.0.0:8086/mqtt").

(** Three MQTT work items, twice two for the enabled bridges, four for HTTP;
    and when the first listener fails, none is started. *)
Lemma broker_starts_every_work_witness :
  num_ctx demo_start_conf = 11 /\
  (exists evs, broker (fun _ => false) 0 demo_start_conf = Ret (evs, true) /\
     filter (fun e => is_serve e = true) evs = SServe <$> expected_works demo_start_conf) /\
  exists evs, broker (fun e => match e with SListen _ => true | _ => false end) 0 demo_start_conf =
    Ret (evs, false) /\ Forall (fun e => is_serve e = false) evs.
Proof.
  assert (Hok : counts_ok demo_start_conf)
    by (split; [done|]; split; [repeat constructor; done|done]).
  split; [reflexivity|]. split.
  - destruct (broker_starts_every_work (fun _ => false) 0 demo_start_conf Hok)
      as (_ & _ & evs & ok & E & H & _). destruct ok; [|by vm_compute in E].
    exists evs. split; [exact E|]. rewrite H. reflexivity.
  - destruct (broker_starts_every_work (fun e => match e with SListen _ => true | _ => false end) 0
      demo_start_conf Hok) as (_ & _ & evs & ok & E & H & _). destruct ok; [by vm_compute in E|].
    exists evs. split; [exact E|exact H].
Defined.

(** [nanomq start -n 4 --url nmq-ws://h:80]: the default URLs for the rest. *)
Lemma broker_start_sets_urls_witness :
  exists c', broker_start demo_urls (fun _ => None) (fun _ => 0) (fun _ _ => false) id
      [(OPT_PARALLEL, str "4"); (OPT_URL, str "nmq-ws://h:80")] (-1) demo_start_conf = Some c' /\
    cf_parallel c' = 4 /\ cf_ws_url c' = Some (str "nmq-ws://h:80") /\
    Forall (fun e => match e with SListen u | STlsListen u _ => u <> None | _ => True end)
      (broker_listen 0 c').
Proof.
  destruct (broker_start demo_urls (fun _ => None) (fun _ => 0) (fun _ _ => false) id
      [(OPT_PARALLEL, str "4"); (OPT_URL, str "nmq-ws://h:80")] (-1) demo_start_conf) as [c'|] eqn:E;
    [|by vm_compute in E].
  exists c'. split; [reflexivity|]. pose proof (broker_start_sets_urls _ _ _ _ _ _ _ _ _ 0 E) as H.
  vm_compute in E. injection E as <-. repeat split; exact H.
Defined.
