(* ===== verification/System.v ===== *)
(** * The running broker

    All work items together.  They share the topic tree, the client table, the
    retained messages and the rules; each is called again when its aio
    completes, in any order.  The theorems of the handlers are composed here
    into theorems on whole runs. *)

From Stdlib Require Import ZArith Lia.
From stdpp Require Import base numbers list gmap option strings sets.
From S2P Require Import Prelude Mqtt Nng NngModel SubHandler UnsubHandler PubHandler RuleEngine MqttApi Bridge Webhook Conf Broker Shared Entries BrokerStart.

Local Open Scope Z_scope.
Local Open Scope nano_scope.

(** ** Finding the subscribers of a topic *)

(** [matches f t]: filter [f] covers topic [t]; [shared f]: the filter is that
    of a shared subscription, of whose clients only one is found. *)
Class NngDbFind (db hash : Type) `{NngDb db hash} {Hl : NngDbLaws db hash} := {
  matches : bytes -> bytes -> bool;
  shared : bytes -> bool;
  find_clients_spec : forall d t p,
    p ∈ default [] (dbtree_find_clients d t) <->
    exists f, subscribed d f p /\ shared f = false /\ matches f t = true;
  find_shared_spec : forall d t p,
    p ∈ default [] (dbtree_find_shared_clients d t) ->
    exists f, subscribed d f p /\ shared f = true /\ matches f t = true
}.

(** ** The system *)

Section System.
Context {msg property cparam db hash db_ret rules : Type}.
Context `{Hmsg : NngMsg msg} `{Hpar : NngParser msg property} `{Hmp : NngMsgProp msg property}.
Context `{Hdb : NngDb db hash} `{Hret : NngRetain db_ret (dbtree_retain_msg msg)}.
Context `{Hcn : NngConn msg cparam property} {Hrl : NngRetainLaws db_ret (dbtree_retain_msg msg)} {Haio : NngAio}.
Variable config : conf.
Variable topic_filter : bytes -> option bytes -> bool.
Variable base64_encode : bytes -> bytes.
Variable NNG_ECONNSHUT : Z.
Variable clears : bool.
Variable rule_on : rules -> bool.
Variable rule_engine : option rule_input -> rules -> exec (list rule_ev * rules * option Z).

Abbreviation wk := (work msg property cparam).
Abbreviation wd := (world db hash db_ret rules).
Abbreviation env := (cb_env (msg := msg)).
Abbreviation cb := (server_cb config topic_filter base64_encode NNG_ECONNSHUT clears rule_on rule_engine).

Implicit Types (w : wk) (s : wd) (e : env) (m : msg).

(** The shared state, each work item with the number of completions of its aio
    that are under way, and the topics whose retained message is the one an
    item holds. *)
Record system := System { sy_world : wd; sy_items : list (wk * Z); sy_shared : gmap bytes nat }.

(** One call: the item, what it found, the item before and after, and the calls
    it made. *)
Record label := Label { lb_item : nat; lb_env : env; lb_work : wk; lb_after : wk; lb_effs : list (eff msg) }.

(** Any item with a completion under way may be next; the broker goes on unless
    the call ends the process. *)
Inductive sys_step : system -> label -> system -> Prop :=
| sys_cb s items sh i w k e s' w' ev :
    items !! i = Some (w, k) -> 0 < k -> cb e s w = Ret (s', w', ev) ->
    forallb (fun x => negb (is_fatal x)) ev = true ->
    sys_step (System s items sh) (Label i e w w' ev)
      (System (write_back i w w' ev sh s') (<[i := (w', k - 1 + total (arms_if send_completes) ev)]> items)
         (share_after i w w' ev sh)).

Inductive sys_run : system -> list label -> system -> Prop :=
| run_nil y : sys_run y [] y
| run_cons y l y' tr y'' : sys_step y l y' -> sys_run y' tr y'' -> sys_run y (l :: tr) y''.

(** A run, computed from the order of the calls; [None] when a call is not
    possible or does not return. *)
Fixpoint sys_exec (y : system) (calls : list (nat * env)) : option (list label * system) :=
  match calls with
  | [] => Some ([], y)
  | (i, e) :: calls' =>
      match sy_items y !! i with
      | None => None
      | Some (w, k) =>
          match cb e (sy_world y) w with
          | Ret (s', w', ev) =>
              if (0 <? k) && forallb (fun x => negb (is_fatal x)) ev then
                r ← sys_exec (System (write_back i w w' ev (sy_shared y) s')
                       (<[i := (w', k - 1 + total (arms_if send_completes) ev)]> (sy_items y))
                       (share_after i w w' ev (sy_shared y))) calls';
                Some (Label i e w w' ev :: r.1, r.2)
              else None
          | _ => None
          end
      end
  end.

(** [broker] calls [server_cb] once for each work item it started. *)
Definition started_items (evs : list start_ev) : list (wk * Z) :=
  omap (fun x => match x with SServe proto => Some (alloc_work proto, 1) | _ => None end) evs.

(** The broker right after its start: nothing is shared yet. *)
Definition started_system (evs : list start_ev) (s : wd) : system := System s (started_items evs) ∅.

(** What the packets ask of the tree, by the handlers' own decoders. *)
Definition packet_ops (e : env) (m : msg) : list (session_op (property := property)) :=
  let p := nng_msg_get_pipe m in
  let ver := conn_param_get_protover (nng_msg_get_conn_param m) in
  match nng_msg_cmd_type m with
  | CMD_SUBSCRIBE =>
      match decode_sub_msg (property := property) (e_node_alloc e) (sub_fuel m) m ver with
      | Ret (rv, pkt) => if rv =? 0 then [OpSubscribe p pkt] else []
      | _ => []
      end
  | CMD_UNSUBSCRIBE =>
      match decode_unsub_msg (property := property) (e_node_alloc e) (e_uninit e) (unsub_fuel m) m ver with
      | Ret (rv, pkt) => if rv =? 0 then [OpUnsubscribe p pkt] else []
      | _ => []
      end
  | CMD_DISCONNECT_EV => [OpDisconnect p]
  | _ => []
  end.

(** Bridges and HTTP clients only publish. *)
Definition only_publishes (proto : Z) : bool :=
  (proto =? PROTO_MQTT_BRIDGE) || (proto =? PROTO_HTTP_SERVER) || (proto =? PROTO_AWS_BRIDGE).

(** A failed receive is looked at only when it is not the broker's own. *)
Definition receives e w : bool :=
  (e_aio_result e =? 0) || (negb (w_proto w =? PROTO_MQTT_BROKER) && (e_aio_result e =? NNG_ECONNSHUT)).

Definition call_ops e w : list (session_op (property := property)) :=
  if bool_decide (w_state w = RECV) && receives e w && negb (only_publishes (w_proto w))
  then match e_aio_msg e with Some m => packet_ops e m | None => [] end
  else [].

Definition label_ops (l : label) : list (session_op (property := property)) := call_ops (lb_env l) (lb_work l).

Definition run_ops (tr : list label) : list (session_op (property := property)) := mjoin (label_ops <$> tr).

(** References of the system on messages. *)
Definition held_by (items : list (wk * Z)) : Z := foldr (fun x n => held_msg x.1 + n) 0 items.

Definition run_effs (tr : list label) : list (eff msg) := mjoin (lb_effs <$> tr).

(** An item that waits for one completion, or was stopped for good in END. *)
Definition item_ok (x : wk * Z) : Prop :=
  x.2 = 1 \/
  (x.2 = 0 /\ w_state x.1 = END_ /\ exists m, w_msg x.1 = Some m /\ nng_msg_get_type m <> CMD_PUBLISH).

(** ** Runs *)

Lemma sys_run_invariant (P : system -> Prop) y tr y' :
  (forall y l y', P y -> sys_step y l y' -> P y') -> P y -> sys_run y tr y' -> P y'.
Proof. intros Hs HP Hr. induction Hr as [|y l y1 tr y2 Hst _ IH]; [done|]. by eapply IH, Hs. Qed.

Lemma sys_run_app y tr y1 tr1 y2 : sys_run y tr y1 -> sys_run y1 tr1 y2 -> sys_run y (tr ++ tr1) y2.
Proof. intros Hr H1. induction Hr; [done|]. by eapply run_cons; [|apply IHHr]. Qed.

Lemma sys_exec_run y calls tr y' : sys_exec y calls = Some (tr, y') -> sys_run y tr y'.
Proof.
  revert y tr. induction calls as [|[i e] calls IH]; intros y tr; cbn [sys_exec]; [by intros [= <- <-]; constructor|].
  destruct (sy_items y !! i) as [[w k]|] eqn:Hi; [|done].
  destruct (cb e (sy_world y) w) as [[[s' w'] ev]| |] eqn:Hcb; [|done..].
  destruct (_ && _) eqn:Hb; [|done]. bool_hyps. intros ([tr1 y1] & Hr & [= <- <-])%bind_Some.
  destruct y as [s items sh]. eapply run_cons; [|by apply IH]. by apply sys_cb.
Qed.

Lemma sys_step_exec y l y' : sys_step y l y' -> sys_exec y [(lb_item l, lb_env l)] = Some ([l], y').
Proof.
  intros []. cbn [sys_exec sy_items sy_world sy_shared lb_item lb_env].
  repeat match goal with H : _ = _ |- _ => rewrite H end. by rewrite (proj2 (Z.ltb_lt 0 _)).
Qed.

Lemma held_by_insert items i x x' :
  items !! i = Some x -> held_by (<[i := x']> items) = held_by items - held_msg x.1 + held_msg x'.1.
Proof.
  unfold held_by. revert i. induction items as [|y items IH]; intros [|i]; [done..| |];
    cbn [lookup list_lookup foldr].
  - intros [= ->]. cbn. lia.
  - intros H. change (<[S i := x']> (y :: items)) with (y :: <[i := x']> items). cbn [foldr].
    rewrite (IH i H). lia.
Qed.

Lemma run_effs_cons l tr : run_effs (l :: tr) = lb_effs l ++ run_effs tr.
Proof. done. Qed.

Lemma run_ops_cons l tr : run_ops (l :: tr) = label_ops l ++ run_ops tr.
Proof. done. Qed.

(** *** References and completions *)

(** The calls that lose a message: an HTTP client's request was decoded, is not
    a PUBLISH, and is not released. *)
Definition leaking (l : label) : bool :=
  bool_decide (w_state (lb_work l) = RECV) && bool_decide (w_state (lb_after l) = RECV) &&
  negb (w_proto (lb_work l) =? PROTO_MQTT_BROKER) &&
  match lb_effs l with
  | [EMsgRecv _; EMsgFree _; EMsgNew dm; ECparamFree; ECtxRecv true] =>
      bool_decide (nng_msg_get_type dm <> CMD_PUBLISH)
  | _ => false
  end.

Lemma leaks_leaking i e w w' ev : leaks e w w' ev -> leaking (Label i e w w' ev) = true.
Proof.
  intros (Hs & Hs' & Hp & m & dm & _ & Hty & ->). unfold leaking. cbn [lb_work lb_after lb_effs].
  rewrite Hs, Hs', !bool_decide_eq_true_2 by done. by rewrite (proj2 (Z.eqb_neq _ _)).
Qed.

Lemma accounted_not_leaking i e w w' ev : accounted (held_msg w) w' ev -> leaking (Label i e w w' ev) = false.
Proof.
  intros [Ha _]. apply not_true_iff_false. unfold leaking. cbn [lb_work lb_after lb_effs].
  intros [[[Hs%bool_decide_eq_true_1 Hs'%bool_decide_eq_true_1]%andb_true_iff _]%andb_true_iff Hev]%andb_true_iff.
  unfold held_msg in Ha. rewrite Hs, Hs' in Ha. by repeat (case_match; try done).
Qed.

Lemma step_item_ok {Hal : NngAioLaws} y l y' :
  Forall item_ok (sy_items y) -> sys_step y l y' -> Forall item_ok (sy_items y').
Proof.
  intros Hall Hst. destruct Hst as [s items sh i w k e s' w' ev Hi Hk Hcb Hnf]. cbn [sy_items] in *.
  rewrite total_arms. apply Forall_insert; [done|].
  pose proof (Forall_lookup_1 _ _ _ _ Hall Hi) as [H1|(H0 & _)]; cbn [fst snd] in *; [|lia].
  destruct (server_cb_cases _ _ _ _ _ _ _ _ _ _ _ _ _ Hcb Hnf) as [[_ Ha]|[Hl|Hs]].
  - left. cbn. lia.
  - left. destruct Hl as (_ & _ & _ & m & dm & _ & _ & ->). cbn. lia.
  - right. destruct Hs as (Hst & -> & -> & Hm). cbn. split; [lia|done].
Qed.

Lemma step_items y l y' :
  sys_step y l y' ->
  held_by (sy_items y) + total item_refs (lb_effs l) = held_by (sy_items y') + (if leaking l then 1 else 0).
Proof.
  intros Hst. destruct Hst as [s items sh i w k e s' w' ev Hi Hk Hcb Hnf]. cbn [sy_items lb_effs].
  rewrite (held_by_insert _ _ _ _ Hi). cbn [fst].
  destruct (server_cb_cases _ _ _ _ _ _ _ _ _ _ _ _ _ Hcb Hnf) as [Ha|[Hl|Hs]].
  - rewrite accounted_not_leaking by done. destruct Ha as [Ha _]. lia.
  - rewrite leaks_leaking by done. destruct Hl as (Hs & Hs' & _ & m & dm & _ & _ & ->).
    unfold held_msg. rewrite Hs, Hs'. cbn. lia.
  - destruct Hs as (Hst & -> & -> & _). unfold leaking. cbn [lb_work]. rewrite Hst, bool_decide_eq_false_2 by done. cbn. lia.
Qed.

(** What the tree holds changes by the references taken and given away for it;
    the writes through shared pointers leave it. *)
Lemma step_tree y l y' M :
  sys_step y l y' -> tree_is (wd_ret (sy_world y)) M ->
  exists M', tree_is (wd_ret (sy_world y')) M' /\ tree_held M + total tree_refs (lb_effs l) = tree_held M'.
Proof.
  intros Hst HM. destruct Hst as [s items sh i w k e s' w' ev Hi Hk Hcb Hnf]. cbn [sy_world lb_effs] in *.
  rewrite tree_refs_total.
  assert (H1 : exists M1, tree_is (wd_ret s') M1 /\ tree_held M + ref_balance (retain_refs ev) = tree_held M1).
  { apply server_cb_retains in Hcb as [[Hev Hs]|(ra & m & pv & pkt & m' & topic & Hr & _)].
    - exists M. rewrite Hs, Hev. split; [done|cbn; lia].
    - apply handle_pub_retain_spec in Hr as (Hoth & _ & Hb).
      destruct (tree_step _ (wd_ret s') M topic HM Hoth) as (M1 & HM1 & He). exists M1. split; [done|lia]. }
  destruct H1 as (M1 & HM1 & He). unfold write_back. destruct (rewritten w) as [m|]; [|by exists M1].
  cbn [wd_ret]. destruct (write_shared_tree (forget (retain_change w' ev) sh) i m (wd_ret s') M1 HM1) as (M2 & HM2 & He2).
  exists M2. split; [done|lia].
Qed.

Lemma run_references y tr y' M :
  sys_run y tr y' -> tree_is (wd_ret (sy_world y)) M -> exists M', tree_is (wd_ret (sy_world y')) M' /\
    held_by (sy_items y) + tree_held M + total ref_change (run_effs tr) =
    held_by (sy_items y') + tree_held M' + Z.of_nat (length (filter leaking tr)).
Proof.
  intros Hr. revert M. induction Hr as [y|y l y1 tr y2 Hst _ IH]; intros M HM.
  - exists M. split; [done|cbn; lia].
  - destruct (step_tree _ _ _ _ Hst HM) as (M1 & HM1 & H1). destruct (IH _ HM1) as (M2 & HM2 & H2).
    exists M2. split; [done|]. pose proof (step_items _ _ _ Hst) as H3. rewrite run_effs_cons, total_app, total_ref_change.
    destruct (leaking l) eqn:E.
    + rewrite filter_cons_True by (by rewrite E). cbn [length]. lia.
    + rewrite filter_cons_False by (rewrite E; by intros []). lia.
Qed.

Lemma started_items_held evs : held_by (started_items evs) = 0.
Proof. unfold started_items. induction evs as [|[] evs IH]; done. Qed.

Lemma run_items_ok {Hal : NngAioLaws} evs s tr y : sys_run (started_system evs s) tr y -> Forall item_ok (sy_items y).
Proof.
  intros Hr. refine (sys_run_invariant (fun y => Forall item_ok (sy_items y)) _ _ _ _ _ Hr);
    [intros ???; apply step_item_ok|]. apply Forall_forall. intros x Hx.
  apply list_elem_of_omap in Hx as ([] & _ & [= <-]). by left.
Qed.

(** C3: Over any run of the started broker, whatever arrives and in whatever
    order the work items are called, every item waits for exactly one
    completion (so none is called twice at a time, and none is lost) unless it
    was stopped in state END by a message that is not a PUBLISH; and of the
    references on messages that were taken and not given away, each is held by
    an item or by an entry of the retained tree, but for one for each call that
    decoded an HTTP client's message that is not a PUBLISH, which is never
    released.  (A send on the broker's context is assumed not to complete the
    aio, one on an extra context to complete it.) *)
Theorem broker_run_balanced {Hal : NngAioLaws} evs s tr y M :
  sys_run (started_system evs s) tr y -> tree_is (wd_ret s) M ->
  Forall item_ok (sy_items y) /\
  exists M', tree_is (wd_ret (sy_world y)) M' /\
    total ref_change (run_effs tr) =
    held_by (sy_items y) + (tree_held M' - tree_held M) + Z.of_nat (length (filter leaking tr)).
Proof.
  intros Hr HM. split; [by eapply run_items_ok|].
  destruct (run_references _ _ _ _ Hr HM) as (M' & HM' & He). exists M'. split; [done|].
  cbn [sy_items started_system] in He. rewrite started_items_held in He. lia.
Qed.

(** *** Subscriptions *)

Context {Hl : NngDbLaws db hash} {Hml : NngMsgLaws msg}.

Definition subs (s : wd) : db * hash := (wd_db s, wd_hash s).

(** The same tree, and tables that list the same filters. *)
Definition same_subs (s s' : wd) : Prop :=
  wd_db s' = wd_db s /\ forall p t, registered (wd_hash s') p t <-> registered (wd_hash s) p t.

#[local] Instance same_subs_preorder : PreOrder same_subs.
Proof.
  split; [by intros s|]. intros s1 s2 s3 [H1 H2] [H3 H4]. split; [congruence|].
  intros p t. by rewrite H4.
Qed.

Lemma same_subs_refines s s' S : same_subs s s' -> refines (subs s) S -> refines (subs s') S.
Proof.
  intros [Hd Hh] [Hc HS]. unfold refines, consistent, subs in *. cbn [fst snd] in *. rewrite Hd.
  split; [|done]. intros p t. by rewrite Hh.
Qed.

Lemma handle_pub_registered al (d : db) p pv (ps : pub_state msg property hash db_ret) proto rc ps' :
  handle_pub al d p pv ps proto = Ret (rc, ps') ->
  forall q t, registered (ps_hash ps') q t <-> registered (ps_hash ps) q t.
Proof.
  unfold handle_pub. intros Hrun q t. case_match; [|done].
  apply ebind_Ret in Hrun as ([result pkt] & _ & Hrun).
  case_match; [by injection Hrun as <- <-|]. case_match; [by injection Hrun as <- <-|].
  destruct (resolve_topic _ _ _ _) as [[[topic h] pkt']|] eqn:Er; [|by injection Hrun as <- <-].
  assert (Hh : registered h q t <-> registered (ps_hash ps) q t).
  { unfold resolve_topic in Er. repeat case_match; simplify_eq; (done || apply atpair_registered). }
  destruct topic; injection Hrun as <- <-; [|done]. rewrite <- Hh. unfold deliver. by repeat case_match.
Qed.

Lemma run_handle_pub_subs e s w m proto s' w' rc ev :
  run_handle_pub e s w m proto = Ret (s', w', rc, ev) -> same_subs s s'.
Proof.
  unfold run_handle_pub. intros ([rc' ps] & Hp & [= <- <- <- <-])%ebind_Ret.
  split; [done|]. cbn [wd_hash]. intros p t. apply (handle_pub_registered _ _ _ _ _ _ _ _ Hp).
Qed.

Lemma on_publish_subs e s w m s' w' ev : on_publish e s w m = Ret (s', w', ev) -> same_subs s s'.
Proof.
  unfold on_publish. intros ([[[s1 w1] code] ev1] & Hh & Hrun)%ebind_Ret.
  apply run_handle_pub_subs in Hh. repeat case_match; by injection Hrun as <- <- <-.
Qed.

Lemma on_connack_subs e s w m s' w' ev :
  on_connack config topic_filter base64_encode e s w m = Ret (s', w', ev) -> same_subs s s'.
Proof.
  unfold on_connack. intros (rc & _ & Hrun)%ebind_Ret. destruct (w_cparam w); [|done].
  apply ebind_Ret in Hrun as ([w1 hook] & _ & Hrun).
  apply ebind_Ret in Hrun as ([[[s1 w2] c1] ev1] & Hh & [= <- <- <-]). by apply run_handle_pub_subs in Hh.
Qed.

Lemma publish_will_subs e s w cp s' w' ev : publish_will e s w cp = Ret (s', w', ev) -> same_subs s s'.
Proof.
  unfold publish_will. case_match; intros ([[[s1 w1] c1] ev1] & Hh & Hrun)%ebind_Ret;
    apply run_handle_pub_subs in Hh; [destruct (w_pub_packet w1); [|done]|]; by injection Hrun as <- <- <-.
Qed.

Lemma session_step_world cid (rets : db_ret) s S (op : session_op (property := property)) d h :
  refines (subs s) S -> session_step clears cid rets (subs s) op = Ret (d, h) ->
  refines (d, h) (spec_step S op).
Proof. apply session_step_refines. Qed.

Lemma on_subscribe_refines e s w m s' w' ev S :
  refines (subs s) S -> on_subscribe clears e s w m = Ret (s', w', ev) ->
  w_pid w = nng_msg_get_pipe m -> w_proto_ver w = conn_param_get_protover (nng_msg_get_conn_param m) ->
  nng_msg_cmd_type m = CMD_SUBSCRIBE ->
  refines (subs s') (foldl spec_step S (packet_ops e m)).
Proof.
  intros HS Hrun Hp Hv Hc. unfold packet_ops. rewrite Hc, <- Hp, <- Hv. unfold on_subscribe in Hrun.
  case_match; [done|]. apply ebind_Ret in Hrun as ([rv pkt] & -> & Hrun).
  apply ebind_Ret in Hrun as ([rv2 [[d h] mr]] & Hsub & Hrun).
  assert (Hs' : subs s' = (d, h)).
  { case_match; [by injection Hrun as <- <- <-|]. destruct (encode_suback_msg m _ _).
    by apply ebind_Ret in Hrun as (? & _ & [= <- <- <-]). }
  rewrite Hs'. destruct (rv =? 0); cbn [negb foldl] in *; [|by injection Hsub as _ <- <- _].
  eapply (session_step_world (fun _ => conn_param_get_clientid (nng_msg_get_conn_param m)) (wd_ret s)); [done|]. cbn [session_step subs fst snd]. rewrite Hsub. reflexivity.
Qed.

Lemma on_unsubscribe_refines e s w m s' w' ev S :
  refines (subs s) S -> on_unsubscribe e s w m = Ret (s', w', ev) ->
  w_pid w = nng_msg_get_pipe m -> w_proto_ver w = conn_param_get_protover (nng_msg_get_conn_param m) ->
  nng_msg_cmd_type m = CMD_UNSUBSCRIBE ->
  refines (subs s') (foldl spec_step S (packet_ops e m)).
Proof.
  intros HS Hrun Hp Hv Hc. unfold packet_ops. rewrite Hc, <- Hp, <- Hv. unfold on_unsubscribe in Hrun.
  case_match; [done|]. apply ebind_Ret in Hrun as ([rv pkt] & -> & Hrun).
  apply ebind_Ret in Hrun as ([pkt2 [d h]] & Hsub & Hrun).
  apply ebind_Ret in Hrun as ([? smsg] & _ & Hrun).
  apply ebind_Ret in Hrun as (? & _ & [= <- <- <-]). change (subs _) with (d, h).
  destruct (rv =? 0); cbn [negb foldl] in *; [|by injection Hsub as _ <- <-].
  apply ebind_Ret in Hsub as ([rv2 [pk [d1 h1]]] & Hsub & [= _ <- <-]).
  eapply (session_step_world (fun _ => conn_param_get_clientid (nng_msg_get_conn_param m)) (wd_ret s)); [done|]. cbn [session_step subs fst snd]. rewrite Hsub. reflexivity.
Qed.

Lemma on_disconnect_refines e s w m s' w' ev S :
  refines (subs s) S ->
  on_disconnect config topic_filter base64_encode e s w m = Ret (s', w', ev) ->
  refines (subs s') (spec_step S (OpDisconnect (property := property) (w_pid w))).
Proof.
  intros HS Hrun. unfold on_disconnect in Hrun.
  apply ebind_Ret in Hrun as ([w1 hook] & Hk & Hrun). apply run_hook_frame in Hk as (_ & f & ->).
  apply ebind_Ret in Hrun as ([[[s1 w1] c1] ev1] & Hh & Hrun).
  pose proof (run_handle_pub_subs _ _ _ _ _ _ _ _ _ Hh) as Hs1.
  apply run_handle_pub_frame in Hh as (_ & m' & infos & pkt & ->).
  apply (same_subs_refines _ _ _ Hs1) in HS.
  destruct (if dbhash_check_id _ _ then _ else _) as [d h] eqn:E.
  assert (Hs' : subs s' = (d, h))
    by (destruct (w_cparam _); [|done]; by case_match; injection Hrun as <- <- <-).
  rewrite Hs'. eapply (session_step_world (fun _ => conn_param_get_clientid (nng_msg_get_conn_param m)) (wd_ret s1)); [exact HS|].
  change (subs s1) with (wd_db s1, wd_hash s1). cbn [session_step fst snd].
  cbn [w_pid with_pub with_msg with_flag] in E. by rewrite E.
Qed.

Lemma dispatch_refines e s w m s' w' ev S :
  refines (subs s) S ->
  dispatch config topic_filter base64_encode clears e s w m = Ret (s', w', ev) ->
  refines (subs s') (foldl spec_step S (packet_ops e m)).
Proof.
  intros HS. unfold dispatch. cbn [w_flag]. destruct (nng_msg_cmd_type m) eqn:Hc; intros Hrun;
    first [ by eapply on_subscribe_refines | by eapply on_unsubscribe_refines
          | unfold packet_ops; rewrite Hc; cbn [foldl] ].
  all: first [ by injection Hrun as <- <- <-
    | by eapply same_subs_refines; [eapply on_publish_subs|]
    | by eapply same_subs_refines; [eapply on_connack_subs|]
    | exact (on_disconnect_refines _ _ _ _ _ _ _ _ HS Hrun) ].
Qed.

(** A bridge or an HTTP client brings no request for the tree. *)
Lemma packet_ops_publish e m c :
  c = CMD_CONNACK \/ c = CMD_PUBLISH -> packet_ops e (nng_msg_set_cmd_type m c) = [].
Proof.
  intros Hc. unfold packet_ops. rewrite (proj2 (proj2 (set_cmd m c))). by destruct Hc as [->| ->].
Qed.

Lemma after_refines pre e s w m s' w' ev S :
  refines (subs s) S ->
  after pre (dispatch config topic_filter base64_encode clears e s w m) = Ret (s', w', ev) ->
  refines (subs s') (foldl spec_step S (packet_ops e m)).
Proof.
  intros HS. unfold after. intros ([[s1 w1] ev1] & Hd & [= <- <- <-])%ebind_Ret. by eapply dispatch_refines.
Qed.

Lemma on_recv_msg_refines e s w s' w' ev S :
  refines (subs s) S ->
  on_recv_msg config topic_filter base64_encode clears e s w = Ret (s', w', ev) ->
  refines (subs s') (foldl spec_step S
    (if negb (only_publishes (w_proto w))
     then match e_aio_msg e with Some m => packet_ops e m | None => [] end else [])).
Proof.
  intros HS Hrun. unfold on_recv_msg in Hrun. unfold only_publishes.
  destruct (e_aio_msg e) as [m|]; [|injection Hrun as <- <- <-; by destruct (negb _)].
  assert (Hpub : forall pre dm c, c = CMD_CONNACK \/ c = CMD_PUBLISH ->
    after pre (dispatch config topic_filter base64_encode clears e s w (nng_msg_set_cmd_type dm c))
      = Ret (s', w', ev) -> refines (subs s') S).
  { intros pre dm c Hc Ha. by eapply after_refines in Ha; [rewrite (packet_ops_publish _ _ _ Hc) in Ha|]. }
  destruct (w_proto w =? PROTO_MQTT_BRIDGE); cbn [orb negb foldl].
  - case_decide as Hc; [eapply Hpub; [|exact Hrun]; by left|].
    case_decide as Hn; [by injection Hrun as <- <- <-|]. eapply Hpub; [|exact Hrun]. by right.
  - destruct (_ || _); cbn [negb foldl]; [|by eapply after_refines].
    apply ebind_Ret in Hrun as ([rv o] & _ & Hrun). cbn [snd] in Hrun. destruct o as [[dm cp]|]; [|done].
    case_decide; [by injection Hrun as <- <- <-|]. eapply Hpub; [|exact Hrun]. by right.
Qed.

(** One call makes the tree what its packet asks for. *)
Lemma server_cb_refines e s w s' w' ev S :
  refines (subs s) S -> cb e s w = Ret (s', w', ev) -> refines (subs s') (foldl spec_step S (call_ops e w)).
Proof.
  intros HS Hrun. unfold server_cb in Hrun. unfold call_ops. destruct (w_state w);
    rewrite ?bool_decide_eq_false_2 by done; cbn [andb foldl].
  - by injection Hrun as <- <- <-.
  - rewrite bool_decide_eq_true_2 by done. cbn [andb]. unfold on_recv in Hrun. unfold receives.
    destruct (e_aio_result e =? 0); cbn [negb orb andb] in *; [by apply (on_recv_msg_refines _ _ _ _ _ _ _ HS) in Hrun|].
    cbn [w_proto with_state] in Hrun.
    destruct (w_proto w =? PROTO_MQTT_BROKER); cbn [negb andb] in *; [by injection Hrun as <- <- <-|].
    destruct (_ =? NNG_ECONNSHUT); cbn [negb andb] in *; [by apply (on_recv_msg_refines _ _ _ _ _ _ _ HS) in Hrun|by injection Hrun as <- <- <-].
  - unfold on_wait in Hrun. destruct (w_msg w); [|done]. case_decide; [|by injection Hrun as <- <- <-].
    case_match; [by injection Hrun as <- <- <-|].
    apply ebind_Ret in Hrun as ([[smsg w1] ev1] & _ & Hrun). apply ebind_Ret in Hrun as ([[w2 rv] ev2] & _ & Hrun).
    case_match; by injection Hrun as <- <- <-.
  - unfold on_send in Hrun. apply ebind_Ret in Hrun as ([s1 evs] & Hr & Hrun).
    assert (Hs1 : subs s1 = subs s).
    { unfold run_rules in Hr. destruct (_ && _); [|by injection Hr as <- <-].
      by apply ebind_Ret in Hr as ([[? ?] ?] & _ & [= <- <-]). }
    enough (Hs' : s' = s1) by (by rewrite Hs', Hs1). destruct (existsb _ _); [by injection Hrun|].
    apply ebind_Ret in Hrun as ([w1 hook] & _ & Hrun). destruct (_ =? 0); by injection Hrun.
  - by injection Hrun as <- <- <-.
  - unfold on_end in Hrun. destruct (w_msg w); [|done]. destruct (w_cparam w); [|done].
    case_decide; [|by injection Hrun as <- <- <-]. case_match; [by injection Hrun as <- <- <-|].
    apply ebind_Ret in Hrun as ([[smsg w1] ev1] & _ & Hrun). apply ebind_Ret in Hrun as ([w2 hook] & _ & Hrun).
    case_match; [|by injection Hrun as <- <- <-].
    apply ebind_Ret in Hrun as ([[s3 w3] ev3] & Hw & [= <- <- <-]).
    apply publish_will_subs in Hw. by eapply same_subs_refines.
  - by injection Hrun as <- <- <-.
Qed.

(** Writing to retained messages leaves the subscriptions. *)
Lemma write_back_subs i w w' ev sh s : subs (write_back i w w' ev sh s) = subs s.
Proof. unfold write_back. by destruct (rewritten w). Qed.

Lemma sys_run_refines y tr y' S :
  refines (subs (sy_world y)) S -> sys_run y tr y' ->
  refines (subs (sy_world y')) (foldl spec_step S (run_ops tr)).
Proof.
  intros HS Hr. revert S HS. induction Hr as [y|y l y1 tr y2 Hst _ IH]; intros S HS; [done|].
  rewrite run_ops_cons, foldl_app. apply IH. destruct Hst as [s items sh i w k e s' w' ev Hi Hk Hcb Hnf].
  cbn [sy_world]. rewrite write_back_subs. by eapply server_cb_refines.
Qed.

(** C2: Over any run of the started broker, whatever arrives and in whatever
    order the work items are called, the topic tree is exactly the set of
    (filter, client) pairs that the packets received so far ask for, in the
    order of the calls that received them, and the client table agrees with
    it. *)
Theorem broker_tree_is_subscriptions evs s S tr y :
  refines (subs s) S -> sys_run (started_system evs s) tr y ->
  refines (subs (sy_world y)) (foldl spec_step S (run_ops tr)).
Proof. intros HS Hr. by apply (sys_run_refines (started_system evs s)). Qed.

(** *** Delivery *)

Lemma other_items_keep y tr y' i :
  sys_run y tr y' -> Forall (fun l => lb_item l <> i) tr -> sy_items y' !! i = sy_items y !! i.
Proof.
  intros Hr. induction Hr as [|y l y1 tr y2 Hst _ IH]; intros Htr; [done|].
  apply Forall_cons in Htr as [Hl' Htr]. rewrite IH by done. destruct Hst. cbn [sy_items lb_item] in *.
  by rewrite list_lookup_insert_ne.
Qed.

Context {Hcl : NngConnLaws msg cparam property}.
Context {utf8_ok : bytes -> Prop} {prop_ok : option property -> Prop}.
Context {Hlaws : NngParserLaws msg property utf8_ok} {Hpl : NngPropLaws msg property prop_ok}.
Context {Hnf : NngMsgNoFail msg} {Hfind : NngDbFind db hash}.

(** The clients the tree gives a message on [t], by the subscriptions. *)
Lemma receivers_subscribed (d : db) (h : hash) S t p :
  refines (d, h) S ->
  ((exists f, (f, p) ∈ S /\ shared f = false /\ matches f t = true) -> p ∈ receivers d t) /\
  (p ∈ receivers d t -> exists f, (f, p) ∈ S /\ matches f t = true).
Proof.
  intros [_ HS]. cbn [fst] in HS. unfold receivers. rewrite elem_of_app, find_clients_spec. split.
  - intros (f & Hf & Hs & Hm). left. exists f. by rewrite HS.
  - intros [(f & Hf & _ & Hm)|(f & Hf & _ & Hm)%find_shared_spec]; exists f; by rewrite <- HS.
Qed.

(** C1: In the running broker, when a well-formed PUBLISH arrives at a work
    item after any run, with memory for its packet and payload, the next call of
    that item forwards it, whatever the other items do in between, if the aio
    completes with success and the bridges that take the topic have their
    sockets: to every client that, by the packets received before, is subscribed
    to a filter (not a shared one) that covers the topic, and to no client without
    such a subscription (or shared one); each is sent the same message, which has
    the topic, QoS, flags, packet id, properties and payload that were published.
    In bridge mode each enabled bridge is sent it too, once for each of its
    filters that covers the topic, but for those whose turn finds the bridge's aio
    busy, which lose it. *)
Theorem broker_delivers_to_subscribers evs s S tr y i w e m fh t id props plen enc data :
  refines (subs s) S -> sys_run (started_system evs s) tr y ->
  sy_items y !! i = Some (w, 1) ->
  arriving (utf8_ok := utf8_ok) (prop_ok := prop_ok) e (sy_world y) w m fh t id props plen enc data ->
  let now := foldl spec_step S (run_ops tr) in
  let ver := conn_param_get_protover (nng_msg_get_conn_param m) in
  exists w1 ev1 y1, sys_step y (Label i e w w1 ev1) y1 /\ sends ev1 = [] /\
    forall tr2 y2 e2, sys_run y1 tr2 y2 -> Forall (fun l => lb_item l <> i) tr2 -> e_aio_result e2 = 0 ->
    Forall (fun n => e_bridge_sock e2 n = true) (takers config topic_filter t) ->
    exists w2 ev2 y3 m2, sys_step y2 (Label i e2 w1 w2 ev2) y3 /\
      (forall f p, (f, p) ∈ now -> shared f = false -> matches f t = true -> p <> 0 -> (m2, p) ∈ sends ev2) /\
      (forall m3 p, (m3, p) ∈ sends ev2 -> m3 = m2 /\ exists f, (f, p) ∈ now /\ matches f t = true) /\
      carries m2 ver fh t (fixed_id fh id) props data /\
      bridge_sends ev2 = not_busy (e_bridge_busy e2) 0 (bridged ver props fh t data) (takers config topic_filter t).
Proof.
  intros HS Hrun Hi Ha now ver. pose proof (sys_run_refines (started_system evs s) _ _ _ HS Hrun) as Hnow. fold now in Hnow.
  destruct (publish_received config topic_filter base64_encode NNG_ECONNSHUT clears rule_on rule_engine
              _ _ _ _ _ _ _ _ _ _ _ Ha) as (s1 & w1 & refs & H1 & Hf & _ & _ & Hv & _). fold ver in Hv.
  destruct y as [sw items sh]. cbn [sy_world sy_items] in *.
  do 3 eexists. split; [by eapply sys_cb; [exact Hi|lia|exact H1|]|]. split; [done|].
  intros tr2 y2 e2 Hrun2 Htr2 Hr2 Hsock.
  pose proof (other_items_keep _ _ _ _ Hrun2 Htr2) as Hi2. cbn [sy_items] in Hi2.
  rewrite list_lookup_insert_eq in Hi2 by (by eapply lookup_lt_Some). destruct y2 as [s2 items2 sh2].
  destruct (publish_forwarded config topic_filter base64_encode NNG_ECONNSHUT clears rule_on rule_engine
              e2 s2 w1 _ _ _ _ _ _ _ Hr2 Hf Hsock) as (m2 & w2 & ev2 & H2 & Hnf2 & Hs & Hc & _ & _ & Hbs).
  rewrite Hv in Hc, Hbs.
  do 3 eexists. exists m2. split; [by eapply sys_cb; [exact Hi2| |exact H2|done]|].
  rewrite Hs. split_and!; [| |exact Hc|exact Hbs].
  - intros f p Hin Hsh Hm Hp. apply list_elem_of_fmap. exists p. split; [done|]. apply list_elem_of_filter. split; [done|].
    apply (receivers_subscribed _ _ _ _ _ Hnow). by exists f.
  - intros m3 p Hin. apply list_elem_of_fmap in Hin as (q & [= -> ->] & Hq).
    pose proof Hq as [_ Hrec]%list_elem_of_filter. split; [done|]. by apply (receivers_subscribed _ _ _ _ _ Hnow).
Qed.
End System.

(** ** Witnesses *)

#[export] Instance r_find : NngDbFind (gset (bytes * Z)) rhash.
Proof.
  refine {| matches f t := bool_decide (f = t); shared _ := false |}; cbn.
  - intros d t p. trans (p ∈ snd <$> filter (fun q : bytes * Z => q.1 = t) (elements d)).
    { by destruct (snd <$> _). }
    rewrite list_elem_of_fmap. split.
    + intros ([t' p'] & -> & [Ht Hin]%list_elem_of_filter). exists t'. cbn in *.
      rewrite bool_decide_eq_true. by apply elem_of_elements in Hin.
    + intros (f & Hin & _ & ->%bool_decide_eq_true_1). exists (t, p). split; [done|].
      by apply list_elem_of_filter; rewrite elem_of_elements.
  - intros d t p []%elem_of_nil.
Defined.

(** Client 3 subscribes to "a" at the first of two work items and publishes to
    "a" at the second. *)
Definition sys_sub : rmsg := RMsg [130; 6] (NNI_PUT16 10 ++ enc_topics [([97], 1)]) 2 6 CMD_SUBSCRIBE 0.

Definition sys_world : world (gset (bytes * Z)) rhash (gmap bytes (dbtree_retain_msg rmsg)) unit :=
  World ∅ (RHash ∅ ∅) ∅ g_msg tt.

Definition sys_evs : list start_ev := [SServe PROTO_MQTT_BROKER; SServe PROTO_MQTT_BROKER].

Abbreviation demo_exec := (sys_exec demo_conf same_topic id 31 false no_rules no_engine).

Definition sys_calls : list (nat * cb_env) :=
  [(0%nat, demo_env None); (1%nat, demo_env None); (0%nat, demo_env (Some sys_sub))].

Lemma sys_refines : refines (subs sys_world) ∅.
Proof. split; [intros p t; cbn; set_solver|intros t p; cbn; set_solver]. Qed.

Abbreviation sys_first := (demo_exec (started_system sys_evs sys_world) sys_calls).

Lemma broker_tree_is_subscriptions_witness :
  exists tr y, sys_run demo_conf same_topic id 31 false no_rules no_engine
      (started_system sys_evs sys_world) tr y /\
    subscribed (wd_db (sy_world y)) [97] 3 /\ ~ subscribed (wd_db (sy_world y)) [97] 4.
Proof.
  destruct sys_first as [[tr y]|] eqn:E; [|vm_compute in E; discriminate E].
  pose proof (sys_exec_run _ _ _ _ _ _ _ _ _ _ _ E) as Hr. exists tr, y. split; [exact Hr|].
  destruct (broker_tree_is_subscriptions _ _ _ _ _ _ _ _ _ _ _ _ sys_refines Hr) as [_ HS].
  assert (Hops : (run_ops 31 ∘ fst) <$> sys_first =
    Some [OpSubscribe 3 (PacketSubscribe 10 None 0 [sub_node ([97], 1)])]) by (vm_compute; reflexivity).
  rewrite E in Hops. injection Hops as Hops. rewrite Hops in HS. cbn [fst subs] in HS.
  rewrite !HS. split; [vm_compute; reflexivity|]. intros H. vm_compute in H. discriminate H.
Defined.

(** The second item receives a retained PUBLISH: it has the message, and the
    tree has it too. *)
Abbreviation sys_kept := (demo_exec (started_system sys_evs sys_world)
  [(0%nat, demo_env None); (1%nat, demo_env None); (1%nat, demo_env (Some demo_retained))]).

Lemma broker_run_balanced_witness :
  exists tr y, sys_run demo_conf same_topic id 31 false no_rules no_engine
      (started_system sys_evs sys_world) tr y /\
    length tr = 3%nat /\ Forall item_ok (sy_items y) /\ total ref_change (run_effs tr) = 1 + 1.
Proof.
  destruct sys_kept as [[tr y]|] eqn:E; [|vm_compute in E; discriminate E].
  pose proof (sys_exec_run _ _ _ _ _ _ _ _ _ _ _ E) as Hr. exists tr, y. split; [exact Hr|].
  assert (Hl : (fun r => (length r.1, held_by (sy_items r.2), length (filter leaking r.1), wd_ret (sy_world r.2))) <$> sys_kept =
    Some (3%nat, 1, 0%nat, {[ [97] := RetainMsg 1 true (Some demo_retained) ]})) by (vm_compute; reflexivity).
  rewrite E in Hl. cbn [fmap option_fmap option_map fst snd] in Hl. injection Hl as Hl Hh Hlk Hret.
  destruct (broker_run_balanced _ _ _ _ _ _ _ _ _ _ _ (∅ : gmap bytes (dbtree_retain_msg rmsg)) Hr) as (Hok & M & HM & He); [intros t; reflexivity|].
  split; [exact Hl|]. split; [exact Hok|]. rewrite He, Hh, Hlk.
  assert (HM0 : M = {[ [97] := RetainMsg 1 true (Some demo_retained) ]}) by (apply map_eq; intros t; rewrite <- HM, Hret; reflexivity).
  rewrite HM0. vm_compute. reflexivity.
Defined.

(** Between the two calls of the second item the first one finishes its
    SUBACK. *)
Lemma broker_delivers_to_subscribers_witness :
  exists tr y, sys_run demo_conf same_topic id 31 false no_rules no_engine
      (started_system sys_evs sys_world) tr y /\
  exists w1 ev1 y1, sys_step demo_conf same_topic id 31 false no_rules no_engine y
      (Label 1 (demo_env (Some demo_pub)) recv_work w1 ev1) y1 /\
  forall tr2 y2, sys_run demo_conf same_topic id 31 false no_rules no_engine y1 tr2 y2 ->
    Forall (fun l => lb_item l <> 1%nat) tr2 ->
  exists w2 ev2 y3 m2, sys_step demo_conf same_topic id 31 false no_rules no_engine y2
      (Label 1 (demo_env None) w1 w2 ev2) y3 /\ (m2, 3) ∈ sends ev2 /\
      carries m2 4 demo_fh [97] 10 None [104; 105].
Proof.
  destruct sys_first as [[tr y]|] eqn:E; [|vm_compute in E; discriminate E].
  pose proof (sys_exec_run _ _ _ _ _ _ _ _ _ _ _ E) as Hr. exists tr, y. split; [exact Hr|].
  assert (Hops : (run_ops 31 ∘ fst) <$> sys_first =
    Some [OpSubscribe 3 (PacketSubscribe 10 None 0 [sub_node ([97], 1)])]) by (vm_compute; reflexivity).
  assert (Hi : (r ← sys_first; sy_items r.2 !! 1%nat) = Some (recv_work, 1)) by (vm_compute; reflexivity).
  assert (Hst : (wd_stats ∘ sy_world ∘ snd) <$> sys_first = Some g_msg) by (vm_compute; reflexivity).
  assert (Hfc : (fun r => dbtree_find_clients (wd_db (sy_world r.2)) [97]) <$> sys_first = Some (Some [3]))
    by (vm_compute; reflexivity).
  rewrite E in Hops, Hi, Hst, Hfc. cbn in Hi, Hst, Hfc. injection Hops as Hops.
  injection Hst as Hst. injection Hfc as Hfc.
  destruct (broker_delivers_to_subscribers (utf8_ok := ascii_ok) (prop_ok := alias_only) demo_conf same_topic id 31
    false no_rules no_engine sys_evs sys_world ∅ tr y 1%nat recv_work (demo_env (Some demo_pub)) demo_pub
    demo_fh [97] 10 None 0 [] [104; 105] sys_refines Hr Hi) as (w1 & ev1 & y1 & H1 & _ & Hlater).
  { constructor; try (split; reflexivity); try reflexivity.
    - apply demo_pub_wf; left; split; reflexivity.
    - left; reflexivity.
    - rewrite Hst. vm_compute. split; [discriminate|reflexivity].
    - cbn in Hfc |- *. rewrite Hfc. reflexivity. }
  exists w1, ev1, y1. split; [exact H1|]. intros tr2 y2 Hr2 Htr2.
  destruct (Hlater tr2 y2 (demo_env None) Hr2 Htr2 eq_refl) as (w2 & ev2 & y3 & m2 & H3 & Hto & _ & Hc & _); [constructor|].
  exists w2, ev2, y3, m2. split; [exact H3|]. split; [|exact Hc]. rewrite Hops in Hto.
  apply (Hto [97] 3); [vm_compute; reflexivity|reflexivity|reflexivity|discriminate].
Defined.
