(* ===== verification/Retained.v ===== *)
(** * Retained messages from their PUBLISH to later subscribers

    The retained tree of the running broker: what a call does to the entry of a
    topic, the message it shares with a work item, and the way of a retained
    PUBLISH to the clients that subscribe afterwards. *)

From Stdlib Require Import ZArith Lia.
From stdpp Require Import base numbers list gmap option strings sets.
From S2P Require Import Prelude Mqtt Nng NngModel SubHandler UnsubHandler PubHandler RuleEngine MqttApi Bridge Webhook Conf Broker Shared Entries BrokerStart System.

Local Open Scope Z_scope.
Local Open Scope nano_scope.

(** Finding retained messages by a filter. *)
Class NngRetainFind (db hash db_ret M : Type) `{NngDbFind db hash} `{NngRetainLaws db_ret M} := {
  find_retain_complete : forall (d : db_ret) f t r,
    shared f = false -> matches f t = true -> retained d t = Some r -> Some r ∈ default [] (dbtree_find_retain d f);
  find_retain_sound : forall (d : db_ret) f r, Some r ∈ default [] (dbtree_find_retain d f) ->
    exists t, retained d t = Some r /\ matches f t = true
}.

Section Entry.
Context {msg property cparam db hash db_ret rules : Type}.
Context `{Hmsg : NngMsg msg} `{Hpar : NngParser msg property} `{Hmp : NngMsgProp msg property}.
Context `{Hdb : NngDb db hash} `{Hret : NngRetain db_ret (dbtree_retain_msg msg)}.
Context `{Hcn : NngConn msg cparam property} {Hrl : NngRetainLaws db_ret (dbtree_retain_msg msg)}.
Variable config : conf.
Variable topic_filter : bytes -> option bytes -> bool.
Variable base64_encode : bytes -> bytes.
Variable NNG_ECONNSHUT : Z.
Variable clears : bool.
Variable rule_on : rules -> bool.
Variable rule_engine : option rule_input -> rules -> exec (list rule_ev * rules * option Z).

Abbreviation wk := (work msg property cparam).
Abbreviation wd := (world db hash db_ret rules).
Abbreviation env := (cb_env (msg := msg)).
Abbreviation cb := (server_cb config topic_filter base64_encode NNG_ECONNSHUT clears rule_on rule_engine).

Implicit Types (w : wk) (s : wd) (e : env) (m : msg).

(** The item that holds a retained message: in state WAIT it may write the
    message anew and go on with it. *)
Lemma wait_call e s w m s' w' ev :
  w_state w = WAIT -> w_msg w = Some m -> cb e s w = Ret (s', w', ev) ->
  forallb (fun x => negb (is_fatal x)) ev = true ->
  (rewritten w = None /\ keeps_msg w w' = false) \/
  exists m' w1 ev1, forward_publish w m = Ret (m', w1, ev1) /\ rewritten w = Some m' /\
    (keeps_msg w w' = true -> w_state w' = SEND /\ w_msg w' = Some m' /\ w_pub_packet w' = w_pub_packet w1).
Proof.
  intros Hst Hm Hrun Hf. unfold server_cb in Hrun. rewrite Hst in Hrun. unfold on_wait in Hrun.
  unfold rewritten, keeps_msg. rewrite Hst, Hm in *. case_decide as Hty; [|left; by injection Hrun as <- <- <-].
  destruct (e_aio_result e =? 0); cbn [negb] in Hrun; [|by injection Hrun as <- <- <-].
  apply ebind_Ret in Hrun as ([[smsg w1] ev1] & Hfw & Hrun). right. rewrite Hfw.
  exists smsg, w1, ev1. split; [done|]. split; [done|].
  apply ebind_Ret in Hrun as ([[w2 rv] ev2] & Hb & Hrun).
  assert (Hw2 : w_msg w2 = Some smsg /\ w_pub_packet w2 = w_pub_packet w1).
  { destruct (cf_bridge_mode config); [|by injection Hb as <- <- <-].
    apply bridge_handler_frame in Hb as [_ ->]. by destruct rv. }
  destruct Hw2 as [Hw2 Hp2]. case_match; injection Hrun as <- <- <-; [|done]. by intros _.
Qed.
End Entry.

(** ** What filters find *)

Section Find.
Context {msg property cparam db hash db_ret : Type}.
Context `{Hmsg : NngMsg msg} `{Hpar : NngParser msg property} `{Hcn : NngConn msg cparam property}.
Context `{Hdb : NngDb db hash} `{Hret : NngRetain db_ret (dbtree_retain_msg msg)}.
Context {Hrl : NngRetainLaws db_ret (dbtree_retain_msg msg)} {Hl : NngDbLaws db hash}.
Context {Hfind : NngDbFind db hash} {Hrf : NngRetainFind db hash db_ret (dbtree_retain_msg msg)}.
Implicit Types m : msg.

(** No retained message has expired. *)
Definition unexpired (now : Z) (rets : db_ret) : Prop :=
  forall t r, retained rets t = Some r ->
    exists m, rt_message r = Some m /\ check_msg_exp now m (nng_msg_get_proto_data m) = true.

Lemma node_topics_sub_node (ts : list (bytes * Z)) : node_topics (sub_node <$> ts) = ts.*1.
Proof. induction ts as [|t ts IH]; [done|]. cbn. by f_equal. Qed.

Lemma found_unexpired now (rets : db_ret) fs :
  unexpired now rets -> exists ms, mjoin (found rets <$> fs) = Some <$> ms /\
    Forall (fun m => check_msg_exp now m (nng_msg_get_proto_data m) = true) ms /\
    forall m, m ∈ ms <-> exists f r, f ∈ fs /\ Some r ∈ default [] (dbtree_find_retain rets f) /\ rt_message r = Some m.
Proof.
  intros Hu. assert (Hone : forall l : list (option (dbtree_retain_msg msg)),
    (forall r, Some r ∈ l -> exists t, retained rets t = Some r) ->
    exists ms, rt_message <$> omap id l = Some <$> ms /\
      Forall (fun m => check_msg_exp now m (nng_msg_get_proto_data m) = true) ms /\
      forall m, m ∈ ms <-> exists r, Some r ∈ l /\ rt_message r = Some m).
  { induction l as [|[r|] l IH]; intros Hl'.
    - exists []. split_and!; [done|done|]. intros m. split; [by intros []%elem_of_nil|].
      by intros (r & []%elem_of_nil & _).
    - destruct IH as (ms & He & Hf & Hin); [intros r' Hr'; apply Hl'; by right|].
      destruct (Hl' r) as [t Ht]; [by left|]. destruct (Hu _ _ Ht) as (m & Hm & Hc).
      exists (m :: ms). split_and!; [cbn; by rewrite Hm, He|by constructor|].
      intros m0. rewrite elem_of_cons, Hin. setoid_rewrite elem_of_cons. naive_solver.
    - destruct IH as (ms & He & Hf & Hin); [intros r' Hr'; apply Hl'; by right|].
      exists ms. split_and!; [done|done|]. intros m0. rewrite Hin. setoid_rewrite elem_of_cons. naive_solver. }
  induction fs as [|f fs (ms & He & Hf & Hin)].
  { exists []. split_and!; [done|done|]. intros m. split; [by intros []%elem_of_nil|].
    by intros (f & r & []%elem_of_nil & _). }
  destruct (Hone (default [] (dbtree_find_retain rets f))) as (ms1 & He1 & Hf1 & Hin1).
  { intros r Hr. apply find_retain_sound in Hr as (t & Ht & _). by exists t. }
  exists (ms1 ++ ms). split_and!.
  - change (mjoin (found rets <$> f :: fs)) with (found rets f ++ mjoin (found rets <$> fs)).
    rewrite He, fmap_app. by f_equal.
  - by apply Forall_app.
  - intros m. rewrite elem_of_app, Hin1, Hin. setoid_rewrite elem_of_cons. naive_solver.
Qed.

End Find.

(** ** The message of a topic over a run *)

Section Retained.
Context {msg property cparam db hash db_ret rules : Type}.
Context `{Hmsg : NngMsg msg} `{Hpar : NngParser msg property} `{Hmp : NngMsgProp msg property}.
Context `{Hdb : NngDb db hash} `{Hret : NngRetain db_ret (dbtree_retain_msg msg)}.
Context `{Hcn : NngConn msg cparam property} {Hrl : NngRetainLaws db_ret (dbtree_retain_msg msg)} {Haio : NngAio}.
Context {Hcl : NngConnLaws msg cparam property} {Hml : NngMsgLaws msg} {Hnf : NngMsgNoFail msg}.
Context {utf8_ok : bytes -> Prop} {prop_ok : option property -> Prop}.
Context {Hlaws : NngParserLaws msg property utf8_ok} {Hpl : NngPropLaws msg property prop_ok}.
Variable config : conf.
Variable topic_filter : bytes -> option bytes -> bool.
Variable base64_encode : bytes -> bytes.
Variable NNG_ECONNSHUT : Z.
Variable clears : bool.
Variable rule_on : rules -> bool.
Variable rule_engine : option rule_input -> rules -> exec (list rule_ev * rules * option Z).

Abbreviation wk := (work msg property cparam).
Abbreviation wd := (world db hash db_ret rules).
Abbreviation env := (cb_env (msg := msg)).
Abbreviation cb := (server_cb config topic_filter base64_encode NNG_ECONNSHUT clears rule_on rule_engine).
Abbreviation step := (sys_step config topic_filter base64_encode NNG_ECONNSHUT clears rule_on rule_engine).
Abbreviation run := (sys_run config topic_filter base64_encode NNG_ECONNSHUT clears rule_on rule_engine).
Abbreviation sys := (system (msg := msg) (property := property) (cparam := cparam)
                       (db := db) (hash := hash) (db_ret := db_ret) (rules := rules)).

Implicit Types (w : wk) (s : wd) (e : env) (m : msg) (y : sys).

(** The retained message of [t] is the PUBLISH with these parts; the item that
    shares it, if any, has it as it arrived or has written it anew. *)
Definition kept t ver fh id props data y : Prop :=
  exists m, retained (wd_ret (sy_world y)) t = Some (RetainMsg (fh_qos fh) true (Some m)) /\
    carries m ver fh t id props data /\
  forall i, sy_shared y !! t = Some i ->
    exists w k, sy_items y !! i = Some (w, k) /\ w_msg w = Some m /\
      (w_state w = SEND \/
       w_state w = WAIT /\ w_proto_ver w = ver /\ nng_msg_cmd_type m = publish_tag ver /\
       exists plen, w_pub_packet w = Some (publish_packet fh t id props plen data)).

Lemma step_kept t ver fh id props data y l y' :
  sendable (utf8_ok := utf8_ok) (prop_ok := prop_ok) ver fh t id props ->
  kept t ver fh id props data y -> step y l y' -> untouched t (lb_after l) (lb_effs l) -> kept t ver fh id props data y'.
Proof using Hml Hnf Hlaws Hpl.
  intros Hsd (m & Hr & Hc & Hsh) Hst Hu. destruct Hst as [s items sh i w k e s' w' ev Hi Hk Hcb Hnof].
  cbn [sy_world sy_items sy_shared lb_after lb_effs] in *.
  pose proof (server_cb_keeps _ _ _ _ _ _ _ _ _ _ _ _ _ t Hcb Hu) as Hr1. rewrite Hr in Hr1.
  assert (Hwb : retained (wd_ret (write_back i w w' ev sh s')) t =
    Some (RetainMsg (fh_qos fh) true (Some (if decide (sh !! t = Some i) then default m (rewritten w) else m)))).
  { unfold write_back. destruct (rewritten w) as [m'|]; [|by case_decide; rewrite Hr1].
    cbn [wd_ret]. rewrite write_shared_spec, forget_untouched, Hr1 by done. by case_decide. }
  unfold kept. cbn [sy_world sy_items sy_shared]. setoid_rewrite share_after_untouched; [|exact Hu].
  rewrite Hwb. case_decide as Hs; cycle 1.
  { exists m. split; [done|]. split; [done|]. intros j Hj. rewrite decide_False in Hj by naive_solver.
    rewrite list_lookup_insert_ne by naive_solver. by apply Hsh. }
  destruct (Hsh _ Hs) as (w0 & k0 & Hi0 & Hm0 & Hst0). rewrite Hi in Hi0. injection Hi0 as <- <-.
  destruct Hst0 as [Hst0|(Hst0 & Hv & Htag & plen & Hp0)].
  - unfold rewritten, keeps_msg. rewrite Hst0. cbn [default]. exists m. split; [done|]. split; [done|].
    intros j Hj. by rewrite decide_True in Hj.
  - destruct (wait_call _ _ _ _ _ _ _ _ _ _ _ _ _ _ Hst0 Hm0 Hcb Hnof) as [[Hre Hkp]|(m' & w1 & ev1 & Hf & Hre & Hkp)].
    + rewrite Hre. exists m. split; [done|]. split; [done|]. intros j Hj. by rewrite decide_True in Hj.
    + rewrite Hre. cbn [default].
      destruct (forward_publish_run (utf8_ok := utf8_ok) (prop_ok := prop_ok) w m fh t id props plen data)
        as (m2 & w2 & fh' & Hf2 & Hc2 & _); [done|by rewrite Hv..|]. rewrite Hv in Hc2. rewrite Hf in Hf2. injection Hf2 as <- _ _.
      exists m'. split; [done|]. split; [done|]. intros j Hj. case_decide as Hd; [done|].
      rewrite Hs in Hj. injection Hj as <-.
      destruct Hkp as (Hst' & Hm' & _); [by destruct (keeps_msg w w'); naive_solver|].
      rewrite list_lookup_insert_eq by (by eapply lookup_lt_Some). do 2 eexists. split; [done|]. split; [done|by left].
Qed.

Lemma run_kept t ver fh id props data y tr y' :
  sendable (utf8_ok := utf8_ok) (prop_ok := prop_ok) ver fh t id props ->
  kept t ver fh id props data y -> run y tr y' -> Forall (fun l => untouched t (lb_after l) (lb_effs l)) tr ->
  kept t ver fh id props data y'.
Proof using Hml Hnf Hlaws Hpl.
  intros Hsd Hk Hr. induction Hr as [|y l y1 tr y2 Hst _ IH]; intros Htr; [done|].
  apply Forall_cons in Htr as [Hl Htr]. apply IH; [|done]. by eapply step_kept.
Qed.

(** A retained PUBLISH is kept, and shared with the item that received it. *)
Lemma publish_kept y i w e m fh t id props plen enc data :
  sy_items y !! i = Some (w, 1) -> arriving (utf8_ok := utf8_ok) (prop_ok := prop_ok) e (sy_world y) w m fh t id props plen enc data ->
  pa_retain (e_allocs e) = true -> fh_retain fh <> 0 -> data <> [] ->
  let ver := conn_param_get_protover (nng_msg_get_conn_param m) in
  exists w1 ev1 y1, step y (Label i e w w1 ev1) y1 /\ sends ev1 = [] /\
    sendable (utf8_ok := utf8_ok) (prop_ok := prop_ok) ver fh t (fixed_id fh id) props /\
    kept t ver fh (fixed_id fh id) props data y1.
Proof using Hml Hnf Hlaws Hpl Hcl.
  intros Hi Ha Hal Hfr Hd ver. destruct y as [s items sh]. cbn [sy_items sy_world] in *.
  destruct (publish_received config topic_filter base64_encode NNG_ECONNSHUT clears rule_on rule_engine
              _ _ _ _ _ _ _ _ _ _ _ Ha) as (s1 & w1 & refs & H1 & Hf & _ & _ & Hv & m1 & Hm1 & Hre).
  do 3 eexists. split; [by eapply sys_cb; [exact Hi|lia|exact H1|]|]. split; [done|].
  pose proof (handle_pub_retain_spec _ _ _ _ _ _ _ _ _ Hre) as (_ & Hnew & _).
  destruct Ha as [[Hst _] _ _ _ W Hpo _ _ _].
  destruct Hf as [[Hst1 _] (m1' & Hm1' & _ & Htag & Hcar) _ Hpkt _ Hsd]. rewrite Hm1 in Hm1'. injection Hm1' as <-.
  fold ver in Hv, Hre, Hnew. rewrite Hv in Hsd, Htag, Hcar. split; [done|].
  assert (Hlen : 0 < Zlen data) by (destruct data; [done|zlen; pose proof (Zlen_nonneg data); lia]).
  cbn [publish_packet pp_fixed_header pp_payload payload_of pl_len] in Hnew.
  rewrite (proj2 (Z.eqb_neq _ _) Hfr), Hal, orb_true_r, (proj2 (Z.ltb_lt _ _) Hlen) in Hnew. cbn [negb andb] in Hnew.
  assert (Hch : retain_change w1 [EMsgRecv m; ERetain refs; EAioFinish] = Some (t, true)).
  { assert (Hpt : packet_topic w1 = Some t).
    { unfold packet_topic. rewrite Hpkt. cbn. rewrite cstr_id; [done|]. apply utf8_ok_no_nul. by destruct W. }
    unfold retain_change. rewrite Hpt. unfold handle_pub_retain in Hre.
    cbn [publish_packet pp_fixed_header pp_payload payload_of pl_len] in Hre.
    rewrite (proj2 (Z.eqb_neq _ _) Hfr), Hal, (proj2 (Z.ltb_lt _ _) Hlen) in Hre.
    destruct (dbtree_insert_retain _ _ _) as [old dr1]. injection Hre as _ _ <-. done. }
  exists m1. cbn [sy_world sy_items sy_shared].
  assert (Hrw : rewritten w = None) by (unfold rewritten; by rewrite Hst).
  split; [unfold write_back; by rewrite Hrw|]. split; [done|].
  unfold share_after. rewrite Hch. intros j. rewrite lookup_insert_eq. intros [= <-].
  rewrite list_lookup_insert_eq by (by eapply lookup_lt_Some).
  do 2 eexists. split; [done|]. split; [done|]. right. split_and!; [done..|by exists plen].
Qed.

(** *** A subscriber *)

Context {Hl : NngDbLaws db hash} {Hfind : NngDbFind db hash} {Hrf : NngRetainFind db hash db_ret (dbtree_retain_msg msg)}.

(** A well-formed SUBSCRIBE to the filters [ts] arrives at a work item of the
    broker; all memory is there.  Retain handling 0 asks for the retained
    messages (always so in MQTT 3.1.1). *)
Record subscribing e w m id props vpos plen rest (ts : list (bytes * Z)) : Prop := Subscribing {
  sg_state : w_state w = RECV /\ w_proto w = PROTO_MQTT_BROKER;
  sg_aio : e_aio_result e = 0 /\ e_aio_msg e = Some m;
  sg_type : nng_msg_cmd_type m = CMD_SUBSCRIBE;
  sg_allocs : e_pkt_alloc e = true /\ forall i, e_node_alloc e i = true;
  sg_id : 0 < id < 65536;
  sg_body : nng_msg_body m = NNI_PUT16 id ++ rest;
  sg_header : var_header_ok m (conn_param_get_protover (nng_msg_get_conn_param m)) props vpos plen;
  sg_payload : nng_msg_payload m = enc_topics ts;
  sg_topics : ts <> [] /\ Forall (sub_topic_ok utf8_ok (conn_param_get_protover (nng_msg_get_conn_param m))) ts;
  sg_retain : Forall (fun t => tn_retain_handling (sub_node t) = 0) ts;
  sg_remaining : nng_msg_remaining_len m = vpos + Zlen (enc_topics ts) /\ 0 <= vpos /\ nng_msg_remaining_len m < 2 ^ 32
}.

Lemma retained_sends pid (ms : list msg) :
  let ev := mjoin ((fun m => [EMsgClone m; ECtxSend false m pid]) <$> ms) in
  forallb (fun x => negb (is_fatal x)) ev = true /\ sends ev = (fun m => (m, pid)) <$> ms.
Proof.
  induction ms as [|m ms [IH1 IH2]]; [done|]. split; [exact IH1|].
  change (sends _) with ((m, pid) :: sends (mjoin ((fun m => [EMsgClone m; ECtxSend false m pid]) <$> ms))).
  by rewrite IH2.
Qed.

(** Its call: the retained messages its filters find, then the SUBACK. *)
Lemma subscribe_call e s w m id props vpos plen rest ts :
  subscribing e w m id props vpos plen rest ts -> w_code w = SUCCESS -> unexpired (e_clock e) (wd_ret s) ->
  exists s' w' smsg ms ev, cb e s w = Ret (s', w', ev) /\ forallb (fun x => negb (is_fatal x)) ev = true /\
    sends ev = ((fun m0 => (m0, nng_msg_get_pipe m)) <$> ms) ++ [(smsg, nng_msg_get_pipe m)] /\
    nng_msg_cmd_type smsg = CMD_SUBACK /\
    forall m0, m0 ∈ ms <-> exists f r, f ∈ ts.*1 /\ Some r ∈ default [] (dbtree_find_retain (wd_ret s) f) /\ rt_message r = Some m0.
Proof using Hml Hlaws Hrf.
  intros [[Hst Hpr] [Hr Hm] Hc [Ha1 Ha2] Hid Hb Hh Hp [Hne Hts] Hrh (Hrem & Hv & Hrl')] Hcode Hu.
  destruct (found_unexpired _ _ ts.*1 Hu) as (ms & He & Hf & Hin).
  unfold server_cb. rewrite Hst. unfold on_recv. rewrite Hr. cbn [Z.eqb negb]. unfold on_recv_msg. rewrite Hm, Hpr.
  cbn [Z.eqb orb PROTO_MQTT_BROKER PROTO_MQTT_BRIDGE PROTO_HTTP_SERVER PROTO_AWS_BRIDGE].
  unfold after, dispatch. cbn [w_flag]. rewrite Hc. unfold on_subscribe. rewrite Ha1. cbn [negb w_proto_ver w_pid].
  rewrite (decode_sub_spec (e_node_alloc e) m _ props vpos plen id rest ts) by done. cbn [ebind Z.eqb negb].
  unfold sub_ctx_handle. cbn [sp_node sp_packet_id].
  rewrite bool_decide_eq_false_2 by (intros Hn; by apply fmap_nil_inv in Hn).
  rewrite (proj2 (Z.eqb_neq id 0)) by lia.
  destruct (sub_ctx_loop_found clears (nng_msg_get_pipe m) (wd_ret s) (sub_node <$> ts) (wd_db s) (wd_hash s) RNull [])
    as (d' & h' & ->).
  { apply Forall_fmap. eapply Forall_impl; [exact Hrh|]. intros t Ht. by split. }
  cbn [ebind Z.eqb negb app w_code]. rewrite Hcode. cbn [Z.eqb negb SUCCESS].
  destruct (encode_suback_msg m _ _) as [rv smsg] eqn:Es. rewrite node_topics_sub_node, He.
  rewrite send_retained_all by done. cbn [ebind w_pid].
  exists (World d' h' (wd_ret s) (wd_stats s) (wd_rules s)). do 4 eexists. split; [reflexivity|].
  cbn [app w_pid with_msg]. destruct (retained_sends (nng_msg_get_pipe m) ms) as [Hnof Hs]. split_and!; [| | |exact Hin].
  - change (forallb ?g (EMsgRecv m :: ?l)) with (forallb g l). by rewrite forallb_app, Hnof.
  - rewrite <- Hs. change (sends (EMsgRecv m :: ?l)) with (sends l). unfold sends at 1. by rewrite omap_app.
  - apply set_cmd.
Qed.

(** ** Retained messages reach new subscribers *)

Lemma run_code_ok evs s tr y : run (started_system evs s) tr y -> Forall (fun x => code_ok x.1) (sy_items y).
Proof.
  intros Hr. refine (sys_run_invariant _ _ _ _ _ _ _ (fun y => Forall (fun x => code_ok x.1) (sy_items y)) _ _ _ _ _ Hr).
  - intros y1 l y2 Hall Hst. destruct Hst as [s1 items sh i w k e s' w' ev Hi Hk Hcb Hnof]. cbn [sy_items] in *.
    apply Forall_insert; [done|]. eapply server_cb_code; [exact Hcb|]. exact (Forall_lookup_1 _ _ _ _ Hall Hi).
  - apply Forall_forall. intros x Hx. apply list_elem_of_omap in Hx as ([] & _ & [= <-]). by intros _ _.
Qed.

(** C4: A PUBLISH with the retain flag and a payload that arrives after any run
    of the broker, with memory for its packet, its payload and its entry, reaches
    every client that subscribes to a matching filter (not a shared one) later:
    as long as no other call names the topic's entry, whatever the broker does in
    between (the work item may write the shared message anew), the call that
    receives a well-formed SUBSCRIBE whose filters all have retain handling 0,
    with memory for it and while no retained message has expired, sends the
    client the PUBLISH with the same topic, QoS, flags, packet id, properties and
    payload; and everything that call sends goes to this client and is a retained
    message of a topic its filters match, or the SUBACK. *)
Theorem retained_reaches_new_subscriber evs s tr y i w e m fh t id props plen enc data :
  run (started_system evs s) tr y -> sy_items y !! i = Some (w, 1) ->
  arriving (utf8_ok := utf8_ok) (prop_ok := prop_ok) e (sy_world y) w m fh t id props plen enc data ->
  pa_retain (e_allocs e) = true -> fh_retain fh <> 0 -> data <> [] ->
  exists w1 ev1 y1, step y (Label i e w w1 ev1) y1 /\
    forall tr2 y2 j w2 e2 sm sid sprops vpos splen rest ts f opts,
      run y1 tr2 y2 -> Forall (fun l => untouched t (lb_after l) (lb_effs l)) tr2 ->
      sy_items y2 !! j = Some (w2, 1) -> subscribing e2 w2 sm sid sprops vpos splen rest ts ->
      unexpired (e_clock e2) (wd_ret (sy_world y2)) ->
      (f, opts) ∈ ts -> shared f = false -> matches f t = true ->
      exists w3 ev3 y3, step y2 (Label j e2 w2 w3 ev3) y3 /\
        (exists m2, (m2, nng_msg_get_pipe sm) ∈ sends ev3 /\
          carries m2 (conn_param_get_protover (nng_msg_get_conn_param m)) fh t (fixed_id fh id) props data) /\
        forall m2 p, (m2, p) ∈ sends ev3 -> p = nng_msg_get_pipe sm /\
          (nng_msg_cmd_type m2 = CMD_SUBACK \/
           exists f' t' r, f' ∈ ts.*1 /\ matches f' t' = true /\
             retained (wd_ret (sy_world y2)) t' = Some r /\ rt_message r = Some m2).
Proof using Hml Hnf Hlaws Hpl Hcl Hrf.
  intros Hrun Hi Ha Hal Hfr Hd.
  destruct (publish_kept y i w e m fh t id props plen enc data Hi Ha Hal Hfr Hd) as (w1 & ev1 & y1 & Hst & _ & Hsd & Hk).
  exists w1, ev1, y1. split; [done|]. intros tr2 y2 j w2 e2 sm sid sprops vpos splen rest ts f opts Hr2 Htr2 Hj Hsub Hu Hin Hsh Hm.
  destruct (run_kept _ _ _ _ _ _ _ _ _ Hsd Hk Hr2 Htr2) as (mt & Hmt & Hcar & _).
  assert (Hcode : w_code w2 = SUCCESS).
  { pose proof (run_code_ok _ _ _ _ (sys_run_app _ _ _ _ _ _ _ _ _ _ _ _ Hrun (run_cons _ _ _ _ _ _ _ _ _ _ _ _ Hst Hr2))) as Hc.
    pose proof (Forall_lookup_1 _ _ _ _ Hc Hj) as Hc2. destruct (sg_state _ _ _ _ _ _ _ _ _ Hsub) as [Hs2 Hp2].
    apply Hc2; [done|]. cbn. congruence. }
  destruct y2 as [s2 items2 sh2]. cbn [sy_items sy_world] in *.
  destruct (subscribe_call e2 s2 w2 sm _ _ _ _ _ _ Hsub Hcode Hu) as (s3 & w3 & smsg & ms & ev3 & H3 & Hnof & Hs & Hack & Hms).
  do 3 eexists. split; [by eapply sys_cb; [exact Hj|lia|exact H3|]|]. rewrite Hs. split.
  - exists mt. split; [|done]. apply elem_of_app. left. apply list_elem_of_fmap. exists mt. split; [done|].
    apply Hms. eexists f, _. split; [apply list_elem_of_fmap; by exists (f, opts)|].
    split; [by apply (find_retain_complete _ _ _ _ Hsh Hm Hmt)|done].
  - intros m2 p [Hp|Hp]%elem_of_app.
    + apply list_elem_of_fmap in Hp as (m3 & [= -> ->] & Hm3). split; [done|]. right.
      apply Hms in Hm3 as (f' & r & Hf' & Hr' & Hmr). apply find_retain_sound in Hr' as (t' & Ht' & Hm').
      by exists f', t', r.
    + apply list_elem_of_singleton in Hp as [= -> ->]. split; [done|by left].
Qed.
End Retained.

(** ** Witnesses *)

#[export] Instance r_retain_find : NngRetainFind (gset (bytes * Z)) rhash (gmap bytes (dbtree_retain_msg rmsg)) (dbtree_retain_msg rmsg).
Proof.
  constructor; cbn.
  - intros d f t r _ ->%bool_decide_eq_true_1 ->. cbn. by left.
  - intros d f r. destruct (d !! f) as [r'|] eqn:E; cbn; [|by intros []%elem_of_nil].
    intros [= ->]%list_elem_of_singleton. exists f. split; [done|by apply bool_decide_eq_true].
Qed.

(** Client 3 publishes "hi" to "a" with the retain flag at the second of two
    work items. *)
Definition retain_fh : fixed_header := FixedHeader 1 1 0 PUBLISH 7.

Definition retain_calls : list (nat * cb_env) :=
  [(0%nat, demo_env None); (1%nat, demo_env None)].

Abbreviation retain_first := (demo_exec (started_system sys_evs sys_world) retain_calls).
Abbreviation retain_second := (r ← retain_first; demo_exec r.2 [(1%nat, demo_env (Some demo_retained))]).

Lemma sys_sub_subscribing :
  subscribing (utf8_ok := ascii_ok) (demo_env (Some sys_sub)) recv_work sys_sub 10 None 2 0 (enc_topics [([97], 1)]) [([97], 1)].
Proof.
  constructor; try (split; reflexivity); try reflexivity.
  - left. split_and!; [discriminate|reflexivity..].
  - split; [discriminate|]. apply Forall_singleton. split_and!; try (vm_compute; done).
    + apply Forall_singleton. split; reflexivity.
    + intros [H _]. discriminate H.
  - apply Forall_singleton. vm_compute. reflexivity.
  - split; [reflexivity|]. split; [discriminate|reflexivity].
Qed.

Lemma retained_reaches_new_subscriber_witness :
  exists y1 w3 ev3 y3 m2,
    sys_step demo_conf same_topic id 31 false no_rules no_engine y1 (Label 0 (demo_env (Some sys_sub)) recv_work w3 ev3) y3 /\
    (m2, 3) ∈ sends ev3 /\ carries m2 4 retain_fh [97] 10 None [104; 105].
Proof.
  destruct retain_first as [[tr y]|] eqn:E; [|vm_compute in E; discriminate E].
  pose proof (sys_exec_run _ _ _ _ _ _ _ _ _ _ _ E) as Hr.
  assert (Hi : (fun r => (sy_items r.2 !! 0%nat, sy_items r.2 !! 1%nat, wd_stats (sy_world r.2), wd_db (sy_world r.2))) <$> retain_first =
    Some (Some (recv_work, 1), Some (recv_work, 1), g_msg, ∅)) by (vm_compute; reflexivity).
  assert (Hret : (wd_ret ∘ sy_world ∘ snd) <$> retain_second =
    Some {[ [97] := RetainMsg 1 true (Some demo_retained) ]}) by (vm_compute; reflexivity).
  rewrite E in Hi. cbn in Hi. injection Hi as Hi0 Hi1 Hg Hdb.
  destruct (retained_reaches_new_subscriber (utf8_ok := ascii_ok) (prop_ok := alias_only) demo_conf same_topic id 31
    false no_rules no_engine sys_evs sys_world tr y 1%nat recv_work (demo_env (Some demo_retained)) demo_retained
    retain_fh [97] 10 None 0 [] [104; 105] Hr Hi1) as (w1 & ev1 & y1 & H1 & Hlater); [|reflexivity|discriminate|discriminate|].
  { constructor; try (split; reflexivity); try reflexivity.
    - apply demo_pub_wf; right; split; reflexivity.
    - left; reflexivity.
    - rewrite Hg. vm_compute. split; [discriminate|reflexivity].
    - cbn. rewrite Hdb. reflexivity. }
  pose proof (sys_step_exec _ _ _ _ _ _ _ _ _ _ H1) as H1'. cbn [lb_item lb_env] in H1'.
  rewrite E in Hret. cbn [mbind option_bind snd] in Hret. rewrite H1' in Hret. injection Hret as Hret.
  destruct (Hlater [] y1 0%nat recv_work (demo_env (Some sys_sub)) sys_sub 10 None 2 0 (enc_topics [([97], 1)]) [([97], 1)] [97] 1
    ltac:(constructor) ltac:(constructor)) as (w3 & ev3 & y3 & H3 & (m2 & Hin & Hc) & _).
  - rewrite <- Hi0. exact (other_items_keep _ _ _ _ _ _ _ _ _ _ 0%nat (run_cons _ _ _ _ _ _ _ _ _ _ _ _ H1 (run_nil _ _ _ _ _ _ _ y1))
      ltac:(by apply Forall_singleton)).
  - exact sys_sub_subscribing.
  - intros t r Ht. cbn in Ht, Hret. rewrite Hret in Ht. apply lookup_singleton_Some in Ht as [_ <-].
    exists demo_retained. split; reflexivity.
  - by left.
  - reflexivity.
  - reflexivity.
  - exists y1, w3, ev3, y3, m2. split; [exact H3|]. split; [exact Hin|exact Hc].
Defined.

(** ** A retained message without a topic *)

(** With MQTT 5 a client may name the topic once, with an alias, and then send
    the alias alone.  The message kept is the one that arrived; only when
    somebody receives it at once is it written anew, with its topic. *)
Definition alias_named : rmsg := RMsg [48; 8] [0; 1; 97; 3; TOPIC_ALIAS; 0; 7; 104] 7 8 CMD_PUBLISH 0.
Definition alias_only_pub : rmsg := RMsg [49; 8] [0; 0; 3; TOPIC_ALIAS; 0; 7; 104; 105] 6 8 CMD_PUBLISH 0.
Definition alias_sub : rmsg := RMsg [130; 7] (NNI_PUT16 10 ++ [0] ++ enc_topics [([97], 1)]) 3 7 CMD_SUBSCRIBE 0.

(** Whether the subscriber is there before the retained PUBLISH, or comes
    after it: the messages it is sent. *)
Definition alias_calls (before : bool) : list (nat * cb_env) :=
  [(0%nat, demo_env None); (1%nat, demo_env None);
   (1%nat, demo_env (Some alias_named)); (1%nat, demo_env None)] ++
  (if before then [(0%nat, demo_env (Some alias_sub)); (0%nat, demo_env None)] else []) ++
  [(1%nat, demo_env (Some alias_only_pub)); (1%nat, demo_env None);
   (0%nat, demo_env (Some alias_sub))].

Definition alias_bodies (before : bool) : option (list bytes) :=
  r ← sys_exec (Hcn := r_conn_of 5) demo_conf same_topic id 31 false no_rules no_engine
        (started_system sys_evs sys_world) (alias_calls before);
  l ← last r.1; Some ((fun x => nng_msg_body x.1) <$> sends (lb_effs l)).

(** The new subscriber is sent the retained message with an empty topic and an
    alias that only the publisher knows; had anybody been subscribed when it
    arrived, it would have the topic. *)
Example retained_alias_without_topic :
  (alias_bodies false ≫= head) = Some [0; 0; 3; TOPIC_ALIAS; 0; 7; 104; 105] /\
  (alias_bodies true ≫= head) = Some [0; 1; 97; 3; TOPIC_ALIAS; 0; 7; 104; 105].
Proof. split; vm_compute; reflexivity. Qed.
