(* ===== verification/Progress.v ===== *)
(** * Work items never get stuck

    What a work item needs to have in each state, that every call leaves it so,
    and that every call outside state RECV brings it closer to receiving
    again. *)

From Stdlib Require Import ZArith Lia.
From stdpp Require Import base numbers list gmap option strings sets.
From S2P Require Import Prelude Mqtt Nng NngModel SubHandler UnsubHandler PubHandler RuleEngine MqttApi Bridge Webhook Conf Broker Shared BrokerStart System.

Local Open Scope Z_scope.
Local Open Scope nano_scope.

(** ** Packets that can be encoded *)

Section Encodable.
Context {msg property db hash db_ret : Type}.
Context `{Hmsg : NngMsg msg} `{Hpar : NngParser msg property} `{Hmp : NngMsgProp msg property}.
Context `{Hdb : NngDb db hash} `{Hret : NngRetain db_ret (dbtree_retain_msg msg)}.
Context {utf8_ok : bytes -> Prop} {Hlaws : NngParserLaws msg property utf8_ok}.
Implicit Types pkt : pub_packet_struct property.

(** The lengths of topic and payload stay inside their buffers. *)
Definition encodable pkt : Prop :=
  let tn := ph_topic_name (var_publish (pp_var_header pkt)) in
  (0 < ms_len tn -> exists b, ms_body tn = Some b /\ ms_len tn <= Zlen b) /\
  (0 < pl_len (pp_payload pkt) -> exists b, pl_data (pp_payload pkt) = Some b /\ pl_len (pp_payload pkt) <= Zlen b).

Lemma read_buf_inside b n : 0 <= n <= Zlen b -> exists bs, read_buf (Some b) n = Ret bs.
Proof.
  intros Hn. unfold read_buf, slice. rewrite (proj2 (Z.leb_le 0 0)), (proj2 (Z.leb_le 0 n)), (proj2 (Z.leb_le (0 + n) _))
    by (zlen; lia). by eexists.
Qed.

Lemma read_guarded o n (k : bytes -> msg) d :
  (0 < n -> exists b, o = Some b /\ n <= Zlen b) ->
  exists d', (if 0 <? n then ebind (read_buf o n) (fun b => Ret (k b)) else Ret d) = Ret d'.
Proof.
  intros Hn. case_match; bool_hyps; [|by eexists]. destruct Hn as (b & -> & Hb); [done|].
  destruct (read_buf_inside b n) as [bs ->]; [lia|]. by eexists.
Qed.

Ltac guarded_read H :=
  match goal with
  | |- context [if 0 <? ?n then ebind (read_buf ?o ?n) (fun b => Ret (@?k b)) else Ret ?d] =>
      let Hr := fresh in destruct (read_guarded o n k d H) as [? Hr]; cbv beta in Hr; rewrite Hr; clear Hr
  end.

Lemma encode_encodable (dest : msg) pkt :
  encodable pkt -> exists ok m pkt', encode_pub_message dest pkt PUBLISH = Ret (ok, m, pkt') /\ encodable pkt'.
Proof.
  intros [Ht Hp]. unfold encode_pub_message. rewrite Z.eqb_refl. set (d := nng_msg_header_clear _).
  set (pr := match nng_msg_cmd_type d with CMD_PUBLISH_V5 => _ | CMD_PUBLISH => _ | _ => 0 end). clearbody d pr.
  unfold encode_publish. guarded_read Ht. cbn [ebind].
  destruct (if MQTT_PROTOCOL_VERSION_v5 =? pr then _ else _) as [rv d2].
  destruct (rv =? 0); cbn [negb]; [|by do 3 eexists].
  guarded_read Hp. cbn [ebind]. by do 3 eexists.
Qed.

(** What [handle_pub] hands on can be encoded. *)
Lemma decode_payload_inside al body len pos pay :
  decode_payload al body len pos = Ret pay -> 0 < pl_len pay ->
  exists b, pl_data pay = Some b /\ pl_len pay <= Zlen b.
Proof.
  unfold decode_payload. case_match; bool_hyps.
  - case_match; [|done]. intros (data & Hs & [= <-])%ebind_Ret _. apply slice_Ret in Hs as (_ & _ & _ & Hl).
    exists data. cbn. split; [done|lia].
  - intros [= <-]. cbn. lia.
Qed.

Lemma decode_publish_inside al (m : msg) fh proto pkt :
  decode_publish al m fh zero_pub_packet proto = Ret (SUCCESS, pkt) ->
  (ms_body (ph_topic_name (var_publish (pp_var_header pkt))) <> None -> encodable pkt) /\
  (0 < pl_len (pp_payload pkt) -> exists b, pl_data (pp_payload pkt) = Some b /\ pl_len (pp_payload pkt) <= Zlen b).
Proof using Hlaws.
  unfold decode_publish. intros (? & _ & Hrun)%ebind_Ret.
  apply ebind_Ret in Hrun as ([[body pos0] len] & Hc & Hrun).
  case_match; [done|]. apply ebind_Ret in Hrun as ([id pos1] & _ & Hrun).
  apply ebind_Ret in Hrun as ([[props pos] plen] & _ & Hrun).
  case_match; [done|]. case_match; [done|]. bool_hyps.
  apply ebind_Ret in Hrun as (pay & Hpay & [= <-]).
  set (pay1 := if 0 <? pl_len pay then pay else _).
  assert (Hp : 0 < pl_len pay1 -> exists b, pl_data pay1 = Some b /\ pl_len pay1 <= Zlen b).
  { unfold pay1. destruct (0 <? pl_len pay) eqn:E; bool_hyps; [by apply (decode_payload_inside _ _ _ _ _ Hpay)|cbn; lia]. }
  unfold encodable. cbn [pp_payload pp_var_header var_publish ph_topic_name ms_body ms_len]. split; [|done].
  intros Hb. split; [|done]. intros _. destruct body as [b|]; [|done]. exists b. split; [done|].
  apply copyn_utf8_str_len in Hc as ->. pose proof (Zlen_nonneg b). unfold u32. apply Z.mod_le; lia.
Qed.

Lemma decode_pub_inside al (m : msg) proto pkt :
  decode_pub_message al m zero_pub_packet proto = Ret (SUCCESS, pkt) ->
  fh_packet_type (pp_fixed_header pkt) = PUBLISH ->
  (ms_body (ph_topic_name (var_publish (pp_var_header pkt))) <> None -> encodable pkt) /\
  (0 < pl_len (pp_payload pkt) -> exists b, pl_data (pp_payload pkt) = Some b /\ pl_len (pp_payload pkt) <= Zlen b).
Proof using Hlaws.
  unfold decode_pub_message. intros (b0 & _ & Hrun)%ebind_Ret Hty. set (fh := fixed_header_of_byte _ _) in *.
  destruct (_ <? _); [done|]. destruct (fh_packet_type fh =? PUBLISH) eqn:Et; [by eapply decode_publish_inside|].
  bool_hyps. exfalso. apply Et. rewrite <- Hty. case_match; [|by simplify_eq].
  unfold decode_arrc in Hrun. apply ebind_Ret in Hrun as (? & _ & Hrun).
  case_match; [apply ebind_Ret in Hrun as (? & _ & Hrun);
               apply ebind_Ret in Hrun as ([[? ?] ?] & _ & Hrun)|]; by simplify_eq.
Qed.

Lemma resolve_encodable p proto pkt (h : hash) t h' pkt' :
  (ms_body (ph_topic_name (var_publish (pp_var_header pkt))) <> None -> encodable pkt) ->
  (0 < pl_len (pp_payload pkt) -> exists b, pl_data (pp_payload pkt) = Some b /\ pl_len (pp_payload pkt) <= Zlen b) ->
  resolve_topic p proto pkt h = Some (Some t, h', pkt') -> encodable pkt'.
Proof using Type.
  intros He Hp. unfold resolve_topic. repeat case_match; intros Hr; simplify_eq; try (apply He; congruence);
    (split; cbn; [intros _; eexists; split; [done|]; unfold u32; apply Z.mod_le; [apply Zlen_nonneg|lia]|done]).
Qed.

(** The receivers found are those of a packet that can be encoded. *)
Lemma handle_pub_ready al (d : db) p pv (ps : pub_state msg property hash db_ret) proto rc ps' :
  handle_pub al d p pv ps proto = Ret (rc, ps') ->
  ps_packet ps' <> None /\ (ps_msg_infos ps' = [] \/ exists pkt, ps_packet ps' = Some pkt /\ encodable pkt).
Proof using Hlaws.
  unfold handle_pub. intros Hrun. case_match; [|done].
  apply ebind_Ret in Hrun as ([result pkt] & Hd & Hrun).
  destruct (SUCCESS =? result) eqn:Es; cbn [negb] in Hrun; [|injection Hrun as <- <-; by split; [|left]].
  destruct (PUBLISH =? _) eqn:Ep; cbn [negb] in Hrun; [|injection Hrun as <- <-; by split; [|left]].
  bool_hyps. subst result. apply decode_pub_inside in Hd as [He Hp]; [|done].
  destruct (resolve_topic _ _ _ _) as [[[[t|] h] pkt']|] eqn:Er; injection Hrun as <- <-; [|by split; [|left]..].
  apply resolve_encodable in Er; [|done..]. unfold deliver.
  destruct (match dbtree_find_clients d _ with Some _ => _ | None => _ end) as [i1 g1].
  destruct (match dbtree_find_shared_clients d _ with Some _ => _ | None => _ end) as [i2 g2].
  destruct (handle_pub_retain _ _ _ _ _ _) as [[m' dr'] refs]. split; [done|]. right. by exists pkt'.
Qed.

Lemma handle_pub_failed al (d : db) p pv (ps : pub_state msg property hash db_ret) proto rc ps' :
  handle_pub al d p pv ps proto = Ret (rc, ps') -> rc <> SUCCESS -> ps_msg_infos ps' = [].
Proof using Type.
  unfold handle_pub. intros Hrun Hrc. case_match; [|done].
  apply ebind_Ret in Hrun as ([result pkt] & _ & Hrun).
  case_match; [by injection Hrun as <- <-|]. case_match; [by injection Hrun as <- <-|].
  destruct (resolve_topic _ _ _ _) as [[[[t|] h] pkt']|]; bool_hyps; by injection Hrun as <- <-.
Qed.

Lemma handle_pub_returns al (d : db) p pv (ps : pub_state msg property hash db_ret) proto :
  pa_packet al = true -> (exists r, decode_pub_message (pa_payload al) (ps_msg ps) zero_pub_packet proto = Ret r) ->
  exists rc ps', handle_pub al d p pv ps proto = Ret (rc, ps').
Proof using Type.
  intros Ha [[result pkt] Hd]. unfold handle_pub. rewrite Ha, Hd. cbn [ebind].
  case_match; [by do 2 eexists|]. case_match; [by do 2 eexists|].
  destruct (resolve_topic _ _ _ _) as [[[[t|] h] pkt']|]; by do 2 eexists.
Qed.
End Encodable.

(** ** Work items *)

Section Progress.
Context {msg property cparam db hash db_ret rules : Type}.
Context `{Hmsg : NngMsg msg} `{Hpar : NngParser msg property} `{Hmp : NngMsgProp msg property}.
Context `{Hdb : NngDb db hash} `{Hret : NngRetain db_ret (dbtree_retain_msg msg)}.
Context `{Hcn : NngConn msg cparam property} {Hrl : NngRetainLaws db_ret (dbtree_retain_msg msg)}.
Context {Haio : NngAio} {Hal : NngAioLaws}.
Context {utf8_ok : bytes -> Prop} {Hlaws : NngParserLaws msg property utf8_ok}.
Variable config : conf.
Variable topic_filter : bytes -> option bytes -> bool.
Variable base64_encode : bytes -> bytes.
Variable NNG_ECONNSHUT : Z.
Variable clears : bool.
Variable rule_on : rules -> bool.
Variable rule_engine : option rule_input -> rules -> exec (list rule_ev * rules * option Z).

Abbreviation wk := (work msg property cparam).
Abbreviation wd := (world db hash db_ret rules).
Abbreviation env := (cb_env (msg := msg)).
Abbreviation cb := (server_cb config topic_filter base64_encode NNG_ECONNSHUT clears rule_on rule_engine).
Abbreviation step := (sys_step config topic_filter base64_encode NNG_ECONNSHUT clears rule_on rule_engine).
Abbreviation run := (sys_run config topic_filter base64_encode NNG_ECONNSHUT clears rule_on rule_engine).

Implicit Types (w : wk) (s : wd) (e : env) (m : msg).

(** If it has receivers, it has the packet to send them. *)
Definition ready w : Prop :=
  w_msg_infos w = [] \/ exists pkt, w_pub_packet w = Some pkt /\ encodable pkt.

(** What the states rely on. *)
Record item_safe w : Prop := ItemSafe {
  is_ready : ready w;
  is_msg : w_state w = WAIT \/ w_state w = END_ -> w_msg w <> None;
  is_cparam : w_state w = END_ -> w_cparam w <> None;
  is_state : w_state w <> HOOK
}.

Lemma forward_safe w m :
  ready w -> exists m' w' ev, forward_publish w m = Ret (m', w', ev) /\ ready w' /\
    w_state w' = w_state w /\ w_cparam w' = w_cparam w /\ forallb (fun x => negb (is_fatal x)) ev = true.
Proof using Hlaws.
  intros Hr. unfold forward_publish. destruct (w_msg_infos w) as [|p infos] eqn:Hi.
  { do 3 eexists. split; [done|]. by split; [left|]. }
  destruct Hr as [Hr|(pkt & -> & He)]; [congruence|].
  destruct (encode_encodable m pkt He) as (ok & m' & pkt' & -> & He'). cbn [ebind].
  destruct ok; do 3 eexists; (split; [reflexivity|]); (split; [right; by exists pkt'|]); (do 2 (split; [done|])); [|done].
  apply send_all_not_fatal.
Qed.

Lemma run_handle_pub_safe e s w m proto s' w' rc ev :
  run_handle_pub e s w m proto = Ret (s', w', rc, ev) ->
  ready w' /\ w_msg w' <> None /\ w_pub_packet w' <> None /\ w_state w' = w_state w /\ w_cparam w' = w_cparam w.
Proof using Hlaws.
  unfold run_handle_pub. intros ([rc' ps] & Hp & [= <- <- <- <-])%ebind_Ret.
  apply handle_pub_ready in Hp as [Hpk Hr]. by split_and!.
Qed.

Lemma publish_will_safe e s w cp s' w' ev :
  publish_will e s w cp = Ret (s', w', ev) -> ready w' /\ w_msg w' <> None.
Proof using Hlaws.
  unfold publish_will. case_match; intros ([[[s1 w1] c1] ev1] & Hh & Hrun)%ebind_Ret;
    apply run_handle_pub_safe in Hh as (Hr & Hm & _); [|by injection Hrun as <- <- <-].
  destruct (w_pub_packet w1) as [pkt|] eqn:Ep; [|done]. injection Hrun as <- <- <-. split; [|done].
  destruct Hr as [Hi|(pkt' & Hp & He)]; [by left|right]. rewrite Ep in Hp. injection Hp as <-.
  eexists. split; [reflexivity|]. exact He.
Qed.

Lemma ready_ext w w' : w_msg_infos w' = w_msg_infos w -> w_pub_packet w' = w_pub_packet w -> ready w -> ready w'.
Proof using Type. unfold ready. by intros -> ->. Qed.

Lemma dispatch_safe e s w m s' w' ev :
  ready w -> dispatch config topic_filter base64_encode clears e s w m = Ret (s', w', ev) -> item_safe w'.
Proof using Hlaws.
  unfold dispatch. cbn [w_flag]. set (w0 := Work _ _ _ _ _ _ _ _ _ _). intros Hr Hrun.
  assert (H0 : ready w0 /\ w_msg w0 <> None /\ w_cparam w0 <> None) by (by apply (ready_ext w w0) in Hr).
  clearbody w0. clear Hr. destruct H0 as (Hr & Hm & Hcp).
  destruct (nng_msg_cmd_type m); try (injection Hrun as <- <- <-; by constructor).
  - unfold on_connack in Hrun. apply ebind_Ret in Hrun as (rc & _ & Hrun). destruct (w_cparam w0); [|done].
    apply ebind_Ret in Hrun as ([w1 hook] & Hk & Hrun). apply run_hook_frame in Hk as (_ & f & ->).
    apply ebind_Ret in Hrun as ([[[s1 w1] c1] ev1] & Hh & [= <- <- <-]).
    apply run_handle_pub_safe in Hh as (Hr1 & Hm1 & _). by constructor.
  - unfold on_publish in Hrun. apply ebind_Ret in Hrun as ([[[s1 w1] code] ev1] & Hh & Hrun).
    assert (Hf : code <> SUCCESS -> w_msg_infos w1 = []).
    { unfold run_handle_pub in Hh. apply ebind_Ret in Hh as ([rc ps] & Hp & Hh). simplify_eq.
      intros Hc. by apply (handle_pub_failed _ _ _ _ _ _ _ _ Hp). }
    apply run_handle_pub_safe in Hh as (Hr1 & Hm1 & _).
    repeat case_match; injection Hrun as <- <- <-; bool_hyps; (constructor; [|done..]); try done.
    left. by apply Hf.
  - unfold on_subscribe in Hrun. case_match; [done|]. apply ebind_Ret in Hrun as ([rv pkt] & _ & Hrun).
    apply ebind_Ret in Hrun as ([rv2 [[d h] mr]] & _ & Hrun).
    set (w1 := if negb (rv2 =? 0) then _ else _) in Hrun.
    assert (H1 : ready w1) by (unfold w1; by destruct (rv2 =? 0)).
    destruct (w_code w1 =? SUCCESS); cbn [negb] in Hrun; cycle 1; [injection Hrun as <- <- <-; constructor; [done|cbn; naive_solver..]|].
    destruct (encode_suback_msg m _ _). apply ebind_Ret in Hrun as (? & _ & [= <- <- <-]).
    constructor; [exact H1|cbn; naive_solver..].
  - unfold on_unsubscribe in Hrun. case_match; [done|]. apply ebind_Ret in Hrun as ([rv pkt] & _ & Hrun).
    apply ebind_Ret in Hrun as ([pkt2 [d h]] & _ & Hrun). apply ebind_Ret in Hrun as ([? smsg] & _ & Hrun).
    apply ebind_Ret in Hrun as (? & _ & [= <- <- <-]). constructor; [exact Hr|cbn; naive_solver..].
  - unfold on_disconnect in Hrun. apply ebind_Ret in Hrun as ([w1 hook] & Hk & Hrun).
    apply run_hook_frame in Hk as (_ & f & ->). apply ebind_Ret in Hrun as ([[[s1 w1] c1] ev1] & Hh & Hrun).
    apply run_handle_pub_safe in Hh as (Hr1 & Hm1 & _ & _ & Hc1).
    destruct (if dbhash_check_id _ _ then _ else _) as [d h].
    destruct (w_cparam w1) eqn:Ec; [|done]. case_match; injection Hrun as <- <- <-;
      (constructor; [done|done|cbn; congruence|done]).
Qed.

Lemma on_recv_safe e s w s' w' ev :
  item_safe w -> on_recv config topic_filter base64_encode NNG_ECONNSHUT clears e s w = Ret (s', w', ev) ->
  w_state w = RECV -> item_safe w'.
Proof using Hlaws.
  intros [Hr _ _ _] Hrun Hst. unfold on_recv in Hrun.
  assert (Hkeep : item_safe (with_state w RECV)) by (constructor; [exact Hr|cbn; naive_solver..]).
  assert (Hrecv : forall w0, ready w0 -> w_state w0 = RECV ->
    on_recv_msg config topic_filter base64_encode clears e s w0 = Ret (s', w', ev) -> item_safe w').
  { clear Hrun. intros w0 H0 Hs0 Hrun. unfold on_recv_msg in Hrun.
    destruct (e_aio_msg e); [|injection Hrun as <- <- <-; constructor; [done|rewrite Hs0; naive_solver..]].
    assert (Hafter : forall pre m',
      after pre (dispatch config topic_filter base64_encode clears e s w0 m') = Ret (s', w', ev) -> item_safe w').
    { intros pre m'. unfold after. intros ([[s1 w1] ev1] & Hd & [= <- <- <-])%ebind_Ret. by eapply dispatch_safe. }
    case_match; [case_decide; [by eapply Hafter|case_decide; [|by eapply Hafter]]|].
    { injection Hrun as <- <- <-. constructor; [exact H0|cbn; naive_solver..]. }
    case_match; [|by eapply Hafter]. apply ebind_Ret in Hrun as ([rv [[dm cp]|]] & _ & Hrun); cbn [snd] in Hrun; [|done].
    case_decide; [injection Hrun as <- <- <-; constructor; [exact H0|cbn; naive_solver..]|by eapply Hafter]. }
  case_match; [|by apply (Hrecv w)]. case_match; [injection Hrun as <- <- <-; exact Hkeep|].
  case_match; [injection Hrun as <- <- <-; exact Hkeep|]. by apply (Hrecv (with_state w RECV)).
Qed.

(** Every call leaves what the next one needs. *)
Lemma server_cb_safe e s w s' w' ev :
  item_safe w -> cb e s w = Ret (s', w', ev) -> forallb (fun x => negb (is_fatal x)) ev = true -> item_safe w'.
Proof using Hlaws.
  intros Hsafe Hrun Hnof. pose proof Hsafe as [Hr Hm Hcp Hst]. unfold server_cb in Hrun. destruct (w_state w) eqn:Es.
  - injection Hrun as <- <- <-. constructor; [exact Hr|cbn; naive_solver..].
  - by eapply on_recv_safe.
  - unfold on_wait in Hrun. destruct (w_msg w) as [m|]; [|done].
    case_decide; [|injection Hrun as <- <- <-; constructor; [exact Hr|cbn; naive_solver..]].
    case_match; [by injection Hrun as <- <- <-|].
    destruct (forward_safe w m Hr) as (m' & w1 & ev1 & Hf & Hr1 & _). rewrite Hf in Hrun. cbn [ebind] in Hrun.
    apply ebind_Ret in Hrun as ([[w2 rv] ev2] & Hb & Hrun).
    assert (Hr2 : ready w2).
    { destruct (cf_bridge_mode config); [|by injection Hb as <- <- <-].
      apply bridge_handler_frame in Hb as [_ ->]. by destruct rv. }
    case_match; injection Hrun as <- <- <-; (constructor; [first [exact Hr2|by left]|cbn; naive_solver..]).
  - unfold on_send in Hrun. apply ebind_Ret in Hrun as ([s1 evs] & _ & Hrun).
    destruct (existsb is_fatal evs) eqn:Ef.
    { injection Hrun as <- <- <-. by rewrite forallb_negb_existsb, Ef in Hnof. }
    apply ebind_Ret in Hrun as ([w1 hook] & Hk & Hrun). apply run_hook_frame in Hk as (_ & f & ->).
    destruct (_ =? 0); cbn [negb] in Hrun; injection Hrun as <- <- <-; [constructor; [by left|cbn; naive_solver..]|].
    rewrite forallb_app in Hnof. bool_hyps. done.
  - done.
  - unfold on_end in Hrun. destruct (w_msg w) as [m|]; [|done]. destruct (w_cparam w) as [cp|]; [|done].
    case_decide; [|injection Hrun as <- <- <-; exact Hsafe]. case_match; [by injection Hrun as <- <- <-|].
    apply ebind_Ret in Hrun as ([[smsg w1] ev1] & _ & Hrun). apply ebind_Ret in Hrun as ([w2 hook] & _ & Hrun).
    case_match; [|injection Hrun as <- <- <-; constructor; [by left|cbn; naive_solver..]].
    apply ebind_Ret in Hrun as ([[s3 w3] ev3] & Hw & [= <- <- <-]). apply publish_will_safe in Hw as [Hr3 Hm3].
    constructor; [exact Hr3|done|cbn; naive_solver..].
  - injection Hrun as <- <- <-. constructor; [exact Hr|cbn; naive_solver..].
Qed.

Lemma run_items_safe evs s tr y : run (started_system evs s) tr y -> Forall (fun x => item_safe x.1) (sy_items y).
Proof using Hlaws.
  intros Hr. refine (sys_run_invariant _ _ _ _ _ _ _ (fun y => Forall (fun x => item_safe x.1) (sy_items y)) _ _ _ _ _ Hr).
  - intros y1 l y2 Hall Hst. destruct Hst as [s1 items sh i w k e s' w' ev Hi Hk Hcb Hnof]. cbn [sy_items] in *.
    apply Forall_insert; [done|]. eapply server_cb_safe; [|exact Hcb|exact Hnof]. exact (Forall_lookup_1 _ _ _ _ Hall Hi).
  - apply Forall_forall. intros x Hx. apply list_elem_of_omap in Hx as ([] & _ & [= <-]).
    constructor; [by left|cbn; naive_solver..].
Qed.

(** ** Back to receiving *)

(** Calls until the item receives again. *)
Definition rank (st : work_state) : nat :=
  match st with RECV => 0 | INIT | SEND | CLOSE => 1 | WAIT => 2 | END_ => 3 | HOOK => 4 end.

(** No bridges, no hooks, no rules. *)
Hypothesis no_bridges : cf_bridge_mode config = false.
Hypothesis no_hooks : wh_enable (cf_web_hook config) = false.
Hypothesis no_rule : forall r, rule_on r = false.

(** The will message that nng composes can be decoded. *)
Definition will_msg (cp : cparam) (clock : Z) : msg :=
  nng_msg_set_cmd_type (nano_pubmsg_composer (conn_param_get_will_retain cp) (conn_param_get_will_qos cp)
    (conn_param_get_will_msg cp) (conn_param_get_will_topic cp) (conn_param_get_protover cp) clock)
    (if conn_param_get_protover cp =? 5 then CMD_PUBLISH_V5 else CMD_PUBLISH).

Hypothesis will_decodes : forall (cp : cparam) clock, conn_param_get_will_flag cp <> 0 -> exists r,
  decode_pub_message (property := property) true (will_msg cp clock) zero_pub_packet
    (if conn_param_get_protover cp =? 5 then MQTT_PROTOCOL_VERSION_v5 else MQTT_PROTOCOL_VERSION_v311) = Ret r.

Lemma run_hook_off e w r : exists w', run_hook config topic_filter base64_encode e w r = Ret (w', []) /\ w_msg w' = w_msg w.
Proof using no_hooks.
  unfold run_hook. rewrite no_hooks. cbn [andb].
  destruct (w_pub_packet w); unfold webhook_entry; rewrite no_hooks; cbn [negb ebind]; by eexists.
Qed.

Lemma publish_will_returns e s w cp :
  conn_param_get_will_flag cp <> 0 -> pa_packet (e_allocs e) = true -> pa_payload (e_allocs e) = true ->
  exists s' w' ev, publish_will e s w cp = Ret (s', w', ev) /\ forallb (fun x => negb (is_fatal x)) ev = true.
Proof using will_decodes Hlaws.
  intros Hwf Ha1 Ha2. unfold publish_will. pose proof (will_decodes cp (e_clock e) Hwf) as Hw. unfold will_msg in Hw.
  destruct (conn_param_get_protover cp =? 5).
  all: unfold run_handle_pub; match goal with |- context [handle_pub ?al ?d ?p ?pv ?ps ?proto] =>
    destruct (handle_pub_returns al d p pv ps proto) as (rc & ps' & Hh); [done|by rewrite Ha2|]; rewrite Hh end; cbn [ebind].
  - apply handle_pub_ready in Hh as [Hp _]. cbn [w_pub_packet with_pub]. destruct (ps_packet ps'); [|done]. by do 3 eexists.
  - by do 3 eexists.
Qed.

Lemma server_cb_progress e s w :
  item_safe w -> w_state w <> RECV -> e_aio_result e = 0 -> pa_packet (e_allocs e) = true -> pa_payload (e_allocs e) = true ->
  exists s' w' ev, cb e s w = Ret (s', w', ev) /\
    (forallb (fun x => negb (is_fatal x)) ev = true /\ (rank (w_state w') < rank (w_state w))%nat \/ stalls w w' ev).
Proof using no_bridges no_hooks no_rule will_decodes Hlaws.
  intros [Hr Hm Hcp Hst] Hne Hres Ha1 Ha2. unfold server_cb. destruct (w_state w) eqn:Es; [| |..].
  - do 3 eexists. split; [reflexivity|]. left. cbn. unfold rearm. split; [done|lia].
  - done.
  - unfold on_wait. destruct (w_msg w) as [m|]; [|naive_solver]. rewrite Hres, no_bridges. cbn [Z.eqb negb].
    case_decide; [|do 3 eexists; split; [reflexivity|]; left; cbn; split; [done|lia]].
    destruct (forward_safe w m Hr) as (m' & w1 & ev1 & -> & _ & _ & _ & Hnof). cbn [ebind].
    rewrite no_hooks, no_rule. cbn [orb app]. do 3 eexists. split; [reflexivity|]. left.
    rewrite forallb_app, Hnof. split; [done|cbn; lia].
  - unfold on_send, run_rules. rewrite no_rule, andb_false_r. cbn [ebind existsb].
    destruct (run_hook_off e w 0) as (w1 & -> & _). cbn [ebind]. rewrite Hres. cbn [Z.eqb negb app].
    do 3 eexists. split; [reflexivity|]. left. cbn [w_state with_flag with_state rank].
    rewrite !forallb_app. cbn [forallb is_fatal negb andb]. split; [|lia].
    destruct (w_msg w1), (w_pub_packet _); reflexivity.
  - done.
  - unfold on_end. destruct (w_msg w) as [m|] eqn:Em; [|naive_solver].
    destruct (w_cparam w) as [cp|]; [|by destruct Hcp]. rewrite Hres. cbn [Z.eqb negb].
    case_decide; [|do 3 eexists; split; [reflexivity|]; right; split_and!; [done..|by exists m]].
    destruct (forward_safe (with_msg w None) m Hr) as (m' & w1 & ev1 & -> & _ & _ & _ & Hnof). cbn [ebind].
    destruct (run_hook_off e w1 0) as (w2 & -> & _). cbn [ebind app].
    destruct (conn_param_get_will_flag cp =? 0) eqn:Ewf; cbn [negb]; bool_hyps.
    + do 3 eexists. split; [reflexivity|]. left. unfold rearm, release_pub. rewrite !forallb_app, Hnof. split; [done|cbn; lia].
    + destruct (publish_will_returns e s (with_pub (with_msg w2 None) [] None) cp Ewf Ha1 Ha2) as (s3 & w3 & ev3 & -> & Hnof3).
      cbn [ebind]. do 3 eexists. split; [reflexivity|]. left. unfold release_pub.
      rewrite !forallb_app, Hnof, Hnof3. split; [done|cbn; lia].
  - do 3 eexists. split; [reflexivity|]. left. destruct (w_msg w); cbn; (split; [done|lia]).
Qed.

(** C5: After any run of the broker (without bridges, hooks and rules), a work
    item that is not receiving has what its next call needs: when the operation
    its aio waited for succeeded and there is memory for a packet and its payload
    (for a will, which can be decoded as nng composed it), the call never reads or
    writes outside an object and does not end the process, and it brings the item
    closer to state RECV (END, WAIT, SEND; at most three calls), whatever the
    others did in between; only an item in state END whose message is not a
    PUBLISH stops for good. *)
Theorem broker_items_come_back evs s tr y i w k e :
  run (started_system evs s) tr y -> sy_items y !! i = Some (w, k) -> w_state w <> RECV ->
  e_aio_result e = 0 -> pa_packet (e_allocs e) = true -> pa_payload (e_allocs e) = true ->
  (exists w' ev y', step y (Label i e w w' ev) y' /\ (rank (w_state w') < rank (w_state w) <= 3)%nat) \/
  (w_state w = END_ /\ exists m, w_msg w = Some m /\ nng_msg_get_type m <> CMD_PUBLISH).
Proof using no_bridges no_hooks no_rule will_decodes Hlaws Hrl Hal.
  intros Hrun Hi Hne Hres Ha1 Ha2. pose proof (Forall_lookup_1 _ _ _ _ (run_items_safe _ _ _ _ Hrun) Hi) as Hsafe.
  destruct y as [sw items sh]. cbn [sy_items] in Hi.
  destruct (Forall_lookup_1 _ _ _ _ (run_items_ok _ _ _ _ _ _ _ _ _ _ _ Hrun) Hi) as [Hk|(_ & Hst & m & Hm)];
    cbn [fst snd] in *; [|right; by split; [|exists m]].
  destruct (server_cb_progress e sw w Hsafe Hne Hres Ha1 Ha2) as (s' & w' & ev & Hcb & [[Hnof Hlt]|(Hst & _ & _ & Hm)]); [left|by right].
  do 3 eexists. split; [by eapply sys_cb; [exact Hi|lia|exact Hcb|exact Hnof]|]. split; [done|].
  destruct Hsafe as [_ _ _ Hh]. destruct (w_state w); cbn; (lia || done).
Qed.
End Progress.

(** ** Witness *)

(** The second item has received a PUBLISH. *)
Abbreviation waiting_run := (demo_exec (started_system sys_evs sys_world)
  [(0%nat, demo_env None); (1%nat, demo_env None); (1%nat, demo_env (Some demo_pub))]).

Lemma demo_will_decodes (cp : conn_param) (clock : Z) : conn_param_get_will_flag cp <> 0 -> exists r,
  decode_pub_message (property := list (Z * property_data)) true (will_msg cp clock) zero_pub_packet
    (if conn_param_get_protover cp =? 5 then MQTT_PROTOCOL_VERSION_v5 else MQTT_PROTOCOL_VERSION_v311) = Ret r.
Proof. intros _. unfold will_msg. destruct (conn_param_get_protover cp =? 5); eexists; reflexivity. Qed.

Lemma broker_items_come_back_witness :
  exists y w w' ev y', w_state w = WAIT /\ sy_items y !! 1%nat = Some (w, 1) /\
    sys_step demo_conf same_topic id 31 false no_rules no_engine y (Label 1 (demo_env None) w w' ev) y' /\
    (rank (w_state w') < 2)%nat.
Proof.
  destruct waiting_run as [[tr y]|] eqn:E; [|vm_compute in E; discriminate E].
  pose proof (sys_exec_run _ _ _ _ _ _ _ _ _ _ _ E) as Hr.
  assert (Hs : (fun r => (fun x => (w_state x.1, x.2)) <$> sy_items r.2 !! 1%nat) <$> waiting_run = Some (Some (WAIT, 1)))
    by (vm_compute; reflexivity).
  rewrite E in Hs. cbn in Hs. destruct (sy_items y !! 1%nat) as [[w k]|] eqn:Hi; [|discriminate Hs].
  cbn in Hs. injection Hs as Hs ->.
  destruct (broker_items_come_back (utf8_ok := ascii_ok) demo_conf same_topic id 31 false no_rules no_engine eq_refl eq_refl
    (fun _ => eq_refl) demo_will_decodes sys_evs sys_world tr y 1%nat w 1
    (demo_env None) Hr Hi) as [(w' & ev & y' & Hst & Hlt & _)|[Hend _]].
  - rewrite Hs. discriminate.
  - reflexivity.
  - reflexivity.
  - reflexivity.
  - exists y, w, w', ev, y'. rewrite Hs in Hlt. split; [by rewrite Hs|]. split; [exact Hi|]. split; [exact Hst|exact Hlt].
  - rewrite Hs in Hend. discriminate Hend.
Defined.
