(* ===== verification/RestUri.v ===== *)
(** * rest_api.c: request URIs

    A URI is split at its slashes into a tree (the list of path components)
    and its query into key=value pairs. *)

From Stdlib Require Import ZArith Lia.
From stdpp Require Import base numbers list option strings.
From S2P Require Import Prelude Mqtt Cstring.

Local Open Scope Z_scope.
Local Open Scope nano_scope.

Definition REST_URI_ROOT : bytes := str "/api/v4".

Record tree := Tree { t_node : bytes; t_end : bool }.

Record kv := KV { kv_key : bytes; kv_value : bytes }.

(** The counts are those of the arrays: [sub_count] is the length of
    [uc_sub_tree]; a slot of [params] nobody filled is [None]. *)
Record uri_content := UriContent {
  uc_sub_tree : list tree;
  uc_params_count : Z;
  uc_params : list (option kv)
}.

Definition sub_count (ct : uri_content) : Z := Zlen (uc_sub_tree ct).

(** ** The path *)

(** The loop over the slashes: the components, and what is left. *)
Fixpoint split_slash (fuel : nat) (s : bytes) : list tree * bytes :=
  match fuel with
  | O => ([], s)
  | S fuel' =>
      match cut s 47 with
      | Some (node, rest) =>
          let '(l, r) := split_slash fuel' rest in (Tree node false :: l, r)
      | None => ([], s)
      end
  end.

(** [sub = root[num - 1]; sub->end = true] *)
Fixpoint end_last (l : list tree) : list tree :=
  match l with
  | [] => []
  | [t] => [Tree (t_node t) true]
  | t :: l' => t :: end_last l'
  end.

Definition uri_parse_tree (path : bytes) : list tree :=
  match strstr path REST_URI_ROOT with
  | None => []
  | Some s =>
      let s := drop (length REST_URI_ROOT) s in
      let '(root, s) := split_slash (length s) s in
      match root with
      | [] => []
      | _ => if 0 <? Zlen s then root ++ [Tree s true] else end_last root
      end
  end.

(** ** The query *)

(** The loop over the ampersands: all pieces but the last, and the last. *)
Fixpoint split_amp (fuel : nat) (s : bytes) : list bytes * bytes :=
  match fuel with
  | O => ([], s)
  | S fuel' =>
      match cut s 38 with
      | Some (piece, rest) => let '(l, r) := split_amp fuel' rest in (piece :: l, r)
      | None => ([], s)
      end
  end.

(** [sscanf(s, "%[^=]=%s", key, value) == 2] into buffers of [strlen(s)] bytes;
    without an equals sign the key and its NUL do not fit. *)
Definition scan_kv (s : bytes) : exec (option kv) :=
  match s with
  | [] => Ret None
  | _ =>
      match cut s 61 with
      | None => UB
      | Some (key, rest) =>
          if bool_decide (key = []) then Ret None
          else
            let value := word (skip_space rest) in
            if bool_decide (value = []) then Ret None else Ret (Some (KV key value))
      end
  end.

Fixpoint scan_all (pieces : list bytes) : exec (list (option kv)) :=
  match pieces with
  | [] => Ret []
  | p :: ps => let* x := scan_kv p in let* xs := scan_all ps in Ret (x :: xs)
  end.

(** The array, and the number of its slots that were filled; no ampersand, no
    array. *)
Definition uri_param_parse (query : bytes) : exec (list (option kv) * Z) :=
  let '(pieces, last) := split_amp (length query) query in
  match pieces with
  | [] => Ret ([], 0)
  | _ =>
      let* params := scan_all (pieces ++ [last]) in
      Ret (params, Zlen (omap id params))
  end.

Definition uri_parse (uri : bytes) : exec uri_content :=
  if bool_decide (uri = REST_URI_ROOT) || bool_decide (uri = REST_URI_ROOT ++ [47])
  then Ret (UriContent [] 0 [])
  else
    match cut uri 63 with
    | Some (path, param) =>
        let* r := (if 3 <=? Zlen param then uri_param_parse param else Ret ([], 0)) in
        Ret (UriContent (uri_parse_tree path) (snd r) (fst r))
    | None => Ret (UriContent (uri_parse_tree uri) 0 [])
    end.

(** ** Releasing *)

(** Slots [0 .. params_count - 1] are dereferenced. *)
Fixpoint uri_param_free (n : nat) (params : list (option kv)) : exec unit :=
  match n with
  | O => Ret tt
  | S n' =>
      match params with
      | Some _ :: rest => uri_param_free n' rest
      | _ => UB
      end
  end.

Definition uri_free (ct : uri_content) : exec unit :=
  uri_param_free (Z.to_nat (uc_params_count ct)) (uc_params ct).

(** ** Paths *)

(** The path of some components: each with a slash in front. *)
Definition path_of (comps : list bytes) : bytes := REST_URI_ROOT ++ join 47 ([] :: comps).

(** The components of a path behind the root, which gives an empty one. *)
Definition tree_of (comps : list bytes) : list tree :=
  end_last ((fun c => Tree c false) <$> [] :: comps).

Lemma end_last_app l t : end_last (l ++ [t]) = l ++ [Tree (t_node t) true].
Proof. induction l as [|x [|y l] IH]; cbn in *; [done|done|]. by rewrite IH. Qed.

Lemma tree_of_snoc comps l :
  tree_of (comps ++ [l]) = ((fun c => Tree c false) <$> [] :: comps) ++ [Tree l true].
Proof.
  unfold tree_of. change ([] :: comps ++ [l]) with (([] :: comps) ++ [l]).
  rewrite fmap_app. apply (end_last_app _ (Tree l false)).
Qed.

(** Splitting at a separator undoes [join]. *)
Lemma split_slash_join fuel init l :
  Forall (fun c => 47 ∉ c) (init ++ [l]) -> (length (join 47 (init ++ [l])) <= fuel)%nat ->
  split_slash fuel (join 47 (init ++ [l])) = ((fun c => Tree c false) <$> init, l).
Proof.
  revert fuel. induction init as [|c init IH]; intros fuel HF Hl.
  - apply Forall_cons in HF as [Hc _]. cbn. destruct fuel; [done|]. cbn.
    by rewrite (proj2 (cut_None l 47) Hc).
  - apply Forall_cons in HF as [Hc HF]. rewrite join_snoc in *.
    rewrite length_app in Hl. cbn [length] in Hl. destruct fuel as [|fuel]; [lia|]. cbn [split_slash].
    rewrite (proj2 (cut_spec _ _ c _)) by done. by rewrite IH by (done || lia).
Qed.

(** The path /api/v4/a/b/.../z is split into its components, the last one
    marked as the end, and a slash behind it makes no difference. *)
Lemma uri_parse_tree_comps comps l (slash : bool) :
  Forall (fun c => 47 ∉ c) comps -> 47 ∉ l -> l <> [] ->
  uri_parse_tree (path_of (comps ++ [l] ++ if slash then [[]] else [])) = tree_of (comps ++ [l]).
Proof.
  intros HF Hl Hne. unfold uri_parse_tree, path_of.
  rewrite strstr_app, drop_app_length, tree_of_snoc.
  set (init := ([] :: comps) ++ if slash then [l] else []). set (z := if slash then [] else l).
  replace ([] :: comps ++ [l] ++ if slash then [[]] else []) with (init ++ [z])
    by (unfold init, z; destruct slash; cbn; [by rewrite <- app_assoc|by rewrite !app_nil_r]).
  rewrite split_slash_join; [| |done].
  2: { unfold init, z. repeat (apply Forall_app; split);
       destruct slash; repeat constructor; (done || apply not_elem_of_nil). }
  unfold init, z. destruct slash; cbn [app fmap list_fmap].
  - rewrite fmap_app. cbn [fmap list_fmap].
    change (if 0 <? Zlen (@nil Z) then _ else ?x) with x.
    change (Tree [] false :: ?a ++ [Tree l false]) with ((Tree [] false :: a) ++ [Tree l false]).
    by rewrite end_last_app.
  - rewrite app_nil_r, (proj2 (Z.ltb_lt _ _)); [done|]. destruct l; [done|]. unfold Zlen. cbn. lia.
Qed.

(** ** Queries *)

Definition kv_text (p : kv) : bytes := kv_key p ++ 61 :: kv_value p.

Definition query_of (pairs : list kv) : bytes := join 38 (kv_text <$> pairs).

(** A pair a client writes: both texts there, without the separators. *)
Definition kv_ok (p : kv) : Prop :=
  kv_key p <> [] /\ 61 ∉ kv_key p /\ 38 ∉ kv_key p /\
  kv_value p <> [] /\ 38 ∉ kv_value p /\ forallb (fun b => negb (is_space b)) (kv_value p) = true.

Lemma split_amp_join fuel init l :
  Forall (fun c => 38 ∉ c) (init ++ [l]) -> (length (join 38 (init ++ [l])) <= fuel)%nat ->
  split_amp fuel (join 38 (init ++ [l])) = (init, l).
Proof.
  revert fuel. induction init as [|c init IH]; intros fuel HF Hl.
  - apply Forall_cons in HF as [Hc _]. cbn. destruct fuel; [done|]. cbn.
    by rewrite (proj2 (cut_None l 38) Hc).
  - apply Forall_cons in HF as [Hc HF]. rewrite join_snoc in *.
    rewrite length_app in Hl. cbn [length] in Hl. destruct fuel as [|fuel]; [lia|]. cbn [split_amp].
    rewrite (proj2 (cut_spec _ _ c _)) by done. by rewrite IH by (done || lia).
Qed.

Lemma kv_text_amp p : kv_ok p -> 38 ∉ kv_text p.
Proof.
  intros (_ & _ & Hk & _ & Hv & _). unfold kv_text.
  rewrite not_elem_of_app, not_elem_of_cons. by repeat split.
Qed.

Lemma kv_text_length p : kv_ok p -> 3 <= Zlen (kv_text p).
Proof.
  intros (Hk & _ & _ & Hv & _). unfold kv_text. zlen.
  destruct (kv_key p), (kv_value p); try done. zlen. pose proof (Zlen_nonneg l). pose proof (Zlen_nonneg l0). lia.
Qed.

Lemma scan_kv_ok p : kv_ok p -> scan_kv (kv_text p) = Ret (Some p).
Proof.
  intros (Hk & Hk61 & _ & Hv & _ & Hw). unfold kv_text, scan_kv.
  destruct (kv_key p ++ 61 :: kv_value p) eqn:E; [by destruct (kv_key p)|]. rewrite <- E. clear E.
  rewrite (proj2 (cut_spec _ _ (kv_key p) (kv_value p))) by done.
  rewrite bool_decide_eq_false_2 by done.
  assert (Hs : skip_space (kv_value p) = kv_value p).
  { destruct (kv_value p) as [|b v]; [done|]. cbn in *. bool_hyps. by rewrite H. }
  rewrite Hs, word_id by done. rewrite bool_decide_eq_false_2 by done. by destruct p.
Qed.

Lemma scan_all_ok pairs : Forall kv_ok pairs -> scan_all (kv_text <$> pairs) = Ret (Some <$> pairs).
Proof.
  induction 1 as [|p ps Hp _ IH]; [done|]. cbn [fmap list_fmap scan_all].
  by rewrite scan_kv_ok, IH by done.
Qed.

Lemma omap_Some {A} (l : list A) : omap id (Some <$> l) = l.
Proof. induction l as [|x l IH]; [done|]. cbn. by f_equal. Qed.

Lemma uri_param_free_ok pairs : uri_param_free (length pairs) (Some <$> pairs) = Ret tt.
Proof. by induction pairs. Qed.

(** A query of two pieces or more is split at its ampersands. *)
Lemma uri_param_parse_join ps l :
  ps <> [] -> Forall (fun c => 38 ∉ c) (ps ++ [l]) ->
  uri_param_parse (join 38 (ps ++ [l])) =
  (let* params := scan_all (ps ++ [l]) in Ret (params, Zlen (omap id params))).
Proof.
  intros Hne HF. unfold uri_param_parse. rewrite split_amp_join by done. by destruct ps.
Qed.

Lemma uri_parse_query path param :
  63 ∉ path ->
  uri_parse (path ++ 63 :: param) =
  (let* r := (if 3 <=? Zlen param then uri_param_parse param else Ret ([], 0)) in
   Ret (UriContent (uri_parse_tree path) (snd r) (fst r))).
Proof.
  intros Hn. unfold uri_parse.
  assert (Hin : 63 ∈ path ++ 63 :: param) by (apply elem_of_app; right; left).
  rewrite !bool_decide_eq_false_2; cbn [orb].
  - by rewrite (proj2 (cut_spec _ _ path param)).
  - intros E. rewrite E in Hin. revert Hin. apply (bool_decide_eq_false_1 _). reflexivity.
  - intros E. rewrite E in Hin. revert Hin. apply (bool_decide_eq_false_1 _). reflexivity.
Qed.

(** A query of two or more key=value pairs gives exactly those pairs in
    their order, next to the components of the path, and is released again. *)
Theorem uri_params_correct path p q pairs :
  63 ∉ path -> Forall kv_ok (p :: q :: pairs) ->
  exists ct, uri_parse (path ++ 63 :: query_of (p :: q :: pairs)) = Ret ct /\
    uc_sub_tree ct = uri_parse_tree path /\
    uc_params ct = Some <$> p :: q :: pairs /\ uc_params_count ct = Zlen (p :: q :: pairs) /\
    uri_free ct = Ret tt.
Proof.
  intros Hp HF. eexists. split.
  - rewrite uri_parse_query by done. rewrite (proj2 (Z.leb_le _ _)).
    + unfold query_of. destruct (exists_last (l := kv_text <$> p :: q :: pairs)) as (ps & l & E); [done|].
      assert (HF' : Forall (fun c => 38 ∉ c) (ps ++ [l])).
      { rewrite <- E. apply Forall_fmap. eapply Forall_impl; [exact HF|]. apply kv_text_amp. }
      rewrite E, uri_param_parse_join; [|by intros ->|done]. rewrite <- E, scan_all_ok by done.
      cbn [ebind]. rewrite omap_Some. reflexivity.
    + apply Forall_cons in HF as [H1 _]. pose proof (kv_text_length p H1).
      change (query_of (p :: q :: pairs)) with (kv_text p ++ 38 :: query_of (q :: pairs)).
      zlen. pose proof (Zlen_nonneg (query_of (q :: pairs))). lia.
  - repeat split. unfold uri_free. cbn [uc_params_count uc_params fst snd]. unfold Zlen. rewrite Nat2Z.id.
    apply uri_param_free_ok.
Qed.

(** What a query must not look like.  A single pair is ignored; with an
    empty piece in front of the pairs the URI is taken apart, but releasing it
    follows a NULL; a piece without an equals sign overruns the buffer of its
    key. *)
Theorem uri_query_hazards path p pairs piece :
  63 ∉ path -> kv_ok p -> Forall kv_ok pairs -> 61 ∉ piece -> 38 ∉ piece -> piece <> [] ->
  uri_parse (path ++ 63 :: query_of [p]) = Ret (UriContent (uri_parse_tree path) 0 []) /\
  (exists ct, uri_parse (path ++ 63 :: 38 :: query_of (p :: pairs)) = Ret ct /\ uri_free ct = UB) /\
  uri_parse (path ++ 63 :: piece ++ 38 :: query_of (p :: pairs)) = UB.
Proof.
  intros Hpath Hp HF Heq Hamp Hne.
  pose proof (kv_text_length p Hp) as Hl.
  assert (Hq : 3 <= Zlen (query_of (p :: pairs))).
  { unfold query_of. destruct pairs as [|q pairs]; [done|].
    change (join 38 (kv_text <$> p :: q :: pairs)) with (kv_text p ++ 38 :: query_of (q :: pairs)).
    zlen. pose proof (Zlen_nonneg (query_of (q :: pairs))). lia. }
  assert (Hamps : Forall (fun c => 38 ∉ c) (kv_text <$> p :: pairs)).
  { apply Forall_fmap. constructor; [by apply kv_text_amp|].
    eapply Forall_impl; [exact HF|]. apply kv_text_amp. }
  assert (Hsplit : forall c, 38 ∉ c ->
    uri_param_parse (c ++ 38 :: query_of (p :: pairs)) =
    (let* params := scan_all (c :: (kv_text <$> p :: pairs)) in Ret (params, Zlen (omap id params)))).
  { intros c Hc. change (c ++ 38 :: query_of (p :: pairs)) with (join 38 (c :: (kv_text <$> p :: pairs))).
    destruct (exists_last (l := kv_text <$> p :: pairs)) as (ps & l & E); [done|]. rewrite E in *.
    change (c :: ps ++ [l]) with ((c :: ps) ++ [l]). apply uri_param_parse_join; [done|].
    cbn [app]. by constructor. }
  split; [|split].
  - rewrite uri_parse_query by done. change (query_of [p]) with (kv_text p).
    rewrite (proj2 (Z.leb_le _ _)) by done.
    unfold uri_param_parse. change (kv_text p) with (join 38 ([] ++ [kv_text p])) at 2.
    rewrite split_amp_join; [done| |done]. constructor; [by apply kv_text_amp|constructor].
  - eexists. split.
    + rewrite uri_parse_query by done. rewrite (proj2 (Z.leb_le _ _)) by (zlen; lia).
      pose proof (Hsplit [] (not_elem_of_nil _)) as Hs0. cbn [app] in Hs0. rewrite Hs0. cbn [scan_all scan_kv ebind].
      rewrite scan_all_ok by (by constructor). cbn [ebind]. reflexivity.
    + unfold uri_free. cbn [uc_params_count uc_params fst snd fmap list_fmap omap list_omap id].
      unfold Zlen. rewrite Nat2Z.id. reflexivity.
  - rewrite uri_parse_query by done.
    rewrite (proj2 (Z.leb_le _ _)) by (zlen; pose proof (Zlen_nonneg piece); lia).
    rewrite Hsplit by done. cbn [scan_all]. unfold scan_kv. destruct piece as [|b piece]; [done|].
    by rewrite (proj2 (cut_None _ 61) Heq).
Qed.

(** ** Witnesses *)

Definition demo_pair (k v : bytes) : kv := KV k v.

Lemma demo_pair_ok : kv_ok (KV (str "page") (str "1")).
Proof.
  repeat split; try discriminate; apply (bool_decide_eq_true_1 _); vm_compute; reflexivity.
Qed.

Lemma uri_params_correct_witness :
  exists ct, uri_parse (str "/api/v4/clients?page=1&page=1") = Ret ct /\
    uc_params ct = [Some (KV (str "page") (str "1")); Some (KV (str "page") (str "1"))] /\
    uri_free ct = Ret tt.
Proof.
  assert (Hp : 63 ∉ str "/api/v4/clients") by (apply (bool_decide_eq_true_1 _); vm_compute; reflexivity).
  destruct (uri_params_correct (str "/api/v4/clients") (KV (str "page") (str "1"))
    (KV (str "page") (str "1")) [] Hp) as (ct & H1 & _ & H2 & _ & H3).
  - constructor; [exact demo_pair_ok|]. constructor; [exact demo_pair_ok|constructor].
  - exists ct. split; [exact H1|]. split; [exact H2|exact H3].
Defined.

(** Two requests that stop the broker, and one whose parameter is lost. *)
Lemma uri_query_hazards_witness :
  uri_parse (str "/api/v4/nodes?page=1") = Ret (UriContent (uri_parse_tree (str "/api/v4/nodes")) 0 []) /\
  (exists ct, uri_parse (str "/api/v4/nodes?&page=1") = Ret ct /\ uri_free ct = UB) /\
  uri_parse (str "/api/v4/nodes?a&page=1") = UB.
Proof.
  assert (Hp : 63 ∉ str "/api/v4/nodes") by (apply (bool_decide_eq_true_1 _); vm_compute; reflexivity).
  apply (uri_query_hazards (str "/api/v4/nodes") (KV (str "page") (str "1")) [] (str "a") Hp demo_pair_ok);
    [constructor|apply (bool_decide_eq_true_1 _); vm_compute; reflexivity..|discriminate].
Defined.
