(* ===== verification/RestMqtt.v ===== *)
(** * rest_api.c: publishing, subscribing and unsubscribing over HTTP

    The endpoints under /api/v4/mqtt: a JSON object, or an array of them, is
    turned into PUBLISH messages for the broker, or changes the subscriptions
    of a connected client, found in the hash table of client ids. *)

From Stdlib Require Import ZArith Lia.
From stdpp Require Import base numbers list gmap option sets strings.
From S2P Require Import Prelude Hashmap Mqtt Nng NngModel SubHandler UnsubHandler PubHandler Cstring MqttApi RestHttp Cjson.

Local Open Scope Z_scope.
Local Open Scope nano_scope.

(** ** Properties of a PUBLISH *)

(** Identifiers of MQTT 5, 2.2.2.2. *)
Definition PAYLOAD_FORMAT_INDICATOR : Z := 0x01.
Definition RESPONSE_TOPIC : Z := 0x08.
Definition CORRELATION_DATA : Z := 0x09.
Definition CONTENT_TYPE : Z := 0x03.
Definition USER_PROPERTY : Z := 0x26.

(** The calls of [property_set_value_*]. *)
Inductive prop_value :=
| PropU8 (id v : Z)
| PropU16 (id v : Z)
| PropStr (id : Z) (s : bytes)
| PropBin (id : Z) (s : bytes)
| PropVarint (id v : Z)
| PropPair (id : Z) (key value : bytes).

(** A message handed to the socket, or released. *)
Inductive send_ev (msg : Type) := PSent (m : msg) | PFree (m : option msg).
Arguments PSent {msg}.
Arguments PFree {msg}.

Section Rest.
Context {J : Type} `{HJ : Cjson J}.

(** A property that is there when its key has a value of the right type. *)
Definition opt_prop {A} (v : option A) (f : A -> exec prop_value) : exec (list prop_value) :=
  match v with Some x => let* p := f x in Ret [p] | None => Ret [] end.

(** The text of a number: [%ld] when it is an [int], [%lf] otherwise, in a
    buffer of 50 characters. *)
Definition number_str (n : jnum) : bytes :=
  if jn_exact n && (- 2 ^ 31 <=? jn_trunc n) && (jn_trunc n <? 2 ^ 31)
  then take 49 (dec (jn_trunc n)) else take 49 (jn_lf n).

Definition user_property (item : bytes * J) : option prop_value :=
  let '(key, v) := item in
  match cJSON_number v with
  | Some n => Some (PropPair USER_PROPERTY key (number_str n))
  | None =>
      match cJSON_bool v with
      | Some b => Some (PropPair USER_PROPERTY key (if b then str "true" else str "false"))
      | None =>
          match cJSON_string v with
          | Some s => Some (PropPair USER_PROPERTY key s)
          | None => None
          end
      end
  end.

(** The key of the subscription identifier ends with a tab; the content type
    gets the identifier of the correlation data. *)
Definition properties_parse (json : J) : exec (list prop_value) :=
  let json := Some json in
  let* p1 := opt_prop (getNumberValue json (str "payload_format_indicator"))
               (fun n => let* v := to_uint 8 n in Ret (PropU8 PAYLOAD_FORMAT_INDICATOR v)) in
  let* p2 := opt_prop (getNumberValue json (str "message_expiry_interval"))
               (fun n => let* v := to_uint 16 n in Ret (PropU16 MESSAGE_EXPIRY_INTERVAL v)) in
  let* p3 := opt_prop (getStringValue json (str "response_topic"))
               (fun s => Ret (PropStr RESPONSE_TOPIC s)) in
  let* p4 := opt_prop (getStringValue json (str "correlation_data"))
               (fun s => Ret (PropBin CORRELATION_DATA s)) in
  let* p5 := opt_prop (getNumberValue json (str "subscription_identifier" ++ [9]))
               (fun n => let* v := to_uint 32 n in Ret (PropVarint SUBSCRIPTION_IDENTIFIER v)) in
  let* p6 := opt_prop (getStringValue json (str "content_type"))
               (fun s => Ret (PropStr CORRELATION_DATA s)) in
  let user := match get_object json (str "user_properties") with
              | Some o => omap user_property (cJSON_children o)
              | None => []
              end in
  Ret (p1 ++ p2 ++ p3 ++ p4 ++ p5 ++ p6 ++ user).

(** ** Publishing *)

(** What the setters of nng's MQTT messages are given. *)
Record pub_request := PubRequest {
  pr_payload : option bytes;
  pr_qos : Z;
  pr_retain : bool;
  pr_topic : bytes;
  pr_props : option (list prop_value)
}.

Section Publish.
Context {msg : Type} `{Hmsg : NngMsg msg}.
(** nng's message for a request, and its codec *)
Variable mqtt_publish_msg : pub_request -> msg.
Variables mqtt_encode mqttv5_encode : msg -> msg.
(** [base64_encode] of nanolib *)
Variable base64_encode : bytes -> bytes.
(** the i-th allocation in [encode_common_mqtt_msg], and the i-th send *)
Variable msg_alloc : nat -> Z * msg.
Variable nng_sendmsg : nat -> Z.

Definition publish_request (payload topic : bytes) (qos : Z) (retain encode_base64 : bool)
    (props : option (list prop_value)) : pub_request :=
  let payload :=
    if encode_base64 then
      let text := base64_encode payload in
      if 0 <? Zlen text then Some text else None
    else Some payload in
  PubRequest payload qos retain topic props.

Definition pub_protover (props : option (list prop_value)) : Z :=
  match props with Some _ => MQTT_PROTOCOL_VERSION_v5 | None => MQTT_PROTOCOL_VERSION_v311 end.

(** One message per topic; the first failure ends the loop.  The result of the
    encoder is compared with 0 before it is assigned. *)
Fixpoint send_publish_loop (i : nat) (clientid payload : bytes) (topics : list bytes) (qos : Z)
    (retain encode_base64 : bool) (props : option (list prop_value)) (rv : Z)
    : Z * list (send_ev msg) :=
  match topics with
  | [] => (rv, [])
  | t :: topics' =>
      let pub_msg := mqtt_publish_msg (publish_request payload t qos retain encode_base64 props) in
      let '(erv, m) := encode_common_mqtt_msg mqtt_encode mqttv5_encode (msg_alloc i) pub_msg clientid
                         (pub_protover props) in
      if negb (erv =? 0) then (1, [PFree m])
      else
        let srv := nng_sendmsg i in
        if negb (srv =? 0) then (srv, [PFree m])
        else
          let '(rv, ev) := send_publish_loop (S i) clientid payload topics' qos retain encode_base64 props srv in
          (rv, match m with Some m => [PSent m] | None => [] end ++ ev)
  end.

Definition send_publish (clientid payload : bytes) (topics : list bytes) (qos : Z)
    (retain encode_base64 : bool) (props : option (list prop_value)) : Z * list (send_ev msg) :=
  send_publish_loop 0 clientid payload topics qos retain encode_base64 props 0.

(** "topic" is one topic, "topics" several with commas between them. *)
Definition json_topics (obj : J) : option (list bytes) :=
  match getStringValue (Some obj) (str "topic") with
  | Some t => Some [t]
  | None => (fun s => strtok s 44) <$> getStringValue (Some obj) (str "topics")
  end.

Definition handle_publish_msg (pub_obj : J) : exec (Z * list (send_ev msg)) :=
  let obj := Some pub_obj in
  match json_topics pub_obj, getStringValue obj (str "clientid"), getStringValue obj (str "payload") with
  | Some topics, Some clientid, Some payload =>
      let encoding := default (str "plain") (getStringValue obj (str "encoding")) in
      let* qos := match getNumberValue obj (str "qos") with Some n => to_uint 8 n | None => Ret 0 end in
      let retain := default false (getBoolValue obj (str "retain")) in
      let* props := match get_object obj (str "properties") with
                    | Some o => if cJSON_IsObject o then let* p := properties_parse o in Ret (Some p)
                                else Ret None
                    | None => Ret None
                    end in
      let '(rv, ev) := send_publish clientid payload topics qos retain
                         (bool_decide (encoding = str "base64")) props in
      Ret (if negb (rv =? SUCCEED) then UNKNOWN_MISTAKE else rv, ev)
  | _, _, _ => Ret (REQ_PARAM_ERROR, [])
  end.
End Publish.

(** ** Subscribing *)

Section Subscribe.
Context {db hash : Type} `{Hdb : NngDb db hash}.

(** The client table, the topic tree and the table of subscriptions. *)
Record sub_state := SubState { st_table : hashmap; st_db : db; st_hash : hash }.

Fixpoint subscribe_loop (p qos : Z) (topics : list bytes) (d : db) (h : hash) : db * hash :=
  match topics with
  | [] => (d, h)
  | t :: topics' =>
      let '(d, h) := if dbhash_check_topic h p t then (d, h)
                     else (dbtree_insert_client d t p, dbhash_insert_topic h p t qos) in
      subscribe_loop p qos topics' d h
  end.

(** [rv] is left over from reading "qos": without it the call fails, after the
    client was subscribed. *)
Definition handle_subscribe_msg (sub_obj : J) (s : sub_state) : exec (Z * sub_state) :=
  let obj := Some sub_obj in
  match json_topics sub_obj, getStringValue obj (str "clientid") with
  | Some topics, Some clientid =>
      let n := getNumberValue obj (str "qos") in
      let* qos := match n with Some n => to_uint 8 n | None => Ret 0 end in
      let rv := match n with Some _ => 0 | None => -1 end in
      let pid := snd (nano_hashmap_get (st_table s) clientid (Zlen clientid)) in
      let s := if negb (pid =? 0) then
                 let '(d, h) := subscribe_loop pid qos topics (st_db s) (st_hash s) in
                 SubState (st_table s) d h
               else s in
      Ret (if negb (rv =? SUCCEED) then UNKNOWN_MISTAKE else rv, s)
  | _, _ => Ret (REQ_PARAM_ERROR, s)
  end.

Definition handle_unsubscribe_msg (sub_obj : J) (s : sub_state) : exec (Z * sub_state) :=
  let obj := Some sub_obj in
  match getStringValue obj (str "topic"), getStringValue obj (str "clientid") with
  | Some topic, Some clientid =>
      let pid := snd (nano_hashmap_get (st_table s) clientid (Zlen clientid)) in
      Ret (SUCCEED, if negb (pid =? 0) then
                      let '(_, (d, h)) := sub_ctx_del (st_db s) (st_hash s) topic pid in
                      SubState (st_table s) d h
                    else s)
  | _, _ => Ret (REQ_PARAM_ERROR, s)
  end.
End Subscribe.

(** ** The endpoints *)

Section Post.
Context {S : Type}.
Variable print : jval -> bytes.
(** one of the three handlers, on the state it works on *)
Variable cb : J -> S -> exec (Z * S).

Definition post_mqtt_msg (msg : http_msg) (s : S) : exec (http_msg * S) :=
  let fail := let* res := error_response print msg NNG_HTTP_STATUS_BAD_REQUEST
                            REQ_PARAMS_JSON_FORMAT_ILLEGAL in Ret (res, s) in
  match cJSON_ParseWithLength (default [] (hm_data msg)) with
  | Some req =>
      if negb (cJSON_IsObject req) then fail
      else
        let* r := cb req s in
        let '(rv, s) := r in
        let* res := code_reply print NNG_HTTP_STATUS_OK rv in
        Ret (res, s)
  | None => fail
  end.

(** The topic of an element is repeated in its result. *)
Fixpoint batch_loop (items : list J) (s : S) : exec (list jval * S) :=
  match items with
  | [] => Ret ([], s)
  | item :: items' =>
      let topic := match getStringValue (Some item) (str "topics") with
                   | Some t => Some t
                   | None => getStringValue (Some item) (str "topic")
                   end in
      let* r := cb item s in
      let '(code, s) := r in
      let* rs := batch_loop items' s in
      let '(l, s) := rs in
      Ret (JObject [(str "topic", JString topic); (str "code", JNumber code)] :: l, s)
  end.

Definition post_mqtt_msg_batch (msg : http_msg) (s : S) : exec (http_msg * S) :=
  let fail := let* res := error_response print msg NNG_HTTP_STATUS_BAD_REQUEST
                            REQ_PARAMS_JSON_FORMAT_ILLEGAL in Ret (res, s) in
  match cJSON_ParseWithLength (default [] (hm_data msg)) with
  | Some req =>
      if negb (cJSON_IsArray req) then fail
      else
        let* r := batch_loop (snd <$> cJSON_children req) s in
        let '(l, s) := r in
        let* res := json_reply print NNG_HTTP_STATUS_OK application_json
                      (JObject [(str "data", JArray l); (str "code", JNumber SUCCEED)]) in
        Ret (res, s)
  | None => fail
  end.
End Post.
End Rest.

(** ** Lemmas *)

(** What a loop that never fails sends. *)
Lemma send_publish_loop_ok {msg} `{NngMsg msg} mk enc enc5 b64 (alloc : nat -> Z * msg) (send : nat -> Z) m0
    clientid payload topics qos retain b props (ws : list msg) i :
  (forall j, alloc j = (0, m0)) -> (forall j, send j = 0) ->
  Forall2 (fun t w => encode_common_mqtt_msg enc enc5 (0, m0)
      (mk (publish_request b64 payload t qos retain b props)) clientid (pub_protover props) = (0, Some w))
    topics ws ->
  send_publish_loop mk enc enc5 b64 alloc send i clientid payload topics qos retain b props 0 =
  (0, PSent <$> ws).
Proof.
  intros Ha Hs HF. revert i. induction HF as [|t w topics ws Hw _ IH]; intros i; [done|].
  cbn [send_publish_loop]. rewrite Ha, Hw. cbn [Z.eqb negb]. rewrite Hs. cbn [Z.eqb negb]. by rewrite IH.
Qed.

(** Subscribing keeps tree and table in agreement and adds the topics. *)
Lemma subscribe_loop_spec {db hash} `{Hdb : NngDb db hash} {Hl : NngDbLaws db hash} p qos topics (d : db) (h : hash) d' h' :
  consistent d h -> subscribe_loop p qos topics d h = (d', h') ->
  consistent d' h' /\
  forall p' t', registered h' p' t' <-> registered h p' t' \/ (p' = p /\ t' ∈ topics).
Proof.
  revert d h. induction topics as [|t topics IH]; intros d h Hc.
  - intros [= <- <-]. split; [done|]. intros. set_solver.
  - cbn [subscribe_loop]. destruct (dbhash_check_topic h p t) eqn:Ex; intros Hrun.
    + destruct (IH _ _ Hc Hrun) as [Hc' Hr]. split; [done|]. intros p' t'. rewrite Hr, elem_of_cons.
      apply check_topic_spec in Ex. split; [tauto|]. intros [?|[-> [->|?]]]; tauto.
    + destruct (IH _ _ (consistent_insert d h t p qos Hc) Hrun) as [Hc' Hr]. split; [done|].
      intros p' t'. rewrite Hr, insert_topic_spec, elem_of_cons. tauto.
Qed.

(** ** Properties *)

Section PublishProps.
Context {J : Type} `{HJ : Cjson J}.
Context {msg : Type} `{Hmsg : NngMsg msg} {Hml : NngMsgLaws msg} {Hnf : NngMsgNoFail msg}.
Variable mqtt_publish_msg : pub_request -> msg.
Variables mqtt_encode mqttv5_encode mqtt_decode mqttv5_decode : msg -> msg.
Variable base64_encode : bytes -> bytes.

(** The MQTT encoding of a request, by the version its properties ask for. *)
Definition encoded (r : pub_request) : msg :=
  if pub_protover (pr_props r) =? MQTT_PROTOCOL_VERSION_v5
  then mqttv5_encode (mqtt_publish_msg r) else mqtt_encode (mqtt_publish_msg r).

(** The PUBLISH for one topic, read off the JSON object: "retain" is false when
    it is missing, and the payload is taken as it is, or encoded when "encoding"
    is "base64"; an empty encoding is no payload. *)
Definition request_of (obj : J) (payload : bytes) (qos : Z) (props : option (list prop_value)) (t : bytes)
    : pub_request :=
  {| pr_topic := t;
     pr_qos := qos;
     pr_retain := bool_decide (getBoolValue (Some obj) (str "retain") = Some true);
     pr_payload :=
       if bool_decide (getStringValue (Some obj) (str "encoding") = Some (str "base64"))
       then if bool_decide (base64_encode payload = []) then None else Some (base64_encode payload)
       else Some payload;
     pr_props := props |}.

Lemma publish_request_of (obj : J) payload qos props t :
  publish_request base64_encode payload t qos (default false (getBoolValue (Some obj) (str "retain")))
    (bool_decide (default (str "plain") (getStringValue (Some obj) (str "encoding")) = str "base64")) props =
  request_of obj payload qos props t.
Proof.
  unfold publish_request, request_of. f_equal.
  - assert (He : bool_decide (default (str "plain") (getStringValue (Some obj) (str "encoding")) = str "base64") =
      bool_decide (getStringValue (Some obj) (str "encoding") = Some (str "base64"))).
    { apply bool_decide_ext. destruct (getStringValue _ _) as [e|]; cbn [default from_option id]; [split; congruence|].
      split; [intros H; vm_compute in H; discriminate H|done]. }
    rewrite He. destruct (bool_decide (getStringValue _ _ = _)); [|done]. destruct (base64_encode payload) as [|b l]; [done|].
    rewrite (proj2 (Z.ltb_lt 0 _)) by (rewrite Zlen_cons; pose proof (Zlen_nonneg l); lia). by rewrite bool_decide_eq_false_2.
  - by destruct (getBoolValue _ _) as [[]|].
Qed.

(** [w] is taken apart again by the broker's work item as the PUBLISH [r] of the
    client. *)
Definition delivers (m1 : msg) (clientid : bytes) (r : pub_request) (w : msg) : Prop :=
  exists m, nng_msg_header m = nng_msg_header (encoded r) /\ nng_msg_body m = nng_msg_body (encoded r) /\
    decode_common_mqtt_msg mqtt_decode mqttv5_decode (0, m1) w =
    Ret (0, Some ((if pub_protover (pr_props r) =? MQTT_PROTOCOL_VERSION_v5
                   then mqttv5_decode m else mqtt_decode m),
                  ConnParam clientid (pub_protover (pr_props r)))).

End PublishProps.

Section SubscribeProps.
Context {J : Type} `{HJ : Cjson J}.
Context {db hash : Type} `{Hdb : NngDb db hash} {Hdl : NngDbLaws db hash}.

(** The client id a request names, and the subscriptions it asks for. *)
Definition named_client (s : sub_state (db := db) (hash := hash)) (clientid : bytes) : option Z := to_map (st_table s) !! clientid.

(** What a request leaves alone: the client table, and agreement. *)
Definition sub_frame (s s' : sub_state (db := db) (hash := hash)) : Prop :=
  st_table s' = st_table s /\ consistent (st_db s') (st_hash s').

(** Subscribing over HTTP adds the named topics to the client the client
    table lists under the given id, and to nobody else; tree and table keep
    agreeing; an unknown id changes nothing.  The answer is 0 only when the
    request has a "qos": without it the client is subscribed, too, but an
    unknown mistake is reported. *)
Lemma http_subscribe_correct (s : sub_state (db := db) (hash := hash)) obj topics clientid qos :
  wf (st_table s) -> consistent (st_db s) (st_hash s) ->
  json_topics obj = Some topics ->
  getStringValue (Some obj) (str "clientid") = Some clientid ->
  match getNumberValue (Some obj) (str "qos") with Some n => to_uint 8 n = Ret qos | None => qos = 0 end ->
  exists code s', handle_subscribe_msg obj s = Ret (code, s') /\
    code = (if getNumberValue (Some obj) (str "qos") then SUCCEED else UNKNOWN_MISTAKE) /\
    sub_frame s s' /\
    forall p t, registered (st_hash s') p t <->
      registered (st_hash s) p t \/
      (named_client s clientid = Some p /\ p <> 0 /\ t ∈ topics).
Proof.
  intros Hwf Hc Ht Hcid Hq. unfold handle_subscribe_msg. rewrite Ht, Hcid.
  cbn [nano_hashmap_get snd]. rewrite get_spec by done. unfold named_client.
  set (n := getNumberValue _ _) in *.
  assert (Hqos : (match n with Some n => to_uint 8 n | None => Ret 0 end) = Ret qos)
    by (destruct n; [done|by subst]).
  rewrite Hqos. cbn [ebind]. do 2 eexists. split; [done|]. split; [by destruct n|].
  destruct (to_map (st_table s) !! clientid) as [pid|]; cbn [default from_option id].
  - destruct (pid =? 0) eqn:E; bool_hyps; cbn [negb].
    + split; [by split|]. intros p t. split; [tauto|]. intros [?|([= <-] & ? & _)]; done.
    + destruct (subscribe_loop pid qos topics (st_db s) (st_hash s)) as [d h] eqn:El.
      destruct (subscribe_loop_spec _ _ _ _ _ _ _ Hc El) as [Hc' Hr].
      split; [by split|]. intros p t. cbn [st_hash]. rewrite Hr. split.
      * intros [?|[-> ?]]; [by left|right]. by split.
      * intros [?|([= <-] & _ & ?)]; [by left|by right].
  - split; [by split|]. intros p t. split; [tauto|]. by intros [?|(? & _)].
Qed.

(** Unsubscribing over HTTP takes the topic from the named client and
    nothing else from anybody. *)
Theorem http_unsubscribe_correct (s : sub_state (db := db) (hash := hash)) obj topic clientid :
  wf (st_table s) -> consistent (st_db s) (st_hash s) ->
  getStringValue (Some obj) (str "topic") = Some topic ->
  getStringValue (Some obj) (str "clientid") = Some clientid ->
  exists s', handle_unsubscribe_msg obj s = Ret (SUCCEED, s') /\
    sub_frame s s' /\
    forall p t, registered (st_hash s') p t <->
      registered (st_hash s) p t /\
      ~ (named_client s clientid = Some p /\ p <> 0 /\ t = topic).
Proof.
  intros Hwf Hc Ht Hcid. unfold handle_unsubscribe_msg. rewrite Ht, Hcid.
  cbn [nano_hashmap_get snd]. rewrite get_spec by done. unfold named_client.
  eexists. split; [done|].
  destruct (to_map (st_table s) !! clientid) as [pid|]; cbn [default from_option id].
  - destruct (pid =? 0) eqn:E; bool_hyps; cbn [negb].
    + split; [by split|]. intros p t. split; [|tauto]. intros H. split; [done|]. by intros ([= <-] & ? & _).
    + cbn [sub_ctx_del]. unfold sub_ctx_del. split.
      * split; [done|]. by apply consistent_delete.
      * intros p t. cbn [st_hash]. rewrite del_topic_spec. split.
        -- intros [Hn Hr]. split; [done|]. intros ([= <-] & _ & ->). by apply Hn.
        -- intros [Hr Hn]. split; [|done]. intros [-> ->]. by apply Hn.
  - split; [by split|]. intros p t. split; [|tauto]. intros H. split; [done|]. by intros (? & _).
Qed.
End SubscribeProps.

(** ** Witnesses *)

#[local] Instance demo_cjson : Cjson jtree := jtree_cjson (fun _ => None).

Definition demo_publish_obj : jtree :=
  TObj [(str "topics", TStr (str "a,,b")); (str "clientid", TStr (str "c1"));
        (str "payload", TStr (str "hi")); (str "qos", TNum (JNum 1 true []));
        (str "properties", TObj [(str "content_type", TStr (str "text"))])].

(** A PUBLISH whose body is the topic and the payload. *)
Definition demo_publish_msg (r : pub_request) : rmsg :=
  RMsg [] (pr_topic r ++ 32 :: default [] (pr_payload r)) 0 0 CMD_PUBLISH 0.


(** Client "c20" is connected as pipe 8. *)
Definition demo_sub_state : sub_state (db := gset (bytes * Z)) (hash := rhash) :=
  SubState demo_table demo_db demo_hash.

Definition demo_sub_obj : jtree :=
  TObj [(str "topic", TStr (str "t")); (str "clientid", TStr (str "c20"))].

Lemma http_unsubscribe_correct_witness :
  exists s', handle_unsubscribe_msg demo_sub_obj demo_sub_state = Ret (SUCCEED, s') /\
    forall p, named_client demo_sub_state (str "c20") = Some p -> p <> 0 -> ~ registered (st_hash s') p (str "t").
Proof.
  destruct (http_unsubscribe_correct demo_sub_state demo_sub_obj (str "t") (str "c20") demo_wf demo_consistent)
    as (s' & H & _ & Hr); [reflexivity..|].
  exists s'. split; [exact H|]. intros p Hp Hp0 Hreg. apply Hr in Hreg as [_ Hn]. exact (Hn (conj Hp (conj Hp0 eq_refl))).
Defined.
