(* ===== verification/RestConf.v ===== *)
(** * rest_api.c: reading and writing the configuration over HTTP

    GET /configuration answers with the running configuration; POST writes the
    values it finds in the request to the configuration file.  Writing that
    file is nanolib's ([conf_update] and its kin): the model lists the calls. *)

From Stdlib Require Import ZArith Lia.
From stdpp Require Import base numbers list option strings.
From S2P Require Import Prelude Mqtt MqttApi Bridge Webhook Conf Cstring RestHttp Cjson.

Local Open Scope Z_scope.
Local Open Scope nano_scope.

(** ** The configuration *)

Record conf_sqlite := ConfSqlite {
  sq_enable : bool;
  sq_disk_cache_size : Z;
  sq_flush_mem_threshold : Z;
  sq_resend_interval : Z;
  sq_mounted_file_path : option bytes
}.

(** [conf], with the fields only the REST API looks at. *)
Record rest_conf := RestConf {
  rc_conf : conf;
  rc_allow_anonymous : bool;
  rc_http : conf_http_server;
  rc_node_names : list bytes;
  rc_sqlite : conf_sqlite;
  rc_keyfile : option bytes;
  rc_certfile : option bytes;
  rc_cafile : option bytes
}.

Definition set_keyfile (c : rest_conf) (f : option bytes) : rest_conf :=
  RestConf (rc_conf c) (rc_allow_anonymous c) (rc_http c) (rc_node_names c) (rc_sqlite c)
    f (rc_certfile c) (rc_cafile c).
Definition set_certfile (c : rest_conf) (f : option bytes) : rest_conf :=
  RestConf (rc_conf c) (rc_allow_anonymous c) (rc_http c) (rc_node_names c) (rc_sqlite c)
    (rc_keyfile c) f (rc_cafile c).
Definition set_cafile (c : rest_conf) (f : option bytes) : rest_conf :=
  RestConf (rc_conf c) (rc_allow_anonymous c) (rc_http c) (rc_node_names c) (rc_sqlite c)
    (rc_keyfile c) (rc_certfile c) f.

(** ** GET *)

Definition or_null (s : option bytes) : jval := match s with Some s => JString (Some s) | None => JNull end.

Definition tls_json (c : conf) : jval :=
  let t := cf_tls c in
  JObject [(str "enable", JBool (cf_tls_enable c));
           (str "url", JString (cf_tls_url c));
           (str "key_password", or_null (tls_key_password t));
           (str "key", or_null (tls_key t));
           (str "cert", or_null (tls_cert t));
           (str "cacert", or_null (tls_ca t));
           (str "verify_peer", JBool (tls_verify_peer t));
           (str "fail_if_no_peer_cert", JBool (tls_set_fail t))].

Definition ws_json (c : conf) : jval :=
  JObject [(str "enable", JBool (cf_ws_enable c)); (str "url", JString (cf_ws_url c));
           (str "tls_url", JString (cf_ws_tls_url c))].

Definition http_json (c : rest_conf) : jval :=
  JObject [(str "enable", JBool (cf_http_enable (rc_conf c)));
           (str "port", JNumber (http_port (rc_http c)));
           (str "username", JString (http_username (rc_http c)));
           (str "password", JString (http_password (rc_http c)));
           (str "auth_type", JString (Some (match http_auth_type (rc_http c) with
                                            | JWT => str "jwt" | _ => str "basic" end)))].

Definition node_json (name : bytes) (node : conf_bridge_node) : jval :=
  JObject [(str "name", JString (Some name));
           (str "bridge_mode", JBool (bn_enable node));
           (str "address", JString (Some (bn_address node)));
           (str "proto_ver", JNumber (bn_proto_ver node));
           (str "clientid", JString (bn_clientid node));
           (str "clean_start", JBool (bn_clean_start node));
           (str "username", JString (bn_username node));
           (str "password", JString (bn_password node));
           (str "keepalive", JNumber (bn_keepalive node));
           (str "parallel", JNumber (bn_parallel node));
           (str "forwards", JArray ((fun t => JString (Some t)) <$> bn_forwards node));
           (str "subscription", JArray ((fun s : bytes * Z =>
              JObject [(str "topic", JString (Some s.1)); (str "qos", JNumber s.2)]) <$> bn_sub_list node))].

Definition sqlite_json (s : conf_sqlite) : jval :=
  JObject [(str "enable", JBool (sq_enable s));
           (str "disk_cache_size", JNumber (sq_disk_cache_size s));
           (str "flush_mem_threshold", JNumber (sq_flush_mem_threshold s));
           (str "resend_interval", JNumber (sq_resend_interval s));
           (str "mounted_file_path", JString (sq_mounted_file_path s))].

Definition bridge_json (c : rest_conf) : jval :=
  JObject [(str "nodes", JArray (zip_with node_json (rc_node_names c) (cf_bridge_nodes (rc_conf c))));
           (str "sqlite", sqlite_json (rc_sqlite c))].

Definition conf_json (rc : rest_conf) : jval :=
  let c := rc_conf rc in
  JObject [(str "url", JString (cf_url c));
           (str "num_taskq_thread", JNumber (cf_num_taskq_thread c));
           (str "max_taskq_thread", JNumber (cf_max_taskq_thread c));
           (str "parallel", JNumber (cf_parallel c));
           (str "property_size", JNumber (cf_property_size c));
           (str "msq_len", JNumber (cf_msq_len c));
           (str "allow_anonymous", JBool (rc_allow_anonymous rc));
           (str "daemon", JBool (cf_daemon c));
           (str "tls", tls_json c);
           (str "websocket", ws_json c);
           (str "http_server", http_json rc);
           (str "bridge", bridge_json rc)].

Definition config_reply (rc : rest_conf) : jval :=
  JObject [(str "code", JNumber SUCCEED); (str "data", conf_json rc)].

Definition get_config (print : jval -> bytes) (rc : rest_conf) : exec http_msg :=
  json_reply print NNG_HTTP_STATUS_OK application_json (config_reply rc).

(** ** POST *)

(** A key of the file; [conf_update2] joins three parts. *)
Inductive upd_key := K1 (key : bytes) | K2 (key1 name key2 : bytes).

Inductive upd_val := VStr (s : bytes) | VBool (b : bool) | VInt (v : Z) | VU8 (v : Z) | VU16 (v : Z) | VU64 (v : Z).

Inductive conf_upd := Upd (key : upd_key) (v : upd_val) | FileWrite (path : option bytes) (text : bytes).

Section Update.
Context {J : Type} `{HJ : Cjson J}.

(** A value under [name], when it has the right type, to the key [key]. *)
Definition upd_str (json : option J) (name : bytes) (key : upd_key) : list conf_upd :=
  match getStringValue json name with Some s => [Upd key (VStr s)] | None => [] end.
Definition upd_bool (json : option J) (name : bytes) (key : upd_key) : list conf_upd :=
  match getBoolValue json name with Some b => [Upd key (VBool b)] | None => [] end.
Definition upd_num (conv : jnum -> exec upd_val) (json : option J) (name : bytes) (key : upd_key)
    : exec (list conf_upd) :=
  match getNumberValue json name with Some n => let* v := conv n in Ret [Upd key v] | None => Ret [] end.

Definition as_int (n : jnum) : exec upd_val := let* v := to_int n in Ret (VInt v).
Definition as_u8 (n : jnum) : exec upd_val := let* v := to_uint 8 n in Ret (VU8 v).
Definition as_u16 (n : jnum) : exec upd_val := let* v := to_uint 16 n in Ret (VU16 v).
Definition as_u64 (n : jnum) : exec upd_val := let* v := to_uint 64 n in Ret (VU64 v).

(** [nano_getcwd] *)
Variable cwd : option bytes.

(** A PEM text goes to the configured file; without one, to a file in the
    working directory, which is then configured. *)
Definition upd_file (json : option J) (name key file : bytes) (cur : option bytes)
    : list conf_upd * option bytes :=
  match getStringValue json name with
  | None => ([], cur)
  | Some text =>
      match cur, cwd with
      | Some f, _ => ([FileWrite (Some f) text], cur)
      | None, Some dir => ([Upd (K1 key) (VStr (dir ++ file)); FileWrite (Some (dir ++ file)) text],
                           Some (dir ++ file))
      | None, None => ([FileWrite None text], None)
      end
  end.

Definition update_tls (tls : option J) (config : rest_conf) : list conf_upd * rest_conf :=
  let '(u1, keyfile) := upd_file tls (str "key") (str "tls.keyfile") (str "/key.pem") (rc_keyfile config) in
  let '(u2, certfile) := upd_file tls (str "cert") (str "tls.certfile") (str "/cert.pem") (rc_certfile config) in
  let '(u3, cafile) := upd_file tls (str "cacert") (str "tls.cacertfile") (str "/cacert.pem") (rc_cafile config) in
  (upd_bool tls (str "enable") (K1 (str "tls.enable")) ++
   upd_str tls (str "url") (K1 (str "tls.url")) ++
   upd_str tls (str "keypass") (K1 (str "tls.keypass")) ++
   u1 ++ u2 ++ u3 ++
   upd_bool tls (str "verify_peer") (K1 (str "tls.verify_peer")) ++
   upd_bool tls (str "fail_if_no_peer_cert") (K1 (str "tls.fail_if_no_peer_cert")),
   set_cafile (set_certfile (set_keyfile config keyfile) certfile) cafile).

Definition update_ws (ws : option J) : list conf_upd :=
  upd_bool ws (str "enable") (K1 (str "websocket.enable")) ++
  upd_str ws (str "url") (K1 (str "websocket.url")) ++
  upd_str ws (str "tls_url") (K1 (str "websocket.tls_url")).

Definition update_http (http : option J) : exec (list conf_upd) :=
  let* port := upd_num as_u16 http (str "port") (K1 (str "http_server.port")) in
  Ret (upd_bool http (str "enable") (K1 (str "http_server.enable")) ++ port ++
       upd_str http (str "username") (K1 (str "http_server.username")) ++
       upd_str http (str "password") (K1 (str "http_server.password")) ++
       match getStringValue http (str "auth_type") with
       | Some t => if bool_decide (t = str "basic") || bool_decide (t = str "jwt")
                   then [Upd (K1 (str "http_server.auth_type")) (VStr t)] else []
       | None => []
       end).

Definition is_object (json : option J) : bool :=
  match json with Some o => cJSON_IsObject o | None => false end.
Definition is_array (json : option J) : bool :=
  match json with Some o => cJSON_IsArray o | None => false end.

Definition update_main_conf (json : option J) (config : rest_conf) : exec (list conf_upd * rest_conf) :=
  let* num := upd_num as_int json (str "num_taskq_thread") (K1 (str "num_taskq_thread")) in
  let* max := upd_num as_int json (str "max_taskq_thread") (K1 (str "max_taskq_thread")) in
  let* parallel := upd_num as_u64 json (str "parallel") (K1 (str "parallel")) in
  let* property_size := upd_num as_int json (str "property_size") (K1 (str "property_size")) in
  let* msq_len := upd_num as_int json (str "msq_len") (K1 (str "msq_len")) in
  let* qos_duration := upd_num as_int json (str "qos_duration") (K1 (str "qos_duration")) in
  let tls := get_object json (str "tls") in
  let '(tls_upd, config) := if is_object tls then update_tls tls config else ([], config) in
  let ws := get_object json (str "websocket") in
  let http := get_object json (str "http_server") in
  let* http_upd := (if is_object http then update_http http else Ret []) in
  Ret (upd_str json (str "url") (K1 (str "url")) ++
       upd_bool json (str "daemon") (K1 (str "daemon")) ++
       num ++ max ++ parallel ++ property_size ++ msq_len ++ qos_duration ++
       upd_bool json (str "allow_anonymous") (K1 (str "allow_anonymous")) ++
       tls_upd ++ (if is_object ws then update_ws ws else []) ++ http_upd, config).

(** *** Bridges *)

Definition key1 : bytes := str "bridge.mqtt.".

(** The topics in one text, with commas; an element that is no string, or no
    element at all, leaves nothing to read. *)
Definition forwards_text (topics : option J) : exec bytes :=
  let items := match topics with Some o => snd <$> cJSON_children o | None => [] end in
  match mapM cJSON_string items with
  | Some (t :: ts) => Ret (join 44 (t :: ts))
  | _ => UB
  end.

(** [sprintf] into a buffer of 100 characters. *)
Definition sub_keyname (name : bytes) (i : Z) (what : bytes) : exec bytes :=
  let s := str "bridge.mqtt." ++ name ++ str ".subscription." ++ dec i ++ str "." ++ what in
  if Zlen s <? 100 then Ret s else UB.

Fixpoint update_subs (name : bytes) (i : Z) (items : list J) : exec (list conf_upd) :=
  match items with
  | [] => Ret []
  | item :: items' =>
      let item := Some item in
      let* u1 := match getStringValue item (str "topic") with
                 | Some t => let* k := sub_keyname name (i + 1) (str "topic") in Ret [Upd (K1 k) (VStr t)]
                 | None => Ret []
                 end in
      let* u2 := match getNumberValue item (str "qos") with
                 | Some n => let* v := as_u8 n in
                             let* k := sub_keyname name (i + 1) (str "qos") in Ret [Upd (K1 k) v]
                 | None => Ret []
                 end in
      let* us := update_subs name (i + 1) items' in
      Ret (u1 ++ u2 ++ us)
  end.

Definition update_node (node_obj : J) : exec (list conf_upd) :=
  let node := Some node_obj in
  match getStringValue node (str "name") with
  | None => Ret []
  | Some name =>
      let key k := K2 key1 name (str k) in
      let* proto_ver := upd_num as_u8 node (str "proto_ver") (key ".proto_ver"%string) in
      let* keepalive := upd_num as_u16 node (str "keepalive") (key ".keepalive"%string) in
      let* parallel := upd_num as_u64 node (str "parallel") (key ".parallel"%string) in
      let pub_topics := get_object node (str "forwards") in
      let* forwards := (if is_array pub_topics then
                          let* t := forwards_text pub_topics in Ret [Upd (key ".forwards"%string) (VStr t)]
                        else Ret []) in
      let sub_infos := get_object node (str "subscription") in
      let* subs := (if is_array sub_infos then
                      update_subs name 0
                        (match sub_infos with Some o => snd <$> cJSON_children o | None => [] end)
                    else Ret []) in
      Ret (upd_bool node (str "bridge_mode") (key ".bridge_mode"%string) ++
           upd_str node (str "address") (key ".address"%string) ++
           proto_ver ++
           upd_str node (str "clientid") (key ".clientid"%string) ++
           keepalive ++
           upd_bool node (str "clean_start") (key ".clean_start"%string) ++
           upd_str node (str "username") (key ".username"%string) ++
           upd_str node (str "password") (key ".password"%string) ++
           parallel ++ forwards ++ subs)
  end.

Fixpoint update_nodes (nodes : list J) : exec (list conf_upd) :=
  match nodes with
  | [] => Ret []
  | n :: nodes' => let* u := update_node n in let* us := update_nodes nodes' in Ret (u ++ us)
  end.

Definition update_bridge_conf (json : option J) : exec (list conf_upd) :=
  let sqlite := get_object json (str "sqlite") in
  let key k := K1 (str k) in
  let* cache := upd_num as_u64 sqlite (str "disk_cache_size") (key "bridge.sqlite.disk_cache_size"%string) in
  let* flush := upd_num as_u64 sqlite (str "flush_mem_threshold") (key "bridge.sqlite.flush_mem_threshold"%string) in
  let* resend := upd_num as_u64 sqlite (str "resend_interval") (key "bridge.sqlite.resend_interval"%string) in
  let* nodes := update_nodes (match get_object json (str "nodes") with
                              | Some o => snd <$> cJSON_children o | None => [] end) in
  Ret (upd_bool sqlite (str "enable") (key "bridge.sqlite.enable"%string) ++ cache ++
       upd_str sqlite (str "mounted_file_path") (key "bridge.sqlite.mounted_file_path"%string) ++
       flush ++ resend ++ nodes).

Definition post_config (print : jval -> bytes) (msg : http_msg) (config : rest_conf)
    : exec (http_msg * (list conf_upd * rest_conf)) :=
  match cJSON_ParseWithLength (default [] (hm_data msg)) with
  | Some req =>
      if negb (cJSON_IsObject req) then
        let* res := error_response print msg NNG_HTTP_STATUS_BAD_REQUEST REQ_PARAMS_JSON_FORMAT_ILLEGAL in
        Ret (res, ([], config))
      else
        let conf_data := cJSON_GetObjectItem req (str "data") in
        let* r := (if is_object conf_data then
                     let* r := update_main_conf conf_data config in
                     let '(u1, config) := r in
                     let bridge := get_object conf_data (str "bridge") in
                     let* u2 := (if is_object bridge then update_bridge_conf bridge else Ret []) in
                     Ret (u1 ++ u2, config)
                   else Ret ([], config)) in
        let* res := code_reply print NNG_HTTP_STATUS_OK SUCCEED in
        Ret (res, r)
  | None =>
      let* res := error_response print msg NNG_HTTP_STATUS_BAD_REQUEST REQ_PARAMS_JSON_FORMAT_ILLEGAL in
      Ret (res, ([], config))
  end.
End Update.

(** ** Posting back what was read *)

(** The value a key has already. *)
Definition own_str (k : string) (v : option bytes) : list conf_upd :=
  match v with Some s => [Upd (K1 (str k)) (VStr s)] | None => [] end.
Definition own_pem (file : bytes) (v : option bytes) : list conf_upd :=
  match v with Some s => [FileWrite (Some file) s] | None => [] end.

Definition own_bool (k : string) (v : bool) : list conf_upd := [Upd (K1 (str k)) (VBool v)].
Definition own_num (k : string) (v : upd_val) : list conf_upd := [Upd (K1 (str k)) v].

Definition own_tls (c : conf) (keyfile certfile cafile : bytes) : list conf_upd :=
  let t := cf_tls c in
  own_bool "tls.enable" (cf_tls_enable c) ++ own_str "tls.url" (cf_tls_url c) ++
  own_pem keyfile (tls_key t) ++ own_pem certfile (tls_cert t) ++ own_pem cafile (tls_ca t) ++
  own_bool "tls.verify_peer" (tls_verify_peer t) ++ own_bool "tls.fail_if_no_peer_cert" (tls_set_fail t).

Definition own_ws (c : conf) : list conf_upd :=
  own_bool "websocket.enable" (cf_ws_enable c) ++ own_str "websocket.url" (cf_ws_url c) ++
  own_str "websocket.tls_url" (cf_ws_tls_url c).

Definition own_http (rc : rest_conf) : list conf_upd :=
  own_bool "http_server.enable" (cf_http_enable (rc_conf rc)) ++
  own_num "http_server.port" (VU16 (http_port (rc_http rc))) ++
  own_str "http_server.username" (http_username (rc_http rc)) ++
  own_str "http_server.password" (http_password (rc_http rc)) ++
  own_str "http_server.auth_type"
    (Some (match http_auth_type (rc_http rc) with JWT => str "jwt" | _ => str "basic" end)).

Definition own_main (rc : rest_conf) (keyfile certfile cafile : bytes) : list conf_upd :=
  let c := rc_conf rc in
  own_str "url" (cf_url c) ++ own_bool "daemon" (cf_daemon c) ++
  own_num "num_taskq_thread" (VInt (cf_num_taskq_thread c)) ++
  own_num "max_taskq_thread" (VInt (cf_max_taskq_thread c)) ++
  own_num "parallel" (VU64 (cf_parallel c)) ++
  own_num "property_size" (VInt (cf_property_size c)) ++
  own_num "msq_len" (VInt (cf_msq_len c)) ++
  own_bool "allow_anonymous" (rc_allow_anonymous rc) ++
  own_tls c keyfile certfile cafile ++ own_ws c ++ own_http rc.

Definition own2_str (name : bytes) (k : string) (v : option bytes) : list conf_upd :=
  match v with Some s => [Upd (K2 key1 name (str k)) (VStr s)] | None => [] end.

Definition sub_key (name : bytes) (i : Z) (what : string) : upd_key :=
  K1 (str "bridge.mqtt." ++ name ++ str ".subscription." ++ dec i ++ str "." ++ str what).

Fixpoint own_subs (name : bytes) (i : Z) (subs : list (bytes * Z)) : list conf_upd :=
  match subs with
  | [] => []
  | (t, q) :: subs' =>
      [Upd (sub_key name (i + 1) "topic") (VStr t); Upd (sub_key name (i + 1) "qos") (VU8 q)] ++
      own_subs name (i + 1) subs'
  end.

Definition own_node (name : bytes) (node : conf_bridge_node) : list conf_upd :=
  [Upd (K2 key1 name (str ".bridge_mode")) (VBool (bn_enable node));
   Upd (K2 key1 name (str ".address")) (VStr (bn_address node));
   Upd (K2 key1 name (str ".proto_ver")) (VU8 (bn_proto_ver node))] ++
  own2_str name ".clientid" (bn_clientid node) ++
  [Upd (K2 key1 name (str ".keepalive")) (VU16 (bn_keepalive node));
   Upd (K2 key1 name (str ".clean_start")) (VBool (bn_clean_start node))] ++
  own2_str name ".username" (bn_username node) ++ own2_str name ".password" (bn_password node) ++
  [Upd (K2 key1 name (str ".parallel")) (VU64 (bn_parallel node));
   Upd (K2 key1 name (str ".forwards")) (VStr (join 44 (bn_forwards node)))] ++
  own_subs name 0 (bn_sub_list node).

Definition own_bridge (rc : rest_conf) : list conf_upd :=
  let s := rc_sqlite rc in
  [Upd (K1 (str "bridge.sqlite.enable")) (VBool (sq_enable s));
   Upd (K1 (str "bridge.sqlite.disk_cache_size")) (VU64 (sq_disk_cache_size s))] ++
  own_str "bridge.sqlite.mounted_file_path" (sq_mounted_file_path s) ++
  [Upd (K1 (str "bridge.sqlite.flush_mem_threshold")) (VU64 (sq_flush_mem_threshold s));
   Upd (K1 (str "bridge.sqlite.resend_interval")) (VU64 (sq_resend_interval s))] ++
  mjoin (zip_with own_node (rc_node_names rc) (cf_bridge_nodes (rc_conf rc))).

(** Numbers within the fields of [conf]. *)
Definition u_ok (w v : Z) : Prop := 0 <= v < 2 ^ w.
Definition i_ok (v : Z) : Prop := - 2 ^ 31 <= v < 2 ^ 31.

Definition node_ok (name : bytes) (node : conf_bridge_node) : Prop :=
  Zlen name < 47 /\ u_ok 8 (bn_proto_ver node) /\ u_ok 16 (bn_keepalive node) /\
  u_ok 64 (bn_parallel node) /\ bn_forwards node <> [] /\
  Forall (fun s : bytes * Z => u_ok 8 s.2) (bn_sub_list node).

Definition rest_conf_ok (rc : rest_conf) : Prop :=
  let c := rc_conf rc in
  i_ok (cf_num_taskq_thread c) /\ i_ok (cf_max_taskq_thread c) /\ u_ok 64 (cf_parallel c) /\
  i_ok (cf_property_size c) /\ i_ok (cf_msq_len c) /\ u_ok 16 (http_port (rc_http rc)) /\
  u_ok 64 (sq_disk_cache_size (rc_sqlite rc)) /\ u_ok 64 (sq_flush_mem_threshold (rc_sqlite rc)) /\
  u_ok 64 (sq_resend_interval (rc_sqlite rc)) /\
  Forall2 node_ok (rc_node_names rc) (cf_bridge_nodes c).

Lemma to_uint_ok w v : u_ok w v -> to_uint w (JNum v true []) = Ret v.
Proof.
  intros [??]. unfold to_uint. cbn [jn_trunc].
  by rewrite (proj2 (Z.leb_le _ _)), (proj2 (Z.ltb_lt _ _)) by lia.
Qed.

Lemma to_int_ok v : i_ok v -> to_int (JNum v true []) = Ret v.
Proof.
  intros [??]. unfold to_int. cbn [jn_trunc].
  by rewrite (proj2 (Z.leb_le _ _)), (proj2 (Z.ltb_lt _ _)) by lia.
Qed.

Lemma as_int_ok v : i_ok v -> as_int (JNum v true []) = Ret (VInt v).
Proof. intros. unfold as_int. by rewrite to_int_ok. Qed.
Lemma as_u8_ok v : u_ok 8 v -> as_u8 (JNum v true []) = Ret (VU8 v).
Proof. intros. unfold as_u8. by rewrite to_uint_ok. Qed.
Lemma as_u16_ok v : u_ok 16 v -> as_u16 (JNum v true []) = Ret (VU16 v).
Proof. intros. unfold as_u16. by rewrite to_uint_ok. Qed.
Lemma as_u64_ok v : u_ok 64 v -> as_u64 (JNum v true []) = Ret (VU64 v).
Proof. intros. unfold as_u64. by rewrite to_uint_ok. Qed.

Lemma sub_keyname_ok name i what :
  Zlen name < 47 -> Zlen what <= 5 ->
  sub_keyname name i what =
  Ret (str "bridge.mqtt." ++ name ++ str ".subscription." ++ dec i ++ str "." ++ what).
Proof.
  intros Hn Hw. unfold sub_keyname. cbv zeta. rewrite (proj2 (Z.ltb_lt _ _)); [done|].
  rewrite !Zlen_app. change (Zlen (str "bridge.mqtt.")) with 12.
  change (Zlen (str ".subscription.")) with 14. change (Zlen (str ".")) with 1.
  pose proof (dec_length i). lia.
Qed.

Section Reread.
Variable parse : bytes -> option jval.
#[local] Instance reread_cjson : Cjson jval := jval_cjson parse.
Variable cwd : option bytes.

Lemma update_subs_own name i subs :
  Zlen name < 47 -> Forall (fun s : bytes * Z => u_ok 8 s.2) subs ->
  update_subs name i ((fun s : bytes * Z =>
    JObject [(str "topic", JString (Some s.1)); (str "qos", JNumber s.2)]) <$> subs) =
  Ret (own_subs name i subs).
Proof.
  intros Hn HF. revert i. induction HF as [|[t q] subs Hq _ IH]; intros i; [done|].
  cbn [fmap list_fmap update_subs].
  change (getStringValue (Some (JObject [(str "topic", JString (Some (t, q).1)); (str "qos", JNumber (t, q).2)]))
    (str "topic")) with (Some t).
  change (getNumberValue (Some (JObject [(str "topic", JString (Some (t, q).1)); (str "qos", JNumber (t, q).2)]))
    (str "qos")) with (Some (JNum q true [])).
  cbv beta iota. rewrite as_u8_ok, !sub_keyname_ok by done. cbn [ebind].
  rewrite IH. done.
Qed.

Lemma forwards_text_own ts :
  ts <> [] -> forwards_text (Some (JArray ((fun t => JString (Some t)) <$> ts))) = Ret (join 44 ts).
Proof.
  intros Hne. unfold forwards_text. cbn [cJSON_children reread_cjson jval_cjson].
  rewrite <- !list_fmap_compose.
  assert (Hm : mapM cJSON_string (snd ∘ (fun v => ([] : bytes, v)) ∘ (fun t => JString (Some t)) <$> ts) = Some ts).
  { apply mapM_Some. clear. induction ts; constructor; done. }
  rewrite Hm. by destruct ts.
Qed.

Lemma update_node_own name node :
  node_ok name node -> update_node (node_json name node) = Ret (own_node name node).
Proof.
  intros (Hn & Hp & Hk & Hl & Hf & Hs). unfold update_node.
  change (getStringValue (Some (node_json name node)) (str "name")) with (Some name). cbv beta iota zeta.
  unfold upd_num.
  change (getNumberValue (Some (node_json name node)) (str "proto_ver")) with (Some (JNum (bn_proto_ver node) true [])).
  change (getNumberValue (Some (node_json name node)) (str "keepalive")) with (Some (JNum (bn_keepalive node) true [])).
  change (getNumberValue (Some (node_json name node)) (str "parallel")) with (Some (JNum (bn_parallel node) true [])).
  cbv beta iota. rewrite as_u8_ok, as_u16_ok, as_u64_ok by done. cbn [ebind].
  change (get_object (Some (node_json name node)) (str "forwards")) with
    (Some (JArray ((fun t => JString (Some t)) <$> bn_forwards node))).
  cbn [is_array cJSON_IsArray reread_cjson jval_cjson]. rewrite forwards_text_own by done. cbn [ebind].
  change (get_object (Some (node_json name node)) (str "subscription")) with
    (Some (JArray ((fun s : bytes * Z =>
       JObject [(str "topic", JString (Some s.1)); (str "qos", JNumber s.2)]) <$> bn_sub_list node))).
  cbn [is_array cJSON_IsArray cJSON_children reread_cjson jval_cjson].
  rewrite <- list_fmap_compose. change (snd ∘ (fun v : jval => ([] : bytes, v))) with (@id jval).
  rewrite list_fmap_id, update_subs_own by done. cbn [ebind]. unfold own_node, own2_str.
  reflexivity.
Qed.

Lemma update_nodes_own names nodes :
  Forall2 node_ok names nodes ->
  update_nodes (zip_with node_json names nodes) = Ret (mjoin (zip_with own_node names nodes)).
Proof.
  induction 1 as [|name node names nodes Hn _ IH]; [done|]. cbn [zip_with update_nodes].
  by rewrite update_node_own, IH by done.
Qed.

Lemma update_bridge_own rc :
  rest_conf_ok rc -> update_bridge_conf (Some (bridge_json rc)) = Ret (own_bridge rc).
Proof.
  intros (_ & _ & _ & _ & _ & _ & H1 & H2 & H3 & HF). unfold update_bridge_conf.
  change (get_object (Some (bridge_json rc)) (str "sqlite")) with (Some (sqlite_json (rc_sqlite rc))).
  change (get_object (Some (bridge_json rc)) (str "nodes")) with
    (Some (JArray (zip_with node_json (rc_node_names rc) (cf_bridge_nodes (rc_conf rc))))).
  unfold upd_num.
  change (getNumberValue (Some (sqlite_json (rc_sqlite rc))) (str "disk_cache_size")) with
    (Some (JNum (sq_disk_cache_size (rc_sqlite rc)) true [])).
  change (getNumberValue (Some (sqlite_json (rc_sqlite rc))) (str "flush_mem_threshold")) with
    (Some (JNum (sq_flush_mem_threshold (rc_sqlite rc)) true [])).
  change (getNumberValue (Some (sqlite_json (rc_sqlite rc))) (str "resend_interval")) with
    (Some (JNum (sq_resend_interval (rc_sqlite rc)) true [])).
  cbv beta iota. rewrite !as_u64_ok by done. cbn [ebind cJSON_children reread_cjson jval_cjson].
  rewrite <- list_fmap_compose. change (snd ∘ (fun v : jval => ([] : bytes, v))) with (@id jval).
  rewrite list_fmap_id, update_nodes_own by done. cbn [ebind]. unfold own_bridge, own_str.
  reflexivity.
Qed.

Lemma upd_file_own tls name key file cur text :
  getStringValue tls name = text -> upd_file cwd tls name key file (Some cur) = (own_pem cur text, Some cur).
Proof. intros <-. unfold upd_file. by destruct (getStringValue tls name). Qed.

Lemma update_tls_own rc keyfile certfile cafile :
  rc_keyfile rc = Some keyfile -> rc_certfile rc = Some certfile -> rc_cafile rc = Some cafile ->
  update_tls cwd (Some (tls_json (rc_conf rc))) rc = (own_tls (rc_conf rc) keyfile certfile cafile, rc).
Proof.
  intros Hk Hc Hca. unfold update_tls. rewrite Hk, Hc, Hca.
  set (t := cf_tls (rc_conf rc)).
  assert (H1 : getStringValue (Some (tls_json (rc_conf rc))) (str "key") = tls_key t)
    by (unfold t; destruct (tls_key (cf_tls (rc_conf rc))) eqn:E; cbv [tls_json or_null]; rewrite E; reflexivity).
  assert (H2 : getStringValue (Some (tls_json (rc_conf rc))) (str "cert") = tls_cert t)
    by (unfold t; destruct (tls_cert (cf_tls (rc_conf rc))) eqn:E; cbv [tls_json or_null]; rewrite E; reflexivity).
  assert (H3 : getStringValue (Some (tls_json (rc_conf rc))) (str "cacert") = tls_ca t)
    by (unfold t; destruct (tls_ca (cf_tls (rc_conf rc))) eqn:E; cbv [tls_json or_null]; rewrite E; reflexivity).
  rewrite (upd_file_own _ _ _ _ keyfile _ H1), (upd_file_own _ _ _ _ certfile _ H2), (upd_file_own _ _ _ _ cafile _ H3).
  f_equal. destruct rc as [c an h nn sq kf cf caf]. cbn in Hk, Hc, Hca. by subst.
Qed.

Lemma update_http_own rc :
  u_ok 16 (http_port (rc_http rc)) -> update_http (Some (http_json rc)) = Ret (own_http rc).
Proof.
  intros H. unfold update_http, upd_num.
  change (getNumberValue (Some (http_json rc)) (str "port")) with (Some (JNum (http_port (rc_http rc)) true [])).
  cbv beta iota. rewrite as_u16_ok by done. cbn [ebind].
  change (getStringValue (Some (http_json rc)) (str "auth_type")) with
    (Some (match http_auth_type (rc_http rc) with JWT => str "jwt" | _ => str "basic" end)).
  unfold own_http. by destruct (http_auth_type (rc_http rc)).
Qed.

Lemma update_main_own rc keyfile certfile cafile :
  rest_conf_ok rc ->
  rc_keyfile rc = Some keyfile -> rc_certfile rc = Some certfile -> rc_cafile rc = Some cafile ->
  update_main_conf cwd (Some (conf_json rc)) rc = Ret (own_main rc keyfile certfile cafile, rc).
Proof.
  intros (H1 & H2 & H3 & H4 & H5 & H6 & _) Hk Hc Hca. unfold update_main_conf, upd_num.
  change (getNumberValue (Some (conf_json rc)) (str "num_taskq_thread")) with
    (Some (JNum (cf_num_taskq_thread (rc_conf rc)) true [])).
  change (getNumberValue (Some (conf_json rc)) (str "max_taskq_thread")) with
    (Some (JNum (cf_max_taskq_thread (rc_conf rc)) true [])).
  change (getNumberValue (Some (conf_json rc)) (str "parallel")) with
    (Some (JNum (cf_parallel (rc_conf rc)) true [])).
  change (getNumberValue (Some (conf_json rc)) (str "property_size")) with
    (Some (JNum (cf_property_size (rc_conf rc)) true [])).
  change (getNumberValue (Some (conf_json rc)) (str "msq_len")) with
    (Some (JNum (cf_msq_len (rc_conf rc)) true [])).
  change (getNumberValue (Some (conf_json rc)) (str "qos_duration")) with (@None jnum).
  cbv beta iota. rewrite !as_int_ok, as_u64_ok by done. cbn [ebind].
  change (get_object (Some (conf_json rc)) (str "tls")) with (Some (tls_json (rc_conf rc))).
  change (get_object (Some (conf_json rc)) (str "websocket")) with (Some (ws_json (rc_conf rc))).
  change (get_object (Some (conf_json rc)) (str "http_server")) with (Some (http_json rc)).
  change (is_object (Some (tls_json (rc_conf rc)))) with true.
  change (is_object (Some (ws_json (rc_conf rc)))) with true.
  change (is_object (Some (http_json rc))) with true. cbv beta iota.
  rewrite (update_tls_own rc keyfile certfile cafile), update_http_own by done. reflexivity.
Qed.

Variable print : jval -> bytes.

(** C26: When the numbers fit their fields, the TLS files are configured, the
    names of the bridges are shorter than 47 bytes and each bridge forwards
    something, what GET /configuration answers, read back as it was printed, can
    be posted: it is accepted, and writes to the file the settings that are shown,
    with the values shown, bridges and all, and nothing else.  Two settings are
    not what they were: the key's password is not written (GET calls it
    "key_password", POST reads "keypass"), and a server without authorization is
    shown, and so written, as "basic". *)
Theorem config_roundtrip rc msg res keyfile certfile cafile :
  rest_conf_ok rc ->
  rc_keyfile rc = Some keyfile -> rc_certfile rc = Some certfile -> rc_cafile rc = Some cafile ->
  get_config print rc = Ret res -> hm_data msg = hm_data res ->
  parse (print (config_reply rc)) = Some (config_reply rc) ->
  exists res', post_config cwd print msg rc =
    Ret (res', (own_main rc keyfile certfile cafile ++ own_bridge rc, rc)) /\
    hm_status res' = NNG_HTTP_STATUS_OK.
Proof.
  intros Hok Hk Hc Hca Hget Hmsg Hparse. unfold get_config in Hget. rewrite json_reply_ok in Hget.
  injection Hget as <-. unfold post_config. rewrite Hmsg. cbn [hm_data reply_msg default from_option id].
  change (cJSON_ParseWithLength (print (config_reply rc))) with (parse (print (config_reply rc))).
  rewrite Hparse. change (cJSON_IsObject (config_reply rc)) with true. cbn [negb].
  change (cJSON_GetObjectItem (config_reply rc) (str "data")) with (Some (conf_json rc)).
  change (is_object (Some (conf_json rc))) with true. cbv beta iota zeta.
  rewrite (update_main_own rc keyfile certfile cafile) by done. cbn [ebind].
  change (get_object (Some (conf_json rc)) (str "bridge")) with (Some (bridge_json rc)).
  change (is_object (Some (bridge_json rc))) with true. cbv beta iota.
  rewrite update_bridge_own by done. cbn [ebind]. unfold code_reply. rewrite json_reply_ok. cbn [ebind].
  by eexists.
Qed.
End Reread.

(** ** Witness *)

Definition demo_rest_conf : rest_conf :=
  RestConf
    (Conf None (Some (str "nmq-tcp://0.0.0.0:1883")) true false 32 0 0 8 64 30 true
       (Some (str "tls+nmq-tcp://0.0.0.0:8883")) (ConfTls true false (Some (str "C")) (Some (str "K")) None None)
       true (Some (str "nmq-ws://0.0.0.0:8083/mqtt")) None true 8081
       (ConfLog 0 true false None None None None) true
       [BridgeNode true (str "mqtt-tcp://b:1883") 4 60 true None None None [str "f1"; str "f2"]
          [(str "cmd", 1); (str "cfg", 2)] 2]
       (ConfWebHook false [] plain))
    true (set_http_server_conf (ConfHttp 8081 4 None None BASIC)) [str "emqx"]
    (ConfSqlite false 100 100 5000 None) (Some (str "/k")) (Some (str "/c")) (Some (str "/ca")).

Definition demo_print (v : jval) : bytes := [123; 125].
Definition demo_parse (b : bytes) : option jval :=
  if bool_decide (b = [123; 125]) then Some (config_reply demo_rest_conf) else None.

Definition demo_get : http_msg :=
  reply_msg demo_print NNG_HTTP_STATUS_OK application_json (config_reply demo_rest_conf).

Lemma demo_rest_conf_ok : rest_conf_ok demo_rest_conf.
Proof.
  unfold rest_conf_ok, i_ok, u_ok.
  repeat (split; [split; [by vm_compute|by vm_compute]|]).
  constructor; [|constructor].
  split; [by vm_compute|]. repeat (split; [split; [by vm_compute|by vm_compute]|]).
  split; [discriminate|]. repeat constructor; by vm_compute.
Qed.

Lemma config_roundtrip_witness :
  exists res' us,
    @post_config jval (jval_cjson demo_parse) None demo_print demo_get demo_rest_conf =
      Ret (res', (us, demo_rest_conf)) /\
    length us = 36%nat.
Proof.
  assert (Hget : get_config demo_print demo_rest_conf = Ret demo_get)
    by (vm_compute; reflexivity).
  assert (Hparse : demo_parse (demo_print (config_reply demo_rest_conf)) = Some (config_reply demo_rest_conf))
    by (vm_compute; reflexivity).
  destruct (config_roundtrip demo_parse None demo_print demo_rest_conf demo_get demo_get
    (str "/k") (str "/c") (str "/ca") demo_rest_conf_ok eq_refl eq_refl eq_refl Hget eq_refl Hparse)
    as (res' & H & _).
  exists res'. eexists. split; [exact H|]. vm_compute. reflexivity.
Defined.
