(* ===== verification/RestQuery.v ===== *)
(** * rest_api.c: what GET requests answer

    The endpoints that only read: the table of endpoints, the broker and its
    node, connected clients, their subscriptions and the topic tree.  The rule
    endpoints are here, too, as the default build has them, without
    SUPP_RULE_ENGINE. *)

From Stdlib Require Import ZArith Lia.
From stdpp Require Import base numbers list gmap option sets strings.
From S2P Require Import Prelude Mqtt Nng NngModel Cstring RestHttp Cjson.

Local Open Scope Z_scope.
Local Open Scope nano_scope.

(** ** The table of endpoints *)

Record endpoints := Endpoint { ep_path : bytes; ep_name : bytes; ep_method : bytes; ep_descr : bytes }.

Definition ep (path name method descr : string) : endpoints :=
  Endpoint (str path) (str name) (str method) (str descr).

Definition api_ep : list endpoints := [
  ep "/brokers/" "list_brokers" "GET" "A list of brokers in the cluster";
  ep "/nodes/" "list_nodes" "GET" "A list of nodes in the cluster";
  ep "/clients/" "list_clients" "GET" "A list of clients on current node";
  ep "/clients/:clientid" "lookup_client" "GET" "Lookup a client in the cluster";
  ep "/clients/username/:username" "lookup_client_via_username" "GET"
     "Lookup a client via username in the cluster";
  ep "/subscriptions/" "list_subscriptions" "GET" "A list of subscriptions in the cluster";
  ep "/subscriptions/:clientid" "lookup_client_subscriptions" "GET" "A list of subscriptions of a client";
  ep "/rules/" "list_rules" "GET" "Get rule list";
  ep "/rules/:ruleid" "get_rule_details" "GET" "Get the details of a rule";
  ep "/rules/" "create_rule" "POST" "Create a rule and return the rule ID";
  ep "/rules/:ruleid" "update_rule" "PUT" "Update the rule and return the rule ID";
  ep "/rules/:ruleid" "delete_rule" "DELETE" "Delete the rule";
  ep "/mqtt/subscribe" "mqtt_subscribe" "POST" "Subscribe a topic";
  ep "/mqtt/publish" "mqtt_publish" "POST" "Publish a MQTT message";
  ep "/mqtt/unsubscribe" "mqtt_unsubscribe" "POST" "Unsubscribe a topic";
  ep "/mqtt/subscribe_batch" "mqtt_subscribe_batch" "POST" "Batch subscribes topics";
  ep "/mqtt/publish_batch" "mqtt_publish_batch" "POST" "Batch publish MQTT messages";
  ep "/mqtt/unsubscribe_batch" "mqtt_unsubscribe_batch" "POST" "Batch unsubscribes topics";
  ep "/topic-tree/" "list_topic-tree" "GET" "A list of topic-tree in the cluster";
  ep "/configuration/" "get_broker_configuration" "GET" "show broker configuration";
  ep "/configuration/" "set_broker_configuration" "POST" "set broker configuration";
  ep "/ctrl/:action" "ctrl_broker" "POST" "Control broker stop or restart"
].

(** ** The databases, listed *)

(** What the getters of a [conn_param] return. *)
Record conn_view := ConnView {
  cv_clientid : option bytes;
  cv_username : option bytes;
  cv_keepalive : Z;
  cv_clean_start : bool;
  cv_pro_name : option bytes;
  cv_protover : Z
}.

Record dbtree_info := TreeInfo { ti_topic : bytes; ti_cld_cnt : Z; ti_clients : list bytes }.

(** [dbhash_get_ptpair_all]: the pipes with subscriptions. *)
Class NngDbList (db hash : Type) := {
  dbhash_get_ptpair_all : hash -> list Z;
  dbhash_copy_topic_queue : hash -> Z -> list (bytes * Z);
  dbhash_get_pipe_cnt : hash -> Z;
  (** [dbtree_get_tree], with the client id of a pipe *)
  dbtree_get_tree : db -> (Z -> exec (option bytes)) -> exec (list (list dbtree_info))
}.

Class NngDbListLaws (db hash : Type) `{NngDbLaws db hash} `{NngDbList db hash} : Prop := {
  ptpair_all_spec : forall h p, p ∈ dbhash_get_ptpair_all h <-> exists t, registered h p t;
  copy_topic_queue_spec : forall h p t,
    (exists q, (t, q) ∈ dbhash_copy_topic_queue h p) <-> registered h p t
}.

Section Query.
Context {db hash : Type} `{Hdb : NngDbList db hash}.
Variable print : jval -> bytes.
(** [nng_pipe_cparam]: NULL when the pipe is gone *)
Variable nng_pipe_cparam : Z -> option conn_view.

(** A reply with code 0 and data. *)
Definition ok_reply (data : list (bytes * jval)) : exec http_msg :=
  json_reply print NNG_HTTP_STATUS_OK application_json
    (JObject ((str "code", JNumber SUCCEED) :: data)).

Definition get_endpoints : exec http_msg :=
  ok_reply [(str "data", JArray ((fun e =>
    JObject [(str "path", JString (Some (ep_path e))); (str "name", JString (Some (ep_name e)));
             (str "method", JString (Some (ep_method e))); (str "descr", JString (Some (ep_descr e)))])
    <$> api_ep))].

(** [now] is [nng_clock()]; both times are in milliseconds. *)
Definition get_uptime (now boot_time : Z) : bytes :=
  let uptime := u64 (now - boot_time) in
  let hours := uptime / 1000 / 3600 in
  let mins := uptime / 1000 / 60 mod 60 in
  let secs := uptime / 1000 mod 60 in
  take 99 (dec hours ++ str " Hours, " ++ dec mins ++ str " minutes, " ++ dec secs ++ str " seconds").

Definition NANO_VER_MAJOR : Z := 0.
Definition NANO_VER_MINOR : Z := 12.
Definition NANO_VER_PATCH : Z := 1.
Definition NANO_VER_ID_SHORT : bytes := str "1".

Definition get_version : bytes :=
  take 99 (dec NANO_VER_MAJOR ++ str "." ++ dec NANO_VER_MINOR ++ str "." ++ dec NANO_VER_PATCH
           ++ str "-" ++ NANO_VER_ID_SHORT).

(** [time_str]: the local time as [strftime] writes it *)
Definition get_brokers (time_str : bytes) (now boot_time : Z) : exec http_msg :=
  ok_reply [(str "data", JArray [JObject
    [(str "datetime", JString (Some time_str)); (str "node_status", JString (Some (str "Running")));
     (str "sysdescr", JString (Some (str "NanoMQ Broker")));
     (str "uptime", JString (Some (get_uptime now boot_time)));
     (str "version", JString (Some get_version))]])].

Definition get_nodes (h : hash) (now boot_time : Z) : exec http_msg :=
  ok_reply [(str "data", JArray [JObject
    [(str "connections", JNumber (dbhash_get_pipe_cnt h)); (str "node_status", JString (Some (str "Running")));
     (str "uptime", JString (Some (get_uptime now boot_time)));
     (str "version", JString (Some get_version))]])].

(** ** Clients *)

(** [strcmp(want, have) == 0], and NULL for a wanted id that is not asked for. *)
Definition id_matches (want have : option bytes) : exec bool :=
  match want, have with
  | None, _ => Ret true
  | Some w, Some h => Ret (bool_decide (w = h))
  | Some _, None => UB
  end.

Definition username_matches (want have : option bytes) : bool :=
  match want with None => true | Some w => bool_decide (have = Some w) end.

Definition client_json (c : conn_view) : jval :=
  JObject [(str "client_id", JString (cv_clientid c));
           (str "username", JString (Some (default [] (cv_username c))));
           (str "keepalive", JNumber (cv_keepalive c));
           (str "conn_state", JString (Some (str "connected")));
           (str "clean_start", JBool (cv_clean_start c));
           (str "proto_name", JString (cv_pro_name c));
           (str "proto_ver", JNumber (cv_protover c))].

(** The getters follow the pointer of a pipe that is gone. *)
Fixpoint clients_loop (pt : list Z) (client_id username : option bytes) : exec (list jval) :=
  match pt with
  | [] => Ret []
  | p :: pt' =>
      match nng_pipe_cparam p with
      | None => UB
      | Some cp =>
          let* same := id_matches client_id (cv_clientid cp) in
          let* rest := clients_loop pt' client_id username in
          Ret (if same && username_matches username (cv_username cp) then client_json cp :: rest else rest)
      end
  end.

Definition get_clients (h : hash) (client_id username : option bytes) : exec http_msg :=
  let* data_info := clients_loop (dbhash_get_ptpair_all h) client_id username in
  ok_reply [(str "data", JArray data_info)].

(** ** Subscriptions *)

Definition subscription_json (cid : option bytes) (tq : bytes * Z) : jval :=
  JObject [(str "clientid", JString (Some (default [] cid))); (str "topic", JString (Some tq.1));
           (str "qos", JNumber tq.2)].

(** A pipe that is gone is not compared with the client id asked for. *)
Fixpoint subscriptions_loop (h : hash) (pt : list Z) (client_id : option bytes) : exec (list jval) :=
  match pt with
  | [] => Ret []
  | p :: pt' =>
      let cp := nng_pipe_cparam p in
      let cid := cp ≫= cv_clientid in
      let* same := match cp with Some cp => id_matches client_id (cv_clientid cp) | None => Ret true end in
      let* rest := subscriptions_loop h pt' client_id in
      Ret ((if same : bool then subscription_json cid <$> dbhash_copy_topic_queue h p else []) ++ rest)
  end.

Definition get_subscriptions (h : hash) (client_id : option bytes) : exec http_msg :=
  let* data_info := subscriptions_loop h (dbhash_get_ptpair_all h) client_id in
  json_reply print NNG_HTTP_STATUS_OK application_json
    (JObject [(str "code", JNumber SUCCEED); (str "data", JArray data_info)]).

(** ** The topic tree *)

Definition get_client_info_cb (pid : Z) : exec (option bytes) :=
  match nng_pipe_cparam pid with Some cp => Ret (cv_clientid cp) | None => UB end.

Definition tree_json (vn : dbtree_info) : jval :=
  JObject [(str "topic", JString (Some (ti_topic vn))); (str "cld_cnt", JNumber (ti_cld_cnt vn));
           (str "clientid", JArray ((fun c => JString (Some c)) <$> ti_clients vn))].

Definition get_tree (d : db) : exec http_msg :=
  let* vn := dbtree_get_tree d get_client_info_cb in
  ok_reply [(str "data", JArray ((fun level => JArray (tree_json <$> level)) <$> vn))].

(** ** Rules, without the rule engine *)

Definition get_rules : exec http_msg := ok_reply [].
Definition delete_rules : exec http_msg := ok_reply [].

Section Rules.
Context {J : Type} `{HJ : Cjson J}.

(** POST and PUT look at the body all the same. *)
Definition post_rules (msg : http_msg) : exec http_msg :=
  match cJSON_ParseWithLength (default [] (hm_data msg)) with
  | Some req =>
      if negb (cJSON_IsObject req)
      then error_response print msg NNG_HTTP_STATUS_BAD_REQUEST REQ_PARAMS_JSON_FORMAT_ILLEGAL
      else ok_reply []
  | None => error_response print msg NNG_HTTP_STATUS_BAD_REQUEST REQ_PARAMS_JSON_FORMAT_ILLEGAL
  end.

Definition put_rules (msg : http_msg) : exec http_msg :=
  match cJSON_ParseWithLength (default [] (hm_data msg)) with
  | Some req =>
      if negb (cJSON_IsObject req)
      then error_response print msg NNG_HTTP_STATUS_BAD_REQUEST REQ_PARAMS_JSON_FORMAT_ILLEGAL
      else ok_reply []
  | None => error_response print msg NNG_HTTP_STATUS_BAD_REQUEST REQ_PARAMS_JSON_FORMAT_ILLEGAL
  end.
End Rules.
End Query.

(** ** Lemmas *)

(** The hours, minutes and seconds are the uptime. *)
Lemma uptime_split ms :
  let s := ms / 1000 in
  s / 3600 * 3600 + s / 60 mod 60 * 60 + s mod 60 = s.
Proof.
  cbv zeta. set (s := ms / 1000).
  pose proof (Z.div_mod s 60 ltac:(lia)). pose proof (Z.div_mod (s / 60) 60 ltac:(lia)).
  rewrite Z.div_div in * by lia. change (60 * 60) with 3600 in *. lia.
Qed.

Section QueryProps.
Context {db hash : Type} `{Hdb : NngDb db hash} {Hl : NngDbLaws db hash} `{Hdl : NngDbList db hash}
  {Hll : NngDbListLaws db hash}.
Variable print : jval -> bytes.
Variable nng_pipe_cparam : Z -> option conn_view.

(** A pipe that answers to what is asked for. *)
Definition asked (client_id username : option bytes) (cp : conn_view) : Prop :=
  match client_id with Some w => cv_clientid cp = Some w | None => True end /\
  match username with Some w => cv_username cp = Some w | None => True end.

Lemma id_matches_ok want have :
  have <> None -> id_matches want have = Ret (username_matches want have).
Proof.
  destruct want as [w|]; [|done]. destruct have as [h|]; [|done]. intros _. cbn. f_equal.
  apply bool_decide_ext. split; congruence.
Qed.

Lemma username_matches_spec want have :
  username_matches want have = true <-> match want with Some w => have = Some w | None => True end.
Proof. destruct want; cbn; [apply bool_decide_eq_true|done]. Qed.

Lemma asked_spec client_id username cp :
  username_matches client_id (cv_clientid cp) && username_matches username (cv_username cp) = true <->
  asked client_id username cp.
Proof. rewrite andb_true_iff, !username_matches_spec. done. Qed.

Lemma clients_loop_spec pt client_id username :
  (forall p, p ∈ pt -> exists cp, nng_pipe_cparam p = Some cp /\ cv_clientid cp <> None) ->
  exists l, clients_loop nng_pipe_cparam pt client_id username = Ret l /\
    forall v, v ∈ l <->
      exists p cp, p ∈ pt /\ nng_pipe_cparam p = Some cp /\ asked client_id username cp /\ v = client_json cp.
Proof.
  induction pt as [|p pt IH]; intros Hp.
  { exists []. split; [done|]. set_solver. }
  destruct IH as (l & Hr & Hv); [set_solver|]. destruct (Hp p) as (cp & Hcp & Hid); [by left|].
  cbn [clients_loop]. rewrite Hcp, id_matches_ok, Hr by done. cbn [ebind].
  eexists. split; [done|]. intros v. pose proof (asked_spec client_id username cp) as Ha.
  destruct (_ && _); rewrite ?elem_of_cons, Hv; split.
  - intros [->|(q & cq & ? & ?)]; [exists p, cp; repeat split; try (by left); try done; by apply Ha|].
    exists q, cq. split; [by right|done].
  - intros (q & cq & [->|?]%elem_of_cons & Hq & ? & ->); [left; congruence|right; by exists q, cq].
  - intros (q & cq & ? & ?). exists q, cq. split; [by right|done].
  - intros (q & cq & [->|?]%elem_of_cons & Hq & Hask & ->); [|by exists q, cq].
    assert (cq = cp) as -> by congruence. by apply Ha in Hask.
Qed.

(** GET /clients lists the clients with subscriptions that have the client
    id or the user name asked for, once each connected pipe, and no others. *)
Theorem get_clients_correct (h : hash) client_id username :
  (forall p t, registered h p t -> exists cp, nng_pipe_cparam p = Some cp /\ cv_clientid cp <> None) ->
  exists l, get_clients print nng_pipe_cparam h client_id username =
      Ret (reply_msg print NNG_HTTP_STATUS_OK application_json
             (JObject [(str "code", JNumber SUCCEED); (str "data", JArray l)])) /\
    forall v, v ∈ l <->
      exists p t cp, registered h p t /\ nng_pipe_cparam p = Some cp /\
        asked client_id username cp /\ v = client_json cp.
Proof using Hll.
  intros Hp. destruct (clients_loop_spec (dbhash_get_ptpair_all h) client_id username) as (l & Hr & Hv).
  { intros p [t Ht]%ptpair_all_spec. by eapply Hp. }
  exists l. unfold get_clients, ok_reply. rewrite Hr. cbn [ebind]. rewrite json_reply_ok.
  split; [done|]. intros v. rewrite Hv. split.
  - intros (p & cp & [t Ht]%ptpair_all_spec & ?). by exists p, t, cp.
  - intros (p & t & cp & Ht & ?). exists p, cp. split; [apply ptpair_all_spec; by exists t|done].
Qed.

(** The pipes whose subscriptions are listed: those with the client id asked
    for, and those that are gone. *)
Definition sub_asked (client_id : option bytes) (p : Z) : Prop :=
  match nng_pipe_cparam p with Some cp => asked client_id None cp | None => True end.

Lemma subscriptions_loop_spec h pt client_id :
  (forall p cp, p ∈ pt -> nng_pipe_cparam p = Some cp -> cv_clientid cp <> None) ->
  exists l, subscriptions_loop nng_pipe_cparam h pt client_id = Ret l /\
    forall v, v ∈ l <->
      exists p tq, p ∈ pt /\ sub_asked client_id p /\ tq ∈ dbhash_copy_topic_queue h p /\
        v = subscription_json (nng_pipe_cparam p ≫= cv_clientid) tq.
Proof.
  induction pt as [|p pt IH]; intros Hp.
  { exists []. split; [done|]. set_solver. }
  destruct IH as (l & Hr & Hv); [set_solver|]. cbn [subscriptions_loop].
  assert (Hs : exists same, (match nng_pipe_cparam p with
      | Some cp => id_matches client_id (cv_clientid cp) | None => Ret true end) = Ret same /\
      (same = true <-> sub_asked client_id p)).
  { unfold sub_asked, asked. specialize (Hp p). destruct (nng_pipe_cparam p) as [cp|]; [|by exists true].
    rewrite id_matches_ok by (apply Hp; [by left|done]). eexists. split; [done|].
    rewrite username_matches_spec. tauto. }
  destruct Hs as (same & Hs & Hask).
  rewrite Hs, Hr. cbn [ebind]. eexists. split; [done|]. intros v. rewrite elem_of_app, Hv.
  split.
  - intros [Hin|(q & tq & ? & ?)]; [|exists q, tq; split; [by right|done]].
    destruct same; [|by apply not_elem_of_nil in Hin].
    apply list_elem_of_fmap in Hin as (tq & -> & Htq). exists p, tq. split; [by left|].
    split; [by apply Hask|done].
  - intros (q & tq & [->|?]%elem_of_cons & Hsa & Htq & ->); [left|right; by exists q, tq].
    rewrite (proj2 Hask Hsa). apply list_elem_of_fmap. by exists tq.
Qed.

(** GET /subscriptions lists exactly the registered subscriptions, each
    with its client id; with a client id, those of that client, and those of
    pipes that are gone (under an empty id), whoever is asked for. *)
Lemma get_subscriptions_correct (h : hash) client_id :
  (forall p t cp, registered h p t -> nng_pipe_cparam p = Some cp -> cv_clientid cp <> None) ->
  exists l, get_subscriptions print nng_pipe_cparam h client_id =
      Ret (reply_msg print NNG_HTTP_STATUS_OK application_json
             (JObject [(str "code", JNumber SUCCEED); (str "data", JArray l)])) /\
    (forall p t, registered h p t -> sub_asked client_id p ->
       exists q, subscription_json (nng_pipe_cparam p ≫= cv_clientid) (t, q) ∈ l) /\
    (forall v, v ∈ l -> exists p t q, registered h p t /\ sub_asked client_id p /\
       v = subscription_json (nng_pipe_cparam p ≫= cv_clientid) (t, q)).
Proof using Hll.
  intros Hp.
  destruct (subscriptions_loop_spec h (dbhash_get_ptpair_all h) client_id) as (l & Hr & Hv).
  { intros p cp [t Ht]%ptpair_all_spec. by eapply Hp. }
  exists l. unfold get_subscriptions. rewrite Hr. cbn [ebind]. rewrite json_reply_ok.
  split; [done|]. split.
  - intros p t Ht Ha. destruct (proj2 (copy_topic_queue_spec h p t) Ht) as [q Hq]. exists q.
    apply Hv. exists p, (t, q). split; [apply ptpair_all_spec; by exists t|done].
  - intros v (p & [t q] & _ & Ha & Hq & ->)%Hv. exists p, t, q.
    split; [apply copy_topic_queue_spec; by exists q|done].
Qed.
End QueryProps.

(** ** Witnesses *)

#[export] Instance r_db_list : NngDbList rdb rhash := {
  dbhash_get_ptpair_all h := fst <$> elements (rh_topics h);
  dbhash_copy_topic_queue h p := (fun t => (t, 0)) <$> topics_of h p;
  dbhash_get_pipe_cnt h := Zlen (fst <$> elements (rh_topics h));
  dbtree_get_tree d f := Ret []
}.

#[export] Instance r_db_list_laws : NngDbListLaws rdb rhash.
Proof.
  constructor; cbn -[topics_of].
  - intros h p. rewrite list_elem_of_fmap. split.
    + intros ([p' t] & -> & Hin%elem_of_elements). by exists t.
    + intros [t Ht]. exists (p, t). split; [done|]. by apply elem_of_elements.
  - intros h p t. rewrite <- topics_of_spec. split.
    + intros [q (t' & [= -> _] & ?)%list_elem_of_fmap]. done.
    + intros Ht. exists 0. apply list_elem_of_fmap. by exists t.
Qed.

Definition query_hash : rhash := RHash {[(7, str "a"); (8, str "b")]} ∅.
Definition query_pipes (p : Z) : option conn_view :=
  if p =? 7 then Some (ConnView (Some (str "c7")) (Some (str "u")) 60 true (Some (str "MQTT")) 4)
  else Some (ConnView (Some (str "c8")) None 60 true (Some (str "MQTT")) 5).

Lemma get_clients_correct_witness :
  exists l, get_clients (fun _ => []) query_pipes query_hash (Some (str "c8")) None =
    Ret (reply_msg (fun _ => []) NNG_HTTP_STATUS_OK application_json
           (JObject [(str "code", JNumber SUCCEED); (str "data", JArray l)])) /\
    client_json (ConnView (Some (str "c8")) None 60 true (Some (str "MQTT")) 5) ∈ l.
Proof.
  destruct (get_clients_correct (fun _ => []) query_pipes query_hash (Some (str "c8")) None) as (l & H & Hl).
  - intros p t _. unfold query_pipes. destruct (p =? 7); eexists; (split; [reflexivity|discriminate]).
  - exists l. split; [exact H|]. apply Hl. exists 8, (str "b"), (ConnView (Some (str "c8")) None 60 true (Some (str "MQTT")) 5).
    split; [cbn; unfold query_hash; cbn [rh_topics]; set_solver|]. repeat split.
Defined.
