(* ===== verification/RestApi.v ===== *)
(** * rest_api.c: one HTTP request

    [process_request] checks the credentials, takes the URI apart, finds the
    endpoint for the method and the path, and runs it.  The endpoints are in
    [RestQuery], [RestMqtt] and [RestConf]; stopping and restarting the broker
    is here. *)

From Stdlib Require Import ZArith Lia.
From stdpp Require Import base numbers list gmap option sets strings.
From S2P Require Import Prelude Hashmap Mqtt Nng NngModel SubHandler MqttApi.
From S2P Require Import BrokerStart Cstring RestHttp RestUri Cjson RestMqtt RestConf RestQuery.

Local Open Scope Z_scope.
Local Open Scope nano_scope.

(** ** Stopping and restarting *)

(** [n] strings of an array that ends with NULL, a separator behind each. *)
Fixpoint mk_str (n : nat) (str_arr : list (option bytes)) (seperator : bytes) : exec bytes :=
  match n with
  | O => Ret []
  | S n' =>
      match str_arr with
      | Some s :: rest => let* t := mk_str n' rest seperator in Ret (s ++ seperator ++ t)
      | _ => UB
      end
  end.

Section Ctrl.
(** [nng_strcasecmp(a, b) == 0] *)
Variable strcaseeq : bytes -> bytes -> bool.

(** The command line given to [system], and the array of arguments, which is
    the process's own. *)
Definition ctrl_cb (action : bytes) (argc : nat) (argv : list (option bytes))
    : exec (option bytes * list (option bytes)) :=
  let set2 v := if bool_decide (2 < length argv)%nat then Ret (<[2%nat := Some v]> argv) else UB in
  if strcaseeq action (str "stop") then
    let* argv := set2 (str "stop") in
    let* cmd := mk_str 3 argv [32] in
    Ret (Some cmd, argv)
  else if strcaseeq action (str "restart") then
    let* argv := set2 (str "restart") in
    let* cmd := mk_str argc argv [32] in
    Ret (Some cmd, argv)
  else Ret (None, argv).

(** The reply, and the action a thread is started for. *)
Definition post_ctrl (print : jval -> bytes) (type : bytes) : exec (http_msg * option bytes) :=
  let '(status, code, act) :=
    if strcaseeq type (str "stop") || strcaseeq type (str "restart")
    then (NNG_HTTP_STATUS_OK, SUCCEED, Some type)
    else (NNG_HTTP_STATUS_NOT_FOUND, RPC_ERROR, None) in
  let* res := code_reply print status code in
  Ret (res, act).
End Ctrl.

(** ** Routing *)

Inductive endpoint :=
| EpEndpoints | EpBrokers | EpNodes
| EpClients (client_id username : option bytes)
| EpSubscriptions (client_id : option bytes)
| EpGetRules (rule_id : option bytes)
| EpTree | EpGetConfig
| EpCtrl (action : bytes)
| EpPostConfig | EpPostRules
| EpPublish (batch : bool) | EpSubscribe (batch : bool) | EpUnsubscribe (batch : bool)
| EpPutRules (rule_id : bytes) | EpDeleteRules (rule_id : bytes)
| EpError (status code : Z).

Section Route.
Variable strcaseeq : bytes -> bytes -> bool.
Variable sub_tree : list tree.

(** [sub_count == n && sub_tree[n - 1]->end], and the text of a node. *)
Definition ends_at (n : nat) : bool :=
  bool_decide (length sub_tree = n) &&
  match sub_tree !! (n - 1)%nat with Some t => t_end t | None => false end.
Definition node (i : nat) : bytes := match sub_tree !! i with Some t => t_node t | None => [] end.
Definition node_is (i : nat) (s : string) : bool := bool_decide (node i = str s).

Definition not_found : endpoint := EpError NNG_HTTP_STATUS_NOT_FOUND UNKNOWN_MISTAKE.

Definition route_get : endpoint :=
  if bool_decide (length sub_tree = 0%nat) then EpEndpoints
  else if ends_at 2 && node_is 1 "brokers" then EpBrokers
  else if ends_at 2 && node_is 1 "nodes" then EpNodes
  else if ends_at 2 && node_is 1 "clients" then EpClients None None
  else if ends_at 3 && node_is 1 "clients" then EpClients (Some (node 2)) None
  else if ends_at 4 && node_is 1 "clients" && node_is 2 "username" then EpClients None (Some (node 3))
  else if ends_at 2 && node_is 1 "subscriptions" then EpSubscriptions None
  else if ends_at 3 && node_is 1 "subscriptions" then EpSubscriptions (Some (node 2))
  else if ends_at 2 && node_is 1 "rules" then EpGetRules None
  else if ends_at 3 && node_is 1 "rules" then EpGetRules (Some (node 2))
  else if ends_at 2 && node_is 1 "topic-tree" then EpTree
  else if ends_at 2 && node_is 1 "configuration" then EpGetConfig
  else not_found.

Definition route_post : endpoint :=
  if ends_at 3 && node_is 1 "ctrl" then EpCtrl (node 2)
  else if ends_at 2 && node_is 1 "configuration" then EpPostConfig
  else if ends_at 2 && node_is 1 "rules" then EpPostRules
  else if ends_at 3 && node_is 1 "mqtt" && node_is 2 "publish" then EpPublish false
  else if ends_at 3 && node_is 1 "mqtt" && node_is 2 "publish_batch" then EpPublish true
  else if ends_at 3 && node_is 1 "mqtt" && node_is 2 "subscribe" then EpSubscribe false
  else if ends_at 3 && node_is 1 "mqtt" && node_is 2 "subscribe_batch" then EpSubscribe true
  else if ends_at 3 && node_is 1 "mqtt" && node_is 2 "unsubscribe" then EpUnsubscribe false
  else if ends_at 3 && node_is 1 "mqtt" && node_is 2 "unsubscribe_batch" then EpUnsubscribe true
  else not_found.

Definition route (method : bytes) : endpoint :=
  if strcaseeq method (str "GET") then route_get
  else if strcaseeq method (str "POST") then route_post
  else if strcaseeq method (str "PUT") then
    if ends_at 3 && node_is 1 "rules" then EpPutRules (node 2) else not_found
  else if strcaseeq method (str "DELETE") then
    if ends_at 3 && node_is 1 "rules" then EpDeleteRules (node 2) else not_found
  else EpError NNG_HTTP_STATUS_METHOD_NOT_ALLOWED UNKNOWN_MISTAKE.
End Route.

(** ** Running *)

(** The four handlers of rules, over the state they share. *)
Record rules_api (R : Type) := RulesApi {
  api_post_rules : http_msg -> R -> exec (http_msg * R);
  api_put_rules : http_msg -> bytes -> R -> exec (http_msg * R);
  api_delete_rules : http_msg -> bytes -> R -> exec (http_msg * R);
  api_get_rules : http_msg -> option bytes -> R -> exec http_msg
}.
Arguments RulesApi {R}.
Arguments api_post_rules {R}. Arguments api_put_rules {R}. Arguments api_delete_rules {R}.
Arguments api_get_rules {R}.

(** Without SUPP_RULE_ENGINE they keep nothing. *)
Definition no_rules_api {J : Type} `{HJ : Cjson J} (print : jval -> bytes) : rules_api unit :=
  let keep r := let* res := r in Ret (res, tt) in
  RulesApi (fun m _ => keep (post_rules print m)) (fun m _ _ => keep (put_rules print m))
    (fun _ _ _ => keep (delete_rules print)) (fun _ _ _ => get_rules print).

(** What requests read and change: the databases of the broker, the
    configuration and its file, what was sent to the broker, the threads
    that stop or restart it, and the rules. *)
Record rest_world (db hash msg R : Type) := RestWorld {
  rw_sub : sub_state (db := db) (hash := hash);
  rw_conf : rest_conf;
  rw_file : list conf_upd;
  rw_sent : list (send_ev msg);
  rw_ctrl : list bytes;
  rw_rules : R
}.
Arguments rw_sub {db hash msg R}. Arguments rw_conf {db hash msg R}. Arguments rw_file {db hash msg R}.
Arguments rw_sent {db hash msg R}. Arguments rw_ctrl {db hash msg R}. Arguments rw_rules {db hash msg R}.
Arguments RestWorld {db hash msg R}.

Section Process.
Context {J : Type} `{HJ : Cjson J}.
Context {db hash msg R : Type} `{Hdb : NngDb db hash} `{Hdl : NngDbList db hash} `{Hmsg : NngMsg msg}.
Variable strcaseeq : bytes -> bytes -> bool.
Variable print : jval -> bytes.
(** [base64_decode] and [base64_encode] of nanolib, contents of fresh blocks *)
Variable base64_decode base64_encode : bytes -> bytes.
Variable garbage : Z -> bytes.
Variable jwt : option (bytes -> jwt_outcome).
(** messages of nng, as in [RestMqtt], the calls numbered over the whole run *)
Variable mqtt_publish_msg : pub_request -> msg.
Variables mqtt_encode mqttv5_encode : msg -> msg.
Variable msg_alloc : nat -> Z * msg.
Variable nng_sendmsg : nat -> Z.
(** the pipes, the time, the directory of the process *)
Variable nng_pipe_cparam : Z -> option conn_view.
Variable time_str : bytes.
Variables now boot_time : Z.
Variable cwd : option bytes.
Variable rules : rules_api R.

Local Notation world := (rest_world db hash msg R).

Definition publish_cb (obj : J) (w : world) : exec (Z * world) :=
  let n := length (rw_sent w) in
  let* r := handle_publish_msg mqtt_publish_msg mqtt_encode mqttv5_encode base64_encode
              (fun i => msg_alloc (n + i)%nat) (fun i => nng_sendmsg (n + i)%nat) obj in
  Ret (r.1, RestWorld (rw_sub w) (rw_conf w) (rw_file w) (rw_sent w ++ r.2) (rw_ctrl w) (rw_rules w)).

Definition sub_cb (handle : J -> sub_state (db := db) (hash := hash) -> exec (Z * sub_state)) (obj : J) (w : world)
    : exec (Z * world) :=
  let* r := handle obj (rw_sub w) in
  Ret (r.1, RestWorld r.2 (rw_conf w) (rw_file w) (rw_sent w) (rw_ctrl w) (rw_rules w)).

Definition post_mqtt (batch : bool) (cb : J -> world -> exec (Z * world)) (m : http_msg) (w : world)
    : exec (http_msg * world) :=
  if batch then post_mqtt_msg_batch print cb m w else post_mqtt_msg print cb m w.

(** An endpoint for rules. *)
Definition on_rules (r : exec (http_msg * R)) (w : world) : exec (http_msg * world) :=
  let* r := r in
  Ret (r.1, RestWorld (rw_sub w) (rw_conf w) (rw_file w) (rw_sent w) (rw_ctrl w) r.2).

(** An endpoint that only answers. *)
Definition answer (r : exec http_msg) (w : world) : exec (http_msg * world) :=
  let* res := r in Ret (res, w).

Definition run (e : endpoint) (m : http_msg) (w : world) : exec (http_msg * world) :=
  let h := st_hash (rw_sub w) in
  match e with
  | EpEndpoints => answer (get_endpoints print) w
  | EpBrokers => answer (get_brokers print time_str now boot_time) w
  | EpNodes => answer (get_nodes print h now boot_time) w
  | EpClients client_id username => answer (get_clients print nng_pipe_cparam h client_id username) w
  | EpSubscriptions client_id => answer (get_subscriptions print nng_pipe_cparam h client_id) w
  | EpGetRules rule_id => answer (api_get_rules rules m rule_id (rw_rules w)) w
  | EpTree => answer (get_tree print nng_pipe_cparam (st_db (rw_sub w))) w
  | EpGetConfig => answer (get_config print (rw_conf w)) w
  | EpCtrl action =>
      let* r := post_ctrl strcaseeq print action in
      Ret (r.1, RestWorld (rw_sub w) (rw_conf w) (rw_file w) (rw_sent w)
                  (rw_ctrl w ++ match r.2 with Some a => [a] | None => [] end) (rw_rules w))
  | EpPostConfig =>
      let* r := post_config cwd print m (rw_conf w) in
      let '(res, (us, c)) := r in
      Ret (res, RestWorld (rw_sub w) c (rw_file w ++ us) (rw_sent w) (rw_ctrl w) (rw_rules w))
  | EpPostRules => on_rules (api_post_rules rules m (rw_rules w)) w
  | EpPublish batch => post_mqtt batch publish_cb m w
  | EpSubscribe batch => post_mqtt batch (sub_cb handle_subscribe_msg) m w
  | EpUnsubscribe batch => post_mqtt batch (sub_cb handle_unsubscribe_msg) m w
  | EpPutRules rule_id => on_rules (api_put_rules rules m rule_id (rw_rules w)) w
  | EpDeleteRules rule_id => on_rules (api_delete_rules rules m rule_id (rw_rules w)) w
  | EpError status code => answer (error_response print m status code) w
  end.

Definition authorize (config : conf_http_server) (m : http_msg) : exec (Z * http_msg) :=
  match http_auth_type config with
  | BASIC => basic_authorize base64_decode garbage config m
  | JWT => jwt_authorize jwt m
  | NONE_AUTH => Ret (SUCCEED, m)
  end.

(** From the URI to the reply. *)
Definition serve (m : http_msg) (w : world) : exec (http_msg * world) :=
  match hm_uri m, hm_method m with
  | Some uri, Some method =>
      let* uri_ct := uri_parse uri in
      let* r := run (route strcaseeq (uc_sub_tree uri_ct) method) m w in
      let* _ := uri_free uri_ct in
      Ret r
  | _, _ => UB
  end.

(** The reply, the request (its token may be overwritten) and the world.  The
    server's configuration is the one the work item holds. *)
Definition process_request (config : conf_http_server) (m : http_msg) (w : world)
    : exec (http_msg * http_msg * world) :=
  let* a := authorize config m in
  let '(code, m) := a in
  if negb (code =? SUCCEED) then
    let* res := error_response print m NNG_HTTP_STATUS_UNAUTHORIZED code in
    Ret (res, m, w)
  else
    let* r := serve m w in
    Ret (r.1, m, r.2).
End Process.

(** ** Documented endpoints *)

(** The path of a row with its parameter filled in. *)
Definition fill_path (path arg : bytes) : bytes :=
  match cut path 58 with Some (pre, _) => pre ++ arg | None => path end.

(** The endpoint a row of the table describes. *)
Definition endpoint_of (name arg : bytes) : endpoint :=
  let called s := bool_decide (name = str s) in
  if called "list_brokers" then EpBrokers
  else if called "list_nodes" then EpNodes
  else if called "list_clients" then EpClients None None
  else if called "lookup_client" then EpClients (Some arg) None
  else if called "lookup_client_via_username" then EpClients None (Some arg)
  else if called "list_subscriptions" then EpSubscriptions None
  else if called "lookup_client_subscriptions" then EpSubscriptions (Some arg)
  else if called "list_rules" then EpGetRules None
  else if called "get_rule_details" then EpGetRules (Some arg)
  else if called "create_rule" then EpPostRules
  else if called "update_rule" then EpPutRules arg
  else if called "delete_rule" then EpDeleteRules arg
  else if called "mqtt_subscribe" then EpSubscribe false
  else if called "mqtt_publish" then EpPublish false
  else if called "mqtt_unsubscribe" then EpUnsubscribe false
  else if called "mqtt_subscribe_batch" then EpSubscribe true
  else if called "mqtt_publish_batch" then EpPublish true
  else if called "mqtt_unsubscribe_batch" then EpUnsubscribe true
  else if called "list_topic-tree" then EpTree
  else if called "get_broker_configuration" then EpGetConfig
  else if called "set_broker_configuration" then EpPostConfig
  else if called "ctrl_broker" then EpCtrl arg
  else not_found.

(** A path parameter: there, and without the separators of a URI. *)
Definition path_arg (arg : bytes) : Prop := arg <> [] /\ 47 ∉ arg /\ 63 ∉ arg.

(** Letters of the two cases are the same. *)
Definition lower (c : Z) : Z := if (65 <=? c) && (c <=? 90) then c + 32 else c.

(** ** Lemmas *)

Lemma uri_parse_path comps :
  comps <> [] -> comps <> [[]] -> 63 ∉ path_of comps ->
  uri_parse (path_of comps) = Ret (UriContent (uri_parse_tree (path_of comps)) 0 []).
Proof.
  intros H1 H2 Hq. unfold uri_parse.
  assert (Hne : forall t, t <> join 47 ([] :: comps) -> path_of comps <> REST_URI_ROOT ++ t)
    by (intros t Ht He; unfold path_of in He; by apply app_inv_head in He; rewrite He in Ht).
  rewrite !bool_decide_eq_false_2.
  - cbn [orb]. by rewrite (proj2 (cut_None _ _) Hq).
  - apply Hne. destruct comps as [|[|??] [|??]]; done.
  - rewrite <- (app_nil_r REST_URI_ROOT). apply Hne. by destruct comps.
Qed.

Lemma join_notin x l : (forall c, c ∈ l -> x ∉ c) -> x <> 47 -> x ∉ join 47 l.
Proof.
  intros H Hx. induction l as [|c l IH]; [apply not_elem_of_nil|]. destruct l as [|d l].
  - apply H. by left.
  - change (join 47 (c :: d :: l)) with (c ++ 47 :: join 47 (d :: l)).
    rewrite not_elem_of_app, not_elem_of_cons. split; [apply H; by left|]. split; [done|].
    apply IH. intros e He. apply H. by right.
Qed.

Lemma uri_parse_comps comps l (slash : bool) :
  Forall (fun c => 47 ∉ c /\ 63 ∉ c) comps -> path_arg l ->
  uri_parse (path_of (comps ++ [l] ++ if slash then [[]] else [])) =
  Ret (UriContent (tree_of (comps ++ [l])) 0 []).
Proof.
  intros HF (Hl & H47 & H63). rewrite uri_parse_path.
  - rewrite uri_parse_tree_comps; [done| |done..]. eapply Forall_impl; [exact HF|]. by intros c [? _].
  - by destruct comps.
  - destruct comps as [|? [|??]], slash; cbn; congruence.
  - unfold path_of. rewrite not_elem_of_app. split; [by apply (bool_decide_eq_true_1 _)|].
    apply join_notin; [|done]. intros c Hc. apply elem_of_cons in Hc as [->|Hc]; [apply not_elem_of_nil|].
    rewrite !elem_of_app in Hc. destruct Hc as [Hc|[->%list_elem_of_singleton|Hc]]; [|done|].
    + rewrite Forall_forall in HF. by apply HF.
    + destruct slash; [|by apply elem_of_nil in Hc]. apply list_elem_of_singleton in Hc as ->. apply not_elem_of_nil.
Qed.

(** ** Properties *)

Section ApiProps.
Variable strcaseeq : bytes -> bytes -> bool.
Hypothesis strcaseeq_spec : forall a b, strcaseeq a b = bool_decide (map lower a = map lower b).

Lemma route_method tree method :
  route strcaseeq tree method =
  let meth s := bool_decide (map lower method = map lower (str s)) in
  if meth "GET" then route_get tree
  else if meth "POST" then route_post tree
  else if meth "PUT" then
    if ends_at tree 3 && node_is tree 1 "rules" then EpPutRules (node tree 2) else not_found
  else if meth "DELETE" then
    if ends_at tree 3 && node_is tree 1 "rules" then EpDeleteRules (node tree 2) else not_found
  else EpError NNG_HTTP_STATUS_METHOD_NOT_ALLOWED UNKNOWN_MISTAKE.
Proof. unfold route. by rewrite !strcaseeq_spec. Qed.

(** A path that is one of these, and what its row describes. *)
Lemma row_routed e arg comps l (slash : bool) :
  REST_URI_ROOT ++ fill_path (ep_path e) arg = path_of (comps ++ [l] ++ if slash then [[]] else []) ->
  Forall (fun c => 47 ∉ c /\ 63 ∉ c) comps -> path_arg l ->
  route strcaseeq (tree_of (comps ++ [l])) (ep_method e) = endpoint_of (ep_name e) arg ->
  exists ct, uri_parse (REST_URI_ROOT ++ fill_path (ep_path e) arg) = Ret ct /\
    route strcaseeq (uc_sub_tree ct) (ep_method e) = endpoint_of (ep_name e) arg.
Proof. intros -> HF Hl Hr. eexists. split; [by apply uri_parse_comps|]. exact Hr. Qed.

Local Ltac literal_row :=
  eexists; split; [vm_compute; reflexivity|rewrite route_method; vm_compute; reflexivity].

Local Ltac parameter_row comps :=
  match goal with Ha : path_arg ?arg |- _ =>
    apply (row_routed _ arg comps arg false);
    [reflexivity
    |repeat constructor; apply (bool_decide_eq_true_1 _); vm_compute; reflexivity
    |exact Ha
    |rewrite route_method; vm_compute; reflexivity]
  end.

(** C20: Every endpoint of the documented table is reached: its path under
    /api/v4, with anything for its parameter, and its method lead to the
    operation the row describes, with that parameter. *)
Theorem documented_endpoints_routed e arg :
  e ∈ api_ep -> path_arg arg ->
  exists ct, uri_parse (REST_URI_ROOT ++ fill_path (ep_path e) arg) = Ret ct /\
    route strcaseeq (uc_sub_tree ct) (ep_method e) = endpoint_of (ep_name e) arg.
Proof.
  intros He Ha. unfold api_ep in He.
  repeat (apply elem_of_cons in He as [->|He];
    [first [literal_row|parameter_row [str "clients"]|parameter_row [str "clients"; str "username"]
           |parameter_row [str "subscriptions"]|parameter_row [str "rules"]|parameter_row [str "ctrl"]]|]).
  by apply elem_of_nil in He.
Qed.
End ApiProps.

Section CtrlProps.
Variable strcaseeq : bytes -> bytes -> bool.

Lemma mk_str_join n (l : list bytes) sep :
  (n <= length l)%nat ->
  mk_str n ((Some <$> l) ++ [None]) sep = Ret (mjoin ((fun s => s ++ sep) <$> take n l)).
Proof.
  revert l. induction n as [|n IH]; intros l Hn; [done|]. destruct l as [|s l]; [cbn in Hn; lia|].
  cbn in *. rewrite IH by lia. cbn. by rewrite <- app_assoc.
Qed.

(** POST /ctrl/stop and /ctrl/restart never stop or restart the broker: the
    action is written over the third word of the command line, and the command
    is the second.  The command line that is run (its words as a shell splits
    them at spaces) starts a broker once more. *)
Theorem http_ctrl_starts_again prog opts action :
  prog <> [] -> 32 ∉ prog ->
  strcaseeq action (str "stop") || strcaseeq action (str "restart") = true ->
  let args := prog :: str "start" :: opts in
  main_command args = CmdStart /\
  exists cmd argv, ctrl_cb strcaseeq action (length args) ((Some <$> args) ++ [None]) = Ret (Some cmd, argv) /\
    main_command (strtok cmd 32) = CmdStart.
Proof.
  intros Hp Hs Ha args. split; [done|].
  assert (Hset : forall v, exists rest,
    <[2%nat := Some v]> ((Some <$> args) ++ [None]) = Some prog :: Some (str "start") :: Some v :: rest /\
    forall n, (n <= length opts)%nat -> exists t, mk_str n (Some v :: rest) [32] = Ret t).
  { intros v. destruct opts as [|o opts]; cbn.
    - exists []. split; [done|]. intros n Hn. assert (n = 0%nat) as -> by lia. by eexists.
    - eexists. split; [done|]. intros n Hn.
      change (Some v :: ?r) with ((Some <$> v :: opts) ++ [None]). rewrite mk_str_join by done. by eexists. }
  assert (Hcmd : forall n v rest t, mk_str n (Some v :: rest) [32] = Ret t ->
    exists cmd, mk_str (S (S n)) (Some prog :: Some (str "start") :: Some v :: rest) [32] = Ret cmd /\
      main_command (strtok cmd 32) = CmdStart).
  { intros n v rest t Ht. cbn [mk_str]. rewrite Ht. cbn [ebind]. eexists. split; [done|].
    unfold strtok. cbn [app]. rewrite strtok_go_app by done. cbn [app]. rewrite bool_decide_eq_false_2 by done.
    rewrite strtok_go_app by (by apply (bool_decide_eq_true_1 _)). done. }
  assert (Hlen : (2 < length ((Some <$> args) ++ [None]))%nat)
    by (rewrite length_app; cbn; rewrite length_fmap; lia).
  unfold ctrl_cb. rewrite bool_decide_eq_true_2 by done.
  destruct (strcaseeq action (str "stop")); [|cbn [orb] in Ha; rewrite Ha].
  - destruct (Hset (str "stop")) as (rest & -> & _). cbn [ebind].
    destruct (Hcmd 1%nat (str "stop") rest (str "stop" ++ [32])) as (cmd & -> & Hm); [done|].
    cbn [ebind]. by do 2 eexists.
  - destruct (Hset (str "restart")) as (rest & -> & Ht). cbn [ebind].
    destruct (Ht (length opts)) as (t & Ht'); [done|].
    destruct (Hcmd (length opts) _ _ _ Ht') as (cmd & Hc & Hm).
    change (length args) with (S (S (length opts))). rewrite Hc. cbn [ebind]. by do 2 eexists.
Qed.
End CtrlProps.

Section RequestProps.
Context {J : Type} `{HJ : Cjson J}.
Context {db hash msg R : Type} `{Hdb : NngDb db hash} `{Hlaws : !NngDbLaws db hash} `{Hdl : NngDbList db hash}
  `{Hll : !NngDbListLaws db hash} `{Hmsg : NngMsg msg}.
Variable strcaseeq : bytes -> bytes -> bool.
Hypothesis strcaseeq_spec : forall a b, strcaseeq a b = bool_decide (map lower a = map lower b).
Variable print : jval -> bytes.
Variables base64_decode base64_encode : bytes -> bytes.
Variable garbage : Z -> bytes.
Variable jwt : option (bytes -> jwt_outcome).
Hypothesis garbage_len : forall n, 0 <= n -> Zlen (garbage n) = n.
Variable mqtt_publish_msg : pub_request -> msg.
Variables mqtt_encode mqttv5_encode : msg -> msg.
Variable msg_alloc : nat -> Z * msg.
Variable nng_sendmsg : nat -> Z.
Variable nng_pipe_cparam : Z -> option conn_view.
Variable time_str : bytes.
Variables now boot_time : Z.
Variable cwd : option bytes.
Variable rules : rules_api R.

Local Notation world := (rest_world db hash msg R).
Local Notation serve := (serve strcaseeq print base64_encode mqtt_publish_msg mqtt_encode mqttv5_encode
  msg_alloc nng_sendmsg nng_pipe_cparam time_str now boot_time cwd rules).
Local Notation process := (process_request strcaseeq print base64_decode base64_encode garbage jwt
  mqtt_publish_msg   mqtt_encode mqttv5_encode msg_alloc nng_sendmsg nng_pipe_cparam time_str now boot_time cwd rules).
Local Notation authorize := (authorize base64_decode garbage jwt).

(** The reply with only a code. *)
Definition code_msg (status : Z) (content_type : option bytes) (code : Z) : http_msg :=
  reply_msg print status content_type (JObject [(str "code", JNumber code)]).

(** A request whose token length goes with a token. *)
Definition token_ok (m : http_msg) : Prop := 0 < hm_token_len m -> hm_token m <> None.

(** C12: A request is served only after login.  With basic authorization, when
    its token decodes to no more bytes than fit the buffer, that is exactly when
    the decoded text, with what the buffer held behind it, is user:password; when
    it decodes to as many bytes as user:password has, exactly when it decodes to
    user:password.  With JWT it is exactly when the decoder finds the token valid,
    and never in a build without the decoder.  Every other request, with such a
    token or with none of the scheme, is answered with 401 and a code for the
    reason, and changes nothing. *)
Theorem http_requires_login config m t (w : world) :
  token_ok m ->
  let refused code := code_msg NNG_HTTP_STATUS_UNAUTHORIZED (hm_content_type m) code in
  (http_auth_type config = BASIC ->
   forall user pass, http_username config = Some user -> http_password config = Some pass -> 0 ∉ user -> 0 ∉ pass ->
   let text := login_text base64_decode garbage user pass t in
   (scheme_token (str "Basic") m = Some t -> Zlen (base64_decode t) <= Zlen (user ++ 58 :: pass) + 1 ->
    process config m w =
    if bool_decide (text = user ++ 58 :: pass ++ [0])
    then let* r := serve (set_token m t) w in Ret (r.1, set_token m t, r.2)
    else Ret (refused WRONG_USERNAME_OR_PASSWORD, set_token m t, w)) /\
   (Zlen (base64_decode t) = Zlen (user ++ 58 :: pass) ->
    text = user ++ 58 :: pass ++ [0] <-> base64_decode t = user ++ 58 :: pass) /\
   (scheme_token (str "Basic") m = None -> process config m w = Ret (refused EMPTY_USERNAME_OR_PASSWORD, m, w))) /\
  (http_auth_type config = JWT ->
   (forall decode, jwt = Some decode ->
    (scheme_token (str "Bearer") m = Some t ->
     process config m w =
     match decode t with
     | JwtValid claims =>
         let m := match body_encode claims with
                  | Some type => set_encrypt (set_token m t) (type =? 1)
                  | None => set_token m t
                  end in
         let* r := serve m w in Ret (r.1, m, r.2)
     | JwtExpired => Ret (refused TOKEN_EXPIRED, set_token m t, w)
     | JwtInvalid => Ret (refused WRONG_USERNAME_OR_PASSWORD, set_token m t, w)
     end) /\
    (scheme_token (str "Bearer") m = None -> process config m w = Ret (refused EMPTY_USERNAME_OR_PASSWORD, m, w))) /\
   (jwt = None -> process config m w = Ret (refused REQ_PARAM_ERROR, m, w))).
Proof using garbage_len.
  intros Hok refused. split.
  - intros Hauth user pass Hu Hp Hu0 Hp0 text. unfold process_request, RestApi.authorize. rewrite Hauth. split; [|split].
    + intros Hm Hl. erewrite basic_authorize_correct by done. cbn [ebind]. fold text.
      case_bool_decide; cbn [negb Z.eqb SUCCEED]; [done|]. unfold error_response. by rewrite json_reply_ok.
    + by apply login_text_exact.
    + intros Hm. rewrite basic_authorize_none by done. cbn [ebind negb Z.eqb SUCCEED EMPTY_USERNAME_OR_PASSWORD].
      unfold error_response. by rewrite json_reply_ok.
  - intros Hauth. unfold process_request, RestApi.authorize. rewrite Hauth. split.
    + intros decode ->. unfold jwt_authorize, scheme_token, token_ok in *.
      destruct (hm_token_len m <=? 0) eqn:El; bool_hyps.
      { split; [done|]. intros _. cbn. unfold error_response. by rewrite json_reply_ok. }
      destruct (hm_token m) as [text|]; [|by destruct Hok]. cbn [mbind option_bind]. split; intros ->.
      * destruct (decode t); cbn [ebind negb Z.eqb SUCCEED TOKEN_EXPIRED WRONG_USERNAME_OR_PASSWORD]; [done|..];
          unfold error_response; by rewrite json_reply_ok.
      * cbn. unfold error_response. by rewrite json_reply_ok.
    + intros ->. cbn. unfold error_response. by rewrite json_reply_ok.
Qed.

Lemma jwt_authorize_frame (m : http_msg) code m' :
  jwt_authorize jwt m = Ret (code, m') ->
  hm_uri m' = hm_uri m /\ hm_method m' = hm_method m /\ hm_data m' = hm_data m.
Proof.
  unfold jwt_authorize. destruct jwt as [decode|]; [|by intros [= _ <-]].
  case_match; [by intros [= _ <-]|]. destruct (hm_token m) as [text|]; [|done].
  destruct (scan_scheme _ _) as [t|]; [|by intros [= _ <-]].
  destruct (decode t) as [claims| |]; [destruct (body_encode claims)|..]; by intros [= _ <-].
Qed.

(** The routing of a concrete path, computed. *)
Local Ltac rewrite_to e :=
  match goal with |- context [run _ _ _ _ _ _ _ _ _ _ _ _ _ _ ?x _ _] =>
    replace x with e by (vm_compute; reflexivity) end.

(** Authorization leaves the rest of the request alone. *)
Lemma authorize_frame config m code m' :
  authorize config m = Ret (code, m') ->
  hm_uri m' = hm_uri m /\ hm_method m' = hm_method m /\ hm_data m' = hm_data m.
Proof.
  unfold RestApi.authorize. destruct (http_auth_type config); [by intros [= _ <-]| |apply jwt_authorize_frame].
  unfold basic_authorize. case_match; [by intros [= _ <-]|].
  destruct (hm_token m); [|done]. destruct (scan_scheme _ _); [|by intros [= _ <-]].
  destruct (http_username config), (http_password config); try done.
  intros (d & _ & Hr)%ebind_Ret. case_match; [|done].
  apply ebind_Ret in Hr as (same & _ & [= _ <-]). done.
Qed.

(** A request that is let in, for a path without parameters. *)
Lemma process_authorized config m m' (w : world) uri method tree :
  authorize config m = Ret (SUCCEED, m') ->
  hm_uri m = Some uri -> hm_method m = Some method -> uri_parse uri = Ret (UriContent tree 0 []) ->
  process config m w =
  let* r := run strcaseeq print base64_encode mqtt_publish_msg mqtt_encode mqttv5_encode msg_alloc nng_sendmsg
              nng_pipe_cparam time_str now boot_time cwd rules (route strcaseeq tree method) m' w in
  Ret (r.1, m', r.2).
Proof.
  intros Ha Hu Hm Hp. destruct (authorize_frame _ _ _ _ Ha) as (Hu' & Hm' & _).
  unfold process_request, RestApi.serve. rewrite Ha. cbn [ebind negb Z.eqb SUCCEED].
  rewrite Hu', Hm', Hu, Hm, Hp. cbn [ebind uc_sub_tree]. by destruct (run _ _ _ _ _ _ _ _ _ _ _ _ _ _ _ _ _).
Qed.

End RequestProps.

(** ** Witnesses *)

Definition demo_caseeq (a b : bytes) : bool := bool_decide (map lower a = map lower b).

Lemma documented_endpoints_routed_witness :
  exists ct, uri_parse (str "/api/v4/clients/username/bob") = Ret ct /\
    route demo_caseeq (uc_sub_tree ct) (str "GET") = EpClients None (Some (str "bob")).
Proof.
  apply (documented_endpoints_routed demo_caseeq (fun a b => eq_refl)
    (ep "/clients/username/:username" "lookup_client_via_username" "GET"
       "Lookup a client via username in the cluster") (str "bob")).
  - do 4 (apply elem_of_cons; right). apply elem_of_cons. left. reflexivity.
  - repeat split; [discriminate|apply (bool_decide_eq_true_1 _); vm_compute; reflexivity..].
Defined.

Lemma http_ctrl_starts_again_witness :
  exists cmd argv,
    ctrl_cb demo_caseeq (str "Stop") 2 [Some (str "nanomq"); Some (str "start"); None] = Ret (Some cmd, argv) /\
    main_command (strtok cmd 32) = CmdStart.
Proof.
  apply (http_ctrl_starts_again demo_caseeq (str "nanomq") [] (str "Stop")).
  - discriminate.
  - apply (bool_decide_eq_true_1 _). vm_compute. reflexivity.
  - vm_compute. reflexivity.
Defined.

Definition api_print (v : jval) : bytes := [123; 125].

Definition api_body : bytes := str "{...}".
Definition api_sub_obj : jtree :=
  TObj [(str "topic", TStr (str "t")); (str "clientid", TStr (str "c20")); (str "qos", TNum (JNum 1 true []))].
#[local] Instance api_cjson : Cjson jtree :=
  jtree_cjson (fun b => if bool_decide (b = api_body) then Some api_sub_obj else None).

Definition api_pipe (p : Z) : option conn_view :=
  Some (ConnView (Some (if p =? 8 then str "c20" else str "other")) None 60 true (Some (str "MQTT")) 4).

Definition api_conf : rest_conf := demo_rest_conf.
Definition api_world : rest_world (gset (bytes * Z)) rhash rmsg unit :=
  RestWorld demo_sub_state api_conf [] [] [] tt.

Definition api_request (method uri : string) (token : option bytes) (data : option bytes) : http_msg :=
  HttpMsg 0 0 0 None 0 (Some (str method)) 0 (Some (str uri)) (match token with Some t => Zlen t | None => 0 end) token
    (match data with Some d => Zlen d | None => 0 end) data false.
Definition api_login : bytes := str "Basic YWRtaW46cHVibGlj".

Lemma no_nul_demo : 0 ∉ str "admin" /\ 0 ∉ str "public".
Proof. split; apply (bool_decide_eq_true_1 _); vm_compute; reflexivity. Qed.

Lemma demo_zeros_len n : 0 <= n -> Zlen (demo_zeros n) = n.
Proof. intros Hn. unfold demo_zeros, Zlen. rewrite length_replicate. lia. Qed.

Lemma api_token_ok method uri token data : token_ok (api_request method uri token data).
Proof. destruct token; [intros _; discriminate|intros H; discriminate H]. Qed.

Definition demo_jwt_conf : conf_http_server := ConfHttp 8081 32 (Some (str "admin")) (Some (str "public")) JWT.
Definition demo_jwt (token : bytes) : jwt_outcome :=
  if bool_decide (token = str "abc") then JwtValid [(str "bodyEncode", 1)] else JwtExpired.

(** The login is right, then wrong by one letter, then missing; then a token of
    the other kind, right and wrong. *)
Lemma http_requires_login_witness :
  let process jwt config m := process_request demo_caseeq api_print demo_base64 id demo_zeros jwt (fun _ => empty_msg) id id
    (fun _ => (0, empty_msg)) (fun _ => 0) api_pipe [] 0 0 None (no_rules_api api_print) config m api_world in
  let ask := api_request "DELETE" "/api/v4/rules/1" in
  let refused code := code_msg api_print NNG_HTTP_STATUS_UNAUTHORIZED None code in
  (exists r, process None demo_http_conf (ask (Some api_login) None) = Ret r /\ hm_status r.1.1 = NNG_HTTP_STATUS_OK) /\
  (exists m, process None demo_http_conf (ask (Some (str "Basic YWRtaW46cHVibGlq")) None) =
     Ret (refused WRONG_USERNAME_OR_PASSWORD, m, api_world)) /\
  process None demo_http_conf (ask None None) =
    Ret (refused EMPTY_USERNAME_OR_PASSWORD, ask None None, api_world) /\
  (exists r, process (Some demo_jwt) demo_jwt_conf (ask (Some (str "Bearer abc")) None) = Ret r /\
     hm_status r.1.1 = NNG_HTTP_STATUS_OK /\ hm_encrypt_data r.1.2 = true) /\
  (exists m, process (Some demo_jwt) demo_jwt_conf (ask (Some (str "Bearer abd")) None) =
     Ret (refused TOKEN_EXPIRED, m, api_world)).
Proof.
  destruct no_nul_demo as [Hu Hp]. cbv zeta.
  pose proof (fun jwt c m t => http_requires_login demo_caseeq api_print demo_base64 id demo_zeros jwt demo_zeros_len
    (fun _ => empty_msg) id id (fun _ => (0, empty_msg)) (fun _ => 0) api_pipe [] 0 0 None (no_rules_api api_print) c m t
    api_world) as T.
  pose proof (fun m t Hok => proj1 (T None demo_http_conf m t Hok) eq_refl _ _ eq_refl eq_refl Hu Hp) as B.
  pose proof (fun m t Hok => proj1 (proj1 (proj2 (T (Some demo_jwt) demo_jwt_conf m t Hok) eq_refl) _ eq_refl)) as W.
  split; [|split; [|split; [|split]]].
  - eexists. split; [rewrite (proj1 (B _ (str "YWRtaW46cHVibGlj") (api_token_ok _ _ _ _)));
      [vm_compute; reflexivity|vm_compute; reflexivity|vm_compute; discriminate]|vm_compute; reflexivity].
  - eexists. rewrite (proj1 (B _ (str "YWRtaW46cHVibGlq") (api_token_ok _ _ _ _)));
      [vm_compute; reflexivity|vm_compute; reflexivity|vm_compute; discriminate].
  - rewrite (proj2 (proj2 (B _ [] (api_token_ok _ _ _ _)))); reflexivity.
  - eexists. split; [rewrite (W _ (str "abc") (api_token_ok _ _ _ _));
      [vm_compute; reflexivity|vm_compute; reflexivity]|split; vm_compute; reflexivity].
  - eexists. rewrite (W _ (str "abd") (api_token_ok _ _ _ _)); [vm_compute; reflexivity|vm_compute; reflexivity].
Defined.

