(* ===== verification/WebServer.v ===== *)
(** * web_server.c: HTTP jobs and their answers

    The HTTP server calls [rest_handle] with an aio for each request.  A job
    carries it over a REQ socket to one of the work items of [inproc_server],
    which answers with [process_request]; [rest_job_cb] hands the reply to the
    HTTP server.  Finished jobs go to a free list. *)

From Stdlib Require Import ZArith Lia.
From stdpp Require Import base numbers list gmap option sets strings.
From S2P Require Import Prelude Mqtt SubHandler Cstring RestHttp.

Local Open Scope Z_scope.
Local Open Scope nano_scope.

(** ** Jobs *)

Inductive job_state := SEND_REQ | RECV_REP.

Record http_res := HttpRes {
  hr_status : Z;
  hr_reason : option bytes;
  hr_content_type : option bytes;
  hr_cookies : option bytes;
  hr_data : option bytes
}.

(** [nng_http_res_alloc] *)
Definition new_http_res : http_res := HttpRes NNG_HTTP_STATUS_OK None None None None.

(** [msg] is the [http_msg] in the body of the message; [next] is a pointer,
    NULL is [None]; [aio] is allocated with the job and never changes. *)
Record rest_job := RestJob {
  job_http_aio : option Z;
  job_http_res : option http_res;
  job_st : job_state;
  job_msg : option http_msg;
  job_ctx : Z;
  job_next : option Z
}.

Definition set_http_aio (j : rest_job) v := RestJob v (job_http_res j) (job_st j) (job_msg j) (job_ctx j) (job_next j).
Definition set_http_res (j : rest_job) v := RestJob (job_http_aio j) v (job_st j) (job_msg j) (job_ctx j) (job_next j).
Definition set_st (j : rest_job) v := RestJob (job_http_aio j) (job_http_res j) v (job_msg j) (job_ctx j) (job_next j).
Definition set_msg (j : rest_job) v := RestJob (job_http_aio j) (job_http_res j) (job_st j) v (job_ctx j) (job_next j).
Definition set_ctx (j : rest_job) v := RestJob (job_http_aio j) (job_http_res j) (job_st j) (job_msg j) v (job_next j).
Definition set_next (j : rest_job) v := RestJob (job_http_aio j) (job_http_res j) (job_st j) (job_msg j) (job_ctx j) v.

(** [calloc] *)
Definition zero_job : rest_job := RestJob None None SEND_REQ None 0 None.

(** The jobs on the heap, and the head of the free list. *)
Record jobs := Jobs { heap : gmap Z rest_job; job_freelist : option Z }.

Definition get_job (s : jobs) (p : Z) : exec rest_job :=
  match heap s !! p with Some j => Ret j | None => UB end.
Definition set_job (s : jobs) (p : Z) (j : rest_job) : jobs := Jobs (<[p := j]> (heap s)) (job_freelist s).

(** The calls into nng and on the strings of messages. *)
Inductive http_ev :=
| EFinish (aio rv : Z) (res : option http_res)
| EResFree (res : http_res)
| EPut (m : http_msg)
| EDestroy (m : http_msg)
| EMsgFree (m : http_msg)
| ECtxClose (ctx : Z)
| ECtxSend (job ctx : Z) (m : http_msg)
| ECtxRecv (job ctx : Z).

Section Jobs.
(** [nng_strerror], [nng_ctx_id], the address of the next block *)
Variable nng_strerror : Z -> bytes.
Variable nng_ctx_id : Z -> Z.
Variable new_ptr : gmap Z rest_job -> Z.

Definition rest_recycle_job (p : Z) (s : jobs) : exec (list http_ev * jobs) :=
  let* job := get_job s p in
  let ev1 := match job_http_res job with Some r => [EResFree r] | None => [] end in
  let job := set_http_res job None in
  let ev2 := match job_msg job with Some m => [EMsgFree m] | None => [] end in
  let job := set_msg job None in
  let ev3 := if negb (nng_ctx_id (job_ctx job) =? 0) then [ECtxClose (job_ctx job)] else [] in
  let job := set_next job (job_freelist s) in
  Ret (ev1 ++ ev2 ++ ev3, Jobs (<[p := job]> (heap s)) (Some p)).

(** [calloc_ok], [aio_rv]: whether there is memory for a new job. *)
Definition rest_get_job (calloc_ok : bool) (aio_rv : Z) (s : jobs) : exec (option Z * jobs) :=
  match job_freelist s with
  | Some p =>
      let* job := get_job s p in
      Ret (Some p, Jobs (<[p := set_next job None]> (heap s)) (job_next job))
  | None =>
      if negb calloc_ok then Ret (None, s)
      else if negb (aio_rv =? 0) then Ret (None, s)
      else let p := new_ptr (heap s) in Ret (Some p, set_job s p zero_job)
  end.

(** The formats are a text and a [%s]. *)
Definition rest_http_fatal (p : Z) (fmt : bytes) (rv : Z) (s : jobs) : exec (list http_ev * jobs) :=
  let* job := get_job s p in
  match job_http_aio job, job_http_res job with
  | Some aio, Some res =>
      let s := set_job s p (set_http_aio (set_http_res job None) None) in
      let buf := take 127 (fmt ++ nng_strerror rv) in
      let res := HttpRes NNG_HTTP_STATUS_INTERNAL_SERVER_ERROR (Some buf) (hr_content_type res) (hr_cookies res)
                   (hr_data res) in
      let* r := rest_recycle_job p s in
      Ret (EFinish aio 0 (Some res) :: r.1, r.2)
  | _, _ => UB
  end.

(** [aio_rv] and [reply] are the result of the job's aio, [copy_rv] that of
    copying the data. *)
Definition rest_job_cb (p : Z) (aio_rv : Z) (reply : option http_msg) (copy_rv : Z) (s : jobs)
    : exec (list http_ev * jobs) :=
  let* job := get_job s p in
  match job_st job with
  | SEND_REQ =>
      if negb (aio_rv =? 0) then rest_http_fatal p (str "send REQ failed: ") aio_rv s
      else
        let job := set_st (set_msg job None) RECV_REP in
        Ret ([ECtxRecv p (job_ctx job)], set_job s p job)
  | RECV_REP =>
      if negb (aio_rv =? 0) then rest_http_fatal p (str "recv reply failed: ") aio_rv s
      else
        match reply, job_http_aio job, job_http_res job with
        | Some res_msg, Some http_aio, Some res =>
            let job := set_msg job (Some res_msg) in
            let s := set_job s p job in
            if negb (copy_rv =? 0) then rest_http_fatal p (str "nng_http_res_copy_data: ") copy_rv s
            else
              let* body := slice (default [] (hm_data res_msg)) 0 (hm_data_len res_msg) in
              let res := HttpRes (hm_status res_msg) (hr_reason res)
                           (if 0 <? hm_content_type_len res_msg then hm_content_type res_msg
                            else hr_content_type res)
                           (if 0 <? hm_token_len res_msg then hm_token res_msg else hr_cookies res)
                           (Some body) in
              let s := set_job s p (set_http_aio (set_http_res job None) None) in
              let* r := rest_recycle_job p s in
              Ret ([EDestroy res_msg; EFinish http_aio 0 (Some res)] ++ r.1, r.2)
        | _, _, _ => UB
        end
  end.

(** What [rest_handle] reads of a request, and the results of its calls. *)
Record http_req := HttpReq {
  hq_uri : option bytes; hq_method : option bytes; hq_content_type : option bytes;
  hq_token : option bytes; hq_data : option bytes; hq_size : Z
}.

Record handle_rvs := HandleRvs {
  rv_calloc : bool; rv_aio : Z; rv_res : Z; rv_ctx : Z; rv_new_ctx : Z; rv_msg : Z
}.

Definition rest_handle (aio : Z) (req : http_req) (rvs : handle_rvs) (s : jobs) : exec (list http_ev * jobs) :=
  let* g := rest_get_job (rv_calloc rvs) (rv_aio rvs) s in
  match g with
  | (None, s) => Ret ([EFinish aio NNG_ENOMEM None], s)
  | (Some p, s) =>
      let* job := get_job s p in
      let recycle rv s := let* r := rest_recycle_job p s in Ret (r.1 ++ [EFinish aio rv None], r.2) in
      if negb (rv_res rvs =? 0) then recycle (rv_res rvs) s
      else
        let job := set_http_res job (Some new_http_res) in
        if negb (rv_ctx rvs =? 0) then recycle (rv_ctx rvs) (set_job s p job)
        else
          let job := set_http_aio (set_ctx job (rv_new_ctx rvs)) (Some aio) in
          let* recv_msg := put_http_msg zero_http_msg (hq_content_type req) (hq_method req) (hq_uri req)
                             (hq_token req) (hq_data req) (hq_size req) in
          if negb (rv_msg rvs =? 0) then
            let* r := rest_http_fatal p (str "nng_msg_alloc: ") (rv_msg rvs) (set_job s p job) in
            Ret (EPut recv_msg :: r.1, r.2)
          else
            let job := set_st (set_msg job (Some recv_msg)) SEND_REQ in
            Ret ([EPut recv_msg; ECtxSend p (job_ctx job) recv_msg], set_job s p job)
  end.
End Jobs.

(** ** Lemmas *)

(** The list behind a pointer. *)
Fixpoint chain (h : gmap Z rest_job) (head : option Z) (l : list Z) : Prop :=
  match l with
  | [] => head = None
  | p :: l' => head = Some p /\ exists j, h !! p = Some j /\ chain h (job_next j) l'
  end.

Lemma chain_insert h head l p j : p ∉ l -> chain h head l -> chain (<[p := j]> h) head l.
Proof.
  revert head. induction l as [|q l IH]; intros head Hp; [done|].
  apply not_elem_of_cons in Hp as [Hq Hp]. intros (Hh & k & Hk & Hc). split; [done|]. exists k.
  rewrite lookup_insert_ne by done. split; [done|]. by apply IH.
Qed.

(** A job on the free list, and one that carries the request of an HTTP aio. *)
Definition idle_job (j : rest_job) : Prop :=
  job_http_aio j = None /\ job_http_res j = None /\ job_msg j = None.

Definition busy_job (j : rest_job) : Prop :=
  job_http_aio j <> None /\ job_http_res j <> None /\
  match job_st j with SEND_REQ => job_msg j <> None | RECV_REP => job_msg j = None end.

(** The jobs on the heap are on the free list, held by the running function, or
    waiting for their aio. *)
Record jobs_ok (s : jobs) (free held pend : list Z) : Prop := JobsOk {
  ok_chain : chain (heap s) (job_freelist s) free;
  ok_nodup : NoDup (free ++ held ++ pend);
  ok_dom : forall p, is_Some (heap s !! p) <-> p ∈ free ++ held ++ pend;
  ok_idle : forall p j, p ∈ free -> heap s !! p = Some j -> idle_job j;
  ok_busy : forall p j, p ∈ pend -> heap s !! p = Some j -> busy_job j
}.

(** Jobs whose aio a function started, and HTTP requests it answered. *)
Definition started (evs : list http_ev) : list Z :=
  omap (fun e => match e with ECtxSend p _ _ | ECtxRecv p _ => Some p | _ => None end) evs.
Definition finished (evs : list http_ev) : list Z :=
  omap (fun e => match e with EFinish aio _ _ => Some aio | _ => None end) evs.
(** The HTTP requests that wait. *)
Definition waiting (h : gmap Z rest_job) (pend : list Z) : list Z :=
  omap (fun p => h !! p ≫= job_http_aio) pend.

Arguments started : simpl never.
Arguments finished : simpl never.
Arguments waiting : simpl never.

Lemma started_app e1 e2 : started (e1 ++ e2) = started e1 ++ started e2.
Proof. apply omap_app. Qed.
Lemma finished_app e1 e2 : finished (e1 ++ e2) = finished e1 ++ finished e2.
Proof. apply omap_app. Qed.
Lemma waiting_cons h p pend j a :
  h !! p = Some j -> job_http_aio j = Some a -> waiting h (p :: pend) = a :: waiting h pend.
Proof. intros Hj Ha. unfold waiting. cbn. rewrite Hj. cbn. by rewrite Ha. Qed.

Lemma waiting_insert h p j pend : p ∉ pend -> waiting (<[p := j]> h) pend = waiting h pend.
Proof.
  intros Hp. unfold waiting. induction pend as [|q pend IH]; [done|].
  apply not_elem_of_cons in Hp as [Hq Hp]. cbn. rewrite lookup_insert_ne by done.
  by rewrite IH.
Qed.

(** Writing to a job that is held. *)
Lemma jobs_ok_set s free p pend j :
  jobs_ok s free [p] pend -> jobs_ok (set_job s p j) free [p] pend.
Proof.
  intros [Hc Hn Hd Hi Hb]. pose proof Hn as (Hn1 & Hn2 & Hn3)%NoDup_app.
  assert (Hpf : p ∉ free) by (intros Hp; eapply Hn2; [done|by left]).
  assert (Hpp : p ∉ pend) by (by apply NoDup_cons in Hn3 as [? _]).
  constructor; cbn [set_job heap job_freelist]; [by apply chain_insert|done| | |].
  - intros q. rewrite <- Hd. destruct (decide (q = p)) as [->|Hq].
    + rewrite lookup_insert_eq. split; [|by eexists]. intros _. apply Hd. set_solver.
    + by rewrite lookup_insert_ne.
  - intros q k Hq. rewrite lookup_insert_ne by congruence. by apply Hi.
  - intros q k Hq. rewrite lookup_insert_ne by congruence. by apply Hb.
Qed.

Lemma held_job s free p pend : jobs_ok s free [p] pend -> exists j, heap s !! p = Some j.
Proof. intros [_ _ Hd _ _]. apply Hd. set_solver. Qed.

Lemma get_set_job s p j : get_job (set_job s p j) p = Ret j.
Proof. unfold get_job. cbn. by rewrite lookup_insert_eq. Qed.

Lemma set_set_job s p j k : set_job (set_job s p j) p k = set_job s p k.
Proof. unfold set_job. cbn. by rewrite insert_insert_eq. Qed.

(** [put_http_msg] reads no more of the body than there is. *)
Definition readable (req : http_req) : Prop :=
  match hq_data req with Some d => 0 <= hq_size req <= Zlen d | None => True end.

Lemma put_req_ok req :
  readable req -> exists m, put_http_msg zero_http_msg (hq_content_type req) (hq_method req) (hq_uri req)
    (hq_token req) (hq_data req) (hq_size req) = Ret m.
Proof.
  unfold readable, put_http_msg. intros Hr. destruct (put_str (hq_content_type req) _ _), (put_str (hq_method req) _ _),
    (put_str (hq_uri req) _ _), (put_str (hq_token req) _ _).
  destruct (hq_data req) as [d|]; [|by eexists]. rewrite slice_in by lia. by eexists.
Qed.

(** A held job starts its aio. *)
Lemma jobs_ok_start s free p pend j :
  jobs_ok s free [p] pend -> busy_job j -> jobs_ok (set_job s p j) free [] (p :: pend).
Proof.
  intros Hok Hj. destruct (jobs_ok_set _ _ _ _ j Hok) as [Hc Hn Hd Hi Hb]. constructor; try done.
  intros q k [->|Hq]%elem_of_cons; [|by apply Hb]. cbn. rewrite lookup_insert_eq. by intros [= <-].
Qed.

(** The aio of a waiting job completes. *)
Lemma jobs_ok_hold s free l1 p l2 :
  jobs_ok s free [] (l1 ++ p :: l2) -> jobs_ok s free [p] (l1 ++ l2).
Proof.
  intros [Hc Hn Hd Hi Hb]. constructor; try done.
  - cbn in *. by rewrite (Permutation_middle l1 l2 p).
  - intros q. rewrite Hd. set_solver.
  - intros q k Hq. apply Hb. set_solver.
Qed.

Lemma waiting_hold h l1 p l2 j a :
  h !! p = Some j -> job_http_aio j = Some a ->
  waiting h (l1 ++ p :: l2) ≡ₚ a :: waiting h (l1 ++ l2).
Proof.
  intros Hj Ha. unfold waiting. rewrite !omap_app. cbn. rewrite Hj. cbn. rewrite Ha.
  symmetry. apply Permutation_middle.
Qed.

Section JobLemmas.
Variable nng_strerror : Z -> bytes.
Variable nng_ctx_id : Z -> Z.
Variable new_ptr : gmap Z rest_job -> Z.
Hypothesis new_ptr_fresh : forall h, h !! new_ptr h = None.

Local Notation recycle := (rest_recycle_job nng_ctx_id).
Local Notation fatal := (rest_http_fatal nng_strerror nng_ctx_id).

(** A held job goes to the free list, and with it nobody else's. *)
Lemma recycle_ok s free p pend j :
  jobs_ok s free [p] pend -> heap s !! p = Some j -> job_http_aio j = None ->
  exists evs s', recycle p s = Ret (evs, s') /\ jobs_ok s' (p :: free) [] pend /\
    started evs = [] /\ finished evs = [] /\
    waiting (heap s') pend = waiting (heap s) pend.
Proof.
  intros Hok Hj Ha. pose proof Hok as [Hc Hn Hd Hi Hb]. pose proof Hn as (Hn1 & Hn2 & Hn3)%NoDup_app.
  assert (Hpf : p ∉ free) by (intros Hp; eapply Hn2; [done|by left]).
  apply NoDup_cons in Hn3 as [Hpp Hn3].
  unfold rest_recycle_job, get_job. rewrite Hj. cbn [ebind]. do 2 eexists. split; [done|].
  split; [|split; [|split; [|by apply waiting_insert]]].
  - constructor; cbn [heap job_freelist].
    + split; [done|]. eexists. rewrite lookup_insert_eq. split; [done|]. by apply chain_insert.
    + cbn. apply NoDup_cons. split; [set_solver|]. apply NoDup_app. split_and!; [done|set_solver|done].
    + intros q. destruct (decide (q = p)) as [->|Hq].
      * rewrite lookup_insert_eq. split; [set_solver|by eexists].
      * rewrite lookup_insert_ne by done. rewrite Hd. set_solver.
    + intros q k Hq. destruct (decide (q = p)) as [->|Hqp].
      * rewrite lookup_insert_eq. intros [= <-]. by repeat split.
      * rewrite lookup_insert_ne by done. apply Hi. set_solver.
    + intros q k Hq. rewrite lookup_insert_ne by congruence. by apply Hb.
  - cbn. by repeat case_match.
  - cbn. by repeat case_match.
Qed.

(** Writing to a held job, then recycling it. *)
Lemma set_recycle_ok s free p pend j :
  jobs_ok s free [p] pend -> job_http_aio j = None ->
  exists evs s', recycle p (set_job s p j) = Ret (evs, s') /\ jobs_ok s' (p :: free) [] pend /\
    started evs = [] /\ finished evs = [] /\
    waiting (heap s') pend = waiting (heap s) pend.
Proof.
  intros Hok Ha. destruct (recycle_ok (set_job s p j) free p pend j) as (evs & s' & H & Ho & Hs & Hf & Hw);
    [by apply jobs_ok_set|by cbn; rewrite lookup_insert_eq|done|].
  exists evs, s'. split_and!; try done. rewrite Hw. apply waiting_insert.
  apply ok_nodup in Ho. cbn in Ho. apply NoDup_cons in Ho as [? _]. set_solver.
Qed.

Lemma fatal_ok s free p pend j fmt rv a :
  jobs_ok s free [p] pend -> heap s !! p = Some j -> job_http_aio j = Some a -> job_http_res j <> None ->
  exists evs s', fatal p fmt rv s = Ret (evs, s') /\ jobs_ok s' (p :: free) [] pend /\
    started evs = [] /\ finished evs = [a] /\
    waiting (heap s') pend = waiting (heap s) pend.
Proof.
  intros Hok Hj Ha Hr. unfold rest_http_fatal, get_job. rewrite Hj. cbn [ebind]. rewrite Ha.
  destruct (job_http_res j) as [res|] eqn:Er; [|done].
  destruct (set_recycle_ok s free p pend (set_http_aio (set_http_res j None) None)) as
    (evs & s' & -> & Ho & Hs & Hf & Hw); [done..|]. cbn [ebind fst snd]. do 2 eexists. split; [done|].
  split_and!; [done|exact Hs|exact (f_equal (cons a) Hf)|done].
Qed.

(** A job for a request: the first free one, or a new one. *)
Lemma get_job_ok calloc_ok aio_rv s free pend :
  jobs_ok s free [] pend ->
  exists s', (rest_get_job new_ptr calloc_ok aio_rv s = Ret (None, s) /\ s' = s) \/
    exists p free' j, rest_get_job new_ptr calloc_ok aio_rv s = Ret (Some p, s') /\
      jobs_ok s' free' [p] pend /\ heap s' !! p = Some j /\ idle_job j /\
      waiting (heap s') pend = waiting (heap s) pend.
Proof.
  intros [Hc Hn Hd Hi Hb]. unfold rest_get_job. destruct free as [|p free].
  - cbn in Hc. rewrite Hc. destruct calloc_ok; [|exists s; by left].
    destruct (aio_rv =? 0); [|exists s; by left]. cbn [negb].
    set (p := new_ptr (heap s)). pose proof (new_ptr_fresh (heap s)) as Hp. fold p in Hp.
    assert (Hpp : p ∉ pend) by (intros H; apply (Hd p) in H as [k Hk]; congruence).
    eexists. right. exists p, [], zero_job. split; [done|]. cbn [set_job heap].
    rewrite lookup_insert_eq. split_and!; [|done|by repeat split|by apply waiting_insert].
    constructor; cbn [set_job heap job_freelist]; [done| | |set_solver|].
    + apply NoDup_cons. by split.
    + intros q. destruct (decide (q = p)) as [->|Hq].
      * rewrite lookup_insert_eq. split; [set_solver|by eexists].
      * rewrite lookup_insert_ne by done. rewrite Hd. set_solver.
    + intros q k Hq. rewrite lookup_insert_ne by congruence. by apply Hb.
  - destruct Hc as (Hf & j & Hj & Hc). rewrite Hf. unfold get_job. rewrite Hj. cbn [ebind].
    cbn in Hn. apply NoDup_cons in Hn as [Hpn Hn].
    assert (Hpf : p ∉ free) by set_solver. assert (Hpp : p ∉ pend) by set_solver.
    eexists. right. exists p, free, (set_next j None). split; [done|]. cbn [heap].
    rewrite lookup_insert_eq.
    split_and!; [|done|by apply (Hi p j); [left|]|by apply waiting_insert].
    constructor; cbn [heap job_freelist].
    + by apply chain_insert.
    + apply NoDup_app in Hn as (? & ? & ?). apply NoDup_app. split_and!; [done|set_solver|].
      apply NoDup_cons. by split.
    + intros q. destruct (decide (q = p)) as [->|Hq].
      * rewrite lookup_insert_eq. split; [set_solver|by eexists].
      * rewrite lookup_insert_ne by done. rewrite Hd. set_solver.
    + intros q k Hq. rewrite lookup_insert_ne by congruence. apply Hi. by right.
    + intros q k Hq. rewrite lookup_insert_ne by congruence. by apply Hb.
Qed.

(** A request: its job waits, or it is answered at once. *)
Lemma rest_handle_ok aio req rvs s free pend :
  jobs_ok s free [] pend -> readable req ->
  exists evs s' free', rest_handle nng_strerror nng_ctx_id new_ptr aio req rvs s = Ret (evs, s') /\
    jobs_ok s' free' [] (started evs ++ pend) /\
    finished evs ++ waiting (heap s') (started evs ++ pend) ≡ₚ aio :: waiting (heap s) pend.
Proof.
  intros Hok Hreq. unfold rest_handle.
  destruct (get_job_ok (rv_calloc rvs) (rv_aio rvs) s free pend Hok) as
    (s1 & [[-> ->]|(p & free' & j & -> & Ho1 & Hj & Hid & Hw)]); cbn [ebind].
  { do 3 eexists. split; [done|]. by split. }
  unfold get_job at 1. rewrite Hj. cbn [ebind]. destruct Hid as (Ha & Hr & Hm).
  destruct (rv_res rvs =? 0) eqn:E1; cbn [negb].
  2: { destruct (recycle_ok s1 free' p pend j) as (evs & s' & -> & Ho & Hs & Hf & Hw'); [done..|].
       cbn [ebind fst snd]. do 3 eexists. split; [done|].
       rewrite started_app, finished_app, Hs, Hf. split; [done|].
       change (started [_]) with (@nil Z). change (finished [EFinish ?a ?r ?x]) with [a]. cbn [app].
       by rewrite Hw', Hw. }
  destruct (rv_ctx rvs =? 0) eqn:E2; cbn [negb].
  2: { destruct (set_recycle_ok s1 free' p pend (set_http_res j (Some new_http_res))) as
         (evs & s' & -> & Ho & Hs & Hf & Hw'); [done..|].
       cbn [ebind fst snd]. do 3 eexists. split; [done|].
       rewrite started_app, finished_app, Hs, Hf. split; [done|].
       change (started [_]) with (@nil Z). change (finished [EFinish ?a ?r ?x]) with [a]. cbn [app].
       by rewrite Hw', Hw. }
  destruct (put_req_ok req Hreq) as [m ->]. cbn [ebind].
  pose proof (ok_nodup _ _ _ _ Ho1) as (_ & _ & Hp)%NoDup_app. apply NoDup_cons in Hp as [Hp _].
  set (j' := set_http_aio (set_ctx (set_http_res j (Some new_http_res)) (rv_new_ctx rvs)) (Some aio)).
  destruct (rv_msg rvs =? 0) eqn:E3; cbn [negb].
  - do 3 eexists. split; [done|]. split; [apply (jobs_ok_start _ _ _ _ _ Ho1); by split_and!|].
    cbn. change (started _) with [p]. cbn [app].
    erewrite waiting_cons by (by rewrite ?lookup_insert_eq). rewrite waiting_insert by done. by rewrite Hw.
  - destruct (fatal_ok (set_job s1 p j') free' p pend j' (str "nng_msg_alloc: ") (rv_msg rvs) aio) as
      (evs & s' & -> & Ho & Hs & Hf & Hw'); [by apply jobs_ok_set|by cbn; rewrite lookup_insert_eq|done|done|].
    cbn [ebind fst snd]. do 3 eexists. split; [done|].
    change (started (EPut m :: evs)) with (started evs). change (finished (EPut m :: evs)) with (finished evs).
    rewrite Hs, Hf. split; [done|]. cbn. rewrite Hw'. cbn. rewrite waiting_insert by done. by rewrite Hw.
Qed.

(** A completed receive has a message, whose data is there. *)
Definition reply_ok (s : jobs) (p aio_rv : Z) (reply : option http_msg) : Prop :=
  forall j, heap s !! p = Some j -> job_st j = RECV_REP -> aio_rv = 0 ->
  exists m, reply = Some m /\ 0 <= hm_data_len m <= Zlen (default [] (hm_data m)).

(** A completion: the job waits for its reply, or its request is answered. *)
Lemma rest_job_cb_ok p aio_rv reply copy_rv s free l1 l2 :
  jobs_ok s free [] (l1 ++ p :: l2) -> reply_ok s p aio_rv reply ->
  exists evs s' free', rest_job_cb nng_strerror nng_ctx_id p aio_rv reply copy_rv s = Ret (evs, s') /\
    jobs_ok s' free' [] (started evs ++ l1 ++ l2) /\
    finished evs ++ waiting (heap s') (started evs ++ l1 ++ l2) ≡ₚ waiting (heap s) (l1 ++ p :: l2).
Proof.
  intros Hok Hrep.
  destruct (proj2 (ok_dom _ _ _ _ Hok p) ltac:(set_solver)) as [j Hj].
  destruct (ok_busy _ _ _ _ Hok p j ltac:(set_solver) Hj) as (Ha & Hr & Hm).
  destruct (job_http_aio j) as [a|] eqn:Ea; [|done].
  destruct (job_http_res j) as [res|] eqn:Er; [|done].
  setoid_rewrite (waiting_hold (heap s) l1 p l2 j a Hj Ea). apply jobs_ok_hold in Hok.
  pose proof (ok_nodup _ _ _ _ Hok) as (_ & _ & Hp)%NoDup_app. apply NoDup_cons in Hp as [Hp _].
  assert (Hfatal : forall s1 fmt rv, (s1 = s \/ exists m, s1 = set_job s p (set_msg j m)) ->
    exists evs s' free', fatal p fmt rv s1 = Ret (evs, s') /\
      jobs_ok s' free' [] (started evs ++ l1 ++ l2) /\
      finished evs ++ waiting (heap s') (started evs ++ l1 ++ l2) ≡ₚ a :: waiting (heap s) (l1 ++ l2)).
  { intros s1 fmt rv Hs1.
    assert (H1 : jobs_ok s1 free [p] (l1 ++ l2) /\ waiting (heap s1) (l1 ++ l2) = waiting (heap s) (l1 ++ l2) /\
      exists j1, heap s1 !! p = Some j1 /\ job_http_aio j1 = Some a /\ job_http_res j1 <> None).
    { destruct Hs1 as [->|[m ->]]; [split_and!; [done..|]; exists j; by rewrite Er|].
      split; [by apply jobs_ok_set|]. cbn. rewrite lookup_insert_eq. split; [by apply waiting_insert|].
      eexists. split; [done|]. cbn. by rewrite Er. }
    destruct H1 as (Ho1 & Hw1 & j1 & Hj1 & Ha1 & Hr1).
    destruct (fatal_ok s1 free p (l1 ++ l2) j1 fmt rv a) as (evs & s' & -> & Ho & Hs & Hf & Hw); [done..|].
    do 3 eexists. split; [done|]. rewrite Hs, Hf. cbn. split; [done|]. by rewrite Hw, Hw1. }
  unfold rest_job_cb, get_job. rewrite Hj. cbn [ebind]. destruct (job_st j) eqn:Est.
  - destruct (aio_rv =? 0); cbn [negb]; [|apply Hfatal; by left].
    do 3 eexists. split; [done|]. split.
    + apply (jobs_ok_start _ _ _ _ _ Hok). unfold busy_job. cbn. by rewrite Ea, Er.
    + cbn. change (started _) with [p]. cbn [app].
      erewrite waiting_cons by (by rewrite ?lookup_insert_eq). by rewrite waiting_insert.
  - destruct (aio_rv =? 0) eqn:Erv; cbn [negb]; [|apply Hfatal; by left]. bool_hyps.
    destruct (Hrep j Hj Est Erv) as (m & -> & Hlen). rewrite Ea, Er.
    destruct (copy_rv =? 0); cbn [negb]; [|apply Hfatal; right; by eexists].
    rewrite slice_in by lia. cbn [ebind]. rewrite set_set_job.
    destruct (set_recycle_ok s free p (l1 ++ l2) (set_http_aio (set_http_res (set_msg j (Some m)) None) None)) as
      (evs & s' & -> & Ho & Hs & Hf & Hw); [done..|]. cbn [ebind fst snd app].
    do 3 eexists. split; [done|].
    change (started (_ :: _ :: evs)) with (started evs). change (finished (_ :: _ :: evs)) with (a :: finished evs).
    rewrite Hs, Hf. split; [done|]. cbn. by rewrite Hw.
Qed.
End JobLemmas.

(** ** Runs *)

(** The jobs, and those whose aio has been started and has not completed. *)
Record server := Server { sv_jobs : jobs; sv_pend : list Z }.

Section Runs.
Variable nng_strerror : Z -> bytes.
Variable nng_ctx_id : Z -> Z.
Variable new_ptr : gmap Z rest_job -> Z.

Local Notation handle := (rest_handle nng_strerror nng_ctx_id new_ptr).
Local Notation job_cb := (rest_job_cb nng_strerror nng_ctx_id).

(** An aio that was started completes once. *)
Inductive complete : server -> list http_ev -> server -> Prop :=
| Complete p aio_rv reply copy_rv s l1 l2 evs s' :
    reply_ok s p aio_rv reply ->
    job_cb p aio_rv reply copy_rv s = Ret (evs, s') ->
    complete (Server s (l1 ++ p :: l2)) evs (Server s' (started evs ++ l1 ++ l2)).

(** Requests and completions in any order, from an empty server: the aios of
    the requests and the calls made. *)
Inductive run : list Z -> list http_ev -> server -> Prop :=
| RunStart : run [] [] (Server (Jobs ∅ None) [])
| RunRequest aio req rvs aios tr s pend evs s' :
    run aios tr (Server s pend) -> readable req ->
    handle aio req rvs s = Ret (evs, s') ->
    run (aio :: aios) (tr ++ evs) (Server s' (started evs ++ pend))
| RunComplete aios tr sv evs sv' :
    run aios tr sv -> complete sv evs sv' -> run aios (tr ++ evs) sv'.

(** Completions only. *)
Inductive completes : nat -> server -> server -> Prop :=
| CompletesO sv : completes 0 sv sv
| CompletesS n sv evs sv' sv'' : complete sv evs sv' -> completes n sv' sv'' -> completes (S n) sv sv''.

Hypothesis new_ptr_fresh : forall h, h !! new_ptr h = None.

Lemma complete_ok sv evs sv' free :
  jobs_ok (sv_jobs sv) free [] (sv_pend sv) -> complete sv evs sv' ->
  exists free', jobs_ok (sv_jobs sv') free' [] (sv_pend sv') /\
    finished evs ++ waiting (heap (sv_jobs sv')) (sv_pend sv') ≡ₚ waiting (heap (sv_jobs sv)) (sv_pend sv).
Proof using new_ptr_fresh.
  intros Hok Hc. destruct Hc as [p aio_rv reply copy_rv s l1 l2 evs s' Hr He].
  destruct (rest_job_cb_ok nng_strerror nng_ctx_id new_ptr new_ptr_fresh p aio_rv reply copy_rv s free l1 l2 Hok Hr)
    as (evs' & s'' & free' & He' & Hok' & Hp).
  rewrite He in He'. injection He' as <- <-. by exists free'.
Qed.

Lemma run_ok aios tr sv :
  run aios tr sv ->
  exists free, jobs_ok (sv_jobs sv) free [] (sv_pend sv) /\
    finished tr ++ waiting (heap (sv_jobs sv)) (sv_pend sv) ≡ₚ aios.
Proof using new_ptr_fresh.
  induction 1 as [|aio req rvs aios tr s pend evs s' _ (free & Hok & Hp) Hreq He
                  |aios tr sv evs sv' _ (free & Hok & Hp) Hc].
  - exists []. split; [|done]. constructor; cbn; [done|constructor| |set_solver..].
    intros p. rewrite lookup_empty. split; [by intros [??]|by intros ?%elem_of_nil].
  - destruct (rest_handle_ok nng_strerror nng_ctx_id new_ptr new_ptr_fresh aio req rvs s free pend Hok Hreq)
      as (evs' & s'' & free' & He' & Hok' & Hp').
    rewrite He in He'. injection He' as <- <-. exists free'. split; [done|]. cbn [sv_jobs sv_pend] in *.
    rewrite finished_app, <- app_assoc, Hp', <- Permutation_middle. by constructor.
  - destruct (complete_ok sv evs sv' free Hok Hc) as (free' & Hok' & Hp').
    exists free'. split; [done|]. by rewrite finished_app, <- app_assoc, Hp'.
Qed.

(** Completions a waiting job has in front of it, at most. *)
Definition steps_left (h : gmap Z rest_job) (p : Z) : nat :=
  match job_st <$> h !! p with Some SEND_REQ => 2 | Some RECV_REP => 1 | None => 0 end.
Definition rank (h : gmap Z rest_job) (pend : list Z) : nat := sum_list (steps_left h <$> pend).

Lemma rank_insert h p j pend : p ∉ pend -> rank (<[p := j]> h) pend = rank h pend.
Proof.
  intros Hp. unfold rank. f_equal. apply list_fmap_ext. intros i q Hq. unfold steps_left.
  rewrite lookup_insert_ne; [done|]. intros <-. apply Hp. by eapply list_elem_of_lookup_2.
Qed.

Lemma rank_middle h l1 p l2 : rank h (l1 ++ p :: l2) = (steps_left h p + rank h (l1 ++ l2))%nat.
Proof.
  unfold rank. induction l1 as [|q l1 IH]; [done|]. cbn [app fmap list_fmap sum_list sum_list_with] in *. lia.
Qed.

Lemma rank_le h pend : (rank h pend <= 2 * length pend)%nat.
Proof.
  unfold rank. induction pend as [|p pend IH]; [done|]. cbn. unfold steps_left at 1.
  destruct (job_st <$> h !! p) as [[]|]; lia.
Qed.

(** What functions change when they recycle. *)
Lemma recycle_inv p s evs s' :
  rest_recycle_job nng_ctx_id p s = Ret (evs, s') ->
  started evs = [] /\ exists j, heap s' = <[p := j]> (heap s).
Proof.
  unfold rest_recycle_job. intros (j & _ & [= <- <-])%ebind_Ret. split; [|by eexists].
  cbn. by repeat case_match.
Qed.

Lemma fatal_inv p fmt rv s evs s' :
  rest_http_fatal nng_strerror nng_ctx_id p fmt rv s = Ret (evs, s') ->
  started evs = [] /\ exists j, heap s' = <[p := j]> (heap s).
Proof.
  unfold rest_http_fatal. intros (j & _ & H)%ebind_Ret. repeat case_match; try done.
  apply ebind_Ret in H as ([evs' s1] & [Hs [k Hk]]%recycle_inv & [= <- <-]).
  split; [done|]. exists k. rewrite Hk. cbn. by rewrite insert_insert_eq.
Qed.

(** A completion changes its own job only, which is done or waits for a reply. *)
Lemma job_cb_inv p aio_rv reply copy_rv s evs s' :
  job_cb p aio_rv reply copy_rv s = Ret (evs, s') ->
  exists j k, heap s !! p = Some j /\ heap s' = <[p := k]> (heap s) /\
    (started evs = [] \/ started evs = [p] /\ job_st j = SEND_REQ /\ job_st k = RECV_REP).
Proof.
  unfold rest_job_cb. intros (j & Hj & H)%ebind_Ret. unfold get_job in Hj.
  destruct (heap s !! p) as [j0|] eqn:E; [|done]. injection Hj as ->. exists j.
  assert (Hfatal : forall s1 fmt rv, (s1 = s \/ exists k, s1 = set_job s p k) ->
    rest_http_fatal nng_strerror nng_ctx_id p fmt rv s1 = Ret (evs, s') ->
    started evs = [] /\ exists k, heap s' = <[p := k]> (heap s)).
  { intros s1 fmt rv Hs1 [Hs [k Hk]]%fatal_inv. split; [done|]. exists k. rewrite Hk.
    destruct Hs1 as [->|[k' ->]]; [done|]. cbn. by rewrite insert_insert_eq. }
  destruct (job_st j) eqn:Est.
  - destruct (negb (aio_rv =? 0)).
    + destruct (Hfatal _ _ _ (or_introl eq_refl) H) as (? & k & ?). exists k. tauto.
    + injection H as <- <-. eexists. split; [done|]. split; [done|]. by right.
  - destruct (negb (aio_rv =? 0)).
    { destruct (Hfatal _ _ _ (or_introl eq_refl) H) as (? & k & ?). exists k. tauto. }
    destruct reply as [m|]; [|done]. destruct (job_http_aio j); [|done]. destruct (job_http_res j); [|done].
    destruct (negb (copy_rv =? 0)).
    { destruct (Hfatal _ _ _ (or_intror (ex_intro _ _ eq_refl)) H) as (? & k & ?). exists k. tauto. }
    apply ebind_Ret in H as (body & _ & H). rewrite set_set_job in H.
    apply ebind_Ret in H as ([evs' s1] & [Hs [k Hk]]%recycle_inv & [= <- <-]).
    exists k. split; [done|]. rewrite Hk. cbn. rewrite insert_insert_eq. split; [done|]. by left.
Qed.

Lemma complete_rank sv evs sv' free :
  jobs_ok (sv_jobs sv) free [] (sv_pend sv) -> complete sv evs sv' ->
  (rank (heap (sv_jobs sv')) (sv_pend sv') < rank (heap (sv_jobs sv)) (sv_pend sv))%nat.
Proof.
  intros Hok Hc. destruct Hc as [p aio_rv reply copy_rv s l1 l2 evs s' _ He]. cbn [sv_jobs sv_pend] in *.
  apply jobs_ok_hold in Hok. pose proof (ok_nodup _ _ _ _ Hok) as (_ & _ & Hp)%NoDup_app.
  apply NoDup_cons in Hp as [Hp _].
  destruct (job_cb_inv _ _ _ _ _ _ _ He) as (j & k & Hj & Hs' & Hst). rewrite Hs', rank_middle.
  assert (Hpos : (1 <= steps_left (heap s) p)%nat)
    by (unfold steps_left; rewrite Hj; cbn; destruct (job_st j); lia).
  destruct Hst as [->|(-> & Est & Ek)].
  - cbn [app]. rewrite rank_insert by done. lia.
  - cbn [app]. rewrite (rank_middle _ [] p (l1 ++ l2)). cbn [app]. rewrite rank_insert by done.
    unfold steps_left at 1 2. rewrite lookup_insert_eq, Hj. cbn. rewrite Est, Ek. lia.
Qed.

(** C10: The pool of jobs stays well-formed: every job is on the free list, idle
    and once, or waits for exactly one completion with the HTTP request it
    carries; and whatever the calls of the library return, the handlers follow
    no bad pointer. *)
Theorem rest_jobs_invariant aios tr s pend :
  run aios tr (Server s pend) ->
  (exists free, jobs_ok s free [] pend) /\
  (forall aio req rvs, readable req -> exists r, handle aio req rvs s = Ret r) /\
  (forall p aio_rv reply copy_rv, p ∈ pend -> reply_ok s p aio_rv reply ->
     exists r, job_cb p aio_rv reply copy_rv s = Ret r).
Proof using new_ptr_fresh.
  intros (free & Hok & _)%run_ok. cbn in Hok. split; [by exists free|]. split.
  - intros aio req rvs Hreq.
    destruct (rest_handle_ok nng_strerror nng_ctx_id new_ptr new_ptr_fresh aio req rvs s free pend Hok Hreq)
      as (evs & s' & _ & He & _). by eexists.
  - intros p aio_rv reply copy_rv Hp Hrep. apply list_elem_of_split in Hp as (l1 & l2 & ->).
    destruct (rest_job_cb_ok nng_strerror nng_ctx_id new_ptr new_ptr_fresh p aio_rv reply copy_rv s free l1 l2 Hok Hrep)
      as (evs & s' & _ & He & _). by eexists.
Qed.

(** C11: Every HTTP request is answered exactly once: at each moment the
    requests answered and those carried by waiting jobs are the requests
    received, each as often as it came. *)
Theorem http_requests_answered_once aios tr s pend :
  run aios tr (Server s pend) ->
  finished tr ++ waiting (heap s) pend ≡ₚ aios /\
  (pend = [] -> finished tr ≡ₚ aios) /\
  (NoDup aios -> NoDup (finished tr)).
Proof using new_ptr_fresh.
  intros (free & _ & Hp)%run_ok. cbn in Hp. split; [done|]. split.
  - intros ->. by rewrite app_nil_r in Hp.
  - intros Hn. rewrite <- Hp in Hn. by apply NoDup_app in Hn as [? _].
Qed.

Lemma completes_rank n sv sv' :
  completes n sv sv' -> forall free, jobs_ok (sv_jobs sv) free [] (sv_pend sv) ->
  (n <= rank (heap (sv_jobs sv)) (sv_pend sv))%nat /\
  exists free', jobs_ok (sv_jobs sv') free' [] (sv_pend sv').
Proof using new_ptr_fresh.
  induction 1 as [sv|n sv evs sv1 sv2 Hc Hn IH]; intros free Hok.
  - split; [lia|by exists free].
  - destruct (complete_ok _ _ _ _ Hok Hc) as (free1 & Hok1 & _).
    pose proof (complete_rank _ _ _ _ Hok Hc). destruct (IH _ Hok1) as [Hle ?]. split; [lia|done].
Qed.

(** C25: Without new requests the server comes to rest: however the library
    answers, after at most two completions for each waiting job no job waits,
    and until then some completion can happen. *)
Theorem http_jobs_finish aios tr s pend n sv :
  run aios tr (Server s pend) -> completes n (Server s pend) sv ->
  (n <= 2 * length pend)%nat /\ (sv_pend sv = [] \/ exists evs sv', complete sv evs sv').
Proof using new_ptr_fresh.
  intros (free & Hok & _)%run_ok Hn. cbn in Hok.
  destruct (completes_rank _ _ _ Hn free Hok) as (Hle & free' & Hok'). cbn [sv_jobs sv_pend] in Hle.
  split; [pose proof (rank_le (heap s) pend); lia|].
  destruct sv as [s1 [|p pend1]]; [by left|right]. cbn [sv_jobs sv_pend] in Hok'.
  destruct (rest_job_cb_ok nng_strerror nng_ctx_id new_ptr new_ptr_fresh p 1 None 0 s1 free' [] pend1 Hok')
    as (evs & s2 & _ & He & _); [by intros ? _ _ [=]|].
  exists evs, (Server s2 (started evs ++ [] ++ pend1)). by apply (Complete p 1 None 0 s1 [] pend1 evs s2).
Qed.
End Runs.

(** ** Witnesses *)

(** The block behind the highest one. *)
Definition top_ptr (h : gmap Z rest_job) : Z := foldr Z.max 0 (map_to_list h).*1 + 1.

Lemma top_ptr_fresh h : h !! top_ptr h = None.
Proof.
  destruct (h !! top_ptr h) as [j|] eqn:E; [|done]. exfalso.
  assert (Hin : top_ptr h ∈ (map_to_list h).*1)
    by (apply list_elem_of_fmap; exists (top_ptr h, j); split; [done|by apply elem_of_map_to_list]).
  assert (Hmax : forall l x, x ∈ l -> x <= foldr Z.max 0 l).
  { intros l x. induction l as [|y l IH]; [by intros ?%elem_of_nil|].
    intros [->|Hx]%elem_of_cons; cbn; [lia|]. specialize (IH Hx). lia. }
  specialize (Hmax _ _ Hin). unfold top_ptr in Hmax. lia.
Qed.

Definition demo_req : http_req :=
  HttpReq (Some (str "/api/v4/nodes")) (Some (str "GET")) None None None 0.
Definition good_rvs : handle_rvs := HandleRvs true 0 0 0 5 0.

Definition run_handle (aio : Z) (rvs : handle_rvs) (s : jobs) : list http_ev * jobs :=
  match rest_handle (fun _ => []) id top_ptr aio demo_req rvs s with Ret r => r | _ => ([], s) end.

(** Request 71 is taken by a job, request 72 is refused for lack of memory. *)
Definition after1 := run_handle 71 good_rvs (Jobs ∅ None).
Definition after2 := run_handle 72 (HandleRvs false 0 0 0 0 0) after1.2.

Lemma demo_run :
  run (fun _ => []) id top_ptr [72; 71] (([] ++ after1.1) ++ after2.1) (Server after2.2 [1]).
Proof.
  apply (RunRequest (fun _ => []) id top_ptr 72 demo_req (HandleRvs false 0 0 0 0 0) [71] ([] ++ after1.1)
    after1.2 [1] after2.1 after2.2); [|exact I|vm_compute; reflexivity].
  apply (RunRequest (fun _ => []) id top_ptr 71 demo_req good_rvs [] [] (Jobs ∅ None) [] after1.1 after1.2);
    [constructor|exact I|vm_compute; reflexivity].
Qed.

Lemma rest_jobs_invariant_witness :
  exists free, jobs_ok after2.2 free [] [1].
Proof. exact (proj1 (rest_jobs_invariant (fun _ => []) id top_ptr top_ptr_fresh _ _ _ _ demo_run)). Defined.

Lemma http_requests_answered_once_witness :
  [72] ++ waiting (heap after2.2) [1] ≡ₚ [72; 71].
Proof. exact (proj1 (http_requests_answered_once (fun _ => []) id top_ptr top_ptr_fresh _ _ _ _ demo_run)). Defined.

Definition after3 : list http_ev * jobs :=
  match rest_job_cb (fun _ => []) id 1 7 None 0 after2.2 with Ret r => r | _ => ([], after2.2) end.

(** Sending the request fails: the job is done, and nothing waits. *)
Lemma http_jobs_finish_witness :
  (1 <= 2)%nat /\ finished after3.1 = [71] /\
  (@nil Z = [] \/ exists evs sv', complete (fun _ => []) id (Server after3.2 []) evs sv').
Proof.
  assert (Hc : complete (fun _ => []) id (Server after2.2 [1]) after3.1 (Server after3.2 [])).
  { apply (Complete (fun _ => []) id 1 7 None 0 after2.2 [] [] after3.1 after3.2);
      [intros ? _ _ [=]|vm_compute; reflexivity]. }
  destruct (http_jobs_finish (fun _ => []) id top_ptr top_ptr_fresh _ _ _ _ 1%nat _ demo_run
    (CompletesS _ _ 0 _ _ _ _ Hc (CompletesO _ _ _))) as [Hn Hrest].
  split; [exact Hn|]. split; [reflexivity|exact Hrest].
Defined.
