(* ===== verification/RestServer.v ===== *)
(** * web_server.c: the threads of the HTTP server

    [inproc_server] runs work items that answer the requests of the REQ socket
    with [process_request]; [start_rest_server] starts it and the HTTP server
    itself.  At the end, the way of one request through both. *)

From Stdlib Require Import ZArith Lia.
From stdpp Require Import base numbers list gmap option sets strings.
From S2P Require Import Prelude Hashmap Mqtt Nng NngModel SubHandler MqttApi Cstring.
From S2P Require Import RestHttp RestUri Cjson RestMqtt RestConf RestQuery RestApi WebServer.

Local Open Scope Z_scope.
Local Open Scope nano_scope.

(** ** Work items *)

Inductive srv_state := SRV_INIT | SRV_RECV | SRV_WAIT | SRV_SEND.

(** [WDestroy]: the strings of the request, [WMsgFree]: its message. *)
Inductive work_ev :=
| WRecv
| WSend (m : http_msg)
| WDestroy (strings : list http_field)
| WMsgFree.

Section Inproc.
Context {world : Type}.
(** [process_request], with the configuration and the socket of the item *)
Variable process : http_msg -> world -> exec (http_msg * http_msg * world).

(** [rv] and [msg]: the result of the item's aio; [alloc_rv] is not looked at:
    a message that was not allocated is written to.  [None]: [fatal]. *)
Definition inproc_cb (state : srv_state) (rv : Z) (msg : option http_msg) (alloc_rv : Z) (w : world)
    : exec (option (srv_state * list work_ev * world)) :=
  match state with
  | SRV_INIT => Ret (Some (SRV_RECV, [WRecv], w))
  | SRV_RECV =>
      if negb (rv =? 0) then Ret None
      else
        match msg with
        | None => UB
        | Some http_ct =>
            let* r := process http_ct w in
            let '(res, http_ct, w) := r in
            if negb (alloc_rv =? 0) then UB
            else Ret (Some (SRV_SEND, [WDestroy (destory_http_msg http_ct).2; WMsgFree; WSend res], w))
        end
  | SRV_SEND =>
      if negb (rv =? 0) then Ret None else Ret (Some (SRV_RECV, [WRecv], w))
  | SRV_WAIT => Ret None
  end.
End Inproc.

Definition alloc_work (alloc_ok : bool) (aio_rv ctx_rv : Z) : option srv_state :=
  if negb alloc_ok then None
  else if negb (aio_rv =? 0) then None
  else if negb (ctx_rv =? 0) then None
  else Some SRV_INIT.

(** ** Starting *)

Inductive inproc_ev := IRepOpen | IReqOpen | IDial | IAllocWork (i : nat) | IListen | IStart (i : nat).

(** The calls made, and whether the loop at the end is reached. *)
Definition inproc_server (parallel : Z) (fails : inproc_ev -> bool) : list inproc_ev * bool :=
  let ids := seq 0 (Z.to_nat parallel) in
  until_fatal fails ([IRepOpen; IReqOpen; IDial] ++ (IAllocWork <$> ids) ++ [IListen] ++ (IStart <$> ids)).

Inductive rest_ev :=
| RThread | RSetConf | RSetHttpConf | RBootTime
| RMtxAlloc | RUrlParse (addr : bytes) | RReqOpen | RDial | RServerHold
| RHandlerAlloc | RSetTree | RSetMethod (m : option bytes) | RCollectBody (limit : Z)
| RAllocDirectory | RAddDirectory | RAddHandler | RServerStart.

Definition REST_URL (port : Z) : bytes := str "http://0.0.0.0:" ++ dec port ++ str "/api/v4".

Definition rest_start (port : Z) : list rest_ev :=
  [RMtxAlloc; RUrlParse (take 127 (REST_URL port)); RReqOpen; RDial; RServerHold;
   RHandlerAlloc; RSetTree; RSetMethod None; RCollectBody (1024 * 128);
   RAllocDirectory; RSetMethod (Some (str "GET")); RCollectBody 1024;
   RAddDirectory; RAddHandler; RServerStart].

Definition start_rest_server (http_port : Z) (fails : rest_ev -> bool) : list rest_ev * bool :=
  let port := if negb (http_port =? 0) then http_port else HTTP_DEFAULT_PORT in
  until_fatal fails ([RThread; RSetConf; RSetHttpConf; RBootTime] ++ rest_start port).

(** ** Lemmas *)

Definition rearms (evs : list work_ev) : nat :=
  length (List.filter (fun e => match e with WRecv | WSend _ => true | _ => false end) evs).

(** A work item that does not stop the process has one operation under way. *)
Lemma inproc_cb_rearms {world} (process : http_msg -> world -> exec (http_msg * http_msg * world))
    state rv msg alloc_rv w state' evs w' :
  inproc_cb process state rv msg alloc_rv w = Ret (Some (state', evs, w')) ->
  rearms evs = 1%nat /\ (state' = SRV_RECV \/ state' = SRV_SEND).
Proof.
  unfold inproc_cb. destruct state; [by intros [= <- <- <-]; auto| |done|].
  - destruct (negb (rv =? 0)); [done|]. destruct msg as [m|]; [|done].
    intros ([[res m'] w1] & _ & H)%ebind_Ret. destruct (negb (alloc_rv =? 0)); [done|].
    injection H as <- <- <-. auto.
  - destruct (negb (rv =? 0)); [done|]. intros [= <- <- <-]. auto.
Qed.

(** The items start after the socket listens, all of them unless a call fails. *)
Lemma inproc_server_starts parallel fails t :
  inproc_server parallel fails = (t, true) ->
  t = [IRepOpen; IReqOpen; IDial] ++ (IAllocWork <$> seq 0 (Z.to_nat parallel)) ++ [IListen] ++
      (IStart <$> seq 0 (Z.to_nat parallel)).
Proof. apply until_fatal_ok. Qed.

(** The port is the configured one, 8081 without one. *)
Lemma start_rest_server_port http_port fails t :
  start_rest_server http_port fails = (t, true) ->
  RUrlParse (take 127 (REST_URL (if http_port =? 0 then HTTP_DEFAULT_PORT else http_port))) ∈ t.
Proof.
  intros H%until_fatal_ok. subst t. rewrite elem_of_app. right. unfold rest_start.
  destruct (http_port =? 0); cbn [negb]; set_solver.
Qed.

(** The message made of a request: its strings, and their lengths. *)
Definition request_msg (req : http_req) (m : http_msg) : Prop :=
  hm_content_type m = hq_content_type req /\ hm_method m = hq_method req /\ hm_uri m = hq_uri req /\
  hm_token m = hq_token req /\ hm_data m = (fun d => take (Z.to_nat (hq_size req)) d) <$> hq_data req /\
  hm_token_len m = match hq_token req with Some t => Zlen t | None => 0 end.

Lemma put_request req :
  readable req -> exists m, put_http_msg zero_http_msg (hq_content_type req) (hq_method req) (hq_uri req)
    (hq_token req) (hq_data req) (hq_size req) = Ret m /\ request_msg req m.
Proof.
  unfold readable, request_msg, put_http_msg. destruct req as [u me ct tk [d|] sz]; cbn; intros Hr.
  - rewrite slice_in by lia. change (Z.to_nat 0) with 0%nat. rewrite drop_0.
    destruct ct, me, u, tk; eexists; (split; [done|]); by repeat split.
  - destruct ct, me, u, tk; eexists; (split; [done|]); by repeat split.
Qed.

Section RoundTrip.
Context {world : Type}.
Variable process : http_msg -> world -> exec (http_msg * http_msg * world).
Variable nng_strerror : Z -> bytes.
Variable nng_ctx_id : Z -> Z.
Variable new_ptr : gmap Z rest_job -> Z.
Hypothesis new_ptr_fresh : forall h, h !! new_ptr h = None.

Local Notation handle := (rest_handle nng_strerror nng_ctx_id new_ptr).
Local Notation job_cb := (rest_job_cb nng_strerror nng_ctx_id).

(** What the HTTP client gets for a reply. *)
Definition answer_of (res : http_msg) (body : bytes) : http_res :=
  HttpRes (hm_status res) None
    (if 0 <? hm_content_type_len res then hm_content_type res else None)
    (if 0 <? hm_token_len res then hm_token res else None) (Some body).

(** C13: A request whose calls succeed goes to a work item as it came in, and
    the HTTP client is answered with the status, the content type and the data
    of what [process_request] returned, once, by the job that took it. *)
Theorem http_request_round_trip aio req rvs s free pend (w w' : world) m res body m' :
  jobs_ok s free [] pend -> readable req ->
  rv_calloc rvs = true -> rv_aio rvs = 0 -> rv_res rvs = 0 -> rv_ctx rvs = 0 -> rv_msg rvs = 0 ->
  put_http_msg zero_http_msg (hq_content_type req) (hq_method req) (hq_uri req) (hq_token req) (hq_data req)
    (hq_size req) = Ret m ->
  process m w = Ret (res, m', w') ->
  slice (default [] (hm_data res)) 0 (hm_data_len res) = Ret body ->
  exists p s1 s2 s3 rest,
    request_msg req m /\
    handle aio req rvs s = Ret ([EPut m; ECtxSend p (rv_new_ctx rvs) m], s1) /\
    job_cb p 0 None 0 s1 = Ret ([ECtxRecv p (rv_new_ctx rvs)], s2) /\
    inproc_cb process SRV_RECV 0 (Some m) 0 w =
      Ret (Some (SRV_SEND, [WDestroy (destory_http_msg m').2; WMsgFree; WSend res], w')) /\
    job_cb p 0 (Some res) 0 s2 =
      Ret (EDestroy res :: EFinish aio 0 (Some (answer_of res body)) :: rest, s3) /\
    finished rest = [] /\ started rest = [].
Proof using new_ptr_fresh.
  intros Hok Hreq Hca Hai Hre Hct Hms Hput Hproc Hbody.
  destruct (get_job_ok nng_strerror nng_ctx_id new_ptr new_ptr_fresh (rv_calloc rvs) (rv_aio rvs) s free pend Hok) as
    (s1 & [[Hg _]|(p & free' & j & Hg & Ho1 & Hj & Hid & _)]).
  { exfalso. unfold rest_get_job in Hg. rewrite Hca, Hai in Hg. cbn in Hg.
    destruct (job_freelist s); [|done]. by apply ebind_Ret in Hg as (? & _ & ?). }
  destruct (put_request req Hreq) as (m0 & Hput' & Hm). rewrite Hput in Hput'. injection Hput' as <-. exists p.
  set (j1 := set_st (set_msg (set_http_aio (set_ctx (set_http_res j (Some new_http_res)) (rv_new_ctx rvs))
    (Some aio)) (Some m)) SEND_REQ).
  set (j2 := set_st (set_msg j1 None) RECV_REP).
  set (j3 := set_http_aio (set_http_res (set_msg j2 (Some res)) None) None).
  destruct (set_recycle_ok nng_strerror nng_ctx_id new_ptr new_ptr_fresh s1 free' p pend j3) as (evs & s3 & Hrec & _ & Hst & Hfin & _); [done..|].
  exists (set_job s1 p j1), (set_job s1 p j2), s3, evs.
  split; [done|]. split; [|split; [|split; [|split; [|done]]]].
  - unfold rest_handle. rewrite Hg. cbn [ebind]. unfold get_job. rewrite Hj. cbn [ebind].
    rewrite Hre, Hct, Hms, Hput. done.
  - unfold rest_job_cb. rewrite get_set_job. cbn [ebind j1 job_st set_st].
    cbn [negb Z.eqb]. by rewrite set_set_job.
  - unfold inproc_cb. cbn [negb Z.eqb]. by rewrite Hproc.
  - unfold rest_job_cb. rewrite get_set_job. cbn [ebind j2 j1 job_st set_st set_msg set_http_aio set_ctx set_http_res
      job_http_aio job_http_res negb Z.eqb].
    rewrite Hbody. cbn [ebind]. rewrite !set_set_job.
    change (rest_recycle_job nng_ctx_id p (set_job s1 p _)) with (rest_recycle_job nng_ctx_id p (set_job s1 p j3)).
    rewrite Hrec. done.
Qed.
End RoundTrip.

(** ** Witness *)

Definition round_req : http_req :=
  HttpReq (Some (str "/api/v4/rules/1")) (Some (str "DELETE")) None (Some api_login) None 0.

#[local] Existing Instance api_cjson.

Definition round_process (m : http_msg) (w : rest_world (gset (bytes * Z)) rhash rmsg unit) :=
  process_request demo_caseeq api_print demo_base64 id demo_zeros None (fun _ => empty_msg) id id
    (fun _ => (0, empty_msg)) (fun _ => 0) api_pipe [] 0 0 None (no_rules_api api_print) demo_http_conf m w.

Definition round_msg : http_msg :=
  HttpMsg 0 0 0 None 6 (Some (str "DELETE")) 15 (Some (str "/api/v4/rules/1")) 22 (Some api_login) 0 None false.

Definition round_res : http_msg := code_msg api_print NNG_HTTP_STATUS_OK application_json SUCCEED.

(** The first request of a server: a deletion, with the right password. *)
Lemma http_request_round_trip_witness :
  exists p s1 s2 s3 rest,
    rest_handle (fun _ => []) id top_ptr 71 round_req good_rvs (Jobs ∅ None) =
      Ret ([EPut round_msg; ECtxSend p 5 round_msg], s1) /\
    rest_job_cb (fun _ => []) id p 0 None 0 s1 = Ret ([ECtxRecv p 5], s2) /\
    inproc_cb round_process SRV_RECV 0 (Some round_msg) 0 api_world =
      Ret (Some (SRV_SEND, [WDestroy [FMethod; FToken; FUri]; WMsgFree; WSend round_res], api_world)) /\
    rest_job_cb (fun _ => []) id p 0 (Some round_res) 0 s2 =
      Ret (EDestroy round_res ::
           EFinish 71 0 (Some (HttpRes 200 None application_json None (Some [123; 125]))) :: rest, s3).
Proof.
  assert (Hok : jobs_ok (Jobs ∅ None) [] [] []).
  { constructor; cbn; [reflexivity|constructor| |intros ? ? H; by apply elem_of_nil in H..].
    intros p. rewrite lookup_empty. split; [intros [? H]; discriminate H|intros H; by apply elem_of_nil in H]. }
  assert (Hproc : round_process round_msg api_world =
    Ret (round_res, set_token round_msg (str "YWRtaW46cHVibGlj"), api_world)) by (vm_compute; reflexivity).
  destruct (http_request_round_trip round_process (fun _ => []) id top_ptr top_ptr_fresh 71 round_req good_rvs
    (Jobs ∅ None) [] [] api_world api_world round_msg round_res [123; 125] _ Hok I
    eq_refl eq_refl eq_refl eq_refl eq_refl eq_refl Hproc eq_refl)
    as (p & s1 & s2 & s3 & rest & _ & H1 & H2 & H3 & H4 & _).
  exists p, s1, s2, s3, rest. split; [exact H1|]. split; [exact H2|]. split; [exact H3|exact H4].
Defined.
