(* ===== verification/RestRules.v ===== *)
(** * rest_api.c: the rules of the rule engine over HTTP

    The bodies that SUPP_RULE_ENGINE adds to [post_rules], [put_rules],
    [delete_rules] and [get_rules].  Parsing the SQL of a rule, its identifier
    and the connections are nanolib's.  What [rule_free] releases of a rule, and
    strings that two rules share after one was copied, are not looked at. *)

From Stdlib Require Import ZArith Lia.
From stdpp Require Import base numbers list option strings.
From S2P Require Import Prelude Mqtt Cstring RestHttp Cjson RuleEngine.

Local Open Scope Z_scope.
Local Open Scope nano_scope.

(** ** Rules in memory *)

Record repub_t := Repub {
  rb_topic : option bytes;
  rb_address : option bytes;
  rb_proto_ver : Z;
  rb_keepalive : Z;
  rb_clientid : option bytes;
  rb_username : option bytes;
  rb_password : option bytes;
  rb_clean_start : bool;
  rb_sock : option Z
}.

Record rule_mysql := RuleMysql {
  my_table : option bytes;
  my_username : option bytes;
  my_password : option bytes;
  my_host : option bytes
}.

(** A rule of [cr->rules].  [repub] and [mysql] are pointers into the stores of
    such objects, as two rules may share one; [rr_sql] holds what
    [rule_sql_parse] read: topic, conditions and selected parts. *)
Record rest_rule (J : Type) := RestRule {
  rr_rule_id : Z;
  rr_raw_sql : option bytes;
  rr_enabled : bool;
  rr_forword_type : rule_forword;
  rr_repub : option nat;
  rr_sqlite_table : option bytes;
  rr_mysql : option nat;
  rr_sql : rule J
}.
Arguments RestRule {J}.
Arguments rr_rule_id {J}. Arguments rr_raw_sql {J}. Arguments rr_enabled {J}. Arguments rr_forword_type {J}.
Arguments rr_repub {J}. Arguments rr_sqlite_table {J}. Arguments rr_mysql {J}. Arguments rr_sql {J}.

(** What is released, closed and opened, in order. *)
Inductive rule_call (J : Type) :=
| CRuleFree (r : rest_rule J)
| CRepubFree (r : repub_t)
| CMysqlFree (m : rule_mysql)
| CNanoClient (repub : nat)
| CClose (sock : Z)
| CSqlite
| CMysql.
Arguments CRuleFree {J}. Arguments CRepubFree {J}. Arguments CMysqlFree {J}. Arguments CNanoClient {J}.
Arguments CClose {J}. Arguments CSqlite {J}. Arguments CMysql {J}.

(** [conf_rule] with the objects its rules point to, how many identifiers were
    given out, and the calls so far. *)
Record rules_state (J : Type) := RulesState {
  rl_option : rule_opts;
  rl_rules : list (rest_rule J);
  rl_repubs : list repub_t;
  rl_mysqls : list rule_mysql;
  rl_ids : nat;
  rl_calls : list (rule_call J)
}.
Arguments RulesState {J}.
Arguments rl_option {J}. Arguments rl_rules {J}. Arguments rl_repubs {J}. Arguments rl_mysqls {J}.
Arguments rl_ids {J}. Arguments rl_calls {J}.

Section Setters.
Context {J : Type}.
Implicit Types (r : rest_rule J) (st : rules_state J).

Definition with_raw_sql r s := RestRule (rr_rule_id r) s (rr_enabled r) (rr_forword_type r) (rr_repub r) (rr_sqlite_table r) (rr_mysql r) (rr_sql r).
Definition with_enabled r b := RestRule (rr_rule_id r) (rr_raw_sql r) b (rr_forword_type r) (rr_repub r) (rr_sqlite_table r) (rr_mysql r) (rr_sql r).
Definition with_id r i := RestRule i (rr_raw_sql r) (rr_enabled r) (rr_forword_type r) (rr_repub r) (rr_sqlite_table r) (rr_mysql r) (rr_sql r).
Definition with_forword r t := RestRule (rr_rule_id r) (rr_raw_sql r) (rr_enabled r) t (rr_repub r) (rr_sqlite_table r) (rr_mysql r) (rr_sql r).
Definition with_repub r p := RestRule (rr_rule_id r) (rr_raw_sql r) (rr_enabled r) (rr_forword_type r) p (rr_sqlite_table r) (rr_mysql r) (rr_sql r).
Definition with_table r t := RestRule (rr_rule_id r) (rr_raw_sql r) (rr_enabled r) (rr_forword_type r) (rr_repub r) t (rr_mysql r) (rr_sql r).
Definition with_mysql r p := RestRule (rr_rule_id r) (rr_raw_sql r) (rr_enabled r) (rr_forword_type r) (rr_repub r) (rr_sqlite_table r) p (rr_sql r).
Definition with_sql r (i : rule J) : rest_rule J := RestRule (rr_rule_id r) (rr_raw_sql r) (rr_enabled r) (rr_forword_type r) (rr_repub r) (rr_sqlite_table r) (rr_mysql r) i.

Definition with_option st o := RulesState o (rl_rules st) (rl_repubs st) (rl_mysqls st) (rl_ids st) (rl_calls st).
Definition with_rules st l := RulesState (rl_option st) l (rl_repubs st) (rl_mysqls st) (rl_ids st) (rl_calls st).
Definition with_repubs st l := RulesState (rl_option st) (rl_rules st) l (rl_mysqls st) (rl_ids st) (rl_calls st).
Definition with_mysqls st l := RulesState (rl_option st) (rl_rules st) (rl_repubs st) l (rl_ids st) (rl_calls st).
Definition call st c := RulesState (rl_option st) (rl_rules st) (rl_repubs st) (rl_mysqls st) (rl_ids st) (rl_calls st ++ [c]).

(** [cr->rules[cvector_size(cr->rules) - 1]]: of an empty vector, far outside. *)
Definition last_rule st : exec (rest_rule J) :=
  match last (rl_rules st) with Some r => Ret r | None => UB end.
Definition set_last st (f : rest_rule J -> rest_rule J) : exec (rules_state J) :=
  match rl_rules st with
  | [] => UB
  | l => Ret (with_rules st (base.alter f (length l - 1)%nat l))
  end.
End Setters.

Definition set_rpb (o : rule_opts) : rule_opts := RuleOpts true (opt_sdb o) (opt_mdb o).
Definition set_sdb (o : rule_opts) : rule_opts := RuleOpts (opt_rpb o) true (opt_mdb o).
Definition set_mdb (o : rule_opts) : rule_opts := RuleOpts (opt_rpb o) (opt_sdb o) true.

(** [sscanf(s, "rule:%u", &id)] into a zero; [%d] reads the same. *)
Definition scan_rule_id (s : bytes) : Z :=
  if strprefix (str "rule:") s then u32 (atoi (drop 5 s)) else 0.

(** ** Handlers *)

Section Rules.
Context {J : Type} `{HJ : Cjson J}.
Variable strcaseeq : bytes -> bytes -> bool.
Variable print : jval -> bytes.
(** [valueint] of a cJSON value *)
Variable valueint : J -> Z.
(** nanolib: the rule [rule_sql_parse] appends, if any; identifiers, by their
    number; empty objects and their check; connecting, which sets [sock]; the
    result of [nanomq_client_mysql]; and what [cvector_erase] leaves in the slot
    behind the last element, where the last one was. *)
Variable rule_sql_parse : option bytes -> option (rest_rule J).
Variable rule_generate_rule_id : nat -> Z.
Variable repub_init : repub_t.
Variable mysql_init : rule_mysql.
Variable rule_mysql_check : rule_mysql -> bool.
Variable nano_client : repub_t -> repub_t.
Variable nanomq_client_mysql : list (rest_rule J) -> Z.
Variable erased : rest_rule J -> rest_rule J.

Implicit Types (r : rest_rule J) (st : rules_state J) (o : J).

(** [jso_param->string] of each child: the elements of an array have none, and
    it is compared all the same. *)
Definition named_children (o : option J) : exec (list (bytes * J)) :=
  match o with
  | None => Ret []
  | Some o => if cJSON_IsArray o && negb (bool_decide (cJSON_children o = [])) then UB else Ret (cJSON_children o)
  end.

(** [nng_strdup(jso_param->valuestring)] *)
Definition valuestring o : exec (option bytes) :=
  match cJSON_string o with Some s => Ret (Some s) | None => UB end.

(** One parameter of an action "repub"; [clean_start] compares the key. *)
Definition repub_param (b : repub_t) (p : bytes * J) : exec repub_t :=
  let '(key, o) := p in
  let named s := strcaseeq key (str s) in
  if named "topic" then
    let* s := valuestring o in
    Ret (Repub s (rb_address b) (rb_proto_ver b) (rb_keepalive b) (rb_clientid b) (rb_username b) (rb_password b)
           (rb_clean_start b) (rb_sock b))
  else if named "address" then
    let* s := valuestring o in
    Ret (Repub (rb_topic b) s (rb_proto_ver b) (rb_keepalive b) (rb_clientid b) (rb_username b) (rb_password b)
           (rb_clean_start b) (rb_sock b))
  else if named "proto_ver" then
    Ret (Repub (rb_topic b) (rb_address b) (valueint o) (rb_keepalive b) (rb_clientid b) (rb_username b)
           (rb_password b) (rb_clean_start b) (rb_sock b))
  else if named "keepalive" then
    Ret (Repub (rb_topic b) (rb_address b) (rb_proto_ver b) (valueint o) (rb_clientid b) (rb_username b)
           (rb_password b) (rb_clean_start b) (rb_sock b))
  else if named "clientid" then
    let* s := valuestring o in
    Ret (Repub (rb_topic b) (rb_address b) (rb_proto_ver b) (rb_keepalive b) s (rb_username b) (rb_password b)
           (rb_clean_start b) (rb_sock b))
  else if named "username" then
    let* s := valuestring o in
    Ret (Repub (rb_topic b) (rb_address b) (rb_proto_ver b) (rb_keepalive b) (rb_clientid b) s (rb_password b)
           (rb_clean_start b) (rb_sock b))
  else if named "password" then
    let* s := valuestring o in
    Ret (Repub (rb_topic b) (rb_address b) (rb_proto_ver b) (rb_keepalive b) (rb_clientid b) (rb_username b) s
           (rb_clean_start b) (rb_sock b))
  else if named "clean_start" then
    Ret (Repub (rb_topic b) (rb_address b) (rb_proto_ver b) (rb_keepalive b) (rb_clientid b) (rb_username b)
           (rb_password b) (strcaseeq key (str "true")) (rb_sock b))
  else Ret b.

Definition mysql_param (m : rule_mysql) (p : bytes * J) : exec rule_mysql :=
  let '(key, o) := p in
  let named s := strcaseeq key (str s) in
  if named "table" then
    let* s := valuestring o in Ret (RuleMysql s (my_username m) (my_password m) (my_host m))
  else if named "username" then
    let* s := valuestring o in Ret (RuleMysql (my_table m) s (my_password m) (my_host m))
  else if named "password" then
    let* s := valuestring o in Ret (RuleMysql (my_table m) (my_username m) s (my_host m))
  else if named "host" then
    let* s := valuestring o in Ret (RuleMysql (my_table m) (my_username m) (my_password m) s)
  else Ret m.

(** [rule_sql_parse(cr, rawsql)] *)
Definition sql_parse st (rawsql : option bytes) : rules_state J :=
  with_rules st (rl_rules st ++ match rule_sql_parse rawsql with Some r => [r] | None => [] end).

(** [raw_sql = nng_strdup(rawsql)], [enabled = true] and a new [rule_id] of the
    last rule. *)
Definition name_rule st (rawsql : option bytes) : exec (rules_state J) :=
  match rawsql with
  | None => UB
  | Some s =>
      let* st := set_last st (fun r => with_id (with_enabled (with_raw_sql r (Some s)) true)
                                         (rule_generate_rule_id (rl_ids st))) in
      Ret (RulesState (rl_option st) (rl_rules st) (rl_repubs st) (rl_mysqls st) (S (rl_ids st)) (rl_calls st))
  end.

(** *** POST *)

(** The state, and the code of an answer given at once. *)
Definition post_repub (params : list (bytes * J)) (rawsql : option bytes) st : exec (rules_state J * option Z) :=
  let st := with_option st (set_rpb (rl_option st)) in
  let* repub := efold repub_param params repub_init in
  if bool_decide (rb_address repub = None) || bool_decide (rb_topic repub = None)
  then Ret (call st (CRepubFree repub), Some MISSING_KEY_REQUEST_PARAMES)
  else
    let k := length (rl_repubs st) in
    let* st := set_last (sql_parse st rawsql) (fun r => with_forword r RULE_FORWORD_REPUB) in
    let st := call (with_repubs st (rl_repubs st ++ [nano_client repub])) (CNanoClient k) in
    let* st := set_last st (fun r => with_repub r (Some k)) in
    let* st := name_rule st rawsql in
    Ret (st, None).

(** Each "table" among the parameters makes a rule. *)
Definition post_sqlite_param (rawsql : option bytes) st (p : bytes * J) : exec (rules_state J) :=
  if strcaseeq p.1 (str "table") then
    let st := sql_parse st rawsql in
    let* st := set_last st (fun r => with_forword r RULE_FORWORD_SQLITE) in
    let* table := valuestring p.2 in
    let* st := set_last st (fun r => with_table r table) in
    let* st := name_rule st rawsql in
    Ret (call st CSqlite)
  else Ret st.

Definition post_sqlite (params : list (bytes * J)) (rawsql : option bytes) st : exec (rules_state J * option Z) :=
  let* st := efold (post_sqlite_param rawsql) params (with_option st (set_sdb (rl_option st))) in
  Ret (st, None).

Definition post_mysql (params : list (bytes * J)) (rawsql : option bytes) st : exec (rules_state J * option Z) :=
  let st := with_option st (set_mdb (rl_option st)) in
  let* mysql := efold mysql_param params mysql_init in
  if negb (rule_mysql_check mysql) then Ret (call st (CMysqlFree mysql), Some MISSING_KEY_REQUEST_PARAMES)
  else
    let k := length (rl_mysqls st) in
    let* st := set_last (sql_parse st rawsql) (fun r => with_forword r RULE_FORWORD_MYSOL) in
    let st := with_mysqls st (rl_mysqls st ++ [mysql]) in
    let* st := set_last st (fun r => with_mysql r (Some k)) in
    let* st := name_rule st rawsql in
    let st := call st CMysql in
    if nanomq_client_mysql (rl_rules st) =? -1 then
      let* r := last_rule st in
      let st := call (with_rules (call st (CRuleFree r)) (take (length (rl_rules st) - 1) (rl_rules st)))
                  (CMysqlFree mysql) in
      Ret (st, Some MISSING_KEY_REQUEST_PARAMES)
    else Ret (st, None).

(** An action without a name is compared with the names all the same. *)
Definition post_action (rawsql : option bytes) st (action : J) : exec (rules_state J * option Z) :=
  match getStringValue (Some action) (str "name") with
  | None => UB
  | Some name =>
      let params := named_children (cJSON_GetObjectItem action (str "params")) in
      if strcaseeq name (str "repub") then let* ps := params in post_repub ps rawsql st
      else if strcaseeq name (str "sqlite") then let* ps := params in post_sqlite ps rawsql st
      else if strcaseeq name (str "mysql") then let* ps := params in post_mysql ps rawsql st
      else Ret (st, None)
  end.

Fixpoint post_actions (rawsql : option bytes) st (actions : list J) : exec (rules_state J * option Z) :=
  match actions with
  | [] => Ret (st, None)
  | a :: rest =>
      let* p := post_action rawsql st a in
      let '(st, code) := p in
      match code with Some _ => Ret (st, code) | None => post_actions rawsql st rest end
  end.

(** A NULL string is not added. *)
Definition rule_json r : jval :=
  JObject [(str "rawsql", JString (rr_raw_sql r)); (str "id", JNumber (rr_rule_id r));
           (str "enabled", JBool (rr_enabled r))].

Definition rule_reply r : exec http_msg :=
  json_reply print NNG_HTTP_STATUS_OK application_json
    (JObject [(str "data", rule_json r); (str "actions", JArray []); (str "code", JNumber SUCCEED)]).

(** The body of a request, when it is an object. *)
Definition request_object (msg : http_msg) : option J :=
  match cJSON_ParseWithLength (default [] (hm_data msg)) with
  | Some req => if cJSON_IsObject req then Some req else None
  | None => None
  end.

Definition elements (o : option J) : list J := match o with Some o => snd <$> cJSON_children o | None => [] end.

Definition bad_request (msg : http_msg) (code : Z) st : exec (http_msg * rules_state J) :=
  let* res := error_response print msg NNG_HTTP_STATUS_BAD_REQUEST code in Ret (res, st).

(** The answer shows the last rule, whatever was posted. *)
Definition post_rules (msg : http_msg) st : exec (http_msg * rules_state J) :=
  match request_object msg with
  | None => bad_request msg REQ_PARAMS_JSON_FORMAT_ILLEGAL st
  | Some req =>
      let* p := post_actions (getStringValue (Some req) (str "rawsql")) st
                  (elements (cJSON_GetObjectItem req (str "actions"))) in
      let '(st, code) := p in
      match code with
      | Some code => bad_request msg code st
      | None =>
          let* r := last_rule st in
          let* res := rule_reply r in
          Ret (res, st)
      end
  end.

(** *** PUT *)

(** Where [new_rule] points to: an element, or the slot behind the last one,
    with what it holds. *)
Inductive rule_slot := InVec (i : nat) | Behind (r : rest_rule J).

Definition get_slot st (sl : rule_slot) : exec (rest_rule J) :=
  match sl with
  | InVec i => match rl_rules st !! i with Some r => Ret r | None => UB end
  | Behind r => Ret r
  end.

Definition upd_slot (f : rest_rule J -> rest_rule J) (p : rules_state J * rule_slot) : rules_state J * rule_slot :=
  match p.2 with
  | InVec i => (with_rules p.1 (base.alter f i (rl_rules p.1)), InVec i)
  | Behind r => (p.1, Behind (f r))
  end.

(** The first rule with the identifier. *)
Definition find_rule st (id : Z) : option nat := fst <$> list_find (fun r => rr_rule_id r = id) (rl_rules st).

(** The connection of the kind of rule goes over to the new one. *)
Definition take_over (old r : rest_rule J) : rest_rule J :=
  let r := with_forword r (rr_forword_type old) in
  match rr_forword_type old with
  | RULE_FORWORD_REPUB => with_repub r (rr_repub old)
  | RULE_FORWORD_SQLITE => with_table r (rr_sqlite_table old)
  | RULE_FORWORD_MYSOL => with_mysql r (rr_mysql old)
  | RULE_FORWORD_FDB => r
  end.

(** With "rawsql": a rule is made at the end and rule [i] is erased, which moves
    the new one down, away from [new_rule]. *)
Definition put_sql (i : nat) (old : rest_rule J) (id : Z) (rawsql : option bytes) st
    : exec (rules_state J * rule_slot) :=
  let st := sql_parse st rawsql in
  match rawsql with
  | None => UB
  | Some s =>
      let* st := set_last st (fun r => take_over old (with_id (with_enabled (with_raw_sql r (Some s)) true) id)) in
      let* new := last_rule st in
      match rl_rules st !! i with
      | None => UB
      | Some freed => Ret (with_rules (call st (CRuleFree freed)) (delete i (rl_rules st)), Behind (erased new))
      end
  end.

(** Without: the rule itself, its connection is closed. *)
Definition put_keep (i : nat) (old : rest_rule J) st : exec (rules_state J * rule_slot) :=
  match rr_repub old with
  | None => Ret (st, InVec i)
  | Some k =>
      match rl_repubs st !! k ≫= rb_sock with
      | Some sock => Ret (call st (CClose sock), InVec i)
      | None => UB
      end
  end.

Definition put_repub (params : list (bytes * J)) (p : rules_state J * rule_slot)
    : exec (rules_state J * rule_slot) :=
  let '(st, sl) := p in
  let st := with_option st (set_rpb (rl_option st)) in
  let* r := get_slot st sl in
  let k := default (length (rl_repubs st)) (rr_repub r) in
  let st := match rr_repub r with Some _ => st | None => with_repubs st (rl_repubs st ++ [repub_init]) end in
  let p := upd_slot (fun r => with_forword (with_repub r (Some k)) RULE_FORWORD_REPUB) (st, sl) in
  match rl_repubs p.1 !! k with
  | None => UB
  | Some b => let* b := efold repub_param params b in Ret (with_repubs p.1 (<[k := b]> (rl_repubs p.1)), p.2)
  end.

(** The last rule is overwritten with the new one. *)
Definition put_sqlite_param (id : Z) (p : rules_state J * rule_slot) (param : bytes * J)
    : exec (rules_state J * rule_slot) :=
  if strcaseeq param.1 (str "table") then
    let* table := valuestring param.2 in
    let '(st, sl) := upd_slot (fun r => with_id (with_table r table) id) p in
    let* r := get_slot st sl in
    let* st := set_last st (fun _ => r) in
    Ret (st, sl)
  else Ret p.

Definition put_sqlite (id : Z) (params : list (bytes * J)) (p : rules_state J * rule_slot)
    : exec (rules_state J * rule_slot) :=
  efold (put_sqlite_param id) params (upd_slot (fun r => with_forword r RULE_FORWORD_SQLITE) p).

Definition put_mysql (params : list (bytes * J)) (p : rules_state J * rule_slot)
    : exec (rules_state J * rule_slot) :=
  let '(st, sl) := p in
  let* r := get_slot st sl in
  let k := default (length (rl_mysqls st)) (rr_mysql r) in
  let st := match rr_mysql r with Some _ => st | None => with_mysqls st (rl_mysqls st ++ [mysql_init]) end in
  let p := upd_slot (fun r => with_forword (with_mysql r (Some k)) RULE_FORWORD_MYSOL) (st, sl) in
  match rl_mysqls p.1 !! k with
  | None => UB
  | Some m => let* m := efold mysql_param params m in Ret (with_mysqls p.1 (<[k := m]> (rl_mysqls p.1)), p.2)
  end.

Definition put_action (id : Z) (p : rules_state J * rule_slot) (action : J) : exec (rules_state J * rule_slot) :=
  match getStringValue (Some action) (str "name") with
  | None => UB
  | Some name =>
      let params := named_children (cJSON_GetObjectItem action (str "params")) in
      if strcaseeq name (str "repub") then let* ps := params in put_repub ps p
      else if strcaseeq name (str "sqlite") then let* ps := params in put_sqlite id ps p
      else if strcaseeq name (str "mysql") then let* ps := params in put_mysql ps p
      else Ret p
  end.

(** Connecting an enabled rule; those of MySQL are left alone. *)
Definition put_connect (p : rules_state J * rule_slot) : exec (rules_state J * rule_slot) :=
  let '(st, sl) := p in
  let* r := get_slot st sl in
  if negb (rr_enabled r) then Ret p
  else
    match rr_forword_type r with
    | RULE_FORWORD_REPUB =>
        match rr_repub r with
        | None => UB
        | Some k => Ret (call (with_repubs st (base.alter nano_client k (rl_repubs st))) (CNanoClient k), sl)
        end
    | RULE_FORWORD_SQLITE => Ret (call st CSqlite, sl)
    | _ => Ret p
    end.

Definition put_rules (msg : http_msg) (rule_id : bytes) st : exec (http_msg * rules_state J) :=
  match request_object msg with
  | None => bad_request msg REQ_PARAMS_JSON_FORMAT_ILLEGAL st
  | Some req =>
      let id := scan_rule_id rule_id in
      match find_rule st id with
      | None => bad_request msg REQ_PARAM_ERROR st
      | Some i =>
          let* old := get_slot st (InVec i) in
          let* p := match cJSON_GetObjectItem req (str "rawsql") with
                    | Some o => put_sql i old id (cJSON_string o) st
                    | None => put_keep i old st
                    end in
          let jso_enabled := cJSON_GetObjectItem req (str "enabled") in
          let p := match jso_enabled with
                   | Some o => upd_slot (fun r => with_enabled r (bool_decide (cJSON_bool o = Some true))) p
                   | None => p
                   end in
          let* p := match cJSON_GetObjectItem req (str "actions") with
                    | Some o => let* p := efold (put_action id) (elements (Some o)) p in put_connect p
                    | None => Ret p
                    end in
          let* p := match jso_enabled with Some _ => put_connect p | None => Ret p end in
          let* r := get_slot p.1 p.2 in
          let* res := rule_reply r in
          Ret (res, p.1)
      end
  end.

(** *** DELETE and GET *)

(** What the rule points to is not released, nor its connection closed. *)
Definition delete_rules (msg : http_msg) (rule_id : bytes) st : exec (http_msg * rules_state J) :=
  match find_rule st (scan_rule_id rule_id) with
  | None => bad_request msg MISSING_KEY_REQUEST_PARAMES st
  | Some i =>
      let* res := json_reply print NNG_HTTP_STATUS_OK application_json (JObject [(str "code", JNumber SUCCEED)]) in
      Ret (res, with_rules st (delete i (rl_rules st)))
  end.

Definition rules_answer (data : jval) : exec http_msg :=
  json_reply print NNG_HTTP_STATUS_OK application_json (JObject [(str "data", data); (str "code", JNumber SUCCEED)]).

Definition get_rules (msg : http_msg) (rule_id : option bytes) st : exec http_msg :=
  match rule_id with
  | None => rules_answer (JArray (rule_json <$> rl_rules st))
  | Some rule_id =>
      match find_rule st (scan_rule_id rule_id) ≫= fun i => rl_rules st !! i with
      | Some r => rules_answer (rule_json r)
      | None => error_response print msg NNG_HTTP_STATUS_BAD_REQUEST MISSING_KEY_REQUEST_PARAMES
      end
  end.
End Rules.

(** ** Lemmas *)

Section Vector.
Context {J : Type}.
Implicit Types (r : rest_rule J) (st : rules_state J).

Lemma last_snoc_rule st l r : rl_rules st = l ++ [r] -> last_rule st = Ret r.
Proof. unfold last_rule. intros ->. by rewrite last_snoc. Qed.

Lemma set_last_snoc st l r f : rl_rules st = l ++ [r] -> set_last st f = Ret (with_rules st (l ++ [f r])).
Proof.
  unfold set_last. intros ->. destruct (l ++ [r]) as [|x k] eqn:E; [by destruct l|]. rewrite <- E.
  rewrite length_app, Nat.add_sub. f_equal. unfold with_rules. f_equal. clear E.
  induction l as [|y l IH]; [done|]. cbn. by f_equal.
Qed.
End Vector.

(** *** The rules as a table *)

Section Table.
Context {J : Type} `{HJ : Cjson J}.
Variable strcaseeq : bytes -> bytes -> bool.
Variable print : jval -> bytes.
Variable valueint : J -> Z.
Variable rule_sql_parse : option bytes -> option (rest_rule J).
Variable rule_generate_rule_id : nat -> Z.
Variable repub_init : repub_t.
Variable mysql_init : rule_mysql.
Variable rule_mysql_check : rule_mysql -> bool.
Variable nano_client : repub_t -> repub_t.
Variable nanomq_client_mysql : list (rest_rule J) -> Z.
Variable erased : rest_rule J -> rest_rule J.
(** connecting gives the object a socket *)
Hypothesis nano_client_sock : forall b, rb_sock (nano_client b) <> None.
(** erasing moves the elements behind down and touches nothing else *)
Hypothesis erased_keeps : forall r, erased r = r.

Implicit Types (r : rest_rule J) (st : rules_state J).

Local Notation post := (post_rules strcaseeq print valueint rule_sql_parse rule_generate_rule_id repub_init
  mysql_init rule_mysql_check nano_client nanomq_client_mysql).
Local Notation put := (put_rules strcaseeq print valueint rule_sql_parse repub_init mysql_init nano_client erased).

(** What a client of the API sees of a rule. *)
Definition row r : Z * bytes * bool := (rr_rule_id r, default [] (rr_raw_sql r), rr_enabled r).
Definition view st : list (Z * bytes * bool) := row <$> rl_rules st.
Definition row_json (x : Z * bytes * bool) : jval :=
  JObject [(str "rawsql", JString (Some x.1.2)); (str "id", JNumber x.1.1); (str "enabled", JBool x.2)].

(** The promise: a list of rows, new ones at the end. *)
Inductive table_op :=
| TPost (id : Z) (sql : bytes)
| TSql (id : Z) (sql : bytes)
| TEnable (id : Z) (b : bool)
| TDelete (id : Z).

Definition row_of (T : list (Z * bytes * bool)) (id : Z) : option nat := fst <$> list_find (fun x => x.1.1 = id) T.

(** The table after, and the row the answer shows; [None]: no such rule. *)
Definition table_step (T : list (Z * bytes * bool)) (op : table_op)
    : option (list (Z * bytes * bool) * option (Z * bytes * bool)) :=
  match op with
  | TPost id sql => Some (T ++ [(id, sql, true)], Some (id, sql, true))
  | TSql id sql => i ← row_of T id; Some (delete i T ++ [(id, sql, true)], Some (id, sql, true))
  | TEnable id b =>
      i ← row_of T id; x ← T !! i; Some (<[i := (x.1, b)]> T, Some (x.1, b))
  | TDelete id => i ← row_of T id; Some (delete i T, None)
  end.

(** Requests, and what they ask for. *)
Inductive rule_req :=
| RPost (m : http_msg)
| RPut (m : http_msg) (rule_id : bytes)
| RDelete (m : http_msg) (rule_id : bytes).

Definition req_msg (q : rule_req) : http_msg := match q with RPost m | RPut m _ | RDelete m _ => m end.

Definition handle_req st (q : rule_req) : exec (http_msg * rules_state J) :=
  match q with
  | RPost m => post m st
  | RPut m rule_id => put m rule_id st
  | RDelete m rule_id => delete_rules print m rule_id st
  end.

(** SQL that makes a rule, which points to nothing yet. *)
Definition sql_ok (sql : bytes) : Prop := exists r, rule_sql_parse (Some sql) = Some r /\ rr_repub r = None.

(** The body of a POST with SQL and a table of SQLite to insert into. *)
Inductive posts_table (m : http_msg) (sql table : bytes) : Prop :=
| posts_table_intro req action name key o :
    request_object m = Some req -> getStringValue (Some req) (str "rawsql") = Some sql ->
    elements (cJSON_GetObjectItem req (str "actions")) = [action] ->
    getStringValue (Some action) (str "name") = Some name ->
    strcaseeq name (str "repub") = false -> strcaseeq name (str "sqlite") = true ->
    named_children (cJSON_GetObjectItem action (str "params")) = Ret [(key, o)] ->
    strcaseeq key (str "table") = true -> cJSON_string o = Some table ->
    posts_table m sql table.

(** [n]: identifiers given out before. *)
Inductive says (n : nat) : rule_req -> table_op -> Prop :=
| says_post m sql table :
    sql_ok sql -> posts_table m sql table -> says n (RPost m) (TPost (rule_generate_rule_id n) sql)
| says_sql m req rule_id sql o :
    request_object m = Some req -> sql_ok sql ->
    cJSON_GetObjectItem req (str "rawsql") = Some o -> cJSON_string o = Some sql ->
    cJSON_GetObjectItem req (str "enabled") = None -> cJSON_GetObjectItem req (str "actions") = None ->
    says n (RPut m rule_id) (TSql (scan_rule_id rule_id) sql)
| says_enable m req rule_id b o :
    request_object m = Some req -> cJSON_GetObjectItem req (str "rawsql") = None ->
    cJSON_GetObjectItem req (str "enabled") = Some o -> cJSON_bool o = Some b ->
    cJSON_GetObjectItem req (str "actions") = None ->
    says n (RPut m rule_id) (TEnable (scan_rule_id rule_id) b)
| says_delete m rule_id : says n (RDelete m rule_id) (TDelete (scan_rule_id rule_id)).

(** Every rule has its SQL, and one that publishes again an object with a
    socket. *)
Definition rule_ok (repubs : list repub_t) r : Prop :=
  rr_raw_sql r <> None /\
  match rr_repub r with
  | Some k => exists b, repubs !! k = Some b /\ rb_sock b <> None
  | None => rr_forword_type r <> RULE_FORWORD_REPUB
  end.
Definition rules_ok st : Prop := Forall (rule_ok (rl_repubs st)) (rl_rules st).

Lemma row_json_rule r : rr_raw_sql r <> None -> rule_json r = row_json (row r).
Proof. unfold rule_json, row_json, row. by destruct (rr_raw_sql r). Qed.

Lemma find_rule_view st id : find_rule st id = row_of (view st) id.
Proof.
  unfold find_rule, row_of, view. induction (rl_rules st) as [|r l IH]; [done|].
  cbn [fmap list_fmap list_find]. cbn [row fst]. case_decide; [done|].
  destruct (list_find _ l) as [[i x]|], (list_find _ (row <$> l)) as [[j y]|]; cbn in *; congruence.
Qed.

Lemma find_rule_lookup st id i : find_rule st id = Some i -> exists r, rl_rules st !! i = Some r /\ rr_rule_id r = id.
Proof.
  unfold find_rule. intros ([j r] & H & ->)%fmap_Some. apply list_find_Some in H as (Hl & He & _). by exists r.
Qed.

(** The rule that is made of what [rule_sql_parse] read. *)
Definition made_rule (st : rules_state J) (r0 : rest_rule J) (sql table : bytes) : rest_rule J :=
  RestRule (rule_generate_rule_id (rl_ids st)) (Some sql) true RULE_FORWORD_SQLITE (rr_repub r0) (Some table)
    (rr_mysql r0) (rr_sql r0).

Lemma post_correct m st r0 sql table :
  rule_sql_parse (Some sql) = Some r0 -> posts_table m sql table ->
  let r := made_rule st r0 sql table in
  post m st =
  Ret (reply_msg print NNG_HTTP_STATUS_OK application_json
         (JObject [(str "data", rule_json r); (str "actions", JArray []); (str "code", JNumber SUCCEED)]),
       RulesState (set_sdb (rl_option st)) (rl_rules st ++ [r]) (rl_repubs st) (rl_mysqls st) (S (rl_ids st))
         (rl_calls st ++ [CSqlite])).
Proof.
  intros Hp [req action name key o Hreq Hsql Ha Hn H1 H2 Hps Hk Ht].
  unfold post_rules. rewrite Hreq, Hsql, Ha. cbn [post_actions]. unfold post_action. rewrite Hn, H1, H2, Hps.
  cbn [ebind]. unfold post_sqlite. cbn [efold]. unfold post_sqlite_param. cbn [fst snd]. rewrite Hk.
  unfold sql_parse. rewrite Hp. cbn [rl_rules with_rules with_option].
  erewrite set_last_snoc by done. cbn [ebind]. unfold valuestring. rewrite Ht. cbn [ebind].
  erewrite set_last_snoc by done. cbn [ebind]. unfold name_rule.
  erewrite set_last_snoc by done. cbn [ebind]. erewrite last_snoc_rule by done. cbn [ebind].
  unfold rule_reply. by rewrite json_reply_ok.
Qed.

(** Updating one rule changes one row. *)
Lemma view_alter (f : rest_rule J -> rest_rule J) (l : list (rest_rule J)) i r :
  l !! i = Some r -> row <$> base.alter f i l = <[i := row (f r)]> (row <$> l).
Proof.
  intros Hi. apply list_eq. intros j. rewrite list_lookup_fmap. destruct (decide (i = j)) as [<-|Hne].
  - rewrite list_lookup_alter_eq, Hi, list_lookup_insert_eq; [done|].
    rewrite length_fmap. by eapply lookup_lt_Some.
  - by rewrite list_lookup_alter_ne, list_lookup_insert_ne, list_lookup_fmap by done.
Qed.

Lemma view_delete i (l : list (rest_rule J)) : row <$> delete i l = delete i ((row <$> l) : list (Z * bytes * bool)).
Proof. revert i. induction l as [|r l IH]; intros [|i]; cbn; [done..|]. by rewrite IH. Qed.

Lemma Forall_delete {A} (P : A -> Prop) i (l : list A) : Forall P l -> Forall P (delete i l).
Proof. intros H. revert i. induction H; intros [|i]; cbn; [done..|]. by constructor. Qed.

(** What [put_connect] does to the objects keeps every rule well-formed. *)
Lemma rule_ok_connect repubs k r : rule_ok repubs r -> rule_ok (base.alter nano_client k repubs) r.
Proof using nano_client_sock.
  intros [Hr Hp]. split; [done|]. destruct (rr_repub r) as [j|]; [|done]. destruct Hp as (b & Hb & Hs).
  destruct (decide (k = j)) as [<-|Hne].
  - exists (nano_client b). by rewrite list_lookup_alter_eq, Hb.
  - exists b. by rewrite list_lookup_alter_ne by done.
Qed.

Lemma put_connect_keeps (st : rules_state J) i r :
  rules_ok st -> rl_rules st !! i = Some r ->
  exists st', put_connect nano_client (st, InVec i) = Ret (st', InVec i) /\
    rl_rules st' = rl_rules st /\ rules_ok st'.
Proof using nano_client_sock.
  intros Hok Hi. pose proof (Forall_lookup_1 _ _ _ _ Hok Hi) as [_ Hp]. unfold put_connect, get_slot.
  rewrite Hi. cbn [ebind]. destruct (rr_enabled r); cbn [negb]; [|by exists st].
  destruct (rr_forword_type r); try (by eexists; split_and!); [|by exists st..].
  destruct (rr_repub r) as [k|]; [|done]. eexists. split_and!; [done..|]. unfold rules_ok.
  eapply Forall_impl; [exact Hok|]. intros. by apply rule_ok_connect.
Qed.

(** Connecting a rule of SQLite changes no rule. *)
Lemma put_connect_sqlite (st : rules_state J) i r :
  rl_rules st !! i = Some r -> rr_forword_type r = RULE_FORWORD_SQLITE ->
  exists st', put_connect nano_client (st, InVec i) = Ret (st', InVec i) /\ rl_rules st' = rl_rules st.
Proof.
  intros Hi Ht. unfold put_connect. cbn [get_slot]. rewrite Hi. cbn [ebind].
  destruct (rr_enabled r); cbn [negb]; [rewrite Ht|]; by eexists.
Qed.

(** The answer that shows a row. *)
Definition row_msg (x : Z * bytes * bool) : http_msg :=
  reply_msg print NNG_HTTP_STATUS_OK application_json
    (JObject [(str "data", row_json x); (str "actions", JArray []); (str "code", JNumber SUCCEED)]).

Lemma rule_reply_row r : rr_raw_sql r <> None -> rule_reply print r = Ret (row_msg (row r)).
Proof. intros H. unfold rule_reply, row_msg. by rewrite json_reply_ok, row_json_rule. Qed.

(** Keeping the rule closes at most its connection. *)
Lemma put_keep_rules st i r :
  rules_ok st -> rl_rules st !! i = Some r ->
  exists st0, put_keep i r st = Ret (st0, InVec i) /\ rl_rules st0 = rl_rules st /\ rl_repubs st0 = rl_repubs st.
Proof.
  intros Hok Hi. pose proof (Forall_lookup_1 _ _ _ _ Hok Hi) as [_ Hrp].
  unfold put_keep. destruct (rr_repub r) as [k|]; [|by exists st]. destruct Hrp as (c & Hc & Hsock).
  rewrite Hc. cbn [mbind option_bind]. destruct (rb_sock c); [|done]. by eexists.
Qed.

Lemma put_enable m st rule_id i req o b :
  rules_ok st -> request_object m = Some req -> find_rule st (scan_rule_id rule_id) = Some i ->
  cJSON_GetObjectItem req (str "rawsql") = None -> cJSON_GetObjectItem req (str "enabled") = Some o ->
  cJSON_bool o = Some b -> cJSON_GetObjectItem req (str "actions") = None ->
  exists x st', view st !! i = Some x /\ put m rule_id st = Ret (row_msg (x.1, b), st') /\ rules_ok st' /\
    view st' = <[i := (x.1, b)]> (view st).
Proof using nano_client_sock.
  intros Hok Hreq Hf Hs He Hb Ha. destruct (find_rule_lookup _ _ _ Hf) as (r & Hi & Hid).
  pose proof (Forall_lookup_1 _ _ _ _ Hok Hi) as [Hraw _].
  destruct (put_keep_rules st i r Hok Hi) as (st0 & Hk0 & Hr0 & Hp0).
  set (r' := with_enabled r b). set (st1 := with_rules st0 (base.alter (fun r => with_enabled r b) i (rl_rules st0))).
  assert (Hi1 : rl_rules st1 !! i = Some r') by (cbn; by rewrite list_lookup_alter_eq, Hr0, Hi).
  assert (Hok1 : rules_ok st1).
  { unfold rules_ok. cbn. rewrite Hp0, Hr0. apply Forall_alter; [done|]. by intros x _ [? ?]. }
  destruct (put_connect_keeps st1 i r' Hok1 Hi1) as (st2 & Hc2 & Hr2 & Hok2).
  exists (row r), st2. split; [unfold view; by rewrite list_lookup_fmap, Hi|]. split_and!; [|done|].
  - unfold put_rules. rewrite Hreq, Hf. cbn [get_slot]. rewrite Hi. cbn [ebind]. rewrite Hs, Hk0. cbn [ebind].
    rewrite He, Ha. cbn [ebind]. rewrite Hb. unfold upd_slot. cbn [fst snd].
    rewrite (bool_decide_ext (Some b = Some true) (b = true)) by (split; congruence).
    replace (bool_decide (b = true)) with b by (by destruct b). fold st1. rewrite Hc2. cbn [ebind fst snd get_slot].
    rewrite Hr2, Hi1. cbn [ebind]. by rewrite rule_reply_row.
  - unfold view. rewrite Hr2. cbn [st1 rl_rules with_rules]. rewrite Hr0. by erewrite view_alter.
Qed.

Lemma put_sql_row m st rule_id i req o sql :
  rules_ok st -> request_object m = Some req -> find_rule st (scan_rule_id rule_id) = Some i -> sql_ok sql ->
  cJSON_GetObjectItem req (str "rawsql") = Some o -> cJSON_string o = Some sql ->
  cJSON_GetObjectItem req (str "enabled") = None -> cJSON_GetObjectItem req (str "actions") = None ->
  exists st', put m rule_id st = Ret (row_msg (scan_rule_id rule_id, sql, true), st') /\ rules_ok st' /\
    view st' = delete i (view st) ++ [(scan_rule_id rule_id, sql, true)].
Proof using erased_keeps.
  intros Hok Hreq Hf (r0 & Hp & Hr0) Hs Ho He Ha. destruct (find_rule_lookup _ _ _ Hf) as (r & Hi & Hid).
  pose proof (Forall_lookup_1 _ _ _ _ Hok Hi) as [Hraw Hrp].
  set (id := scan_rule_id rule_id) in *.
  set (new := take_over r (with_id (with_enabled (with_raw_sql r0 (Some sql)) true) id)).
  assert (Hnew : rr_raw_sql new = Some sql /\ row new = (id, sql, true) /\ rule_ok (rl_repubs st) new).
  { unfold new, take_over, rule_ok. destruct r0, (rr_forword_type r); cbn in *; subst; split_and!; done. }
  destruct Hnew as (Hnr & Hnrow & Hnok).
  assert (Hlt : (i < length (rl_rules st))%nat) by (by eapply lookup_lt_Some).
  unfold put_rules. rewrite Hreq. fold id. rewrite Hf. cbn [get_slot]. rewrite Hi. cbn [ebind]. rewrite Hs, Ho.
  unfold put_sql, sql_parse. rewrite Hp. erewrite set_last_snoc by done. cbn [ebind].
  erewrite last_snoc_rule by done. cbn [ebind rl_rules with_rules]. fold new.
  rewrite lookup_app_l, Hi by done. cbn [ebind]. rewrite He, Ha. cbn [ebind get_slot fst snd].
  eexists. split; [|split].
  - rewrite erased_keeps, rule_reply_row by (by rewrite Hnr). cbn [ebind]. by rewrite Hnrow.
  - unfold rules_ok. cbn. apply Forall_delete, Forall_app. split; [done|]. by constructor.
  - unfold view. cbn [rl_rules with_rules call]. rewrite view_delete, fmap_app. cbn [fmap list_fmap].
    rewrite Hnrow. rewrite delete_take_drop, (delete_take_drop (row <$> _)), take_app_le, drop_app_le, app_assoc
      by (rewrite length_fmap; lia). done.
Qed.

Definition done_msg : http_msg :=
  reply_msg print NNG_HTTP_STATUS_OK application_json (JObject [(str "code", JNumber SUCCEED)]).

Definition error_msg (m : http_msg) (code : Z) : http_msg :=
  reply_msg print NNG_HTTP_STATUS_BAD_REQUEST (hm_content_type m) (JObject [(str "code", JNumber code)]).

Lemma bad_request_ok m code (st : rules_state J) : bad_request print m code st = Ret (error_msg m code, st).
Proof. unfold bad_request, error_response. by rewrite json_reply_ok. Qed.

(** The listing and the single rules of the table. *)
Definition listing (T : list (Z * bytes * bool)) : http_msg :=
  reply_msg print NNG_HTTP_STATUS_OK application_json
    (JObject [(str "data", JArray (row_json <$> T)); (str "code", JNumber SUCCEED)]).

Lemma get_rules_listing (g : http_msg) st : rules_ok st -> get_rules print g None st = Ret (listing (view st)).
Proof.
  intros Hok. unfold get_rules, rules_answer, listing. rewrite json_reply_ok. do 4 f_equal. f_equal. f_equal.
  unfold view. rewrite <- list_fmap_compose. apply list_fmap_ext. intros i r Hi. apply row_json_rule.
  by apply (Forall_lookup_1 _ _ _ _ Hok Hi).
Qed.

Lemma get_rules_one (g : http_msg) st rule_id :
  rules_ok st ->
  get_rules print g (Some rule_id) st =
  Ret (match row_of (view st) (scan_rule_id rule_id) ≫= fun i => view st !! i with
       | Some x => reply_msg print NNG_HTTP_STATUS_OK application_json
                     (JObject [(str "data", row_json x); (str "code", JNumber SUCCEED)])
       | None => error_msg g MISSING_KEY_REQUEST_PARAMES
       end).
Proof.
  intros Hok. unfold get_rules. rewrite find_rule_view. destruct (row_of _ _) as [i|]; cbn [mbind option_bind];
    [|unfold error_response; by rewrite json_reply_ok].
  unfold view. rewrite list_lookup_fmap. destruct (rl_rules st !! i) as [r|] eqn:Hi; cbn [fmap option_fmap option_map].
  - unfold rules_answer. rewrite json_reply_ok, row_json_rule; [done|]. by apply (Forall_lookup_1 _ _ _ _ Hok Hi).
  - unfold error_response. by rewrite json_reply_ok.
Qed.

(** C19: over HTTP the rules are a table, for requests of four kinds: posting SQL
    with one action, a table of SQLite, appends a row under the identifier that
    nanolib generates; putting SQL alone replaces the first row with the
    identifier by one at the end; putting "enabled" alone changes that field;
    deleting removes the first row with the identifier; and a request for an
    unknown identifier is answered with 400 and changes nothing.  GET shows the
    table and its rows.  (Other posts can be undefined, see
    [post_without_actions].) *)
Theorem http_rules_refine_table st q op :
  rules_ok st -> says (rl_ids st) q op ->
  match table_step (view st) op with
  | Some (T, shown) =>
      exists st', handle_req st q = Ret (match shown with Some x => row_msg x | None => done_msg end, st') /\
        rules_ok st' /\ view st' = T
  | None => exists code, handle_req st q = Ret (error_msg (req_msg q) code, st)
  end /\
  forall g, get_rules print g None st = Ret (listing (view st)) /\
    forall rule_id, get_rules print g (Some rule_id) st =
      Ret (match row_of (view st) (scan_rule_id rule_id) ≫= fun i => view st !! i with
           | Some x => reply_msg print NNG_HTTP_STATUS_OK application_json
                         (JObject [(str "data", row_json x); (str "code", JNumber SUCCEED)])
           | None => error_msg g MISSING_KEY_REQUEST_PARAMES
           end).
Proof using nano_client_sock erased_keeps.
  intros Hok Hsays. split; [|intros g; split; [by apply get_rules_listing|intros; by apply get_rules_one]].
  assert (Hbad : forall m rule_id req, request_object m = Some req -> find_rule st (scan_rule_id rule_id) = None ->
    put m rule_id st = Ret (error_msg m REQ_PARAM_ERROR, st)).
  { intros m rule_id req Hreq Hf. unfold put_rules. by rewrite Hreq, Hf, bad_request_ok. }
  destruct Hsays as [m sql table (r0 & Hr0 & Hnp) Hps
    |m req rule_id sql o Hreq Hsql Hraw Ho He Ha|m req rule_id b o Hreq Hraw He Hb Ha|m rule_id];
    cbn [table_step handle_req req_msg]; rewrite <- ?find_rule_view.
  - rewrite (post_correct m st r0 sql table Hr0 Hps). eexists. split; [done|]. split.
    + unfold rules_ok. cbn. apply Forall_app. split; [done|]. constructor; [|done]. split; [done|]. cbn. by rewrite Hnp.
    + unfold view. cbn [rl_rules]. by rewrite fmap_app.
  - destruct (find_rule st _) as [i|] eqn:Hf; cbn [mbind option_bind]; [|exists REQ_PARAM_ERROR; by eapply Hbad].
    by eapply put_sql_row.
  - destruct (find_rule st _) as [i|] eqn:Hf; cbn [mbind option_bind]; [|exists REQ_PARAM_ERROR; by eapply Hbad].
    destruct (put_enable m st rule_id i req o b) as (x & st' & Hx & Hp & Hok' & Hv); [done..|].
    rewrite Hx. cbn [mbind option_bind]. by exists st'.
  - unfold delete_rules. destruct (find_rule st _) as [i|] eqn:Hf; cbn [mbind option_bind];
      [|exists MISSING_KEY_REQUEST_PARAMES; by rewrite bad_request_ok].
    rewrite json_reply_ok. cbn [ebind]. eexists. split; [done|]. split.
    + unfold rules_ok. cbn. by apply Forall_delete.
    + unfold view. apply view_delete.
Qed.

(** A new table for a rule in front of the last one. *)
Lemma put_table_overwrites st m rule_id i req :
  rules_ok st -> request_object m = Some req -> find_rule st (scan_rule_id rule_id) = Some i ->
  forall acts action name key o table r l lost,
  cJSON_GetObjectItem req (str "rawsql") = None -> cJSON_GetObjectItem req (str "enabled") = None ->
  cJSON_GetObjectItem req (str "actions") = Some acts -> elements (Some acts) = [action] ->
  getStringValue (Some action) (str "name") = Some name ->
  strcaseeq name (str "repub") = false -> strcaseeq name (str "sqlite") = true ->
  named_children (cJSON_GetObjectItem action (str "params")) = Ret [(key, o)] ->
  strcaseeq key (str "table") = true -> cJSON_string o = Some table ->
  rl_rules st = l ++ [lost] -> l !! i = Some r ->
  exists st' r', put m rule_id st = Ret (row_msg (row r), st') /\
    r' = with_id (with_table (with_forword r RULE_FORWORD_SQLITE) (Some table)) (scan_rule_id rule_id) /\
    rl_rules st' = <[i := r']> l ++ [r'].
Proof.
  intros Hok Hreq Hf. destruct (find_rule_lookup _ _ _ Hf) as (old & Hi & Hid).
  set (id := scan_rule_id rule_id) in *.
  intros acts action name key o table r l lost Hs He Ha Hel Hn H1 H2 Hps Hk Ht Hl Hr.
  assert (Hlt : (i < length l)%nat) by (by eapply lookup_lt_Some).
  assert (Hold : old = r) by (rewrite Hl, lookup_app_l in Hi by done; congruence). subst old.
  pose proof (Forall_lookup_1 _ _ _ _ Hok Hi) as [Hraw _].
  destruct (put_keep_rules st i r Hok Hi) as (st0 & Hk0 & Hr0 & _).
  set (r' := with_id (with_table (with_forword r RULE_FORWORD_SQLITE) (Some table)) id).
  unfold put_rules. rewrite Hreq. fold id. rewrite Hf. cbn [get_slot]. rewrite Hi. cbn [ebind].
  rewrite Hs, Hk0. cbn [ebind]. rewrite He, Ha, Hel. cbn [ebind efold]. unfold put_action.
  rewrite Hn, H1, H2, Hps. cbn [ebind]. unfold put_sqlite, put_sqlite_param. cbn [efold fst snd]. rewrite Hk.
  unfold valuestring. rewrite Ht. cbn [ebind]. unfold upd_slot. cbn [fst snd].
  cbn [with_rules rl_rules]. rewrite Hr0, Hl.
  assert (Hrules : base.alter (fun r => with_id (with_table r (Some table)) id) i
    (base.alter (fun r => with_forword r RULE_FORWORD_SQLITE) i (l ++ [lost])) = <[i := r']> l ++ [lost]).
  { apply list_eq. intros j. destruct (decide (i = j)) as [<-|Hne].
    - by rewrite !list_lookup_alter_eq, !lookup_app_l, Hr, list_lookup_insert_eq
        by (rewrite ?length_insert; lia).
    - destruct (decide (j < length l)%nat).
      + by rewrite !list_lookup_alter_ne, !lookup_app_l, list_lookup_insert_ne by (rewrite ?length_insert; done).
      + by rewrite !list_lookup_alter_ne, !lookup_app_r, length_insert by (rewrite ?length_insert; lia || done). }
  rewrite Hrules. cbn [get_slot with_rules rl_rules].
  rewrite lookup_app_l, list_lookup_insert_eq by (rewrite ?length_insert; done).
  cbn [ebind]. erewrite set_last_snoc by done. cbn [ebind].
  edestruct (put_connect_sqlite (with_rules (with_rules (with_rules st0
    (base.alter (fun r => with_forword r RULE_FORWORD_SQLITE) i (l ++ [lost]))) (<[i := r']> l ++ [lost]))
    (<[i := r']> l ++ [r'])) i r') as (st' & -> & Hst'); [|done|].
  { cbn [rl_rules with_rules]. by rewrite lookup_app_l, list_lookup_insert_eq by (rewrite ?length_insert; done). }
  cbn [ebind get_slot fst snd]. rewrite Hst'. cbn [rl_rules with_rules].
  rewrite lookup_app_l, list_lookup_insert_eq by (rewrite ?length_insert; done). cbn [ebind].
  rewrite rule_reply_row by done. cbn [ebind]. exists st', r'. split_and!; [|done..].
  do 3 f_equal. unfold row. cbn. by rewrite <- Hid.
Qed.

(** C39: a change of a rule can reach the wrong one.  With new SQL and "enabled"
    false the answer says that the rule is disabled, but it stays enabled: the
    flag is written behind the vector.  A new table for a rule that is not the
    last one overwrites the last rule with a copy of it: that rule is lost. *)
Theorem put_rules_hits_wrong_rule st m rule_id i req :
  rules_ok st -> request_object m = Some req -> find_rule st (scan_rule_id rule_id) = Some i ->
  (forall o sql e, sql_ok sql ->
   cJSON_GetObjectItem req (str "rawsql") = Some o -> cJSON_string o = Some sql ->
   cJSON_GetObjectItem req (str "enabled") = Some e -> cJSON_bool e = Some false ->
   cJSON_GetObjectItem req (str "actions") = None ->
   exists st', put m rule_id st = Ret (row_msg (scan_rule_id rule_id, sql, false), st') /\
     view st' = delete i (view st) ++ [(scan_rule_id rule_id, sql, true)]) /\
  (forall acts action name key o table r l lost,
   cJSON_GetObjectItem req (str "rawsql") = None -> cJSON_GetObjectItem req (str "enabled") = None ->
   cJSON_GetObjectItem req (str "actions") = Some acts -> elements (Some acts) = [action] ->
   getStringValue (Some action) (str "name") = Some name ->
   strcaseeq name (str "repub") = false -> strcaseeq name (str "sqlite") = true ->
   named_children (cJSON_GetObjectItem action (str "params")) = Ret [(key, o)] ->
   strcaseeq key (str "table") = true -> cJSON_string o = Some table ->
   rl_rules st = l ++ [lost] -> l !! i = Some r ->
   exists st' r', put m rule_id st = Ret (row_msg (row r), st') /\
     r' = with_id (with_table (with_forword r RULE_FORWORD_SQLITE) (Some table)) (scan_rule_id rule_id) /\
     rl_rules st' = <[i := r']> l ++ [r']).
Proof using erased_keeps.
  intros Hok Hreq Hf. destruct (find_rule_lookup _ _ _ Hf) as (old & Hi & Hid).
  set (id := scan_rule_id rule_id) in *. split.
  - intros o sql e (r0 & Hp & Hr0) Hs Ho He Hb Ha.
    set (new := take_over old (with_id (with_enabled (with_raw_sql r0 (Some sql)) true) id)).
    assert (Hnew : rr_raw_sql new = Some sql /\ row new = (id, sql, true))
      by (unfold new, take_over; destruct r0, (rr_forword_type old); done).
    destruct Hnew as [Hnr Hnrow].
    assert (Hlt : (i < length (rl_rules st))%nat) by (by eapply lookup_lt_Some).
    unfold put_rules. rewrite Hreq. fold id. rewrite Hf. cbn [get_slot]. rewrite Hi. cbn [ebind]. rewrite Hs, Ho.
    unfold put_sql, sql_parse. rewrite Hp. erewrite set_last_snoc by done. cbn [ebind].
    erewrite last_snoc_rule by done. cbn [ebind rl_rules with_rules]. fold new.
    rewrite lookup_app_l, Hi by done. cbn [ebind]. rewrite He, Ha, Hb. cbn [ebind upd_slot fst snd].
    rewrite erased_keeps, bool_decide_eq_false_2 by done. cbn [ebind put_connect get_slot rr_enabled with_enabled negb fst snd].
    eexists. split.
    + rewrite rule_reply_row by (cbn; by rewrite Hnr). cbn [ebind]. do 3 f_equal. unfold row in *. cbn.
      by injection Hnrow as -> -> _.
    + unfold view. cbn [rl_rules with_rules call]. rewrite view_delete, fmap_app. cbn [fmap list_fmap]. rewrite Hnrow.
      rewrite delete_take_drop, (delete_take_drop (row <$> _)), take_app_le, drop_app_le, app_assoc
        by (rewrite length_fmap; lia). done.
  - by apply put_table_overwrites.
Qed.
(** *** Branches that go wrong *)

(** "clean_start" of a new client is never set: the key is compared with
    "true", whatever the value. *)
Lemma repub_clean_start_ignored b key o :
  Forall (fun s => strcaseeq key (str s) = false)
    ["topic"; "address"; "proto_ver"; "keepalive"; "clientid"; "username"; "password"; "true"]%string ->
  strcaseeq key (str "clean_start") = true ->
  exists b', repub_param strcaseeq valueint b (key, o) = Ret b' /\ rb_clean_start b' = false.
Proof.
  intros H Hc. repeat (apply Forall_cons in H as [? H]). unfold repub_param.
  repeat match goal with E : strcaseeq key _ = _ |- _ => rewrite E; clear E end. by eexists.
Qed.

(** A POST without actions shows the last rule: with none there, what lies in
    front of the vector. *)
Lemma post_without_actions m req st :
  request_object m = Some req -> elements (cJSON_GetObjectItem req (str "actions")) = [] -> rl_rules st = [] ->
  post m st = UB.
Proof. intros Hr Ha Hl. unfold post_rules. rewrite Hr, Ha. cbn. unfold last_rule. by rewrite Hl. Qed.

(** An action without a name is compared with the names. *)
Lemma post_unnamed_action m req st action l :
  request_object m = Some req -> elements (cJSON_GetObjectItem req (str "actions")) = action :: l ->
  getStringValue (Some action) (str "name") = None -> post m st = UB.
Proof. intros Hr Ha Hn. unfold post_rules. rewrite Hr, Ha. cbn [post_actions]. unfold post_action. by rewrite Hn. Qed.

(** A PUT that changes nothing closes the connection of a rule that publishes
    again, and opens no other. *)
Lemma put_nothing_disconnects m st rule_id i req r k b sock :
  request_object m = Some req -> find_rule st (scan_rule_id rule_id) = Some i -> rl_rules st !! i = Some r ->
  rr_repub r = Some k -> rl_repubs st !! k = Some b -> rb_sock b = Some sock ->
  cJSON_GetObjectItem req (str "rawsql") = None -> cJSON_GetObjectItem req (str "enabled") = None ->
  cJSON_GetObjectItem req (str "actions") = None ->
  exists res, put m rule_id st = Ret (res, call st (CClose sock)).
Proof.
  intros Hreq Hf Hi Hk Hb Hs H1 H2 H3. unfold put_rules. rewrite Hreq, Hf. cbn [get_slot]. rewrite Hi. cbn [ebind].
  rewrite H1. unfold put_keep. rewrite Hk, Hb. cbn [mbind option_bind]. rewrite Hs, H2, H3.
  cbn [ebind fst snd get_slot call rl_rules]. rewrite Hi. cbn [ebind]. unfold rule_reply. rewrite json_reply_ok.
  by eexists.
Qed.

(** A change to SQLite leaves the switch of the engine as it was. *)
Lemma put_sqlite_option id params p p' :
  put_sqlite strcaseeq id params p = Ret p' -> rl_option p'.1 = rl_option p.1.
Proof.
  unfold put_sqlite. intros H. transitivity (rl_option (upd_slot (fun r => with_forword r RULE_FORWORD_SQLITE) p).1);
    [|by destruct p as [st []]].
  revert H. generalize (upd_slot (fun r => with_forword r RULE_FORWORD_SQLITE) p) as p1. clear p.
  induction params as [|x params IH]; intros p1; cbn [efold]; [by intros [= <-]|].
  intros (p2 & Hp2 & H)%ebind_Ret. rewrite (IH _ H). revert Hp2. unfold put_sqlite_param.
  destruct (strcaseeq _ _); [|by intros [= <-]]. intros (t & _ & H2)%ebind_Ret.
  destruct (upd_slot _ p1) as [st sl] eqn:E. apply ebind_Ret in H2 as (r & _ & H2).
  apply ebind_Ret in H2 as (st2 & Hs & [= <-]). unfold set_last in Hs.
  assert (Ho : rl_option st = rl_option p1.1) by (destruct p1 as [? []]; by injection E as <- _).
  rewrite <- Ho. destruct (rl_rules st); [done|]. by injection Hs as <-.
Qed.
End Table.

(** ** Witnesses *)

Definition rules_post : jtree :=
  TObj [(str "rawsql", TStr (str "sql1"));
        (str "actions", TArr [TObj [(str "name", TStr (str "sqlite"));
                                    (str "params", TObj [(str "table", TStr (str "tbl"))])]])].

Definition rules_texts : list (bytes * jtree) :=
  [(str "post", rules_post);
   (str "off", TObj [(str "enabled", TBool false)]);
   (str "sql", TObj [(str "rawsql", TStr (str "sql2"))]);
   (str "sql off", TObj [(str "rawsql", TStr (str "sql2")); (str "enabled", TBool false)]);
   (str "table", TObj [(str "actions", TArr [TObj [(str "name", TStr (str "sqlite"));
                                                   (str "params", TObj [(str "table", TStr (str "other"))])]])])].

#[export] Instance rules_cjson : Cjson jtree := jtree_cjson (fun b => tfind b rules_texts).

Definition rules_body (s : string) : http_msg := HttpMsg 0 0 0 None 0 None 0 None 0 None 0 (Some (str s)) false.

(** SQL that selects quality of service and topic of the messages of topic "a". *)
Definition rules_sql : rule jtree :=
  Rule true [97] None (fun _ => RULE_CMP_EQUAL) (fun f => bool_decide (f = RULE_QOS) || bool_decide (f = RULE_TOPIC))
    (fun _ => None) [] RULE_FORWORD_SQLITE None [] [] (RuleKey (fun _ => false) false []).
Definition rules_parsed : rest_rule jtree := RestRule 0 None false RULE_FORWORD_SQLITE None None None rules_sql.
Definition rules_parse (sql : option bytes) : option (rest_rule jtree) := Some rules_parsed.
Definition rules_id (n : nat) : Z := Z.of_nat n + 1.
Definition rules_repub : repub_t := Repub None None 4 60 None None None true None.
Definition rules_mysql : rule_mysql := RuleMysql None None None None.
Definition rules_client (b : repub_t) : repub_t :=
  Repub (rb_topic b) (rb_address b) (rb_proto_ver b) (rb_keepalive b) (rb_clientid b) (rb_username b) (rb_password b)
    (rb_clean_start b) (Some 5).
Definition rules_eq (a b : bytes) : bool := bool_decide (a = b).

Definition rules_made (id : Z) (sql table : bytes) : rest_rule jtree :=
  RestRule id (Some sql) true RULE_FORWORD_SQLITE None (Some table) None rules_sql.
Definition rules_demo : rules_state jtree :=
  RulesState (RuleOpts false true false)
    [rules_made 1 (str "sql1") (str "tbl"); rules_made 2 (str "sql2") (str "last")] [] [] 2 [].

Lemma rules_demo_ok : rules_ok rules_demo.
Proof. unfold rules_ok. cbn. repeat (constructor; try done). Qed.

(** A third rule, and the first one disabled. *)
Lemma http_rules_refine_table_witness :
  let table := [(1, str "sql1", true); (2, str "sql2", true)] in
  let handle q := handle_req rules_eq (fun _ => []) (fun _ => 0) rules_parse rules_id rules_repub rules_mysql
    (fun _ => true) rules_client (fun _ => 0) (fun r => r) rules_demo q in
  (exists r st', handle (RPost (rules_body "post")) = Ret (r, st') /\ view st' = table ++ [(3, str "sql1", true)]) /\
  (exists r st', handle (RPut (rules_body "off") (str "rule:1")) = Ret (r, st') /\
     view st' = [(1, str "sql1", false); (2, str "sql2", true)]) /\
  (exists r, handle (RPut (rules_body "sql") (str "rule:7")) = Ret (r, rules_demo)).
Proof.
  intros table handle.
  pose proof (fun q op => http_rules_refine_table rules_eq (fun _ => []) (fun _ => 0) rules_parse rules_id rules_repub
    rules_mysql (fun _ => true) rules_client (fun _ => 0) (fun r => r) (fun b H => ltac:(discriminate H))
    (fun r => eq_refl) rules_demo q op rules_demo_ok) as T.
  split; [|split].
  - destruct (T (RPost (rules_body "post")) (TPost (rules_id 2) (str "sql1"))) as [(st' & H & _ & Hv) _].
    + eapply (says_post _ _ _ _ _ _ (str "tbl")).
      * exists rules_parsed. split; reflexivity.
      * econstructor; reflexivity.
    + eexists _, st'. split; [exact H|exact Hv].
  - destruct (T (RPut (rules_body "off") (str "rule:1")) (TEnable 1 false)) as [(st' & H & _ & Hv) _].
    + eapply says_enable; reflexivity.
    + eexists _, st'. split; [exact H|exact Hv].
  - destruct (T (RPut (rules_body "sql") (str "rule:7")) (TSql 7 (str "sql2"))) as [(code & H) _].
    + eapply says_sql; [reflexivity|exists rules_parsed; split; reflexivity|reflexivity..].
    + eexists. exact H.
Defined.

(** The rule to be disabled stays enabled; a new table for the first rule takes
    the place of the second rule. *)
Lemma put_rules_hits_wrong_rule_witness :
  let put m := put_rules rules_eq (fun _ => []) (fun _ => 0) rules_parse rules_repub rules_mysql rules_client (fun r => r)
    (rules_body m) (str "rule:1") rules_demo in
  (exists r st', put "sql off" = Ret (r, st') /\ view st' = [(2, str "sql2", true); (1, str "sql2", true)]) /\
  (exists r st', put "table" = Ret (r, st') /\ (rr_rule_id <$> rl_rules st') = [1; 1]).
Proof.
  intros put.
  pose proof (fun m req => put_rules_hits_wrong_rule rules_eq (fun _ => []) (fun _ => 0) rules_parse rules_repub
    rules_mysql rules_client (fun r => r) (fun r => eq_refl) rules_demo (rules_body m) (str "rule:1") 0%nat req
    rules_demo_ok) as T.
  split.
  - destruct (T "sql off" _ eq_refl eq_refl) as [Ho _].
    edestruct Ho as (st' & H & Hv); [exists rules_parsed; split; reflexivity|reflexivity..|].
    eexists _, st'. split; [exact H|exact Hv].
  - destruct (T "table" _ eq_refl eq_refl) as [_ Ht].
    edestruct Ht as (st' & r' & H & Hr' & Hl);
      [reflexivity|reflexivity|reflexivity|reflexivity|reflexivity|reflexivity|reflexivity|reflexivity|reflexivity
      |reflexivity|exact (eq_refl : rl_rules rules_demo = [_] ++ [_])|reflexivity|].
    eexists _, st'. split; [exact H|]. rewrite Hl, Hr'. reflexivity.
Defined.
