(* ===== verification/RuleBroker.v ===== *)
(** * Rules from the HTTP API to the messages of the broker

    The rules the API keeps are what [rule_engine_insert_sql] runs over in
    state SEND of a work item: [rule_eng] of the global configuration is shared
    by both.  Here the two are put together. *)

From Stdlib Require Import ZArith Lia.
From stdpp Require Import base numbers list option strings gmap.
From S2P Require Import Prelude Mqtt Cstring Nng NngModel SubHandler PubHandler Conf Webhook Broker RestHttp Cjson RuleEngine RestApi RestRules.

Local Open Scope Z_scope.
Local Open Scope nano_scope.

Lemma mapM_snoc {A B} (f : A -> option B) l x k y :
  mapM f l = Some k -> f x = Some y -> mapM f (l ++ [x]) = Some (k ++ [y]).
Proof. rewrite !mapM_Some. intros Hl Hx. apply Forall2_app; [done|]. by constructor. Qed.

Section Glue.
Context {J : Type} `{HJ : Cjson J}.

(** A rule as the engine reads it.  Of an enabled rule it follows the pointers:
    [None] when there is nothing to follow. *)
Definition engine_rule (st : rules_state J) (r : rest_rule J) : option (rule J) :=
  let s := rr_sql r in
  let mk cid topic table :=
    Some (Rule (rr_enabled r) (ru_topic s) (ru_filter s) (ru_cmp_type s) (ru_flag s) (ru_as s) (ru_payload s)
            (rr_forword_type r) cid topic table (ru_key s)) in
  if negb (rr_enabled r) then mk None [] []
  else
    match rr_forword_type r with
    | RULE_FORWORD_REPUB =>
        k ← rr_repub r; b ← rl_repubs st !! k; topic ← rb_topic b; mk (rb_clientid b) topic []
    | RULE_FORWORD_SQLITE => table ← rr_sqlite_table r; mk None [] table
    | RULE_FORWORD_MYSOL => 
        k ← rr_mysql r; m ← rl_mysqls st !! k; table ← my_table m; mk None [] table
    | RULE_FORWORD_FDB => mk None [] []
    end.

(** What the API and the broker share: the rules, and the variables of the
    engine with its connection to SQLite. *)
Local Notation shared := (rules_state J * engine_flags)%type.

Definition rules_on (s : shared) : bool :=
  let o := rl_option s.1 in opt_rpb o || opt_sdb o || opt_mdb o.

Variable cJSON_Compare : J -> J -> bool.
Variable topic_filter : bytes -> option bytes -> bool.
Variable fields : list rule_field.
Variable print_item : J -> bytes.
Variable print_obj : list (bytes * jmember J) -> bytes.
Variables sqlite_ok mysql_ok : bytes -> bool.

Local Notation run o := (rule_engine_insert_sql cJSON_Compare topic_filter fields print_item print_obj sqlite_ok mysql_ok o).

(** Without a packet nothing may be enabled; what the engine keeps of a message
    stays in the rules. *)
Definition shared_engine (inp : option rule_input) (s : shared) : exec (list rule_ev * shared * option Z) :=
  match inp, mapM (engine_rule s.1) (rl_rules s.1) with
  | None, _ => if existsb rr_enabled (rl_rules s.1) then UB else Ret ([], s, Some 0)
  | Some inp, None => UB
  | Some inp, Some l =>
      let* r := run (rl_option s.1) inp l s.2 in
      let '(evs, l', fl, rv) := r in
      Ret (evs, (with_rules s.1 (zip_with with_sql (rl_rules s.1) l'), fl), rv)
  end.

(** [sqlite_open]: the connection after [nanomq_client_sqlite], given the one
    before. *)
Variable sqlite_open : sqlite_conn -> sqlite_conn.
Variable strcaseeq : bytes -> bytes -> bool.
Variable print : jval -> bytes.
Variable valueint : J -> Z.
Variable rule_sql_parse : option bytes -> option (rest_rule J).
Variable rule_generate_rule_id : nat -> Z.
Variable repub_init : repub_t.
Variable mysql_init : rule_mysql.
Variable rule_mysql_check : rule_mysql -> bool.
Variable nano_client : repub_t -> repub_t.
Variable nanomq_client_mysql : list (rest_rule J) -> Z.
Variable erased : rest_rule J -> rest_rule J.

Definition connect_sqlite (calls : list (rule_call J)) (fl : engine_flags) : engine_flags :=
  EngineFlags (fl_first fl) (fl_first_mysql fl)
    (foldl (fun b c => match c with CSqlite => sqlite_open b | _ => b end) (fl_sdb fl) calls).

(** A handler of the API on what is shared. *)
Definition on_shared (h : rules_state J -> exec (http_msg * rules_state J)) (s : shared) : exec (http_msg * shared) :=
  let* r := h s.1 in
  Ret (r.1, (r.2, connect_sqlite (drop (length (rl_calls s.1)) (rl_calls r.2)) s.2)).

Definition shared_api : rules_api shared :=
  RulesApi
    (fun m => on_shared (RestRules.post_rules strcaseeq print valueint rule_sql_parse rule_generate_rule_id repub_init
                           mysql_init rule_mysql_check nano_client nanomq_client_mysql m))
    (fun m id => on_shared (RestRules.put_rules strcaseeq print valueint rule_sql_parse repub_init mysql_init nano_client
                              erased m id))
    (fun m id => on_shared (RestRules.delete_rules print m id))
    (fun m id s => RestRules.get_rules print m id s.1).
End Glue.

(** ** A posted rule works *)

Section PostedRule.
Context {J : Type} `{HJ : Cjson J}.
Context {msg property cparam db hash db_ret : Type}.
Context `{Hmsg : NngMsg msg} `{Hpar : NngParser msg property} `{Hmp : NngMsgProp msg property}.
Context `{Hdb : NngDb db hash} `{Hret : NngRetain db_ret (dbtree_retain_msg msg)}.
Context `{Hcn : NngConn msg cparam property} {Hcl : NngConnLaws msg cparam property}.
Context {utf8_ok : bytes -> Prop} {prop_ok : option property -> Prop}.
Context {Hlaws : NngParserLaws msg property utf8_ok} {Hpl : NngPropLaws msg property prop_ok}.
Context {Hml : NngMsgLaws msg} {Hnf : NngMsgNoFail msg}.
Variable config : conf.
Variable topic_filter : bytes -> option bytes -> bool.
Variable base64_encode : bytes -> bytes.
Variable NNG_ECONNSHUT : Z.
Variable clears : bool.
Variable cJSON_Compare : J -> J -> bool.
Variable plain : list rule_field.
Variable print_item : J -> bytes.
Variable print_obj : list (bytes * jmember J) -> bytes.
Variables sqlite_ok mysql_ok : bytes -> bool.
Variable sqlite_open : sqlite_conn -> sqlite_conn.
Variable strcaseeq : bytes -> bytes -> bool.
Variable print : jval -> bytes.
Variable valueint : J -> Z.
Variable rule_sql_parse : option bytes -> option (rest_rule J).
Variable rule_generate_rule_id : nat -> Z.
Variable repub_init : repub_t.
Variable mysql_init : rule_mysql.
Variable rule_mysql_check : rule_mysql -> bool.
Variable nano_client : repub_t -> repub_t.
Variable nanomq_client_mysql : list (rest_rule J) -> Z.
Variable erased : rest_rule J -> rest_rule J.

Local Notation fields := (plain ++ [RULE_PAYLOAD_FIELD]).
Local Notation engine := (shared_engine cJSON_Compare topic_filter fields print_item print_obj sqlite_ok mysql_ok).
Local Notation run o := (rule_engine_insert_sql cJSON_Compare topic_filter fields print_item print_obj sqlite_ok mysql_ok o).
Local Notation cb := (server_cb config topic_filter base64_encode NNG_ECONNSHUT clears rules_on engine).
Local Notation api := (shared_api sqlite_open strcaseeq print valueint rule_sql_parse rule_generate_rule_id repub_init
  mysql_init rule_mysql_check nano_client nanomq_client_mysql erased).

(** The rule that is posted, and the message that meets its conditions. *)
Definition posted (r0 : rest_rule J) (table : bytes) : rule J :=
  let s := rr_sql r0 in
  Rule true (ru_topic s) (ru_filter s) (ru_cmp_type s) (ru_flag s) (ru_as s) (ru_payload s) RULE_FORWORD_SQLITE
    None [] table (ru_key s).

Record wanted (inp : rule_input) (info : rule J) : Prop := Wanted {
  wa_input : exists t cid user pass, input_ok inp t cid user pass /\ topic_filter (ru_topic info) (Some t) = true /\
    forall filter, ru_filter info = Some filter ->
      Forall (fun f => field_means inp t cid user pass f (ru_cmp_type info f) (filter f)) fields;
  wa_texts : forall filter f v, ru_filter info = Some filter -> filter f = Some v -> 0 ∉ v;
  wa_plain : ru_payload info = [] /\ ru_flag info RULE_PAYLOAD_FIELD = false
}.

(** The engine over older rules and a last one that the message meets. *)
Lemma engine_last inp old info vals o fl evs old' fl' :
  ru_forword_type info = RULE_FORWORD_SQLITE -> ru_enabled info = true -> ru_repub_clientid info = None ->
  run o inp old fl = Ret (evs, old', fl', Some 0) -> fl_sdb fl' = SqliteOpen ->
  wanted inp info -> plain_insert o inp info plain vals -> sqlite_ok (insert_command info plain vals) = true ->
  exists fl2, run o inp (old ++ [info]) fl =
    Ret (evs ++ [RSqlite (insert_command info plain vals)], old' ++ [info], fl2, Some 0).
Proof.
  intros Hty Hen Hcid Hrun Hfl [(t & cid & user & pass & Hin & Htf & Hff) Htx [Hp Hpf]] Hpi Hsq.
  unfold rule_engine_insert_sql in *. eapply (rules_loop_app _ _ _ _ _ _ _ _ _ _ [info]) in Hrun as (n & nm & ->).
  cbn [rules_loop]. rewrite Hen.
  rewrite (rule_engine_filter_value _ _ _ inp info t cid user pass Hin Hp Htx) by (by rewrite Hcid).
  rewrite Hty, bool_decide_eq_false_2 by done. cbn [andb negb]. rewrite Htf. cbn [andb].
  assert (Hm : match ru_filter info with
    | Some filter => forallb (fun f => field_holds inp t cid user pass f (ru_cmp_type info f) (filter f)) fields
    | None => true end = true) by (destruct (ru_filter info); [by apply fields_hold_means, Hff|done]).
  rewrite Hm. cbn [ebind]. rewrite (apply_rule_sqlite _ _ _ _ _ _ _ _ vals) by done. rewrite Hsq. cbn [ebind].
  by eexists.
Qed.

(** What the engine keeps is not seen by the API. *)
Lemma view_with_sql (l : list (rest_rule J)) k : length k = length l -> row <$> zip_with with_sql l k = row <$> l.
Proof.
  revert k. induction l as [|r l IH]; intros [|i k]; [done..|]. intros [= Hl]. cbn. f_equal. by apply IH.
Qed.

(** What the engine does before the last rule: it runs over the older rules and
    leaves the connection open. *)
Definition runs_before (st : rules_state J) (o : rule_opts) (fl : engine_flags) (inp : rule_input) (evs : list rule_ev)
    : Prop :=
  exists old old' fl1, mapM (engine_rule st) (rl_rules st) = Some old /\
    run o inp old fl = Ret (evs, old', fl1, Some 0) /\ fl_sdb fl1 = SqliteOpen.

Lemma shared_engine_last st r0 sql table o ids calls fl inp vals evs :
  let r := made_rule rule_generate_rule_id st r0 sql table in
  let st' := RulesState o (rl_rules st ++ [r]) (rl_repubs st) (rl_mysqls st) ids calls in
  runs_before st o fl inp evs -> wanted inp (posted r0 table) ->
  plain_insert o inp (posted r0 table) plain vals -> sqlite_ok (insert_command (posted r0 table) plain vals) = true ->
  exists st2 fl2, engine (Some inp) (st', fl) =
      Ret (evs ++ [RSqlite (insert_command (posted r0 table) plain vals)], (st2, fl2), Some 0) /\
    view st2 = view st'.
Proof.
  intros r st' (old & old' & fl1 & Hold & Hrun & Hfl1) Hw Hpi Hsq. unfold shared_engine. cbn [fst snd].
  assert (Hm : mapM (engine_rule st') (rl_rules st ++ [r]) = Some (old ++ [posted r0 table])).
  { by apply mapM_snoc. }
  cbn [rl_rules rl_option st']. rewrite Hm.
  destruct (engine_last inp old (posted r0 table) vals o fl evs old' fl1) as (fl2 & Hrun2); [done..|].
  rewrite Hrun2. cbn [ebind]. eexists _, fl2. split; [done|]. unfold view. cbn [rl_rules with_rules].
  apply view_with_sql. unfold rule_engine_insert_sql in Hrun2. apply rules_loop_length in Hrun2.
  apply mapM_Some, Forall2_length in Hold. rewrite Hrun2. cbn [st' rl_rules]. rewrite !length_app. cbn. lia.
Qed.

(** The last of three calls: the rules run, then the packet is released. *)
Lemma on_send_rules env s w pkt cp inp evs rules :
  wh_enable (cf_web_hook config) = false -> e_aio_result env = 0 ->
  w_state w = SEND -> w_flag w = CMD_PUBLISH -> w_pub_packet w = Some pkt -> w_cparam w = Some cp ->
  rule_input_of env w = Some inp -> rules_on (wd_rules s) = true ->
  engine (Some inp) (wd_rules s) = Ret (evs, rules, Some 0) ->
  exists w' ev, cb env s w = Ret (World (wd_db s) (wd_hash s) (wd_ret s) (wd_stats s) rules, w', ERules evs :: ev) /\
    w_state w' = RECV.
Proof.
  intros Hwh Hr Hst Hfl Hpk Hcp Hin Hon He. unfold server_cb. rewrite Hst. unfold on_send, run_rules.
  rewrite Hfl, Hon, Hin, He. cbn [ebind bool_decide andb decide]. rewrite bool_decide_eq_true_2 by done.
  cbn [andb ebind existsb is_fatal orb]. unfold run_hook. rewrite Hpk. unfold webhook_entry. rewrite Hwh.
  cbn [negb ebind]. rewrite Hr. cbn [Z.eqb negb app]. by eexists _, _.
Qed.

Lemma rule_input_packet env (w : work msg property cparam) fh t id props plen data cp :
  w_pub_packet w = Some (publish_packet fh t id props plen data) -> w_cparam w = Some cp ->
  rule_input_of env w = Some (RuleInput (fh_qos fh) id (Some t) (payload_of data) (conn_param_get_clientid cp)
    (conn_param_get_username cp) (conn_param_get_password cp) (e_time env)).
Proof. unfold rule_input_of. by intros -> ->. Qed.

(** C18: a rule posted over HTTP with one SQLite action works for the messages
    that follow, in a broker without hooks: for a PUBLISH that meets its
    conditions, from a client with an id, a user name and a password, when the
    rule selects plain columns (no fields of a JSON payload) whose texts fit the
    buffers, the broker sends the message that was published to the subscribers,
    and behind what the older rules do one row with the columns the rule selects
    goes into its table (if SQLite can be opened and takes the command); the rules
    listed stay the same. *)
Theorem posted_rule_inserts_row q r0 sql table st fl :
  wh_enable (cf_web_hook config) = false ->
  rule_sql_parse (Some sql) = Some r0 -> posts_table strcaseeq q sql table -> sqlite_open (fl_sdb fl) = SqliteOpen ->
  exists res st' fl', api_post_rules api q (st, fl) = Ret (res, (st', fl')) /\
    hm_status res = NNG_HTTP_STATUS_OK /\ fl_sdb fl' = SqliteOpen /\
    view st' = view st ++ [(rule_generate_rule_id (rl_ids st), sql, true)] /\
    forall env1 env2 env3 s w m fh t id props plen enc data vals evs,
      wd_rules s = (st', fl') -> arriving (utf8_ok := utf8_ok) (prop_ok := prop_ok) env1 s w m fh t id props plen enc data ->
      e_aio_result env2 = 0 -> e_aio_result env3 = 0 ->
      Forall (fun n => e_bridge_sock env2 n = true) (takers config topic_filter t) ->
      let cp := nng_msg_get_conn_param m in
      let inp := RuleInput (fh_qos fh) (fixed_id fh id) (Some t) (payload_of data) (conn_param_get_clientid cp)
                   (conn_param_get_username cp) (conn_param_get_password cp) (e_time env3) in
      let command := insert_command (posted r0 table) plain vals in
      runs_before st (rl_option st') fl' inp evs -> wanted inp (posted r0 table) ->
      plain_insert (rl_option st') inp (posted r0 table) plain vals -> sqlite_ok command = true ->
      exists s1 w1 ev1 w2 ev2 m2 s3 w3 ev3,
        cb env1 s w = Ret (s1, w1, ev1) /\ cb env2 s1 w1 = Ret (s1, w2, ev2) /\
        cb env3 s1 w2 = Ret (s3, w3, ERules (evs ++ [RSqlite command]) :: ev3) /\
        sends ev2 = (fun p => (m2, p)) <$> live (receivers (wd_db s) t) /\
        carries m2 (conn_param_get_protover cp) fh t (fixed_id fh id) props data /\
        w_state w3 = RECV /\ view (wd_rules s3).1 = view st'.
Proof using Hlaws Hpl Hml Hnf Hcl.
  intros Hwh Hr0 Hps Hop. unfold shared_api, on_shared. cbn [api_post_rules fst snd].
  rewrite (post_correct _ _ _ _ _ _ _ _ _ _ _ _ r0 sql table) by done. cbn [ebind fst snd].
  do 3 eexists. split; [reflexivity|]. split; [done|].
  split; [unfold connect_sqlite; cbn [fl_sdb rl_calls]; by rewrite drop_app_length|]. split; [unfold view; cbn [rl_rules]; by rewrite fmap_app|].
  intros env1 env2 env3 s w m fh t id props plen enc data vals evs Hs Ha Hr2 Hr3 Hsock Hb Hw Hpi Hsq.
  destruct (publish_received config topic_filter base64_encode NNG_ECONNSHUT clears rules_on engine
              _ _ _ _ _ _ _ _ _ _ _ Ha) as (s1 & w1 & refs & H1 & Hf & Hcp1 & Hs1 & Hv & _).
  destruct (publish_forwarded config topic_filter base64_encode NNG_ECONNSHUT clears rules_on engine
              env2 s1 w1 _ _ _ _ _ _ _ Hr2 Hf Hsock) as (m2 & w2 & ev2 & H2 & _ & Hsend & Hcar & Hst2 & Hrest & _).
  rewrite Hv in Hcar.
  rewrite Hs in Hs1. assert (Hon : rules_on (wd_rules s1) = true).
  { rewrite Hs1. unfold rules_on. cbn. by rewrite !orb_true_r. }
  rewrite Hon, orb_true_r in Hst2, Hrest. destruct (Hrest eq_refl) as (Hfl2 & Hcp2 & fh' & Hpk2 & Hq).
  injection Hst2 as Hst2 _. rewrite Hcp1 in Hcp2.
  assert (Hin := rule_input_packet env3 w2 _ _ _ _ _ _ _ Hpk2 Hcp2). rewrite Hq in Hin.
  edestruct (shared_engine_last st r0 sql table (set_sdb (rl_option st)) (S (rl_ids st)) (rl_calls st ++ [CSqlite])) as (st2 & fl2 & He & Hview); [exact Hb|exact Hw|exact Hpi|exact Hsq|].
  rewrite <- Hs1 in He.
  destruct (on_send_rules env3 s1 w2 _ _ _ _ _ Hwh Hr3 Hst2 Hfl2 Hpk2 Hcp2 Hin Hon He) as (w3 & ev3 & H3 & Hst3).
  exists s1, w1, [EMsgRecv m; ERetain refs; EAioFinish], w2, ev2, m2. eexists _, w3, ev3. by split_and!.
Qed.
End PostedRule.

(** ** Witness *)

Definition plain_fields : list rule_field :=
  [RULE_QOS; RULE_ID; RULE_TOPIC; RULE_CLIENTID; RULE_USERNAME; RULE_PASSWORD; RULE_TIMESTAMP; RULE_PAYLOAD_ALL].

Abbreviation demo_engine := (shared_engine (fun _ _ => true) same_topic (plain_fields ++ [RULE_PAYLOAD_FIELD])
  (fun _ => []) (fun _ => []) (fun _ => true) (fun _ => true)).
Abbreviation rules_cb := (server_cb demo_conf same_topic id 31 false rules_on demo_engine).
Abbreviation rules_demo_api := (shared_api (fun _ => SqliteOpen) rules_eq (fun _ => []) (fun _ => 0) rules_parse rules_id
  rules_repub rules_mysql (fun _ => true) rules_client (fun _ => 0) (fun r => r)).

(** The rules "tbl" and "last" are there, and "tbl" is posted again. *)
Lemma posted_rule_inserts_row_witness :
  exists res s, api_post_rules rules_demo_api (rules_body "post") (rules_demo, EngineFlags true true SqliteNone) = Ret (res, s) /\
    let wd := World demo_db demo_hash (∅ : gmap bytes (dbtree_retain_msg rmsg)) g_msg s in
    exists s1 w1 ev1 w2 ev2 s3 w3 ev3 e1 e2,
      rules_cb (demo_env (Some demo_pub)) wd recv_work = Ret (s1, w1, ev1) /\
      rules_cb (demo_env None) s1 w1 = Ret (s1, w2, ev2) /\
      rules_cb (demo_env None) s1 w2 =
        Ret (s3, w3, ERules [e1; e2; RSqlite (str "INSERT INTO tbl (Qos, Topic) VALUES (1, 'a') ;")] :: ev3).
Proof.
  destruct (posted_rule_inserts_row (utf8_ok := ascii_ok) (prop_ok := alias_only) demo_conf same_topic id 31 false
    (fun _ _ => true) plain_fields (fun _ => []) (fun _ => []) (fun _ => true) (fun _ => true) (fun _ => SqliteOpen) rules_eq
    (fun _ => []) (fun _ => 0) rules_parse rules_id rules_repub rules_mysql (fun _ => true) rules_client (fun _ => 0)
    (fun r => r) (rules_body "post") rules_parsed (str "sql1") (str "tbl") rules_demo (EngineFlags true true SqliteNone))
    as (res & st' & fl' & Hp & _ & Hfl & _ & Hall); [reflexivity..|econstructor; reflexivity|reflexivity|].
  exists res, (st', fl'). split; [exact Hp|]. intros wd.
  assert (Hc : exists r, api_post_rules rules_demo_api (rules_body "post") (rules_demo, EngineFlags true true SqliteNone) =
    Ret (r, (RulesState (RuleOpts false true false) (rl_rules rules_demo ++ [rules_made 3 (str "sql1") (str "tbl")])
               [] [] 3 [CSqlite], EngineFlags true true SqliteOpen))) by (eexists; vm_compute; reflexivity).
  destruct Hc as [r Hc]. rewrite Hp in Hc. injection Hc as _ -> ->.
  edestruct (Hall (demo_env (Some demo_pub)) (demo_env None) (demo_env None) wd recv_work demo_pub demo_fh [97] 10 None 0
    [] [104; 105] [str "1"; str "'a'"]) as (s1 & w1 & ev1 & w2 & ev2 & m2 & s3 & w3 & ev3 & H1 & H2 & H3 & _).
  - reflexivity.
  - constructor; try (split; reflexivity); try reflexivity.
    + apply demo_pub_wf; left; split; reflexivity.
    + left; reflexivity.
  - reflexivity.
  - reflexivity.
  - constructor.
  - eexists _, _, _. split; [vm_compute; reflexivity|]. split; [vm_compute; reflexivity|reflexivity].
  - constructor; [|done|done]. exists [97], (str "c1"), (str "u"), (str "p"). split; [|split; [reflexivity|done]].
    constructor; (split; [reflexivity|]) || cbn; by apply no_nul || (split; [by apply no_nul|reflexivity]).
  - constructor; try reflexivity; [|discriminate|repeat constructor].
    apply (bool_decide_eq_true_1 _). vm_compute. reflexivity.
  - reflexivity.
  - do 10 eexists. split; [exact H1|]. split; [exact H2|]. exact H3.
Defined.
